(* ===== verification/_CoqProject ===== *)
-Q . S2P
Prelude.v
CString.v
Calendar.v
UartQueue.v
UartSteps.v
DevControl.v
Sql.v
DevState.v
DbTriple.v
DbStore.v
DevDb.v
DevReg.v
DevRegProps.v
Alarm.v
Timer.v
CJson.v
HeapLogic.v
CJsonEdit.v
CJsonEditProps.v
CJsonMinify.v
Sms.v
CityId.v
Notify.v
UartCommon.v
UartLines.v
SmsControl.v
SmsThread.v
Frame.v
Socketd.v
SocketdProps.v
Partial.v
Home.v
HomeOps.v
HomeQueries.v
Daemon.v
TimerLoop.v
Server.v
Mail.v
Lunar.v
Md5.v
Gpio.v
Nrf24.v
Ds18b20.v
Dht11.v
Ntp.v
Music.v
Led.v
Upload.v
Login.v
Shortcut.v
Services.v
