(* ===== verification/Prelude.v ===== *)
(** * SmartSDK verification library

    SmartSDK is the software of a home-automation gateway, an ARM11 board with
    a Zigbee coordinator, a GSM modem, a radio and sensors.  Its centre is the
    daemon src/src/dev_manage: clients on the local network send it JSON
    requests, it keeps a registry of devices, alarm receivers and timer tasks
    in SQLite files, sends commands to the devices through the coordinator's
    serial line, and tells the world about alarms by broadcast, siren, mail,
    messenger and text message.  Beside it stand kernel drivers (src/driver)
    and small programs.  This library models the C code of these parts
    function by function and proves what makes them correct, or what they do
    when they are not.

    ** How the code is modelled

    - A function that changes state is a function in the monad [M] of this
      file: it takes a world and gives a result and a new world.  [None] is
      undefined behaviour of C: a write or read outside of an array, a null
      pointer.  So a theorem [f w = Some ...] also says that [f] stays within
      its arrays.  In the polling loop of UartQueue.v [None] also stands for a
      wait that is not over within the fuel.
    - Integers are [Z], cut to their width where the code stores them ([u8],
      [u16], [u32], [s32]).  [char] is unsigned, as on the board.
    - Character arrays are strings with the size of the array at each write
      ([fits]); memory that keeps its old contents is an argument.  Two
      functions write one byte beyond an array for every valid input (t and
      len of sms.c, dest of nRF24L01.c).  They have an argument [slack], the
      bytes behind the array that nothing uses: with 0, which is all C
      promises, the theorems say that the behaviour is undefined; with 1 or
      more, which is what the code relies on, they say what it does.
    - Calls that leave the program (serial port, sockets, shell, files, pins)
      are events in the world's log.  What the shell makes of a command is
      modelled for lines of plain words ([sh_background] of Upload.v).
    - Third-party code is an interface with laws: SQLite is the class [Sqlite]
      of Sql.v with [SqliteLaws], and [RefSqlite] shows that the laws can be
      met; the devices behind the drivers' pins are functions of the history
      of the pins.
    - Loops that are not structural take fuel, and each theorem about them
      says that the fuel given in the definition is enough: 32 for the digits of
      a number and the polls of Dht11.v, 20 for the months of a year, the
      length of the text for the JSON parser and the tokenizer, the length of
      the buffer for [cJSON_Minify], the number of cells of the heap for the
      loops over linked items, seven for the connections that the uploader
      tries, the length of the input for the blocks of MD5.  The loop of
      [SendMail] may never end: its fuel is arbitrary, [Reconnecting] says that
      it is still in it, and the theorem says when that is so for every fuel.
    - Threads are interleaved step by step where they share state.  UartSteps.v
      takes the operations on the table of answers apart into accesses to one
      member of one slot and lets any number of them run in any order; for a
      thread that waits, the others are a function [sched] of each poll.
      TimerLoop.v interleaves the timer's thread and its workers (clock, look,
      command, echo), Server.v the threads that share the server's descriptor,
      Login.v those that share the record of the user service, SmsThread.v the
      modem's reader and the threads that share [g_rcv_info].  Daemon.v is a
      step relation for the whole: a step is the work from one [read] or
      wake-up to the next, or a command up to the wait for its echo; these
      steps do not overlap, and [adds_overlap] shows two requests for which
      that matters.
    - Waits are not assumed to end: theorems about commands say what was sent
      before the wait, and that the wait ends when the echo is there.

    ** Files

    - Prelude.v: widths, the monad, characters, loops.  CString.v: the C
      library's string functions.  Calendar.v: [mktime], [localtime].
    - UartQueue.v, UartSteps.v (uart_quene.c): the table of answers as a bag of
      frames, and its operations step by step, without a lock.
      DevControl.v (dev_control.c, dev.h): the frames sent to devices.
    - Sql.v, DevState.v, DbTriple.v, DbStore.v: the SQLite interface, the
      daemon's state, a triple for code that uses one file, and the interface
      [Store] between a module and the file that keeps its abstract state.
    - DevDb.v, DevReg.v, DevRegProps.v (dev_db.c, dev_add.c, dev_del.c,
      dev_edit.c): the registry, its specification as pure functions on lists
      of records, refinement and invariant.
    - Alarm.v (alarm_db.c, alarm_common.c), Timer.v (timertask_db.c,
      timertask.c), CityId.v (cityid.c, src/src/update_cityid): three more
      clients of [Store].
    - CJson.v (cJSON): parser and printer.  HeapLogic.v: memory, an allocator
      that may refuse, and a linear separation logic for programs on it.
      CJsonEdit.v, CJsonEditProps.v: the functions of cJSON that build, edit
      and copy trees of cells.  CJsonMinify.v: [cJSON_Minify].
    - Frame.v, Socketd.v, SocketdProps.v (socketd.c): the client's thread and
      what it answers.  Server.v: [server_thread] and its threads.
    - Sms.v (sms.c), SmsControl.v (sms_control.c), SmsThread.v (sms_common.c):
      text messages out and in, from the modem's line to the devices.
      Notify.v (net_broadcast.c, sms_common.c, mail_common.c, familygroup.c,
      wechat.c, ring.c, led.c), Mail.v (mail.c): telling the world.
    - UartCommon.v (uart_common.c, uart.c): commands to registered devices and
      the handlers of the coordinator's lines.  UartLines.v: how lines are put
      together from what [read] gives, and the rounds of [uart_thread].
    - Partial.v, Home.v, HomeOps.v, HomeQueries.v: partial triples, the
      invariant [home] of the whole daemon, and that every function keeps it.
      Daemon.v (main.c): start-up and the steps of the running daemon.
      TimerLoop.v (timertask.c): the timer's thread and its workers.
    - Lunar.v (src/src/Yang2Yin), Md5.v (src/src/user_manage/md5.c), Ntp.v
      (src/src/ntp), Music.v (src/src/music_control), Login.v
      (src/src/user_manage), Upload.v (src/src/upload), Shortcut.v
      (src/src/internet_shortcut), Services.v (src/src/net_manage,
      timer_manage, data_transport): the programs beside the daemon.
    - Gpio.v: pins, delays and histories.  Nrf24.v, Ds18b20.v, Dht11.v: the
      drivers under src/driver of those names.  Led.v: the driver of the
      lights and the tool that blinks them.

    Definitions have the names of the functions they model; a loop of a
    function, or a branch of a long one, is a definition of its own next to
    it.  [client_thread] calls [handle_action], whose branches [action_*] are
    the cases of the switch; [uart_thread] is [uart_thread_start] and then
    [uart_round]s, whose line handler is [handle_line].

    ** What the theorems show

    - The daemon: started on a consistent state it stays consistent (unique
      identifiers, names and addresses; every device in a room that exists;
      ordered timer tasks; no receiver twice; only well-formed frames sent)
      through any steps of clients, coordinator, modem, clock and alarms in any
      order, as long as steps do not overlap, requests keep to the clients'
      codes and to texts that fit, and no text has a quote.  The hypotheses are
      needed: theorems show what a quote in an argument, an unknown code and
      overlapping steps do.
    - Requests, end to end: the bytes of a registry request that a client
      prints lead to the specified change of the registry and the specified
      answer; every JSON text gets at most one answer and one close; timer
      requests store their two tasks; deleting a timer does nothing; threads
      that share the server's descriptor answer the wrong client.
    - The registry refines its specification on any SQLite.
    - The serial line: frames are the protocol's bytes; a command returns
      success once the answer is delivered, whatever else happens (liveness),
      and never otherwise (safety); the time-out never comes; a line has its
      effects however [read] cuts it.  The table of answers is a bag as long as
      its operations do not overlap; when they do, a stale frame can be taken.
    - Alarms, from the sensor's line to mail, messenger request and text
      messages (whose text is not the alarm's); text messages, from the modem
      to the device, where the compiler left room.
    - Timers: in every interleaving each worker carries out the tasks of the
      text it looked with, once; a single task is carried out at most once if
      workers look in the minute they were started in, possibly twice if not
      ([minute_twice]), and not at all when the loop has drifted over its
      minute ([minute_missed]).
    - Codes: JSON printing and parsing are inverse and the parser ends;
      editing changes the tree as specified, leaks nothing and frees nothing
      twice; [cJSON_Minify] gives the unformatted text; Base64 is RFC 4648;
      MD5 is RFC 1321, defined without any function of the code, however the
      input is cut; PDU fields, packed 7-bit text
      and telephone numbers; the lunar calendar counts the same days as the
      Gregorian one (and answers a wrong year for five weeks of 2000); the fractions of a time server's answer.
    - The other programs: which song of the player follows which, and what a
      stop ends; logins are answered when they come one at a time, and
      forgotten otherwise; the shortcut that is restored; the answers of the small services.
    - Drivers: which bits reach the device, in which order and for how long,
      and what the reader of the device file gets; the pulse timing that is
      decoded correctly; the pins that a command line of the daemon drives.
    - Errors: array overruns, crashes and wrong answers that the code reaches
      are theorems too, and are listed as findings with them.

    ** Not modelled

    - The system calls that open sockets, serial ports and files, and name
      look-up ([server_thread] up to [listen], [open_socket] and
      [GetIPByDomainName] of mail.c): whether they succeed is an argument.
      [signal(SIGPIPE)] and the races of [strtok] and of the static buffers
      within one step of a thread.
    - Summer time: the zone of Calendar.v is a fixed offset from UTC, in which
      [mktime] has no use for the [tm_isdst] that [TimeAdd] leaves unset.
    - What the shell does with a line that has characters special to it.
    - cJSON's output of numbers beyond 32-bit integers, which is the C
      library's formatting of doubles.
    - In Music.v the processes of the player run one after the other: a song
      that ends while a request is served is not modelled.
    - The tools random and chat_server, a dozen lines around one library call
      each, and the second copies of cJSON and MD5 under src/src/json and
      src/src/md5.
    - Third-party code: src/src/goahead, src/src/voice_comm,
      src/src/video-server, src/src/openssl, and the Ralink driver
      src/driver/wireless. *)

From stdpp Require Import base list strings gmap.
From Stdlib Require Import ZArith Lia Ascii.

(** ** Notation and automation *)

Declare Scope sdk_scope.
Delimit Scope sdk_scope with sdk.

Create HintDb sdk discriminated.
Create Rewrite HintDb sdk.

(** ** Machine integers

    An [unsigned char], [unsigned short] or [unsigned int] is a [Z] kept in
    range by the wrap-around of the C conversions. *)

Definition u8 (z : Z) : Z := (z mod 256)%Z.
Definition u16 (z : Z) : Z := (z mod 65536)%Z.
Definition u32 (z : Z) : Z := (z mod 4294967296)%Z.

(** The value of an [int] after an implementation-defined (wrapping)
    conversion. *)
Definition s32 (z : Z) : Z :=
  ((z + 2147483648) mod 4294967296 - 2147483648)%Z.
Definition s16 (z : Z) : Z := ((z + 32768) mod 65536 - 32768)%Z.
Definition s8 (z : Z) : Z := ((z + 128) mod 256 - 128)%Z.

Definition INT_MAX : Z := 2147483647.
Definition INT_MIN : Z := -2147483648.

Definition byte_range (z : Z) : Prop := (0 <= z < 256)%Z.
Abbreviation bytes_ok l := (Forall byte_range l).

Lemma u8_range z : byte_range (u8 z).
Proof. unfold byte_range, u8. apply Z.mod_pos_bound. lia. Qed.

Lemma u8_small z : byte_range z -> u8 z = z.
Proof. unfold byte_range, u8. intros. apply Z.mod_small. lia. Qed.

Lemma u32_range z : (0 <= u32 z < 4294967296)%Z.
Proof. unfold u32. apply Z.mod_pos_bound. lia. Qed.

Lemma u32_small z : (0 <= z < 4294967296)%Z -> u32 z = z.
Proof. unfold u32. intros. apply Z.mod_small. lia. Qed.

Lemma s32_small z : (INT_MIN <= z <= INT_MAX)%Z -> s32 z = z.
Proof. unfold s32, INT_MIN, INT_MAX. intros. rewrite Z.mod_small; lia. Qed.

#[export] Hint Resolve u8_range u8_small u32_range u32_small s32_small : sdk.

(** ** A state monad with undefined behaviour

    [None] stands for undefined behaviour of the C program (a write past the
    end of a buffer, a dereference of a null pointer).  The instances give
    the standard [x <- e; k] notation of stdpp for it. *)

Definition M (W A : Type) : Type := W -> option (A * W).

#[export] Instance M_ret W : MRet (M W) := fun A x w => Some (x, w).
#[export] Instance M_bind W : MBind (M W) := fun A B k m w =>
  match m w with
  | Some (x, w') => k x w'
  | None => None
  end.

Definition ub {W A} : M W A := fun _ => None.
Definition get {W} : M W W := fun w => Some (w, w).
Definition put {W} (w : W) : M W unit := fun _ => Some (tt, w).
Definition gets {W A} (f : W -> A) : M W A := fun w => Some (f w, w).
Definition modify {W} (f : W -> W) : M W unit := fun w => Some (tt, f w).
Definition lift {W A} (o : option A) : M W A := fun w =>
  match o with Some x => Some (x, w) | None => None end.

Lemma bind_some {W A B} (m : M W A) (k : A -> M W B) w x w' :
  m w = Some (x, w') -> (m ≫= k) w = k x w'.
Proof. unfold mbind, M_bind. by intros ->. Qed.

Lemma bind_lift {W A B} (o : option A) (k : A -> M W B) w x : o = Some x -> (lift o ≫= k) w = k x w.
Proof. by intros ->. Qed.

Lemma bind_unit {W A} (m : M W A) w r : (_ ← m; mret tt) w = Some r -> exists x, m w = Some (x, snd r).
Proof. unfold mbind, M_bind. destruct (m w) as [[x w']|]; [|done]. intros [= <-]. by exists x. Qed.

(** ** Characters and strings *)

Definition code (c : ascii) : Z := Z.of_N (N_of_ascii c).

Lemma code_range c : byte_range (code c).
Proof.
  unfold byte_range, code. pose proof (N_ascii_bounded c). lia.
Qed.

#[global] Arguments String.append !_ _ : simpl nomatch.

Lemma app_assoc_s (a b c : string) : (a +:+ b) +:+ c = a +:+ (b +:+ c).
Proof. induction a as [|x a IH]; [done|]. cbn. by rewrite IH. Qed.

Lemma app_nil_r_s (a : string) : a +:+ "" = a.
Proof. induction a as [|x a IH]; [done|]. cbn. by rewrite IH. Qed.

Lemma length_app_s (a b : string) :
  String.length (a +:+ b) = String.length a + String.length b.
Proof. induction a as [|x a IH]; [done|]. cbn. by rewrite IH. Qed.

(** [all_chars p s]: every character of [s] satisfies [p]. *)
Fixpoint all_chars (p : ascii -> bool) (s : string) : bool :=
  match s with
  | EmptyString => true
  | String c s => p c && all_chars p s
  end.

Lemma all_chars_app p a b :
  all_chars p (a +:+ b) = all_chars p a && all_chars p b.
Proof. induction a as [|x a IH]; [done|]. cbn. rewrite IH. by destruct (p x). Qed.

Lemma all_chars_impl (p q : ascii -> bool) s :
  (forall c, p c = true -> q c = true) -> all_chars p s = true -> all_chars q s = true.
Proof.
  intros Hpq. induction s as [|c s IH]; [done|]. cbn. intros [Hc Hs]%andb_prop. by rewrite Hpq, IH.
Qed.

Lemma all_chars_substring p i n s : all_chars p s = true -> all_chars p (String.substring i n s) = true.
Proof.
  revert i n. induction s as [|c s IH]; intros i n H; [by destruct i, n|]. cbn in H. apply andb_prop in H as [Hc Hs].
  destruct i as [|i]; cbn; [|by apply IH]. destruct n as [|n]; [done|]. cbn. by rewrite Hc, IH.
Qed.

Lemma length_substring i n s : String.length (String.substring i n s) <= String.length s.
Proof.
  revert i n. induction s as [|c s IH]; intros i n; [by destruct i, n|].
  destruct i as [|i]; cbn; [|specialize (IH i n); lia]. destruct n as [|n]; cbn; [lia|]. specialize (IH 0 n). lia.
Qed.

#[export] Hint Rewrite app_assoc_s app_nil_r_s length_app_s all_chars_app : sdk.

(** ** Loops of the monad *)

Fixpoint mfor {W A} (l : list A) (body : A -> M W unit) : M W unit :=
  match l with
  | [] => mret tt
  | x :: l => body x ≫= fun _ => mfor l body
  end.

(** A step that can only succeed with this result and state. *)
Lemma mfor_invariant {W A} (P : nat -> W -> Prop) (l : list A) body w :
  P 0 w ->
  (forall i x w, l !! i = Some x -> P i w -> exists w', body x w = Some (tt, w') /\ P (S i) w') ->
  exists w', mfor l body w = Some (tt, w') /\ P (length l) w'.
Proof.
  revert P w. induction l as [|x l IH]; intros P w H0 Hstep; simpl.
  { by exists w. }
  destruct (Hstep 0 x w eq_refl H0) as (w1 & Hb & H1).
  destruct (IH (fun i => P (S i)) w1 H1) as (w' & Hf & HP).
  { intros i y w2 Hi HPi. by apply (Hstep (S i)). }
  exists w'. split; [|done]. rewrite (bind_some _ _ _ _ _ Hb). exact Hf.
Qed.
