(* ===== verification/CString.v ===== *)
(** * The C library functions the programs use on strings

    A C string is a [string] without its terminating NUL.  The functions
    follow the C standard (and the POSIX rules for [strtok]) on a 32-bit
    target: [long] and [int] are 32 bits wide and [char] is unsigned, as on
    the ARM11 boards the programs run on. *)

From stdpp Require Import base list strings.
From Stdlib Require Import ZArith Lia Ascii.
From S2P Require Import Prelude.

Open Scope Z_scope.

(** ** Character classes *)

Definition isspace (c : ascii) : bool :=
  (code c =? 32) || ((9 <=? code c) && (code c <=? 13)).

Definition isdigit (c : ascii) : bool := (48 <=? code c) && (code c <=? 57).

(** The value of a digit in bases up to 36, letters in either case. *)
Definition digit_of (base : Z) (c : ascii) : option Z :=
  let v :=
    if isdigit c then code c - 48
    else if (65 <=? code c) && (code c <=? 90) then code c - 55
    else if (97 <=? code c) && (code c <=? 122) then code c - 87
    else 99 in
  if v <? base then Some v else None.

(** ** [strtol] and [atoi] *)

Fixpoint skip_spaces (s : string) : string :=
  match s with
  | String c s' => if isspace c then skip_spaces s' else s
  | EmptyString => s
  end.

(** The longest prefix of digits, most significant first. *)
Fixpoint digits_value (base acc : Z) (s : string) : Z :=
  match s with
  | String c s' =>
      match digit_of base c with
      | Some d => digits_value base (acc * base + d) s'
      | None => acc
      end
  | EmptyString => acc
  end.

(** In base 16 an optional [0x] comes before the digits. *)
Definition skip_0x (base : Z) (s : string) : string :=
  if base =? 16 then
    match s with
    | String "0" (String x s') =>
        if (code x =? 120) || (code x =? 88) then s' else s
    | _ => s
    end
  else s.

Definition clamp32 (z : Z) : Z := Z.max INT_MIN (Z.min INT_MAX z).

(** [strtol(s, NULL, base)]: the value saturates at LONG_MIN and LONG_MAX. *)
Definition strtol (s : string) (base : Z) : Z :=
  match skip_spaces s with
  | String c s' =>
      if code c =? 45 then clamp32 (- digits_value base 0 (skip_0x base s'))
      else if code c =? 43 then clamp32 (digits_value base 0 (skip_0x base s'))
      else clamp32 (digits_value base 0 (skip_0x base (String c s')))
  | EmptyString => 0
  end.

Definition atoi (s : string) : Z := strtol s 10.

(** ** Numbers in [printf] *)

(** The character of a digit, upper case as [%X] prints it. *)
Definition digit_char (d : Z) : ascii :=
  ascii_of_N (Z.to_N (if d <? 10 then 48 + d else 55 + d)).

(** The digits of [n >= 0] in the given base, with [fuel] digits at most. *)
Fixpoint digits_of (fuel : nat) (base n : Z) (acc : string) : string :=
  match fuel with
  | O => acc
  | S fuel =>
      let acc := String (digit_char (n mod base)) acc in
      if n / base =? 0 then acc else digits_of fuel base (n / base) acc
  end.

(** 32 digits are enough for any 32-bit value in base 2 or more. *)
Definition unsigned_digits (base n : Z) : string := digits_of 32 base n "".

Fixpoint zeros (n : nat) : string :=
  match n with O => "" | S n => String "0" (zeros n) end.

(** [%.<p>]: at least [p] digits. *)
Definition pad_left (p : nat) (s : string) : string :=
  zeros (p - String.length s) +:+ s.

(** [%d] of an [int], [%.<p>d], and [%.<p>X] of an [unsigned int]. *)
Definition fmt_d_prec (p : nat) (n : Z) : string :=
  if n <? 0 then String "-" (pad_left p (unsigned_digits 10 (- n)))
  else pad_left p (unsigned_digits 10 n).
Definition fmt_d (n : Z) : string := fmt_d_prec 1 n.
Definition fmt_X_prec (p : nat) (n : Z) : string := pad_left p (unsigned_digits 16 n).

(** ** Searching *)

Fixpoint is_prefix (p s : string) : bool :=
  match p, s with
  | EmptyString, _ => true
  | String a p, String b s => Ascii.eqb a b && is_prefix p s
  | String _ _, EmptyString => false
  end.

(** [strstr(haystack, needle)]: the suffix that starts at the first match. *)
Fixpoint strstr (s needle : string) : option string :=
  if is_prefix needle s then Some s
  else match s with
       | EmptyString => None
       | String _ s' => strstr s' needle
       end.

(** [strchr] for a character other than NUL. *)
Fixpoint strchr (s : string) (c : ascii) : option string :=
  match s with
  | EmptyString => None
  | String a s' => if Ascii.eqb a c then Some s else strchr s' c
  end.

Fixpoint mem_char (c : ascii) (set : string) : bool :=
  match set with
  | EmptyString => false
  | String a set => Ascii.eqb a c || mem_char c set
  end.

(** [strspn(s, accept)]: the length of the prefix made of [accept]. *)
Fixpoint strspn (s accept : string) : nat :=
  match s with
  | String c s' => if mem_char c accept then S (strspn s' accept) else O
  | EmptyString => O
  end.

(** ** [strtok]

    The hidden pointer of [strtok] is the string that is still to be
    scanned; a call returns the token and the new hidden string. *)

Fixpoint skip_delims (delims s : string) : string :=
  match s with
  | String c s' => if mem_char c delims then skip_delims delims s' else s
  | EmptyString => s
  end.

(** The token up to the next delimiter, and what follows that delimiter. *)
Fixpoint take_token (delims s : string) : string * string :=
  match s with
  | EmptyString => ("", "")
  | String c s' =>
      if mem_char c delims then ("", s')
      else let '(t, r) := take_token delims s' in (String c t, r)
  end.

Definition strtok (delims s : string) : option string * string :=
  match skip_delims delims s with
  | EmptyString => (None, "")
  | s' => let '(t, r) := take_token delims s' in (Some t, r)
  end.

(** All the tokens, as a [while ((t = strtok(...)) != NULL)] loop sees them.
    Each token consumes a character, so the length of the string is enough
    fuel. *)
Fixpoint tokens_fuel (fuel : nat) (delims s : string) : list string :=
  match fuel with
  | O => []
  | S fuel =>
      match strtok delims s with
      | (Some t, r) => t :: tokens_fuel fuel delims r
      | (None, _) => []
      end
  end.
Definition tokens (delims s : string) : list string := tokens_fuel (String.length s) delims s.

(** ** Bounded buffers

    [sprintf], [strcpy] and [strcat] into an array of [cap] bytes: the string
    and its NUL must fit. *)

Definition fits (cap : nat) (s : string) : option string :=
  if (String.length s <? cap)%nat then Some s else None.

Definition strcat_into (cap : nat) (dst src : string) : option string := fits cap (dst +:+ src).

Definition cat_all (l : list string) : string := foldr String.append "" l.

Lemma cat_all_cons p l : cat_all (p :: l) = p +:+ cat_all l.
Proof. done. Qed.

Lemma cat_all_app l k : cat_all (l ++ k) = cat_all l +:+ cat_all k.
Proof. induction l as [|p l IH]; [done|]. cbn [app]. by rewrite !cat_all_cons, IH, app_assoc_s. Qed.

(** ** Facts about numbers *)

Lemma digit_of_char base d : 0 <= d < base -> base <= 36 -> digit_of base (digit_char d) = Some d.
Proof.
  intros Hd Hb. unfold digit_of.
  assert ((d <? base) = true) as Hlt by lia.
  assert (Forall (fun d => (if isdigit (digit_char d) then code (digit_char d) - 48
    else if (65 <=? code (digit_char d)) && (code (digit_char d) <=? 90) then code (digit_char d) - 55
    else if (97 <=? code (digit_char d)) && (code (digit_char d) <=? 122) then code (digit_char d) - 87
    else 99) = d) (Z.of_nat <$> seq 0 36)) as HF by (repeat constructor).
  rewrite Forall_forall in HF. rewrite HF; [by rewrite Hlt|].
  apply list_elem_of_fmap. exists (Z.to_nat d). split; [lia|]. apply elem_of_seq. lia.
Qed.

Lemma digits_value_digits_of base fuel n acc :
  2 <= base <= 36 -> 0 <= n < base ^ Z.of_nat fuel ->
  digits_value base 0 (digits_of fuel base n acc) = digits_value base n acc.
Proof.
  intros Hb. revert n acc. induction fuel as [|fuel IH]; intros n acc Hn.
  { simpl. f_equal. simpl in Hn. lia. }
  cbn [digits_of].
  pose proof (Z.mod_pos_bound n base ltac:(lia)) as Hm.
  pose proof (Z.div_mod n base ltac:(lia)) as Hdm.
  destruct (Z.eqb_spec (n / base) 0) as [H0|H0].
  - cbn [digits_value]. rewrite digit_of_char by lia. f_equal. nia.
  - rewrite IH.
    + cbn [digits_value]. rewrite digit_of_char by lia. f_equal. nia.
    + split; [apply Z.div_pos; lia|]. apply Z.div_lt_upper_bound; [lia|].
      rewrite Nat2Z.inj_succ, Z.pow_succ_r in Hn by lia. lia.
Qed.

Lemma digits_value_unsigned base n :
  2 <= base <= 36 -> 0 <= n < 2 ^ 32 -> digits_value base 0 (unsigned_digits base n) = n.
Proof.
  intros Hb Hn. unfold unsigned_digits. rewrite digits_value_digits_of; [done|done|].
  split; [lia|]. apply Z.lt_le_trans with (2 ^ 32); [lia|].
  change (Z.of_nat 32) with 32. apply Z.pow_le_mono_l. lia.
Qed.

Lemma digits_value_zeros base k s :
  2 <= base <= 36 -> digits_value base 0 (zeros k +:+ s) = digits_value base 0 s.
Proof.
  intros Hb. induction k as [|k IH]; [done|]. simpl. unfold digit_of at 1.
  change (isdigit "0") with true. cbv beta iota zeta. change (code "0" - 48) with 0.
  replace (0 <? base) with true by lia. by rewrite Z.mul_0_l.
Qed.

(** The characters a number is printed with. *)
Definition is_hex_digit (c : ascii) : bool :=
  match digit_of 16 c with Some _ => true | None => false end.

Lemma digits_of_chars (p : ascii -> bool) fuel base n acc :
  0 < base -> (forall d, 0 <= d < base -> p (digit_char d) = true) ->
  all_chars p acc = true -> all_chars p (digits_of fuel base n acc) = true.
Proof.
  intros Hb Hp. revert n acc. induction fuel as [|fuel IH]; intros n acc Hacc; [done|].
  cbn [digits_of]. pose proof (Z.mod_pos_bound n base Hb).
  destruct (n / base =? 0); [|apply IH]; cbn; rewrite Hacc, Hp by lia; done.
Qed.

Lemma digit_char_digit d : 0 <= d < 10 -> isdigit (digit_char d) = true.
Proof.
  intros Hd. unfold isdigit, digit_char. replace (d <? 10) with true by lia.
  unfold code. rewrite N_ascii_embedding by lia. rewrite Z2N.id by lia. lia.
Qed.

Lemma unsigned_digits_digits n : all_chars isdigit (unsigned_digits 10 n) = true.
Proof. apply digits_of_chars; [lia|apply digit_char_digit|done]. Qed.

Lemma digits_of_nonempty fuel base n acc :
  exists c s, digits_of (S fuel) base n acc = String c s.
Proof.
  revert n acc. induction fuel as [|fuel IH]; intros n acc; cbn [digits_of].
  - destruct (n / base =? 0); eauto.
  - destruct (n / base =? 0); [eauto|]. apply IH.
Qed.

Lemma digits_of_length fuel base n acc :
  (String.length (digits_of fuel base n acc) <= fuel + String.length acc)%nat.
Proof.
  revert n acc. induction fuel as [|fuel IH]; intros n acc; cbn [digits_of]; [lia|].
  destruct (n / base =? 0); [simpl; lia|]. specialize (IH (n / base) (String (digit_char (n mod base)) acc)).
  simpl in IH. lia.
Qed.

Lemma digits_of_short fuel k n acc :
  (1 <= k)%nat -> 0 <= n < 10 ^ Z.of_nat k ->
  (String.length (digits_of fuel 10 n acc) <= k + String.length acc)%nat.
Proof.
  revert k n acc. induction fuel as [|fuel IH]; intros k n acc Hk Hn; cbn [digits_of]; [lia|].
  destruct (Z.eqb_spec (n / 10) 0) as [H0|H0]; [cbn [String.length]; lia|].
  assert (k <> 1)%nat by (intros ->; change (10 ^ Z.of_nat 1) with 10 in Hn; apply H0, Z.div_small; exact Hn).
  assert (0 < n / 10) by (pose proof (Z.div_pos n 10 ltac:(lia) ltac:(lia)); lia).
  specialize (IH (k - 1)%nat (n / 10) (String (digit_char (n mod 10)) acc) ltac:(lia)).
  cbn [String.length] in IH. enough (n / 10 < 10 ^ Z.of_nat (k - 1)) by (specialize (IH ltac:(lia)); lia).
  apply Z.div_lt_upper_bound; [lia|]. rewrite <- Z.pow_succ_r by lia.
  replace (Z.succ (Z.of_nat (k - 1))) with (Z.of_nat k) by lia. lia.
Qed.

(** [fmt_d] of a non-negative number is its decimal digits. *)
Lemma fmt_d_nonneg n : 0 <= n -> fmt_d n = unsigned_digits 10 n.
Proof.
  intros Hn. unfold fmt_d, fmt_d_prec. replace (n <? 0) with false by lia.
  unfold pad_left. destruct (digits_of_nonempty 31 10 n "") as (c & s & E).
  unfold unsigned_digits. rewrite E. done.
Qed.

Lemma fmt_d_short k n : (1 <= k)%nat -> 0 <= n < 10 ^ Z.of_nat k -> (String.length (fmt_d n) <= k)%nat.
Proof.
  intros Hk Hn. rewrite fmt_d_nonneg by lia. unfold unsigned_digits.
  pose proof (digits_of_short 32 k n "" Hk Hn) as H. cbn [String.length] in H. lia.
Qed.

Lemma code_inj a b : code a = code b -> a = b.
Proof.
  unfold code. intros H. apply N2Z.inj in H.
  rewrite <- (ascii_N_embedding a), <- (ascii_N_embedding b). by rewrite H.
Qed.

Lemma strtol_digits_first base c s :
  isdigit c = true -> base <> 16 -> strtol (String c s) base = clamp32 (digits_value base 0 (String c s)).
Proof.
  intros Hd Hb. unfold strtol. cbn [skip_spaces]. unfold isdigit in Hd. unfold isspace.
  replace ((code c =? 32) || ((9 <=? code c) && (code c <=? 13))) with false by lia.
  replace (code c =? 45) with false by lia. replace (code c =? 43) with false by lia.
  unfold skip_0x. by replace (base =? 16) with false by lia.
Qed.

(** [atoi] reads back what [%d] printed. *)
Lemma atoi_fmt_d n : 0 <= n <= INT_MAX -> atoi (fmt_d n) = n.
Proof.
  unfold INT_MAX. intros Hn. rewrite fmt_d_nonneg by lia.
  pose proof (unsigned_digits_digits n) as Hd.
  pose proof (digits_value_unsigned 10 n ltac:(lia) ltac:(lia)) as Hv.
  unfold unsigned_digits in *. destruct (digits_of_nonempty 31 10 n "") as (c & s & E).
  rewrite E in *. cbn in Hd. apply andb_prop in Hd as [Hc _].
  unfold atoi. rewrite strtol_digits_first by done. rewrite Hv.
  unfold clamp32, INT_MIN, INT_MAX. lia.
Qed.

(** ** Facts about tokens *)

(** [join sep l]: the list of strings with a separator after each one but
    the last. *)
Fixpoint join (sep : ascii) (l : list string) : string :=
  match l with
  | [] => ""
  | [s] => s
  | s :: l => s +:+ String sep (join sep l)
  end.

(** Each item followed by the separator, and the last one dropped. *)
Lemma cat_all_join sep x l : cat_all ((fun s => s +:+ String sep "") <$> x :: l) = join sep (x :: l) +:+ String sep "".
Proof.
  revert x. induction l as [|y l IH]; intros x; [apply app_nil_r_s|].
  change (cat_all ((fun s => s +:+ String sep "") <$> x :: y :: l))
    with ((x +:+ String sep "") +:+ cat_all ((fun s => s +:+ String sep "") <$> y :: l)).
  rewrite IH. change (join sep (x :: y :: l)) with (x +:+ String sep (join sep (y :: l))).
  by rewrite !app_assoc_s.
Qed.

(** Text of JSON objects whose values are strings. *)
Definition dq : string := String "034" "".
Definition json_field (key value : string) : string :=
  dq +:+ (key +:+ (dq +:+ (":" +:+ (dq +:+ (value +:+ dq))))).
Definition json_object (keys values : list string) : string :=
  "{" +:+ (join "," (zip_with json_field keys values) +:+ "}").

Definition token_ok (sep : ascii) (s : string) : bool :=
  match s with EmptyString => false | _ => all_chars (fun c => negb (Ascii.eqb sep c)) s end.

Lemma mem_single c sep : mem_char c (String sep "") = Ascii.eqb sep c.
Proof. simpl. by rewrite orb_false_r. Qed.

Lemma take_token_sep sep t r :
  all_chars (fun c => negb (Ascii.eqb sep c)) t = true ->
  take_token (String sep "") (t +:+ String sep r) = (t, r).
Proof.
  induction t as [|c t IH]; cbn [String.append take_token all_chars]; intros H.
  - rewrite mem_single. by rewrite Ascii.eqb_refl.
  - apply andb_prop in H as [Hc Ht]. rewrite mem_single.
    apply negb_true_iff in Hc. rewrite Hc, IH; done.
Qed.

Lemma take_token_end sep t :
  all_chars (fun c => negb (Ascii.eqb sep c)) t = true ->
  take_token (String sep "") t = (t, "").
Proof.
  induction t as [|c t IH]; cbn [take_token all_chars]; intros H; [done|].
  apply andb_prop in H as [Hc Ht]. rewrite mem_single.
  apply negb_true_iff in Hc. rewrite Hc, IH; done.
Qed.

Lemma skip_delims_token sep t r :
  token_ok sep t = true -> skip_delims (String sep "") (t +:+ r) = t +:+ r.
Proof.
  destruct t as [|c t]; [done|]. cbn. intros H. apply andb_prop in H as [Hc _].
  apply negb_true_iff in Hc. rewrite Hc. done.
Qed.

Lemma token_ok_all sep t : token_ok sep t = true -> all_chars (fun c => negb (Ascii.eqb sep c)) t = true.
Proof. by destruct t. Qed.

Lemma token_ok_app sep t r :
  token_ok sep t = true -> all_chars (fun c => negb (Ascii.eqb sep c)) r = true -> token_ok sep (t +:+ r) = true.
Proof.
  intros Ht Hr. destruct t as [|c t]; [done|]. cbn [token_ok String.append all_chars] in *.
  rewrite all_chars_app, Hr, andb_true_r. exact Ht.
Qed.

Lemma strtok_sep sep t r :
  token_ok sep t = true -> strtok (String sep "") (t +:+ String sep r) = (Some t, r).
Proof.
  intros Ht. unfold strtok. rewrite skip_delims_token by done.
  destruct t as [|c t]; [done|]. cbn [String.append].
  change (String c (t +:+ String sep r)) with (String c t +:+ String sep r).
  rewrite take_token_sep; [done|by apply token_ok_all].
Qed.

Lemma strtok_last sep t : token_ok sep t = true -> strtok (String sep "") t = (Some t, "").
Proof.
  intros Ht. unfold strtok. rewrite <- (app_nil_r_s t) at 1.
  rewrite skip_delims_token by done. rewrite app_nil_r_s.
  destruct t as [|c t]; [done|]. rewrite take_token_end; [done|by apply token_ok_all].
Qed.

Lemma tokens_fuel_join sep l fuel :
  Forall (fun t => token_ok sep t = true) l -> (length l <= fuel)%nat ->
  tokens_fuel fuel (String sep "") (join sep l) = l.
Proof.
  intros Hl. revert fuel. induction Hl as [|t l Ht Hl IH]; intros fuel Hf.
  { by destruct fuel. }
  destruct fuel as [|fuel]; simpl in Hf; [lia|].
  destruct l as [|u l].
  - cbn [join tokens_fuel]. rewrite strtok_last by done. by destruct fuel.
  - change (join sep (t :: u :: l)) with (t +:+ String sep (join sep (u :: l))).
    cbn [tokens_fuel]. rewrite strtok_sep by done. rewrite IH by (simpl in *; lia). done.
Qed.

Lemma join_length sep l :
  Forall (fun t => token_ok sep t = true) l -> (length l <= String.length (join sep l))%nat.
Proof.
  induction 1 as [|t l Ht Hl IH]; [done|]. destruct t as [|c t]; [done|].
  destruct l as [|u l]; [simpl; lia|].
  change (join sep (String c t :: u :: l)) with (String c t +:+ String sep (join sep (u :: l))).
  rewrite length_app_s. simpl in *. lia.
Qed.

(** Splitting a joined list gives the list back. *)
Lemma tokens_join sep l :
  Forall (fun t => token_ok sep t = true) l -> tokens (String sep "") (join sep l) = l.
Proof. intros Hl. apply tokens_fuel_join; [done|by apply join_length]. Qed.

(** ** Fixed-width numbers *)

(** The last [p] digits of [n], put before [acc]. *)
Fixpoint fixed_digits (p : nat) (base n : Z) (acc : string) : string :=
  match p with
  | O => acc
  | S p => fixed_digits p base (n / base) (String (digit_char (n mod base)) acc)
  end.

Lemma zeros_snoc k s : zeros k +:+ String "0" s = zeros (S k) +:+ s.
Proof. induction k as [|k IH]; [done|]. cbn [zeros String.append] in *. by rewrite IH. Qed.

Lemma fixed_digits_0 p base acc : 0 < base -> fixed_digits p base 0 acc = zeros p +:+ acc.
Proof.
  intros Hb. revert acc. induction p as [|p IH]; intros acc; [done|].
  cbn [fixed_digits]. rewrite Z.div_0_l, Z.mod_0_l, IH by lia. apply zeros_snoc.
Qed.

Lemma digits_of_fixed p fuel base n acc :
  2 <= base -> 0 <= n < base ^ Z.of_nat (S p) -> (p < fuel)%nat ->
  (String.length acc <= String.length (digits_of fuel base n acc))%nat /\
  zeros (S p + String.length acc - String.length (digits_of fuel base n acc)) +:+
    digits_of fuel base n acc = fixed_digits (S p) base n acc.
Proof.
  intros Hb. revert fuel n acc. induction p as [|p IH]; intros fuel n acc Hn Hf;
    (destruct fuel as [|fuel]; [lia|]); cbn [digits_of].
  - simpl in Hn. rewrite Z.div_small by lia. simpl. split; [lia|].
    by replace (String.length acc - String.length acc)%nat with 0%nat by lia.
  - destruct (Z.eqb_spec (n / base) 0) as [H0|H0].
    + split; [simpl; lia|]. cbn [String.length].
      replace (S (S p) + String.length acc - S (String.length acc))%nat with (S p) by lia.
      change (fixed_digits (S (S p)) base n acc)
        with (fixed_digits (S p) base (n / base) (String (digit_char (n mod base)) acc)).
      rewrite H0. by rewrite fixed_digits_0 by lia.
    + assert (0 <= n / base < base ^ Z.of_nat (S p)) as Hdiv.
      { split; [apply Z.div_pos; lia|]. apply Z.div_lt_upper_bound; [lia|].
        rewrite Nat2Z.inj_succ, Z.pow_succ_r in Hn by lia. lia. }
      destruct (IH fuel (n / base) (String (digit_char (n mod base)) acc) Hdiv ltac:(lia)) as [Hl He].
      cbn [String.length] in Hl, He. split; [lia|].
      replace (S (S p) + String.length acc)%nat with (S p + S (String.length acc))%nat by lia.
      exact He.
Qed.

(** [%.<p>d] and [%.<p>X] of a number with at most [p] digits print exactly
    [p] digits. *)
Lemma pad_left_fixed p base n :
  2 <= base -> 0 <= n < base ^ Z.of_nat (S p) -> (p < 32)%nat ->
  pad_left (S p) (unsigned_digits base n) = fixed_digits (S p) base n "".
Proof.
  intros Hb Hn Hp. destruct (digits_of_fixed p 32 base n "" Hb Hn Hp) as [_ He].
  cbn [String.length] in He. rewrite Nat.add_0_r in He. exact He.
Qed.

Lemma fixed_digits_length p base n acc :
  String.length (fixed_digits p base n acc) = (p + String.length acc)%nat.
Proof. revert n acc. induction p as [|p IH]; intros; [done|]. cbn [fixed_digits]. rewrite IH. simpl. lia. Qed.

Lemma fixed_digits_app p base n acc : fixed_digits p base n acc = fixed_digits p base n "" +:+ acc.
Proof.
  revert n acc. induction p as [|p IH]; intros n acc; [done|]. cbn [fixed_digits].
  rewrite IH, (IH _ (String _ "")), app_assoc_s. done.
Qed.

Lemma fmt_X_fixed p n :
  0 <= n < 16 ^ Z.of_nat (S p) -> (p < 32)%nat -> fmt_X_prec (S p) n = fixed_digits (S p) 16 n "".
Proof. intros. unfold fmt_X_prec. apply pad_left_fixed; lia. Qed.

Lemma fmt_d_fixed p n :
  0 <= n < 10 ^ Z.of_nat (S p) -> (p < 32)%nat -> fmt_d_prec (S p) n = fixed_digits (S p) 10 n "".
Proof.
  intros. unfold fmt_d_prec. replace (n <? 0) with false by lia. apply pad_left_fixed; lia.
Qed.

(** Hexadecimal digits are read without the sign, space and [0x] rules. *)
Lemma strtol_hex_digits c d s :
  is_hex_digit c = true -> is_hex_digit d = true ->
  strtol (String c (String d s)) 16 = clamp32 (digits_value 16 0 (String c (String d s))).
Proof.
  unfold is_hex_digit. intros Hc Hd. unfold strtol. cbn [skip_spaces].
  assert (Hr : forall c, match digit_of 16 c with Some _ => true | None => false end = true ->
    48 <= code c <= 57 \/ 65 <= code c <= 70 \/ 97 <= code c <= 102).
  { intros x. unfold digit_of, isdigit.
    destruct ((48 <=? code x) && (code x <=? 57)) eqn:E1; [intros; lia|].
    destruct ((65 <=? code x) && (code x <=? 90)) eqn:E2.
    { destruct (code x - 55 <? 16) eqn:E; [intros; lia|done]. }
    destruct ((97 <=? code x) && (code x <=? 122)) eqn:E3; [|done].
    destruct (code x - 87 <? 16) eqn:E; [intros; lia|done]. }
  pose proof (Hr _ Hc) as Hc'. pose proof (Hr _ Hd) as Hd'.
  unfold isspace. replace ((code c =? 32) || ((9 <=? code c) && (code c <=? 13))) with false by lia.
  replace (code c =? 45) with false by lia. replace (code c =? 43) with false by lia.
  unfold skip_0x. change (16 =? 16) with true. cbv iota.
  destruct c as [[] [] [] [] [] [] [] []]; try reflexivity.
  replace ((code d =? 120) || (code d =? 88)) with false by lia. reflexivity.
Qed.

Lemma is_hex_digit_char d : 0 <= d < 16 -> is_hex_digit (digit_char d) = true.
Proof. intros Hd. unfold is_hex_digit. by rewrite digit_of_char by lia. Qed.

(** The value of a byte written as two hexadecimal digits. *)
Lemma strtol_hex_byte hi lo :
  0 <= hi < 16 -> 0 <= lo < 16 ->
  strtol (String (digit_char hi) (String (digit_char lo) "")) 16 = 16 * hi + lo.
Proof.
  intros Hh Hl. rewrite strtol_hex_digits by (apply is_hex_digit_char; lia).
  cbn [digits_value]. rewrite !digit_of_char by lia. unfold clamp32, INT_MIN, INT_MAX. lia.
Qed.

Lemma fits_ok cap s : (String.length s < cap)%nat -> fits cap s = Some s.
Proof. intros Hl. unfold fits. by destruct (Nat.ltb_spec (String.length s) cap); [|lia]. Qed.

Lemma fits_overflow cap s : (cap <= String.length s)%nat -> fits cap s = None.
Proof. intros Hl. unfold fits. by destruct (Nat.ltb_spec (String.length s) cap); [lia|]. Qed.

(** Two [strcat]s in a row. *)
Lemma strcat_strcat cap g a b : (g ← strcat_into cap g a; strcat_into cap g b) = strcat_into cap g (a +:+ b).
Proof.
  unfold strcat_into. rewrite <- (app_assoc_s g a b).
  destruct (Nat.lt_ge_cases (String.length (g +:+ a)) cap) as [Hl|Hl].
  - by rewrite (fits_ok _ _ Hl).
  - rewrite (fits_overflow _ _ Hl), fits_overflow; [done|]. rewrite (length_app_s (g +:+ a) b). lia.
Qed.

(** ** Padded numbers *)

Lemma pad_left_digits p n : all_chars isdigit (pad_left p (unsigned_digits 10 n)) = true.
Proof.
  unfold pad_left. rewrite all_chars_app, unsigned_digits_digits, andb_true_r.
  induction (p - _)%nat as [|k IH]; [done|exact IH].
Qed.

Lemma pad_left_nonempty p n : pad_left p (unsigned_digits 10 n) <> "".
Proof.
  unfold pad_left. intros H. apply (f_equal String.length) in H. rewrite length_app_s in H.
  destruct (digits_of_nonempty 31 10 n "") as (c & s & E). unfold unsigned_digits in H. rewrite E in H. simpl in H. lia.
Qed.

Lemma fmt_d_prec_nonneg p n : 0 <= n -> fmt_d_prec p n = pad_left p (unsigned_digits 10 n).
Proof. intros Hn. unfold fmt_d_prec. by destruct (Z.ltb_spec n 0); [lia|]. Qed.

(** [atoi] reads back what [%.<p>d] printed. *)
Lemma atoi_fmt_d_prec p n : 0 <= n <= INT_MAX -> atoi (fmt_d_prec p n) = n.
Proof.
  intros Hn. rewrite fmt_d_prec_nonneg by lia. pose proof (pad_left_digits p n) as Hd.
  pose proof (pad_left_nonempty p n) as Hne. destruct (pad_left p _) as [|c s] eqn:E; [done|].
  cbn in Hd. apply andb_prop in Hd as [Hc _]. unfold atoi. rewrite strtol_digits_first by done. rewrite <- E.
  unfold pad_left. rewrite digits_value_zeros by lia. unfold INT_MAX in Hn. rewrite digits_value_unsigned by lia.
  unfold clamp32, INT_MAX, INT_MIN. lia.
Qed.

Lemma fmt_d_prec_token sep p n : isdigit sep = false -> 0 <= n -> token_ok sep (fmt_d_prec p n) = true.
Proof.
  intros Hs Hn. rewrite fmt_d_prec_nonneg by done. unfold token_ok.
  pose proof (pad_left_nonempty p n). pose proof (pad_left_digits p n) as Hd.
  destruct (pad_left p _) as [|c s]; [done|]. eapply all_chars_impl; [|exact Hd].
  intros a Ha. destruct (Ascii.eqb_spec sep a) as [->|]; [congruence|done].
Qed.

Lemma fmt_d_prec_length k n :
  0 <= n < 10 ^ Z.of_nat k -> (1 <= k)%nat -> String.length (fmt_d_prec k n) = k.
Proof.
  intros Hn Hk. rewrite fmt_d_prec_nonneg by lia. unfold pad_left. rewrite length_app_s.
  pose proof (digits_of_short 32 k n "" Hk Hn) as H. cbn [String.length] in H. fold (unsigned_digits 10 n) in H.
  assert (forall j, String.length (zeros j) = j) as -> by (induction j as [|j IH]; [done|cbn; by rewrite IH]). lia.
Qed.
