(* ===== verification/Calendar.v ===== *)
(** * Calendar time: the C library functions the timer tasks use

    [mktime] and [localtime] of the proleptic Gregorian calendar in a zone
    with a fixed offset and no daylight saving time (the devices run in
    China).  Minutes are the unit: the programs never keep seconds. *)

From stdpp Require Import base list strings.
From Stdlib Require Import ZArith Lia Ascii.
From S2P Require Import Prelude CString.

Open Scope Z_scope.

(** The fields of [struct tm] that are used. *)
Record tm := mk_tm {
  tm_year : Z;    (* since 1900 *)
  tm_mon : Z;     (* 0..11 *)
  tm_mday : Z;
  tm_hour : Z;
  tm_min : Z
}.

(** The number of the day since 1970-01-01 of a date with [1 <= m <= 12];
    the year is counted from March, so that February is its last month. *)
Definition days_from_civil (y m d : Z) : Z :=
  let y := if m <=? 2 then y - 1 else y in
  let era := y / 400 in
  let yoe := y - era * 400 in
  let mp := (m + 9) mod 12 in
  let doy := (153 * mp + 2) / 5 + d - 1 in
  era * 146097 + (yoe * 365 + yoe / 4 - yoe / 100 + doy) - 719468.

Definition civil_from_days (z : Z) : Z * Z * Z :=
  let z := z + 719468 in
  let era := z / 146097 in
  let doe := z - era * 146097 in
  let yoe := (doe - doe / 1460 + doe / 36524 - doe / 146096) / 365 in
  let doy := doe - (365 * yoe + yoe / 4 - yoe / 100) in
  let mp := (5 * doy + 2) / 153 in
  let d := doy - (153 * mp + 2) / 5 + 1 in
  let m := if mp <? 10 then mp + 3 else mp - 9 in
  (if m <=? 2 then yoe + era * 400 + 1 else yoe + era * 400, m, d).

(** Minutes since 1970-01-01 00:00 of a broken-down local time, with the
    normalisation of [mktime]: out-of-range fields carry over. *)
Definition tm_minutes (t : tm) : Z :=
  let y := tm_year t + 1900 + tm_mon t / 12 in
  let m := tm_mon t mod 12 + 1 in
  (days_from_civil y m 1 + (tm_mday t - 1)) * 1440 + tm_hour t * 60 + tm_min t.

Definition minutes_tm (n : Z) : tm :=
  let '(y, m, d) := civil_from_days (n / 1440) in
  mk_tm (y - 1900) (m - 1) d (n mod 1440 / 60) (n mod 60).

(** [time_t] is a 32-bit [long]; [tz] is the offset of the zone in seconds
    east of Greenwich.  A time that does not fit makes [mktime] return -1. *)
Definition mktime (tz : Z) (t : tm) : Z :=
  let z := tm_minutes t * 60 - tz in
  if (INT_MIN <=? z) && (z <=? INT_MAX) then z else -1.
Definition localtime (tz : Z) (z : Z) : tm := minutes_tm ((z + tz) / 60).

(** ["%.4d-%.2d-%.2d %.2d:%.2d"] *)
Definition fmt_time (t : tm) : string :=
  fmt_d_prec 4 (1900 + tm_year t) +:+ ("-" +:+ (fmt_d_prec 2 (1 + tm_mon t) +:+ ("-" +:+ (fmt_d_prec 2 (tm_mday t) +:+
  (" " +:+ (fmt_d_prec 2 (tm_hour t) +:+ (":" +:+ fmt_d_prec 2 (tm_min t)))))))).

(** Monday is 1, Sunday 7. *)
Definition weekday_of (n : Z) : Z :=
  let w := (n / 1440 + 4) mod 7 in if w =? 0 then 7 else w.

(** ** Facts *)

Lemma yoe_range doe :
  0 <= doe < 146097 -> 0 <= (doe - doe / 1460 + doe / 36524 - doe / 146096) / 365 <= 399.
Proof.
  intros H. split.
  - apply Z.div_pos; [|lia]. Z.to_euclidean_division_equations. lia.
  - enough ((doe - doe / 1460 + doe / 36524 - doe / 146096) / 365 < 400) by lia.
    apply Z.div_lt_upper_bound; [lia|]. Z.to_euclidean_division_equations. lia.
Qed.

Lemma doy_range doe :
  0 <= doe < 146097 ->
  let yoe := (doe - doe / 1460 + doe / 36524 - doe / 146096) / 365 in
  0 <= doe - (365 * yoe + yoe / 4 - yoe / 100) <= 365.
Proof.
  intros H yoe. unfold yoe. Z.to_euclidean_division_equations. lia.
Qed.

Lemma month_range doy : 0 <= doy <= 365 -> 0 <= (5 * doy + 2) / 153 <= 11.
Proof. intros H. Z.to_euclidean_division_equations. lia. Qed.

Lemma day_range doy : 0 <= doy <= 365 ->
  1 <= doy - (153 * ((5 * doy + 2) / 153) + 2) / 5 + 1 <= 31.
Proof. intros H. Z.to_euclidean_division_equations. lia. Qed.

(** The two conversions agree. *)
Lemma days_of_civil z :
  let '(y, m, d) := civil_from_days z in days_from_civil y m d = z /\ 1 <= m <= 12 /\ 1 <= d <= 31.
Proof.
  unfold civil_from_days. set (z' := z + 719468). set (era := z' / 146097). set (doe := z' - era * 146097).
  assert (0 <= doe < 146097) as Hdoe by (unfold doe, era; pose proof (Z.div_mod z' 146097); pose proof (Z.mod_pos_bound z' 146097); lia).
  pose proof (yoe_range doe Hdoe) as Hyoe. pose proof (doy_range doe Hdoe) as Hdoy. cbv zeta in *.
  set (yoe := (doe - doe / 1460 + doe / 36524 - doe / 146096) / 365) in *.
  set (doy := doe - (365 * yoe + yoe / 4 - yoe / 100)) in *.
  pose proof (month_range doy Hdoy) as Hmp. pose proof (day_range doy Hdoy) as Hd.
  set (mp := (5 * doy + 2) / 153) in *. set (m := if mp <? 10 then mp + 3 else mp - 9).
  assert (1 <= m <= 12 /\ (m + 9) mod 12 = mp) as [Hm Hmod].
  { unfold m. destruct (Z.ltb_spec mp 10); split; try lia.
    - replace (mp + 3 + 9) with (mp + 1 * 12) by lia. rewrite Z.mod_add by lia. apply Z.mod_small. lia.
    - replace (mp - 9 + 9) with mp by lia. apply Z.mod_small. lia. }
  split; [|lia]. unfold days_from_civil. rewrite Hmod.
  set (y := if m <=? 2 then (if m <=? 2 then yoe + era * 400 + 1 else yoe + era * 400) - 1
            else if m <=? 2 then yoe + era * 400 + 1 else yoe + era * 400).
  assert (y = yoe + era * 400) as Hy by (unfold y; destruct (m <=? 2); lia).
  assert (y / 400 = era) as He by (rewrite Hy, Z.div_add by lia; rewrite Z.div_small by lia; lia).
  rewrite He. replace (y - era * 400) with yoe by lia. unfold doy, doe, z' in *. lia.
Qed.

Lemma days_from_civil_day y m d : days_from_civil y m d = days_from_civil y m 1 + (d - 1).
Proof. unfold days_from_civil. lia. Qed.

Lemma minutes_tm_range n :
  let t := minutes_tm n in
  0 <= tm_mon t <= 11 /\ 1 <= tm_mday t <= 31 /\ 0 <= tm_hour t <= 23 /\ 0 <= tm_min t <= 59.
Proof.
  unfold minutes_tm. pose proof (days_of_civil (n / 1440)) as H. destruct (civil_from_days _) as [[y m] d].
  destruct H as (_ & Hm & Hd). cbn. pose proof (Z.mod_pos_bound n 1440 ltac:(lia)). pose proof (Z.mod_pos_bound n 60 ltac:(lia)).
  repeat split; try lia; [apply Z.div_pos; lia|]. enough (n mod 1440 / 60 < 24) by lia. apply Z.div_lt_upper_bound; lia.
Qed.

(** [mktime] undoes [localtime]. *)
Lemma tm_minutes_minutes_tm n : tm_minutes (minutes_tm n) = n.
Proof.
  unfold tm_minutes, minutes_tm. pose proof (days_of_civil (n / 1440)) as H. destruct (civil_from_days _) as [[y m] d].
  destruct H as (H & Hm & Hd). cbn [tm_year tm_mon tm_mday tm_hour tm_min].
  replace ((m - 1) / 12) with 0 by (symmetry; apply Z.div_small; lia).
  replace ((m - 1) mod 12) with (m - 1) by (symmetry; apply Z.mod_small; lia).
  replace (y - 1900 + 1900 + 0) with y by lia. replace (m - 1 + 1) with m by lia.
  rewrite <- days_from_civil_day, H.
  pose proof (Z.div_mod n 1440 ltac:(lia)). pose proof (Z.div_mod (n mod 1440) 60 ltac:(lia)) as H2.
  replace (n mod 1440 mod 60) with (n mod 60) in H2; [lia|].
  replace 1440 with (60 * 24) by lia. rewrite Z.rem_mul_r by lia. rewrite Z.mul_comm, Z.mod_add, Z.mod_mod by lia. done.
Qed.
