(* ===== verification/UartQueue.v ===== *)
(** * The queue of Zigbee answers (src/src/dev_manage/uart_quene.c)

    The UART thread stores every switch answer it reads in a table of 20
    slots; the threads that control a device poll the table for the answer to
    the command they sent.  This file models the table, its three operations
    and the polling loop, states what the table promises as a bag of pending
    frames, and proves that each operation, run without interruption, behaves
    as the bag's.  UartSteps.v takes the operations apart into their reads and
    writes of the table, which no lock protects. *)

From stdpp Require Import base list strings.
From Stdlib Require Import ZArith Lia.
From S2P Require Import Prelude.

Definition UART_QUENE_NUM : nat := 20.
Definition UART_DATA_NUM : nat := 6.
Definition MAX_TRY_TIMES : Z := 300.

(** [uart_quene_t]: a slot is free when its [id] is -1. *)
Record uart_quene_t := mk_slot {
  id : Z;               (* signed char *)
  data : list Z         (* unsigned char data[UART_DATA_NUM] *)
}.

Abbreviation queue := (list uart_quene_t).

(** The table before [uart_data_quene_init]: a zeroed static array. *)
Definition quene_static : queue := replicate UART_QUENE_NUM (mk_slot 0 (replicate UART_DATA_NUM 0%Z)).

Definition set_id (z : Z) (s : uart_quene_t) : uart_quene_t := mk_slot z (data s).

Definition uart_data_quene_init (q : queue) : queue := set_id (-1) <$> q.

(** [for (i = 0; ...) if (uart_data_quene[i].id == -1) break;] : the index
    at which the first loop of [uart_data_queuing] stops. *)
Fixpoint first_free (q : queue) : nat :=
  match q with
  | [] => 0
  | s :: q => if (id s =? -1)%Z then 0 else S (first_free q)
  end.

(** [for (j = 0; j < len; j++) dst[j] = *(src + j);] on a [dst] of
    UART_DATA_NUM bytes: undefined when [src] or [dst] is too short. *)
Definition copy_bytes (src : list Z) (len : nat) (dst : list Z) : option (list Z) :=
  if (len <=? length src)%nat && (len <=? length dst)%nat
  then Some (take len src ++ drop len dst) else None.

Definition uart_data_queuing (d : list Z) (len : nat) (q : queue) : option queue :=
  let i := first_free q in
  match q !! i with
  | Some s =>                                   (* i < UART_QUENE_NUM *)
      bs ← copy_bytes d len (data s);
      Some (<[i := mk_slot (Z.of_nat i) bs]> q)
  | None => Some q                              (* uart data queue is full *)
  end.

(** The inner loop of [uart_check]: how many of the first [len] bytes agree. *)
Fixpoint count_matches (len : nat) (slot check : list Z) : nat :=
  match len, slot, check with
  | S len, a :: slot, b :: check =>
      (if (a =? b)%Z then 1 else 0) + count_matches len slot check
  | _, _, _ => 0
  end.

(** [for (k = 0; k < getlen; k++) getdata[k] = data[k];] : undefined past the
    end of the slot's array. *)
Definition copy_out (getlen : nat) (d : list Z) : option (list Z) :=
  if (getlen <=? length d)%nat then Some (take getlen d) else None.

(** [uart_check]: the outer loop from slot [i] on; what is copied to
    [getdata] and the table after the slot is released, or [None] when the
    function returns FALSE. *)
Fixpoint uart_check (check : list Z) (checklen getlen : nat) (q : queue)
  : option (option (list Z) * queue) :=
  match q with
  | [] => None
  | s :: q' =>
      if negb (id s =? -1)%Z && (checklen <=? count_matches checklen (data s) check)%nat
      then Some (copy_out getlen (data s), set_id (-1) s :: q')
      else
        match uart_check check checklen getlen q' with
        | Some (got, q'') => Some (got, s :: q'')
        | None => None
        end
  end.

(** [uart_check_from_queue]: the polling loop.  Its counter [i] is an
    [unsigned char].  [sched k] is what the other threads do to the table
    during the [k]-th [usleep(10000)].  [None]: still polling after [fuel]
    iterations.  The outcome is the returned BOOL with the bytes read. *)
Fixpoint poll_loop (sched : nat -> queue -> queue) (check : list Z) (checklen getlen : nat)
    (fuel k : nat) (i : Z) (q : queue) : option (bool * option (list Z) * queue) :=
  match fuel with
  | O => None
  | S fuel =>
      if (i <? MAX_TRY_TIMES)%Z then
        match uart_check check checklen getlen q with
        | Some (got, q') => Some (true, got, q')
        | None => poll_loop sched check checklen getlen fuel (S k) (u8 (i + 1)) (sched k q)
        end
      else Some (false, Some [], q)
  end.

Definition uart_check_from_queue (sched : nat -> queue -> queue) (check : list Z)
    (checklen getlen fuel : nat) (q : queue) : option (bool * option (list Z) * queue) :=
  poll_loop sched check checklen getlen fuel 0 0 q.

(** ** What the table promises: a bag of pending frames *)

Definition busy (s : uart_quene_t) : Prop := id s ≠ (-1)%Z.
#[export] Instance busy_dec s : Decision (busy s) := decide (id s ≠ (-1)%Z).

(** The frames waiting to be claimed, in slot order. *)
Definition pending (q : queue) : list (list Z) := data <$> filter busy q.

(** A frame answers a request when its first [n] bytes are those asked for. *)
Definition answers (check : list Z) (n : nat) (d : list Z) : Prop :=
  take n d = take n check.
#[export] Instance answers_dec check n d : Decision (answers check n d) :=
  decide (take n d = take n check).

(** Well-formed table: 20 slots of 6 bytes, and a busy slot carries its own
    index. *)
Definition slot_ok (i : nat) (s : uart_quene_t) : Prop :=
  (id s = -1 \/ id s = Z.of_nat i)%Z /\ length (data s) = UART_DATA_NUM.

Definition queue_ok (q : queue) : Prop :=
  length q = UART_QUENE_NUM /\ forall i s, q !! i = Some s -> slot_ok i s.

Definition slots_sized (q : queue) : Prop :=
  Forall (fun s => length (data s) = UART_DATA_NUM) q.

Lemma queue_ok_sized q : queue_ok q -> slots_sized q.
Proof.
  intros [_ H]. apply Forall_lookup. intros i s Hs. by destruct (H i s Hs).
Qed.

Lemma busy_id s : busy s <-> (id s =? -1)%Z = false.
Proof. unfold busy. rewrite Z.eqb_neq. done. Qed.

Lemma pending_cons s q :
  pending (s :: q) = if (id s =? -1)%Z then pending q else data s :: pending q.
Proof.
  unfold pending. rewrite filter_cons. case_decide as Hb.
  - apply busy_id in Hb. by rewrite Hb.
  - destruct (id s =? -1)%Z eqn:E; [done|]. by apply busy_id in E.
Qed.

Lemma pending_app q1 q2 : pending (q1 ++ q2) = pending q1 ++ pending q2.
Proof. unfold pending. by rewrite filter_app, fmap_app. Qed.

Lemma count_matches_le n a b : count_matches n a b <= n.
Proof.
  revert a b. induction n as [|n IH]; intros [|x a] [|y b]; simpl; try lia.
  specialize (IH a b). destruct (x =? y)%Z; lia.
Qed.

(** The count reaches [n] exactly on equal prefixes. *)
Lemma count_matches_full n a b :
  n <= length a -> n <= length b ->
  (n <=? count_matches n a b)%nat = true <-> answers b n a.
Proof.
  unfold answers. rewrite Nat.leb_le. revert a b.
  induction n as [|n IH]; intros [|x a] [|y b]; simpl; try (intuition lia).
  intros Ha Hb. pose proof (count_matches_le n a b) as Hle.
  specialize (IH a b ltac:(lia) ltac:(lia)).
  destruct (Z.eqb_spec x y) as [->|Hne]; simpl; split; intros H.
  - f_equal. apply IH. lia.
  - injection H as H. apply IH in H. lia.
  - lia.
  - by injection H.
Qed.

(** ** [uart_data_quene_init] *)

Lemma init_pending q : pending (uart_data_quene_init q) = [].
Proof. induction q as [|s q IH]; [done|]. unfold uart_data_quene_init in *. simpl. by rewrite pending_cons. Qed.

(** The first thing the UART thread does turns the static array into a
    well-formed, empty table. *)
Lemma init_ok : queue_ok (uart_data_quene_init quene_static).
Proof.
  assert (Forall (fun s => id s = (-1)%Z /\ length (data s) = UART_DATA_NUM)
            (uart_data_quene_init quene_static)) as HF.
  { unfold uart_data_quene_init. rewrite Forall_fmap. by apply Forall_replicate. }
  split; [done|]. intros i s Hs.
  destruct (Forall_lookup_1 _ _ _ _ HF Hs) as [Hid Hl]. split; [by left|done].
Qed.

(** ** [uart_data_queuing] *)

Lemma first_free_spec q :
  match q !! first_free q with
  | Some s => exists q1 q2, q = q1 ++ s :: q2 /\ length q1 = first_free q /\
                id s = (-1)%Z /\ Forall busy q1
  | None => Forall busy q
  end.
Proof.
  induction q as [|s q IH]; simpl; [done|].
  destruct (Z.eqb_spec (id s) (-1)) as [He|Hne]; simpl.
  - by exists [], q.
  - destruct (q !! first_free q) as [s'|].
    + destruct IH as (q1 & q2 & -> & Hl & Hid & HF).
      exists (s :: q1), q2. simpl. rewrite Hl. auto.
    + by constructor.
Qed.

Lemma pending_busy_length q : Forall busy q -> length (pending q) = length q.
Proof.
  induction 1 as [|s q Hs Hq IH]; [done|]. rewrite pending_cons.
  apply busy_id in Hs. rewrite Hs. simpl. by rewrite IH.
Qed.

Lemma pending_length q : length (pending q) <= length q.
Proof.
  induction q as [|s q IH]; [done|]. rewrite pending_cons.
  destruct (id s =? -1)%Z; simpl; lia.
Qed.

Lemma copy_bytes_full d b :
  length d = UART_DATA_NUM -> length b = UART_DATA_NUM -> copy_bytes d UART_DATA_NUM b = Some d.
Proof.
  intros Hd Hb. unfold copy_bytes. rewrite Hd, Hb. simpl.
  by rewrite take_ge, drop_ge, app_nil_r by (rewrite ?Hd, ?Hb; done).
Qed.

(** Storing a frame: while a slot is free the frame joins the pending ones,
    the others keeping their order; a full table drops it. *)
Lemma queuing_spec d q :
  queue_ok q -> length d = UART_DATA_NUM ->
  exists q', uart_data_queuing d UART_DATA_NUM q = Some q' /\ queue_ok q' /\
    if decide (length (pending q) < UART_QUENE_NUM)
    then exists l1 l2, pending q = l1 ++ l2 /\ pending q' = l1 ++ d :: l2
    else q' = q.
Proof.
  intros Hok Hd. pose proof (first_free_spec q) as Hff. unfold uart_data_queuing.
  destruct (q !! first_free q) as [s|] eqn:Hs.
  - destruct Hff as (q1 & q2 & Hq & Hl & Hid & Hb). destruct Hok as [Hlen Hok].
    pose proof (Hok _ _ Hs) as [_ Hds]. rewrite copy_bytes_full by done. simpl.
    eexists. split; [reflexivity|]. split; [split|].
    + by rewrite length_insert.
    + intros i s' Hs'. destruct (decide (i = first_free q)) as [->|Hne].
      * rewrite list_lookup_insert_eq in Hs' by (by eapply lookup_lt_Some).
        injection Hs' as <-. split; [by right|done].
      * rewrite list_lookup_insert_ne in Hs' by done. by apply Hok.
    + rewrite <- Hl. rewrite Hq, insert_app_r_alt, Nat.sub_diag by lia. simpl.
      rewrite !pending_app, !pending_cons, Hid. simpl.
      replace (Z.of_nat (length q1) =? -1)%Z with false by lia.
      rewrite decide_True; [by eexists _, _|].
      rewrite Hq in Hlen. rewrite length_app in *. simpl in Hlen.
      pose proof (pending_length q1). pose proof (pending_length q2). lia.
  - exists q. split; [done|]. split; [done|].
    rewrite decide_False; [done|]. rewrite pending_busy_length by done.
    destruct Hok as [-> _]. lia.
Qed.

(** ** [uart_check] *)

Lemma uart_check_spec check n m q :
  slots_sized q -> n <= UART_DATA_NUM -> n <= length check ->
  match uart_check check n m q with
  | Some (got, q') => exists l1 d l2,
      pending q = l1 ++ d :: l2 /\ pending q' = l1 ++ l2 /\ got = copy_out m d /\
      answers check n d /\ Forall (fun d => ~ answers check n d) l1 /\
      exists i s, q !! i = Some s /\ q' = <[i := set_id (-1) s]> q
  | None => Forall (fun d => ~ answers check n d) (pending q)
  end.
Proof.
  intros Hsz Hn Hc. induction Hsz as [|s q Hs Hq IH]; simpl; [done|].
  pose proof (count_matches_full n (data s) check ltac:(lia) Hc) as Hcm.
  rewrite pending_cons.
  destruct (id s =? -1)%Z eqn:Hid; simpl.
  - destruct (uart_check check n m q) as [[got q']|]; [|done].
    destruct IH as (l1 & d & l2 & H1 & H2 & H3 & H4 & H5 & i & s' & Hi & ->).
    exists l1, d, l2. rewrite pending_cons, Hid. repeat split; try done.
    by exists (S i), s'.
  - destruct (n <=? count_matches n (data s) check)%nat eqn:E.
    + exists [], (data s), (pending q). rewrite pending_cons. simpl.
      repeat split; [by apply Hcm|done|]. by exists 0, s.
    + assert (~ answers check n (data s)) as Hna by (intros H%Hcm; congruence).
      destruct (uart_check check n m q) as [[got q']|]; [|by constructor].
      destruct IH as (l1 & d & l2 & H1 & H2 & H3 & H4 & H5 & i & s' & Hi & ->).
      exists (data s :: l1), d, l2. rewrite pending_cons, Hid, H1, H2.
      repeat split; try done; [by constructor|]. by exists (S i), s'.
Qed.

Lemma release_ok i s q :
  queue_ok q -> q !! i = Some s -> queue_ok (<[i := set_id (-1) s]> q).
Proof.
  intros [Hl Hok] Hi. split; [by rewrite length_insert|].
  intros j s' Hj. destruct (decide (j = i)) as [->|Hne].
  - rewrite list_lookup_insert_eq in Hj by (by eapply lookup_lt_Some).
    injection Hj as <-. split; [by left|]. by destruct (Hok i s Hi).
  - rewrite list_lookup_insert_ne in Hj by done. by apply Hok.
Qed.

Lemma uart_check_ok check n m q got q' :
  queue_ok q -> n <= UART_DATA_NUM -> n <= length check ->
  uart_check check n m q = Some (got, q') -> queue_ok q'.
Proof.
  intros Hok Hn Hc H. pose proof (uart_check_spec check n m q (queue_ok_sized q Hok) Hn Hc) as Hs.
  rewrite H in Hs. destruct Hs as (?&?&?&_&_&_&_&_&i&s&Hi&->). by apply release_ok.
Qed.

(** ** [uart_check_from_queue] *)

(** The loop counter is an [unsigned char], so it never reaches 300: the
    loop has no exit but the one that returns TRUE. *)
Lemma poll_loop_no_timeout sched check n m fuel k i q got q' :
  byte_range i -> poll_loop sched check n m fuel k i q <> Some (false, got, q').
Proof.
  revert k i q. induction fuel as [|fuel IH]; intros k i q Hi; simpl; [done|].
  replace (i <? MAX_TRY_TIMES)%Z with true by (unfold byte_range, MAX_TRY_TIMES in *; lia).
  destruct (uart_check check n m q) as [[got' q'']|]; [done|]. apply IH. apply u8_range.
Qed.

(** The table as the polling thread finds it at its [k]-th attempt, when no
    earlier attempt took a frame. *)
Fixpoint table_at (sched : nat -> queue -> queue) (q : queue) (k : nat) : queue :=
  match k with
  | O => q
  | S k => sched k (table_at sched q k)
  end.

Lemma poll_loop_unfold sched check n m q k0 j fuel i :
  byte_range i ->
  (forall j', j' < j -> uart_check check n m (table_at sched q (k0 + j')) = None) ->
  exists i', byte_range i' /\
  poll_loop sched check n m (j + fuel) k0 i (table_at sched q k0) =
  poll_loop sched check n m fuel (k0 + j) i' (table_at sched q (k0 + j)).
Proof.
  revert k0 i. induction j as [|j IH]; intros k0 i Hi Hnone.
  { exists i. by rewrite Nat.add_0_r. }
  destruct (IH (S k0) (u8 (i + 1)) (u8_range _)) as (i' & Hi' & Heq).
  { intros j' Hj'. replace (S k0 + j') with (k0 + S j') by lia. apply Hnone. lia. }
  exists i'. split; [done|]. simpl.
  replace (i <? MAX_TRY_TIMES)%Z with true by (unfold byte_range, MAX_TRY_TIMES in *; lia).
  specialize (Hnone 0 ltac:(lia)). rewrite Nat.add_0_r in Hnone. rewrite Hnone.
  replace (k0 + S j) with (S k0 + j) by lia. exact Heq.
Qed.

Lemma poll_loop_outcome sched check n m q fuel k0 i :
  byte_range i -> (forall j, j < k0 -> uart_check check n m (table_at sched q j) = None) ->
  poll_loop sched check n m fuel k0 i (table_at sched q k0) = None \/
  exists k got q', k < k0 + fuel /\
    poll_loop sched check n m fuel k0 i (table_at sched q k0) = Some (true, got, q') /\
    (forall j, j < k -> uart_check check n m (table_at sched q j) = None) /\
    uart_check check n m (table_at sched q k) = Some (got, q').
Proof.
  revert k0 i. induction fuel as [|fuel IH]; intros k0 i Hi Hb; simpl; [by left|].
  replace (i <? MAX_TRY_TIMES)%Z with true by (unfold byte_range, MAX_TRY_TIMES in *; lia).
  destruct (uart_check check n m (table_at sched q k0)) as [[got q']|] eqn:E.
  - right. exists k0, got, q'. split; [lia|]. done.
  - destruct (IH (S k0) (u8 (i + 1))) as [Hn|(k & got & q' & Hk & H)].
    + apply u8_range.
    + intros j Hj. destruct (decide (j = k0)) as [->|]; [done|]. apply Hb. lia.
    + by left.
    + right. exists k, got, q'. split; [lia|]. done.
Qed.

(** A finite poll is still running, or it returned TRUE at some attempt [k]
    that was the first to find an answer. *)
Lemma poll_outcome sched check n m fuel q :
  uart_check_from_queue sched check n m fuel q = None \/
  exists k got q', k < fuel /\ uart_check_from_queue sched check n m fuel q = Some (true, got, q') /\
    (forall j, j < k -> uart_check check n m (table_at sched q j) = None) /\
    uart_check check n m (table_at sched q k) = Some (got, q').
Proof.
  apply (poll_loop_outcome sched check n m q fuel 0 0); [unfold byte_range; lia|intros; lia].
Qed.

Lemma pending_sized q d : slots_sized q -> d ∈ pending q -> length d = UART_DATA_NUM.
Proof.
  intros Hsz Hd. unfold pending in Hd. apply list_elem_of_fmap in Hd as (s & -> & Hs).
  apply list_elem_of_filter in Hs as [_ Hs]. unfold slots_sized in Hsz. rewrite Forall_forall in Hsz. by apply Hsz.
Qed.

(** ** The table as an implementation of a bag of frames

    The abstract specification: storing inserts the frame unless 20 are
    pending, claiming removes the first pending frame that answers. *)

Inductive table_op :=
  | OpQueue (d : list Z)
  | OpCheck (check : list Z) (n m : nat).

Definition op_ok (o : table_op) : Prop :=
  match o with
  | OpQueue d => length d = UART_DATA_NUM
  | OpCheck check n m => n <= UART_DATA_NUM /\ n <= length check /\ m <= UART_DATA_NUM
  end.

(** One call on the table; the result is the frame read by [uart_check]. *)
Definition run_op (o : table_op) (q : queue) : option (option (list Z) * queue) :=
  match o with
  | OpQueue d => q' ← uart_data_queuing d UART_DATA_NUM q; Some (None, q')
  | OpCheck check n m =>
      match uart_check check n m q with
      | Some (got, q') => got ← got; Some (Some got, q')
      | None => Some (None, q)
      end
  end.

Inductive bag_step : list (list Z) -> table_op -> option (list Z) -> list (list Z) -> Prop :=
  | bag_put d l1 l2 :
      length (l1 ++ l2) < UART_QUENE_NUM ->
      bag_step (l1 ++ l2) (OpQueue d) None (l1 ++ d :: l2)
  | bag_full d b :
      length b = UART_QUENE_NUM -> bag_step b (OpQueue d) None b
  | bag_claim check n m l1 d l2 :
      answers check n d -> Forall (fun d => ~ answers check n d) l1 ->
      bag_step (l1 ++ d :: l2) (OpCheck check n m) (Some (take m d)) (l1 ++ l2)
  | bag_miss check n m b :
      Forall (fun d => ~ answers check n d) b -> bag_step b (OpCheck check n m) None b.

Lemma run_op_simulates o q :
  queue_ok q -> op_ok o ->
  exists r q', run_op o q = Some (r, q') /\ queue_ok q' /\ bag_step (pending q) o r (pending q').
Proof.
  intros Hok Ho. destruct o as [d|check n m]; simpl in *.
  - destruct (queuing_spec d q Hok Ho) as (q' & -> & Hok' & Hd). simpl.
    exists None, q'. split; [done|]. split; [done|]. case_decide as Hlt.
    + destruct Hd as (l1 & l2 & H1 & ->). rewrite H1 in Hlt |- *. by constructor.
    + subst q'. apply bag_full. pose proof (pending_length q). destruct Hok. lia.
  - destruct Ho as (Hn & Hc & Hm).
    pose proof (uart_check_spec check n m q (queue_ok_sized q Hok) Hn Hc) as Hs.
    destruct (uart_check check n m q) as [[got q']|] eqn:E.
    + destruct Hs as (l1 & d & l2 & H1 & H2 & -> & ? & ? & _).
      assert (length d = UART_DATA_NUM) as Hd.
      { apply (pending_sized q); [by apply queue_ok_sized|]. rewrite H1, elem_of_app, elem_of_cons. by right; left. }
      unfold copy_out. rewrite Hd. replace (m <=? UART_DATA_NUM)%nat with true by (symmetry; by apply Nat.leb_le).
      exists (Some (take m d)), q'. split; [done|]. split; [exact (uart_check_ok check n m q _ q' Hok Hn Hc E)|]. rewrite H1, H2. by constructor.
    + exists None, q. split; [done|]. split; [done|]. by constructor.
Qed.

Lemma poll_returns sched check n m q k got q' :
  (forall j, j < k -> uart_check check n m (table_at sched q j) = None) ->
  uart_check check n m (table_at sched q k) = Some (got, q') ->
  forall fuel, k < fuel -> uart_check_from_queue sched check n m fuel q = Some (true, got, q').
Proof.
  intros Hnone Hk fuel Hf. unfold uart_check_from_queue.
  destruct (poll_loop_unfold sched check n m q 0 k (fuel - k) 0) as (i' & Hi' & Heq).
  - unfold byte_range. lia.
  - exact Hnone.
  - replace (k + (fuel - k)) with fuel in Heq by lia. simpl in Heq. rewrite Heq.
    destruct (fuel - k) eqn:E; [lia|]. simpl. rewrite Hk.
    by replace (i' <? MAX_TRY_TIMES)%Z with true by (unfold byte_range, MAX_TRY_TIMES in *; lia).
Qed.

(** An attempt that finds an answer ends the loop, or an earlier one did. *)
Lemma poll_ends sched check n m q k fuel :
  uart_check check n m (table_at sched q k) <> None -> k < fuel ->
  exists j got q', j <= k /\ uart_check_from_queue sched check n m fuel q = Some (true, got, q') /\
    uart_check check n m (table_at sched q j) = Some (got, q').
Proof.
  induction k as [k IH] using lt_wf_ind. intros Hk Hf.
  destruct (decide (Exists (fun j => uart_check check n m (table_at sched q j) <> None) (seq 0 k))) as [Hex|Hno].
  - apply Exists_exists in Hex as (j & Hj%elem_of_seq & Hne). destruct (IH j ltac:(lia) Hne ltac:(lia)) as (i & got & q' & ? & ?).
    exists i, got, q'. split; [lia|done].
  - destruct (uart_check check n m (table_at sched q k)) as [[got q']|] eqn:E; [|done]. exists k, got, q'. split; [done|].
    split; [|done]. apply (poll_returns _ _ _ _ _ k); [|done|done]. intros j Hj.
    destruct (uart_check check n m (table_at sched q j)) eqn:Ej; [|done]. exfalso. apply Hno, Exists_exists. exists j.
    split; [apply elem_of_seq; lia|by rewrite Ej].
Qed.

(** C17: [uart_check_from_queue] never gives up.  [MAX_TRY_TIMES] is 300 and
    the counter an [unsigned char], so whatever the other threads do the call
    never returns FALSE; while no stored frame answers it is still polling,
    and it returns TRUE with the frame as soon as an attempt finds one. *)
Theorem poll_never_times_out sched check n m q :
  (forall fuel got q', uart_check_from_queue sched check n m fuel q <> Some (false, got, q')) /\
  (forall fuel, (forall k, k < fuel -> uart_check check n m (table_at sched q k) = None) ->
     uart_check_from_queue sched check n m fuel q = None) /\
  (forall k got q', (forall j, j < k -> uart_check check n m (table_at sched q j) = None) ->
     uart_check check n m (table_at sched q k) = Some (got, q') ->
     forall fuel, k < fuel -> uart_check_from_queue sched check n m fuel q = Some (true, got, q')).
Proof.
  unfold uart_check_from_queue. split; [|split].
  - intros. apply poll_loop_no_timeout. unfold byte_range. lia.
  - intros fuel Hnone.
    destruct (poll_loop_unfold sched check n m q 0 fuel 0 0) as (i' & _ & Heq).
    + unfold byte_range. lia.
    + exact Hnone.
    + rewrite Nat.add_0_r in Heq. exact Heq.
  - apply poll_returns.
Qed.
