(* ===== verification/UartSteps.v ===== *)
(** * The table of answers between its threads (src/src/dev_manage/uart_quene.c)

    No lock protects the table: the serial line's thread stores answers while
    the threads that wait for them look through it.  Here the operations are
    taken apart into steps that read or write one member of one slot, and the
    threads take their steps in any order.  An operation that runs undisturbed
    is the one of UartQueue.v, and implements a bag; whatever the order, no
    step leaves the table's arrays; but a frame that is being stored can be
    taken for the one that its slot held before. *)

From stdpp Require Import base list strings.
From Stdlib Require Import ZArith Lia.
From S2P Require Import Prelude UartQueue.

(** ** Steps *)

(** Where a thread is in an operation: in the first loop of
    [uart_data_queuing] at slot [i]; before [id = i]; in its copying loop at
    byte [j]; in the outer loop of [uart_check]; in its counting loop at byte
    [j] with [cnt] matches; in its copying loop at byte [k]; before [id = -1];
    at the end, with what the check got. *)
Inductive pc :=
  | QScan (d : list Z) (len i : nat)
  | QMark (d : list Z) (len i : nat)
  | QCopy (d : list Z) (len i j : nat)
  | CLook (check : list Z) (n m i : nat)
  | CCount (check : list Z) (n m i j cnt : nat)
  | CGet (check : list Z) (n m i k : nat) (got : list Z)
  | CFree (i : nat) (got : list Z)
  | Ended (r : option (list Z)).

Definition set_byte (j : nat) (b : Z) (s : uart_quene_t) : uart_quene_t := mk_slot (id s) (<[j := b]> (data s)).

(** One step; [None]: a read or write outside of an array. *)
Definition pstep (c : pc) (q : queue) : option (pc * queue) :=
  match c with
  | QScan d len i =>
      match q !! i with
      | Some s => Some (if (id s =? -1)%Z then QMark d len i else QScan d len (S i), q)
      | None => Some (Ended None, q)
      end
  | QMark d len i => s ← q !! i; Some (QCopy d len i 0, <[i := set_id (Z.of_nat i) s]> q)
  | QCopy d len i j =>
      if (j <? len)%nat then
        s ← q !! i; b ← d !! j; _ ← data s !! j; Some (QCopy d len i (S j), <[i := set_byte j b s]> q)
      else Some (Ended None, q)
  | CLook check n m i =>
      match q !! i with
      | Some s => Some (if (id s =? -1)%Z then CLook check n m (S i) else CCount check n m i 0 0, q)
      | None => Some (Ended None, q)
      end
  | CCount check n m i j cnt =>
      if (j <? n)%nat then
        s ← q !! i; a ← data s !! j; b ← check !! j;
        Some (CCount check n m i (S j) (if (a =? b)%Z then S cnt else cnt), q)
      else Some (if (n <=? cnt)%nat then CGet check n m i 0 [] else CLook check n m (S i), q)
  | CGet check n m i k got =>
      if (k <? m)%nat then s ← q !! i; a ← data s !! k; Some (CGet check n m i (S k) (got ++ [a]), q)
      else Some (CFree i got, q)
  | CFree i got => s ← q !! i; Some (Ended (Some got), <[i := set_id (-1) s]> q)
  | Ended r => Some (Ended r, q)
  end.

(** [k] steps of one thread. *)
Fixpoint steps (k : nat) (c : pc) (q : queue) : option (pc * queue) :=
  match k with O => Some (c, q) | S k => '(c, q) ← pstep c q; steps k c q end.

(** The beginning of an operation. *)
Definition start (o : table_op) : pc :=
  match o with OpQueue d => QScan d UART_DATA_NUM 0 | OpCheck check n m => CLook check n m 0 end.

(** Threads and the table; a schedule names the thread that takes a step. *)
Fixpoint interleave (schedule : list nat) (threads : list pc) (q : queue) : option (list pc * queue) :=
  match schedule with
  | [] => Some (threads, q)
  | t :: schedule =>
      match threads !! t with
      | Some c => '(c, q) ← pstep c q; interleave schedule (<[t := c]> threads) q
      | None => interleave schedule threads q
      end
  end.

(** ** An operation alone *)

(** [alone c q c' q']: undisturbed, the thread comes from [c] to [c']. *)
Definition alone (c : pc) (q : queue) (c' : pc) (q' : queue) : Prop := exists k, steps k c q = Some (c', q').

Lemma alone_refl c q : alone c q c q.
Proof. by exists 0. Qed.
Lemma alone_step c q c1 q1 c' q' : pstep c q = Some (c1, q1) -> alone c1 q1 c' q' -> alone c q c' q'.
Proof. intros E [k Hk]. exists (S k). cbn [steps]. by rewrite E. Qed.

Lemma scan_alone d len q1 q2 :
  let q := q1 ++ q2 in
  match q2 !! first_free q2 with
  | Some _ => alone (QScan d len (length q1)) q (QMark d len (length q1 + first_free q2)) q
  | None => alone (QScan d len (length q1)) q (Ended None) q
  end.
Proof.
  revert q1. induction q2 as [|s q2 IH]; intros q1; cbn [first_free].
  - eapply alone_step; [|apply alone_refl]. cbn [pstep]. by rewrite app_nil_r, lookup_ge_None_2 by lia.
  - pose proof (list_lookup_middle q1 q2 s _ eq_refl) as Hs.
    destruct (id s =? -1)%Z eqn:Es; cbn [lookup list_lookup].
    + rewrite Nat.add_0_r. eapply alone_step; [|apply alone_refl]. cbn [pstep]. by rewrite Hs, Es.
    + specialize (IH (q1 ++ [s])). rewrite length_app, <- app_assoc in IH. cbn [length app] in IH.
      replace (length q1 + S (first_free q2)) with (length q1 + 1 + first_free q2) by lia. cbv zeta in *.
      destruct (q2 !! first_free q2); (eapply alone_step; [cbn [pstep]; by rewrite Hs, Es|]); by rewrite <- Nat.add_1_r.
Qed.

Lemma insert_next (d l : list Z) j b : d !! j = Some b -> (j < length l)%nat ->
  <[j := b]> (take j d ++ drop j l) = take (S j) d ++ drop (S j) l.
Proof.
  intros Hb Hj. pose proof (lookup_lt_Some _ _ _ Hb) as Hd. assert (length (take j d) = j) as Hl by (rewrite length_take; lia).
  rewrite (take_S_r _ _ _ Hb). rewrite insert_app_r_alt by (rewrite Hl; lia). rewrite Hl, Nat.sub_diag.
  destruct (drop j l) as [|x r] eqn:E; [apply (f_equal length) in E; rewrite length_drop in E; cbn in E; lia|].
  cbn. rewrite <- app_assoc. cbn. do 2 f_equal. rewrite <- Nat.add_1_r, <- drop_drop, E. done.
Qed.

Lemma copy_alone d len i j q old z : (i < length q)%nat -> (j <= len)%nat -> (len <= length d)%nat -> (len <= length old)%nat ->
  alone (QCopy d len i j) (<[i := mk_slot z (take j d ++ drop j old)]> q) (Ended None) (<[i := mk_slot z (take len d ++ drop len old)]> q).
Proof.
  intros Hi Hj Hd Ho. remember (len - j)%nat as r eqn:Er. revert j Hj Er. induction r as [|r IH]; intros j Hj Er.
  - replace j with len by lia. eapply alone_step; [|apply alone_refl]. cbn [pstep].
    by replace (len <? len)%nat with false by (symmetry; apply Nat.ltb_irrefl).
  - eapply alone_step; [|apply (IH (S j)); lia]. cbn [pstep]. replace (j <? len)%nat with true by (symmetry; apply Nat.ltb_lt; lia).
    rewrite list_lookup_insert_eq by done. destruct (lookup_lt_is_Some_2 d j) as [b Hb]; [lia|]. cbn [mbind option_bind]. rewrite Hb.
    cbn [mbind option_bind data].
    destruct (lookup_lt_is_Some_2 (take j d ++ drop j old) j) as [x Hx]; [rewrite length_app, length_take, length_drop; lia|]. rewrite Hx.
    cbn [mbind option_bind]. unfold set_byte. cbn [id data]. by rewrite list_insert_insert_eq, (insert_next d old j b) by (done || lia).
Qed.

Lemma queuing_alone d q q' : queue_ok q -> length d = UART_DATA_NUM ->
  uart_data_queuing d UART_DATA_NUM q = Some q' -> alone (QScan d UART_DATA_NUM 0) q (Ended None) q'.
Proof.
  intros [_ Hq] Hd E. pose proof (scan_alone d UART_DATA_NUM [] q) as Hscan. cbn in Hscan. unfold uart_data_queuing in E.
  destruct (q !! first_free q) as [s|] eqn:Es; [|by injection E as ->].
  destruct (Hq _ _ Es) as [_ Hl]. rewrite copy_bytes_full in E by done. injection E as <-.
  destruct Hscan as [k1 H1]. pose proof (lookup_lt_Some _ _ _ Es) as Hi.
  destruct (copy_alone d UART_DATA_NUM (first_free q) 0 q (data s) (Z.of_nat (first_free q)) Hi ltac:(lia) ltac:(lia) ltac:(lia)) as [k2 H2].
  rewrite (take_ge d UART_DATA_NUM), (drop_ge (data s) UART_DATA_NUM), app_nil_r, take_0, drop_0, app_nil_l in H2 by lia. exists (k1 + S k2).
  assert (forall k c q c1 q1, steps k c q = Some (c1, q1) -> forall k', steps (k + k') c q = steps k' c1 q1) as Happ.
  { clear. induction k as [|k IH]; intros c q c1 q1 E k'; [by injection E as -> ->|]. cbn [steps Nat.add] in *.
    destruct (pstep c q) as [[c2 q2]|]; [|done]. by apply IH. }
  rewrite (Happ _ _ _ _ _ H1). cbn [steps pstep]. rewrite Es. cbn [mbind option_bind]. exact H2.
Qed.

Lemma alone_trans c q c1 q1 c2 q2 : alone c q c1 q1 -> alone c1 q1 c2 q2 -> alone c q c2 q2.
Proof.
  intros [k Hk] H2. revert c q Hk. induction k as [|k IH]; intros c q Hk; [by injection Hk as -> ->|].
  cbn [steps] in Hk. destruct (pstep c q) as [[c3 q3]|] eqn:E; [|done]. eapply alone_step; [exact E|]. by apply IH.
Qed.

Lemma count_alone check n m i j cnt q s : q !! i = Some s -> (n <= length (data s))%nat -> (n <= length check)%nat -> (j <= n)%nat ->
  alone (CCount check n m i j cnt) q
    (if (n <=? cnt + count_matches (n - j) (drop j (data s)) (drop j check))%nat then CGet check n m i 0 [] else CLook check n m (S i)) q.
Proof.
  intros Hs Hn Hc Hj. remember (n - j)%nat as r eqn:Er. revert j cnt Hj Er. induction r as [|r IH]; intros j cnt Hj Er.
  - eapply alone_step; [|apply alone_refl]. cbn [pstep count_matches]. replace (j <? n)%nat with false by (symmetry; apply Nat.ltb_ge; lia).
    by rewrite Nat.add_0_r.
  - destruct (lookup_lt_is_Some_2 (data s) j) as [a Ha]; [lia|]. destruct (lookup_lt_is_Some_2 check j) as [b Hb]; [lia|].
    rewrite (drop_S _ _ _ Ha), (drop_S _ _ _ Hb). cbn [count_matches].
    replace (cnt + ((if (a =? b)%Z then 1 else 0) + count_matches r (drop (S j) (data s)) (drop (S j) check)))
      with ((if (a =? b)%Z then S cnt else cnt) + count_matches r (drop (S j) (data s)) (drop (S j) check)) by (destruct (a =? b)%Z; lia).
    eapply alone_step; [|apply IH; lia]. cbn [pstep]. replace (j <? n)%nat with true by (symmetry; apply Nat.ltb_lt; lia).
    by rewrite Hs; cbn [mbind option_bind]; rewrite Ha; cbn [mbind option_bind]; rewrite Hb.
Qed.

Lemma get_alone check n m i k q s : q !! i = Some s -> (m <= length (data s))%nat -> (k <= m)%nat ->
  alone (CGet check n m i k (take k (data s))) q (CFree i (take m (data s))) q.
Proof.
  intros Hs Hm Hk. remember (m - k)%nat as r eqn:Er. revert k Hk Er. induction r as [|r IH]; intros k Hk Er.
  - replace k with m by lia. eapply alone_step; [|apply alone_refl]. cbn [pstep]. by rewrite (Nat.ltb_irrefl m).
  - destruct (lookup_lt_is_Some_2 (data s) k) as [a Ha]; [lia|]. eapply alone_step; [|apply (IH (S k)); lia]. cbn [pstep].
    replace (k <? m)%nat with true by (symmetry; apply Nat.ltb_lt; lia). rewrite Hs. cbn [mbind option_bind]. rewrite Ha. cbn [mbind option_bind].
    by rewrite (take_S_r _ _ _ Ha).
Qed.

Lemma check_alone check n m q1 q2 : slots_sized q2 -> n <= UART_DATA_NUM -> n <= length check -> m <= UART_DATA_NUM ->
  match uart_check check n m q2 with
  | Some (got, q2') => alone (CLook check n m (length q1)) (q1 ++ q2) (Ended got) (q1 ++ q2') /\ got <> None
  | None => alone (CLook check n m (length q1)) (q1 ++ q2) (Ended None) (q1 ++ q2)
  end.
Proof.
  intros Hsz Hn Hc Hm. revert q1. induction Hsz as [|s q2 Hs Hq IH]; intros q1; cbn [uart_check].
  - eapply alone_step; [|apply alone_refl]. cbn [pstep]. by rewrite app_nil_r, lookup_ge_None_2 by lia.
  - pose proof (list_lookup_middle q1 q2 s _ eq_refl) as Hl.
    assert (forall c q', alone (CLook check n m (S (length q1))) (q1 ++ s :: q2) c q' ->
      negb (id s =? -1)%Z && (n <=? count_matches n (data s) check)%nat = false -> alone (CLook check n m (length q1)) (q1 ++ s :: q2) c q') as Hnext.
    { intros c q' Ha E. eapply alone_step; [cbn [pstep]; by rewrite Hl|]. destruct (id s =? -1)%Z; [done|]. cbn [negb andb] in E.
      eapply alone_trans; [apply (count_alone check n m (length q1) 0 0 _ s Hl); lia|].
      rewrite !drop_0, Nat.sub_0_r, Nat.add_0_l, E. exact Ha. }
    specialize (IH (q1 ++ [s])). rewrite length_app, <- !app_assoc in IH. cbn [length app] in IH. rewrite Nat.add_1_r in IH.
    destruct (negb (id s =? -1)%Z && (n <=? count_matches n (data s) check)%nat) eqn:E.
    + apply andb_prop in E as [Ei Ec]. apply negb_true_iff in Ei. unfold copy_out.
      rewrite Hs, (proj2 (Nat.leb_le m UART_DATA_NUM) Hm). split; [|done].
      eapply alone_step; [cbn [pstep]; rewrite Hl, Ei; reflexivity|].
      eapply alone_trans; [apply (count_alone check n m (length q1) 0 0 _ s Hl); lia|]. rewrite !drop_0, Nat.sub_0_r, Nat.add_0_l, Ec.
      eapply alone_trans; [apply (get_alone check n m (length q1) 0 _ s Hl); lia|]. eapply alone_step; [|apply alone_refl].
      cbn [pstep]. rewrite Hl. cbn [mbind option_bind]. do 2 f_equal. rewrite insert_app_r_alt, Nat.sub_diag by lia. done.
    + destruct (uart_check check n m q2) as [[got q2']|].
      * destruct IH as [Ha Hg]. rewrite <- app_assoc in Ha. cbn [app] in Ha. split; [by apply Hnext|done].
      * by apply Hnext.
Qed.

(** Undisturbed, an operation is the one of UartQueue.v. *)
Lemma op_alone o q r q' : queue_ok q -> op_ok o -> run_op o q = Some (r, q') -> alone (start o) q (Ended r) q'.
Proof.
  intros Hq Ho E. destruct o as [d|check n m]; cbn [start run_op op_ok] in *.
  - destruct (uart_data_queuing d UART_DATA_NUM q) as [q1|] eqn:Eq; [|done]. cbn in E. injection E as <- <-. by apply queuing_alone.
  - destruct Ho as (Hn & Hc & Hm). pose proof (check_alone check n m [] q (queue_ok_sized q Hq) Hn Hc Hm) as H. cbn in H.
    destruct (uart_check check n m q) as [[[got|] q1]|]; [|by destruct H|]; cbn in E; injection E as <- <-; [apply H|exact H].
Qed.

(** ** Any order *)

(** A thread inside of the arrays it uses. *)
Definition pc_ok (c : pc) : Prop :=
  match c with
  | QScan d len _ => length d = UART_DATA_NUM /\ len = UART_DATA_NUM
  | QMark d len i => length d = UART_DATA_NUM /\ len = UART_DATA_NUM /\ i < UART_QUENE_NUM
  | QCopy d len i j => length d = UART_DATA_NUM /\ len = UART_DATA_NUM /\ i < UART_QUENE_NUM
  | CLook check n m _ => n <= UART_DATA_NUM /\ n <= length check /\ m <= UART_DATA_NUM
  | CCount check n m i _ _ | CGet check n m i _ _ => n <= UART_DATA_NUM /\ n <= length check /\ m <= UART_DATA_NUM /\ i < UART_QUENE_NUM
  | CFree i _ => i < UART_QUENE_NUM
  | Ended _ => True
  end.

Lemma queue_ok_at q i : queue_ok q -> i < UART_QUENE_NUM -> exists s, q !! i = Some s /\ slot_ok i s.
Proof. intros [Hl Hq] Hi. destruct (lookup_lt_is_Some_2 q i) as [s Hs]; [lia|]. exists s. split; [done|]. by apply Hq. Qed.

Lemma queue_ok_insert q i s : queue_ok q -> slot_ok i s -> queue_ok (<[i := s]> q).
Proof.
  intros [Hl Hq] Hs. split; [by rewrite length_insert|]. intros j s' Hj. destruct (decide (j = i)) as [->|Hne].
  - destruct (decide (i < length q)%nat) as [Hi|Hi]; [rewrite list_lookup_insert_eq in Hj by done; by injection Hj as <-|].
    rewrite list_insert_ge in Hj by lia. by apply Hq.
  - rewrite list_lookup_insert_ne in Hj by done. by apply Hq.
Qed.

Lemma pstep_ok c q : queue_ok q -> pc_ok c -> exists c' q', pstep c q = Some (c', q') /\ queue_ok q' /\ pc_ok c'.
Proof.
  intros Hq Hc. pose proof Hq as [Hlen _].
  assert (forall i s, q !! i = Some s -> i < UART_QUENE_NUM) as Hlt by (intros i s Hs%lookup_lt_Some; lia).
  destruct c as [d len i|d len i|d len i j|check n m i|check n m i j cnt|check n m i k got|i got|r]; cbn [pstep pc_ok] in *.
  - destruct (q !! i) as [s|] eqn:Es; [|by eexists _, _]. destruct (id s =? -1)%Z; do 2 eexists; (split; [done|]); split; try done.
    destruct Hc. split; [done|]. split; [done|]. by eapply Hlt.
  - destruct Hc as (Hd & -> & Hi). destruct (queue_ok_at q i Hq Hi) as (s & Hs & Hok). rewrite Hs. do 2 eexists. split; [done|].
    split; [|done]. apply queue_ok_insert; [done|]. destruct Hok. split; [by right|done].
  - destruct Hc as (Hd & -> & Hi). destruct (Nat.ltb_spec j UART_DATA_NUM) as [Hj|]; [|by do 2 eexists].
    destruct (queue_ok_at q i Hq Hi) as (s & Hs & Hok & Hl). rewrite Hs. cbn [mbind option_bind].
    destruct (lookup_lt_is_Some_2 d j) as [b Hb]; [lia|]. rewrite Hb. cbn [mbind option_bind].
    destruct (lookup_lt_is_Some_2 (data s) j) as [x Hx]; [lia|]. rewrite Hx. do 2 eexists. split; [done|]. split; [|done].
    apply queue_ok_insert; [done|]. split; [done|]. cbn. by rewrite length_insert.
  - destruct (q !! i) as [s|] eqn:Es; [|by eexists _, _]. destruct (id s =? -1)%Z; do 2 eexists; (split; [done|]); split; try done.
    destruct Hc as (?&?&?). repeat split; try done. by eapply Hlt.
  - destruct Hc as (Hn & Hc & Hm & Hi). destruct (Nat.ltb_spec j n) as [Hj|].
    + destruct (queue_ok_at q i Hq Hi) as (s & Hs & Hok & Hl). rewrite Hs. cbn [mbind option_bind].
      destruct (lookup_lt_is_Some_2 (data s) j) as [x Hx]; [lia|]. rewrite Hx. cbn [mbind option_bind].
      destruct (lookup_lt_is_Some_2 check j) as [b Hb]; [lia|]. rewrite Hb. by do 2 eexists.
    + do 2 eexists. split; [done|]. split; [done|]. by destruct (n <=? cnt)%nat.
  - destruct Hc as (Hn & Hc & Hm & Hi). destruct (Nat.ltb_spec k m) as [Hk|]; [|by do 2 eexists].
    destruct (queue_ok_at q i Hq Hi) as (s & Hs & Hok & Hl). rewrite Hs. cbn [mbind option_bind].
    destruct (lookup_lt_is_Some_2 (data s) k) as [x Hx]; [lia|]. rewrite Hx. by do 2 eexists.
  - destruct (queue_ok_at q i Hq Hc) as (s & Hs & Hok & Hl). rewrite Hs. do 2 eexists. split; [done|]. split; [|done].
    apply queue_ok_insert; [done|]. split; [by left|done].
  - by do 2 eexists.
Qed.

Lemma interleave_ok schedule threads q : queue_ok q -> Forall pc_ok threads ->
  exists threads' q', interleave schedule threads q = Some (threads', q') /\ queue_ok q' /\ Forall pc_ok threads'.
Proof.
  revert threads q. induction schedule as [|t schedule IH]; intros threads q Hq Ht; cbn [interleave]; [by do 2 eexists|].
  destruct (threads !! t) as [c|] eqn:Ec; [|by apply IH].
  destruct (pstep_ok c q Hq (proj1 (Forall_lookup _ _) Ht _ _ Ec)) as (c' & q' & -> & Hq' & Hc'). cbn [mbind option_bind].
  apply IH; [done|]. by apply Forall_insert.
Qed.

Lemma start_ok o : op_ok o -> pc_ok (start o).
Proof. by destruct o. Qed.

(** ** The table as a bag *)

(** One operation after the other, each by its steps, undisturbed. *)
Inductive table_run : queue -> list (table_op * option (list Z)) -> queue -> Prop :=
  | run_nil q : table_run q [] q
  | run_cons q o r q' tr q'' :
      alone (start o) q (Ended r) q' -> table_run q' tr q'' -> table_run q ((o, r) :: tr) q''.

Inductive bag_run : list (list Z) -> list (table_op * option (list Z)) -> list (list Z) -> Prop :=
  | bag_nil b : bag_run b [] b
  | bag_cons b o r b' tr b'' :
      bag_step b o r b' -> bag_run b' tr b'' -> bag_run b ((o, r) :: tr) b''.

Lemma ended_stays k r q : steps k (Ended r) q = Some (Ended r, q).
Proof. induction k as [|k IH]; [done|exact IH]. Qed.

Lemma alone_ends c q r1 q1 r2 q2 : alone c q (Ended r1) q1 -> alone c q (Ended r2) q2 -> r1 = r2 /\ q1 = q2.
Proof.
  intros [k1 H1] [k2 H2]. revert c q k2 H1 H2. induction k1 as [|k1 IH]; intros c q k2 H1 H2.
  - injection H1 as -> ->. rewrite ended_stays in H2. by injection H2 as -> ->.
  - destruct k2 as [|k2].
    + injection H2 as -> ->. rewrite ended_stays in H1. by injection H1 as -> ->.
    + cbn [steps] in H1, H2. destruct (pstep c q) as [[c' q']|]; [|done]. by eapply IH.
Qed.

(** A table with an old answer in its first slot, which is free. *)
Definition old_answer : list Z := [2; 1; 0; 1; 1; 16]%Z.
Definition new_answer : list Z := [2; 9; 0; 2; 1; 32]%Z.
Definition used_table : queue := mk_slot (-1) old_answer :: tail (uart_data_quene_init quene_static).

(** C7: the answer table, whose operations run without a lock.  Operations
    that do not overlap come to their end and refine a bag of at most 20
    frames: after [uart_data_quene_init] a frame is stored unless 20 are
    pending, and a check returns and removes the first pending frame with the
    requested prefix, or nothing exactly when there is none.  When the steps of
    any number of operations are interleaved in any order, every access stays
    within the table's arrays and the table stays well formed; but then it is
    no bag: a check that comes between the marking of a slot and the copying
    of its bytes takes the frame that the slot held before. *)
Theorem queue_refines_bag :
  (forall o q, queue_ok q -> op_ok o -> exists r q', run_op o q = Some (r, q') /\ alone (start o) q (Ended r) q') /\
  (forall tr q, Forall (fun p => op_ok (fst p)) tr -> table_run (uart_data_quene_init quene_static) tr q ->
     queue_ok q /\ bag_run [] tr (pending q)) /\
  (forall ops schedule, Forall op_ok ops -> exists threads q,
     interleave schedule (start <$> ops) (uart_data_quene_init quene_static) = Some (threads, q) /\ queue_ok q) /\
  (exists schedule threads q, pending used_table = [] /\
     interleave schedule [start (OpQueue new_answer); start (OpCheck old_answer 6 6)] used_table = Some (threads, q) /\
     threads = [Ended None; Ended (Some old_answer)] /\ pending q = []).
Proof.
  split; [|split; [|split]].
  - intros o q Hq Ho. destruct (run_op_simulates o q Hq Ho) as (r & q' & E & _). exists r, q'. split; [done|]. by apply op_alone.
  - intros tr q. rewrite <- (init_pending quene_static). generalize init_ok. generalize (uart_data_quene_init quene_static).
    intros q0 Hok Htr Hrun. induction Hrun as [q|q o r q' tr q'' Hop Hrun IH]; [split; [done|constructor]|].
    apply Forall_cons in Htr as [Ho Htr]. destruct (run_op_simulates o q Hok Ho) as (r' & q1 & Hop' & Hok1 & Hbag).
    destruct (alone_ends _ _ _ _ _ _ Hop (op_alone o q r' q1 Hok Ho Hop')) as [-> ->].
    destruct (IH Hok1 Htr) as [? ?]. split; [done|]. by econstructor.
  - intros ops schedule Ho. destruct (interleave_ok schedule (start <$> ops) _ init_ok) as (threads & q & E & Hq & _); [|by exists threads, q].
    apply Forall_fmap. eapply Forall_impl; [exact Ho|]. apply start_ok.
  - exists (replicate 2 0 ++ replicate 16 1 ++ replicate 7 0). do 2 eexists. split; [reflexivity|].
    split; [vm_compute; reflexivity|]. split; [reflexivity|vm_compute; reflexivity].
Qed.

(** A frame is stored and claimed. *)
Lemma queue_refines_bag_witness :
  exists q, queue_ok q /\
    bag_run [] [(OpQueue [2;1;0;1;1;16]%Z, None);
                (OpCheck [2;1;0;1;1]%Z 5 6, Some [2;1;0;1;1;16]%Z)] (pending q).
Proof.
  eexists. apply (proj1 (proj2 queue_refines_bag)
    [(OpQueue [2;1;0;1;1;16]%Z, None); (OpCheck [2;1;0;1;1]%Z 5 6, Some [2;1;0;1;1;16]%Z)]).
  - repeat constructor; unfold UART_DATA_NUM; cbn; lia.
  - eapply run_cons; [by exists 9|]. eapply run_cons; [by exists 17|]. apply run_nil.
Defined.
