(* ===== verification/DevControl.v ===== *)
(** * Commands to the Zigbee devices (src/src/dev_manage/dev_control.c, dev.h)

    A control function builds a frame of 5 or 6 bytes from the device type's
    row of [cmd_list], the short address of the device and its number, writes
    it to the serial port and, for switches, waits for the answer in the
    table of UartQueue.v. *)

From stdpp Require Import base list strings sets.
From Stdlib Require Import ZArith Lia Ascii.
From S2P Require Import Prelude CString UartQueue.

Open Scope Z_scope.

(** [enum control_cmd] *)
Definition CMD_SW_OPEN := 0.
Definition CMD_SW_CLOSE := 1.
Definition CMD_SW_TOGGLE := 2.
Definition CMD_SW_GET_STATE := 3.
Definition CMD_CL_OPEN := 4.
Definition CMD_CL_CLOSE := 5.
Definition CMD_CL_PAUSE := 6.
Definition CMD_CL_GET_STATE := 7.
Definition CMD_DOOR_OPEN := 8.
Definition CMD_DOOR_CLOSE := 9.
Definition CMD_DOOR_GET_STATE := 10.
Definition CMD_HONGWAI_ADD := 11.
Definition CMD_HONGWAI_DEL := 12.
Definition CMD_HONGWAI_SEND := 13.
Definition CMD_NULL := 14.

(** [DEV_TYPE_INDEX] *)
Definition TYPE_SW_DEV := 0.
Definition TYPE_CL_DEV := 1.
Definition TYPE_DOOR_DEV := 2.
Definition TYPE_KONGTIAO_DEV := 3.
Definition TYPE_TV_DEV := 4.

(** [DEV_TYPE_LIST]: the headers of the frames *)
Definition DEV_ADD := 0x01.
Definition DEV_SWITCH := 0x02.
Definition DEV_CHUANGLIAN := 0x03.
Definition DEV_DOOR := 0x04.
Definition DEV_HONGWAI_REMOTE := 0x05.
Definition DEV_YUDI := 0x06.
Definition DEV_WENSHIDU := 0x07.
Definition DEV_SOUND := 0x08.
Definition DEV_HONGWAI := 0x09.
Definition DEV_YANWU := 0x10.

(** [struct dev_cmd_t] *)
Record dev_cmd_t := mk_cmd {
  index : Z;
  header : Z;
  open : Z;
  close : Z;
  pause : Z;
  toggle : Z;
  get_state : Z;
  len : nat
}.

(** The rows of [cmd_list]. *)
Definition cmd_SW := mk_cmd TYPE_SW_DEV DEV_SWITCH 0x01 0x02 0xff 0x03 0x04 6.
Definition cmd_CL := mk_cmd TYPE_CL_DEV DEV_CHUANGLIAN 0x01 0x02 0x03 0xff 0x04 5.
Definition cmd_DOOR := mk_cmd TYPE_DOOR_DEV DEV_DOOR 0x01 0xff 0xff 0xff 0xff 5.
Definition cmd_KONGTIAO := mk_cmd TYPE_KONGTIAO_DEV DEV_HONGWAI_REMOTE 0x01 0x02 0x03 0xff 0xff 6.
Definition cmd_TV := mk_cmd TYPE_TV_DEV DEV_HONGWAI_REMOTE 0x01 0x02 0x03 0xff 0xff 6.

Definition cmd_list : list dev_cmd_t := [cmd_SW; cmd_CL; cmd_DOOR; cmd_KONGTIAO; cmd_TV].

(** [get_ip_byte]: the two bytes of a short address written as four
    hexadecimal digits, low byte first.  Reading past the end of the string
    finds NULs: the callers pass zeroed [char ip[10]] buffers. *)
Definition two_chars (i : nat) (s : string) : string := String.substring i 2 s.

Definition get_ip_byte (ip_str : option string) : Z * Z :=
  match ip_str with
  | None => (0xFF, 0xFF)
  | Some s =>
      let bytes1 := two_chars 0 s in
      let bytes2 := two_chars 2 s in
      (u8 (strtol bytes2 16), u8 (strtol bytes1 16))
  end.

(** What the functions change: the frames handed to [write] on the serial
    port, oldest first, and the answer table. *)
Record uart_state := mk_uart {
  sent : list (list Z);
  table : queue
}.

(** The frame written last. *)
Definition last_frame (s : uart_state) : list Z := default [] (last (sent s)).

Section Uart.
(** [wr f]: [write(uart.fd, f, len)] writes the whole frame.
    [sched]: what the other threads do to the table while a poll sleeps.
    [fuel]: how many polls are observed before the call is considered to be
    still waiting ([None]). *)
Context (wr : list Z -> bool) (sched : nat -> queue -> queue) (fuel : nat).

(** [uart.write] *)
Definition WriteToUart (frame : list Z) (s : uart_state) : bool * uart_state :=
  (wr frame, mk_uart (sent s ++ [frame]) (table s)).

(** [switch_dev_get_state]: the command or CMD_NULL. *)
Definition get_state_frame (ip : option string) (dev_number : Z) : list Z :=
  let '(lo, hi) := get_ip_byte ip in
  [header cmd_SW; lo; hi; get_state cmd_SW; dev_number; 0xFF].

(** The wait for the answer: its last byte is compared with the number. *)
Definition state_wait (cmd : list Z) (dev_number : Z) (s : uart_state) : option (Z * uart_state) :=
  match uart_check_from_queue sched cmd 5 6 fuel (table s) with
  | None => None
  | Some (true, None, _) => None
  | Some (true, Some state, q) =>
      let res :=
        if state !!! 5%nat =? dev_number
        then if dev_number =? 0 then CMD_SW_CLOSE else CMD_SW_OPEN
        else if dev_number =? 0 then CMD_SW_OPEN else CMD_SW_CLOSE in
      Some (res, mk_uart (sent s) q)
  | Some (false, _, q) => Some (CMD_NULL, mk_uart (sent s) q)
  end.

Definition switch_dev_get_state (ip : option string) (dev_number : Z) (s : uart_state)
  : option (Z * uart_state) :=
  let cmd := get_state_frame ip dev_number in
  let '(ok, s) := WriteToUart (take (len cmd_SW) cmd) s in
  if negb ok then Some (CMD_NULL, s)
  else
    state_wait cmd dev_number s.

(** [switch_dev_control_func] *)
Definition switch_frame (ip : option string) (dev_cmd dev_number : Z) : list Z :=
  let '(lo, hi) := get_ip_byte ip in
  let '(c3, c5) :=
    if dev_cmd =? CMD_SW_OPEN then
      (if dev_number =? 0 then close cmd_SW else open cmd_SW,
       if dev_number =? 0 then 0x20 else 0x10)
    else if dev_cmd =? CMD_SW_CLOSE then
      (if dev_number =? 0 then open cmd_SW else close cmd_SW,
       if dev_number =? 0 then 0x10 else 0x20)
    else if dev_cmd =? CMD_SW_TOGGLE then (toggle cmd_SW, 0x40)
    else if dev_cmd =? CMD_SW_GET_STATE then (get_state cmd_SW, 0x0F)
    else (0, 0) in
  [header cmd_SW; lo; hi; c3; if dev_number =? 0 then 1 else dev_number; c5].

(** The wait for the echo of a frame that was written. *)
Definition switch_wait (cmd : list Z) (s : uart_state) : option (bool * uart_state) :=
  match uart_check_from_queue sched cmd 6 6 fuel (table s) with
  | None => None
  | Some (r, _, q) => Some (r, mk_uart (sent s) q)
  end.

Definition switch_dev_control_func (ip : option string) (dev_cmd dev_number : Z) (s : uart_state)
  : option (bool * uart_state) :=
  let cmd := switch_frame ip dev_cmd dev_number in
  let '(ok, s) := WriteToUart (take (len cmd_SW) cmd) s in
  if negb ok then Some (false, s) else switch_wait cmd s.

(** [chuanglian_dev_control_func] (curtains) *)
Definition chuanglian_frame (ip : option string) (dev_cmd : Z) : list Z :=
  let '(lo, hi) := get_ip_byte ip in
  let '(c3, c4) :=
    if dev_cmd =? CMD_CL_OPEN then (open cmd_CL, 0x10)
    else if dev_cmd =? CMD_CL_CLOSE then (close cmd_CL, 0x20)
    else if dev_cmd =? CMD_CL_PAUSE then (pause cmd_CL, 0x30)
    else if dev_cmd =? CMD_CL_GET_STATE then (get_state cmd_CL, 0xFF)
    else (0, 0) in
  [header cmd_CL; lo; hi; c3; c4].

Definition chuanglian_dev_control_func (ip : option string) (dev_cmd : Z) (s : uart_state)
  : bool * uart_state :=
  WriteToUart (take (len cmd_CL) (chuanglian_frame ip dev_cmd)) s.

(** [door_dev_control_func]: [cmd] has 6 bytes, 5 of them are sent. *)
Definition door_frame (ip : option string) (dev_cmd : Z) : list Z :=
  let '(lo, hi) := get_ip_byte ip in
  let c3 :=
    if dev_cmd =? CMD_DOOR_OPEN then open cmd_DOOR
    else if dev_cmd =? CMD_DOOR_CLOSE then close cmd_DOOR
    else if dev_cmd =? CMD_DOOR_GET_STATE then get_state cmd_DOOR
    else 0 in
  [header cmd_DOOR; lo; hi; c3; 0xFF; 0].

Definition door_dev_control_func (ip : option string) (dev_cmd : Z) (s : uart_state)
  : bool * uart_state :=
  WriteToUart (take (len cmd_DOOR) (door_frame ip dev_cmd)) s.

(** [kongtiao_dev_control_func] and [tv_dev_control_func] (infrared remotes
    for the air conditioner and the television) *)
Definition kongtiao_frame (ip : option string) (dev_cmd number : Z) : list Z :=
  let '(lo, hi) := get_ip_byte ip in
  let '(c3, c5) :=
    if dev_cmd =? CMD_HONGWAI_ADD then (open cmd_KONGTIAO, 0x10)
    else if dev_cmd =? CMD_HONGWAI_DEL then (close cmd_KONGTIAO, 0x20)
    else if dev_cmd =? CMD_HONGWAI_SEND then (pause cmd_KONGTIAO, 0x30)
    else (0, 0) in
  [header cmd_KONGTIAO; lo; hi; c3; number; c5].

Definition kongtiao_dev_control_func (ip : option string) (dev_cmd number : Z) (s : uart_state)
  : bool * uart_state :=
  WriteToUart (take (len cmd_KONGTIAO) (kongtiao_frame ip dev_cmd number)) s.

Definition tv_frame (ip : option string) (dev_cmd number : Z) : list Z :=
  let '(lo, hi) := get_ip_byte ip in
  let '(c3, c5) :=
    if dev_cmd =? CMD_HONGWAI_ADD then (open cmd_TV, 0x10)
    else if dev_cmd =? CMD_HONGWAI_DEL then (close cmd_TV, 0x20)
    else if dev_cmd =? CMD_HONGWAI_SEND then (pause cmd_TV, 0x30)
    else (0, 0) in
  [header cmd_TV; lo; hi; c3; number; c5].

Definition tv_dev_control_func (ip : option string) (dev_cmd number : Z) (s : uart_state)
  : bool * uart_state :=
  WriteToUart (take (len cmd_TV) (tv_frame ip dev_cmd number)) s.
End Uart.

(** ** Theorems *)

(** [%.4X] of an address and the bytes [get_ip_byte] reads from it. *)
Definition ip_text (addr : Z) : string := fmt_X_prec 4 addr.

Lemma ip_text_digits a :
  0 <= a < 65536 ->
  ip_text a = String (digit_char (a / 4096)) (String (digit_char (a / 256 mod 16))
               (String (digit_char (a / 16 mod 16)) (String (digit_char (a mod 16)) ""))).
Proof.
  intros Ha. unfold ip_text. rewrite fmt_X_fixed by lia. cbn [fixed_digits].
  rewrite !Z.div_div by lia. do 2 f_equal. apply Z.mod_small.
  split; [apply Z.div_pos; lia|apply Z.div_lt_upper_bound; lia].
Qed.

Lemma ip_bytes a : 0 <= a < 65536 -> get_ip_byte (Some (ip_text a)) = (a mod 256, a / 256).
Proof.
  intros Ha. rewrite ip_text_digits by done. unfold get_ip_byte, two_chars. cbn [String.substring].
  pose proof (Z.mod_pos_bound (a / 256) 16). pose proof (Z.mod_pos_bound (a / 16) 16).
  pose proof (Z.mod_pos_bound a 16).
  assert (0 <= a / 4096 < 16) by (split; [apply Z.div_pos|apply Z.div_lt_upper_bound]; lia).
  rewrite !strtol_hex_byte by lia. f_equal; rewrite u8_small; unfold byte_range;
    Z.to_euclidean_division_equations; lia.
Qed.

(** C22: the two address bytes of every frame are the bytes of the device's
    16-bit short address, low byte first, whenever the address was stored as
    four hexadecimal digits. *)
Theorem get_ip_byte_reads_address a :
  0 <= a < 65536 -> get_ip_byte (Some (ip_text a)) = (a mod 256, a / 256).
Proof. apply ip_bytes. Qed.

Lemma get_ip_byte_reads_address_witness :
  (0 <= 0x3F2A < 65536) /\ get_ip_byte (Some "3F2A") = (0x2A, 0x3F).
Proof. split; [lia|]. exact (get_ip_byte_reads_address 0x3F2A ltac:(lia)). Defined.

Lemma get_ip_byte_range ip : byte_range (fst (get_ip_byte ip)) /\ byte_range (snd (get_ip_byte ip)).
Proof. destruct ip as [s|]; simpl; [split; apply u8_range|unfold byte_range; lia]. Qed.

(** The shape of a frame: header, two address bytes, command byte, and two
    more bytes, all in range. *)
Definition frame_for (c : dev_cmd_t) (ip : option string) (f : list Z) : Prop :=
  length f = len c /\ bytes_ok f /\
  take 3 f = [header c; fst (get_ip_byte ip); snd (get_ip_byte ip)].

Ltac frame_tac ip :=
  pose proof (get_ip_byte_range ip) as [? ?]; destruct (get_ip_byte ip) as [lo hi]; simpl in *;
  repeat case_match; simplify_eq; unfold byte_range in *;
  (split; [done|split; [repeat constructor; cbv -[Z.le Z.lt] in *; lia|done]]).

Lemma switch_frame_for ip dev_cmd n : byte_range n -> frame_for cmd_SW ip (switch_frame ip dev_cmd n).
Proof. intros Hn. unfold frame_for, switch_frame. frame_tac ip. Qed.
Lemma get_state_frame_for ip n : byte_range n -> frame_for cmd_SW ip (get_state_frame ip n).
Proof. intros Hn. unfold frame_for, get_state_frame. frame_tac ip. Qed.

(** [one_frame c ip s s']: the call put exactly one frame on the line, of the
    shape that device type [c] prescribes. *)
Definition one_frame (c : dev_cmd_t) (ip : option string) (s s' : uart_state) : Prop :=
  exists f, sent s' = sent s ++ [f] /\ frame_for c ip f.

(** The state when [f] was handed to [write]. *)
Definition with_frame (f : list Z) (s : uart_state) : uart_state := mk_uart (sent s ++ [f]) (table s).

(** The protocol of the devices, as bytes: the device type, the command, and
    the frame for the low and high byte of the address and the number of the
    relay or the key.  Relay 0 is the one whose contacts work the other way. *)
Definition protocol : list (Z * Z * (Z -> Z -> Z -> list Z)) := [
  (TYPE_SW_DEV, CMD_SW_OPEN, fun lo hi n => if n =? 0 then [0x02; lo; hi; 0x02; 1; 0x20] else [0x02; lo; hi; 0x01; n; 0x10]);
  (TYPE_SW_DEV, CMD_SW_CLOSE, fun lo hi n => if n =? 0 then [0x02; lo; hi; 0x01; 1; 0x10] else [0x02; lo; hi; 0x02; n; 0x20]);
  (TYPE_SW_DEV, CMD_SW_TOGGLE, fun lo hi n => [0x02; lo; hi; 0x03; if n =? 0 then 1 else n; 0x40]);
  (TYPE_SW_DEV, CMD_SW_GET_STATE, fun lo hi n => [0x02; lo; hi; 0x04; if n =? 0 then 1 else n; 0x0F]);
  (TYPE_CL_DEV, CMD_CL_OPEN, fun lo hi _ => [0x03; lo; hi; 0x01; 0x10]);
  (TYPE_CL_DEV, CMD_CL_CLOSE, fun lo hi _ => [0x03; lo; hi; 0x02; 0x20]);
  (TYPE_CL_DEV, CMD_CL_PAUSE, fun lo hi _ => [0x03; lo; hi; 0x03; 0x30]);
  (TYPE_CL_DEV, CMD_CL_GET_STATE, fun lo hi _ => [0x03; lo; hi; 0x04; 0xFF]);
  (TYPE_DOOR_DEV, CMD_DOOR_OPEN, fun lo hi _ => [0x04; lo; hi; 0x01; 0xFF]);
  (TYPE_DOOR_DEV, CMD_DOOR_CLOSE, fun lo hi _ => [0x04; lo; hi; 0xFF; 0xFF]);
  (TYPE_DOOR_DEV, CMD_DOOR_GET_STATE, fun lo hi _ => [0x04; lo; hi; 0xFF; 0xFF]);
  (TYPE_KONGTIAO_DEV, CMD_HONGWAI_ADD, fun lo hi n => [0x05; lo; hi; 0x01; n; 0x10]);
  (TYPE_KONGTIAO_DEV, CMD_HONGWAI_DEL, fun lo hi n => [0x05; lo; hi; 0x02; n; 0x20]);
  (TYPE_KONGTIAO_DEV, CMD_HONGWAI_SEND, fun lo hi n => [0x05; lo; hi; 0x03; n; 0x30]);
  (TYPE_TV_DEV, CMD_HONGWAI_ADD, fun lo hi n => [0x05; lo; hi; 0x01; n; 0x10]);
  (TYPE_TV_DEV, CMD_HONGWAI_DEL, fun lo hi n => [0x05; lo; hi; 0x02; n; 0x20]);
  (TYPE_TV_DEV, CMD_HONGWAI_SEND, fun lo hi n => [0x05; lo; hi; 0x03; n; 0x30])].

(** What the control function of a type does. *)
Definition control_type wr sched fuel (ty : Z) (ip : option string) (dev_cmd n : Z) (s : uart_state) : option (bool * uart_state) :=
  if ty =? TYPE_SW_DEV then switch_dev_control_func wr sched fuel ip dev_cmd n s
  else if ty =? TYPE_CL_DEV then Some (chuanglian_dev_control_func wr ip dev_cmd s)
  else if ty =? TYPE_DOOR_DEV then Some (door_dev_control_func wr ip dev_cmd s)
  else if ty =? TYPE_KONGTIAO_DEV then Some (kongtiao_dev_control_func wr ip dev_cmd n s)
  else Some (tv_dev_control_func wr ip dev_cmd n s).

Lemma switch_control_run wr sched fuel ip dev_cmd n s : let f := switch_frame ip dev_cmd n in
  switch_dev_control_func wr sched fuel ip dev_cmd n s =
    if wr f then switch_wait sched fuel f (with_frame f s) else Some (false, with_frame f s).
Proof.
  intros f. unfold switch_dev_control_func, WriteToUart. fold f.
  rewrite take_ge by (unfold f, switch_frame; repeat case_match; done). by destruct (wr f).
Qed.

Lemma switch_wait_sent sched fuel f u r s' : switch_wait sched fuel f u = Some (r, s') -> sent s' = sent u.
Proof. unfold switch_wait. destruct (uart_check_from_queue _ _ _ _ _ _) as [[[r0 d] q]|]; [|done]. by intros [= <- <-]. Qed.

(** C12: every control function puts exactly one frame on the serial line: for
    each command of each device type the bytes that the protocol prescribes,
    addressed to the device's 16-bit short address, low byte first; a switch
    then waits for its echo, which sends nothing more, and the others return
    whether the frame was written and leave the answer table alone.  Whatever
    command code the network sent, the frame has the type's length, header and
    address and every byte is in range. *)
Theorem control_frames_wellformed wr sched fuel addr n s :
  0 <= addr < 65536 -> byte_range n ->
  let ip := Some (ip_text addr) in
  Forall (fun '(ty, dev_cmd, bytes) =>
    let f := bytes (addr mod 256) (addr / 256) n in
    control_type wr sched fuel ty ip dev_cmd n s =
      if ty =? TYPE_SW_DEV then if wr f then switch_wait sched fuel f (with_frame f s) else Some (false, with_frame f s)
      else Some (wr f, with_frame f s)) protocol /\
  (forall f u r s', switch_wait sched fuel f u = Some (r, s') -> sent s' = sent u) /\
  forall dev_cmd, exists f, frame_for cmd_SW ip f /\
    switch_dev_control_func wr sched fuel ip dev_cmd n s =
      (if wr f then switch_wait sched fuel f (with_frame f s) else Some (false, with_frame f s)) /\
    Forall (fun p => one_frame (fst p) ip s (snd (snd p)) /\ table (snd (snd p)) = table s /\
                     fst (snd p) = wr (last_frame (snd (snd p))))
      [(cmd_CL, chuanglian_dev_control_func wr ip dev_cmd s); (cmd_DOOR, door_dev_control_func wr ip dev_cmd s);
       (cmd_KONGTIAO, kongtiao_dev_control_func wr ip dev_cmd n s); (cmd_TV, tv_dev_control_func wr ip dev_cmd n s)].
Proof.
  intros Ha Hn ip. pose proof (ip_bytes addr Ha) as Hip. fold ip in Hip. split; [|split].
  - unfold protocol. repeat apply Forall_cons_2; try apply Forall_nil_2;
      unfold control_type; cbn [Z.eqb TYPE_SW_DEV TYPE_CL_DEV TYPE_DOOR_DEV TYPE_KONGTIAO_DEV TYPE_TV_DEV Pos.eqb]; cbv iota zeta;
      rewrite ?switch_control_run;
      unfold chuanglian_dev_control_func, door_dev_control_func, kongtiao_dev_control_func, tv_dev_control_func,
        switch_frame, chuanglian_frame, door_frame, kongtiao_frame, tv_frame, WriteToUart;
      rewrite Hip; by destruct (n =? 0).
  - apply switch_wait_sent.
  - clear Hip. clearbody ip. intros dev_cmd. exists (switch_frame ip dev_cmd n). split; [by apply switch_frame_for|]. split; [apply switch_control_run|].
    repeat (apply Forall_cons; split; [split; [|split; [done|]]|]); try done;
      try (unfold last_frame, WriteToUart; simpl; by rewrite last_snoc);
      eexists; (split; [reflexivity|]);
      unfold frame_for, chuanglian_frame, door_frame, kongtiao_frame, tv_frame; frame_tac ip.
Qed.

Lemma control_frames_wellformed_witness :
  0 <= 0x3F2A < 65536 /\ byte_range 3 /\
  control_type (fun _ => false) (fun _ q => q) 1 TYPE_SW_DEV (Some (ip_text 0x3F2A)) CMD_SW_OPEN 3 (mk_uart [] []) =
    Some (false, mk_uart [[0x02; 0x2A; 0x3F; 0x01; 3; 0x10]] []).
Proof.
  assert (byte_range 3) as H by (unfold byte_range; lia). split; [lia|]. split; [exact H|].
  pose proof (proj1 (control_frames_wellformed (fun _ => false) (fun _ q => q) 1 0x3F2A 3 (mk_uart [] []) ltac:(lia) H)) as HF.
  exact (Forall_inv HF).
Defined.

(** A frame answers itself only. *)
Lemma answers_frame f d : length f = 6%nat -> length d = UART_DATA_NUM -> answers f 6 d <-> d = f.
Proof. intros Hf Hd. unfold answers. by rewrite !take_ge by (rewrite ?Hf, ?Hd; done). Qed.

(** What one attempt finds. *)
Lemma attempt_spec f q : length f = 6%nat -> slots_sized q ->
  match uart_check f 6 6 q with
  | Some (got, q') => got = Some f /\ exists l1 l2, pending q = l1 ++ f :: l2 /\ pending q' = l1 ++ l2 /\ f ∉ l1
  | None => f ∉ pending q
  end.
Proof.
  intros Hlen Hsz. pose proof (uart_check_spec f 6 6 q Hsz ltac:(done) ltac:(by rewrite Hlen)) as Hs.
  destruct (uart_check f 6 6 q) as [[got q']|].
  - destruct Hs as (l1 & d & l2 & Hp & Hp' & -> & Ha & Hno & _).
    assert (forall x, x ∈ pending q -> length x = UART_DATA_NUM) as Hx by (intros; by eapply pending_sized).
    assert (length d = UART_DATA_NUM) as Hd by (apply Hx; rewrite Hp, elem_of_app, elem_of_cons; by right; left).
    apply answers_frame in Ha as ->; [|done|done].
    split; [unfold copy_out; rewrite Hlen; cbn; by rewrite take_ge by (by rewrite Hlen)|].
    exists l1, l2. split; [done|]. split; [done|]. intros Hin. rewrite Forall_forall in Hno. apply (Hno f Hin). by apply answers_frame.
  - intros Hin. rewrite Forall_forall in Hs. apply (Hs f Hin). by apply answers_frame.
Qed.

(** A wait ends when the frame is echoed. *)
Lemma switch_wait_ends sched fuel f u k : length f = 6%nat -> (forall j, slots_sized (table_at sched (table u) j)) ->
  f ∈ pending (table_at sched (table u) k) -> (k < fuel)%nat -> exists q, switch_wait sched fuel f u = Some (true, mk_uart (sent u) q).
Proof.
  intros Hf Hsz Hk Hlt. pose proof (attempt_spec f _ Hf (Hsz k)) as H.
  destruct (poll_ends sched f 6 6 (table u) k fuel) as (j & got & q & _ & E & _); [|done|].
  - intros E. by rewrite E in H.
  - exists q. unfold switch_wait. by rewrite E.
Qed.

(** C21: a switch command returns TRUE, when it is given the time, exactly when
    its frame was written and the device echoed it: at the first poll at which
    a frame equal to the command is pending, which is taken from the table.
    As long as none is, the call goes on waiting, with its frame sent.  When the
    write fails the call returns FALSE at once, and in no other case. *)
Theorem switch_control_acknowledged wr sched ip dev_cmd n s :
  byte_range n -> (forall k, slots_sized (table_at sched (table s) k)) ->
  let f := switch_frame ip dev_cmd n in
  let call fuel := switch_dev_control_func wr sched fuel ip dev_cmd n s in
  let echoed k := f ∈ pending (table_at sched (table s) k) in
  ((exists fuel s', call fuel = Some (true, s')) <-> wr f = true /\ exists k, echoed k) /\
  (forall k fuel, wr f = true -> echoed k -> (forall j, (j < k)%nat -> ~ echoed j) -> (k < fuel)%nat ->
     exists l1 l2 q, pending (table_at sched (table s) k) = l1 ++ f :: l2 /\ pending q = l1 ++ l2 /\ (f ∉ l1) /\
       call fuel = Some (true, mk_uart (sent s ++ [f]) q)) /\
  (forall fuel, wr f = true -> (forall k, (k < fuel)%nat -> ~ echoed k) ->
     call fuel = switch_wait sched fuel f (with_frame f s) /\ uart_check_from_queue sched f 6 6 fuel (table s) = None) /\
  (forall fuel, wr f = false -> call fuel = Some (false, with_frame f s)) /\
  (forall fuel s', call fuel = Some (false, s') -> wr f = false).
Proof.
  intros Hn Hsz f call echoed. destruct (switch_frame_for ip dev_cmd n Hn) as (Hlen & _ & _). fold f in Hlen.
  assert (forall fuel, call fuel = if wr f then switch_wait sched fuel f (with_frame f s) else Some (false, with_frame f s)) as Hcall
    by (intros; apply switch_control_run).
  assert (forall k, ~ echoed k -> uart_check f 6 6 (table_at sched (table s) k) = None) as Hmiss.
  { intros k Hk. pose proof (attempt_spec f _ Hlen (Hsz k)) as H. destruct (uart_check _ _ _ _) as [[got q']|]; [|done].
    destruct H as (_ & l1 & l2 & Hp & _). destruct Hk. unfold echoed. rewrite Hp, elem_of_app, elem_of_cons. by right; left. }
  assert (forall k fuel, wr f = true -> echoed k -> (forall j, (j < k)%nat -> ~ echoed j) -> (k < fuel)%nat ->
     exists l1 l2 q, pending (table_at sched (table s) k) = l1 ++ f :: l2 /\ pending q = l1 ++ l2 /\ (f ∉ l1) /\
       call fuel = Some (true, mk_uart (sent s ++ [f]) q)) as Hfirst.
  { intros k fuel Hw Hk Hb Hf. pose proof (attempt_spec f _ Hlen (Hsz k)) as H.
    destruct (uart_check f 6 6 (table_at sched (table s) k)) as [[got q']|] eqn:E; [|done].
    destruct H as (_ & l1 & l2 & Hp & Hp' & Hno). exists l1, l2, q'. do 3 (split; [done|]). rewrite Hcall, Hw. unfold switch_wait.
    cbn [with_frame table sent]. by rewrite (poll_returns sched f 6 6 _ k _ _ (fun j Hj => Hmiss j (Hb j Hj)) E fuel Hf). }
  split; [split|split; [exact Hfirst|split; [|split]]].
  - intros (fuel & s' & E). rewrite Hcall in E. destruct (wr f); [|done]. split; [done|]. unfold switch_wait, with_frame in E. cbn [table sent] in E.
    destruct (poll_outcome sched f 6 6 fuel (table s)) as [Hnone|(k & got & q' & _ & _ & _ & Hat)]; [by rewrite Hnone in E|].
    exists k. pose proof (attempt_spec f _ Hlen (Hsz k)) as H. rewrite Hat in H. destruct H as (_ & l1 & l2 & Hp & _).
    unfold echoed. rewrite Hp, elem_of_app, elem_of_cons. by right; left.
  - intros [Hw [k Hk]]. induction k as [k IH] using lt_wf_ind.
    destruct (decide (Exists (fun j => echoed j) (seq 0 k))) as [Hex|Hno].
    + apply Exists_exists in Hex as (j & Hj%elem_of_seq & He). apply (IH j); [lia|done].
    + destruct (Hfirst k (S k) Hw Hk) as (l1 & l2 & q & _ & _ & _ & E); [|lia|by eauto].
      intros j Hj He. apply Hno, Exists_exists. exists j. split; [apply elem_of_seq; lia|done].
  - intros fuel Hw Hk. split; [by rewrite Hcall, Hw|].
    destruct (poll_outcome sched f 6 6 fuel (table s)) as [Hnone|(k & got & q' & Hlt & _ & _ & Hat)]; [done|].
    by rewrite (Hmiss k (Hk k Hlt)) in Hat.
  - intros fuel Hw. by rewrite Hcall, Hw.
  - intros fuel s' E. rewrite Hcall in E. destruct (wr f); [|done]. unfold switch_wait, with_frame in E. cbn [table sent] in E.
    destruct (poll_outcome sched f 6 6 fuel (table s)) as [Hnone|(k & got & q' & _ & Hp & _)]; [by rewrite Hnone in E|by rewrite Hp in E].
Qed.

Lemma switch_control_acknowledged_witness :
  let f := [0x02; 0x2A; 0x3F; 0x01; 3; 0x10] in
  let q := uart_data_quene_init quene_static in
  let sched k q := if decide (k = 0%nat) then default q (uart_data_queuing f 6 q) else q in
  exists q', pending q' = [] /\ switch_dev_control_func (fun _ => true) sched 3 (Some "3F2A") CMD_SW_OPEN 3 (mk_uart [] q) = Some (true, mk_uart [f] q').
Proof.
  intros f q sched.
  assert (forall k, slots_sized (table_at sched q k)) as Hsz.
  { intros [|k]; [repeat constructor|]. induction k as [|k IH]; [repeat constructor|exact IH]. }
  pose proof (switch_control_acknowledged (fun _ => true) sched (Some "3F2A") CMD_SW_OPEN 3 (mk_uart [] q)
    ltac:(unfold byte_range; lia) Hsz) as (_ & H & _).
  destruct (H 1%nat 3%nat eq_refl) as (l1 & l2 & q' & Hp & Hq' & _ & E).
  - apply list_elem_of_In. vm_compute. auto.
  - intros j Hj. replace j with 0%nat by lia. intros Hin%list_elem_of_In. vm_compute in Hin. done.
  - lia.
  - exists q'. split; [|exact E]. vm_compute in Hp. destruct l1 as [|x l1]; [|by destruct l1]. injection Hp as <-. exact Hq'.
Defined.
