(* ===== verification/Sql.v ===== *)
(** * The database interface

    dev_manage keeps its data in SQLite files and talks to the library with
    SQL text built by [sprintf].  SQLite is not part of the repository: here
    is the interface the programs use ([Sqlite]) and what they rely on
    ([SqliteLaws]), stated for the fragment of SQL that occurs in the code:
    a lexer and a parser for it, the documented effect of each statement on
    tables, and the laws that say that the library has this effect.
    [RefSqlite] is an implementation of the interface that satisfies the laws. *)

From stdpp Require Import base list strings gmap.
From Stdlib Require Import ZArith Lia Ascii.
From S2P Require Import Prelude CString.

Open Scope Z_scope.

(** ** Tokens *)

Inductive token :=
  | TIdent (s : string)     (* identifiers and keywords, in lower case *)
  | TNum (z : Z)
  | TStr (s : string)       (* a string literal without its quotes *)
  | TSym (c : ascii).

Inductive lex_state :=
  | LNormal
  | LIdent (acc : string)
  | LNum (acc : Z)
  | LStr (acc : string)     (* inside a string literal *)
  | LQuote (acc : string)   (* after a quote that ends it or is doubled *)
  | LErr.

Definition is_alpha (c : ascii) : bool :=
  ((65 <=? code c) && (code c <=? 90)) || ((97 <=? code c) && (code c <=? 122)) || (code c =? 95).
Definition lower (c : ascii) : ascii :=
  if (65 <=? code c) && (code c <=? 90) then ascii_of_N (Z.to_N (code c + 32)) else c.
Definition is_sym (c : ascii) : bool := mem_char c "(),=;*&<!.-".
Definition quote : ascii := "'".

(** A character read between two tokens. *)
Definition lex_start (c : ascii) : list token * lex_state :=
  if isspace c then ([], LNormal)
  else if is_alpha c then ([], LIdent (String (lower c) ""))
  else if isdigit c then ([], LNum (code c - 48))
  else if Ascii.eqb c quote then ([], LStr "")
  else if is_sym c then ([TSym c], LNormal)
  else ([], LErr).

Definition emit (t : token) (r : list token * lex_state) : list token * lex_state := (t :: fst r, snd r).

Definition lex_step (st : lex_state) (c : ascii) : list token * lex_state :=
  match st with
  | LNormal => lex_start c
  | LIdent acc =>
      if is_alpha c || isdigit c then ([], LIdent (acc +:+ String (lower c) ""))
      else emit (TIdent acc) (lex_start c)
  | LNum acc =>
      if isdigit c then ([], LNum (10 * acc + (code c - 48)))
      else if is_alpha c then ([], LErr)
      else emit (TNum acc) (lex_start c)
  | LStr acc =>
      if Ascii.eqb c quote then ([], LQuote acc) else ([], LStr (acc +:+ String c ""))
  | LQuote acc =>
      if Ascii.eqb c quote then ([], LStr (acc +:+ String c ""))
      else emit (TStr acc) (lex_start c)
  | LErr => ([], LErr)
  end.

Fixpoint lex_run (st : lex_state) (s : string) : list token * lex_state :=
  match s with
  | EmptyString => ([], st)
  | String c s =>
      let '(t1, st1) := lex_step st c in
      let '(t2, st2) := lex_run st1 s in
      (t1 ++ t2, st2)
  end.

Definition lex_end (r : list token * lex_state) : option (list token) :=
  match snd r with
  | LNormal => Some (fst r)
  | LIdent acc => Some (fst r ++ [TIdent acc])
  | LNum acc => Some (fst r ++ [TNum acc])
  | LQuote acc => Some (fst r ++ [TStr acc])
  | LStr _ | LErr => None
  end.

Definition lex (s : string) : option (list token) := lex_end (lex_run LNormal s).

(** ** Syntax *)

Inductive value :=
  | VNull
  | VInt (z : Z)
  | VText (s : string).

Inductive expr :=
  | ELit (v : value)
  | ECol (c : string)
  | EEq (a b : expr)
  | ENe (a b : expr)
  | EAnd (a b : expr)
  | EOr (a b : expr)
  | EBitAnd (a b : expr)
  | EShl (a b : expr).

(** A column: its name, whether it has INTEGER affinity (TEXT otherwise),
    whether it is the INTEGER PRIMARY KEY AUTOINCREMENT, its default. *)
Record column := mk_col {
  c_name : string;
  c_int : bool;
  c_auto : bool;
  c_default : value
}.

Inductive stmt :=
  | SCreate (t : string) (cols : list column)
  | SInsert (t : string) (cols : option (list string)) (vals : list value)
  | SUpdate (t : string) (sets : list (string * value)) (w : expr)
  | SDelete (t : string) (w : expr)
  | SSelect (cols : option (list string)) (t : string) (w : option expr) (desc : option string)
  | SJoin (cols : list string) (t1 t2 : string) (k1 k2 : string).

(** ** Parser *)

Abbreviation parser A := (list token -> option (A * list token)).

(** Each returns what follows the expected token. *)
Definition eat_kw (k : string) (ts : list token) : option (list token) :=
  match ts with
  | TIdent s :: ts => if String.eqb s k then Some ts else None
  | _ => None
  end.
Definition eat_sym (c : ascii) (ts : list token) : option (list token) :=
  match ts with
  | TSym d :: ts => if Ascii.eqb d c then Some ts else None
  | _ => None
  end.
Fixpoint eat_kws (ks : list string) (ts : list token) : option (list token) :=
  match ks with
  | [] => Some ts
  | k :: ks => ts ← eat_kw k ts; eat_kws ks ts
  end.
Definition eat_ident : parser string := fun ts =>
  match ts with TIdent s :: ts => Some (s, ts) | _ => None end.

(** The first alternative that applies. *)
Definition alt {A} (o1 o2 : option A) : option A := match o1 with Some x => Some x | None => o2 end.

Definition parse_lit : parser value := fun ts =>
  match ts with
  | TNum z :: ts => Some (VInt z, ts)
  | TStr s :: ts => Some (VText s, ts)
  | TSym c :: TNum z :: ts => if Ascii.eqb c "-" then Some (VInt (- z), ts) else None
  | _ => None
  end.

(** The operators of each precedence level, loosest first: [or], [and],
    [=] and [!=], then [<<] and [&]. *)
Definition binop (level : nat) (ts : list token) : option ((expr -> expr -> expr) * list token) :=
  match level with
  | 0%nat => ts ← eat_kw "or" ts; Some (EOr, ts)
  | 1%nat => ts ← eat_kw "and" ts; Some (EAnd, ts)
  | 2%nat => alt (ts ← eat_sym "=" ts; Some (EEq, ts))
                 (ts ← eat_sym "!" ts; ts ← eat_sym "=" ts; Some (ENe, ts))
  | 3%nat => alt (ts ← eat_sym "&" ts; Some (EBitAnd, ts))
                 (ts ← eat_sym "<" ts; ts ← eat_sym "<" ts; Some (EShl, ts))
  | _ => None
  end.

Fixpoint parse_expr (fuel : nat) (level : nat) (ts : list token) : option (expr * list token) :=
  match fuel with
  | O => None
  | S fuel =>
      match level with
      | 4%nat =>
          match eat_sym "(" ts with
          | Some ts => '(e, ts) ← parse_expr fuel 0 ts; ts ← eat_sym ")" ts; Some (e, ts)
          | None =>
              alt ('(c, ts) ← eat_ident ts; Some (ECol c, ts))
                  ('(v, ts) ← parse_lit ts; Some (ELit v, ts))
          end
      | _ => '(e, ts) ← parse_expr fuel (S level) ts; parse_ops fuel level e ts
      end
  end
with parse_ops (fuel : nat) (level : nat) (e : expr) (ts : list token) : option (expr * list token) :=
  match fuel with
  | O => None
  | S fuel =>
      match binop level ts with
      | Some (op, ts) => '(e2, ts) ← parse_expr fuel (S level) ts; parse_ops fuel level (op e e2) ts
      | None => Some (e, ts)
      end
  end.

(** Each token needs at most six nested calls. *)
Definition parse_cond : parser expr := fun ts => parse_expr (6 * S (length ts)) 0 ts.

(** One or more items separated by commas. *)
Fixpoint sep_by {A} (p : parser A) (fuel : nat) (ts : list token) : option (list A * list token) :=
  match fuel with
  | O => None
  | S fuel =>
      '(x, ts) ← p ts;
      match eat_sym "," ts with
      | Some ts => '(l, ts) ← sep_by p fuel ts; Some (x :: l, ts)
      | None => Some ([x], ts)
      end
  end.
Definition comma_list {A} (p : parser A) : parser (list A) := fun ts => sep_by p (S (length ts)) ts.

Definition parens {A} (p : parser A) : parser A := fun ts =>
  ts ← eat_sym "(" ts; '(x, ts) ← p ts; ts ← eat_sym ")" ts; Some (x, ts).

(** [F_ID INTEGER PRIMARY KEY AUTOINCREMENT], [F_MAC VARCHAR(30)],
    [F_GROUPID INTEGER DEFAULT 1], [F_PERIOD INTEGER] *)
Definition parse_coldef : parser column := fun ts =>
  '(n, ts) ← eat_ident ts;
  match eat_kw "integer" ts with
  | Some ts =>
      alt (ts ← eat_kws ["primary"; "key"; "autoincrement"] ts; Some (mk_col n true true VNull, ts))
     (alt (ts ← eat_kw "default" ts; '(v, ts) ← parse_lit ts; Some (mk_col n true false v, ts))
          (Some (mk_col n true false VNull, ts)))
  | None =>
      ts ← eat_kw "varchar" ts; '(_, ts) ← parens parse_lit ts; Some (mk_col n false false VNull, ts)
  end.

Definition parse_set : parser (string * value) := fun ts =>
  '(c, ts) ← eat_ident ts; ts ← eat_sym "=" ts; '(v, ts) ← parse_lit ts; Some ((c, v), ts).

Definition parse_where : parser expr := fun ts => ts ← eat_kw "where" ts; parse_cond ts.

(** What follows [from t]: a condition, an order, a join or nothing. *)
Definition parse_join (cols : option (list string)) (t : string) : parser stmt := fun ts =>
  '(a, ts) ← eat_ident ts; ts ← eat_kws ["inner"; "join"] ts;
  '(t2, ts) ← eat_ident ts; '(b, ts) ← eat_ident ts; ts ← eat_kws ["on"; a] ts;
  ts ← eat_sym "." ts; '(k1, ts) ← eat_ident ts; ts ← eat_sym "=" ts;
  ts ← eat_kw b ts; ts ← eat_sym "." ts; '(k2, ts) ← eat_ident ts;
  l ← cols; Some (SJoin l t t2 k1 k2, ts).

Definition parse_select : parser stmt := fun ts =>
  '(cols, ts) ← alt (ts ← eat_sym "*" ts; Some (None, ts))
                    ('(l, ts) ← comma_list eat_ident ts; Some (Some l, ts));
  ts ← eat_kw "from" ts;
  '(t, ts) ← eat_ident ts;
  match eat_kw "where" ts with
  | Some _ => '(w, ts) ← parse_where ts; Some (SSelect cols t (Some w) None, ts)
  | None =>
      alt (ts ← eat_kws ["order"; "by"] ts; '(c, ts) ← eat_ident ts; ts ← eat_kw "desc" ts;
           Some (SSelect cols t None (Some c), ts))
     (alt (parse_join cols t ts) (Some (SSelect cols t None None, ts)))
  end.

Definition parse_insert : parser stmt := fun ts =>
  '(t, ts) ← eat_ident ts;
  match eat_kw "values" ts with
  | Some ts => '(vs, ts) ← parens (comma_list parse_lit) ts; Some (SInsert t None vs, ts)
  | None =>
      '(cs, ts) ← parens (comma_list eat_ident) ts; ts ← eat_kw "values" ts;
      '(vs, ts) ← parens (comma_list parse_lit) ts; Some (SInsert t (Some cs) vs, ts)
  end.

Definition parse_stmt : parser stmt := fun ts =>
  match eat_kws ["create"; "table"] ts with
  | Some ts => '(t, ts) ← eat_ident ts; '(cols, ts) ← parens (comma_list parse_coldef) ts; Some (SCreate t cols, ts)
  | None =>
  match eat_kws ["insert"; "into"] ts with
  | Some ts => parse_insert ts
  | None =>
  match eat_kw "update" ts with
  | Some ts =>
      '(t, ts) ← eat_ident ts; ts ← eat_kw "set" ts; '(sets, ts) ← comma_list parse_set ts;
      '(w, ts) ← parse_where ts; Some (SUpdate t sets w, ts)
  | None =>
  match eat_kws ["delete"; "from"] ts with
  | Some ts => '(t, ts) ← eat_ident ts; '(w, ts) ← parse_where ts; Some (SDelete t w, ts)
  | None => ts ← eat_kw "select" ts; parse_select ts
  end end end end.

(** A text holds statements separated by semicolons. *)
Fixpoint parse_stmts (fuel : nat) (ts : list token) : option (list stmt) :=
  match fuel with
  | O => None
  | S fuel =>
      match ts, eat_sym ";" ts with
      | [], _ => Some []
      | _, Some ts => parse_stmts fuel ts
      | _, None =>
          '(s, ts) ← parse_stmt ts;
          match ts with
          | [] => Some [s]
          | _ => ts ← eat_sym ";" ts; l ← parse_stmts fuel ts; Some (s :: l)
          end
      end
  end.

Definition parse_sql (s : string) : option (list stmt) :=
  ts ← lex s; parse_stmts (S (length ts)) ts.

(** ** Tables and the effect of statements

    A function of this section returns [None] outside the fragment: the laws
    then say nothing. *)

(** [t_seq] is the largest key AUTOINCREMENT has given out. *)
Record table := mk_table {
  t_cols : list column;
  t_seq : Z;
  t_rows : list (list value)
}.

Abbreviation sqldb := (gmap string table).

Inductive affinity := AffInt | AffText | AffNone.

(** Numeric affinity applied to a text: only plain decimal digits are in the
    fragment. *)
Definition to_num (v : value) : option value :=
  match v with
  | VText s =>
      if all_chars isdigit s && (0 <? String.length s)%nat && (String.length s <=? 18)%nat
      then Some (VInt (digits_value 10 0 s)) else None
  | _ => Some v
  end.
Definition to_text (v : value) : value :=
  match v with VInt z => VText (fmt_d z) | _ => v end.

Definition value_eqb (a b : value) : bool :=
  match a, b with
  | VInt x, VInt y => x =? y
  | VText x, VText y => String.eqb x y
  | _, _ => false
  end.

Definition of_bool (b : bool) : value := VInt (if b then 1 else 0).

(** [a = b] with the conversions the column affinities ask for. *)
Definition cmp_eq (a b : value * affinity) : option (option bool) :=
  match fst a, fst b with
  | VNull, _ | _, VNull => Some None
  | v, w =>
      match snd a, snd b with
      | AffInt, (AffText | AffNone) => w ← to_num w; Some (Some (value_eqb v w))
      | (AffText | AffNone), AffInt => v ← to_num v; Some (Some (value_eqb v w))
      | AffText, AffNone => Some (Some (value_eqb v (to_text w)))
      | AffNone, AffText => Some (Some (value_eqb (to_text v) w))
      | _, _ => Some (Some (value_eqb v w))
      end
  end.

Definition of_tri (o : option bool) : value := match o with Some b => of_bool b | None => VNull end.
Definition to_tri (v : value) : option (option bool) :=
  match v with
  | VInt z => Some (Some (negb (z =? 0)))
  | VNull => Some None
  | VText _ => None
  end.
Definition tri_and (a b : option bool) : option bool :=
  match a, b with
  | Some false, _ | _, Some false => Some false
  | Some true, Some true => Some true
  | _, _ => None
  end.
Definition tri_or (a b : option bool) : option bool :=
  match a, b with
  | Some true, _ | _, Some true => Some true
  | Some false, Some false => Some false
  | _, _ => None
  end.

(** The value of a column in a row. *)
Fixpoint col_value (cols : list column) (row : list value) (c : string) : option (value * affinity) :=
  match cols, row with
  | k :: cols, v :: row =>
      if String.eqb (c_name k) c then Some (v, if c_int k then AffInt else AffText)
      else col_value cols row c
  | _, _ => None
  end.

Fixpoint eval (cols : list column) (row : list value) (e : expr) : option (value * affinity) :=
  let bool2 (f : option bool -> option bool -> option bool) a b :=
    '(a, _) ← eval cols row a; '(b, _) ← eval cols row b;
    a ← to_tri a; b ← to_tri b; Some (of_tri (f a b), AffNone) in
  match e with
  | ELit v => Some (v, AffNone)
  | ECol c => col_value cols row c
  | EEq a b => a ← eval cols row a; b ← eval cols row b; r ← cmp_eq a b; Some (of_tri r, AffNone)
  | ENe a b => a ← eval cols row a; b ← eval cols row b; r ← cmp_eq a b; Some (of_tri (negb <$> r), AffNone)
  | EAnd a b => bool2 tri_and a b
  | EOr a b => bool2 tri_or a b
  | EBitAnd a b =>
      '(a, _) ← eval cols row a; '(b, _) ← eval cols row b;
      match a, b with VInt x, VInt y => Some (VInt (Z.land x y), AffNone) | _, _ => None end
  | EShl a b =>
      '(a, _) ← eval cols row a; '(b, _) ← eval cols row b;
      match a, b with
      | VInt x, VInt n => if (0 <=? n) && (n <? 31) then Some (VInt (Z.shiftl x n), AffNone) else None
      | _, _ => None
      end
  end.

(** Does a row satisfy a condition?  NULL counts as false. *)
Definition holds (cols : list column) (e : expr) (row : list value) : option bool :=
  '(v, _) ← eval cols row e; r ← to_tri v; Some (default false r).

Fixpoint filter_opt {A} (f : A -> option bool) (l : list A) : option (list A) :=
  match l with
  | [] => Some []
  | x :: l => b ← f x; l ← filter_opt f l; Some (if b : bool then x :: l else l)
  end.
Fixpoint map_opt {A B} (f : A -> option B) (l : list A) : option (list B) :=
  match l with
  | [] => Some []
  | x :: l => y ← f x; l ← map_opt f l; Some (y :: l)
  end.

(** What is stored for a value in a column. *)
Definition store (c : column) (v : value) : option value :=
  if c_int c then to_num v else Some (to_text v).

Fixpoint assoc {A} (k : string) (l : list (string * A)) : option A :=
  match l with
  | [] => None
  | (k', x) :: l => if String.eqb k' k then Some x else assoc k l
  end.

Definition next_id (t : table) : Z :=
  1 + foldr (fun row m => match row with VInt z :: _ => Z.max z m | _ => m end) (t_seq t) (t_rows t).

(** A new row from the named values; the key column is filled in. *)
Fixpoint build_row (cols : list column) (key : Z) (vals : list (string * value)) : option (list value) :=
  match cols with
  | [] => Some []
  | c :: cols =>
      v ← (if c_auto c then match assoc (c_name c) vals with None => Some (VInt key) | Some _ => None end
           else match assoc (c_name c) vals with Some v => store c v | None => Some (c_default c) end);
      row ← build_row cols key vals; Some (v :: row)
  end.

Definition has_auto (cols : list column) : bool := existsb c_auto cols.

Fixpoint update_row (cols : list column) (sets : list (string * value)) (row : list value) : option (list value) :=
  match cols, row with
  | c :: cols, v :: row =>
      v ← match assoc (c_name c) sets with
          | Some w => if c_auto c then None else store c w
          | None => Some v
          end;
      row ← update_row cols sets row; Some (v :: row)
  | [], [] => Some []
  | _, _ => None
  end.

Definition project (cols : list column) (names : list string) (row : list value) : option (list value) :=
  map_opt (fun c => fst <$> col_value cols row c) names.

(** A statement that changes the database: success and the new tables, or
    an error and no change. *)
Definition exec_stmt (s : stmt) (db : sqldb) : option (bool * sqldb) :=
  match s with
  | SCreate t cols =>
      match db !! t with
      | Some _ => Some (false, db)                       (* table already exists *)
      | None => Some (true, <[t := mk_table cols 0 []]> db)
      end
  | SInsert t cs vals =>
      match db !! t with
      | None => Some (false, db)                         (* no such table *)
      | Some tb =>
          let names := match cs with Some cs => cs | None => c_name <$> t_cols tb end in
          if negb (length names =? length vals)%nat then Some (false, db)
          else
            let key := next_id tb in
            row ← build_row (t_cols tb) key (zip names vals);
            Some (true, <[t := mk_table (t_cols tb)
                            (if has_auto (t_cols tb) then key else t_seq tb) (t_rows tb ++ [row])]> db)
      end
  | SUpdate t sets w =>
      match db !! t with
      | None => Some (false, db)
      | Some tb =>
          rows ← map_opt (fun row => b ← holds (t_cols tb) w row;
                                     if b : bool then update_row (t_cols tb) sets row else Some row) (t_rows tb);
          Some (true, <[t := mk_table (t_cols tb) (t_seq tb) rows]> db)
      end
  | SDelete t w =>
      match db !! t with
      | None => Some (false, db)
      | Some tb =>
          rows ← filter_opt (fun row => b ← holds (t_cols tb) w row; Some (negb b)) (t_rows tb);
          Some (true, <[t := mk_table (t_cols tb) (t_seq tb) rows]> db)
      end
  | SSelect _ _ _ _ | SJoin _ _ _ _ _ => None
  end.

Fixpoint exec_stmts (l : list stmt) (db : sqldb) : option (bool * sqldb) :=
  match l with
  | [] => Some (true, db)
  | s :: l =>
      '(ok, db) ← exec_stmt s db;
      if ok : bool then exec_stmts l db else Some (false, db)
  end.

Definition run_sql (s : string) (db : sqldb) : option (bool * sqldb) :=
  l ← parse_sql s; exec_stmts l db.

(** Insertion into rows sorted by decreasing integer key. *)
Fixpoint insert_desc (x : Z * list value) (l : list (Z * list value)) : list (Z * list value) :=
  match l with
  | [] => [x]
  | y :: l' => if fst y <=? fst x then x :: l else y :: insert_desc x l'
  end.
Definition sort_desc (l : list (Z * list value)) : list (Z * list value) := foldr insert_desc [] l.

Definition select_rows (s : stmt) (db : sqldb) : option (list (list value)) :=
  match s with
  | SSelect cs t w desc =>
      tb ← db !! t;
      rows ← match w with Some w => filter_opt (holds (t_cols tb) w) (t_rows tb) | None => Some (t_rows tb) end;
      rows ← match desc with
             | None => Some rows
             | Some c =>
                 keyed ← map_opt (fun row => '(v, _) ← col_value (t_cols tb) row c;
                                   match v with VInt z => Some (z, row) | _ => None end) rows;
                 Some (snd <$> sort_desc keyed)
             end;
      match cs with None => Some rows | Some cs => map_opt (project (t_cols tb) cs) rows end
  | SJoin cs t1 t2 k1 k2 =>
      a ← db !! t1; b ← db !! t2;
      let pairs := r1 ← t_rows a; r2 ← t_rows b; [(r1, r2)] in
      kept ← filter_opt (fun p => x ← col_value (t_cols a) (fst p) k1; y ← col_value (t_cols b) (snd p) k2;
                          r ← cmp_eq x y; Some (default false r)) pairs;
      map_opt (fun p => map_opt (fun c =>
        match col_value (t_cols a) (fst p) c, col_value (t_cols b) (snd p) c with
        | Some x, None => Some (fst x)
        | None, Some y => Some (fst y)
        | _, _ => None                                    (* ambiguous or unknown *)
        end) cs) kept
  | _ => None
  end.

(** A query and whether its rows come in a specified order. *)
Definition query_sql (s : string) (db : sqldb) : option (bool * list (list value)) :=
  l ← parse_sql s;
  match l with
  | [q] =>
      rows ← select_rows q db;
      Some (match q with SSelect _ _ _ (Some _) => true | _ => false end, rows)
  | _ => None
  end.

(** ** The interface *)

(** [sqlite3_get_table]: the numbers of rows and columns, and the flat array
    of column names followed by the cells, row by row (NULL cells are null
    pointers). *)
Record get_table_result := mk_result {
  row_num : nat;
  column_num : nat;
  azResult : list (option string)
}.

Definition SQLITE_OK : Z := 0.
Definition SQLITE_ERROR : Z := 1.

Class Sqlite := {
  conn : Type;
  sqlite3_open : conn -> Z * conn;
  sqlite3_exec : string -> conn -> Z * conn;
  sqlite3_get_table : string -> conn -> get_table_result * conn
}.

Definition cell (v : value) : option string :=
  match v with VNull => None | VInt z => Some (fmt_d z) | VText s => Some s end.

(** The answer for the rows [rows]; without rows there are no columns. *)
Definition result_for (rows : list (list value)) (r : get_table_result) : Prop :=
  row_num r = length rows /\
  exists names, length names = column_num r /\ azResult r = names ++ (cell <$> concat rows) /\
    Forall (fun row => length row = column_num r) rows.

(** What the programs rely on.  [view c] are the tables of the file;
    [ready c] says that it can be opened and read and is not locked. *)
Class SqliteLaws (S : Sqlite) := {
  view : conn -> sqldb;
  ready : conn -> Prop;
  open_law c : ready c -> exists c', sqlite3_open c = (SQLITE_OK, c') /\ ready c' /\ view c' = view c;
  exec_law s c ok db : ready c -> run_sql s (view c) = Some (ok, db) ->
    exists rc c', sqlite3_exec s c = (rc, c') /\ ready c' /\ view c' = db /\ (rc = SQLITE_OK <-> ok = true);
  get_table_law s c ordered rows : ready c -> query_sql s (view c) = Some (ordered, rows) ->
    exists rows' r c', sqlite3_get_table s c = (r, c') /\ ready c' /\ view c' = view c /\
      result_for rows' r /\ rows' ≡ₚ rows /\ (ordered = true -> rows' = rows)
}.

(** ** Helper lemmas *)

Lemma filter_opt_sub {A} (f : A -> option bool) l l' :
  filter_opt f l = Some l' -> forall P : A -> Prop, Forall P l -> Forall P l'.
Proof.
  revert l'. induction l as [|x l IH]; simpl; intros l' H P HP; simplify_eq; [done|].
  destruct (f x) as [b|]; simplify_eq/=. destruct (filter_opt f l) as [l''|]; simplify_eq/=.
  apply Forall_cons in HP as [Hx HP]. specialize (IH l'' eq_refl P HP).
  destruct b; [by constructor|done].
Qed.

Lemma map_opt_Forall {A B} (f : A -> option B) l l' (P : B -> Prop) :
  map_opt f l = Some l' -> (forall x y, x ∈ l -> f x = Some y -> P y) -> Forall P l'.
Proof.
  revert l'. induction l as [|x l IH]; simpl; intros l' H HP; simplify_eq; [done|].
  destruct (f x) as [y|] eqn:E; simplify_eq/=. destruct (map_opt f l) as [l''|]; simplify_eq/=.
  constructor.
  - eapply HP; [|done]. by left.
  - apply IH; [done|]. intros x' y' Hx'. apply HP. by right.
Qed.

Lemma map_opt_length {A B} (f : A -> option B) l l' : map_opt f l = Some l' -> length l' = length l.
Proof.
  revert l'. induction l as [|x l IH]; simpl; intros l' H; simplify_eq; [done|].
  destruct (f x); simplify_eq/=. destruct (map_opt f l) as [l''|]; simplify_eq/=. by rewrite (IH l'').
Qed.

(** On encoded rows a condition that decides a predicate selects by it. *)
Lemma filter_opt_fmap {A B} (enc : A -> B) (f : B -> option bool) (p : A -> bool) l :
  (forall x, f (enc x) = Some (p x)) -> filter_opt f (enc <$> l) = Some (enc <$> List.filter p l).
Proof.
  intros H. induction l as [|x l IH]; [done|]. csimpl. rewrite H. csimpl. rewrite IH. csimpl.
  by destruct (p x).
Qed.

Lemma map_opt_fmap {A B C} (enc : A -> B) (f : B -> option C) (g : A -> C) l :
  (forall x, f (enc x) = Some (g x)) -> map_opt f (enc <$> l) = Some (g <$> l).
Proof.
  intros H. induction l as [|x l IH]; [done|]. csimpl. rewrite H. csimpl. by rewrite IH.
Qed.

(** ** Reading the text the programs build *)

Lemma lex_run_app st a b :
  lex_run st (a +:+ b) =
  let '(t1, st1) := lex_run st a in let '(t2, st2) := lex_run st1 b in (t1 ++ t2, st2).
Proof.
  revert st. induction a as [|c a IH]; intros st; simpl.
  - by destruct (lex_run st b).
  - destruct (lex_step st c) as [t0 st0]. rewrite IH.
    destruct (lex_run st0 a) as [t1 st1]. destruct (lex_run st1 b) as [t2 st2]. by rewrite app_assoc.
Qed.

Lemma lex_run_app_eq st a b t1 st1 t2 st2 :
  lex_run st a = (t1, st1) -> lex_run st1 b = (t2, st2) -> lex_run st (a +:+ b) = (t1 ++ t2, st2).
Proof. intros H1 H2. by rewrite lex_run_app, H1, H2. Qed.

(** Text without quotes keeps its meaning inside a string literal. *)
Definition quote_free (s : string) : bool := all_chars (fun c => negb (Ascii.eqb c quote)) s.

Lemma lex_run_str acc s : quote_free s = true -> lex_run (LStr acc) s = ([], LStr (acc +:+ s)).
Proof.
  revert acc. induction s as [|c s IH]; intros acc H.
  - simpl. by rewrite app_nil_r_s.
  - unfold quote_free in *. cbn in H. apply andb_prop in H as [Hc Hs]. apply negb_true_iff in Hc.
    cbn. rewrite Hc, IH by done. by rewrite app_assoc_s.
Qed.

Lemma lex_run_num acc s :
  all_chars isdigit s = true -> lex_run (LNum acc) s = ([], LNum (digits_value 10 acc s)).
Proof.
  revert acc. induction s as [|c s IH]; intros acc H; [done|].
  cbn in H. apply andb_prop in H as [Hc Hs]. cbn. rewrite Hc, IH by done.
  unfold digit_of. rewrite Hc. unfold isdigit in Hc. replace (code c - 48 <? 10) with true by lia.
  by rewrite (Z.mul_comm acc 10).
Qed.

(** A decimal number after a character that ends the previous token. *)
Lemma lex_run_digits n :
  0 <= n < 2 ^ 32 -> lex_run LNormal (fmt_d n) = ([], LNum n).
Proof.
  intros Hn. rewrite fmt_d_nonneg by lia.
  pose proof (digits_value_unsigned 10 n ltac:(lia) Hn) as Hv.
  pose proof (unsigned_digits_digits n) as Hd.
  destruct (digits_of_nonempty 31 10 n "") as (c & s & E). unfold unsigned_digits in *.
  rewrite E in *. cbn in Hd. apply andb_prop in Hd as [Hc Hs]. cbn [lex_run lex_step lex_start].
  cbn [digits_value] in Hv. unfold digit_of in Hv. rewrite Hc in Hv. unfold isdigit in Hc.
  replace (code c - 48 <? 10) with true in Hv by lia. rewrite Z.mul_0_l, Z.add_0_l in Hv.
  unfold lex_start, isspace, is_alpha, isdigit.
  replace ((code c =? 32) || ((9 <=? code c) && (code c <=? 13))) with false by lia.
  replace (((65 <=? code c) && (code c <=? 90)) || ((97 <=? code c) && (code c <=? 122)) || (code c =? 95))
    with false by lia.
  rewrite Hc. rewrite lex_run_num by done. by rewrite Hv.
Qed.

(** ** An implementation of the interface *)

Definition table_wf (tb : table) : Prop := Forall (fun row => length row = length (t_cols tb)) (t_rows tb).
Definition db_wf (db : sqldb) : Prop := map_Forall (fun _ tb => table_wf tb) db.

Lemma build_row_length cols key vals row : build_row cols key vals = Some row -> length row = length cols.
Proof.
  revert row. induction cols as [|c cols IH]; simpl; intros row H; simplify_eq; [done|].
  match type of H with (?o ≫= _) = _ => destruct o; simplify_eq/= end.
  destruct (build_row cols key vals) as [r|]; simplify_eq/=. by rewrite (IH r).
Qed.

Lemma update_row_length cols sets row row' : update_row cols sets row = Some row' -> length row' = length cols.
Proof.
  revert row row'. induction cols as [|c cols IH]; intros [|v row] row' H; simplify_eq/=; [done|].
  match type of H with (?o ≫= _) = _ => destruct o; simplify_eq/= end.
  destruct (update_row cols sets row) as [r|] eqn:E; simplify_eq/=. by rewrite (IH row r).
Qed.

Lemma exec_stmt_wf s db ok db' : db_wf db -> exec_stmt s db = Some (ok, db') -> db_wf db'.
Proof.
  intros Hwf. assert (forall t tb, db !! t = Some tb -> table_wf tb) as Hg by (intros; by eapply Hwf).
  destruct s as [t cols|t cs vals|t sets w|t w| |]; simpl; intros H; [..|done|done];
    destruct (db !! t) as [tb|] eqn:E; simplify_eq; try done.
  - apply map_Forall_insert_2; [by constructor|done].
  - destruct (negb _); simplify_eq; [done|]. destruct (build_row _ _ _) as [row|] eqn:Eb; simplify_eq/=.
    apply map_Forall_insert_2; [|done]. unfold table_wf. simpl. apply Forall_app. split; [by eapply Hg|].
    constructor; [by eapply build_row_length|done].
  - match type of H with (?o ≫= _) = _ => destruct o as [rows|] eqn:Eb; simplify_eq/= end.
    apply map_Forall_insert_2; [|done]. unfold table_wf. simpl. eapply map_opt_Forall; [exact Eb|].
    intros x y Hx Hy. simpl in Hy. destruct (holds _ _ _) as [[]|]; simplify_eq/=.
    + by eapply update_row_length.
    + specialize (Hg _ _ E). unfold table_wf in Hg. rewrite Forall_forall in Hg. by apply Hg.
  - match type of H with (?o ≫= _) = _ => destruct o as [rows|] eqn:Eb; simplify_eq/= end.
    apply map_Forall_insert_2; [|done]. unfold table_wf. simpl. eapply filter_opt_sub; [exact Eb|].
    by apply (Hg _ _ E).
Qed.

Lemma run_sql_wf s db ok db' : db_wf db -> run_sql s db = Some (ok, db') -> db_wf db'.
Proof.
  unfold run_sql. destruct (parse_sql s) as [l|]; [|done]. simpl.
  revert db. induction l as [|q l IH]; simpl; intros db Hwf H; simplify_eq; [done|].
  destruct (exec_stmt q db) as [[[] db1]|] eqn:E; simplify_eq/=; [|by eapply exec_stmt_wf].
  eapply IH; [|done]. by eapply exec_stmt_wf.
Qed.

Lemma insert_desc_perm x l : insert_desc x l ≡ₚ x :: l.
Proof.
  induction l as [|y l IH]; simpl; [done|]. destruct (fst y <=? fst x); [done|].
  rewrite IH. apply Permutation_swap.
Qed.

Lemma sort_desc_perm l : sort_desc l ≡ₚ l.
Proof. induction l as [|x l IH]; simpl; [done|]. by rewrite insert_desc_perm, IH. Qed.

Lemma query_width s db ordered rows :
  db_wf db -> query_sql s db = Some (ordered, rows) -> exists n, Forall (fun row : list value => length row = n) rows.
Proof.
  intros Hwf. unfold query_sql. destruct (parse_sql s) as [[|q []]|]; simpl; try done.
  destruct (select_rows q db) as [rs|] eqn:E; simpl; intros H; simplify_eq.
  destruct q as [| | | |cs t w desc|cs t1 t2 k1 k2]; simpl in E; try done.
  - destruct (db !! t) as [tb|] eqn:Et; simplify_eq/=.
    match type of E with (?o ≫= _) = _ => destruct o as [rows1|] eqn:E1; simplify_eq/= end.
    match type of E with (?o ≫= _) = _ => destruct o as [rows2|] eqn:E2; simplify_eq/= end.
    destruct cs as [cs|].
    + exists (length cs). eapply map_opt_Forall; [exact E|]. intros x y _ Hy. by eapply map_opt_length.
    + injection E as <-. exists (length (t_cols tb)).
      assert (Forall (fun row => length row = length (t_cols tb)) rows1) as H1.
      { pose proof (Hwf _ _ Et) as Htb. destruct w; simplify_eq; [|exact Htb].
        eapply filter_opt_sub; [exact E1|exact Htb]. }
      destruct desc as [c|]; simplify_eq/=; [|done].
      destruct (map_opt _ rows1) as [keyed|] eqn:Ek; simplify_eq/=.
      rewrite Forall_fmap, sort_desc_perm. eapply map_opt_Forall; [exact Ek|].
      intros x [z y] Hx Hy. simpl in *. destruct (col_value _ x c) as [[v ?]|]; simplify_eq/=.
      destruct v; simplify_eq/=. rewrite Forall_forall in H1. by apply H1.
  - destruct (db !! t1); simplify_eq/=. destruct (db !! t2); simplify_eq/=.
    match type of E with (?o ≫= _) = _ => destruct o as [kept|]; simplify_eq/= end.
    exists (length cs). eapply map_opt_Forall; [exact E|]. intros x y _ Hy. exact (map_opt_length _ _ _ Hy).
Qed.

(** The tables themselves serve as the connection. *)
#[export] Instance RefSqlite : Sqlite := {|
  conn := sqldb;
  sqlite3_open db := (SQLITE_OK, db);
  sqlite3_exec s db :=
    match run_sql s db with
    | Some (true, db') => (SQLITE_OK, db')
    | Some (false, db') => (SQLITE_ERROR, db')
    | None => (SQLITE_ERROR, db)
    end;
  sqlite3_get_table s db :=
    (match query_sql s db with
     | Some (_, rows) =>
         let n := match rows with [] => 0%nat | row :: _ => length row end in
         mk_result (length rows) n (replicate n (Some "") ++ (cell <$> concat rows))
     | None => mk_result 0 0 []
     end, db)
|}.

#[export] Instance RefSqliteLaws : SqliteLaws RefSqlite.
Proof.
  refine {| view := (fun db : conn => db : sqldb); ready := (fun db : conn => db_wf db) |}.
  - intros c Hc. by exists c.
  - intros s c ok db Hc H. cbn. rewrite H. destruct ok; do 2 eexists;
      (split; [reflexivity|]; split; [by eapply run_sql_wf|]; split; [done|]); unfold SQLITE_OK, SQLITE_ERROR;
      split; congruence.
  - intros s c ordered rows Hc H. cbn. rewrite H.
    destruct (query_width s c ordered rows Hc H) as [n Hn].
    exists rows. do 2 eexists. split; [reflexivity|]. split; [done|]. split; [done|]. split; [|done].
    split; [done|]. simpl. eexists. split; [|split; [reflexivity|]]; [by rewrite length_replicate|].
    destruct rows as [|row rows]; [done|]. simpl.
    apply Forall_cons in Hn as Hn'. destruct Hn' as [-> _]. exact Hn.
Defined.
