(* ===== verification/DevState.v ===== *)
(** * The state of the dev_manage daemon

    The files of src/src/dev_manage share three SQLite files and a number of
    static buffers.  This file gathers them in one record, with the effects
    the daemon has on the rest of the world, and the two database calls of
    the interface lifted to the monad. *)

From stdpp Require Import base list strings gmap.
From Stdlib Require Import ZArith Lia Ascii.
From S2P Require Import Prelude CString Sql UartQueue DevControl.

Open Scope Z_scope.

(** What the daemon sends out. *)
Inductive event :=
  | EvReply (s : string)          (* write() to the client's socket *)
  | EvClose                       (* close() of the client's socket *)
  | EvBroadcast (msg : string)    (* sendto() 255.255.255.255 *)
  | EvSystem (cmd : string)       (* system() *)
  | EvModem (s : string)          (* write() to the GSM modem *)
  | EvLog (line : string)         (* fwrite() to /var/log/gsm.txt *)
  | EvMail (to body : string) (server : Z)    (* SendMail() *)
  | EvMailThread                  (* pthread_create(send_mail_thread) *)
  | EvMobileThread (name : string) (* pthread_create(send_msg_thread) *)
  | EvMessageThread               (* pthread_create(user_msg_process) *)
  | EvLed (item state : Z).       (* ioctl() on /dev/led *)

(** [dst[strlen(dst) - 1] = c] *)
Fixpoint set_last (c : ascii) (s : string) : option string :=
  match s with
  | EmptyString => None
  | String _ EmptyString => Some (String c "")
  | String a s => s ← set_last c s; Some (String a s)
  end.

(** [dst[strlen(dst) - 1] = '\0'] *)
Fixpoint drop_last (s : string) : option string :=
  match s with
  | EmptyString => None
  | String _ EmptyString => Some ""
  | String a s => s ← drop_last s; Some (String a s)
  end.
Section State.
Context `{Sqlite}.

Record dm_state := mk_dm {
  f_dev : conn;                   (* /usr/dev/dev.db: devices and timer tasks *)
  f_user : conn;                  (* /usr/dev/user.db: alarm receivers *)
  f_city : conn;                  (* /usr/dev/city.db *)
  g_dev_list : string;            (* char[1024*4] *)
  g_unicode_dev_list : string;    (* char[1024*16] *)
  g_group_name : string;          (* char[1024*4] *)
  g_email_list : string;          (* char[1024] *)
  g_mobile_list : string;         (* char[1024] *)
  g_alarm_alllist : string;       (* char[1024*4] *)
  g_timertask_info : string;      (* char[1024*4] *)
  uart_st : uart_state;
  family_ini : option string;     (* the file /usr/dev/family_info.ini *)
  mail_body : string;             (* body, char[1024*24] *)
  out : list event                (* oldest first *)
}.

(** The file a module works on, and the buffers it fills. *)
Record dbfile := mk_dbfile {
  sel : dm_state -> conn;
  upd : conn -> dm_state -> dm_state
}.

Definition set_f_dev c s := mk_dm c (f_user s) (f_city s) (g_dev_list s) (g_unicode_dev_list s) (g_group_name s)
  (g_email_list s) (g_mobile_list s) (g_alarm_alllist s) (g_timertask_info s) (uart_st s) (family_ini s) (mail_body s) (out s).
Definition set_f_user c s := mk_dm (f_dev s) c (f_city s) (g_dev_list s) (g_unicode_dev_list s) (g_group_name s)
  (g_email_list s) (g_mobile_list s) (g_alarm_alllist s) (g_timertask_info s) (uart_st s) (family_ini s) (mail_body s) (out s).
Definition set_f_city c s := mk_dm (f_dev s) (f_user s) c (g_dev_list s) (g_unicode_dev_list s) (g_group_name s)
  (g_email_list s) (g_mobile_list s) (g_alarm_alllist s) (g_timertask_info s) (uart_st s) (family_ini s) (mail_body s) (out s).
Definition set_dev_list x s := mk_dm (f_dev s) (f_user s) (f_city s) x (g_unicode_dev_list s) (g_group_name s)
  (g_email_list s) (g_mobile_list s) (g_alarm_alllist s) (g_timertask_info s) (uart_st s) (family_ini s) (mail_body s) (out s).
Definition set_unicode_dev_list x s := mk_dm (f_dev s) (f_user s) (f_city s) (g_dev_list s) x (g_group_name s)
  (g_email_list s) (g_mobile_list s) (g_alarm_alllist s) (g_timertask_info s) (uart_st s) (family_ini s) (mail_body s) (out s).
Definition set_group_name x s := mk_dm (f_dev s) (f_user s) (f_city s) (g_dev_list s) (g_unicode_dev_list s) x
  (g_email_list s) (g_mobile_list s) (g_alarm_alllist s) (g_timertask_info s) (uart_st s) (family_ini s) (mail_body s) (out s).
Definition set_email_list x s := mk_dm (f_dev s) (f_user s) (f_city s) (g_dev_list s) (g_unicode_dev_list s)
  (g_group_name s) x (g_mobile_list s) (g_alarm_alllist s) (g_timertask_info s) (uart_st s) (family_ini s) (mail_body s) (out s).
Definition set_mobile_list x s := mk_dm (f_dev s) (f_user s) (f_city s) (g_dev_list s) (g_unicode_dev_list s)
  (g_group_name s) (g_email_list s) x (g_alarm_alllist s) (g_timertask_info s) (uart_st s) (family_ini s) (mail_body s) (out s).
Definition set_alarm_alllist x s := mk_dm (f_dev s) (f_user s) (f_city s) (g_dev_list s) (g_unicode_dev_list s)
  (g_group_name s) (g_email_list s) (g_mobile_list s) x (g_timertask_info s) (uart_st s) (family_ini s) (mail_body s) (out s).
Definition set_timertask_info x s := mk_dm (f_dev s) (f_user s) (f_city s) (g_dev_list s) (g_unicode_dev_list s)
  (g_group_name s) (g_email_list s) (g_mobile_list s) (g_alarm_alllist s) x (uart_st s) (family_ini s) (mail_body s) (out s).
Definition set_uart x s := mk_dm (f_dev s) (f_user s) (f_city s) (g_dev_list s) (g_unicode_dev_list s)
  (g_group_name s) (g_email_list s) (g_mobile_list s) (g_alarm_alllist s) (g_timertask_info s) x (family_ini s) (mail_body s) (out s).
Definition set_out x s := mk_dm (f_dev s) (f_user s) (f_city s) (g_dev_list s) (g_unicode_dev_list s)
  (g_group_name s) (g_email_list s) (g_mobile_list s) (g_alarm_alllist s) (g_timertask_info s) (uart_st s) (family_ini s) (mail_body s) x.
Definition set_family x s := mk_dm (f_dev s) (f_user s) (f_city s) (g_dev_list s) (g_unicode_dev_list s)
  (g_group_name s) (g_email_list s) (g_mobile_list s) (g_alarm_alllist s) (g_timertask_info s) (uart_st s) x (mail_body s) (out s).
Definition set_mail_body x s := mk_dm (f_dev s) (f_user s) (f_city s) (g_dev_list s) (g_unicode_dev_list s)
  (g_group_name s) (g_email_list s) (g_mobile_list s) (g_alarm_alllist s) (g_timertask_info s) (uart_st s) (family_ini s) x (out s).

Definition dev_file : dbfile := mk_dbfile f_dev set_f_dev.
Definition user_file : dbfile := mk_dbfile f_user set_f_user.
Definition city_file : dbfile := mk_dbfile f_city set_f_city.

Abbreviation DM := (M dm_state).

(** Emits an event. *)
Definition emit_ev (e : event) : DM unit := modify (fun s => set_out (out s ++ [e]) s).

(** The three library calls on a file.  [sqlite3_close] releases the handle
    and has no effect on the file. *)
Definition db_open (f : dbfile) : DM Z := fun s =>
  let '(rc, c) := sqlite3_open (sel f s) in Some (rc, upd f c s).
Definition db_exec (f : dbfile) (sql : string) : DM Z := fun s =>
  let '(rc, c) := sqlite3_exec sql (sel f s) in Some (rc, upd f c s).
Definition db_get_table (f : dbfile) (sql : string) : DM get_table_result := fun s =>
  let '(r, c) := sqlite3_get_table sql (sel f s) in Some (r, upd f c s).

(** [sprintf(sql, ...)] into [char sql[cap]] *)
Definition sprintf (cap : nat) (s : string) : DM string := lift (fits cap s).

(** [azResult[k]] used as a string: a null or stray pointer is undefined. *)
Definition az (r : get_table_result) (k : nat) : DM string := lift (mjoin (azResult r !! k)).

(** The loop [for (i = 1; i < row_num + 1; i++)] *)
Definition for_rows (r : get_table_result) (body : nat -> DM unit) : DM unit := mfor (seq 1 (row_num r)) body.

(** The shape of the functions of the database modules: open the file (and
    create its tables), or give up; a query of which only the presence of rows
    matters; a statement whose success is the result. *)
Definition opening {A} (opn : DM bool) (d : A) (k : DM A) : DM A :=
  ok ← opn; if ok : bool then k else mret d.
Definition exists_on (opn : DM bool) (f : dbfile) (cap : nat) (text : string) : DM bool :=
  opening opn false (sql ← sprintf cap text; r ← db_get_table f sql; mret (0 <? row_num r)%nat).
Definition update_on (opn : DM bool) (f : dbfile) (cap : nat) (text : string) : DM bool :=
  opening opn false (sql ← sprintf cap text; rc ← db_exec f sql; mret (rc =? SQLITE_OK)).

(** The static character arrays. *)
Record charbuf := mk_buf {
  b_get : dm_state -> string;
  b_set : string -> dm_state -> dm_state;
  b_cap : nat
}.

Definition dev_list_buf : charbuf := mk_buf g_dev_list set_dev_list 4096.
Definition unicode_dev_list_buf : charbuf := mk_buf g_unicode_dev_list set_unicode_dev_list (16 * 1024)%nat.
Definition group_name_buf : charbuf := mk_buf g_group_name set_group_name 4096.
Definition email_list_buf : charbuf := mk_buf g_email_list set_email_list 1024.
Definition mobile_list_buf : charbuf := mk_buf g_mobile_list set_mobile_list 1024.
Definition alarm_alllist_buf : charbuf := mk_buf g_alarm_alllist set_alarm_alllist 4096.
Definition timertask_info_buf : charbuf := mk_buf g_timertask_info set_timertask_info 4096.

(** [memset(b, 0, sizeof(b))], [strcpy(b, s)] (of a text that fits), [strcat(b, s)],
    [b[strlen(b) - 1] = c] and [= '\0']. *)
Definition buf_copy (b : charbuf) (s : string) : DM unit := modify (b_set b s).
Definition buf_cat (b : charbuf) (s : string) : DM unit :=
  g ← gets (b_get b); g ← lift (strcat_into (b_cap b) g s); modify (b_set b g).
Definition buf_set_last (b : charbuf) (c : ascii) : DM unit :=
  g ← gets (b_get b); g ← lift (set_last c g); modify (b_set b g).
Definition buf_drop_last (b : charbuf) : DM unit :=
  g ← gets (b_get b); g ← lift (drop_last g); modify (b_set b g).

(** The cells of the one-column answer of [text], separated by commas. *)
Definition comma_column (opn : DM bool) (f : dbfile) (b : charbuf) (text : string) : DM unit :=
  opening opn tt
    (r ← db_get_table f text;
     _ ← buf_copy b "";
     if (1 <=? row_num r)%nat then
       _ ← for_rows r (fun i => s ← az r (i * column_num r); _ ← buf_cat b s; buf_cat b ",");
       buf_drop_last b
     else buf_copy b "_NULL_").

(** One row of an answer printed by [row] (from its cells) into
    [char buffer[cap]] and appended to [b]. *)
Definition cat_row (b : charbuf) (cap : nat) (width : nat) (row : list string -> string) (r : get_table_result) (i : nat) : DM unit :=
  cells ← lift (mapM (fun j => mjoin (azResult r !! (i * column_num r + j)%nat)) (seq 0 width));
  buffer ← sprintf cap (row cells);
  buf_cat b buffer.

(** A JSON array of the rows of the answer of [text]. *)
Definition json_array (opn : DM bool) (f : dbfile) (b : charbuf) (cap width : nat) (row : list string -> string) (text : string) : DM unit :=
  opening opn tt
    (r ← db_get_table f text;
     _ ← buf_copy b "";
     if (1 <=? row_num r)%nat then
       _ ← buf_cat b "[";
       _ ← for_rows r (cat_row b cap width row r);
       buf_set_last b "]"
     else buf_copy b "_NULL_").
End State.

Arguments dm_state {_}.
Arguments dbfile {_}.
Arguments charbuf {_}.

Abbreviation DM := (M dm_state).

(** ** Facts *)

Lemma set_last_snoc c a s : set_last c (s +:+ String a "") = Some (s +:+ String c "").
Proof.
  induction s as [|x s IH]; [done|]. cbn. destruct s as [|y s]; [done|].
  cbn in *. rewrite IH. done.
Qed.

Lemma drop_last_snoc a s : drop_last (s +:+ String a "") = Some s.
Proof.
  induction s as [|x s IH]; [done|]. cbn. destruct s as [|y s]; [done|].
  cbn in *. rewrite IH. done.
Qed.

(** The buffers are lenses on the state. *)
Class BufLaws `{Sqlite} (b : charbuf) := {
  b_get_set x s : b_get b (b_set b x s) = x;
  b_set_set x y s : b_set b x (b_set b y s) = b_set b x s;
  b_set_get s : b_set b (b_get b s) s = s
}.

#[export] Instance dev_list_laws `{Sqlite} : BufLaws dev_list_buf.
Proof. split; [done|done|by intros []]. Qed.
#[export] Instance unicode_dev_list_laws `{Sqlite} : BufLaws unicode_dev_list_buf.
Proof. split; [done|done|by intros []]. Qed.
#[export] Instance group_name_laws `{Sqlite} : BufLaws group_name_buf.
Proof. split; [done|done|by intros []]. Qed.
#[export] Instance email_list_laws `{Sqlite} : BufLaws email_list_buf.
Proof. split; [done|done|by intros []]. Qed.
#[export] Instance mobile_list_laws `{Sqlite} : BufLaws mobile_list_buf.
Proof. split; [done|done|by intros []]. Qed.
#[export] Instance alarm_alllist_laws `{Sqlite} : BufLaws alarm_alllist_buf.
Proof. split; [done|done|by intros []]. Qed.
#[export] Instance timertask_info_laws `{Sqlite} : BufLaws timertask_info_buf.
Proof. split; [done|done|by intros []]. Qed.
