(* ===== verification/DbTriple.v ===== *)
(** * Reasoning about database operations

    A triple for the operations that touch one file: from a file with the
    tables [db] the operation terminates without undefined behaviour, changes
    nothing but that file, and its result and the new tables satisfy [Q].
    The rules for the library calls are the laws of the interface. *)

From stdpp Require Import base list strings gmap.
From Stdlib Require Import ZArith Lia Ascii.
From S2P Require Import Prelude CString Sql UartQueue DevControl DevState.

Open Scope Z_scope.

(** The accessors of a file are a lens. *)
Class FileLaws `{Sqlite} (f : dbfile) := {
  sel_upd c s : sel f (upd f c s) = c;
  upd_upd c c' s : upd f c (upd f c' s) = upd f c s;
  upd_sel s : upd f (sel f s) s = s
}.

#[export] Instance dev_file_laws `{Sqlite} : FileLaws dev_file.
Proof. split; [done|done|]. by intros []. Qed.
#[export] Instance user_file_laws `{Sqlite} : FileLaws user_file.
Proof. split; [done|done|]. by intros []. Qed.
#[export] Instance city_file_laws `{Sqlite} : FileLaws city_file.
Proof. split; [done|done|]. by intros []. Qed.

Section Triple.
Context {S : Sqlite} {SL : SqliteLaws S} (f : dbfile) {FL : FileLaws f}.

Definition triple {A} (db : sqldb) (m : DM A) (Q : A -> sqldb -> Prop) : Prop :=
  forall s, ready (sel f s) -> view (sel f s) = db ->
  exists x c, m s = Some (x, upd f c s) /\ ready c /\ Q x (view c).

Lemma triple_mono {A} db (m : DM A) (Q R : A -> sqldb -> Prop) :
  triple db m Q -> (forall x db', Q x db' -> R x db') -> triple db m R.
Proof. intros Hm HR s Hr Hv. destruct (Hm s Hr Hv) as (x & c & ? & ? & ?). exists x, c. auto. Qed.

Lemma triple_ret {A} db (x : A) (Q : A -> sqldb -> Prop) : Q x db -> triple db (mret x) Q.
Proof. intros HQ s Hr Hv. exists x, (sel f s). rewrite upd_sel, Hv. done. Qed.

Lemma triple_bind {A B} db (m : DM A) (k : A -> DM B) (R : A -> sqldb -> Prop) (Q : B -> sqldb -> Prop) :
  triple db m R -> (forall x db', R x db' -> triple db' (k x) Q) -> triple db (m ≫= k) Q.
Proof.
  intros Hm Hk s Hr Hv. destruct (Hm s Hr Hv) as (x & c & E & Hc & HR).
  destruct (Hk x (view c) HR (upd f c s)) as (y & c' & E' & Hc' & HQ); [by rewrite sel_upd..|].
  exists y, c'. rewrite (bind_some _ _ _ _ _ E), E', upd_upd. done.
Qed.

Lemma triple_lift {A} db (o : option A) x (Q : A -> sqldb -> Prop) : o = Some x -> Q x db -> triple db (lift o) Q.
Proof. intros -> HQ. by apply triple_ret. Qed.

Lemma triple_open db (Q : Z -> sqldb -> Prop) : Q SQLITE_OK db -> triple db (db_open f) Q.
Proof.
  intros HQ s Hr Hv. destruct (open_law _ Hr) as (c' & E & Hr' & Hv').
  exists SQLITE_OK, c'. unfold db_open. rewrite E, Hv', Hv. done.
Qed.

Lemma triple_exec db sql ok db' (Q : Z -> sqldb -> Prop) :
  run_sql sql db = Some (ok, db') -> (forall rc, (rc = SQLITE_OK <-> ok = true) -> Q rc db') ->
  triple db (db_exec f sql) Q.
Proof.
  intros Hrun HQ s Hr Hv. subst db. destruct (exec_law _ _ _ _ Hr Hrun) as (rc & c' & E & Hr' & Hv' & Hrc).
  exists rc, c'. unfold db_exec. rewrite E, Hv'. auto.
Qed.

Lemma triple_get_table db sql ordered rows (Q : get_table_result -> sqldb -> Prop) :
  query_sql sql db = Some (ordered, rows) ->
  (forall rows' r, result_for rows' r -> rows' ≡ₚ rows -> (ordered = true -> rows' = rows) -> Q r db) ->
  triple db (db_get_table f sql) Q.
Proof.
  intros Hq HQ s Hr Hv. subst db.
  destruct (get_table_law _ _ _ _ Hr Hq) as (rows' & r & c' & E & Hr' & Hv' & Hres & Hp & Ho).
  exists r, c'. unfold db_get_table. rewrite E, Hv'. eauto.
Qed.

Lemma triple_sprintf db cap s (Q : string -> sqldb -> Prop) :
  (String.length s < cap)%nat -> Q s db -> triple db (sprintf cap s) Q.
Proof.
  intros Hl HQ. apply (triple_lift _ _ s); [|done]. unfold fits.
  destruct (Nat.ltb_spec (String.length s) cap); [done|lia].
Qed.
End Triple.

(** ** The flat array of a result *)

Lemma concat_cell (rows : list (list value)) n i row j v :
  Forall (fun row => length row = n) rows -> rows !! i = Some row -> row !! j = Some v ->
  concat rows !! (i * n + j)%nat = Some v.
Proof.
  revert i. induction rows as [|r rows IH]; intros i Hn Hi Hj; [done|].
  apply Forall_cons in Hn as [Hr Hn]. destruct i as [|i]; simplify_eq/=.
  - rewrite lookup_app_l; [done|]. by eapply lookup_lt_Some.
  - rewrite lookup_app_r by lia.
    replace (length r + i * length r + j - length r)%nat with (i * length r + j)%nat by lia. auto.
Qed.

(** [azResult[i*column_num+j]] is column [j] of row [i], counted from 1. *)
Lemma az_cell rows r i row j v :
  result_for rows r -> rows !! i = Some row -> row !! j = Some v ->
  azResult r !! (S i * column_num r + j)%nat = Some (cell v).
Proof.
  intros (Hn & names & Hl & Haz & Hw) Hi Hj. rewrite Haz, lookup_app_r by lia.
  replace (S i * column_num r + j - length names)%nat with (i * column_num r + j)%nat by lia.
  rewrite list_lookup_fmap. by rewrite (concat_cell _ _ _ _ _ _ Hw Hi Hj).
Qed.

Lemma result_width rows r i row : result_for rows r -> rows !! i = Some row -> column_num r = length row.
Proof.
  intros (_ & _ & _ & _ & Hw) Hi. rewrite Forall_lookup in Hw. symmetry. by apply (Hw i).
Qed.

Lemma result_rows rows r : result_for rows r -> row_num r = length rows.
Proof. by intros [? _]. Qed.

Lemma triple_az {S : Sqlite} {SL : SqliteLaws S} f {FL : FileLaws f} db rows r i row j v s k (Q : string -> sqldb -> Prop) :
  result_for rows r -> rows !! i = Some row -> row !! j = Some v -> cell v = Some s ->
  k = (Datatypes.S i * column_num r + j)%nat -> Q s db -> triple f db (az r k) Q.
Proof.
  intros Hr Hi Hj Hc -> HQ. apply (triple_lift _ _ _ s); [|done].
  by rewrite (az_cell _ _ _ _ _ _ Hr Hi Hj), Hc.
Qed.

(** ** A loop of [strcat]s into one of the static buffers *)

Lemma mfor_cat {W} (getb : W -> string) (setb : string -> W -> W) cap (piece : nat -> string) (body : nat -> M W unit) l s :
  (forall x s, getb (setb x s) = x) -> (forall x y s, setb x (setb y s) = setb x s) -> (forall s, setb (getb s) s = s) ->
  (forall i s, i ∈ l -> body i s = (fun g => (tt, setb g s)) <$> strcat_into cap (getb s) (piece i)) ->
  (String.length (getb s) < cap)%nat ->
  mfor l body s = (fun g => (tt, setb g s)) <$> fits cap (getb s +:+ cat_all (piece <$> l)).
Proof.
  intros Hgs Hss Hsg. revert s. induction l as [|i l IH]; intros s Hb Hl.
  { cbn [mfor fmap list_fmap cat_all foldr]. rewrite app_nil_r_s, fits_ok by done. cbn. by rewrite Hsg. }
  cbn [mfor]. unfold mbind, M_bind. rewrite Hb by (by left). csimpl. unfold strcat_into.
  change (cat_all (piece i :: (piece <$> l))) with (piece i +:+ cat_all (piece <$> l)).
  destruct (Nat.ltb_spec (String.length (getb s +:+ piece i)) cap) as [Hc|Hc].
  - rewrite (fits_ok _ _ Hc). cbn [fmap option_fmap option_map].
    rewrite IH; [|intros; apply Hb; by right|by rewrite Hgs]. rewrite Hgs, app_assoc_s.
    unfold fmap, option_fmap, option_map. case_match; [by rewrite Hss|done].
  - rewrite (fits_overflow _ _ Hc). cbn. rewrite fits_overflow; [done|].
    rewrite <- app_assoc_s, length_app_s. lia.
Qed.

(** ** Statements on tables that hold encoded rows *)

Lemma query_select sql db cs t w tb rows out :
  parse_sql sql = Some [SSelect cs t (Some w) None] -> db !! t = Some tb ->
  filter_opt (holds (t_cols tb) w) (t_rows tb) = Some rows ->
  match cs with None => Some rows | Some cs => map_opt (project (t_cols tb) cs) rows end = Some out ->
  query_sql sql db = Some (false, out).
Proof.
  intros Hp Ht Hf Ho. unfold query_sql. rewrite Hp. cbn [mbind option_bind select_rows]. rewrite Ht.
  cbn [mbind option_bind]. rewrite Hf. cbn [mbind option_bind]. by rewrite Ho.
Qed.

Lemma query_all sql db cs t tb out :
  parse_sql sql = Some [SSelect cs t None None] -> db !! t = Some tb ->
  match cs with None => Some (t_rows tb) | Some cs => map_opt (project (t_cols tb) cs) (t_rows tb) end = Some out ->
  query_sql sql db = Some (false, out).
Proof.
  intros Hp Ht Ho. unfold query_sql. rewrite Hp. cbn [mbind option_bind select_rows]. rewrite Ht.
  cbn [mbind option_bind]. by rewrite Ho.
Qed.

Lemma run_one sql db st r : parse_sql sql = Some [st] -> exec_stmt st db = Some r -> run_sql sql db = Some r.
Proof.
  intros Hp He. unfold run_sql. rewrite Hp. cbn [mbind option_bind exec_stmts]. rewrite He.
  by destruct r as [[] db'].
Qed.

Lemma exec_delete db t w tb rows :
  db !! t = Some tb ->
  filter_opt (fun row => b ← holds (t_cols tb) w row; Some (negb b)) (t_rows tb) = Some rows ->
  exec_stmt (SDelete t w) db = Some (true, <[t := mk_table (t_cols tb) (t_seq tb) rows]> db).
Proof. intros Ht Hf. cbn [exec_stmt]. by rewrite Ht, Hf. Qed.

Lemma exec_update db t sets w tb rows :
  db !! t = Some tb ->
  map_opt (fun row => b ← holds (t_cols tb) w row; if b : bool then update_row (t_cols tb) sets row else Some row)
    (t_rows tb) = Some rows ->
  exec_stmt (SUpdate t sets w) db = Some (true, <[t := mk_table (t_cols tb) (t_seq tb) rows]> db).
Proof. intros Ht Hf. cbn [exec_stmt]. by rewrite Ht, Hf. Qed.

Lemma exec_insert db t cs vals tb row :
  let names := match cs with Some cs => cs | None => c_name <$> t_cols tb end in
  db !! t = Some tb -> length names = length vals ->
  build_row (t_cols tb) (next_id tb) (zip names vals) = Some row ->
  exec_stmt (SInsert t cs vals) db =
    Some (true, <[t := mk_table (t_cols tb) (if has_auto (t_cols tb) then next_id tb else t_seq tb) (t_rows tb ++ [row])]> db).
Proof.
  intros names Ht Hl Hb. cbn [exec_stmt]. rewrite Ht. fold names. rewrite Hl, Nat.eqb_refl. cbn [negb].
  by rewrite Hb.
Qed.

(** ** Reading a text piece by piece *)

Lemma lex_done s ts st r : lex_run LNormal s = (ts, st) -> lex_end (ts, st) = Some r -> lex s = Some r.
Proof. unfold lex. by intros ->. Qed.

Lemma parse_lexed s ts l : lex s = Some ts -> parse_stmts (S (length ts)) ts = Some l -> parse_sql s = Some l.
Proof. unfold parse_sql. by intros ->. Qed.

Lemma quote_free_digits n : 0 <= n < 2 ^ 32 -> quote_free (fmt_d n) = true.
Proof.
  intros Hn. rewrite fmt_d_nonneg by lia. unfold quote_free.
  eapply all_chars_impl; [|apply unsigned_digits_digits].
  intros c Hc. destruct (Ascii.eqb_spec c quote) as [->|]; done.
Qed.

Lemma fmt_d_int_length n : 0 <= n < 2 ^ 32 -> (String.length (fmt_d n) <= 10)%nat.
Proof. intros Hn. apply fmt_d_short; [lia|]. change (10 ^ Z.of_nat 10) with 10000000000. lia. Qed.

(** A number printed between quotes compares as the number. *)
Lemma to_num_fmt_d n : 0 <= n < 2 ^ 32 -> to_num (VText (fmt_d n)) = Some (VInt n).
Proof.
  intros Hn. unfold to_num. pose proof (fmt_d_int_length n Hn) as Hl.
  rewrite fmt_d_nonneg in * by lia. rewrite unsigned_digits_digits.
  destruct (digits_of_nonempty 31 10 n "") as (c & s & E). unfold unsigned_digits in *.
  rewrite (digits_value_unsigned 10 n ltac:(lia) Hn : digits_value 10 0 (digits_of 32 10 n "") = n).
  rewrite E in *. cbn [String.length] in *.
  destruct (Nat.ltb_spec 0 (S (String.length s))); [|lia]. destruct (Nat.leb_spec (S (String.length s)) 18); [done|lia].
Qed.

Lemma lex_run_str0 s : quote_free s = true -> lex_run (LStr "") s = ([], LStr s).
Proof. apply (lex_run_str ""). Qed.

(** One literal piece, quoted argument or number. *)
Ltac lex_piece :=
  lazymatch goal with
  | |- lex_run _ (String _ _) = _ => cbv -[fmt_d]; reflexivity
  | |- lex_run LNormal (fmt_d _) = _ => apply lex_run_digits; unfold byte_range in *; lia
  | |- lex_run (LStr "") (fmt_d _) = _ => apply lex_run_str0, quote_free_digits; unfold byte_range in *; lia
  | |- lex_run (LStr "") _ = _ => apply lex_run_str0; assumption
  end.
Ltac lex_pieces := repeat (eapply lex_run_app_eq; [lex_piece|]); lex_piece.
Ltac parse_text :=
  eapply parse_lexed; [eapply lex_done; [lex_pieces|reflexivity]|cbv -[fmt_d]; reflexivity].
