(* ===== verification/DbStore.v ===== *)
(** * Abstract states kept in a database file

    Each database module keeps an abstract state (the device registry, the
    alarm receivers, the timer tasks, the city codes) in the tables of one
    file.  [Store] is what a module provides for it: the file, its function
    [database_open], the tables of a state and the tables a new file gets.
    The rules below are stated against this interface. *)

From stdpp Require Import base list strings gmap.
From Stdlib Require Import ZArith Lia Ascii.
From S2P Require Import Prelude CString Sql UartQueue DevControl DevState DbTriple.

Open Scope Z_scope.

(** The columns a [create table] statement declares. *)
Definition cols_of (sql : string) : list column :=
  match parse_sql sql with Some [SCreate _ cols] => cols | _ => [] end.

(** The key AUTOINCREMENT gives to the next record. *)
Definition next_key {A} (id : A -> Z) (seq : Z) (l : list A) : Z := 1 + foldr (fun r m => Z.max (id r) m) seq l.

(** [f] on the records that satisfy [p]. *)
Definition map_if {A} (p : A -> bool) (f : A -> A) (l : list A) : list A := (fun x => if p x then f x else x) <$> l.

(** An argument the text of a statement can carry: no quote in it, and short
    enough for [char sql[1024]].  A message of the socket has at most 511
    characters; 200 for each argument is enough for every statement. *)
Definition arg_ok (s : string) : Prop := quote_free s = true /\ (String.length s <= 200)%nat.

(** [rest]: the tables of the file that belong to other modules. *)
Class Store {S : Sqlite} {SL : SqliteLaws S} (R : Type) := mk_store {
  st_file : dbfile;
  st_open : DM bool;
  st_db : R -> sqldb -> sqldb;
  st_empty : sqldb;
  st_file_laws :: FileLaws st_file;
  st_full : forall g rest, st_db g rest ∪ st_empty = st_db g rest;
  st_open_law : forall g rest db, db ∪ st_empty = st_db g rest ->
    triple st_file db st_open (fun b db' => b = true /\ db' = st_db g rest)
}.

(** ** Creating tables *)

(** [create table] adds the table where it is missing. *)
Lemma run_create sql t cols db :
  parse_sql sql = Some [SCreate t cols] ->
  exists ok, run_sql sql db = Some (ok, db ∪ {[t := mk_table cols 0 []]}).
Proof.
  intros Hp. destruct (db !! t) as [tb|] eqn:E.
  - exists false. apply (run_one _ _ _ _ Hp). cbn [exec_stmt]. rewrite E. do 2 f_equal.
    apply map_eq. intros i. destruct (db !! i) as [x|] eqn:Ei; [by rewrite (lookup_union_Some_l _ _ _ x)|].
    rewrite lookup_union_r by done. rewrite lookup_singleton_ne; congruence.
  - exists true. apply (run_one _ _ _ _ Hp). cbn [exec_stmt]. rewrite E. do 2 f_equal.
    rewrite map_union_comm, <- insert_union_singleton_l; [done|]. by apply map_disjoint_singleton_r.
Qed.

Lemma triple_create {S : Sqlite} {SL : SqliteLaws S} f {FL : FileLaws f} sql t cols db (Q : unit -> sqldb -> Prop) :
  parse_sql sql = Some [SCreate t cols] -> Q tt (db ∪ {[t := mk_table cols 0 []]}) ->
  triple f db (rc ← db_exec f sql; mret tt) Q.
Proof.
  intros Hp HQ. destruct (run_create sql t cols db Hp) as [ok Hrun].
  eapply (triple_bind f _ _ _ (fun _ db' => Q tt db')); [eapply (triple_exec f); [exact Hrun|by intros]|].
  intros ? db1 HP1. by apply (triple_ret f).
Qed.

(** ** Records *)

Lemma find_unique {A B} (key : A -> B) (p : A -> bool) l x :
  NoDup (key <$> l) -> (forall a b, p a = true -> p b = true -> key a = key b) -> x ∈ l -> p x = true ->
  List.find p l = Some x.
Proof.
  intros Hnd Hk Hx Hp. induction l as [|y l IH]; [by apply elem_of_nil in Hx|].
  simpl in *. apply NoDup_cons in Hnd as [Hy Hnd]. destruct (p y) eqn:E.
  - apply elem_of_cons in Hx as [->|Hx]; [done|]. exfalso. apply Hy.
    rewrite (Hk y x E Hp). apply list_elem_of_fmap. eauto.
  - apply elem_of_cons in Hx as [->|Hx]; [congruence|auto].
Qed.

Lemma find_same {A B} (key : A -> B) (p : A -> bool) l x :
  NoDup (key <$> l) -> (forall a b, p a = true -> p b = true -> key a = key b) -> x ∈ l -> p x = true ->
  forall C (h : A -> C), h <$> List.find p l = Some (h x).
Proof. intros Hnd Hk Hx Hp C h. by rewrite (find_unique key p l x). Qed.

Lemma existsb_filter {A} (p : A -> bool) l n : length (List.filter p l) = n -> existsb p l = (0 <? n)%nat.
Proof.
  intros <-. induction l as [|x l IH]; [done|]. simpl. by destruct (p x).
Qed.

(** An update of the records that satisfy [p]. *)
Lemma map_if_rows {A} cols w sets (enc : A -> list value) (p : A -> bool) (f : A -> A) l :
  (forall x, holds cols w (enc x) = Some (p x)) -> (forall x, update_row cols sets (enc x) = Some (enc (f x))) ->
  map_opt (fun row => b ← holds cols w row; if b : bool then update_row cols sets row else Some row) (enc <$> l) =
  Some (enc <$> map_if p f l).
Proof.
  intros Hw Hu. unfold map_if. rewrite <- list_fmap_compose. apply map_opt_fmap.
  intros x. rewrite Hw. cbn. by destruct (p x).
Qed.

(** The first cell of the answer of a query for one column. *)
Lemma first_cell {A} (f : A -> value) (h : A -> string) (p : A -> bool) l rows r :
  (forall x, cell (f x) = Some (h x)) ->
  result_for rows r -> rows ≡ₚ (fun x => [f x]) <$> List.filter p l ->
  (row_num r = 0%nat /\ List.find p l = None) \/
  (exists x, (1 <= row_num r)%nat /\ x ∈ l /\ p x = true /\ mjoin (azResult r !! 1%nat) = Some (h x)).
Proof.
  intros Hh Hr Hperm. rewrite (result_rows _ _ Hr). destruct rows as [|row rows].
  - left. split; [done|]. symmetry in Hperm. apply Permutation_nil_r, fmap_nil_inv in Hperm.
    destruct (List.find p l) as [x|] eqn:E; [|done]. apply List.find_some in E as [Hx Hpx].
    assert (List.In x (List.filter p l)) as Hin by (by apply List.filter_In). by rewrite Hperm in Hin.
  - right. assert (row ∈ (fun x => [f x]) <$> List.filter p l) as Hin by (rewrite <- Hperm; by left).
    apply list_elem_of_fmap in Hin as (x & -> & Hx). apply list_elem_of_In, List.filter_In in Hx as [Hx Hpx].
    exists x. split; [simpl; lia|]. split; [by apply list_elem_of_In|]. split; [done|].
    pose proof (az_cell _ _ 0 [f x] 0 (f x) Hr eq_refl eq_refl) as Haz.
    rewrite (result_width _ _ 0 _ Hr eq_refl) in Haz. change (1 * length [f x] + 0)%nat with 1%nat in Haz.
    by rewrite Haz, <- Hh.
Qed.

(** The statements fit the buffer they are printed into. *)
Ltac sql_len :=
  unfold arg_ok, byte_range in *; rewrite ?length_app_s; cbn [String.length];
  repeat match goal with |- context[fmt_d ?n] =>
    lazymatch goal with H : (String.length (fmt_d n) <= 10)%nat |- _ => fail
    | _ => pose proof (fmt_d_int_length n ltac:(lia)) end end; lia.

(** ** Printed tables *)

Lemma seq_pieces {A} (piece : nat -> string) (h : A -> string) (l : list A) :
  (forall i x, l !! i = Some x -> piece (S i) = h x) -> piece <$> seq 1 (length l) = h <$> l.
Proof.
  intros Hp. apply list_eq. intros i. rewrite !list_lookup_fmap.
  destruct (l !! i) as [x|] eqn:E.
  - rewrite lookup_seq_lt by (by eapply lookup_lt_Some). cbn. f_equal. apply (Hp i x E).
  - apply lookup_ge_None in E. by rewrite lookup_seq_ge.
Qed.

(** The items separated by commas, if they fit with a comma after each. *)
Definition comma_text (cap : nat) (items : list string) : option string :=
  match items with
  | [] => Some "_NULL_"
  | _ => if (String.length (join "," items) + 1 <? cap)%nat then Some (join "," items) else None
  end.

Section Buffers.
Context {S : Sqlite} (b : charbuf) {BL : BufLaws b}.

Lemma buf_cat_eq x s : buf_cat b x s = (fun g => (tt, b_set b g s)) <$> strcat_into (b_cap b) (b_get b s) x.
Proof. unfold buf_cat, mbind, M_bind, gets, lift, modify. by destruct (strcat_into _ _ _). Qed.

Lemma buf_cat_cat x y s : (_ ← buf_cat b x; buf_cat b y) s = buf_cat b (x +:+ y) s.
Proof.
  rewrite (buf_cat_eq (x +:+ y)), <- strcat_strcat. unfold mbind at 1, M_bind. rewrite buf_cat_eq.
  destruct (strcat_into (b_cap b) (b_get b s) x) as [g|]; [|done]. cbn [fmap option_fmap option_map mbind option_bind].
  rewrite buf_cat_eq, b_get_set. destruct (strcat_into (b_cap b) g y); [|done].
  cbn [fmap option_fmap option_map]. by rewrite b_set_set.
Qed.

(** A loop over the rows of an answer that appends a text for each. *)
Lemma for_rows_cat {A} (pr : A -> list value) (piece : A -> string) (body : nat -> DM unit) l r s :
  result_for (pr <$> l) r -> (String.length (b_get b s) < b_cap b)%nat ->
  (forall i x s, l !! i = Some x -> body (Datatypes.S i) s = buf_cat b (piece x) s) ->
  for_rows r body s = (fun g => (tt, b_set b g s)) <$> fits (b_cap b) (b_get b s +:+ cat_all (piece <$> l)).
Proof.
  intros Hres Hl Hb. unfold for_rows. rewrite (result_rows _ _ Hres), length_fmap.
  rewrite (mfor_cat (b_get b) (b_set b) (b_cap b) (fun i => match l !! (i - 1)%nat with Some y => piece y | None => "" end));
    [|apply b_get_set|apply b_set_set|apply b_set_get| |done].
  - by rewrite (seq_pieces _ piece l) by (intros i y Hy; simpl; rewrite Nat.sub_0_r; by rewrite Hy).
  - intros i s1 Hi. apply elem_of_seq in Hi. destruct i as [|i]; [lia|]. cbn [Nat.sub]. rewrite Nat.sub_0_r.
    destruct (l !! i) as [y|] eqn:Ey; [|apply lookup_ge_None in Ey; lia]. by rewrite (Hb i y), buf_cat_eq.
Qed.

Lemma column_piece {A} (h : A -> string) l r i x s :
  result_for ((fun x => [VText (h x)]) <$> l) r -> l !! i = Some x ->
  (t ← az r (Datatypes.S i * column_num r); _ ← buf_cat b t; buf_cat b ",") s = buf_cat b (h x +:+ ",") s.
Proof.
  intros Hres Hx. assert (((fun x => [VText (h x)]) <$> l) !! i = Some [VText (h x)]) as Hrow
    by (rewrite list_lookup_fmap, Hx; done).
  pose proof (az_cell _ _ i _ 0 _ Hres Hrow eq_refl) as Haz. rewrite Nat.add_0_r in Haz.
  rewrite <- buf_cat_cat. unfold az. rewrite Haz. reflexivity.
Qed.

Lemma row_piece {A} (pr : A -> list value) (cs : A -> list string) cap width row l r i x s :
  result_for (pr <$> l) r -> l !! i = Some x -> cell <$> pr x = Some <$> cs x -> length (cs x) = width ->
  (String.length (row (cs x)) < cap)%nat ->
  cat_row b cap width row r (Datatypes.S i) s = buf_cat b (row (cs x)) s.
Proof.
  intros Hres Hx Hcs Hw Hc. assert ((pr <$> l) !! i = Some (pr x)) as Hrow by (rewrite list_lookup_fmap, Hx; done).
  assert (mapM (fun j => mjoin (azResult r !! (Datatypes.S i * column_num r + j)%nat)) (seq 0 width) = Some (cs x)) as Hm.
  { apply mapM_Some, Forall2_same_length_lookup_2; [by rewrite length_seq|]. intros j k c Hk Hj.
    apply lookup_seq in Hk as [-> Hk]. cbn [Nat.add].
    assert ((cell <$> pr x) !! j = Some (Some c)) as Hcell by (rewrite Hcs, list_lookup_fmap, Hj; done).
    rewrite list_lookup_fmap in Hcell. apply fmap_Some in Hcell as (v & Hv & Hcv).
    by rewrite (az_cell _ _ i _ j _ Hres Hrow Hv), <- Hcv. }
  unfold cat_row. rewrite (bind_some _ _ _ (cs x) s) by (unfold lift; by rewrite Hm).
  rewrite (bind_some _ _ _ (row (cs x)) s) by (unfold sprintf, lift; by rewrite (fits_ok _ _ Hc)). reflexivity.
Qed.
End Buffers.

(** ** Triples for the abstract state *)

Section Store.
Context {S : Sqlite} {SL : SqliteLaws S} {R : Type} {ST : Store R}.

(** The file holds the state [g]; tables not yet created count as empty. *)
Definition holds_st (g : R) (rest db : sqldb) : Prop := db ∪ st_empty = st_db g rest.

(** The triple of an abstract state: the other tables of the file do not change. *)
Definition dtriple {A} (g : R) (m : DM A) (Q : A -> R -> Prop) : Prop :=
  forall rest db, holds_st g rest db ->
  triple st_file db m (fun x db' => exists g', holds_st g' rest db' /\ Q x g').

(** The same for the body of a function, after the file was opened. *)
Definition otriple {A} (g : R) (m : DM A) (Q : A -> R -> Prop) : Prop :=
  forall rest, triple st_file (st_db g rest) m (fun x db' => exists g', db' = st_db g' rest /\ Q x g').

Lemma dtriple_mono {A} g (m : DM A) (Q Q' : A -> R -> Prop) :
  dtriple g m Q -> (forall x g', Q x g' -> Q' x g') -> dtriple g m Q'.
Proof.
  intros Hm HR rest db Hdb. apply (triple_mono _ _ _ _ _ (Hm rest db Hdb)).
  intros x db' (g' & Hg' & HQ). eauto.
Qed.

Lemma dtriple_ret {A} g (x : A) (Q : A -> R -> Prop) : Q x g -> dtriple g (mret x) Q.
Proof. intros HQ rest db Hdb. apply triple_ret; [exact _|]. eauto. Qed.

Lemma dtriple_bind {A B} g (m : DM A) (k : A -> DM B) (P : A -> R -> Prop) (Q : B -> R -> Prop) :
  dtriple g m P -> (forall x g', P x g' -> dtriple g' (k x) Q) -> dtriple g (m ≫= k) Q.
Proof.
  intros Hm Hk rest db Hdb. apply (triple_bind _ _ _ _ _ _ (Hm rest db Hdb)).
  intros x db' (g' & Hg' & HR). exact (Hk x g' HR rest db' Hg').
Qed.

Lemma dtriple_lift {A} g (o : option A) x (Q : A -> R -> Prop) : o = Some x -> Q x g -> dtriple g (lift o) Q.
Proof. intros -> HQ. by apply dtriple_ret. Qed.

Lemma dtriple_step {A B} g (o : option A) x (k : A -> DM B) (Q : B -> R -> Prop) :
  o = Some x -> dtriple g (k x) Q -> dtriple g (lift o ≫= k) Q.
Proof. intros -> Hk. eapply (dtriple_bind _ _ _ (fun y g' => y = x /\ g' = g)); [by apply dtriple_ret|]. by intros ? ? [-> ->]. Qed.

Lemma otriple_bind {A B} g (m : DM A) (k : A -> DM B) (P : A -> R -> Prop) (Q : B -> R -> Prop) :
  otriple g m P -> (forall x g', P x g' -> otriple g' (k x) Q) -> otriple g (m ≫= k) Q.
Proof.
  intros Hm Hk rest. apply (triple_bind _ _ _ _ _ _ (Hm rest)).
  intros x db' (g' & -> & HR). exact (Hk x g' HR rest).
Qed.

Lemma otriple_ret {A} g (x : A) (Q : A -> R -> Prop) : Q x g -> otriple g (mret x) Q.
Proof. intros HQ rest. apply triple_ret; [exact _|]. eauto. Qed.

Lemma otriple_lift {A} g (o : option A) x (Q : A -> R -> Prop) : o = Some x -> Q x g -> otriple g (lift o) Q.
Proof. intros Ho HQ rest. eapply triple_lift; [exact _|exact Ho|eauto]. Qed.

Lemma otriple_sprintf g cap s (Q : string -> R -> Prop) :
  (String.length s < cap)%nat -> Q s g -> otriple g (sprintf cap s) Q.
Proof. intros Hl HQ rest. apply triple_sprintf; [exact _|done|eauto]. Qed.

Lemma dtriple_open {A} g d (k : DM A) (Q : A -> R -> Prop) : otriple g k Q -> dtriple g (opening st_open d k) Q.
Proof.
  intros Hk rest db Hdb. unfold opening.
  eapply (triple_bind st_file); [by apply st_open_law|].
  intros b db' [-> ->]. cbv iota. apply (triple_mono _ _ _ _ _ (Hk rest)).
  intros x db' (g' & -> & HQ). exists g'. split; [apply st_full|done].
Qed.

(** *** Statements on a table of the R

    [Hg] says which list of records the table holds; [w] is a condition that
    decides [p] on the records. *)

Lemma otriple_select {A} t cols seq (enc : A -> list value) l (p : A -> bool) g text cs pr w
    (Q : get_table_result -> R -> Prop) :
  (forall rest, st_db g rest !! t = Some (mk_table cols seq (enc <$> l))) ->
  parse_sql text = Some [SSelect cs t (Some w) None] ->
  (forall x, holds cols w (enc x) = Some (p x)) ->
  (forall x, match cs with None => Some (enc x) | Some cs => project cols cs (enc x) end = Some (pr x)) ->
  (forall rows' r, result_for rows' r -> rows' ≡ₚ pr <$> List.filter p l -> Q r g) ->
  otriple g (db_get_table st_file text) Q.
Proof.
  intros Hg Hp Hw Hpr HQ rest.
  eapply (triple_get_table st_file _ _ false (pr <$> List.filter p l)).
  - eapply query_select; [exact Hp|apply Hg|by apply filter_opt_fmap|]. destruct cs as [cs|]; [by apply map_opt_fmap|].
    f_equal. apply list_fmap_ext. intros _ x _. specialize (Hpr x). congruence.
  - intros rows' r Hr Hperm _. exists g. eauto.
Qed.

Lemma otriple_exec g text st g' (Q : Z -> R -> Prop) :
  parse_sql text = Some [st] -> (forall rest, exec_stmt st (st_db g rest) = Some (true, st_db g' rest)) ->
  (forall rc, rc = SQLITE_OK -> Q rc g') -> otriple g (db_exec st_file text) Q.
Proof.
  intros Hp He HQ rest. eapply (triple_exec st_file); [exact (run_one _ _ _ _ Hp (He rest))|].
  intros rc Hrc. exists g'. split; [done|]. apply HQ. by apply Hrc.
Qed.

(** A query that is only counted. *)
Lemma otriple_count {A} t cols seq (enc : A -> list value) l (p : A -> bool) g text w :
  (forall rest, st_db g rest !! t = Some (mk_table cols seq (enc <$> l))) ->
  parse_sql text = Some [SSelect None t (Some w) None] ->
  (forall x, holds cols w (enc x) = Some (p x)) ->
  otriple g (db_get_table st_file text) (fun r g' => (0 <? row_num r)%nat = existsb p l /\ g' = g).
Proof.
  intros Hg Hp Hw. eapply (otriple_select t cols seq enc l p); [exact Hg|exact Hp|exact Hw|done|].
  intros rows' r Hr Hperm. split; [|done].
  by rewrite (existsb_filter p l _ eq_refl), (result_rows _ _ Hr), Hperm, length_fmap.
Qed.

Lemma exists_on_spec {A} t cols seq (enc : A -> list value) l (p : A -> bool) g text cap w :
  (forall rest, st_db g rest !! t = Some (mk_table cols seq (enc <$> l))) ->
  parse_sql text = Some [SSelect None t (Some w) None] -> (String.length text < cap)%nat ->
  (forall x, holds cols w (enc x) = Some (p x)) ->
  dtriple g (exists_on st_open st_file cap text) (fun b g' => g' = g /\ b = existsb p l).
Proof.
  intros Hg Hp Hl Hw. apply dtriple_open.
  eapply (otriple_bind _ _ _ (fun s g' => s = text /\ g' = g)); [by apply otriple_sprintf|]. intros ? ? [-> ->].
  eapply otriple_bind; [by eapply (otriple_count t)|]. intros r ? [Hr ->]. by apply otriple_ret.
Qed.

Lemma update_on_spec g g' text cap st :
  parse_sql text = Some [st] -> (String.length text < cap)%nat ->
  (forall rest, exec_stmt st (st_db g rest) = Some (true, st_db g' rest)) ->
  dtriple g (update_on st_open st_file cap text) (fun b g1 => g1 = g' /\ b = true).
Proof.
  intros Hp Hl He. apply dtriple_open.
  eapply (otriple_bind _ _ _ (fun s g1 => s = text /\ g1 = g)); [by apply otriple_sprintf|]. intros ? ? [-> ->].
  eapply (otriple_bind _ _ _ (fun rc g1 => rc = SQLITE_OK /\ g1 = g')); [eapply otriple_exec; eauto|].
  intros ? ? [-> ->]. by apply otriple_ret.
Qed.


(** Deleting, changing and adding the records of a table. *)
Lemma delete_on_spec {A} t cols seq (enc : A -> list value) l (p : A -> bool) g g' text cap w :
  (forall rest, st_db g rest !! t = Some (mk_table cols seq (enc <$> l))) ->
  (forall rest, <[t := mk_table cols seq (enc <$> List.filter (fun x => negb (p x)) l)]> (st_db g rest) = st_db g' rest) ->
  parse_sql text = Some [SDelete t w] -> (String.length text < cap)%nat ->
  (forall x, holds cols w (enc x) = Some (p x)) ->
  dtriple g (update_on st_open st_file cap text) (fun b g1 => g1 = g' /\ b = true).
Proof.
  intros Hg Hg' Hp Hl Hw. eapply update_on_spec; [exact Hp|exact Hl|]. intros rest.
  assert (filter_opt (fun row => b ← holds cols w row; Some (negb b)) (enc <$> l) =
    Some (enc <$> List.filter (fun x => negb (p x)) l)) as Hf by (apply filter_opt_fmap; intros x; by rewrite Hw).
  rewrite (exec_delete _ _ _ _ _ (Hg rest) Hf).
  cbn [t_cols t_seq]. by rewrite Hg'.
Qed.

Lemma change_on_spec {A} t cols seq (enc : A -> list value) l (p : A -> bool) (h : A -> A) g g' text cap w sets :
  (forall rest, st_db g rest !! t = Some (mk_table cols seq (enc <$> l))) ->
  (forall rest, <[t := mk_table cols seq (enc <$> map_if p h l)]> (st_db g rest) = st_db g' rest) ->
  parse_sql text = Some [SUpdate t sets w] -> (String.length text < cap)%nat ->
  (forall x, holds cols w (enc x) = Some (p x)) -> (forall x, update_row cols sets (enc x) = Some (enc (h x))) ->
  dtriple g (update_on st_open st_file cap text) (fun b g1 => g1 = g' /\ b = true).
Proof.
  intros Hg Hg' Hp Hl Hw Hu. eapply update_on_spec; [exact Hp|exact Hl|]. intros rest.
  rewrite (exec_update _ _ _ _ _ _ (Hg rest) (map_if_rows cols w sets enc p h l Hw Hu)).
  cbn [t_cols t_seq]. by rewrite Hg'.
Qed.

Lemma add_on_spec {A} t cols seq (enc : A -> list value) l x g g' text cap cs vals :
  let tb := mk_table cols seq (enc <$> l) in
  let names := match cs with Some cs => cs | None => c_name <$> cols end in
  (forall rest, st_db g rest !! t = Some tb) ->
  (forall rest, <[t := mk_table cols (if has_auto cols then next_id tb else seq) (enc <$> (l ++ [x]))]> (st_db g rest) = st_db g' rest) ->
  parse_sql text = Some [SInsert t cs vals] -> (String.length text < cap)%nat ->
  length names = length vals -> build_row cols (next_id tb) (zip names vals) = Some (enc x) ->
  dtriple g (update_on st_open st_file cap text) (fun b g1 => g1 = g' /\ b = true).
Proof.
  intros tb names Hg Hg' Hp Hl Hn Hb. eapply update_on_spec; [exact Hp|exact Hl|]. intros rest.
  rewrite (exec_insert _ _ _ _ _ _ (Hg rest) Hn Hb). cbn [tb t_cols t_seq t_rows]. by rewrite <- Hg', fmap_app.
Qed.

(** One column of the first record that satisfies [p], whichever it is. *)
Lemma otriple_first {A} t cols seq (enc : A -> list value) l (p : A -> bool) g text c w (f : A -> value) (h : A -> string)
    (Q : get_table_result -> R -> Prop) :
  (forall rest, st_db g rest !! t = Some (mk_table cols seq (enc <$> l))) ->
  parse_sql text = Some [SSelect (Some [c]) t (Some w) None] ->
  (forall x, holds cols w (enc x) = Some (p x)) -> (forall x, project cols [c] (enc x) = Some [f x]) ->
  (forall x, cell (f x) = Some (h x)) ->
  (forall r, (row_num r = 0%nat /\ List.find p l = None) \/
     (exists x, (1 <= row_num r)%nat /\ x ∈ l /\ p x = true /\ mjoin (azResult r !! 1%nat) = Some (h x)) -> Q r g) ->
  otriple g (db_get_table st_file text) Q.
Proof.
  intros Hg Hp Hw Hpr Hc HQ. eapply (otriple_select t cols seq enc l p); [exact Hg|exact Hp|exact Hw|exact Hpr|].
  intros rows r Hr Hperm. apply HQ. by eapply first_cell.
Qed.

(** Without [order by] the order in which SQLite gives the rows is
    unspecified: [l'] is it. *)
Lemma db_get_rows {A} (pr : A -> list value) l g rest text o s :
  ready (sel st_file s) -> view (sel st_file s) = st_db g rest ->
  query_sql text (st_db g rest) = Some (o, pr <$> l) ->
  exists l' r file, l' ≡ₚ l /\ (o = true -> l' = l) /\ result_for (pr <$> l') r /\ ready file /\ view file = st_db g rest /\
    db_get_table st_file text s = Some (r, upd st_file file s).
Proof.
  intros Hr Hv Hq.
  destruct (triple_get_table st_file (st_db g rest) text o (pr <$> l) (fun r db' => db' = st_db g rest /\
     exists l', result_for (pr <$> l') r /\ l' ≡ₚ l /\ (o = true -> l' = l))) with (s := s)
    as (r & file & E & Hf & Hvf & l' & Hres & Hperm & Ho); [exact Hq| |exact Hr|exact Hv|].
  - intros rows r Hres Hperm Ho. split; [done|]. destruct o.
    + exists l. rewrite (Ho eq_refl) in Hres. done.
    + apply Permutation_map_inv in Hperm as (l' & -> & Hperm'). exists l'. by split_and!.
  - exists l', r, file. auto 6.
Qed.

Lemma opening_run g rest s :
  ready (sel st_file s) -> holds_st g rest (view (sel st_file s)) ->
  exists file, ready file /\ view file = st_db g rest /\
    forall A d (k : DM A), opening st_open d k s = k (upd st_file file s).
Proof.
  intros Hr Hh. destruct (st_open_law g rest _ Hh s Hr eq_refl) as (b & file & E & Hf & -> & Hv).
  exists file. split; [done|]. split; [done|]. intros A d k. unfold opening. by rewrite (bind_some _ _ _ _ _ E).
Qed.

(** The two prints of a table end as the text computed here, or overrun the
    buffer; nothing changes but the file handle and the buffer. *)
Lemma comma_column_spec {A} (b : charbuf) {BL : BufLaws b} (h : A -> string) l g rest text s :
  ready (sel st_file s) -> holds_st g rest (view (sel st_file s)) -> (0 < b_cap b)%nat ->
  query_sql text (st_db g rest) = Some (false, (fun x => [VText (h x)]) <$> l) ->
  exists l' file, l' ≡ₚ l /\ ready file /\ view file = st_db g rest /\
    comma_column st_open st_file b text s =
      (fun x => (tt, b_set b x (upd st_file file s))) <$> comma_text (b_cap b) (h <$> l').
Proof.
  intros Hr Hh Hcap Hq. destruct (opening_run g rest s Hr Hh) as (f0 & Hf0 & Hv0 & E0).
  destruct (db_get_rows (fun x => [VText (h x)]) l g rest text false (upd st_file f0 s)) as (l' & r & file & Hl & _ & Hres & Hf & Hv & E);
    [by rewrite sel_upd|by rewrite sel_upd|done|]. rewrite upd_upd in E.
  exists l', file. split; [done|]. split; [done|]. split; [done|].
  unfold comma_column. rewrite E0, (bind_some _ _ _ _ _ E). unfold buf_copy at 1, modify at 1.
  rewrite (bind_some _ _ _ tt (b_set b "" (upd st_file file s)) eq_refl).
  rewrite (result_rows _ _ Hres), length_fmap. destruct l' as [|x l']; [cbn; by rewrite b_set_set|].
  cbn [length Nat.leb]. unfold mbind at 1, M_bind at 1.
  rewrite (for_rows_cat b _ (fun y => h y +:+ ",") _ (x :: l') r _ Hres);
    [|by rewrite b_get_set|intros; by eapply column_piece].
  rewrite b_get_set, (list_fmap_compose h (fun y => y +:+ ",")).
  change (h <$> x :: l') with (h x :: (h <$> l')). set (names := h <$> l').
  change ("" +:+ ?x) with x. rewrite cat_all_join. unfold comma_text.
  replace (String.length (join "," (h x :: names)) + 1)%nat with (String.length (join "," (h x :: names) +:+ ","))
    by (by rewrite length_app_s).
  destruct (Nat.ltb_spec (String.length (join "," (h x :: names) +:+ ",")) (b_cap b)) as [Hc|Hc].
  - rewrite (fits_ok _ _ Hc). cbn [fmap option_fmap option_map]. unfold buf_drop_last, mbind, M_bind, gets, lift, modify.
    by rewrite b_get_set, drop_last_snoc, !b_set_set.
  - by rewrite (fits_overflow _ _ Hc).
Qed.

(** The text of a JSON array of objects. *)
Definition array_text (cap : nat) (items : list string) : option string :=
  match items with
  | [] => Some "_NULL_"
  | _ => fits cap ("[" +:+ (join "," items +:+ "]"))
  end.

Lemma json_array_spec {A} (b : charbuf) {BL : BufLaws b} (pr : A -> list value) (cs : A -> list string)
    (obj : list string -> string) cap width l g rest text o s :
  ready (sel st_file s) -> holds_st g rest (view (sel st_file s)) -> (1 < b_cap b)%nat ->
  query_sql text (st_db g rest) = Some (o, pr <$> l) ->
  (forall x, cell <$> pr x = Some <$> cs x /\ length (cs x) = width) ->
  Forall (fun x => (String.length (obj (cs x)) + 1 < cap)%nat) l ->
  exists l' file, l' ≡ₚ l /\ (o = true -> l' = l) /\ ready file /\ view file = st_db g rest /\
    json_array st_open st_file b cap width (fun c => obj c +:+ ",") text s =
      (fun x => (tt, b_set b x (upd st_file file s))) <$> array_text (b_cap b) ((fun x => obj (cs x)) <$> l').
Proof.
  intros Hr Hh Hcap Hq Hcs Hlen. destruct (opening_run g rest s Hr Hh) as (f0 & Hf0 & Hv0 & E0).
  destruct (db_get_rows pr l g rest text o (upd st_file f0 s)) as (l' & r & file & Hl & Ho & Hres & Hf & Hv & E);
    [by rewrite sel_upd|by rewrite sel_upd|done|]. rewrite upd_upd in E.
  exists l', file. split; [done|]. split; [done|]. split; [done|]. split; [done|]. rewrite <- Hl in Hlen.
  unfold json_array. rewrite E0, (bind_some _ _ _ _ _ E). unfold buf_copy at 1, modify at 1.
  rewrite (bind_some _ _ _ tt (b_set b "" (upd st_file file s)) eq_refl).
  rewrite (result_rows _ _ Hres), length_fmap. destruct l' as [|x l']; [cbn; by rewrite b_set_set|].
  cbn [length Nat.leb]. unfold mbind at 1, M_bind at 1. rewrite buf_cat_eq, b_get_set.
  unfold strcat_into. rewrite fits_ok by (simpl; lia). cbn [fmap option_fmap option_map]. rewrite b_set_set.
  unfold mbind at 1, M_bind at 1.
  rewrite (for_rows_cat b _ (fun y => obj (cs y) +:+ ",") _ (x :: l') r _ Hres); [|rewrite b_get_set; simpl; lia|].
  2:{ intros i y s1 Hy. destruct (Hcs y).
      apply (row_piece b pr cs cap width (fun c => obj c +:+ ",") (x :: l') r i y s1 Hres Hy); [done|done|].
      rewrite Forall_lookup in Hlen. specialize (Hlen i y Hy). rewrite length_app_s. simpl. lia. }
  rewrite b_get_set, (list_fmap_compose (fun y => obj (cs y)) (fun y => y +:+ ",")).
  change ((fun y => obj (cs y)) <$> x :: l') with (obj (cs x) :: ((fun y => obj (cs y)) <$> l')).
  set (objs := (fun y => obj (cs y)) <$> l'). rewrite cat_all_join.
  change ("" +:+ "[") with "[". rewrite <- (app_assoc_s "["). set (t := "[" +:+ join "," (obj (cs x) :: objs)).
  change (array_text (b_cap b) _) with (array_text (b_cap b) (obj (cs x) :: objs)).
  assert (array_text (b_cap b) (obj (cs x) :: objs) = fits (b_cap b) (t +:+ "]")) as ->
    by (cbn [array_text]; unfold t; by rewrite app_assoc_s).
  destruct (Nat.lt_ge_cases (String.length (t +:+ ",")) (b_cap b)) as [Hc|Hc].
  - rewrite (fits_ok _ _ Hc), fits_ok by (rewrite length_app_s in *; exact Hc). cbn [fmap option_fmap option_map].
    unfold buf_set_last, mbind, M_bind, gets, lift, modify. by rewrite b_get_set, set_last_snoc, !b_set_set.
  - rewrite (fits_overflow _ _ Hc), fits_overflow by (rewrite length_app_s in *; exact Hc). done.
Qed.
End Store.

(** Reads the next cell or copies a text that fits. *)
Ltac cell_step :=
  eapply dtriple_step;
  [first [ by apply fits_ok
         | match goal with H : azResult _ !! ?k = _ |- mjoin (azResult _ !! ?k) = _ => rewrite H; reflexivity end
         | reflexivity ]|].
