(* ===== verification/DevDb.v ===== *)
(** * The device registry (src/src/dev_manage/dev_db.c, dev_add.c, dev_edit.c,
      dev_del.c, version_manager.c)

    Three tables of dev.db: [statictable] (the devices the user registered),
    [dynamictable] (the network address each radio module announced) and
    [grouptable] (the rooms).  Every function opens the file, runs statements
    built with [sprintf] and closes it. *)

From stdpp Require Import base list strings gmap.
From Stdlib Require Import ZArith Lia Ascii.
From S2P Require Import Prelude CString Sql UartQueue DevControl DevState.

Open Scope Z_scope.

(** [DEV_ADD_RETURN] *)
Inductive DEV_ADD_RETURN := DEV_MAC_EXIST | DEV_NAME_EXIST | DEV_ADD_OK | DEV_ADD_FAIL.
#[export] Instance DEV_ADD_RETURN_eq : EqDecision DEV_ADD_RETURN.
Proof. solve_decision. Defined.

Section DevDb.
Context `{Sqlite}.

Definition static_sql : string :=
  "create table statictable(F_ID INTEGER PRIMARY KEY AUTOINCREMENT,F_MAC VARCHAR(30),F_NAME VARCHAR(50),F_UNICODE VARCHAR(200),F_GROUPID INTEGER DEFAULT 1,F_DEVNUMBER INTEGER DEFAULT 0,F_DEVTYPE INTEGER DEFAULT 0);".
Definition dynamic_sql : string := "create table dynamictable(F_MAC VARCHAR(30),F_IP VARCHAR(20));".
Definition group_sql : string :=
  "create table grouptable(F_ID INTEGER PRIMARY KEY AUTOINCREMENT,F_GROUPNAME VARCHAR(200));".

Definition CreateStaticTable : DM unit := _ ← db_exec dev_file static_sql; mret tt.
Definition CreateDynamicTable : DM unit := _ ← db_exec dev_file dynamic_sql; mret tt.
Definition CreateDevGroupTable : DM unit := _ ← db_exec dev_file group_sql; mret tt.

Definition database_open : DM bool :=
  rc ← db_open dev_file;
  if rc =? SQLITE_ERROR then mret false
  else
    _ ← CreateStaticTable;
    _ ← CreateDynamicTable;
    _ ← CreateDevGroupTable;
    mret true.

Definition with_open {A} (d : A) (k : DM A) : DM A := opening database_open d k.
Definition sql_exists (cap : nat) (text : string) : DM bool := exists_on database_open dev_file cap text.
Definition sql_update (cap : nat) (text : string) : DM bool := update_on database_open dev_file cap text.

Definition isGroupNameExist (group_name : string) : DM bool :=
  sql_exists 1024 ("select * from grouptable where F_GROUPNAME=" +:+ group_name).

Definition GetGroupIDByName (group_name : string) : DM (option Z) :=
  with_open None
    (sql ← sprintf 1024 ("select F_ID from grouptable where F_GROUPNAME='" +:+ (group_name +:+ "'"));
     r ← db_get_table dev_file sql;
     if (1 <=? row_num r)%nat then
       s ← az r 1; mret (Some (atoi s))
     else mret None).

Definition UpdateDevGroupIDByMacAndName (mac name : string) (group_id : Z) : DM bool :=
  sql_update 1024 ("update statictable set F_GROUPID=" +:+ (fmt_d group_id +:+ (" where F_MAC='" +:+
    (mac +:+ ("' and F_NAME='" +:+ (name +:+ "'")))))).

Definition AddDevGroupName (group_name : string) : DM bool :=
  with_open false
    (sql ← sprintf 1024 ("select * from grouptable where F_GROUPNAME='" +:+ (group_name +:+ "'"));
     r ← db_get_table dev_file sql;
     if (0 <? row_num r)%nat then mret false
     else
       sql ← sprintf 1024 ("insert into grouptable(F_GROUPNAME) values('" +:+ (group_name +:+ "')"));
       rc ← db_exec dev_file sql;
       mret (rc =? SQLITE_OK)).

(** The string in [g_group_name] becomes the names separated by commas. *)
Definition GetAllGroupName : DM unit :=
  comma_column database_open dev_file group_name_buf "select F_GROUPNAME from grouptable".

(** [GetDevVersion] (version_manager.c) *)
Definition GetDevVersion : string := "ARM11.001.001.000.000.000".

Definition dev_keys : list string := ["mac"; "name"; "group_name"; "type"; "devnumber"].

Definition GetDeviceList : DM unit :=
  with_open tt
    (r ← db_get_table dev_file
       "select F_MAC,F_NAME,F_GROUPNAME,F_DEVTYPE,F_DEVNUMBER from statictable a inner join grouptable b on a.F_GROUPID=b.F_ID";
     _ ← buf_copy dev_list_buf "";
     if (1 <=? row_num r)%nat then
       _ ← buf_cat dev_list_buf ("{" +:+ (dq +:+ ("ver" +:+ (dq +:+ (":" +:+ dq)))));
       _ ← buf_cat dev_list_buf GetDevVersion;
       _ ← buf_cat dev_list_buf (dq +:+ ("," +:+ (dq +:+ ("dev" +:+ (dq +:+ ":[")))));
       _ ← for_rows r (cat_row dev_list_buf 2048 5 (fun cells => json_object dev_keys cells +:+ ",") r);
       _ ← buf_set_last dev_list_buf "]";
       _ ← buf_cat dev_list_buf ("," +:+ (dq +:+ ("group" +:+ (dq +:+ ":["))));
       r ← db_get_table dev_file "select F_GROUPNAME from grouptable";
       _ ← for_rows r (cat_row dev_list_buf 2048 1 (fun cells => json_object ["name"] cells +:+ ",") r);
       _ ← buf_set_last dev_list_buf "]";
       buf_cat dev_list_buf "}"
     else buf_copy dev_list_buf "_NULL_").

(** The numbering of a line of the text message: UCS-2 digits in
    hexadecimal; [index] keeps its previous content from 1000 on. *)
Definition unicode_index (count : Z) (index : string) : string :=
  if count <? 10 then fmt_X_prec 4 (u32 (0x30 + count)) +:+ "002E"
  else if count <? 100 then
    fmt_X_prec 4 (0x30 + count / 10) +:+ (fmt_X_prec 4 (0x30 + count mod 10) +:+ "002E")
  else if count <? 1000 then
    fmt_X_prec 4 (0x30 + count / 100) +:+ (fmt_X_prec 4 (0x30 + count mod 100 / 10) +:+
    (fmt_X_prec 4 (0x30 + count mod 10) +:+ "002E"))
  else index.

Fixpoint unicode_rows (r : get_table_result) (l : list nat) (index : string) : DM unit :=
  match l with
  | [] => mret tt
  | i :: l =>
      c ← az r (i * column_num r);
      let index := unicode_index (atoi c) index in
      _ ← buf_cat unicode_dev_list_buf index;
      s ← az r (i * column_num r + 1);
      _ ← buf_cat unicode_dev_list_buf s;
      _ ← buf_cat unicode_dev_list_buf "000D000A";
      unicode_rows r l index
  end.

Definition unicode_hint : string :=
  "8BF756DE590D7F1653F7002B0030517395ED002C7F1653F7002B003162535F00002C7F1653F7002B003283B753D672B66001002C8C228C220021".

Definition GetUnicodeDeviceList : DM unit :=
  with_open tt
    (r ← db_get_table dev_file "select F_ID,F_UNICODE from statictable";
     _ ← buf_copy unicode_dev_list_buf "";
     if (1 <=? row_num r)%nat then
       _ ← unicode_rows r (seq 1 (row_num r)) "";
       buf_cat unicode_dev_list_buf unicode_hint
     else buf_copy unicode_dev_list_buf "_NULL_").

Definition isNewNameExist (new_name : option string) : DM bool :=
  match new_name with
  | None => mret false
  | Some new_name => sql_exists 1024 ("select * from statictable where F_NAME='" +:+ (new_name +:+ "'"))
  end.

Definition isMacOrNameExist (mac name : option string) (devnumber : Z) : DM DEV_ADD_RETURN :=
  match mac, name with
  | Some mac, Some name =>
      with_open DEV_ADD_FAIL
        (sql ← sprintf 1024
           (if devnumber =? 0
            then "select * from statictable where F_MAC='" +:+ (mac +:+ "'")
            else "select * from statictable where F_MAC='" +:+ (mac +:+ ("' and (F_DEVNUMBER='" +:+
                   (fmt_d devnumber +:+ "' or F_DEVNUMBER='0')"))));
         r ← db_get_table dev_file sql;
         if (0 <? row_num r)%nat then mret DEV_MAC_EXIST
         else
           sql ← sprintf 1024 ("select * from statictable where F_NAME='" +:+ (name +:+ "'"));
           r ← db_get_table dev_file sql;
           if (0 <? row_num r)%nat then mret DEV_NAME_EXIST else mret DEV_ADD_OK)
  | _, _ => mret DEV_ADD_FAIL
  end.

Definition insertIntoStaticTable (mac name unicode : string) (group_id dev_number type : Z) : DM bool :=
  sql_update 1024
    ("insert into statictable(F_MAC,F_NAME,F_UNICODE,F_GROUPID,F_DEVNUMBER,F_DEVTYPE) values('" +:+
     (mac +:+ ("','" +:+ (name +:+ ("','" +:+ (unicode +:+ ("'," +:+ (fmt_d group_id +:+ ("," +:+
     (fmt_d dev_number +:+ ("," +:+ (fmt_d type +:+ ")")))))))))))).

Definition isMacAndNameMatch (mac name : string) : DM bool :=
  sql_exists 1024 ("select * from statictable where F_MAC='" +:+ (mac +:+ ("' and F_NAME='" +:+ (name +:+ "'")))).

Definition deleteFromStaticTable (mac name : string) : DM bool :=
  sql_update 1024 ("delete from statictable where F_MAC='" +:+ (mac +:+ ("' and F_NAME='" +:+ (name +:+ "'")))).

Definition insertIntoDynamicTable (mac ip : string) : DM bool :=
  sql_update 1024 ("insert into dynamictable values('" +:+ (mac +:+ ("','" +:+ (ip +:+ "')")))).

Definition isMacExistInDynamicTable (mac : string) : DM bool :=
  sql_exists 1024 ("select * from dynamictable where F_MAC='" +:+ (mac +:+ "'")).

Definition UpdateDevIPByMac (mac new_ip : string) : DM bool :=
  sql_update 1024 ("update dynamictable set F_IP='" +:+ (new_ip +:+ ("' where F_MAC='" +:+ (mac +:+ "'")))).

(** [strcpy] of the first cell of a one-column answer into [char dst[cap]]. *)
Definition sql_first (sqlcap cap : nat) (text : string) : DM (option string) :=
  with_open None
    (sql ← sprintf sqlcap text;
     r ← db_get_table dev_file sql;
     if (1 <=? row_num r)%nat then
       s ← az r 1; s ← lift (fits cap s); mret (Some s)
     else mret None).

(** [cap]: the size of the caller's [ip] array. *)
Definition GetDevIPByMac (cap : nat) (mac : string) : DM (option string) :=
  sql_first 1024 cap ("select F_IP from dynamictable where F_MAC='" +:+ (mac +:+ "'")).

Definition GetMacAndDevNumberByID (cap : nat) (id : string) : DM (option (string * Z)) :=
  with_open None
    (sql ← sprintf 1024 ("select F_MAC,F_DEVNUMBER from statictable where F_ID='" +:+ (fmt_d (atoi id) +:+ "'"));
     r ← db_get_table dev_file sql;
     if (1 <=? row_num r)%nat then
       m ← az r (column_num r); m ← lift (fits cap m);
       n ← az r (column_num r + 1);
       mret (Some (m, u8 (atoi n)))
     else mret None).

Definition GetIPAndDevNumberByID (cap : nat) (id : string) : DM (option (string * Z)) :=
  o ← GetMacAndDevNumberByID 50 id;
  match o with
  | None => mret None
  | Some (mac, devnumber) =>
      o ← GetDevIPByMac cap mac;
      mret ((fun ip => (ip, devnumber)) <$> o)
  end.

Definition GetDevNumberByMacAndName (mac name : string) : DM Z :=
  with_open 0
    (sql ← sprintf 1024 ("select F_DEVNUMBER from statictable where F_MAC='" +:+ (mac +:+ ("' and F_NAME='" +:+
                          (name +:+ "'"))));
     r ← db_get_table dev_file sql;
     if (1 <=? row_num r)%nat then s ← az r 1; mret (u8 (atoi s)) else mret 0).

Definition isMacExistInStaticTable (mac : string) : DM bool :=
  sql_exists 1024 ("select * from statictable where F_MAC='" +:+ (mac +:+ "'")).

Definition UpdateDevNameByMacAndOldname (mac oldname new_name unicode : string) : DM bool :=
  sql_update 1024 ("update statictable set F_NAME='" +:+ (new_name +:+ ("' ,F_UNICODE='" +:+ (unicode +:+
    ("' where F_MAC='" +:+ (mac +:+ ("' and F_NAME='" +:+ (oldname +:+ "'")))))))).

(** [GetDevNameByIP] and [GetDevUnicodeNameByIP]: the device registered with
    the module that has this address; [char mac[41]]. *)
Definition dev_text_by_ip (col : string) (cap : nat) (ip : string) : DM (option string) :=
  with_open None
    (sql ← sprintf 1024 ("select F_MAC from dynamictable where F_IP='" +:+ (ip +:+ "'"));
     r ← db_get_table dev_file sql;
     if (row_num r =? 0)%nat then mret None
     else
       mac ← az r 1; mac ← lift (fits 41 mac);
       sql ← sprintf 1024 ("select " +:+ (col +:+ (" from statictable where F_MAC='" +:+ (mac +:+ "'"))));
       r ← db_get_table dev_file sql;
       if (row_num r =? 0)%nat then mret None
       else s ← az r 1; s ← lift (fits cap s); mret (Some s)).

Definition GetDevNameByIP (cap : nat) (ip : string) : DM (option string) := dev_text_by_ip "F_NAME" cap ip.
Definition GetDevUnicodeNameByIP (cap : nat) (ip : string) : DM (option string) := dev_text_by_ip "F_UNICODE" cap ip.

(** [ReOrderStaticTableItemID] *)
Definition ReOrderStaticTableItemID : DM unit :=
  with_open tt
    (r ← db_get_table dev_file "select F_ID,F_MAC,F_NAME from statictable";
     for_rows r (fun i =>
       mac ← az r (i * column_num r + 1);
       sql ← sprintf 1024 ("update statictable set F_ID=" +:+ (fmt_d (Z.of_nat i) +:+ (" where F_MAC='" +:+ (mac +:+ "'"))));
       _ ← db_exec dev_file sql; mret tt)).

(** ** dev_add.c, dev_edit.c, dev_del.c *)

Definition AddDevToStaticTable (mac name unicode groupname : string) (dev_number type : Z) : DM DEV_ADD_RETURN :=
  ret ← isMacOrNameExist (Some mac) (Some name) dev_number;
  if decide (ret = DEV_ADD_OK) then
    _ ← AddDevGroupName groupname;
    g ← GetGroupIDByName groupname;
    match g with
    | None => mret DEV_ADD_FAIL
    | Some group_id =>
        ok ← insertIntoStaticTable mac name unicode group_id dev_number type;
        mret (if ok : bool then DEV_ADD_OK else DEV_ADD_FAIL)
    end
  else mret ret.

Definition AddDevToDynamicTable (mac ip : string) : DM bool :=
  e ← isMacExistInDynamicTable mac;
  if e : bool then UpdateDevIPByMac mac ip else insertIntoDynamicTable mac ip.

Definition UpdateDevDisplayName (mac oldname new_name unicode : string) : DM bool :=
  m ← isMacAndNameMatch mac oldname;
  if m : bool then
    e ← isNewNameExist (Some new_name);
    if e : bool then mret false else UpdateDevNameByMacAndOldname mac oldname new_name unicode
  else mret false.

Definition UpdateDevGroupName (mac name new_group_name : string) : DM bool :=
  m ← isMacAndNameMatch mac name;
  if m : bool then
    g ← GetGroupIDByName new_group_name;
    match g with
    | None => mret false
    | Some group_id => UpdateDevGroupIDByMacAndName mac name group_id
    end
  else mret false.

Definition RemoveDevFromStaticTable (mac name : string) : DM bool :=
  m ← isMacAndNameMatch mac name;
  if m : bool then deleteFromStaticTable mac name else mret false.
End DevDb.
