(* ===== verification/DevRegProps.v ===== *)
(** * Correctness of the device registry

    The commands of the registry refine their specification, and keep it
    consistent; a text command that names a device reaches the address its
    module announced; and what happens with a quote in an argument. *)

From stdpp Require Import base list strings gmap sets.
From Stdlib Require Import ZArith Lia Ascii.
From S2P Require Import Prelude CString Sql UartQueue DevControl DevState DbTriple DbStore DevDb DevReg.

Open Scope Z_scope.

(** ** Consistency is preserved *)

Lemma next_key_seq {A} (id : A -> Z) seq l : Forall (fun r => 0 < id r <= seq) l -> next_key id seq l = 1 + seq.
Proof.
  intros H. unfold next_key. f_equal. induction H as [|x l Hx _ IH]; [done|]. simpl. lia.
Qed.

Lemma fresh_key {A} (id : A -> Z) seq l x :
  Forall (fun r => 0 < id r <= seq) l -> NoDup (id <$> l) -> id x = 1 + seq -> NoDup (id <$> l ++ [x]).
Proof.
  intros Hl Hnd Hx. rewrite fmap_app. apply NoDup_app. split; [done|]. split; [|apply NoDup_singleton].
  intros y Hy Hin. apply list_elem_of_fmap in Hy as (r & -> & Hr). apply list_elem_of_singleton in Hin.
  rewrite Forall_forall in Hl. specialize (Hl r Hr). lia.
Qed.

Lemma fresh_text {A} (key : A -> string) l x :
  NoDup (key <$> l) -> existsb (fun r => String.eqb (key r) (key x)) l = false -> NoDup (key <$> l ++ [x]).
Proof.
  intros Hnd Hx. rewrite fmap_app. apply NoDup_app. split; [done|]. split; [|apply NoDup_singleton].
  intros y Hy Hin. apply list_elem_of_fmap in Hy as (r & -> & Hr). apply list_elem_of_singleton in Hin.
  apply not_true_iff_false in Hx. apply Hx, List.existsb_exists. exists r.
  split; [by apply list_elem_of_In|]. by apply String.eqb_eq.
Qed.

Lemma Forall_weaken_bound {A} (id : A -> Z) l a b :
  a <= b -> Forall (fun r => 0 < id r <= a) l -> Forall (fun r => 0 < id r <= b) l.
Proof. intros Hab H. eapply Forall_impl; [exact H|]. intros x Hx. cbv beta in *. lia. Qed.

Lemma reg_add_group_inv name g : reg_inv g -> reg_inv (snd (reg_add_group name g)).
Proof.
  intros Hi. unfold reg_add_group. destruct (existsb _ _) eqn:E; [done|]. cbn [snd]. cbv zeta.
  rewrite next_key_seq by apply Hi. destruct Hi. split; cbn [devs dev_seq dyns grps grp_seq]; try done.
  - eapply Forall_impl; [exact inv_groups|]. intros r (x & Hx & Hxr). exists x. split; [apply elem_of_app; by left|done].
  - by apply (fresh_key gr_id (grp_seq g)).
  - apply Forall_app. split; [eapply Forall_weaken_bound; [|done]; lia|]. constructor; [cbn; lia|done].
  - by apply fresh_text.
  - lia.
Qed.

Lemma reg_group_id_elem name g gid : reg_group_id name g = Some gid -> exists x, x ∈ grps g /\ gr_id x = gid.
Proof.
  unfold reg_group_id. destruct (List.find _ _) as [x|] eqn:E; [|done]. intros [= <-].
  apply List.find_some in E as [Hx _]. exists x. by apply list_elem_of_In in Hx.
Qed.

Lemma reg_add_inv mac name unicode group num type g :
  reg_inv g -> byte_range num -> reg_inv (snd (reg_add mac name unicode group num type g)).
Proof.
  intros Hi Hn. unfold reg_add. destruct (existsb (mac_taken _ _) _) eqn:Em; [done|].
  destruct (existsb (is_named _) _) eqn:En; [done|]. cbv zeta.
  assert (devs (snd (reg_add_group group g)) = devs g /\ dev_seq (snd (reg_add_group group g)) = dev_seq g) as [Hd Hs]
    by (unfold reg_add_group; split; destruct (existsb (is_group group) (grps g)); reflexivity).
  pose proof (reg_add_group_inv group g Hi) as Hi'. destruct (reg_group_id _ _) as [gid|] eqn:Eg; [|done].
  apply reg_group_id_elem in Eg. cbn [snd]. rewrite Hd, Hs. destruct Hi'. rewrite ?Hd, ?Hs in *.
  rewrite next_key_seq by done. split; cbn [devs dev_seq dyns grps grp_seq]; try done.
  - by apply (fresh_key d_id (dev_seq g)).
  - apply Forall_app. split; [eapply Forall_weaken_bound; [|done]; lia|]. constructor; [cbn; lia|done].
  - by apply fresh_text.
  - assert (forall r, r ∈ devs g -> d_mac r = mac -> d_num r <> num /\ d_num r <> 0 /\ num <> 0) as Hfree.
    { intros r Hr <-. apply not_true_iff_false in Em. split_and!; intros He; apply Em, List.existsb_exists;
        exists r; (split; [by apply list_elem_of_In|]); unfold mac_taken; rewrite String.eqb_refl;
        apply orb_true_iff; [right|right|left]; lia. }
    intros a b [Ha|Ha]%elem_of_app [Hb|Hb]%elem_of_app Hab Hmac; [by apply inv_address|..];
      try apply list_elem_of_singleton in Ha as ->; try apply list_elem_of_singleton in Hb as ->; [..|done].
    + destruct (Hfree a Ha Hmac) as (? & ? & ?). done.
    + destruct (Hfree b Hb (eq_sym Hmac)) as (? & ? & ?). cbn. auto.
  - apply Forall_app. auto.
  - apply Forall_app. split; [done|]. by constructor.
  - lia.
Qed.

(** Changes that keep the keys and addresses. *)
Lemma with_devs_inv l g :
  reg_inv g -> (d_id <$> l) `sublist_of` (d_id <$> devs g) -> NoDup (d_name <$> l) ->
  Forall (fun r => exists r0, r0 ∈ devs g /\ d_id r = d_id r0 /\ d_mac r = d_mac r0 /\ d_num r = d_num r0) l ->
  Forall (fun r => exists x, x ∈ grps g /\ gr_id x = d_group r) l -> reg_inv (with_devs l g).
Proof.
  intros [] Hsub Hnames Hold Hgrp. split; cbn [with_devs devs dev_seq dyns grps grp_seq]; try done.
  - eapply sublist_NoDup; [|exact Hsub]; exact inv_ids.
  - eapply Forall_impl; [exact Hold|]. intros r (r0 & Hr & -> & _). rewrite Forall_forall in inv_id_range. auto.
  - rewrite Forall_forall in Hold. intros a b Ha Hb.
    destruct (Hold a Ha) as (a0 & Ha0 & -> & -> & ->), (Hold b Hb) as (b0 & Hb0 & -> & -> & ->). auto.
  - eapply Forall_impl; [exact Hold|]. intros r (r0 & Hr & _ & _ & ->). rewrite Forall_forall in inv_nums. auto.
Qed.

Lemma filter_sublist {A} (p : A -> bool) (l : list A) : List.filter p l `sublist_of` l.
Proof.
  induction l as [|x l IH]; [constructor|]. simpl. destruct (p x); by constructor.
Qed.

Lemma elem_of_filter_sub {A} (p : A -> bool) l (x : A) : x ∈ List.filter p l -> x ∈ l.
Proof. intros Hx. apply list_elem_of_In, List.filter_In in Hx as [Hx _]. by apply list_elem_of_In. Qed.

Lemma Forall_self {A} (P : A -> Prop) l : (forall x, x ∈ l -> P x) -> Forall P l.
Proof. by rewrite Forall_forall. Qed.

Lemma reg_remove_inv mac name g : reg_inv g -> reg_inv (snd (reg_remove mac name g)).
Proof.
  intros Hi. unfold reg_remove. destruct (existsb _ _); [|done]. cbn [snd].
  pose proof (filter_sublist (fun r => negb (is_dev mac name r)) (devs g)) as Hsub. apply with_devs_inv; [done|..].
  - by apply fmap_sublist.
  - eapply sublist_NoDup; [apply inv_names, Hi|by apply fmap_sublist].
  - apply Forall_self. intros r Hr. exists r. split; [|done]. by eapply elem_of_filter_sub.
  - apply Forall_self. intros r Hr%elem_of_filter_sub. pose proof (inv_groups g Hi) as Hg.
    rewrite Forall_forall in Hg. auto.
Qed.

Lemma map_if_keep {A B} (p : A -> bool) (f : A -> A) (h : A -> B) l :
  (forall x, h (f x) = h x) -> h <$> map_if p f l = h <$> l.
Proof.
  intros Hf. unfold map_if. rewrite <- list_fmap_compose. apply list_fmap_ext.
  intros _ x _. simpl. destruct (p x); [apply Hf|done].
Qed.

Lemma elem_of_map_if {A} (p : A -> bool) (f : A -> A) l x :
  x ∈ map_if p f l -> exists y, y ∈ l /\ x = if p y then f y else y.
Proof. intros Hx. apply list_elem_of_fmap in Hx as (y & -> & Hy). eauto. Qed.

(** At most one device has the name that changes, and no other has the new one. *)
Lemma rename_names (p : dev_row -> bool) (f : dev_row -> dev_row) old new l :
  NoDup (d_name <$> l) -> (forall r, p r = true -> d_name r = old) -> (forall r, d_name (f r) = new) ->
  existsb (is_named new) l = false -> NoDup (d_name <$> map_if p f l).
Proof.
  intros Hnd Hp Hf Hnew. apply not_true_iff_false in Hnew.
  assert (forall r, r ∈ l -> d_name r <> new) as Hfree.
  { intros r Hr <-. apply Hnew, List.existsb_exists. exists r. split; [by apply list_elem_of_In|]. apply String.eqb_refl. }
  clear Hnew. induction l as [|r l IH]; [constructor|]. unfold map_if in *. csimpl in *.
  apply NoDup_cons in Hnd as [Hr Hnd]. apply NoDup_cons. split; [|apply IH; [done|]; set_solver].
  intros Hin. apply list_elem_of_fmap in Hin as (x & Hx & Hxl). apply elem_of_map_if in Hxl as (y & Hy & ->).
  destruct (p r) eqn:Er, (p y) eqn:Ey.
  - apply Hr. rewrite (Hp r Er), <- (Hp y Ey). apply list_elem_of_fmap. eauto.
  - rewrite Hf in Hx. apply (Hfree y); [by right|done].
  - rewrite Hf in Hx. apply (Hfree r); [by left|done].
  - apply Hr, list_elem_of_fmap. exists y. auto.
Qed.

Lemma reg_rename_inv mac old new unicode g : reg_inv g -> reg_inv (snd (reg_rename mac old new unicode g)).
Proof.
  intros Hi. unfold reg_rename. destruct (existsb (is_dev mac old) _); [|done].
  destruct (existsb (is_named new) _) eqn:E; [done|]. cbn [negb andb snd]. apply with_devs_inv; [done|..].
  - by rewrite map_if_keep.
  - apply (rename_names _ _ old new); [apply inv_names, Hi| |done|done].
    unfold is_dev. intros r [_ Hr]%andb_prop. by apply String.eqb_eq.
  - apply Forall_self. intros r (y & Hy & ->)%elem_of_map_if. exists y. by destruct (is_dev _ _ _).
  - apply Forall_self. intros r (y & Hy & ->)%elem_of_map_if. pose proof (inv_groups g Hi) as Hg.
    rewrite Forall_forall in Hg. specialize (Hg y Hy). by destruct (is_dev _ _ _).
Qed.

Lemma reg_regroup_inv mac name group g : reg_inv g -> reg_inv (snd (reg_regroup mac name group g)).
Proof.
  intros Hi. unfold reg_regroup. destruct (existsb (is_dev mac name) _); [|done].
  destruct (reg_group_id group g) as [gid|] eqn:E; [|done]. apply reg_group_id_elem in E. cbn [snd].
  apply with_devs_inv; [done|..].
  - by rewrite map_if_keep.
  - rewrite map_if_keep by done. apply inv_names, Hi.
  - apply Forall_self. intros r (y & Hy & ->)%elem_of_map_if. exists y. by destruct (is_dev _ _ _).
  - apply Forall_self. intros r (y & Hy & ->)%elem_of_map_if. pose proof (inv_groups g Hi) as Hg.
    rewrite Forall_forall in Hg. specialize (Hg y Hy). by destruct (is_dev _ _ _).
Qed.

Lemma reg_announce_inv mac ip g : reg_inv g -> reg_inv (snd (reg_announce mac ip g)).
Proof.
  intros Hi. unfold reg_announce. destruct (existsb (is_mac mac) _) eqn:E; cbn [snd];
    destruct Hi; split; cbn [with_dyns devs dev_seq dyns grps grp_seq]; try done.
  - by rewrite map_if_keep.
  - by apply fresh_text.
Qed.

Lemma reg_spec_inv c g : reg_inv g -> cmd_ok c -> reg_inv (snd (reg_spec c g)).
Proof.
  intros Hi Hc. destruct c; cbn [reg_spec ret_of_bool snd].
  - apply reg_add_inv; [done|apply Hc].
  - by apply reg_remove_inv.
  - by apply reg_rename_inv.
  - by apply reg_regroup_inv.
  - by apply reg_add_group_inv.
  - by apply reg_announce_inv.
Qed.

Lemma empty_registry_inv : reg_inv empty_registry.
Proof. split; simpl; try done; try constructor; set_solver. Qed.

(** The keys given out grow by at most one for each command. *)
Definition seq_bound (n : Z) (g : registry) : Prop := dev_seq g <= n /\ grp_seq g <= n.

Lemma reg_add_group_bound name g n :
  reg_inv g -> seq_bound n g -> seq_bound (n + 1) (snd (reg_add_group name g)).
Proof.
  intros Hi [Hd Hg]. unfold reg_add_group, seq_bound. destruct (existsb _ _); cbn; [lia|].
  rewrite next_key_seq; [lia|apply Hi].
Qed.

Lemma reg_spec_bound c g n : reg_inv g -> seq_bound n g -> seq_bound (n + 1) (snd (reg_spec c g)).
Proof.
  intros Hi Hb. destruct c; cbn [reg_spec ret_of_bool snd]; [| | | |by apply reg_add_group_bound|].
  - pose proof (reg_add_group_bound group g n Hi Hb) as Hb'. unfold reg_add, seq_bound in *.
    destruct (existsb _ _); [cbn; lia|]. destruct (existsb _ _); [cbn; lia|]. cbv zeta.
    pose proof (reg_add_group_inv group g Hi) as Hi'.
    assert (dev_seq (snd (reg_add_group group g)) = dev_seq g) as Hs by (unfold reg_add_group; destruct (existsb _ _); auto).
    destruct (reg_group_id _ _); cbn [snd dev_seq grp_seq]; [|lia]. rewrite next_key_seq; [lia|apply Hi'].
  - unfold reg_remove, seq_bound in *. destruct (existsb _ _); cbn; lia.
  - unfold reg_rename, seq_bound in *. destruct (_ && _); cbn; lia.
  - unfold reg_regroup, seq_bound in *. destruct (existsb _ _); [|cbn; lia]. destruct (reg_group_id _ _); cbn; lia.
  - unfold reg_announce, seq_bound in *. destruct (existsb _ _); cbn; lia.
Qed.

(** ** The code computes the specification *)

Section Refine.
Context {S : Sqlite} {SL : SqliteLaws S}.

Lemma AddDevToStaticTable_spec g mac name unicode group num type :
  reg_inv g -> grp_seq g < INT_MAX -> cmd_ok (CAdd mac name unicode group num type) ->
  dtriple g (AddDevToStaticTable mac name unicode group num type)
    (fun x g' => (x, g') = reg_add mac name unicode group num type g).
Proof.
  intros Hi Hmax (Hm & Hn & Hu & Hg & Hb & Ht). unfold reg_add.
  eapply dtriple_bind; [by apply isMacOrNameExist_spec|]. intros ret ? [-> ->].
  destruct (existsb (mac_taken _ _) _); [by apply dtriple_ret|].
  destruct (existsb (is_named _) _); [by apply dtriple_ret|]. cbv zeta.
  destruct (decide (DEV_ADD_OK = DEV_ADD_OK)); [|done].
  eapply dtriple_bind; [by apply AddDevGroupName_spec|]. intros b g' Hbg.
  replace (snd (reg_add_group group g)) with g' by (by rewrite <- Hbg).
  assert (reg_inv g') as Hi' by (rewrite (eq_refl : g' = snd (b, g')), Hbg; by apply reg_add_group_inv).
  assert (grp_seq g' <= INT_MAX) as Hmax'.
  { rewrite (eq_refl : g' = snd (b, g')), Hbg.
    assert (seq_bound (Z.max (dev_seq g) (grp_seq g)) g) as H0 by (unfold seq_bound; lia).
    unfold reg_add_group. destruct (existsb _ _); cbn; [lia|]. rewrite next_key_seq by apply Hi. lia. }
  eapply dtriple_bind; [by apply GetGroupIDByName_spec|]. intros o ? [-> ->].
  destruct (reg_group_id group g') as [gid|] eqn:E; [|by apply dtriple_ret].
  assert (0 <= gid <= INT_MAX) as Hgid.
  { apply reg_group_id_elem in E as (x & Hx & <-). pose proof (inv_gid_range g' Hi') as Hr.
    rewrite Forall_forall in Hr. specialize (Hr x Hx). lia. }
  eapply dtriple_bind; [by apply insertIntoStaticTable_spec|]. intros ? ? [-> ->]. by apply dtriple_ret.
Qed.

Lemma RemoveDevFromStaticTable_spec g mac name :
  arg_ok mac -> arg_ok name ->
  dtriple g (RemoveDevFromStaticTable mac name) (fun b g' => (b, g') = reg_remove mac name g).
Proof.
  intros Hm Hn. eapply dtriple_bind; [by apply isMacAndNameMatch_spec|]. intros b ? [-> ->]. unfold reg_remove.
  destruct (existsb _ _); [|by apply dtriple_ret].
  eapply dtriple_mono; [by apply deleteFromStaticTable_spec|]. by intros ? ? [-> ->].
Qed.

Lemma UpdateDevDisplayName_spec g mac old new unicode :
  arg_ok mac -> arg_ok old -> arg_ok new -> arg_ok unicode ->
  dtriple g (UpdateDevDisplayName mac old new unicode) (fun b g' => (b, g') = reg_rename mac old new unicode g).
Proof.
  intros Hm Ho Hn Hu. eapply dtriple_bind; [by apply isMacAndNameMatch_spec|]. intros b ? [-> ->]. unfold reg_rename.
  destruct (existsb (is_dev _ _) _); [|by apply dtriple_ret].
  eapply dtriple_bind; [by apply isNewNameExist_spec|]. intros b ? [-> ->].
  destruct (existsb (is_named _) _); [by apply dtriple_ret|].
  eapply dtriple_mono; [by apply UpdateDevNameByMacAndOldname_spec|]. by intros ? ? [-> ->].
Qed.

Lemma UpdateDevGroupName_spec g mac name group :
  reg_inv g -> grp_seq g <= INT_MAX -> arg_ok mac -> arg_ok name -> arg_ok group ->
  dtriple g (UpdateDevGroupName mac name group) (fun b g' => (b, g') = reg_regroup mac name group g).
Proof.
  intros Hi Hmax Hm Hn Hg. eapply dtriple_bind; [by apply isMacAndNameMatch_spec|]. intros b ? [-> ->]. unfold reg_regroup.
  destruct (existsb _ _); [|by apply dtriple_ret].
  eapply dtriple_bind; [by apply GetGroupIDByName_spec|]. intros o ? [-> ->].
  destruct (reg_group_id _ _) as [gid|] eqn:E; [|by apply dtriple_ret].
  assert (0 <= gid <= INT_MAX) as Hgid.
  { apply reg_group_id_elem in E as (x & Hx & <-). pose proof (inv_gid_range g Hi) as Hr.
    rewrite Forall_forall in Hr. specialize (Hr x Hx). lia. }
  eapply dtriple_mono; [by apply UpdateDevGroupIDByMacAndName_spec|]. by intros ? ? [-> ->].
Qed.

Lemma of_ok_spec g m (r : bool * registry) :
  dtriple g m (fun b g' => (b, g') = r) -> dtriple g (of_ok m) (fun x g' => (x, g') = ret_of_bool r).
Proof. intros Hm. eapply dtriple_bind; [exact Hm|]. intros b g' <-. by apply dtriple_ret. Qed.

Lemma run_cmd_spec c g :
  reg_inv g -> cmd_ok c -> grp_seq g < INT_MAX ->
  dtriple g (run_cmd c) (fun x g' => (x, g') = reg_spec c g).
Proof.
  intros Hi Hc Hmax. destruct c; cbn [run_cmd reg_spec].
  - by apply AddDevToStaticTable_spec.
  - destruct Hc. by apply of_ok_spec, RemoveDevFromStaticTable_spec.
  - destruct Hc as (?&?&?&?). by apply of_ok_spec, UpdateDevDisplayName_spec.
  - destruct Hc as (?&?&?). apply of_ok_spec, UpdateDevGroupName_spec; [done|lia|done..].
  - by apply of_ok_spec, AddDevGroupName_spec.
  - destruct Hc. by apply of_ok_spec, AddDevToDynamicTable_spec.
Qed.

(** A run of several commands and its specification. *)
Fixpoint run_cmds (l : list reg_cmd) : DM (list DEV_ADD_RETURN) :=
  match l with
  | [] => mret []
  | c :: l => x ← run_cmd c; xs ← run_cmds l; mret (x :: xs)
  end.
Fixpoint reg_specs (l : list reg_cmd) (g : registry) : list DEV_ADD_RETURN * registry :=
  match l with
  | [] => ([], g)
  | c :: l => let '(x, g) := reg_spec c g in let '(xs, g) := reg_specs l g in (x :: xs, g)
  end.

Lemma run_cmds_spec l g n :
  reg_inv g -> Forall cmd_ok l -> seq_bound n g -> n + Z.of_nat (length l) <= INT_MAX ->
  dtriple g (run_cmds l) (fun xs g' => (xs, g') = reg_specs l g /\ reg_inv g' /\ seq_bound (n + Z.of_nat (length l)) g').
Proof.
  revert g n. induction l as [|c l IH]; intros g n Hi Hl Hb Hn; cbn [run_cmds reg_specs].
  { apply dtriple_ret. rewrite Z.add_0_r. done. }
  apply Forall_cons in Hl as [Hc Hl]. cbn [length] in *.
  eapply dtriple_bind; [apply run_cmd_spec; [done|done|unfold seq_bound in Hb; lia]|].
  intros x g' Hx. rewrite <- Hx.
  assert (reg_inv g') as Hi' by (rewrite (eq_refl : g' = snd (x, g')), Hx; by apply reg_spec_inv).
  assert (seq_bound (n + 1) g') as Hb' by (rewrite (eq_refl : g' = snd (x, g')), Hx; by apply reg_spec_bound).
  eapply dtriple_bind; [apply (IH g' (n + 1) Hi' Hl Hb'); lia|].
  intros xs g'' (Hxs & Hi'' & Hb''). apply dtriple_ret. rewrite <- Hxs.
  replace (n + Z.of_nat (Datatypes.S (length l))) with (n + 1 + Z.of_nat (length l)) by lia. done.
Qed.
End Refine.

(** ** Properties *)

(** C3: Each registry command of the daemon (register, remove, rename, move
    to another room, add a room, announce an address), run on a SQLite file
    that holds a consistent registry [g], terminates without undefined
    behaviour, returns what the specification says, leaves the file with the
    specified registry and all other tables as they were, and changes nothing
    else in the daemon's state. *)
Theorem registry_refines {S : Sqlite} {SL : SqliteLaws S} (c : reg_cmd) (g : registry) (rest : sqldb) (s : dm_state) :
  ready (f_dev s) -> holds_reg g rest (view (f_dev s)) -> reg_inv g -> cmd_ok c -> grp_seq g < INT_MAX ->
  exists file, run_cmd c s = Some (fst (reg_spec c g), set_f_dev file s) /\
    ready file /\ holds_reg (snd (reg_spec c g)) rest (view file).
Proof.
  intros Hr Hh Hi Hc Hmax. destruct (run_cmd_spec c g Hi Hc Hmax rest _ Hh s Hr eq_refl)
    as (x & file & E & Hf & g' & Hg' & Hx).
  exists file. rewrite <- Hx. done.
Qed.

Definition sample_dm (db : sqldb) : dm_state (H := RefSqlite) :=
  mk_dm (H := RefSqlite) db ∅ ∅ "" "" "" "" "" "" "" (mk_uart [] quene_static) None "" [].
Definition sample_add : reg_cmd := CAdd "0013A200" "lamp" "706F" "hall" 1 0.

Lemma registry_refines_witness :
  exists file, run_cmd (H := RefSqlite) sample_add (sample_dm ∅) = Some (DEV_ADD_OK, set_f_dev (H := RefSqlite) file (sample_dm ∅)) /\
    ready (SqliteLaws := RefSqliteLaws) file /\
    holds_reg (mk_reg [mk_dev 1 "0013A200" "lamp" "706F" 1 1 0] 1 [] [mk_grp 1 "hall"] 1) ∅ file.
Proof.
  apply (registry_refines (SL := RefSqliteLaws) sample_add empty_registry ∅ (sample_dm ∅)).
  - apply map_Forall_empty.
  - apply holds_empty.
  - apply empty_registry_inv.
  - repeat split; vm_compute; try discriminate; try lia; done.
  - vm_compute. reflexivity.
Defined.

(** C4: After any sequence of registry commands on a new file, the registry
    is consistent: no two devices have the same name, two devices behind the
    same radio module have different non-zero numbers, identifiers are unique
    and positive, every device is in an existing room, and no module has two
    addresses; and the answers are those of the specification. *)
Theorem registry_invariant {S : Sqlite} {SL : SqliteLaws S} (l : list reg_cmd) (s : dm_state) :
  ready (f_dev s) -> view (f_dev s) = ∅ -> Forall cmd_ok l -> Z.of_nat (length l) <= INT_MAX ->
  exists file g, run_cmds l s = Some (fst (reg_specs l empty_registry), set_f_dev file s) /\
    ready file /\ holds_reg g ∅ (view file) /\ g = snd (reg_specs l empty_registry) /\ reg_inv g.
Proof.
  intros Hr Hv Hl Hn.
  destruct (run_cmds_spec l empty_registry 0 empty_registry_inv Hl ltac:(done) Hn ∅ ∅ holds_empty s Hr Hv)
    as (xs & file & E & Hf & g' & Hg' & Hx & Hi & _).
  exists file, g'. rewrite <- Hx. done.
Qed.

Definition sample_cmds : list reg_cmd :=
  [sample_add; CAdd "0013A200" "fan" "706F" "hall" 0 0; CAdd "0013A200" "fan" "706F" "hall" 2 0;
   CAnnounce "0013A200" "12AB"; CRename "0013A200" "fan" "lamp" ""; CRemove "0013A200" "lamp"].

Lemma registry_invariant_witness :
  exists file g, run_cmds (S := RefSqlite) sample_cmds (sample_dm ∅) =
      Some ([DEV_ADD_OK; DEV_MAC_EXIST; DEV_ADD_OK; DEV_ADD_OK; DEV_ADD_FAIL; DEV_ADD_OK], set_f_dev (H := RefSqlite) file (sample_dm ∅)) /\
    ready (SqliteLaws := RefSqliteLaws) file /\ holds_reg g ∅ file /\
    g = mk_reg [mk_dev 2 "0013A200" "fan" "706F" 1 2 0] 2 [mk_dyn "0013A200" "12AB"] [mk_grp 1 "hall"] 1 /\ reg_inv g.
Proof.
  apply (registry_invariant (SL := RefSqliteLaws) sample_cmds (sample_dm ∅)).
  - apply map_Forall_empty.
  - reflexivity.
  - repeat constructor; vm_compute; try discriminate; try lia; done.
  - vm_compute. discriminate.
Defined.

(** ** Lists for the clients *)

(** [GetAllGroupName] puts the names of all rooms in [g_group_name],
    separated by commas, whatever the order SQLite returns them in, and
    [_NULL_] when there is none; it overruns the 4096-byte buffer exactly
    when the names and their separators need 4096 bytes or more. *)
Lemma group_names_listed {S0 : Sqlite} {SL : SqliteLaws S0} (g : registry) (rest : sqldb) (s : dm_state) :
  ready (f_dev s) -> holds_reg g rest (view (f_dev s)) ->
  exists names file, names ≡ₚ gr_name <$> grps g /\ ready file /\ holds_reg g rest (view file) /\
    GetAllGroupName s = (fun b => (tt, set_group_name b (set_f_dev file s))) <$> comma_text 4096 names.
Proof.
  intros Hr Hh. destruct (comma_column_spec (ST := reg_store) group_name_buf gr_name (grps g) g rest
    "select F_GROUPNAME from grouptable" s Hr Hh) as (l & file & Hl & Hf & Hv & E); [cbn; lia| |].
  - eapply query_all; [reflexivity|apply reg_db_group|by apply map_opt_fmap].
  - exists (gr_name <$> l), file. split; [by rewrite Hl|]. split; [done|]. split; [rewrite Hv; apply holds_reg_db|exact E].
Qed.

(** ** The address of a numbered device *)

(** the look-up a text message uses: the number of a device in the list
    leads to the address its radio module announced last and to its number
    behind that module, and fails for an unknown number or a module that has
    not announced itself. *)
Lemma text_command_address {S0 : Sqlite} {SL : SqliteLaws S0} (g : registry) (rest : sqldb) (s : dm_state)
    (cap : nat) (id : string) :
  ready (f_dev s) -> holds_reg g rest (view (f_dev s)) -> reg_inv g -> 0 <= atoi id <= INT_MAX ->
  Forall (fun r => arg_ok (d_mac r) /\ (String.length (d_mac r) < 50)%nat) (devs g) ->
  Forall (fun r => (String.length (y_ip r) < cap)%nat) (dyns g) ->
  exists file, ready file /\ holds_reg g rest (view file) /\
    GetIPAndDevNumberByID cap id s =
      Some (r ← reg_dev (atoi id) g; ip ← reg_ip (d_mac r) g; Some (ip, d_num r), set_f_dev file s).
Proof.
  intros Hr Hh Hi Hid Hmac Hip.
  assert (dtriple g (GetIPAndDevNumberByID cap id) (fun o g' => g' = g /\
    o = (r ← reg_dev (atoi id) g; ip ← reg_ip (d_mac r) g; Some (ip, d_num r)))) as Ht.
  { eapply dtriple_bind.
    - apply GetMacAndDevNumberByID_spec; [done|done|done|]. eapply Forall_impl; [exact Hmac|]. by intros x [].
    - intros o ? [-> ->]. destruct (reg_dev (atoi id) g) as [r|] eqn:E; [|by apply dtriple_ret].
      cbn [fmap option_fmap option_map mbind option_bind].
      assert (arg_ok (d_mac r)) as Ha.
      { apply List.find_some in E as [E _]. apply list_elem_of_In in E. rewrite Forall_forall in Hmac. by apply Hmac. }
      eapply dtriple_bind; [by apply GetDevIPByMac_spec|]. intros o ? [-> ->]. apply dtriple_ret.
      by destruct (reg_ip (d_mac r) g). }
  destruct (Ht rest _ Hh s Hr eq_refl) as (x & file & E & Hf & g' & Hg' & -> & ->). eauto.
Qed.

Definition sample_reg : registry :=
  mk_reg [mk_dev 1 "0013A200" "lamp" "706F" 1 2 0] 1 [mk_dyn "0013A200" "12AB"] [mk_grp 1 "hall"] 1.

Lemma sample_reg_inv : reg_inv sample_reg.
Proof.
  split; cbn; try lia; try apply NoDup_singleton; try apply Forall_singleton; unfold byte_range; cbn; try lia.
  - intros a b ->%list_elem_of_singleton ->%list_elem_of_singleton. done.
  - exists (mk_grp 1 "hall"). split; [by left|done].
Qed.

(** ** Quotes in arguments *)

(** An argument that closes the string literal and adds a condition. *)
Definition quote_attack : string := "' or '1'='1".

(** C16: The statements are built with [sprintf] from the client's text
    without escaping: removing the device with the name [' or '1'='1] of any
    module answers success and deletes every device of the registry. *)
Theorem remove_injection {S0 : Sqlite} {SL : SqliteLaws S0} (g : registry) (rest : sqldb) (s : dm_state) (mac : string) :
  ready (f_dev s) -> holds_reg g rest (view (f_dev s)) -> arg_ok mac -> devs g <> [] ->
  exists file, RemoveDevFromStaticTable mac quote_attack s = Some (true, set_f_dev file s) /\
    ready file /\ holds_reg (with_devs [] g) rest (view file).
Proof.
  intros Hr Hh [Hq Hl] Hne.
  assert (dtriple g (RemoveDevFromStaticTable mac quote_attack) (fun b g' => b = true /\ g' = with_devs [] g)) as Ht.
  { eapply (dtriple_bind _ _ _ (fun b g' => g' = g /\ b = existsb (fun _ => true) (devs g))).
    - unfold quote_attack. eapply (sql_exists_spec "statictable"); [apply reg_db_static|parse_text|sql_len|].
      intros r. cbn. by destruct (String.eqb _ mac), (String.eqb _ "").
    - intros b ? [-> ->]. destruct (devs g) as [|d l] eqn:E; [done|]. cbn [existsb orb].
      eapply dtriple_mono; [eapply (sql_update_spec g (with_devs [] g)); [unfold quote_attack; parse_text|unfold quote_attack; sql_len|]|by intros ? ? [-> ->]].
      intros rest0. erewrite exec_delete; [|apply reg_db_static|apply (filter_opt_fmap _ _ (fun r => negb true))].
      + cbn [t_cols t_seq]. rewrite reg_db_set_devs.
          assert (forall l : list dev_row, List.filter (fun r => negb true) l = []) as Hf by (intros l0; induction l0 as [|x l0 IH]; [done|exact IH]).
          by rewrite Hf.
      + intros r. cbn. by destruct (String.eqb _ mac), (String.eqb _ ""). }
  destruct (Ht rest _ Hh s Hr eq_refl) as (x & file & E & Hf & g' & Hg' & -> & ->).
  exists file. done.
Qed.

Lemma remove_injection_witness :
  exists file, RemoveDevFromStaticTable (H := RefSqlite) "x" quote_attack (sample_dm (reg_db sample_reg ∅)) =
      Some (true, set_f_dev (H := RefSqlite) file (sample_dm (reg_db sample_reg ∅))) /\
    ready (SqliteLaws := RefSqliteLaws) file /\ holds_reg (with_devs [] sample_reg) ∅ file.
Proof.
  apply (remove_injection (SL := RefSqliteLaws) sample_reg ∅ (sample_dm (reg_db sample_reg ∅)) "x").
  - apply reg_db_wf, map_Forall_empty.
  - apply holds_reg_db.
  - split; [reflexivity|vm_compute; lia].
  - discriminate.
Defined.
