(* ===== verification/Alarm.v ===== *)
(** * Alarm receivers (src/src/dev_manage/alarm_db.c, alarm_common.c)

    The table [alarmtable] of user.db holds the e-mail addresses and mobile
    numbers that are told about alarms, each with a state: [o] (open) or [c]
    (locked). *)

From stdpp Require Import base list strings gmap sets.
From Stdlib Require Import ZArith Lia Ascii.
From S2P Require Import Prelude CString Sql UartQueue DevControl DevState DbTriple DbStore.

Open Scope Z_scope.

(** ** The code *)

(** The enumerations come from [atoi] of a client's text: any integer. *)
Definition ALARM_TYPE_EMAIL : Z := 0.
Definition ALARM_TYPE_MOBILE : Z := 1.
Definition ALARM_LOCK : Z := 0.
Definition ALARM_UNLOCK : Z := 1.

Section Code.
Context `{Sqlite}.

Definition alarm_sql : string := "create table alarmtable(F_TYPE VARCHAR(30),F_VALUE VARCHAR(50),F_STATE VARCHAR(10));".
Definition alarm_create : DM unit := _ ← db_exec user_file alarm_sql; mret tt.
Definition alarm_open : DM bool :=
  rc ← db_open user_file;
  if rc =? SQLITE_ERROR then mret false else _ ← alarm_create; mret true.

Definition al_exists (text : string) : DM bool := exists_on alarm_open user_file 1024 text.
Definition al_update (text : string) : DM bool := update_on alarm_open user_file 1024 text.

Definition insertIntoAlarmTable (type : Z) (value : string) : DM bool :=
  al_update
    (if type =? ALARM_TYPE_EMAIL then "insert into alarmtable values('email','" +:+ (value +:+ "','o')")
     else if type =? ALARM_TYPE_MOBILE then "insert into alarmtable values('mobile','" +:+ (value +:+ "','o')")
     else "insert into alarmtable values('email','" +:+ (value +:+ "','o')")).

Definition GetEmailList : DM unit :=
  comma_column alarm_open user_file email_list_buf
    "select F_VALUE from alarmtable where F_TYPE = 'email' and F_STATE = 'o'".

Definition GetMobileList : DM unit :=
  comma_column alarm_open user_file mobile_list_buf
    "select F_VALUE from alarmtable where F_TYPE = 'mobile' and F_STATE = 'o'".

Definition alarm_keys : list string := ["alarm_way"; "alarm_value"; "alarm_state"].
Definition GetAlarmAllList : DM unit :=
  json_array alarm_open user_file alarm_alllist_buf 1024 3 (fun cells => json_object alarm_keys cells +:+ ",")
    "select F_TYPE,F_VALUE,F_STATE from alarmtable".

(** The switches on the type leave the function in the default case, after
    the file was opened. *)
Definition isAlarmTypeAndValueMatch (type : Z) (value : string) : DM bool :=
  if type =? ALARM_TYPE_EMAIL then
    al_exists ("select * from alarmtable where F_TYPE='email' and F_VALUE='" +:+ (value +:+ "'"))
  else if type =? ALARM_TYPE_MOBILE then
    al_exists ("select * from alarmtable where F_TYPE='mobile' and F_VALUE='" +:+ (value +:+ "'"))
  else opening alarm_open false (mret false).

Definition DeleteByEmailOrMobile (type : Z) (value : string) : DM bool :=
  if type =? ALARM_TYPE_EMAIL then
    al_update ("delete from alarmtable where F_TYPE='email' and F_VALUE='" +:+ (value +:+ "'"))
  else if type =? ALARM_TYPE_MOBILE then
    al_update ("delete from alarmtable where F_TYPE='mobile' and F_VALUE='" +:+ (value +:+ "'"))
  else opening alarm_open false (mret false).

(** With another type the statement stays empty, and is executed. *)
Definition SetAlarmState (lock_type type : Z) (value : string) : DM bool :=
  if lock_type =? ALARM_LOCK then
    al_update
      (if type =? ALARM_TYPE_EMAIL then "update alarmtable set F_STATE = 'c' where F_TYPE='email' and F_VALUE='" +:+ (value +:+ "'")
       else if type =? ALARM_TYPE_MOBILE then "update alarmtable set F_STATE = 'c' where F_TYPE='mobile' and F_VALUE='" +:+ (value +:+ "'")
       else "")
  else if lock_type =? ALARM_UNLOCK then
    al_update
      (if type =? ALARM_TYPE_EMAIL then "update alarmtable set F_STATE = 'o' where F_TYPE='email' and F_VALUE='" +:+ (value +:+ "'")
       else if type =? ALARM_TYPE_MOBILE then "update alarmtable set F_STATE = 'o' where F_TYPE='mobile' and F_VALUE='" +:+ (value +:+ "'")
       else "")
  else opening alarm_open false (mret false).

Definition isUserMobileNumberValid (mobile_number : string) : DM bool :=
  al_exists ("select * from alarmtable where F_TYPE='mobile' and F_VALUE='" +:+ (mobile_number +:+ "' and F_STATE='o'")).

(** alarm_common.c *)
Definition AddAlarmItem (type : Z) (value : string) : DM bool :=
  e ← isAlarmTypeAndValueMatch type value;
  if e : bool then mret false else insertIntoAlarmTable type value.

Definition DeleteFromAlarmTable (type : Z) (value : string) : DM bool :=
  e ← isAlarmTypeAndValueMatch type value;
  if e : bool then DeleteByEmailOrMobile type value else mret false.

Definition ChangeAlarmItemToState (lock_type type : Z) (value : string) : DM bool :=
  e ← isAlarmTypeAndValueMatch type value;
  if e : bool then SetAlarmState lock_type type value else mret false.
End Code.

(** ** Specification *)

Record al_row := mk_al { a_type : string; a_value : string; a_state : string }.
Definition enc_al (r : al_row) : list value := [VText (a_type r); VText (a_value r); VText (a_state r)].
Definition alarm_cols : list column := Eval vm_compute in cols_of alarm_sql.

Abbreviation receivers := (list al_row).

Definition alarm_db (l : receivers) (rest : sqldb) : sqldb := <["alarmtable" := mk_table alarm_cols 0 (enc_al <$> l)]> rest.

Inductive al_cmd := AAdd (type : Z) (value : string) | ADelete (type : Z) (value : string)
  | AState (lock_type type : Z) (value : string).

Definition way (type : Z) : option string :=
  if type =? ALARM_TYPE_EMAIL then Some "email" else if type =? ALARM_TYPE_MOBILE then Some "mobile" else None.
Definition lock_state (lock_type : Z) : option string :=
  if lock_type =? ALARM_LOCK then Some "c" else if lock_type =? ALARM_UNLOCK then Some "o" else None.

Definition is_al (t v : string) (r : al_row) : bool := String.eqb (a_type r) t && String.eqb (a_value r) v.
Definition is_open (t : string) (r : al_row) : bool := String.eqb (a_type r) t && String.eqb (a_state r) "o".

(** An unknown type is stored as an e-mail address, without looking for an
    equal one, and is never found again under that type. *)
Definition al_spec (c : al_cmd) (l : receivers) : bool * receivers :=
  match c with
  | AAdd type v =>
      match way type with
      | Some t => if existsb (is_al t v) l then (false, l) else (true, l ++ [mk_al t v "o"])
      | None => (true, l ++ [mk_al "email" v "o"])
      end
  | ADelete type v =>
      match way type with
      | Some t => if existsb (is_al t v) l then (true, List.filter (fun r => negb (is_al t v r)) l) else (false, l)
      | None => (false, l)
      end
  | AState lock type v =>
      match way type, lock_state lock with
      | Some t, Some s =>
          if existsb (is_al t v) l then (true, map_if (is_al t v) (fun r => mk_al (a_type r) (a_value r) s) l) else (false, l)
      | _, _ => (false, l)
      end
  end.

Definition al_run `{Sqlite} (c : al_cmd) : DM bool :=
  match c with
  | AAdd type v => AddAlarmItem type v
  | ADelete type v => DeleteFromAlarmTable type v
  | AState lock type v => ChangeAlarmItemToState lock type v
  end.

Definition al_arg (c : al_cmd) : string := match c with AAdd _ v | ADelete _ v | AState _ _ v => v end.
Definition al_type (c : al_cmd) : Z := match c with AAdd t _ | ADelete t _ | AState _ t _ => t end.

(** ** The store *)

Lemma alarm_db_table l rest : alarm_db l rest !! "alarmtable" = Some (mk_table alarm_cols 0 (enc_al <$> l)).
Proof. unfold alarm_db. by rewrite lookup_insert_eq. Qed.

Lemma alarm_db_set l l' rest :
  <["alarmtable" := mk_table alarm_cols 0 (enc_al <$> l')]> (alarm_db l rest) = alarm_db l' rest.
Proof. unfold alarm_db. by rewrite insert_insert_eq. Qed.

Lemma alarm_db_full l rest : alarm_db l rest ∪ alarm_db [] ∅ = alarm_db l rest.
Proof.
  apply map_eq. intros i. destruct (decide (i = "alarmtable")) as [->|Hi].
  - apply lookup_union_l'. eexists. apply alarm_db_table.
  - apply lookup_union_l. unfold alarm_db. by rewrite lookup_insert_ne.
Qed.

Lemma alarm_open_spec {S : Sqlite} {SL : SqliteLaws S} l rest db :
  db ∪ alarm_db [] ∅ = alarm_db l rest ->
  triple user_file db alarm_open (fun b db' => b = true /\ db' = alarm_db l rest).
Proof.
  intros Hdb. unfold alarm_open.
  eapply (triple_bind user_file _ _ _ (fun rc db' => rc = SQLITE_OK /\ db' = db)); [by apply triple_open|].
  intros ? ? [-> ->]. change (SQLITE_OK =? SQLITE_ERROR) with false. cbv iota.
  eapply (triple_bind user_file _ _ _ (fun _ db' => db' = _)); [eapply (triple_create user_file); reflexivity|].
  intros _ ? ->. apply triple_ret; [exact _|]. split; [done|]. by rewrite <- Hdb.
Qed.

#[export] Instance alarm_store {S : Sqlite} {SL : SqliteLaws S} : Store receivers := {|
  st_file := user_file; st_open := alarm_open; st_db := alarm_db; st_empty := alarm_db [] ∅;
  st_full := alarm_db_full; st_open_law := alarm_open_spec
|}.

Section Alarm.
Context {S : Sqlite} {SL : SqliteLaws S}.

Lemma al_exists_spec (l : receivers) text w p :
  parse_sql text = Some [SSelect None "alarmtable" (Some w) None] -> (String.length text < 1024)%nat ->
  (forall x, holds alarm_cols w (enc_al x) = Some (p x)) ->
  dtriple l (al_exists text) (fun b l' => l' = l /\ b = existsb p l).
Proof.
  intros Hp Hl Hw. apply (exists_on_spec (ST := alarm_store) "alarmtable" alarm_cols 0 enc_al l p l text 1024 w); try done.
  intros rest. apply alarm_db_table.
Qed.

Lemma al_add_spec (l : receivers) text t v s :
  parse_sql text = Some [SInsert "alarmtable" None [VText t; VText v; VText s]] -> (String.length text < 1024)%nat ->
  dtriple l (al_update text) (fun b l1 => l1 = l ++ [mk_al t v s] /\ b = true).
Proof.
  intros Hp Hl. eapply (add_on_spec (ST := alarm_store) "alarmtable" alarm_cols 0 enc_al l (mk_al t v s) l
    (l ++ [mk_al t v s]) text 1024 None _ (alarm_db_table l)); try done; [|exact Hp..].
  intros rest. apply alarm_db_set.
Qed.

Lemma al_delete_spec (l : receivers) text w p :
  parse_sql text = Some [SDelete "alarmtable" w] -> (String.length text < 1024)%nat ->
  (forall x, holds alarm_cols w (enc_al x) = Some (p x)) ->
  dtriple l (al_update text) (fun b l1 => l1 = List.filter (fun r => negb (p r)) l /\ b = true).
Proof.
  intros Hp Hl Hw. eapply (delete_on_spec (ST := alarm_store) "alarmtable" alarm_cols 0 enc_al l p l _ text 1024 w
    (alarm_db_table l)); try done; [|exact Hp..]. intros rest. apply alarm_db_set.
Qed.

Lemma al_change_spec (l : receivers) text w p s :
  parse_sql text = Some [SUpdate "alarmtable" [("f_state", VText s)] w] -> (String.length text < 1024)%nat ->
  (forall x, holds alarm_cols w (enc_al x) = Some (p x)) ->
  dtriple l (al_update text) (fun b l1 =>
    l1 = map_if p (fun r => mk_al (a_type r) (a_value r) s) l /\ b = true).
Proof.
  intros Hp Hl Hw. eapply (change_on_spec (ST := alarm_store) "alarmtable" alarm_cols 0 enc_al l p
    (fun r => mk_al (a_type r) (a_value r) s) l _ text 1024 w _ (alarm_db_table l)); try done; [|exact Hp..].
  intros rest. apply alarm_db_set.
Qed.

Lemma al_nop (l : receivers) : dtriple l (opening alarm_open false (mret false)) (fun b l' => l' = l /\ b = false).
Proof. apply (dtriple_open (ST := alarm_store)). by apply otriple_ret. Qed.

(** Does a condition on the type and the value select one receiver? *)
Lemma holds_al t v x :
  holds alarm_cols (EAnd (EEq (ECol "f_type") (ELit (VText t))) (EEq (ECol "f_value") (ELit (VText v)))) (enc_al x) =
  Some (is_al t v x).
Proof. unfold is_al. cbn. by destruct (String.eqb _ t), (String.eqb _ v). Qed.

Lemma match_spec l type v :
  arg_ok v -> dtriple l (isAlarmTypeAndValueMatch type v) (fun b l' => l' = l /\
    b = match way type with Some t => existsb (is_al t v) l | None => false end).
Proof.
  intros [Hq Hl]. unfold isAlarmTypeAndValueMatch, way.
  destruct (type =? ALARM_TYPE_EMAIL); [|destruct (type =? ALARM_TYPE_MOBILE); [|apply al_nop]];
    (eapply al_exists_spec; [parse_text|sql_len|apply holds_al]).
Qed.

Lemma insert_spec l type v :
  arg_ok v -> dtriple l (insertIntoAlarmTable type v) (fun b l' =>
    l' = l ++ [mk_al (default "email" (way type)) v "o"] /\ b = true).
Proof.
  intros [Hq Hl]. unfold insertIntoAlarmTable, way.
  destruct (type =? ALARM_TYPE_EMAIL); [|destruct (type =? ALARM_TYPE_MOBILE)];
    (eapply al_add_spec; [parse_text|sql_len]).
Qed.

Lemma delete_spec l type t v :
  arg_ok v -> way type = Some t -> dtriple l (DeleteByEmailOrMobile type v) (fun b l' =>
    l' = List.filter (fun r => negb (is_al t v r)) l /\ b = true).
Proof.
  intros [Hq Hl]. unfold DeleteByEmailOrMobile, way.
  destruct (type =? ALARM_TYPE_EMAIL); [|destruct (type =? ALARM_TYPE_MOBILE); [|done]]; intros [= <-];
    (eapply al_delete_spec; [parse_text|sql_len|apply holds_al]).
Qed.

Lemma state_spec l lock type t v :
  arg_ok v -> way type = Some t -> dtriple l (SetAlarmState lock type v) (fun b l' =>
    (b, l') = match lock_state lock with
              | Some s => (true, map_if (is_al t v) (fun r => mk_al (a_type r) (a_value r) s) l)
              | None => (false, l)
              end).
Proof.
  intros [Hq Hl]. unfold SetAlarmState, way, lock_state. intros Hw.
  destruct (lock =? ALARM_LOCK); [|destruct (lock =? ALARM_UNLOCK)];
    [..|eapply dtriple_mono; [apply al_nop|by intros ? ? [-> ->]]];
    (destruct (type =? ALARM_TYPE_EMAIL); [|destruct (type =? ALARM_TYPE_MOBILE); [|done]]); injection Hw as <-;
    (eapply dtriple_mono; [eapply al_change_spec; [parse_text|sql_len|apply holds_al]|by intros ? ? [-> ->]]).
Qed.

Lemma al_run_spec c l : arg_ok (al_arg c) -> dtriple l (al_run c) (fun b l' => (b, l') = al_spec c l).
Proof.
  intros Ha. destruct c as [type v|type v|lock type v]; cbn [al_arg al_run al_spec] in *;
    (eapply dtriple_bind; [by apply match_spec|]; intros b ? [-> ->]); destruct (way type) as [t|] eqn:E;
    try (destruct (existsb _ _)); try (by apply dtriple_ret).
  - eapply dtriple_mono; [by apply insert_spec|]. rewrite E. by intros ? ? [-> ->].
  - eapply dtriple_mono; [by apply insert_spec|]. rewrite E. by intros ? ? [-> ->].
  - eapply dtriple_mono; [by apply delete_spec|]. by intros ? ? [-> ->].
  - eapply dtriple_mono; [by apply state_spec|]. intros b l' ->. by destruct (lock_state lock).
  - apply dtriple_ret. by destruct (lock_state lock).
Qed.

Lemma isUserMobileNumberValid_spec l v :
  arg_ok v -> dtriple l (isUserMobileNumberValid v) (fun b l' => l' = l /\
    b = existsb (fun r => is_al "mobile" v r && is_open "mobile" r) l).
Proof.
  intros [Hq Hl]. eapply al_exists_spec; [parse_text|sql_len|]. intros x. unfold is_al, is_open. cbn.
  by destruct (String.eqb _ "mobile"), (String.eqb _ v), (String.eqb _ "o").
Qed.
End Alarm.

(** ** Properties *)

Definition holds_al_db (l : receivers) (rest db : sqldb) : Prop := db ∪ alarm_db [] ∅ = alarm_db l rest.

Lemma holds_al_full l rest : holds_al_db l rest (alarm_db l rest).
Proof. apply alarm_db_full. Qed.

(** A run of several commands. *)
Fixpoint al_runs `{Sqlite} (cs : list al_cmd) : DM (list bool) :=
  match cs with
  | [] => mret []
  | c :: cs => x ← al_run c; xs ← al_runs cs; mret (x :: xs)
  end.
Fixpoint al_specs (cs : list al_cmd) (l : receivers) : list bool * receivers :=
  match cs with
  | [] => ([], l)
  | c :: cs => let '(x, l) := al_spec c l in let '(xs, l) := al_specs cs l in (x :: xs, l)
  end.

Lemma al_runs_spec {S : Sqlite} {SL : SqliteLaws S} cs l :
  Forall (fun c => arg_ok (al_arg c)) cs -> dtriple l (al_runs cs) (fun xs l' => (xs, l') = al_specs cs l).
Proof.
  revert l. induction cs as [|c cs IH]; intros l Hcs; cbn [al_runs al_specs]; [by apply dtriple_ret|].
  apply Forall_cons in Hcs as [Hc Hcs]. eapply dtriple_bind; [by apply al_run_spec|].
  intros x l' <-. eapply dtriple_bind; [by apply IH|]. intros xs l'' <-. by apply dtriple_ret.
Qed.

(** One entry for each way and value. *)
Definition al_key (r : al_row) : string * string := (a_type r, a_value r).

Lemma al_spec_unique c l :
  way (al_type c) <> None -> NoDup (al_key <$> l) -> NoDup (al_key <$> snd (al_spec c l)).
Proof.
  intros Hw Hnd. destruct c as [type v|type v|lock type v]; cbn [al_spec al_type] in *;
    (destruct (way type) as [t|]; [|done]).
  - destruct (existsb (is_al t v) l) eqn:E; [done|]. cbn [snd]. rewrite fmap_app. apply NoDup_app.
    split; [done|]. split; [|apply NoDup_singleton].
    intros k Hk Hin. apply list_elem_of_fmap in Hk as (r & -> & Hr). apply list_elem_of_singleton in Hin.
    injection Hin as Ht Hv. apply not_true_iff_false in E. apply E, List.existsb_exists. exists r.
    split; [by apply list_elem_of_In|]. unfold is_al. by rewrite Ht, Hv, !String.eqb_refl.
  - destruct (existsb _ _); [|done]. cbn [snd]. eapply sublist_NoDup; [exact Hnd|]. apply fmap_sublist.
    clear Hnd. induction l as [|r l IH]; [constructor|]. simpl. destruct (negb _); by constructor.
  - destruct (lock_state lock) as [s|]; [|done]. destruct (existsb _ _); [|done]. cbn [snd].
    unfold map_if. rewrite <- list_fmap_compose. erewrite list_fmap_ext; [exact Hnd|].
    intros _ r _. simpl. by destruct (is_al t v r).
Qed.

(** C23: Adding, deleting, locking and unlocking alarm receivers, in any
    sequence and with any type and action codes, behave on user.db as the
    functions of [al_spec] on the list of receivers; and as long as the type
    codes are the two of [ALARM_TYPE], a value is registered at most once for
    each way of alarming. *)
Theorem alarm_commands_refine {S : Sqlite} {SL : SqliteLaws S} (cs : list al_cmd) (l : receivers) (rest : sqldb) (s : dm_state) :
  ready (f_user s) -> holds_al_db l rest (view (f_user s)) -> Forall (fun c => arg_ok (al_arg c)) cs ->
  exists file, al_runs cs s = Some (fst (al_specs cs l), set_f_user file s) /\
    ready file /\ holds_al_db (snd (al_specs cs l)) rest (view file) /\
    (Forall (fun c => way (al_type c) <> None) cs -> NoDup (al_key <$> l) -> NoDup (al_key <$> snd (al_specs cs l))).
Proof.
  intros Hr Hh Ha. destruct (al_runs_spec cs l Ha rest _ Hh s Hr eq_refl) as (xs & file & E & Hf & l' & Hl' & Hx).
  exists file. rewrite <- Hx. split; [done|]. split; [done|]. split; [done|].
  replace l' with (snd (al_specs cs l)) by (by rewrite <- Hx). clear. intros Hw. revert l.
  induction cs as [|c cs IH]; intros l Hnd; [done|]. apply Forall_cons in Hw as [Hc Hw]. cbn [al_specs].
  pose proof (al_spec_unique c l Hc Hnd) as H1. destruct (al_spec c l) as [x l1]. specialize (IH Hw l1 H1).
  by destruct (al_specs cs l1).
Qed.

Definition sample_user (l : receivers) : dm_state (H := RefSqlite) :=
  mk_dm (H := RefSqlite) ∅ (alarm_db l ∅) ∅ "" "" "" "" "" "" "" (mk_uart [] quene_static) None "" [].
Definition sample_al_cmds : list al_cmd :=
  [AAdd 1 "13800000000"; AAdd 1 "13800000000"; AState 0 1 "13800000000"; AAdd 0 "a@b.c"; ADelete 0 "a@b.c"].

Lemma alarm_db_wf l rest : db_wf rest -> db_wf (alarm_db l rest).
Proof.
  intros Hr. unfold alarm_db, db_wf. apply map_Forall_insert_2; [|done]. unfold table_wf. by apply Forall_fmap, Forall_true.
Qed.

Lemma alarm_commands_refine_witness :
  exists file, al_runs (H := RefSqlite) sample_al_cmds (sample_user []) =
      Some ([true; false; true; true; true], set_f_user (H := RefSqlite) file (sample_user [])) /\
    ready (SqliteLaws := RefSqliteLaws) file /\ holds_al_db [mk_al "mobile" "13800000000" "c"] ∅ file /\
    (Forall (fun c => way (al_type c) <> None) sample_al_cmds -> NoDup (al_key <$> []) ->
     NoDup (al_key <$> [mk_al "mobile" "13800000000" "c"])).
Proof.
  apply (alarm_commands_refine (SL := RefSqliteLaws) sample_al_cmds [] ∅ (sample_user [])).
  - apply alarm_db_wf, map_Forall_empty.
  - apply holds_al_full.
  - repeat constructor; vm_compute; lia.
Defined.

(** The lists used to send an alarm: [GetEmailList] and [GetMobileList]
    leave exactly the values of the unlocked receivers of their way,
    separated by commas, in a 1024-byte buffer which they overrun when the
    text does not fit; and a number may send commands exactly when it is an
    unlocked mobile receiver. *)
Theorem alarm_lists {S : Sqlite} {SL : SqliteLaws S} (l : receivers) (rest : sqldb) (s : dm_state) (number : string) :
  ready (f_user s) -> holds_al_db l rest (view (f_user s)) -> arg_ok number ->
  (exists es file, es ≡ₚ List.filter (is_open "email") l /\ ready file /\ view file = alarm_db l rest /\
     GetEmailList s = (fun t => (tt, set_email_list t (set_f_user file s))) <$> comma_text 1024 (a_value <$> es)) /\
  (exists ms file, ms ≡ₚ List.filter (is_open "mobile") l /\ ready file /\ view file = alarm_db l rest /\
     GetMobileList s = (fun t => (tt, set_mobile_list t (set_f_user file s))) <$> comma_text 1024 (a_value <$> ms)) /\
  (exists file, ready file /\ holds_al_db l rest (view file) /\
     isUserMobileNumberValid number s =
       Some (existsb (fun r => is_al "mobile" number r && is_open "mobile" r) l, set_f_user file s)).
Proof.
  intros Hr Hh Ha.
  assert (forall t x, holds alarm_cols (EAnd (EEq (ECol "f_type") (ELit (VText t))) (EEq (ECol "f_state") (ELit (VText "o"))))
    (enc_al x) = Some (is_open t x)) as Hw.
  { intros t x. unfold is_open. cbn. by destruct (String.eqb _ t), (String.eqb _ "o"). }
  split_and!.
  - apply (comma_column_spec (ST := alarm_store) email_list_buf a_value _ l rest _ s Hr Hh); [cbn; lia|].
    eapply query_select; [reflexivity|apply alarm_db_table|apply filter_opt_fmap, Hw|by apply map_opt_fmap].
  - apply (comma_column_spec (ST := alarm_store) mobile_list_buf a_value _ l rest _ s Hr Hh); [cbn; lia|].
    eapply query_select; [reflexivity|apply alarm_db_table|apply filter_opt_fmap, Hw|by apply map_opt_fmap].
  - destruct (isUserMobileNumberValid_spec l number Ha rest _ Hh s Hr eq_refl) as (x & file & E & Hf & l' & Hl' & -> & ->).
    exists file. done.
Qed.

Lemma alarm_lists_witness :
  let l := [mk_al "email" "a@b.c" "o"; mk_al "mobile" "138" "c"] in
  (exists es file, es ≡ₚ [mk_al "email" "a@b.c" "o"] /\ ready (SqliteLaws := RefSqliteLaws) file /\ file = alarm_db l ∅ /\
     GetEmailList (H := RefSqlite) (sample_user l) =
     (fun t => (tt, set_email_list (H := RefSqlite) t (set_f_user (H := RefSqlite) file (sample_user l)))) <$> comma_text 1024 (a_value <$> es)) /\
  (exists ms file, ms ≡ₚ [] /\ ready (SqliteLaws := RefSqliteLaws) file /\ file = alarm_db l ∅ /\
     GetMobileList (H := RefSqlite) (sample_user l) =
     (fun t => (tt, set_mobile_list (H := RefSqlite) t (set_f_user (H := RefSqlite) file (sample_user l)))) <$> comma_text 1024 (a_value <$> ms)) /\
  (exists file, ready (SqliteLaws := RefSqliteLaws) file /\ holds_al_db l ∅ file /\
     isUserMobileNumberValid (H := RefSqlite) "138" (sample_user l) = Some (false, set_f_user (H := RefSqlite) file (sample_user l))).
Proof.
  intros l. apply (alarm_lists (SL := RefSqliteLaws) l ∅ (sample_user l) "138").
  - apply alarm_db_wf, map_Forall_empty.
  - apply holds_al_full.
  - split; [reflexivity|vm_compute; lia].
Defined.

(** [AddAlarmItem] with a type code other than the two of the
    enumeration (the client's text goes through [atoi]) skips the test for
    an existing entry: it always succeeds and adds an e-mail receiver, even
    one that is already there. *)
Theorem alarm_unknown_type_duplicates {S : Sqlite} {SL : SqliteLaws S} (l : receivers) (rest : sqldb) (s : dm_state)
    (type : Z) (value : string) :
  ready (f_user s) -> holds_al_db l rest (view (f_user s)) -> arg_ok value -> type <> 0 -> type <> 1 ->
  exists file, AddAlarmItem type value s = Some (true, set_f_user file s) /\
    ready file /\ holds_al_db (l ++ [mk_al "email" value "o"]) rest (view file).
Proof.
  intros Hr Hh Ha H0 H1.
  destruct (al_run_spec (AAdd type value) l Ha rest _ Hh s Hr eq_refl) as (x & file & E & Hf & l' & Hl' & Hx).
  exists file. cbn [al_spec] in Hx. unfold way, ALARM_TYPE_EMAIL, ALARM_TYPE_MOBILE in Hx.
  destruct (Z.eqb_spec type 0), (Z.eqb_spec type 1); try done. injection Hx as -> ->. done.
Qed.

Lemma alarm_unknown_type_duplicates_witness :
  exists file, AddAlarmItem (H := RefSqlite) 2 "a@b.c" (sample_user [mk_al "email" "a@b.c" "o"]) =
      Some (true, set_f_user (H := RefSqlite) file (sample_user [mk_al "email" "a@b.c" "o"])) /\
    ready (SqliteLaws := RefSqliteLaws) file /\ holds_al_db [mk_al "email" "a@b.c" "o"; mk_al "email" "a@b.c" "o"] ∅ file.
Proof.
  apply (alarm_unknown_type_duplicates (SL := RefSqliteLaws) [mk_al "email" "a@b.c" "o"] ∅
    (sample_user [mk_al "email" "a@b.c" "o"]) 2 "a@b.c"); [|apply holds_al_full|split; [reflexivity|vm_compute; lia]|lia|lia].
  apply alarm_db_wf, map_Forall_empty.
Defined.
