(* ===== verification/Timer.v ===== *)
(** * Timer tasks (src/src/dev_manage/timertask_db.c, timertask.c)

    The table [timertasktable] of dev.db holds tasks that switch a device at
    a given date and time, or at a given time on chosen days of the week.
    Every minute a thread reads the tasks that are due. *)

From stdpp Require Import base list strings gmap sets.
From Stdlib Require Import ZArith Lia Ascii Sorting.Sorted.
From S2P Require Import Prelude CString Calendar Sql UartQueue DevControl DevState DbTriple DbStore DevDb DevReg DevRegProps.

Open Scope Z_scope.

(** [timertask_item_t]; the widths of the character arrays are checked where
    they are filled. *)
Record timertask_item_t := mk_item {
  timertask_id : Z;
  dev_mac : string;        (* char[30] *)
  dev_name : string;       (* char[50] *)
  period : Z;              (* unsigned char: the days of the week, 0 for once *)
  happen_time : string;    (* char[20] *)
  action : Z;              (* unsigned char *)
  tipinfo : Z;             (* unsigned int *)
  howlong : Z;             (* unsigned int: hhmm *)
  devnumber : Z;           (* unsigned char *)
  create_time : string     (* char[20] *)
}.

(** [GetCurrentTime]: the text and the weekday of a local time. *)
Definition GetCurrentTime (now : Z) : string * Z := (fmt_time (minutes_tm now), weekday_of now).

(** [TimeAdd] on [char pre_time[20]], a result for [char aftertime[20]].
    The second argument of each [strtok] that may be NULL makes it go on with
    the string it has; [atoi(NULL)] is undefined.  The code leaves [tm_isdst]
    unset; here [mktime] does not look at it: the zone is a fixed offset [tz]
    from UTC, with no summer time for it to choose. *)
Definition TimeAdd (tz : Z) (pre_happen_time : string) (hour minutes : Z) : option string :=
  pre_time ← fits 20 pre_happen_time;
  let '(pre1, h) := strtok " " pre_time in
  let '(pre2, h) := strtok " " h in
  let '(y, h) := strtok "-" (default h pre1) in y ← y;
  let '(mo, h) := strtok "-" h in mo ← mo;
  let '(d, h) := strtok "-" h in d ← d;
  let '(hh, h) := strtok ":" (default h pre2) in hh ← hh;
  let '(mi, h) := strtok ":" h in mi ← mi;
  let time1 := mktime tz (mk_tm (atoi y - 1900) (atoi mo - 1) (atoi d) (atoi hh) (atoi mi)) in
  let time1 := s32 (time1 + (hour * 60 * 60 + minutes * 60)) in
  fits 20 (fmt_time (localtime tz time1)).

Section Code.
Context `{Sqlite}.

Definition timer_sql : string :=
  "create table timertasktable(F_ID INTEGER PRIMARY KEY AUTOINCREMENT,F_MAC VARCHAR(30),F_NAME VARCHAR(50),F_PERIOD INTEGER,F_HAPPENTIME VARCHAR(20),F_ACTION INTEGER,F_TIPINFO INTEGER,F_HOWLONG INTEGER,F_CRETIME VARCHAR(20));".

Definition timer_create : DM unit := _ ← db_exec dev_file timer_sql; mret tt.
Definition timer_open : DM bool :=
  rc ← db_open dev_file;
  if rc =? SQLITE_ERROR then mret false else _ ← timer_create; mret true.

(** [now]: the time when the function reads the clock, in minutes. *)
Definition AddOneTimerTask (now : Z) (item : timertask_item_t) : DM bool :=
  update_on timer_open dev_file 2048
    ("insert into timertasktable(F_MAC,F_NAME,F_PERIOD,F_HAPPENTIME,F_ACTION,F_TIPINFO,F_HOWLONG,F_CRETIME) values('" +:+
     (dev_mac item +:+ ("','" +:+ (dev_name item +:+ ("'," +:+ (fmt_d (period item) +:+ (",'" +:+
     (happen_time item +:+ ("'," +:+ (fmt_d (action item) +:+ ("," +:+ (fmt_d (s32 (tipinfo item)) +:+ ("," +:+
     (fmt_d (s32 (howlong item)) +:+ (",'" +:+ (fst (GetCurrentTime now) +:+ "')")))))))))))))))).

Definition DeleteOneTimerTaskByID (timertask_id : Z) : DM bool :=
  update_on timer_open dev_file 512 ("delete from timertasktable where F_ID=" +:+ fmt_d timertask_id).

(** Row [i] of the answer, stored in [items[i-1]] of an array of 100. *)
Definition read_item (r : get_table_result) (i : nat) : DM timertask_item_t :=
  _ ← lift (if (i - 1 <? 100)%nat then Some tt else None);
  let base := (i * column_num r)%nat in
  id ← az r base;
  mac ← az r (base + 1); mac ← lift (fits 30 mac);
  name ← az r (base + 2); name ← lift (fits 50 name);
  per ← az r (base + 3);
  ht ← az r (base + 4); ht ← lift (fits 20 ht);
  act ← az r (base + 5);
  tip ← az r (base + 6);
  how ← az r (base + 7);
  cre ← az r (base + 8); cre ← lift (fits 20 cre);
  num ← GetDevNumberByMacAndName mac name;
  mret (mk_item (atoi id) mac name (u8 (atoi per)) ht (u8 (atoi act)) (u32 (atoi tip)) (u32 (atoi how)) num cre).

Fixpoint read_items (r : get_table_result) (l : list nat) : DM (list timertask_item_t) :=
  match l with
  | [] => mret []
  | i :: l => x ← read_item r i; xs ← read_items r l; mret (x :: xs)
  end.

(** The query for the tasks due at [curr_time]; [curr_time + 11] is the time
    of day of "2012-12-12 00:00". *)
Definition due_text (longtime shorttime : string) (weekday : Z) : string :=
  "select * from timertasktable where (F_HAPPENTIME='" +:+ (longtime +:+ ("' and  F_PERIOD=0) or (F_HAPPENTIME='" +:+
  (shorttime +:+ ("' and (F_PERIOD&(1<<" +:+ (fmt_d (weekday - 1) +:+ "))!=0);"))))).

(** The items found and their number, an [unsigned char]; [(0, [])] stands
    for the early return, which leaves the caller's zeros. *)
Definition GetValidThingsToDo (curr_time : string) (weekday : Z) : DM (Z * list timertask_item_t) :=
  opening timer_open (0, [])
    (shorttime ← lift (if (11 <=? String.length curr_time)%nat
                       then Some (String.substring 11 (String.length curr_time - 11) curr_time) else None);
     sql ← sprintf 1024 (due_text curr_time shorttime weekday);
     r ← db_get_table dev_file sql;
     items ← read_items r (seq 1 (row_num r));
     mret (u8 (Z.of_nat (row_num r)), items)).

Definition timer_keys : list string :=
  ["id"; "mac"; "name"; "period"; "happentime"; "action"; "tipinfo"; "howlong"; "cretime"].
Definition GetAllTimerTaskInfo : DM unit :=
  json_array timer_open dev_file timertask_info_buf 2048 9 (fun cells => json_object timer_keys cells +:+ ",")
    "select * from timertasktable order by F_ID DESC".
End Code.

(** ** Specification *)

Record task := mk_task {
  t_id : Z; t_mac : string; t_name : string; t_period : Z; t_time : string;
  t_action : Z; t_tip : Z; t_how : Z; t_cre : string
}.
Definition enc_task (t : task) : list value :=
  [VInt (t_id t); VText (t_mac t); VText (t_name t); VInt (t_period t); VText (t_time t);
   VInt (t_action t); VInt (t_tip t); VInt (t_how t); VText (t_cre t)].
Definition timer_cols : list column := Eval vm_compute in cols_of timer_sql.

Record timers := mk_timers { tasks : list task; task_seq : Z }.
Definition timer_db (g : timers) (rest : sqldb) : sqldb :=
  <["timertasktable" := mk_table timer_cols (task_seq g) (enc_task <$> tasks g)]> rest.
Definition no_timers : timers := mk_timers [] 0.

Definition item_ok (item : timertask_item_t) : Prop :=
  arg_ok (dev_mac item) /\ arg_ok (dev_name item) /\ arg_ok (happen_time item) /\
  byte_range (period item) /\ byte_range (action item) /\ 0 <= tipinfo item <= INT_MAX /\ 0 <= howlong item <= INT_MAX.

Definition task_of (k now : Z) (item : timertask_item_t) : task :=
  mk_task k (dev_mac item) (dev_name item) (period item) (happen_time item) (action item) (tipinfo item) (howlong item)
    (fst (GetCurrentTime now)).
Definition timers_add (now : Z) (item : timertask_item_t) (g : timers) : timers :=
  let k := next_key t_id (task_seq g) (tasks g) in mk_timers (tasks g ++ [task_of k now item]) k.
Definition timers_delete (id : Z) (g : timers) : timers :=
  mk_timers (List.filter (fun t => negb (t_id t =? id)) (tasks g)) (task_seq g).

(** A task is due at a minute: a single task at its date and time, a
    repeated one at its time of day on the days of its mask (bit 0: Monday). *)
Definition due (long short : string) (weekday : Z) (t : task) : bool :=
  (String.eqb (t_time t) long && (t_period t =? 0)) ||
  (String.eqb (t_time t) short && negb (Z.land (t_period t) (Z.shiftl 1 (weekday - 1)) =? 0)).

(** ** The store *)

Lemma timer_db_table g rest : timer_db g rest !! "timertasktable" = Some (mk_table timer_cols (task_seq g) (enc_task <$> tasks g)).
Proof. unfold timer_db. by rewrite lookup_insert_eq. Qed.
Lemma timer_db_set g rest l k :
  <["timertasktable" := mk_table timer_cols k (enc_task <$> l)]> (timer_db g rest) = timer_db (mk_timers l k) rest.
Proof. unfold timer_db. by rewrite insert_insert_eq. Qed.
Lemma timer_db_full g rest : timer_db g rest ∪ timer_db no_timers ∅ = timer_db g rest.
Proof.
  apply map_eq. intros i. destruct (decide (i = "timertasktable")) as [->|Hi].
  - apply lookup_union_l'. eexists. apply timer_db_table.
  - apply lookup_union_l. unfold timer_db. by rewrite lookup_insert_ne.
Qed.

Lemma timer_open_spec {S : Sqlite} {SL : SqliteLaws S} g rest db :
  db ∪ timer_db no_timers ∅ = timer_db g rest ->
  triple dev_file db timer_open (fun b db' => b = true /\ db' = timer_db g rest).
Proof.
  intros Hdb. unfold timer_open.
  eapply (triple_bind dev_file _ _ _ (fun rc db' => rc = SQLITE_OK /\ db' = db)); [by apply triple_open|].
  intros ? ? [-> ->]. change (SQLITE_OK =? SQLITE_ERROR) with false. cbv iota.
  eapply (triple_bind dev_file _ _ _ (fun _ db' => db' = _)); [eapply (triple_create dev_file); reflexivity|].
  intros _ ? ->. apply triple_ret; [exact _|]. split; [done|]. by rewrite <- Hdb.
Qed.

#[export] Instance timer_store {S : Sqlite} {SL : SqliteLaws S} : Store timers := {|
  st_file := dev_file; st_open := timer_open; st_db := timer_db; st_empty := timer_db no_timers ∅;
  st_full := timer_db_full; st_open_law := timer_open_spec
|}.

(** The four tables of dev.db together. *)
Definition home_db (t : timers) (g : registry) (rest : sqldb) : sqldb := timer_db t (reg_db g rest).

Lemma home_db_swap t g rest : home_db t g rest = reg_db g (timer_db t rest).
Proof.
  unfold home_db, timer_db, reg_db. rewrite (insert_insert_ne _ "timertasktable" "statictable") by done.
  rewrite (insert_insert_ne _ "timertasktable" "dynamictable") by done.
  by rewrite (insert_insert_ne _ "timertasktable" "grouptable") by done.
Qed.

Section Timer.
Context {S : Sqlite} {SL : SqliteLaws S}.

Lemma next_id_task seq l : next_id (mk_table timer_cols seq (enc_task <$> l)) = next_key t_id seq l.
Proof. unfold next_id, next_key. f_equal. cbn. induction l as [|r l IH]; [done|]. csimpl. by rewrite IH. Qed.

(** The text of a time needs no escape and at most 36 characters. *)
Lemma fmt_time_arg t : 0 <= tm_year t + 1900 < 10000 -> 0 <= tm_mon t <= 11 -> 1 <= tm_mday t <= 31 -> 0 <= tm_hour t <= 23 ->
  0 <= tm_min t <= 59 -> quote_free (fmt_time t) = true /\ String.length (fmt_time t) = 16%nat.
Proof.
  intros Hy Hm Hd Hh Hi. split.
  - unfold fmt_time, quote_free. rewrite !all_chars_app.
    assert (forall p n, 0 <= n -> all_chars (fun c => negb (Ascii.eqb c quote)) (fmt_d_prec p n) = true) as Hf.
    { intros p n Hn. rewrite fmt_d_prec_nonneg by done. eapply all_chars_impl; [|apply pad_left_digits].
      intros c Hc. destruct (Ascii.eqb_spec c quote) as [->|]; done. }
    rewrite !Hf by lia. done.
  - unfold fmt_time. rewrite !length_app_s.
    rewrite (fmt_d_prec_length 4) by (try (change (10 ^ Z.of_nat 4) with 10000); lia).
    rewrite !(fmt_d_prec_length 2) by (try (change (10 ^ Z.of_nat 2) with 100); lia). done.
Qed.

(** The minutes of the years the programs handle. *)
Definition minute_ok (n : Z) : Prop := 0 <= tm_year (minutes_tm n) + 1900 < 10000.

Lemma current_time_ok now : minute_ok now -> quote_free (fst (GetCurrentTime now)) = true /\
  String.length (fst (GetCurrentTime now)) = 16%nat.
Proof. intros H. pose proof (minutes_tm_range now) as (?&?&?&?). by apply fmt_time_arg. Qed.

Lemma AddOneTimerTask_spec g now item :
  item_ok item -> minute_ok now ->
  dtriple g (AddOneTimerTask now item) (fun b g' => g' = timers_add now item g /\ b = true).
Proof.
  intros ([Hq1 Hl1] & [Hq2 Hl2] & [Hq3 Hl3] & Hp & Ha & Ht & Hh) [Hq4 Hl4]%current_time_ok. unfold INT_MAX, byte_range in *.
  unfold AddOneTimerTask. rewrite !s32_small by (unfold INT_MIN, INT_MAX; lia).
  remember (fst (GetCurrentTime now)) as cur eqn:Hcur. set (k := next_key t_id (task_seq g) (tasks g)).
  eapply (add_on_spec (ST := timer_store) "timertasktable" timer_cols (task_seq g) enc_task (tasks g) (task_of k now item) g);
    [apply timer_db_table| |parse_text|sql_len|reflexivity|].
  - intros rest. change (has_auto timer_cols) with true. cbv iota. rewrite next_id_task. apply timer_db_set.
  - rewrite next_id_task. unfold task_of. rewrite <- Hcur. reflexivity.
Qed.

Lemma DeleteOneTimerTaskByID_spec g id :
  0 <= id <= INT_MAX -> dtriple g (DeleteOneTimerTaskByID id) (fun b g' => g' = timers_delete id g /\ b = true).
Proof.
  unfold INT_MAX. intros Hid.
  eapply (delete_on_spec (ST := timer_store) "timertasktable" timer_cols (task_seq g) enc_task (tasks g) (fun t => t_id t =? id) g);
    [apply timer_db_table|intros rest; apply timer_db_set|parse_text|sql_len|].
  intros x. cbn. by destruct (t_id x =? id).
Qed.

(** A task whose fields fit [timertask_item_t]. *)
Definition task_ok (t : task) : Prop :=
  arg_ok (t_mac t) /\ arg_ok (t_name t) /\
  (String.length (t_mac t) < 30)%nat /\ (String.length (t_name t) < 50)%nat /\
  (String.length (t_time t) < 20)%nat /\ (String.length (t_cre t) < 20)%nat /\
  0 <= t_id t <= INT_MAX /\ byte_range (t_period t) /\ byte_range (t_action t) /\
  0 <= t_tip t <= INT_MAX /\ 0 <= t_how t <= INT_MAX.

Definition item_of (g : registry) (t : task) : timertask_item_t :=
  mk_item (t_id t) (t_mac t) (t_name t) (t_period t) (t_time t) (t_action t) (t_tip t) (t_how t)
    (reg_number (t_mac t) (t_name t) g) (t_cre t).

Lemma az_task l r i x : result_for (enc_task <$> l) r -> l !! i = Some x ->
  forall j v, enc_task x !! j = Some v -> azResult r !! (Datatypes.S i * column_num r + j)%nat = Some (cell v).
Proof.
  intros Hres Hx j v Hj. eapply az_cell; [exact Hres| |exact Hj]. by rewrite list_lookup_fmap, Hx.
Qed.

Lemma read_item_spec g l r i x :
  reg_inv g -> result_for (enc_task <$> l) r -> l !! i = Some x -> task_ok x -> (i < 100)%nat ->
  dtriple g (read_item r (Datatypes.S i)) (fun y g' => g' = g /\ y = item_of g x).
Proof.
  intros Hinv Hres Hx (Hm & Hn & Hlm & Hln & Hlt & Hlc & Hid & Hp & Ha & Htip & Hhow) Hi.
  pose proof (az_task l r i x Hres Hx) as Haz. unfold byte_range in *.
  unfold read_item. cbn [Nat.sub]. rewrite Nat.sub_0_r.
  replace (i <? 100)%nat with true by (symmetry; by apply Nat.ltb_lt).
  pose proof (Haz 0%nat _ eq_refl) as H0. rewrite Nat.add_0_r in H0.
  pose proof (Haz 1%nat _ eq_refl) as H1. pose proof (Haz 2%nat _ eq_refl) as H2. pose proof (Haz 3%nat _ eq_refl) as H3.
  pose proof (Haz 4%nat _ eq_refl) as H4. pose proof (Haz 5%nat _ eq_refl) as H5. pose proof (Haz 6%nat _ eq_refl) as H6.
  pose proof (Haz 7%nat _ eq_refl) as H7. pose proof (Haz 8%nat _ eq_refl) as H8. cbn [cell] in *. clear Haz.
  cbv zeta. set (k := (Datatypes.S i * column_num r)%nat) in *.
  unfold az. repeat cell_step.
  eapply dtriple_bind; [by apply GetDevNumberByMacAndName_spec|]. intros ? ? [-> ->]. apply dtriple_ret. split; [done|].
  unfold INT_MAX in *. rewrite !atoi_fmt_d by (unfold INT_MAX; lia).
  rewrite !u8_small by (unfold byte_range; lia). by rewrite !u32_small by lia.
Qed.

Lemma read_items_spec g (l : list task) r k l1 :
  reg_inv g -> result_for (enc_task <$> l) r -> Forall task_ok l -> (length l <= 100)%nat ->
  drop k l = l1 ->
  dtriple g (read_items r (seq (Datatypes.S k) (length l1))) (fun ys g' => g' = g /\ ys = item_of g <$> l1).
Proof.
  intros Hinv Hres Hok Hlen. revert k. induction l1 as [|x l1 IH]; intros k Hk; cbn [length seq read_items]; [by apply dtriple_ret|].
  assert (l !! k = Some x) as Hx by (rewrite <- (Nat.add_0_r k), <- lookup_drop, Hk; done).
  pose proof (lookup_lt_Some _ _ _ Hx) as Hlt. rewrite Forall_lookup in Hok.
  eapply dtriple_bind; [eapply read_item_spec; [done|exact Hres|exact Hx|by eapply Hok|lia]|]. intros ? ? [-> ->].
  eapply dtriple_bind; [apply IH|].
  - by rewrite <- Nat.add_1_r, <- drop_drop, Hk.
  - intros ? ? [-> ->]. by apply dtriple_ret.
Qed.

(** More rows than the array holds. *)
Lemma read_items_overflow r l i s : (100 < i)%nat -> i ∈ l -> read_items r l s = None.
Proof.
  intros Hi. revert s. induction l as [|j l IH]; intros s Hin; [by apply elem_of_nil in Hin|].
  cbn [read_items]. apply elem_of_cons in Hin as [->|Hin].
  - unfold mbind at 1, M_bind, read_item, mbind at 1, M_bind. unfold lift at 1.
    by destruct (Nat.ltb_spec (j - 1) 100); [lia|].
  - unfold mbind at 1, M_bind. destruct (read_item r j s) as [[x s']|]; [|done].
    unfold mbind, M_bind. by rewrite IH.
Qed.

Lemma query_due (t : timers) rest long short weekday :
  quote_free long = true -> quote_free short = true -> 1 <= weekday <= 7 ->
  query_sql (due_text long short weekday) (timer_db t rest) =
    Some (false, enc_task <$> List.filter (due long short weekday) (tasks t)).
Proof.
  intros Hl Hs Hw. unfold due_text, due. assert (0 <= weekday - 1 < 31) as Hn by lia.
  generalize dependent (weekday - 1). intros n Hn. eapply query_select.
  - parse_text.
  - apply timer_db_table.
  - apply (filter_opt_fmap enc_task _ (fun x => (String.eqb (t_time x) long && (t_period x =? 0)) ||
      (String.eqb (t_time x) short && negb (Z.land (t_period x) (Z.shiftl 1 n) =? 0)))). intros x. cbn.
    destruct (Z.leb_spec 0 n), (Z.ltb_spec n 31); try lia. cbn [andb].
    destruct (String.eqb (t_time x) long), (t_period x =? 0), (String.eqb (t_time x) short); cbn;
      by destruct (Z.land (t_period x) (Z.shiftl 1 n) =? 0).
  - done.
Qed.
End Timer.

(** ** Properties *)

(** [GetValidThingsToDo] finds the tasks that are due: the single tasks
    of this date and time and the repeated tasks of this time of day whose
    mask has this weekday, each once, with the number of the device as it is
    registered now.  Its array has 100 entries and is written without a test:
    with more tasks due it is overrun. *)
Theorem due_tasks_found {S : Sqlite} {SL : SqliteLaws S} (t : timers) (g : registry) (rest rg : sqldb) (s : dm_state)
    (curr : string) (weekday : Z) :
  ready (f_dev s) -> view (f_dev s) ∪ timer_db no_timers ∅ = timer_db t rest -> holds_reg g rg (timer_db t rest) -> reg_inv g ->
  arg_ok curr -> (11 <= String.length curr)%nat -> 1 <= weekday <= 7 ->
  let short := String.substring 11 (String.length curr - 11) curr in
  let l := List.filter (due curr short weekday) (tasks t) in
  Forall task_ok l ->
  ((length l <= 100)%nat -> exists l' file, l' ≡ₚ l /\ ready file /\ holds_reg g rg (view file) /\
     GetValidThingsToDo curr weekday s = Some ((Z.of_nat (length l), item_of g <$> l'), set_f_dev file s)) /\
  ((100 < length l)%nat -> GetValidThingsToDo curr weekday s = None).
Proof.
  intros Hr Hh Hg Hinv [Hq Hl] H11 Hw short l Hok.
  assert (quote_free short = true) as Hqs by (by apply all_chars_substring).
  assert (String.length short <= 200)%nat as Hls by (unfold short; pose proof (length_substring 11 (String.length curr - 11) curr); lia).
  destruct (opening_run (ST := timer_store) t rest s Hr Hh) as (f0 & Hf0 & Hv0 & E0).
  destruct (db_get_rows (ST := timer_store) enc_task l t rest (due_text curr short weekday) false (set_f_dev f0 s))
    as (l' & r & file & Hl' & _ & Hres & Hf & Hv & E); [done|done|by apply query_due|].
  assert (GetValidThingsToDo curr weekday s =
    (items ← read_items r (seq 1 (row_num r)); mret (u8 (Z.of_nat (row_num r)), items)) (set_f_dev file s)) as Hrun.
  { unfold GetValidThingsToDo. rewrite (E0 _ _ _ : opening timer_open _ _ s = _).
    rewrite (bind_some _ _ _ short (set_f_dev f0 s)).
    2:{ unfold lift. by destruct (Nat.leb_spec 11 (String.length curr)); [|lia]. }
    rewrite (bind_some _ _ _ (due_text curr short weekday) (set_f_dev f0 s)).
    2:{ unfold sprintf, lift. rewrite fits_ok; [done|]. unfold due_text. sql_len. }
    by rewrite (bind_some _ _ _ _ _ E). }
  rewrite Hrun, (result_rows _ _ Hres), length_fmap. rewrite <- Hl' in Hok |- *. split; intros Hn.
  - destruct (read_items_spec g l' r 0 l' Hinv Hres Hok Hn eq_refl rg (view file)) with (s := set_f_dev file s)
      as (ys & file2 & E2 & Hf2 & g' & Hg' & -> & ->); [|done|done|].
    + replace (view file) with (timer_db t rest) by (by rewrite Hv). exact Hg.
    + exists l', file2. split; [done|]. split; [done|]. split; [exact Hg'|].
      rewrite (bind_some _ _ _ _ _ E2). rewrite u8_small by (unfold byte_range; lia). by rewrite <- Hl'.
  - unfold mbind, M_bind. rewrite (read_items_overflow r _ 101); [done|lia|]. apply elem_of_seq. lia.
Qed.

Definition sample_task : task := mk_task 1 "0013A200" "lamp" 31 "08:30" 1 0 0 "2014-09-09 09:00".
Definition sample_home : dm_state (H := RefSqlite) :=
  mk_dm (H := RefSqlite) (home_db (mk_timers [sample_task] 1)
      sample_reg ∅) ∅ ∅ "" "" "" "" "" "" "" (mk_uart [] quene_static) None "" [].

Lemma timer_db_wf t rest : db_wf rest -> db_wf (timer_db t rest).
Proof.
  intros Hr. unfold timer_db, db_wf. apply map_Forall_insert_2; [|done]. unfold table_wf. by apply Forall_fmap, Forall_true.
Qed.

(** Tuesday 2014-09-09, 08:30: the task runs on working days. *)
Lemma due_tasks_found_witness :
  ((1 <= 100)%nat -> exists l' file, l' ≡ₚ [sample_task] /\ ready (SqliteLaws := RefSqliteLaws) file /\
     holds_reg sample_reg (timer_db (mk_timers [sample_task] 1) ∅) file /\
     GetValidThingsToDo (H := RefSqlite) "2014-09-09 08:30" 2 sample_home =
       Some ((1, item_of sample_reg <$> l'), set_f_dev (H := RefSqlite) file sample_home)) /\
  ((100 < 1)%nat -> GetValidThingsToDo (H := RefSqlite) "2014-09-09 08:30" 2 sample_home = None).
Proof.
  apply (due_tasks_found (SL := RefSqliteLaws) (mk_timers [sample_task] 1) sample_reg (reg_db sample_reg ∅) (timer_db (mk_timers [sample_task] 1) ∅) sample_home "2014-09-09 08:30" 2).
  - apply timer_db_wf, reg_db_wf, map_Forall_empty.
  - apply timer_db_full.
  - change (timer_db ?x (reg_db ?g ?r)) with (home_db x g r). rewrite home_db_swap. apply holds_reg_db.
  - apply sample_reg_inv.
  - split; [reflexivity|vm_compute; lia].
  - vm_compute. lia.
  - lia.
  - repeat constructor; vm_compute; try discriminate; lia.
Defined.

Lemma TimeAdd_minutes (tz n h m : Z) :
  -86400 <= tz <= 86400 -> 86400 <= n * 60 -> 0 <= h -> 0 <= m -> (n + 60 * h + m) * 60 + 86400 <= INT_MAX ->
  minute_ok n -> minute_ok (n + 60 * h + m) ->
  TimeAdd tz (fmt_time (minutes_tm n)) h m = Some (fmt_time (minutes_tm (n + 60 * h + m))).
Proof.
  intros Htz Hn Hh Hm Hmax Hy Hy'. unfold INT_MAX in Hmax.
  pose proof (minutes_tm_range n) as (Rmo & Rd & Rh & Rmi). cbv zeta in *. unfold minute_ok in Hy.
  destruct (fmt_time_arg (minutes_tm n)) as [_ Hl]; try done. unfold TimeAdd. rewrite fits_ok by (rewrite Hl; lia).
  cbn [mbind option_bind]. set (t := minutes_tm n) in *. unfold fmt_time at 1.
  set (sy := fmt_d_prec 4 (1900 + tm_year t)). set (so := fmt_d_prec 2 (1 + tm_mon t)). set (sd := fmt_d_prec 2 (tm_mday t)).
  set (sh := fmt_d_prec 2 (tm_hour t)). set (si := fmt_d_prec 2 (tm_min t)).
  assert (forall sep, isdigit sep = false -> token_ok sep sy = true /\ token_ok sep so = true /\ token_ok sep sd = true /\
    token_ok sep sh = true /\ token_ok sep si = true) as Htok
    by (intros sep Hs; unfold sy, so, sd, sh, si; rewrite !fmt_d_prec_token by (first [done|lia]); done).
  destruct (Htok " "%char eq_refl) as (T1 & T2 & T3 & T4 & T5).
  destruct (Htok "-"%char eq_refl) as (U1 & U2 & U3 & _).
  destruct (Htok ":"%char eq_refl) as (_ & _ & _ & V4 & V5).
  replace (sy +:+ ("-" +:+ (so +:+ ("-" +:+ (sd +:+ (" " +:+ (sh +:+ (":" +:+ si))))))))
    with ((sy +:+ String "-" (so +:+ String "-" sd)) +:+ String " " (sh +:+ String ":" si))
    by (rewrite !app_assoc_s; cbn [String.append]; rewrite !app_assoc_s; done).
  assert (token_ok " " (sy +:+ String "-" (so +:+ String "-" sd)) = true) as HA.
  { apply token_ok_app; [done|]. cbn [all_chars]. rewrite all_chars_app. cbn [all_chars].
    by rewrite !(token_ok_all _ _ T2), (token_ok_all _ _ T3). }
  assert (token_ok " " (sh +:+ String ":" si) = true) as HB.
  { apply token_ok_app; [done|]. cbn [all_chars]. by rewrite (token_ok_all _ _ T5). }
  rewrite (strtok_sep " " _ _ HA), (strtok_last " " _ HB). cbv beta iota.
  change (default ?a (Some ?b)) with b.
  rewrite (strtok_sep "-" _ _ U1). cbn [mbind option_bind]. rewrite (strtok_sep "-" _ _ U2). cbn [mbind option_bind].
  rewrite (strtok_last "-" _ U3). cbn [mbind option_bind]. change (default ?a (Some ?b)) with b.
  rewrite (strtok_sep ":" _ _ V4). cbn [mbind option_bind]. rewrite (strtok_last ":" _ V5). cbn [mbind option_bind].
  unfold sy, so, sd, sh, si. rewrite !atoi_fmt_d_prec by (unfold INT_MAX; lia).
  replace (mk_tm (1900 + tm_year t - 1900) (1 + tm_mon t - 1) (tm_mday t) (tm_hour t) (tm_min t)) with t
    by (destruct t; cbn; f_equal; lia).
  unfold mktime, t. rewrite tm_minutes_minutes_tm. unfold INT_MIN, INT_MAX.
  destruct (Z.leb_spec (-2147483648) (n * 60 - tz)), (Z.leb_spec (n * 60 - tz) 2147483647); try lia. cbn [andb].
  rewrite s32_small by (unfold INT_MIN, INT_MAX; lia). unfold localtime.
  replace ((n * 60 - tz + (h * 60 * 60 + m * 60) + tz) / 60) with (n + 60 * h + m)
    by (replace (n * 60 - tz + (h * 60 * 60 + m * 60) + tz) with ((n + 60 * h + m) * 60) by lia; by rewrite Z.div_mul).
  apply fits_ok. pose proof (minutes_tm_range (n + 60 * h + m)) as (?&?&?&?). destruct (fmt_time_arg (minutes_tm (n + 60 * h + m))) as [_ ->]; try done. lia.
Qed.

(** [TimeAdd], used to compute when a device is switched back, adds
    hours and minutes to a date and time across days, months and years: the
    text of the minute [n] becomes the text of the minute [n + 60 h + m], in
    any time zone, as long as the times fit a 32-bit [time_t]. *)
Theorem TimeAdd_adds (tz n h m : Z) :
  -86400 <= tz <= 86400 -> 86400 <= n * 60 -> 0 <= h -> 0 <= m -> (n + 60 * h + m) * 60 + 86400 <= INT_MAX ->
  minute_ok n -> minute_ok (n + 60 * h + m) ->
  TimeAdd tz (fmt_time (minutes_tm n)) h m = Some (fmt_time (minutes_tm (n + 60 * h + m))).
Proof. apply TimeAdd_minutes. Qed.

(** New year's eve 2014, 23:30, and 45 minutes later. *)
Lemma TimeAdd_adds_witness :
  TimeAdd 28800 (fmt_time (minutes_tm 23667810)) 0 45 = Some (fmt_time (minutes_tm (23667810 + 60 * 0 + 45))) /\
  fmt_time (minutes_tm 23667810) = "2014-12-31 23:30" /\ fmt_time (minutes_tm 23667855) = "2015-01-01 00:15".
Proof.
  split; [|split; reflexivity]. apply (TimeAdd_adds 28800 23667810 0 45); unfold INT_MAX, minute_ok; try lia;
    vm_compute; split; discriminate || reflexivity.
Defined.

(** [TimeAdd] of a time of day without a date, which is what repeated
    tasks have, passes a null pointer to [atoi]: adding such a task with a
    duration crashes the daemon. *)
Lemma TimeAdd_short_time_undefined (tz hh mm h m : Z) :
  0 <= hh < 24 -> 0 <= mm < 60 -> TimeAdd tz (fmt_d_prec 2 hh +:+ (":" +:+ fmt_d_prec 2 mm)) h m = None.
Proof.
  intros Hh Hm. pose proof (fmt_d_prec_length 2 hh ltac:(change (10 ^ Z.of_nat 2) with 100; lia) ltac:(lia)) as L1.
  pose proof (fmt_d_prec_length 2 mm ltac:(change (10 ^ Z.of_nat 2) with 100; lia) ltac:(lia)) as L2.
  unfold TimeAdd. rewrite fits_ok by (rewrite !length_app_s, L1, L2; simpl; lia). cbn [mbind option_bind].
  set (sh := fmt_d_prec 2 hh) in *. set (si := fmt_d_prec 2 mm) in *.
  assert (forall sep, isdigit sep = false -> Ascii.eqb sep ":" = false -> token_ok sep (sh +:+ (":" +:+ si)) = true) as Htok.
  { intros sep Hs Hc. apply token_ok_app; [by apply fmt_d_prec_token; [|lia]|]. cbn [String.append all_chars].
    rewrite Hc, (token_ok_all sep si) by (apply fmt_d_prec_token; [done|lia]). done. }
  rewrite (strtok_last " " _ (Htok " "%char eq_refl eq_refl)). change (strtok " " "") with (@None string, "").
  change (default ?a (Some ?b)) with b.
  by rewrite (strtok_last "-" _ (Htok "-"%char eq_refl eq_refl)).
Qed.

(** ** The list of all tasks *)

(** Tasks are stored with increasing identifiers. *)
Definition by_id (g : timers) : Prop :=
  StronglySorted (fun a b => t_id a < t_id b) (tasks g) /\ Forall (fun t => 0 < t_id t <= task_seq g) (tasks g).

Definition task_cells (t : task) : list string :=
  [fmt_d (t_id t); t_mac t; t_name t; fmt_d (t_period t); t_time t; fmt_d (t_action t); fmt_d (t_tip t);
   fmt_d (t_how t); t_cre t].

Lemma sort_desc_reverse (l : list (Z * list value)) :
  StronglySorted (fun a b => fst a < fst b) l -> sort_desc l = reverse l.
Proof.
  intros H. induction H as [|x l Hl IH Hx]; [done|]. cbn [sort_desc foldr]. fold (sort_desc l). rewrite IH, reverse_cons.
  assert (Forall (fun y => fst x < fst y) (reverse l)) as Hr by (by rewrite Forall_reverse).
  clear IH. generalize dependent (reverse l). intros k Hr. induction Hr as [|y k Hy _ IHk]; [done|]. cbn. destruct (Z.leb_spec (fst y) (fst x)); [lia|]. by rewrite IHk.
Qed.

Lemma by_id_add now item g : by_id g -> 0 <= task_seq g -> by_id (timers_add now item g) /\ 0 <= task_seq (timers_add now item g).
Proof.
  intros [Hs Hb] H0. unfold timers_add, by_id. cbv zeta.
  assert (next_key t_id (task_seq g) (tasks g) = 1 + task_seq g) as -> by (by apply next_key_seq).
  cbn [tasks task_seq]. split; [split|lia].
  - clear H0. induction Hs as [|x l Hl IH Hx]; [repeat constructor|]. apply Forall_cons in Hb as [Hbx Hb].
    cbn [app]. constructor; [by apply IH|]. apply Forall_app. split; [done|]. constructor; [cbn; lia|done].
  - apply Forall_app. split; [by eapply Forall_weaken_bound; [|done]; lia|]. constructor; [cbn; lia|done].
Qed.

Lemma by_id_delete id g : by_id g -> by_id (timers_delete id g).
Proof.
  intros [Hs Hb]. unfold by_id. cbn. split.
  - clear Hb. induction Hs as [|x l Hl IH Hx]; [constructor|]. simpl. destruct (negb _); [|done]. constructor; [done|].
    apply Forall_self. intros y Hy%elem_of_filter_sub. rewrite Forall_forall in Hx. auto.
  - apply Forall_self. intros y Hy%elem_of_filter_sub. rewrite Forall_forall in Hb. auto.
Qed.

(** C25: Timer tasks are managed by identifier: adding a task stores the
    given fields and the current time under a new identifier, larger than
    all; deleting an identifier removes that task only, and succeeds also
    when there is none; both keep the table ordered, and
    [GetAllTimerTaskInfo] prints all tasks as a JSON array, the newest
    first, in a buffer of 4096 bytes which a longer text overruns. *)
Theorem timer_tasks_managed {S : Sqlite} {SL : SqliteLaws S} (t : timers) (rest : sqldb) (s : dm_state)
    (item : timertask_item_t) (now id : Z) :
  ready (f_dev s) -> view (f_dev s) ∪ timer_db no_timers ∅ = timer_db t rest -> by_id t -> 0 <= task_seq t ->
  item_ok item -> minute_ok now -> 0 <= id <= INT_MAX ->
  Forall (fun x => (String.length (json_object timer_keys (task_cells x)) + 1 < 2048)%nat) (tasks t) ->
  (exists file, AddOneTimerTask now item s = Some (true, set_f_dev file s) /\ ready file /\
     view file ∪ timer_db no_timers ∅ = timer_db (timers_add now item t) rest /\ by_id (timers_add now item t)) /\
  (exists file, DeleteOneTimerTaskByID id s = Some (true, set_f_dev file s) /\ ready file /\
     view file ∪ timer_db no_timers ∅ = timer_db (timers_delete id t) rest /\ by_id (timers_delete id t)) /\
  (exists file, ready file /\ view file = timer_db t rest /\
     GetAllTimerTaskInfo s = (fun x => (tt, set_timertask_info x (set_f_dev file s))) <$>
       array_text 4096 ((fun x => json_object timer_keys (task_cells x)) <$> reverse (tasks t))).
Proof.
  intros Hr Hh Hby H0 Hitem Hnow Hid Hlen. split; [|split].
  - destruct (AddOneTimerTask_spec t now item Hitem Hnow rest _ Hh s Hr eq_refl) as (x & file & E & Hf & g' & Hg' & -> & ->).
    exists file. split; [done|]. split; [done|]. split; [done|]. by apply by_id_add.
  - destruct (DeleteOneTimerTaskByID_spec t id Hid rest _ Hh s Hr eq_refl) as (x & file & E & Hf & g' & Hg' & -> & ->).
    exists file. split; [done|]. split; [done|]. split; [done|]. by apply by_id_delete.
  - destruct (json_array_spec (ST := timer_store) timertask_info_buf enc_task task_cells (json_object timer_keys) 2048 9
      (reverse (tasks t)) t rest "select * from timertasktable order by F_ID DESC" true s Hr Hh)
      as (l' & file & _ & Hl' & Hf & Hv & E); [cbn; lia| |done|by rewrite Forall_reverse|].
    + unfold query_sql. change (parse_sql _) with (Some [SSelect None "timertasktable" None (Some "f_id")]).
      cbn [mbind option_bind select_rows]. change (st_db t rest) with (timer_db t rest). rewrite timer_db_table.
      cbn [mbind option_bind t_cols t_rows].
      rewrite (map_opt_fmap enc_task _ (fun x => (t_id x, enc_task x))) by done. cbn [mbind option_bind].
      rewrite sort_desc_reverse.
      * rewrite <- (fmap_reverse (fun x => (t_id x, enc_task x))), <- list_fmap_compose. reflexivity.
      * destruct Hby as [Hs _]. clear -Hs. induction Hs as [|x l Hl IH Hx]; [constructor|]. csimpl. constructor; [done|].
        rewrite Forall_fmap. exact Hx.
    + rewrite (Hl' eq_refl) in E. exists file. split; [done|]. split; [done|exact E].
Qed.

Definition sample_item : timertask_item_t := mk_item 0 "0013A200" "lamp" 0 "2014-12-31 23:30" 1 0 45 0 "".

Lemma timer_tasks_managed_witness :
  let t := mk_timers [sample_task] 1 in
  let s := sample_home in
  (exists file, AddOneTimerTask (H := RefSqlite) 23667810 sample_item s = Some (true, set_f_dev (H := RefSqlite) file s) /\
     ready (SqliteLaws := RefSqliteLaws) file /\
     (file : sqldb) ∪ timer_db no_timers ∅ = timer_db (timers_add 23667810 sample_item t) (reg_db sample_reg ∅) /\
     by_id (timers_add 23667810 sample_item t)) /\
  (exists file, DeleteOneTimerTaskByID (H := RefSqlite) 0 s = Some (true, set_f_dev (H := RefSqlite) file s) /\
     ready (SqliteLaws := RefSqliteLaws) file /\
     (file : sqldb) ∪ timer_db no_timers ∅ = timer_db (timers_delete 0 t) (reg_db sample_reg ∅) /\ by_id (timers_delete 0 t)) /\
  (exists file, ready (SqliteLaws := RefSqliteLaws) file /\ file = timer_db t (reg_db sample_reg ∅) /\
     GetAllTimerTaskInfo (H := RefSqlite) s =
       (fun x => (tt, set_timertask_info (H := RefSqlite) x (set_f_dev (H := RefSqlite) file s))) <$>
       array_text 4096 ((fun x => json_object timer_keys (task_cells x)) <$> reverse [sample_task])).
Proof.
  intros t s. apply (timer_tasks_managed (SL := RefSqliteLaws) t (reg_db sample_reg ∅) s sample_item 23667810 0).
  - apply timer_db_wf, reg_db_wf, map_Forall_empty.
  - apply timer_db_full.
  - split; cbn; [apply SSorted_cons; [apply SSorted_nil|done]|]. apply Forall_singleton. cbn. lia.
  - vm_compute. discriminate.
  - repeat split; vm_compute; try discriminate; try lia; done.
  - vm_compute. split; [discriminate|reflexivity].
  - unfold INT_MAX. lia.
  - apply Forall_singleton. vm_compute. lia.
Defined.
