(* ===== verification/CJson.v ===== *)
(** * JSON (src/src/dev_manage/cJSON/cJSON.c, the same file as src/src/json/cJSON.c)

    The parser and the printer of the JSON library through which the daemon
    talks to its clients.  An item is a tree; the pointers of the library
    ([next], [prev], [child]) are the lists of the tree.  A number is kept as
    the decimal mantissa and exponent that are read, before [pow] and the
    rounding to [double]. *)

From stdpp Require Import base list strings.
From Stdlib Require Import ZArith Lia Ascii.
From S2P Require Import Prelude CString.

Open Scope Z_scope.

#[warnings="-register-all"]
Inductive json :=
  | JNull | JFalse | JTrue
  | JNum (mantissa exponent : Z)
  | JStr (s : string)
  | JArr (l : list json)
  | JObj (l : list (string * json)).

(** [PFail]: a null pointer is returned.  [PUndef]: memory beyond the text or
    beyond the allocated copy is accessed.  [PFuel]: more calls are needed. *)
Inductive presult (A : Type) :=
  | POk (x : A) (rest : string)
  | PFail
  | PUndef
  | PFuel.
Arguments POk {A}. Arguments PFail {A}. Arguments PUndef {A}. Arguments PFuel {A}.

Definition pbind {A B} (r : presult A) (k : A -> string -> presult B) : presult B :=
  match r with POk x rest => k x rest | PFail => PFail | PUndef => PUndef | PFuel => PFuel end.

Definition bslash : ascii := "092".
Definition dquote : ascii := "034".

(** [skip]: white space and control characters. *)
Fixpoint skip (s : string) : string :=
  match s with
  | String c s' => if code c <=? 32 then skip s' else s
  | EmptyString => s
  end.

(** ** Numbers *)

(** The [while] loops over digits: the value, how many there were, the rest. *)
Fixpoint read_digits (acc : Z) (n : Z) (s : string) : Z * Z * string :=
  match s with
  | String c s' => if isdigit c then read_digits (acc * 10 + (code c - 48)) (n + 1) s' else (acc, n, s)
  | EmptyString => (acc, n, s)
  end.

Definition head_is (p : ascii -> bool) (s : string) : bool :=
  match s with String c _ => p c | EmptyString => false end.
Definition tail_s (s : string) : string := match s with String _ s => s | EmptyString => "" end.
Definition is_char (a : ascii) (c : ascii) : bool := Ascii.eqb c a.

(** "Number starts 1..9" *)
Definition read_integer (num : string) : Z * string :=
  if head_is (fun c => isdigit c && negb (is_char "0" c)) num
  then let '(n, _, r) := read_digits 0 0 num in (n, r)
  else (0, num).

(** The digits after a point go on with the same mantissa. *)
Definition read_fraction (n : Z) (num : string) : Z * Z * string :=
  if head_is (is_char ".") num && head_is isdigit (tail_s num)
  then let '(n, k, r) := read_digits n 0 (tail_s num) in (n, - k, r)
  else (n, 0, num).

Definition read_exponent (num : string) : Z * string :=
  if head_is (fun c => is_char "e" c || is_char "E" c) num then
    let num := tail_s num in
    let eneg := head_is (is_char "-") num in
    let num := if head_is (is_char "+") num || eneg then tail_s num else num in
    let '(k, _, r) := read_digits 0 0 num in
    (if eneg then - k else k, r)
  else (0, num).

Definition parse_number (num : string) : json * string :=
  let neg := head_is (is_char "-") num in
  let num := if neg then tail_s num else num in
  let num := if head_is (is_char "0") num then tail_s num else num in
  let '(n, num) := read_integer num in
  let '(n, scale, num) := read_fraction n num in
  let '(subscale, num) := read_exponent num in
  (JNum (if neg then - n else n) (scale + subscale), num).

(** ** Strings *)

Definition hex_digit (c : ascii) : option Z := digit_of 16 c.

(** [parse_hex4] of the next four characters: 0 when one is no digit. *)
Definition parse_hex4 (a b c d : ascii) : Z :=
  match hex_digit a, hex_digit b, hex_digit c, hex_digit d with
  | Some a, Some b, Some c, Some d => ((a * 16 + b) * 16 + c) * 16 + d
  | _, _, _, _ => 0
  end.

Definition chr (z : Z) : ascii := ascii_of_N (Z.to_N (u8 z)).

(** The bytes of a code point, written from the last to the first. *)
Definition utf8 (uc : Z) : string :=
  let low z := chr (Z.land (Z.lor z 0x80) 0xBF) in
  if uc <? 0x80 then String (chr uc) ""
  else if uc <? 0x800 then String (chr (Z.lor (Z.shiftr uc 6) 0xC0)) (String (low uc) "")
  else if uc <? 0x10000 then
    String (chr (Z.lor (Z.shiftr uc 12) 0xE0)) (String (low (Z.shiftr uc 6)) (String (low uc) ""))
  else
    String (chr (Z.lor (Z.shiftr uc 18) 0xF0)) (String (low (Z.shiftr uc 12))
      (String (low (Z.shiftr uc 6)) (String (low uc) ""))).

(** The first loop of [parse_string]: how many units the copy gets, or [None]
    when a backslash is the last character: the loop steps over the NUL. *)
Fixpoint measure_string (s : string) : option nat :=
  match s with
  | EmptyString => Some 0%nat
  | String c s' =>
      if Ascii.eqb c dquote then Some 0%nat
      else if Ascii.eqb c bslash then
        match s' with
        | EmptyString => None
        | String _ s'' => n ← measure_string s''; Some (S n)
        end
      else n ← measure_string s'; Some (S n)
  end.

Definition simple_escape (c : ascii) : ascii :=
  if Ascii.eqb c "b" then "008" else if Ascii.eqb c "f" then "012" else if Ascii.eqb c "n" then "010"
  else if Ascii.eqb c "r" then "013" else if Ascii.eqb c "t" then "009" else c.

(** The second loop: the decoded text and what follows the closing quote.
    An [\u] escape steps over four characters whatever they are. *)
Fixpoint decode_string (s : string) : option (string * string) :=
  match s with
  | EmptyString => Some ("", "")
  | String c s' =>
      if Ascii.eqb c dquote then Some ("", s')
      else if negb (Ascii.eqb c bslash) then '(t, r) ← decode_string s'; Some (String c t, r)
      else
        match s' with
        | EmptyString => None
        | String e s1 =>
            if Ascii.eqb e "u" then
              match s1 with
              | String h1 (String h2 (String h3 (String h4 s2))) =>
                  let uc := parse_hex4 h1 h2 h3 h4 in
                  if ((0xDC00 <=? uc) && (uc <=? 0xDFFF)) || (uc =? 0) then decode_string s2
                  else if (0xD800 <=? uc) && (uc <=? 0xDBFF) then
                    match s2 with
                    | String b (String u s3) =>
                        if Ascii.eqb b bslash && Ascii.eqb u "u" then
                          match s3 with
                          | String g1 (String g2 (String g3 (String g4 s4))) =>
                              let uc2 := parse_hex4 g1 g2 g3 g4 in
                              if (uc2 <? 0xDC00) || (0xDFFF <? uc2) then decode_string s4
                              else '(t, r) ← decode_string s4;
                                   Some (utf8 (0x10000 + (Z.lor (Z.shiftl (Z.land uc 0x3FF) 10) (Z.land uc2 0x3FF))) +:+ t, r)
                          | _ => None
                          end
                        else decode_string s2
                    | _ => decode_string s2
                    end
                  else '(t, r) ← decode_string s2; Some (utf8 uc +:+ t, r)
              | _ => None
              end
            else '(t, r) ← decode_string s1; Some (String (simple_escape e) t, r)
        end
  end.

(** The copy has room for [len] characters and a NUL. *)
Definition parse_string (str : string) : presult string :=
  if negb (head_is (is_char dquote) str) then PFail
  else
    match measure_string (tail_s str), decode_string (tail_s str) with
    | Some len, Some (t, rest) => if (String.length t <=? len)%nat then POk t rest else PUndef
    | _, _ => PUndef
    end.

(** ** Values *)

Fixpoint parse_value (fuel : nat) (value : string) : presult json :=
  match fuel with
  | O => PFuel
  | S fuel =>
      if is_prefix "null" value then POk JNull (tail_s (tail_s (tail_s (tail_s value))))
      else if is_prefix "false" value then POk JFalse (tail_s (tail_s (tail_s (tail_s (tail_s value)))))
      else if is_prefix "true" value then POk JTrue (tail_s (tail_s (tail_s (tail_s value))))
      else if head_is (is_char dquote) value then pbind (parse_string value) (fun s r => POk (JStr s) r)
      else if head_is (fun c => is_char "-" c || isdigit c) value then
        let '(n, r) := parse_number value in POk n r
      else if head_is (is_char "[") value then
        let value := skip (tail_s value) in
        if head_is (is_char "]") value then POk (JArr []) (tail_s value)
        else pbind (parse_items fuel value) (fun l r => POk (JArr l) r)
      else if head_is (is_char "{") value then
        let value := skip (tail_s value) in
        if head_is (is_char "}") value then POk (JObj []) (tail_s value)
        else pbind (parse_members fuel value) (fun l r => POk (JObj l) r)
      else PFail
  end
(** The elements of an array, up to and with the closing bracket. *)
with parse_items (fuel : nat) (value : string) : presult (list json) :=
  match fuel with
  | O => PFuel
  | S fuel =>
      pbind (parse_value fuel (skip value)) (fun x r =>
        let r := skip r in
        if head_is (is_char ",") r then pbind (parse_items fuel (tail_s r)) (fun l r => POk (x :: l) r)
        else if head_is (is_char "]") r then POk [x] (tail_s r)
        else PFail)
  end
with parse_members (fuel : nat) (value : string) : presult (list (string * json)) :=
  match fuel with
  | O => PFuel
  | S fuel =>
      pbind (parse_string (skip value)) (fun k r =>
        let r := skip r in
        if negb (head_is (is_char ":") r) then PFail
        else pbind (parse_value fuel (skip (tail_s r))) (fun x r =>
          let r := skip r in
          if head_is (is_char ",") r then pbind (parse_members fuel (tail_s r)) (fun l r => POk ((k, x) :: l) r)
          else if head_is (is_char "}") r then POk [(k, x)] (tail_s r)
          else PFail))
  end.

(** Two calls for each character are enough ([parse_terminates]); text after
    the value is ignored. *)
Definition parse_fuel (value : string) : nat := 2 * String.length value + 2.
Definition cJSON_Parse (value : string) : presult json := parse_value (parse_fuel value) (skip value).

(** ** Access *)

Definition tolower (c : ascii) : ascii :=
  if (65 <=? code c) && (code c <=? 90) then chr (code c + 32) else c.
Fixpoint strcaseeq (a b : string) : bool :=
  match a, b with
  | EmptyString, EmptyString => true
  | String x a, String y b => Ascii.eqb (tolower x) (tolower y) && strcaseeq a b
  | _, _ => false
  end.

(** The children of an item; of an array they have no name. *)
Definition cJSON_GetObjectItem (object : json) (name : string) : option json :=
  match object with
  | JObj l => snd <$> List.find (fun p => strcaseeq (fst p) name) l
  | _ => None
  end.
Definition valuestring (item : json) : option string := match item with JStr s => Some s | _ => None end.

Definition cJSON_GetArraySize (array : json) : nat :=
  match array with JArr l => length l | JObj l => length l | _ => 0 end.
Definition cJSON_GetArrayItem (array : json) (item : nat) : option json :=
  match array with JArr l => l !! item | JObj l => snd <$> l !! item | _ => None end.

(** ** Printing *)

(** ["%04x"] prints lower-case digits. *)
Definition lower_digit (d : Z) : ascii := chr (if d <? 10 then 48 + d else 87 + d).

Definition escape (c : ascii) : string :=
  if (31 <? code c) && negb (Ascii.eqb c dquote) && negb (Ascii.eqb c bslash) then String c ""
  else if Ascii.eqb c bslash then String bslash (String bslash "")
  else if Ascii.eqb c dquote then String bslash (String dquote "")
  else if Ascii.eqb c "008" then String bslash "b"
  else if Ascii.eqb c "012" then String bslash "f"
  else if Ascii.eqb c "010" then String bslash "n"
  else if Ascii.eqb c "013" then String bslash "r"
  else if Ascii.eqb c "009" then String bslash "t"
  else String bslash (String "u" (String "0" (String "0" (String (lower_digit (code c / 16)) (String (lower_digit (code c mod 16)) ""))))).

Fixpoint escape_all (s : string) : string :=
  match s with EmptyString => "" | String c s => escape c +:+ escape_all s end.
Definition print_string_ptr (s : string) : string := String dquote (escape_all s +:+ String dquote "").

Fixpoint tabs (n : nat) : string := match n with O => "" | S n => String "009" (tabs n) end.

(** Only the [%d] format of [print_number] is in the model: integers of 32
    bits. *)
Definition print_number (mantissa exponent : Z) : option string :=
  if (exponent =? 0) && (INT_MIN <=? mantissa) && (mantissa <=? INT_MAX) then Some (fmt_d mantissa) else None.

Definition newline (fmt : bool) : string := if fmt then String "010" "" else "".

(** The entries of an array and its closing bracket. *)
Definition print_items (fmt : bool) (print : json -> option string) :=
  fix entries (l : list json) : option string :=
    match l with
    | [] => Some "]"
    | x :: l =>
        t ← print x;
        r ← entries l;
        Some (t +:+ (match l with [] => "" | _ => String "," (if fmt then " " else "") end +:+ r))
    end.

(** The members of an object, each on its line when formatted. *)
Definition print_members (fmt : bool) (depth : nat) (print : json -> option string) :=
  fix entries (l : list (string * json)) : option string :=
    match l with
    | [] => Some ((if fmt then tabs depth else "") +:+ "}")
    | (k, x) :: l =>
        t ← print x;
        r ← entries l;
        Some ((if fmt then tabs (S depth) else "") +:+ (print_string_ptr k +:+ (String ":" ((if fmt then tabs 1 else "") +:+
          (t +:+ (match l with [] => "" | _ => "," end +:+ (newline fmt +:+ r)))))))
    end.

Fixpoint print_value (item : json) (depth : nat) (fmt : bool) : option string :=
  match item with
  | JNull => Some "null"
  | JFalse => Some "false"
  | JTrue => Some "true"
  | JNum m e => print_number m e
  | JStr s => Some (print_string_ptr s)
  | JArr l => r ← print_items fmt (fun x => print_value x (S depth) fmt) l; Some (String "[" r)
  | JObj [] => Some (String "{" (newline fmt +:+ ((if fmt then tabs (depth - 1) else "") +:+ "}")))
  | JObj l => r ← print_members fmt depth (fun x => print_value x (S depth) fmt) l; Some (String "{" (newline fmt +:+ r))
  end.

Definition cJSON_Print (item : json) : option string := print_value item 0 true.
Definition cJSON_PrintUnformatted (item : json) : option string := print_value item 0 false.

(** ** The parser consumes its input *)

Lemma skip_length s : (String.length (skip s) <= String.length s)%nat.
Proof. induction s as [|c s IH]; cbn; [lia|]. destruct (code c <=? 32); cbn in *; lia. Qed.

Lemma tail_length s : (String.length (tail_s s) <= String.length s)%nat.
Proof. destruct s; cbn; lia. Qed.

Lemma head_tail_length p s : head_is p s = true -> String.length s = S (String.length (tail_s s)).
Proof. by destruct s. Qed.

Lemma is_prefix_app p s : is_prefix p s = true -> exists r, s = p +:+ r.
Proof.
  revert s. induction p as [|a p IH]; intros [|b s] H; cbn in *; try done; [by eexists..|].
  apply andb_prop in H as [->%Ascii.eqb_eq H]. destruct (IH s H) as [r ->]. by exists r.
Qed.

Lemma read_digits_length s acc n : (String.length (snd (read_digits acc n s)) <= String.length s)%nat.
Proof.
  revert acc n. induction s as [|c s IH]; intros acc n; cbn; [lia|]. destruct (isdigit c); cbn; [|lia].
  etrans; [apply IH|lia].
Qed.

Lemma decode_string_unfold s : decode_string s =
  match s with
    | EmptyString => Some ("", "")
    | String c s' =>
        if Ascii.eqb c dquote then Some ("", s')
        else if negb (Ascii.eqb c bslash) then '(t, r) ← decode_string s'; Some (String c t, r)
        else
          match s' with
          | EmptyString => None
          | String e s1 =>
              if Ascii.eqb e "u" then
                match s1 with
                | String h1 (String h2 (String h3 (String h4 s2))) =>
                    let uc := parse_hex4 h1 h2 h3 h4 in
                    if ((0xDC00 <=? uc) && (uc <=? 0xDFFF)) || (uc =? 0) then decode_string s2
                    else if (0xD800 <=? uc) && (uc <=? 0xDBFF) then
                      match s2 with
                      | String b (String u s3) =>
                          if Ascii.eqb b bslash && Ascii.eqb u "u" then
                            match s3 with
                            | String g1 (String g2 (String g3 (String g4 s4))) =>
                                let uc2 := parse_hex4 g1 g2 g3 g4 in
                                if (uc2 <? 0xDC00) || (0xDFFF <? uc2) then decode_string s4
                                else '(t, r) ← decode_string s4;
                                     Some (utf8 (0x10000 + (Z.lor (Z.shiftl (Z.land uc 0x3FF) 10) (Z.land uc2 0x3FF))) +:+ t, r)
                            | _ => None
                            end
                          else decode_string s2
                      | _ => decode_string s2
                      end
                    else '(t, r) ← decode_string s2; Some (utf8 uc +:+ t, r)
                | _ => None
                end
              else '(t, r) ← decode_string s1; Some (String (simple_escape e) t, r)
          end
    end.
Proof. by destruct s. Qed.
#[local] Arguments decode_string : simpl never.

Lemma decode_string_length : forall n s t r, (String.length s <= n)%nat ->
  decode_string s = Some (t, r) -> (String.length r <= String.length s)%nat.
Proof.
  induction n as [|n IH]; intros s t r Hn H; (destruct s as [|c s']; [by rewrite decode_string_unfold in H; simplify_eq/=|]); cbn in Hn; [lia|].
  rewrite decode_string_unfold in H.
  repeat first
    [ progress simplify_eq/=
    | case_match
    | match goal with H : context[decode_string ?x ≫= _] |- _ => destruct (decode_string x) as [[? ?]|] eqn:? end ];
  try lia;
  match goal with H : decode_string ?x = Some _ |- _ => apply IH in H; cbn [String.length] in *; lia end.
Qed.

Lemma parse_string_length s t r : parse_string s = POk t r -> (String.length r < String.length s)%nat.
Proof.
  unfold parse_string. destruct (head_is _ s) eqn:E; [|done]. cbn [negb]. rewrite (head_tail_length _ _ E).
  destruct (measure_string _); [|done]. destruct (decode_string _) as [[t' r']|] eqn:Ed; [|done].
  destruct (_ <=? _)%nat; [|done]. intros [= <- <-]. apply (decode_string_length _ _ _ _ (le_n _)) in Ed. lia.
Qed.

Lemma pbind_ok {A B} (r : presult A) (k : A -> string -> presult B) y s :
  pbind r k = POk y s -> exists x t, r = POk x t /\ k x t = POk y s.
Proof. destruct r; cbn; naive_solver. Qed.

Lemma read_integer_length v : (String.length (snd (read_integer v)) <= String.length v)%nat.
Proof.
  unfold read_integer. destruct (head_is _ v); [|done].
  pose proof (read_digits_length v 0 0). by destruct (read_digits 0 0 v) as [[n k] r].
Qed.

Lemma read_fraction_length n v : (String.length (snd (read_fraction n v)) <= String.length v)%nat.
Proof.
  unfold read_fraction. destruct (_ && _); [|done]. pose proof (read_digits_length (tail_s v) n 0).
  pose proof (tail_length v). destruct (read_digits n 0 (tail_s v)) as [[m k] r]. cbn in *. lia.
Qed.

Lemma read_exponent_length v : (String.length (snd (read_exponent v)) <= String.length v)%nat.
Proof.
  unfold read_exponent. destruct (head_is _ v); [|done]. cbv zeta.
  set (w := if _ || _ then _ else _). pose proof (read_digits_length w 0 0).
  assert (String.length w <= String.length v)%nat.
  { subst w. pose proof (tail_length v). pose proof (tail_length (tail_s v)). destruct (_ || _); lia. }
  destruct (read_digits 0 0 w) as [[m k] r]. cbn in *. lia.
Qed.

(** A first digit is consumed as a leading zero or by [read_integer]. *)
Lemma parse_number_length v :
  head_is (fun c => is_char "-" c || isdigit c) v = true ->
  (String.length (snd (parse_number v)) < String.length v)%nat.
Proof.
  intros H. unfold parse_number. cbv zeta.
  set (v1 := if head_is (is_char "-") v then tail_s v else v).
  set (v2 := if head_is (is_char "0") v1 then tail_s v1 else v1).
  assert (String.length (snd (read_integer v2)) < String.length v)%nat as Hlt.
  { pose proof (read_integer_length v2). destruct v as [|c v]; [done|]. cbn [head_is] in *.
    destruct (is_char "-" c) eqn:Em; subst v1; cbn [tail_s] in *.
    - assert (String.length v2 <= String.length v)%nat by (subst v2; destruct (head_is _ v); [apply tail_length|done]).
      cbn. lia.
    - cbn [orb] in H. subst v2. cbn [head_is tail_s] in *. destruct (is_char "0" c) eqn:E0; [cbn in *; lia|].
      unfold read_integer. cbn [head_is]. rewrite E0, H. cbn [negb andb read_digits]. rewrite H.
      match goal with |- context[read_digits ?a ?b v] => pose proof (read_digits_length v a b); destruct (read_digits a b v) as [[n k] r] end.
      cbn in *. lia. }
  destruct (read_integer v2) as [n r]. pose proof (read_fraction_length n r).
  destruct (read_fraction n r) as [[m k] r']. pose proof (read_exponent_length r').
  destruct (read_exponent r') as [e r'']. cbn in *. lia.
Qed.

Lemma skip_tail_length p s : head_is p s = true -> (String.length (skip (tail_s s)) < String.length s)%nat.
Proof. intros ->%head_tail_length. pose proof (skip_length (tail_s s)). lia. Qed.

Lemma parse_consumes fuel :
  (forall v x r, parse_value fuel v = POk x r -> (String.length r < String.length v)%nat) /\
  (forall v x r, parse_items fuel v = POk x r -> (String.length r < String.length v)%nat) /\
  (forall v x r, parse_members fuel v = POk x r -> (String.length r < String.length v)%nat).
Proof.
  induction fuel as [|fuel (IHv & IHi & IHm)]; [done|]. split; [|split]; intros v x r; cbn [parse_value parse_items parse_members].
  - destruct (is_prefix "null" v) eqn:E1; [|destruct (is_prefix "false" v) eqn:E2; [|destruct (is_prefix "true" v) eqn:E3]].
    1-3: match goal with H : is_prefix _ _ = true |- _ => apply is_prefix_app in H as [w ->] end; intros [= <- <-]; cbn; lia.
    destruct (head_is (is_char dquote) v) eqn:Hq.
    { intros (s & t & Hs & [= <- <-])%pbind_ok. by eapply parse_string_length. }
    destruct (head_is (fun c => is_char "-" c || isdigit c) v) eqn:Hn.
    { pose proof (parse_number_length v Hn). destruct (parse_number v). by intros [= <- <-]. }
    destruct (head_is (is_char "[") v) eqn:Ha; [|destruct (head_is (is_char "{") v) eqn:Ho; [|done]].
    all: match goal with H : head_is _ _ = true |- _ => pose proof (skip_tail_length _ _ H) end; cbv zeta.
    all: case_match eqn:E; [intros [= <- <-]; eapply Nat.le_lt_trans; [apply tail_length|lia]|].
    all: intros (s & t & Hs & [= <- <-])%pbind_ok; first [apply IHi in Hs|apply IHm in Hs]; lia.
  - intros (y & t & Hy & H)%pbind_ok. apply IHv in Hy. pose proof (skip_length v). pose proof (skip_length t).
    pose proof (tail_length (skip t)). cbv zeta in H.
    case_match; [apply pbind_ok in H as (l & t' & Hl & [= <- <-]); apply IHi in Hl; lia|].
    case_match; simplify_eq. lia.
  - intros (k & t & Hk & H)%pbind_ok. apply parse_string_length in Hk. pose proof (skip_length v). pose proof (skip_length t).
    pose proof (tail_length (skip t)). cbv zeta in H. destruct (negb _); [done|].
    apply pbind_ok in H as (y & t' & Hy & H). apply IHv in Hy. pose proof (skip_length (tail_s (skip t))).
    pose proof (skip_length t'). pose proof (tail_length (skip t')). cbv zeta in H.
    case_match; [apply pbind_ok in H as (l & t'' & Hl & [= <- <-]); apply IHm in Hl; lia|].
    case_match; simplify_eq. lia.
Qed.

Lemma pbind_not_fuel {A B} (r : presult A) (k : A -> string -> presult B) :
  r <> PFuel -> (forall x t, r = POk x t -> k x t <> PFuel) -> pbind r k <> PFuel.
Proof. destruct r; cbn; naive_solver. Qed.

Lemma parse_string_not_fuel s : parse_string s <> PFuel.
Proof. unfold parse_string. repeat case_match; done. Qed.

(** Two calls for each character of the text suffice. *)
Lemma parse_enough_fuel fuel :
  (forall v, (2 * String.length v + 1 <= fuel)%nat -> parse_value fuel v <> PFuel) /\
  (forall v, (2 * String.length v + 2 <= fuel)%nat -> parse_items fuel v <> PFuel) /\
  (forall v, (2 * String.length v + 2 <= fuel)%nat -> parse_members fuel v <> PFuel).
Proof.
  induction fuel as [|fuel (IHv & IHi & IHm)]; [repeat split; intros; lia|].
  destruct (parse_consumes fuel) as (Hv & _ & _).
  split; [|split]; intros v Hf; cbn [parse_value parse_items parse_members].
  - do 3 (case_match; [done|]). case_match; [apply pbind_not_fuel; [apply parse_string_not_fuel|done]|].
    case_match; [by case_match|].
    case_match eqn:Ha; [|case_match eqn:Ho; [|done]].
    all: match goal with H : head_is _ _ = true |- _ => pose proof (skip_tail_length _ _ H) end; cbv zeta.
    all: case_match; [done|]; apply pbind_not_fuel; [|done]; first [apply IHi|apply IHm]; lia.
  - pose proof (skip_length v). apply pbind_not_fuel; [apply IHv; lia|]. intros x t Ht. apply Hv in Ht.
    cbv zeta. pose proof (skip_length t). case_match eqn:E; [|by case_match]. apply head_tail_length in E.
    apply pbind_not_fuel; [apply IHi; lia|done].
  - pose proof (skip_length v). apply pbind_not_fuel; [apply parse_string_not_fuel|]. intros k t Ht. apply parse_string_length in Ht.
    cbv zeta. pose proof (skip_length t). case_match eqn:E0; [done|]. apply negb_false_iff, head_tail_length in E0.
    pose proof (skip_length (tail_s (skip t))). apply pbind_not_fuel; [apply IHv; lia|]. intros y t' Ht'. apply Hv in Ht'.
    pose proof (skip_length t'). case_match eqn:E1; [|by case_match]. apply head_tail_length in E1.
    apply pbind_not_fuel; [apply IHm; lia|done].
Qed.

Lemma pbind_mono {A B} (r r' : presult A) (k k' : A -> string -> presult B) :
  (r <> PFuel -> r' = r) -> (forall x t, k x t <> PFuel -> k' x t = k x t) ->
  pbind r k <> PFuel -> pbind r' k' = pbind r k.
Proof. intros Hr Hk H. destruct r; cbn in *; try (by rewrite Hr). rewrite Hr by done. by apply Hk. Qed.

(** More fuel changes no result. *)
Lemma parse_mono fuel :
  (forall v, parse_value fuel v <> PFuel -> parse_value (S fuel) v = parse_value fuel v) /\
  (forall v, parse_items fuel v <> PFuel -> parse_items (S fuel) v = parse_items fuel v) /\
  (forall v, parse_members fuel v <> PFuel -> parse_members (S fuel) v = parse_members fuel v).
Proof.
  induction fuel as [|fuel (IHv & IHi & IHm)]; [done|].
  split; [|split]; intros v Hf; remember (S fuel) as fuel' eqn:Ef.
  - rewrite Ef in Hf at 1. rewrite Ef at 2. cbn [parse_value] in *.
    repeat first [done | progress cbv zeta in * | case_match]; apply pbind_mono; auto.
  - rewrite Ef in Hf at 1. rewrite Ef at 2. cbn [parse_items] in *. apply pbind_mono; [auto| |done].
    intros x t. cbv zeta. repeat first [done | case_match]. intros Hn. apply pbind_mono; auto.
  - rewrite Ef in Hf at 1. rewrite Ef at 2. cbn [parse_members] in *. apply pbind_mono; [auto| |done].
    intros x t. cbv zeta. case_match; [done|]. intros Hn. apply pbind_mono; [auto| |done].
    intros y t'. cbv zeta. repeat first [done | case_match]. intros Hn'. apply pbind_mono; auto.
Qed.

Lemma fuel_more {A} (parse : nat -> presult A) :
  (forall fuel, parse fuel <> PFuel -> parse (S fuel) = parse fuel) ->
  forall fuel fuel', (fuel <= fuel')%nat -> parse fuel <> PFuel -> parse fuel' = parse fuel.
Proof.
  intros Hs fuel fuel'. induction 1 as [|fuel' _ IH]; [done|]. intros Hp. specialize (IH Hp).
  rewrite <- IH. apply Hs. by rewrite IH.
Qed.

Lemma parse_value_more fuel fuel' v : (fuel <= fuel')%nat ->
  parse_value fuel v <> PFuel -> parse_value fuel' v = parse_value fuel v.
Proof. apply (fuel_more (fun n => parse_value n v)). intros n. apply parse_mono. Qed.
Lemma parse_items_more fuel fuel' v : (fuel <= fuel')%nat ->
  parse_items fuel v <> PFuel -> parse_items fuel' v = parse_items fuel v.
Proof. apply (fuel_more (fun n => parse_items n v)). intros n. apply parse_mono. Qed.
Lemma parse_members_more fuel fuel' v : (fuel <= fuel')%nat ->
  parse_members fuel v <> PFuel -> parse_members fuel' v = parse_members fuel v.
Proof. apply (fuel_more (fun n => parse_members n v)). intros n. apply parse_mono. Qed.

(** ** Strings and numbers are read back *)

Definition nul_free (s : string) : bool := all_chars (fun c => negb (Ascii.eqb c "000")) s.

(** 256 cases: each escape decodes to its character. *)
Lemma decode_escape c w : c <> "000"%char ->
  decode_string (escape c +:+ w) = '(t, r) ← decode_string w; Some (String c t, r).
Proof.
  intros Hc. destruct c as [[] [] [] [] [] [] [] []]; try (exfalso; by apply Hc); rewrite decode_string_unfold; reflexivity.
Qed.

Lemma measure_escape c w :
  measure_string (escape c +:+ w) = Nat.add (if 5 <? Z.of_nat (String.length (escape c)) then 5%nat else 1%nat) <$> measure_string w.
Proof.
  destruct c as [[] [] [] [] [] [] [] []];
    match goal with |- context[escape ?c] => let e := eval vm_compute in (escape c) in change (escape c) with e end;
    cbn -[Nat.add]; destruct (measure_string w); reflexivity.
Qed.

Lemma decode_escape_all s rest : nul_free s = true ->
  decode_string (escape_all s +:+ String dquote rest) = Some (s, rest).
Proof.
  induction s as [|c s IH]; intros H; [done|]. cbn in H. apply andb_prop in H as [Hc Hs].
  cbn [escape_all]. rewrite app_assoc_s, decode_escape, IH by (done || by intros ->). done.
Qed.

Lemma measure_escape_all s rest :
  exists n, measure_string (escape_all s +:+ String dquote rest) = Some n /\ (String.length s <= n)%nat.
Proof.
  induction s as [|c s (n & IH & Hn)]; [by exists 0%nat|]. cbn [escape_all]. rewrite app_assoc_s, measure_escape, IH.
  eexists. split; [reflexivity|]. cbn [String.length]. case_match; lia.
Qed.

Lemma parse_print_string s rest : nul_free s = true -> parse_string (print_string_ptr s +:+ rest) = POk s rest.
Proof.
  intros Hs. unfold parse_string, print_string_ptr. cbn [String.append head_is tail_s].
  rewrite app_assoc_s. cbn [String.append]. destruct (measure_escape_all s rest) as (n & -> & Hn).
  rewrite decode_escape_all by done. by replace (String.length s <=? n)%nat with true by (symmetry; by apply Nat.leb_le).
Qed.

(** No digit, point or exponent follows the number. *)
Definition number_end (rest : string) : bool :=
  negb (head_is (fun c => isdigit c || is_char "." c || is_char "e" c || is_char "E" c) rest).

Lemma read_digits_all s rest acc n : all_chars isdigit s = true -> head_is isdigit rest = false ->
  read_digits acc n (s +:+ rest) = (digits_value 10 acc s, n + Z.of_nat (String.length s), rest).
Proof.
  intros Hs Hr. revert acc n Hs. induction s as [|c s IH]; intros acc n Hs; cbn [String.append].
  - cbn [digits_value String.length]. rewrite Z.add_0_r. destruct rest as [|c rest]; [done|]. cbn in Hr |- *. by rewrite Hr.
  - cbn [all_chars] in Hs. apply andb_prop in Hs as [Hc Hs]. cbn [read_digits digits_value String.length]. rewrite Hc, IH by done.
    unfold digit_of. rewrite Hc. unfold isdigit in Hc. replace (code c - 48 <? 10) with true by lia.
    f_equal. f_equal. lia.
Qed.

Lemma digits_of_head fuel n acc : 0 < n < 10 ^ Z.of_nat fuel ->
  exists d s, digits_of fuel 10 n acc = String (digit_char d) s /\ 0 < d < 10.
Proof.
  revert n acc. induction fuel as [|fuel IH]; intros n acc Hn; [cbn in Hn; lia|]. cbn [digits_of].
  destruct (n / 10 =? 0) eqn:E.
  - exists (n mod 10), acc. split; [done|]. assert (n < 10) by (apply Z.eqb_eq in E; apply Z.div_small_iff in E; lia).
    rewrite Z.mod_small; lia.
  - apply IH. apply Z.eqb_neq in E. pose proof (Z.div_pos n 10 ltac:(lia) ltac:(lia)). split; [lia|].
    apply Z.div_lt_upper_bound; [lia|]. rewrite Nat2Z.inj_succ, Z.pow_succ_r in Hn by lia. lia.
Qed.

Lemma digit_char_pos d : 0 < d < 10 -> isdigit (digit_char d) = true /\ is_char "0" (digit_char d) = false.
Proof.
  intros Hd. split; [apply digit_char_digit; lia|].
  assert (d = 1 \/ d = 2 \/ d = 3 \/ d = 4 \/ d = 5 \/ d = 6 \/ d = 7 \/ d = 8 \/ d = 9) as H by lia.
  by repeat destruct H as [-> | H]; [..|subst d].
Qed.

(** What is after the sign: [parse_number] from its second line on. *)
Definition parse_unsigned (neg : bool) (num : string) : json * string :=
  let num := if head_is (is_char "0") num then tail_s num else num in
  let '(n, num) := read_integer num in
  let '(n, scale, num) := read_fraction n num in
  let '(subscale, num) := read_exponent num in
  (JNum (if neg then - n else n) (scale + subscale), num).

Lemma parse_unsigned_digits neg n rest : 0 <= n <= 2147483648 -> number_end rest = true ->
  parse_unsigned neg (unsigned_digits 10 n +:+ rest) = (JNum (if neg then - n else n) 0, rest).
Proof.
  intros Hn Hr. unfold number_end in Hr. apply negb_true_iff in Hr.
  assert (head_is isdigit rest = false /\ head_is (is_char ".") rest = false /\
          head_is (fun c => is_char "e" c || is_char "E" c) rest = false) as (H1 & H2 & H3).
  { destruct rest as [|c rest]; [done|]. cbn in Hr |- *. apply orb_false_elim in Hr as [Hr ->].
    apply orb_false_elim in Hr as [Hr ->]. by apply orb_false_elim in Hr as [-> ->]. }
  assert (forall m, (let '(n0, scale, num0) := read_fraction m rest in
     let '(subscale, num1) := read_exponent num0 in (JNum (if neg then - n0 else n0) (scale + subscale), num1))
     = (JNum (if neg then - m else m) 0, rest)) as Hend.
  { intros m. unfold read_fraction. rewrite H2. cbn [andb]. unfold read_exponent. by rewrite H3. }
  unfold parse_unsigned. cbv zeta. destruct (decide (n = 0)) as [->|Hn0].
  - change (unsigned_digits 10 0) with "0". cbn [String.append head_is tail_s].
    change (is_char "0" "0") with true. cbv iota. unfold read_integer.
    replace (head_is (fun c => isdigit c && negb (is_char "0" c)) rest) with false; [apply Hend|].
    destruct rest as [|c rest]; [done|]. cbn in H1 |- *. by rewrite H1.
  - pose proof (unsigned_digits_digits n) as Hd. pose proof (digits_value_unsigned 10 n ltac:(lia) ltac:(lia)) as Hv.
    destruct (digits_of_head 32 n "") as (d & s & E & Hd'); [cbn; lia|]. fold (unsigned_digits 10 n) in E.
    destruct (digit_char_pos d Hd') as [Hc1 Hc0]. pose proof (read_digits_all _ rest 0 0 Hd H1) as Hr'.
    rewrite Hv in Hr'. rewrite E in *. cbn [String.append head_is tail_s] in *. rewrite Hc0.
    unfold read_integer. cbn [head_is]. rewrite Hc0, Hc1. cbn [negb andb]. rewrite Hr'. apply Hend.
Qed.

Lemma parse_print_number m rest : INT_MIN <= m <= INT_MAX -> number_end rest = true ->
  parse_number (fmt_d m +:+ rest) = (JNum m 0, rest).
Proof.
  unfold INT_MIN, INT_MAX. intros Hm Hr.
  assert (forall n, pad_left 1 (unsigned_digits 10 n) = unsigned_digits 10 n) as Hp.
  { intros n. unfold pad_left. destruct (digits_of_nonempty 31 10 n "") as (c & s & E). unfold unsigned_digits. by rewrite E. }
  unfold fmt_d, fmt_d_prec. rewrite !Hp. destruct (m <? 0) eqn:E.
  - change (parse_number (String "-" (unsigned_digits 10 (- m)) +:+ rest)) with (parse_unsigned true (unsigned_digits 10 (- m) +:+ rest)).
    rewrite parse_unsigned_digits by (done || lia). by rewrite Z.opp_involutive.
  - transitivity (parse_unsigned false (unsigned_digits 10 m +:+ rest)); [|rewrite parse_unsigned_digits by (done || lia); done].
    unfold parse_number. replace (head_is (is_char "-") (unsigned_digits 10 m +:+ rest)) with false; [done|].
    pose proof (unsigned_digits_digits m) as Hd. destruct (digits_of_nonempty 31 10 m "") as (c & s & E').
    unfold unsigned_digits in *. rewrite E' in *. cbn in Hd |- *. apply andb_prop in Hd as [Hd _].
    unfold is_char. destruct (Ascii.eqb_spec c "-"); [by subst c|done].
Qed.

(** ** Trees are read back *)

Lemma json_tree_ind (P : json -> Prop) :
  P JNull -> P JFalse -> P JTrue -> (forall m e, P (JNum m e)) -> (forall s, P (JStr s)) ->
  (forall l, Forall P l -> P (JArr l)) -> (forall l, Forall (fun p => P (snd p)) l -> P (JObj l)) ->
  forall j, P j.
Proof.
  intros H1 H2 H3 H4 H5 H6 H7. fix IH 1. intros [| | |m e|s|l|l]; [done|done|done|done|done| |].
  - apply H6. induction l as [|x l IHl]; constructor; [apply IH|exact IHl].
  - apply H7. induction l as [|[k x] l IHl]; constructor; [apply IH|exact IHl].
Qed.

(** The texts of an item have no NUL, as texts of C do, and its numbers are
    of 32 bits. *)
Fixpoint printable (j : json) : bool :=
  match j with
  | JNum m e => (e =? 0) && (INT_MIN <=? m) && (m <=? INT_MAX)
  | JStr s => nul_free s
  | JArr l => forallb printable l
  | JObj l => forallb (fun p => nul_free (fst p) && printable (snd p)) l
  | _ => true
  end.

(** A value starts with no space and no bracket that ends something. *)
Definition value_start (c : ascii) : bool := (32 <? code c) && negb (is_char "]" c) && negb (is_char "}" c).

Lemma digits_start n : exists c s, unsigned_digits 10 n = String c s /\ isdigit c = true.
Proof.
  pose proof (unsigned_digits_digits n) as H. destruct (digits_of_nonempty 31 10 n "") as (c & s & E).
  unfold unsigned_digits in *. rewrite E in *. cbn in H. apply andb_prop in H as [Hc _]. eauto.
Qed.

Lemma fmt_d_start n : exists c s, fmt_d n = String c s /\ is_char "-" c || isdigit c = true.
Proof.
  unfold fmt_d, fmt_d_prec.
  assert (forall n, pad_left 1 (unsigned_digits 10 n) = unsigned_digits 10 n) as Hp.
  { intros k. unfold pad_left. destruct (digits_start k) as (c & s & -> & _). done. }
  rewrite !Hp. destruct (n <? 0); [by eexists _, _|]. destruct (digits_start n) as (c & s & -> & H).
  exists c, s. split; [done|]. by rewrite H, orb_true_r.
Qed.

(** A sign or digit starts a number and nothing else. *)
Lemma number_start c : is_char "-" c || isdigit c = true ->
  value_start c = true /\ Ascii.eqb "n" c = false /\ Ascii.eqb "f" c = false /\ Ascii.eqb "t" c = false /\
  is_char dquote c = false.
Proof. destruct c as [[] [] [] [] [] [] [] []]; vm_compute; intuition congruence. Qed.

Lemma print_value_start j depth fmt t :
  print_value j depth fmt = Some t -> exists c s, t = String c s /\ value_start c = true.
Proof.
  destruct j as [| | |m e|s|l|l]; cbn [print_value]; intros H.
  1-3: injection H as <-; by eexists _, _.
  - unfold print_number in H. destruct (_ && _); [|done]. injection H as <-.
    destruct (fmt_d_start m) as (c & s & -> & Hc). exists c, s. split; [done|]. by apply number_start.
  - injection H as <-. by eexists _, _.
  - destruct (print_items _ _ l) as [r|]; [|done]. cbn in H. injection H as <-. by eexists _, _.
  - destruct l as [|p l]; [injection H as <-; by eexists _, _|].
    destruct (print_members _ _ _ _) as [r|]; [|done]. cbn in H. injection H as <-. by eexists _, _.
Qed.

Lemma skip_start c s : value_start c = true -> skip (String c s) = String c s.
Proof. intros H. cbn. unfold value_start in H. by replace (code c <=? 32) with false by lia. Qed.

Lemma skip_value j depth fmt t rest :
  print_value j depth fmt = Some t -> skip (t +:+ rest) = t +:+ rest.
Proof. intros (c & s & -> & Hc)%print_value_start. by apply skip_start. Qed.

Lemma skip_tabs n s : skip (tabs n +:+ s) = skip s.
Proof. by induction n. Qed.
Lemma skip_newline fmt s : skip (newline fmt +:+ s) = skip s.
Proof. by destruct fmt. Qed.
Lemma skip_fmt_tabs (fmt : bool) n s : skip ((if fmt then tabs n else "") +:+ s) = skip s.
Proof. destruct fmt; [apply skip_tabs|done]. Qed.
Lemma skip_print_string k s : skip (print_string_ptr k +:+ s) = print_string_ptr k +:+ s.
Proof. done. Qed.

#[local] Opaque print_string_ptr.
#[local] Arguments tabs : simpl never.

(** [j] is read back from its text, whatever follows. *)
Definition reads_back (j : json) : Prop := forall depth fmt t,
  print_value j depth fmt = Some t ->
  exists fuel, forall rest, number_end rest = true -> parse_value fuel (t +:+ rest) = POk j rest.

Lemma items_skip fuel s s' : skip s = skip s' -> parse_items fuel s = parse_items fuel s'.
Proof. destruct fuel; [done|]. cbn [parse_items]. by intros ->. Qed.
Lemma members_skip fuel s s' : skip s = skip s' -> parse_members fuel s = parse_members fuel s'.
Proof. destruct fuel; [done|]. cbn [parse_members]. by intros ->. Qed.

Lemma items_read_back fmt depth l t : l <> [] -> Forall reads_back l ->
  print_items fmt (fun x => print_value x depth fmt) l = Some t ->
  exists fuel, forall rest, parse_items fuel (t +:+ rest) = POk l rest.
Proof.
  intros Hl HF. revert t Hl. induction HF as [|x l Hx HF IH]; [done|]. intros t _ Hp. cbn [print_items] in Hp.
  destruct (print_value x depth fmt) as [tx|] eqn:Ex; [|done]. cbn [mbind option_bind] in Hp.
  destruct (print_items fmt _ l) as [r|] eqn:El; [|done]. cbn in Hp. injection Hp as <-.
  destruct (Hx _ _ _ Ex) as [f1 H1]. destruct l as [|y l].
  - cbn in El. injection El as <-. exists (S f1). intros rest. cbn [parse_items]. rewrite !app_assoc_s.
    rewrite (skip_value _ _ _ _ _ Ex), H1 by done. done.
  - destruct (IH r ltac:(done) eq_refl) as [f2 H2]. exists (S (f1 `max` f2)). intros rest.
    cbn [parse_items]. rewrite !app_assoc_s. rewrite (skip_value _ _ _ _ _ Ex).
    assert (number_end (String "," (if fmt then " " else "") +:+ (r +:+ rest)) = true) as Hne by done.
    specialize (H1 _ Hne). rewrite (parse_value_more f1) by (lia || by rewrite H1). rewrite H1. cbn [pbind String.append].
    change (skip (String "," ?s)) with (String "," s). cbn [head_is tail_s]. change (is_char "," ",") with true. cbv iota zeta.
    rewrite (items_skip _ _ (r +:+ rest)) by (by destruct fmt).
    specialize (H2 rest). rewrite (parse_items_more f2) by (lia || by rewrite H2). by rewrite H2.
Qed.

Lemma members_read_back fmt d depth l t : l <> [] ->
  Forall (fun p => nul_free (fst p) = true /\ reads_back (snd p)) l ->
  print_members fmt d (fun x => print_value x depth fmt) l = Some t ->
  exists fuel, forall rest, parse_members fuel (t +:+ rest) = POk l rest.
Proof.
  intros Hl HF. revert t Hl. induction HF as [|[k x] l [Hk Hx] HF IH]; [done|]. intros t _ Hp. cbn [print_members fst snd] in *.
  destruct (print_value x depth fmt) as [tx|] eqn:Ex; [|done]. cbn [mbind option_bind] in Hp.
  destruct (print_members fmt d _ l) as [r|] eqn:El; [|done]. cbn [mbind option_bind] in Hp. injection Hp as <-.
  destruct (Hx _ _ _ Ex) as [f1 H1].
  assert (forall f rest, (f1 <= f)%nat -> number_end rest = true -> parse_value f (tx +:+ rest) = POk x rest) as H1'.
  { intros f rest Hf Hr. rewrite (parse_value_more f1); [by apply H1|done|by rewrite H1]. }
  assert (forall f rest, (f1 <= f)%nat -> number_end rest = true ->
    parse_members (S f) (((if fmt then tabs (S d) else "") +:+ (print_string_ptr k +:+ (String ":" ((if fmt then tabs 1 else "") +:+
          (tx +:+ rest)))))) = let r := skip rest in
          if head_is (is_char ",") r then pbind (parse_members f (tail_s r)) (fun l r => POk ((k, x) :: l) r)
          else if head_is (is_char "}") r then POk [(k, x)] (tail_s r) else PFail) as Hm.
  { intros f rest Hf Hr. cbn [parse_members]. rewrite skip_fmt_tabs, skip_print_string, parse_print_string by done.
    cbn [pbind]. change (skip (String ":" ?s)) with (String ":" s). cbn [head_is tail_s].
    change (negb (is_char ":" ":")) with false. cbv iota zeta.
    rewrite skip_fmt_tabs, (skip_value _ _ _ _ _ Ex), H1' by done. done. }
  destruct l as [|y l].
  - cbn in El. injection El as <-. exists (S f1). intros rest. repeat (rewrite !app_assoc_s; cbn [String.append]).
    rewrite Hm; [|done|by destruct fmt, d].
    cbv zeta. rewrite skip_newline, skip_fmt_tabs. done.
  - destruct (IH r ltac:(done) eq_refl) as [f2 H2]. exists (S (f1 `max` f2)). intros rest.
    repeat (rewrite !app_assoc_s; cbn [String.append]).
    rewrite Hm by (done || lia). cbv zeta. change (skip (String "," ?s)) with (String "," s). cbn [head_is tail_s].
    change (is_char "," ",") with true. cbv iota.
    rewrite (members_skip _ _ (r +:+ rest)) by apply skip_newline.
    specialize (H2 rest). rewrite (parse_members_more f2) by (lia || by rewrite H2). by rewrite H2.
Qed.

(** The first character decides what is parsed. *)
Lemma parse_value_string f w : parse_value (S f) (String dquote w) = pbind (parse_string (String dquote w)) (fun s r => POk (JStr s) r).
Proof. reflexivity. Qed.
Lemma parse_value_array f w : parse_value (S f) (String "[" w) =
  (if head_is (is_char "]") (skip w) then POk (JArr []) (tail_s (skip w))
   else pbind (parse_items f (skip w)) (fun l r => POk (JArr l) r)).
Proof. reflexivity. Qed.
Lemma parse_value_object f w : parse_value (S f) (String "{" w) =
  (if head_is (is_char "}") (skip w) then POk (JObj []) (tail_s (skip w))
   else pbind (parse_members f (skip w)) (fun l r => POk (JObj l) r)).
Proof. reflexivity. Qed.
Lemma parse_value_number f c s : is_char "-" c || isdigit c = true ->
  parse_value (S f) (String c s) = let '(n, r) := parse_number (String c s) in POk n r.
Proof.
  intros Hc. destruct (number_start c Hc) as (_ & Hn1 & Hn2 & Hn3 & Hq).
  cbn [parse_value is_prefix head_is]. by rewrite Hn1, Hn2, Hn3, Hq, Hc.
Qed.

Lemma print_items_start fmt depth x l r : print_items fmt (fun x => print_value x depth fmt) (x :: l) = Some r ->
  exists c s, r = String c s /\ value_start c = true.
Proof.
  cbn [print_items]. destruct (print_value x _ _) as [tx|] eqn:Ex; [|done]. cbn [mbind option_bind].
  destruct (print_items _ _ l) as [r'|]; [|done]. cbn [mbind option_bind].
  apply print_value_start in Ex as (c & s & -> & Hc). intros [= <-]. by eexists _, _.
Qed.

Lemma print_members_start fmt d depth k x l r :
  print_members fmt d (fun x => print_value x depth fmt) ((k, x) :: l) = Some r ->
  forall rest, exists w, skip (newline fmt +:+ (r +:+ rest)) = String dquote w.
Proof.
  cbn [print_members]. destruct (print_value x _ _) as [tx|]; [|done]. cbn [mbind option_bind].
  destruct (print_members _ _ _ l); [|done]. cbn [mbind option_bind]. intros [= <-].
  intros rest. eexists. rewrite skip_newline, app_assoc_s, skip_fmt_tabs, app_assoc_s, skip_print_string. reflexivity.
Qed.

Lemma printable_reads_back j : printable j = true -> reads_back j.
Proof.
  induction j as [| | |m e|s|l IH|l IH] using json_tree_ind; intros Hp depth fmt t Ht; cbn [print_value printable] in *.
  1-3: injection Ht as <-; exists 1%nat; done.
  - unfold print_number in Ht. rewrite Hp in Ht. injection Ht as <-.
    exists 1%nat. intros rest Hr. assert (e = 0) as -> by lia. destruct (fmt_d_start m) as (c & s & E & Hc).
    pose proof (parse_print_number m rest ltac:(lia) Hr) as Hn. rewrite E in *. cbn [String.append] in *.
    by rewrite parse_value_number, Hn.
  - injection Ht as <-. exists 1%nat. intros rest Hr. pose proof (parse_print_string s rest Hp) as Hs.
    assert (exists w, print_string_ptr s +:+ rest = String dquote w) as [w Hw] by (eexists; reflexivity).
    rewrite Hw in *. by rewrite parse_value_string, Hs.
  - destruct l as [|x l]; [cbn in Ht; injection Ht as <-; by exists 1%nat|].
    destruct (print_items _ _ _) as [r|] eqn:Er; [|done]. cbn in Ht. injection Ht as <-.
    assert (Forall reads_back (x :: l)) as HF.
    { rewrite Forall_forall in IH |- *. intros y Hy. apply IH; [done|]. rewrite forallb_forall in Hp. by apply Hp, list_elem_of_In. }
    destruct (items_read_back fmt (S depth) (x :: l) r ltac:(done) HF Er) as [f Hf]. exists (S f). intros rest _.
    destruct (print_items_start _ _ _ _ _ Er) as (c & s & -> & Hc). specialize (Hf rest). cbn [String.append] in *.
    rewrite parse_value_array, skip_start, Hf by done. unfold value_start in Hc. cbn [head_is].
    destruct (is_char "]" c); [|done]. by destruct (32 <? code c).
  - destruct l as [|[k x] l]; [cbn in Ht; injection Ht as <-; exists 1%nat; intros rest _|].
    { cbn [String.append]. rewrite parse_value_object, !app_assoc_s, skip_newline, skip_fmt_tabs. done. }
    destruct (print_members _ _ _ _) as [r|] eqn:Er; [|done]. cbn [mbind option_bind] in Ht. injection Ht as <-.
    assert (Forall (fun p => nul_free (fst p) = true /\ reads_back (snd p)) ((k, x) :: l)) as HF.
    { rewrite Forall_forall in IH |- *. intros y Hy. rewrite forallb_forall in Hp.
      pose proof (proj1 (list_elem_of_In _ _) Hy) as Hi. apply Hp, andb_prop in Hi as [? ?]. auto. }
    destruct (members_read_back fmt depth (S depth) ((k, x) :: l) r ltac:(done) HF Er) as [f Hf]. exists (S f). intros rest _.
    destruct (print_members_start _ _ _ _ _ _ _ Er rest) as [w Hw]. specialize (Hf rest).
    cbn [String.append]. rewrite parse_value_object, !app_assoc_s, Hw. cbn [head_is].
    change (is_char "}" dquote) with false. cbv iota.
    rewrite (members_skip _ _ (r +:+ rest)), Hf by (by rewrite <- (skip_newline fmt (r +:+ rest)), Hw).
    done.
Qed.

Lemma printable_prints j depth fmt : printable j = true -> exists t, print_value j depth fmt = Some t.
Proof.
  revert depth. induction j as [| | |m e|s|l IH|l IH] using json_tree_ind; intros depth Hp; cbn [print_value printable] in *; try by eexists.
  - unfold print_number. rewrite Hp. by eexists.
  - enough (exists t, print_items fmt (fun x => print_value x (S depth) fmt) l = Some t) as [t ->] by (by eexists).
    induction IH as [|x l Hx HF IHl]; [by eexists|]. cbn [forallb] in Hp. apply andb_prop in Hp as [Hp1 Hp2].
    cbn [print_items]. destruct (Hx (S depth) Hp1) as [tx ->]. cbn [mbind option_bind]. destruct (IHl Hp2) as [r ->]. by eexists.
  - enough (exists t, print_members fmt depth (fun x => print_value x (S depth) fmt) l = Some t) as [t Ht].
    { destruct l; [by eexists|]. rewrite Ht. by eexists. }
    induction IH as [|[k x] l Hx HF IHl]; [by eexists|]. cbn [forallb fst snd] in *. apply andb_prop in Hp as [Hp1 Hp2].
    apply andb_prop in Hp1 as [_ Hp1].
    cbn [print_members]. destruct (Hx (S depth) Hp1) as [tx ->]. cbn [mbind option_bind]. destruct (IHl Hp2) as [r ->]. by eexists.
Qed.

Lemma printed_parses (fmt : bool) (j : json) t : printable j = true -> print_value j 0 fmt = Some t -> cJSON_Parse t = POk j "".
Proof.
  intros Hj Ht. destruct (printable_reads_back j Hj 0%nat fmt t Ht) as [f Hf].
  specialize (Hf "" eq_refl). rewrite app_nil_r_s in Hf. unfold cJSON_Parse.
  pose proof (skip_value _ _ _ _ "" Ht) as Hs. rewrite app_nil_r_s in Hs. rewrite Hs.
  assert (parse_value (parse_fuel t) t <> PFuel) as Hn by (apply parse_enough_fuel; unfold parse_fuel; lia).
  destruct (Nat.le_ge_cases f (parse_fuel t)) as [Hle|Hle].
  - by rewrite (parse_value_more f) by (done || by rewrite Hf).
  - by rewrite <- (parse_value_more (parse_fuel t) f).
Qed.

(** C10: an item whose numbers are 32-bit integers is printed, formatted or
    not, and parsing the text gives the same item back. *)
Theorem print_parse_roundtrip (fmt : bool) (j : json) (Hj : printable j = true) :
  exists t, (if fmt then cJSON_Print j else cJSON_PrintUnformatted j) = Some t /\ cJSON_Parse t = POk j "".
Proof.
  destruct (printable_prints j 0 fmt Hj) as [t Ht]. exists t. split; [by destruct fmt|by apply (printed_parses fmt)].
Qed.

Lemma print_parse_roundtrip_witness :
  exists t, cJSON_Print (JObj [("action", JStr "dev_control"); ("list", JArr [JNum (-7) 0; JObj []; JNull])]) = Some t
  /\ cJSON_Parse t = POk (JObj [("action", JStr "dev_control"); ("list", JArr [JNum (-7) 0; JObj []; JNull])]) "".
Proof. apply (print_parse_roundtrip true). vm_compute. reflexivity. Defined.

(** ** Access to the text *)

(** What is left is a suffix: a property that passes to the tail of a text
    passes to what is left of it. *)
Section Closed.
  Context (P : string -> Prop) (HP : forall s, P s -> P (tail_s s)).

Lemma skip_closed s : P s -> P (skip s).
Proof. induction s as [|c s IH]; [done|]. cbn. intros H. destruct (code c <=? 32); [|done]. by apply IH, (HP (String c s)). Qed.

Lemma read_digits_closed s acc n : P s -> P (snd (read_digits acc n s)).
Proof.
  revert acc n. induction s as [|c s IH]; intros acc n H; cbn; [done|]. destruct (isdigit c); [|done].
  by apply IH, (HP (String c s)).
Qed.

Lemma parse_number_closed v : P v -> P (snd (parse_number v)).
Proof.
  intros H. unfold parse_number. cbv zeta. set (v1 := if head_is (is_char "-") v then _ else _).
  assert (P v1) as H1 by (subst v1; destruct (head_is _ v); auto). clearbody v1.
  set (v2 := if head_is (is_char "0") v1 then _ else _). assert (P v2) as H2 by (subst v2; destruct (head_is _ v1); auto).
  clearbody v2. assert (P (snd (read_integer v2))) as H3.
  { unfold read_integer. destruct (head_is _ v2); [|done]. pose proof (read_digits_closed v2 0 0 H2). by destruct (read_digits 0 0 v2) as [[? ?] ?]. }
  destruct (read_integer v2) as [n v3]. cbn [snd] in H3. assert (P (snd (read_fraction n v3))) as H4.
  { unfold read_fraction. destruct (_ && _); [|done]. pose proof (read_digits_closed (tail_s v3) n 0 (HP _ H3)).
    by destruct (read_digits n 0 (tail_s v3)) as [[? ?] ?]. }
  destruct (read_fraction n v3) as [[m k] v4]. cbn [snd] in H4. assert (P (snd (read_exponent v4))) as H5.
  { unfold read_exponent. destruct (head_is _ v4); [|done]. cbv zeta. set (w := if _ || _ then _ else _).
    assert (P w) as Hw by (subst w; destruct (_ || _); auto). pose proof (read_digits_closed w 0 0 Hw).
    by destruct (read_digits 0 0 w) as [[? ?] ?]. }
  by destruct (read_exponent v4).
Qed.

Lemma decode_string_closed : forall n s t r, (String.length s <= n)%nat -> P s ->
  decode_string s = Some (t, r) -> P r.
Proof.
  induction n as [|n IH]; intros s t r Hn Hs H; (destruct s as [|c s']; [by rewrite decode_string_unfold in H; simplify_eq/=|]); cbn in Hn; [lia|].
  rewrite decode_string_unfold in H. pose proof (HP _ Hs) as Hs1. cbn in Hs1.
  assert (forall a b, P (String a b) -> P b) as HP' by (intros a b; apply (HP (String a b))).
  repeat first
    [ progress simplify_eq/=
    | done
    | case_match
    | match goal with H : context[decode_string ?x ≫= _] |- _ => destruct (decode_string x) as [[? ?]|] eqn:? end ];
  match goal with H : decode_string ?x = Some (_, ?r) |- P ?r => refine (IH x _ _ _ _ H); [cbn [String.length] in *; lia|repeat first [exact Hs | apply HP' in Hs]] end.
Qed.

Lemma parse_string_closed v t r : P v -> parse_string v = POk t r -> P r.
Proof.
  unfold parse_string. intros H. destruct (negb _); [done|]. destruct (measure_string _); [|done].
  destruct (decode_string (tail_s v)) as [[t' r']|] eqn:E; [|done]. destruct (_ <=? _)%nat; [|done].
  intros [= <- <-]. exact (decode_string_closed _ _ _ _ (le_n _) (HP _ H) E).
Qed.

Lemma parse_closed fuel :
  (forall v x r, P v -> parse_value fuel v = POk x r -> P r) /\
  (forall v x r, P v -> parse_items fuel v = POk x r -> P r) /\
  (forall v x r, P v -> parse_members fuel v = POk x r -> P r).
Proof.
  induction fuel as [|fuel (IHv & IHi & IHm)]; [done|].
  split; [|split]; intros v x r Hv; cbn [parse_value parse_items parse_members].
  - do 3 (case_match; [intros [= <- <-]; auto 10|]).
    case_match; [intros (? & ? & ? & [= <- <-])%pbind_ok; eauto using parse_string_closed|].
    case_match; [pose proof (parse_number_closed v Hv); case_match; by intros [= <- <-]|].
    cbv zeta. repeat case_match; try done; first [intros [= <- <-]; by auto using skip_closed
      | intros (? & ? & ? & [= <- <-])%pbind_ok; eauto 6 using skip_closed].
  - intros (y & t & Hy & H)%pbind_ok. apply IHv in Hy; [|by apply skip_closed]. cbv zeta in H. apply skip_closed, HP in Hy.
    repeat case_match; try done; [apply pbind_ok in H as (? & ? & ? & [= <- <-]); eauto|by injection H as <- <-].
  - intros (y & t & Hy & H)%pbind_ok. apply parse_string_closed in Hy; [|by apply skip_closed]. cbv zeta in H. apply skip_closed, HP in Hy.
    case_match; [done|]. apply pbind_ok in H as (z & t' & Hz & H). apply IHv in Hz; [|by apply skip_closed].
    apply skip_closed, HP in Hz.
    repeat case_match; try done; [apply pbind_ok in H as (? & ? & ? & [= <- <-]); eauto|by injection H as <- <-].
Qed.
End Closed.

(** Every backslash has a character after it that is no [u]. *)
Fixpoint short_escapes (s : string) : bool :=
  match s with
  | String c s => (if Ascii.eqb c bslash then head_is (fun e => negb (Ascii.eqb e "u")) s else true) && short_escapes s
  | EmptyString => true
  end.

Lemma short_escapes_tail s : short_escapes s = true -> short_escapes (tail_s s) = true.
Proof. destruct s; [done|]. cbn. by intros [_ ?]%andb_prop. Qed.

Lemma short_escapes_decode : forall n s, (String.length s <= n)%nat -> short_escapes s = true ->
  exists k t r, measure_string s = Some k /\ decode_string s = Some (t, r) /\ String.length t = k.
Proof.
  induction n as [|n IH]; intros s Hn Hs; (destruct s as [|c s]; [by exists 0%nat, "", ""|]); cbn in Hn; [lia|].
  rewrite decode_string_unfold. cbn [measure_string]. destruct (Ascii.eqb c dquote); [by exists 0%nat, "", s|].
  cbn [short_escapes] in Hs. apply andb_prop in Hs as [Hc Hs]. destruct (Ascii.eqb c bslash); cbn [negb].
  - destruct s as [|e s]; [done|]. cbn [head_is] in Hc. apply negb_true_iff in Hc. rewrite Hc. cbn in Hs, Hn.
    apply andb_prop in Hs as [_ Hs]. destruct (IH s ltac:(lia) Hs) as (k & t & r & -> & -> & Hk).
    eexists _, _, _. cbn. split; [done|]. split; [done|]. cbn. by rewrite Hk.
  - destruct (IH s ltac:(lia) Hs) as (k & t & r & -> & -> & Hk).
    eexists _, _, _. cbn. split; [done|]. split; [done|]. cbn. by rewrite Hk.
Qed.

Lemma pbind_defined {A B} (r : presult A) (k : A -> string -> presult B) :
  r <> PUndef -> (forall x t, r = POk x t -> k x t <> PUndef) -> pbind r k <> PUndef.
Proof. destruct r; cbn; naive_solver. Qed.

Lemma parse_string_defined v : short_escapes v = true -> parse_string v <> PUndef.
Proof.
  intros Hv. unfold parse_string. destruct (negb _); [done|].
  destruct (short_escapes_decode _ (tail_s v) (le_n _) (short_escapes_tail _ Hv)) as (k & t & r & -> & -> & ->).
  by rewrite Nat.leb_refl.
Qed.

Lemma parse_defined fuel :
  (forall v, short_escapes v = true -> parse_value fuel v <> PUndef) /\
  (forall v, short_escapes v = true -> parse_items fuel v <> PUndef) /\
  (forall v, short_escapes v = true -> parse_members fuel v <> PUndef).
Proof.
  pose proof short_escapes_tail as HT. pose proof (skip_closed _ HT) as HS. pose proof parse_string_defined as Hstr.
  induction fuel as [|fuel (IHv & IHi & IHm)]; [done|].
  destruct (parse_closed _ HT fuel) as (Cv & _ & _).
  split; [|split]; intros v Hv; cbn [parse_value parse_items parse_members].
  - repeat first [done | case_match]; apply pbind_defined; auto.
  - apply pbind_defined; [auto|]. intros x t Ht. apply Cv in Ht; [|auto]. cbv zeta.
    repeat first [done | case_match]; apply pbind_defined; auto.
  - apply pbind_defined; [auto|]. intros k t Ht. apply (parse_string_closed _ HT) in Ht; [|auto]. cbv zeta. case_match; [done|].
    apply pbind_defined; [auto|]. intros y t' Ht'. apply Cv in Ht'; [|auto].
    repeat first [done | case_match]; apply pbind_defined; auto.
Qed.

(** C15: the parser comes to an end on every text, and when no escape is
    [\u] it stays inside the text and inside the copies it allocates. *)
Theorem parse_total_and_safe (value : string) :
  cJSON_Parse value <> PFuel /\
  (short_escapes value = true -> cJSON_Parse value <> PUndef).
Proof.
  unfold cJSON_Parse. split.
  - apply parse_enough_fuel. unfold parse_fuel. pose proof (skip_length value). lia.
  - intros H. apply parse_defined. by apply (skip_closed _ short_escapes_tail).
Qed.

Lemma parse_total_and_safe_witness : cJSON_Parse (String dquote (String bslash (String "n" "a"))) <> PUndef.
Proof. apply (parse_total_and_safe (String dquote (String bslash (String "n" "a")))). reflexivity. Defined.

Lemma decode_plain w : all_chars (fun c => negb (Ascii.eqb c dquote) && negb (Ascii.eqb c bslash)) w = true ->
  decode_string (w +:+ String dquote "") = Some (w, "").
Proof.
  induction w as [|c w IH]; [done|]. cbn [all_chars String.append]. intros [H Hw]%andb_prop.
  apply andb_prop in H as [H1 H2]. rewrite decode_string_unfold. apply negb_true_iff in H1. by rewrite H1, H2, IH.
Qed.

(** The closing quote after [\u] is taken for a digit: the copy was
    allocated for one character, and as many as the text holds are written
    behind it. *)
Theorem unicode_escape_overflows (a b c : ascii) (w : string)
    (Hw : all_chars (fun c => negb (Ascii.eqb c dquote) && negb (Ascii.eqb c bslash)) w = true)
    (Hlen : (2 <= String.length w)%nat) :
  cJSON_Parse (String dquote (String bslash (String "u" (String dquote (String a (String b (String c
    (w +:+ String dquote "")))))))) = PUndef.
Proof.
  unfold cJSON_Parse. change (skip (String dquote ?s)) with (String dquote s).
  unfold parse_fuel. rewrite Nat.add_comm. change (2 + ?n)%nat with (S (S n)). rewrite parse_value_string.
  enough (parse_string (String dquote (String bslash (String "u" (String dquote (String a (String b (String c
    (w +:+ String dquote "")))))))) = PUndef) as -> by done.
  unfold parse_string. cbn [head_is tail_s]. change (negb (is_char dquote dquote)) with false. cbv iota.
  replace (decode_string _) with (Some (w, "")); [|rewrite <- (decode_plain w Hw), (decode_string_unfold (String bslash _)); reflexivity].
  change (measure_string _) with (Some 1%nat). cbv iota beta. replace (String.length w <=? 1)%nat with false by (symmetry; apply Nat.leb_gt; lia). done.
Qed.

Lemma unicode_escape_overflows_witness :
  cJSON_Parse (String dquote (String bslash (String "u" (String dquote "abc0123456789"))) +:+ String dquote "") = PUndef.
Proof. apply (unicode_escape_overflows "a" "b" "c" "0123456789"); [vm_compute; reflexivity|cbn; lia]. Defined.
