(* ===== verification/HeapLogic.v ===== *)
(** * A separation logic for programs with a heap

    The JSON library builds and edits trees of cells that it allocates and
    frees itself.  This file has the memory such a program works on, with an
    allocator that may refuse, the assertions about a part of that memory as an
    instance of the proof mode's logic, and a weakest precondition with the
    frame rule.  The logic is linear: what an assertion does not mention is
    not there, so that a program that gives back [emp] leaks nothing. *)

From stdpp Require Import base list gmap.
From Stdlib Require Import Lia.
From iris.proofmode Require Import proofmode.
From S2P Require Import Prelude.

Section heap.
Context {C : Type}.

Abbreviation store := (gmap positive C).
Implicit Types h hf : store.

(** The allocated cells, and how the next allocations end; behind the list all
    of them succeed. *)
Record memory := mk_memory { cells : store; grants : list bool }.

Abbreviation ptr := (option positive).
Abbreviation prog := (M memory).

(** ** The operations *)

(** A new cell, or a null pointer. *)
Definition malloc (c : C) : prog ptr := fun w =>
  match grants w with
  | false :: g => Some (None, mk_memory (cells w) g)
  | g => let l := fresh (dom (cells w)) in Some (Some l, mk_memory (<[l := c]> (cells w)) (tail g))
  end.

(** A null or a dangling pointer is undefined. *)
Definition load (p : ptr) : prog C := fun w => l ← p; c ← cells w !! l; Some (c, w).
Definition store_to (p : ptr) (c : C) : prog unit := fun w =>
  l ← p; _ ← cells w !! l; Some (tt, mk_memory (<[l := c]> (cells w)) (grants w)).
Definition free (p : ptr) : prog unit := fun w =>
  l ← p; _ ← cells w !! l; Some (tt, mk_memory (delete l (cells w)) (grants w)).

(** A loop that visits every cell at most once: its fuel is their number. *)
Definition sized {A} (f : nat -> prog A) : prog A := fun w => f (S (size (cells w))) w.

(** ** Assertions *)

Record assertion := Assert { holds :> store -> Prop }.
Implicit Types P Q R : assertion.

Inductive a_equiv P Q : Prop := Equivs { same_heaps : forall h, P h <-> Q h }.
#[local] Instance assertion_equiv : Equiv assertion := a_equiv.
#[local] Instance assertion_equivalence : Equivalence (≡@{assertion}).
Proof.
  split.
  - intros P. by split.
  - intros P Q [H]. split; intros h. by rw H.
  - intros P Q R [H1] [H2]. split; intros h. by rw H1.
Qed.
#[local] Instance assertion_dist : Dist assertion := discrete_dist.
Canonical Structure assertionO : ofe := Ofe assertion (discrete_ofe_mixin assertion_equivalence).

Inductive a_entails P Q : Prop := Entails { entailed : forall h, P h -> Q h }.
Definition a_emp : assertion := Assert (fun h => h = ∅).
Definition a_pure (phi : Prop) : assertion := Assert (fun _ => phi).
Definition a_and P Q : assertion := Assert (fun h => P h /\ Q h).
Definition a_or P Q : assertion := Assert (fun h => P h \/ Q h).
Definition a_impl P Q : assertion := Assert (fun h => P h -> Q h).
Definition a_forall A (F : A -> assertion) : assertion := Assert (fun h => forall x, F x h).
Definition a_exist A (F : A -> assertion) : assertion := Assert (fun h => exists x, F x h).
Definition a_sep P Q : assertion := Assert (fun h => exists h1 h2, h = h1 ∪ h2 /\ h1 ##ₘ h2 /\ P h1 /\ Q h2).
Definition a_wand P Q : assertion := Assert (fun h => forall h', h ##ₘ h' -> P h' -> Q (h ∪ h')).
Definition a_persistently P : assertion := Assert (fun _ => P ∅).

Lemma a_bi_mixin : BiMixin a_entails a_emp a_pure a_and a_or a_impl a_forall a_exist a_sep a_wand.
Proof.
  split.
  - split; [by intros P; split|]. intros P Q R [HPQ] [HQR]. split. auto.
  - intros P Q. split; [intros [H]; split; split; intros h; apply H|]. intros [[H1] [H2]]. split; intros h. split; [apply H1|apply H2].
  - intros n phi psi H. split; intros h. exact H.
  - intros n P P' [HP] Q Q' [HQ]. split; intros h. cbn. by rw HP HQ.
  - intros n P P' [HP] Q Q' [HQ]. split; intros h. cbn. by rw HP HQ.
  - intros n P P' [HP] Q Q' [HQ]. split; intros h. cbn. by rw HP HQ.
  - intros A n F F' HF. split; intros h. cbn. split; intros H x; apply (HF x), H.
  - intros A n F F' HF. split; intros h. cbn. split; intros [x H]; exists x; apply (HF x), H.
  - intros n P P' [HP] Q Q' [HQ]. split; intros h. cbn. split; intros (h1 & h2 & E & D & H1 & H2); exists h1, h2; repeat split;
      (done || by apply HP || by apply HQ).
  - intros n P P' [HP] Q Q' [HQ]. split; intros h. cbn. split; intros H h' Hd Hp; apply HQ, H, HP; done.
  - intros phi P Hphi. by split.
  - intros phi P H. split. intros h Hphi. by apply (H Hphi).
  - intros P Q. by split; intros h [Hp Hq].
  - intros P Q. by split; intros h [Hp Hq].
  - intros P Q R [HQ] [HR]. split; intros h Hp. split; auto.
  - intros P Q. split; intros h Hp. by left.
  - intros P Q. split; intros h Hq. by right.
  - intros P Q R [HP] [HQ]. split. intros h [Hp|Hq]; auto.
  - intros P Q R [H]. split; intros h Hp Hq. by apply H.
  - intros P Q R [H]. split; intros h [Hp Hq]. by apply H.
  - intros A P F H. split; intros h Hp x. by apply (H x).
  - intros A F x. split; intros h H. apply H.
  - intros A F x. split; intros h H. by exists x.
  - intros A F Q H. split; intros h [x Hx]. by apply (H x).
  - intros P P' Q Q' [HP] [HQ]. split; intros h (h1 & h2 & E & D & H1 & H2). exists h1, h2. auto.
  - intros P. split; intros h Hp. exists ∅, h. rw map_empty_union. by repeat (split; [apply map_disjoint_empty_l || done|]).
  - intros P. split; intros h (h1 & h2 & -> & _ & -> & Hp). by rw map_empty_union.
  - intros P Q. split; intros h (h1 & h2 & -> & Hd & Hp & Hq). exists h2, h1. repeat split; [by apply map_union_comm|done|done|done].
  - intros P Q R. split; intros h (h12 & h3 & -> & Hd & (h1 & h2 & -> & Hd' & Hp & Hq) & Hr). apply map_disjoint_union_l in Hd as [Hd1 Hd2].
    exists h1, (h2 ∪ h3). rw map_union_assoc. repeat split; [by apply map_disjoint_union_r|done|]. by exists h2, h3.
  - intros P Q R [H]. split; intros h Hp h' Hd Hq. apply H. by exists h, h'.
  - intros P Q R [H]. split; intros h (h1 & h2 & -> & Hd & Hp & Hq). by apply H.
Qed.

Lemma a_persistently_mixin : BiPersistentlyMixin a_entails a_emp a_and a_exist a_sep a_persistently.
Proof.
  split.
  - intros n P Q [H]. split; intros h. apply H.
  - intros P Q [H]. split; intros h. apply H.
  - intros P. by split.
  - by split.
  - intros P Q. by split.
  - intros A F. by split.
  - intros P Q. by split; intros h (h1 & h2 & _ & _ & H & _).
  - intros P Q. split; intros h [Hp Hq]. exists ∅, h. rw map_empty_union. by repeat (split; [apply map_disjoint_empty_l || done|]).
Qed.

Lemma a_later_mixin : BiLaterMixin a_entails a_pure a_or a_impl a_forall a_exist a_sep a_persistently id.
Proof. by eapply bi_later_mixin_id, a_bi_mixin. Qed.

Canonical Structure assertionI : bi :=
  {| bi_ofe_mixin := ofe_mixin_of assertion; bi_cofe_aux := discrete_cofe assertion_equivalence;
     bi_bi_mixin := a_bi_mixin; bi_bi_persistently_mixin := a_persistently_mixin; bi_bi_later_mixin := a_later_mixin |}.

Definition a_cell (l : positive) (c : C) : assertionI := Assert (fun h => h = {[l := c]}).
End heap.

Arguments memory : clear implicits.
Arguments assertion : clear implicits.
Arguments assertionI : clear implicits.

Notation "l ↦ c" := (a_cell l c) (at level 20, format "l  ↦  c") : bi_scope.
Abbreviation ptr := (option positive).
Abbreviation prog C := (M (memory C)).

(** ** Programs *)

Section wp.
Context {C : Type}.
Implicit Types h hf : gmap positive C.
Implicit Types P Q R : assertionI C.

(** An assertion about [n] cells or more. *)
Definition at_least (n : nat) P : Prop := forall h, P h -> (n <= size h)%nat.

Lemma at_least_0 P : at_least 0 P.
Proof. intros h _. lia. Qed.

Lemma at_least_mono m n P Q : at_least m P -> (n <= m)%nat -> (Q ⊢ P) -> at_least n Q.
Proof. intros Hm Hn [HQP] h HQ. specialize (Hm h (HQP h HQ)). lia. Qed.

Lemma at_least_cell l c : at_least 1 (l ↦ c).
Proof. intros h ->. by rw map_size_singleton. Qed.

Lemma at_least_sep m n P Q : at_least m P -> at_least n Q -> at_least (m + n) (P ∗ Q).
Proof. intros HP HQ h (h1 & h2 & -> & Hd & H1 & H2). rw map_size_disj_union //. specialize (HP h1 H1). specialize (HQ h2 H2). lia. Qed.

Lemma at_least_left n P Q : at_least n P -> at_least n (P ∗ Q).
Proof. intros HP h Hh. pose proof (at_least_sep n 0 P Q HP (at_least_0 Q) h Hh). lia. Qed.

Lemma at_least_right n P Q : at_least n Q -> at_least n (P ∗ Q).
Proof. intros HQ h Hh. apply (at_least_sep 0 n P Q (at_least_0 P) HQ h Hh). Qed.

Lemma at_least_exist {A} n (F : A -> assertionI C) : (forall x, at_least n (F x)) -> at_least n (∃ x, F x).
Proof. intros HF h [x Hx]. by apply (HF x). Qed.

(** [m] runs without undefined behaviour on the cells of the assertion, leaves
    every other cell as it is, and ends with a result and cells that satisfy
    [Q].  With [u] no allocation fails; without it any of them may. *)
Definition wp {A} (u : bool) (m : prog C A) (Q : A -> assertionI C) : assertionI C := Assert (fun h =>
  forall hf g, h ##ₘ hf -> (u = true -> g = []) ->
    exists x h' g', m (mk_memory (h ∪ hf) g) = Some (x, mk_memory (h' ∪ hf) g') /\ h' ##ₘ hf /\ (u = true -> g' = []) /\ Q x h').

Section rules.
Context {A B : Type} (u : bool).
Implicit Types m : prog C A.

Lemma heap_ret (x : A) (Q : A -> assertionI C) : Q x ⊢ wp u (mret x) Q.
Proof. split; intros h HQ hf g Hd Hg. by exists x, h, g. Qed.

Lemma heap_bind m (k : A -> prog C B) (Q : B -> assertionI C) : wp u m (fun x => wp u (k x) Q) ⊢ wp u (m ≫= k) Q.
Proof.
  split; intros h H hf g Hd Hg. destruct (H hf g Hd Hg) as (x & h1 & g1 & E & Hd1 & Hg1 & H1).
  destruct (H1 hf g1 Hd1 Hg1) as (y & h2 & g2 & E2 & Hd2 & Hg2 & H2). exists y, h2, g2.
  split; [|done]. unfold mbind, M_bind. by rw E.
Qed.

Lemma wp_wand m (Q R : A -> assertionI C) : wp u m Q ⊢ (∀ x, Q x -∗ R x) -∗ wp u m R.
Proof.
  split; intros h H h' Hd' HQR hf g Hd Hg. apply map_disjoint_union_l in Hd as [Hd1 Hd2].
  destruct (H (h' ∪ hf) g) as (x & h1 & g1 & E & Hd3 & Hg1 & H1); [by apply map_disjoint_union_r|done|].
  apply map_disjoint_union_r in Hd3 as [Hd3 Hd4].
  exists x, (h' ∪ h1), g1. rw -map_union_assoc E. split; [|split; [|split; [done|]]].
  - rw !map_union_assoc. by rw (map_union_comm h1 h').
  - by apply map_disjoint_union_l.
  - by apply (HQR x h1).
Qed.

Lemma wp_lift (o : option A) x (Q : A -> assertionI C) : o = Some x -> Q x ⊢ wp u (lift o) Q.
Proof. intros ->. split; intros h HQ hf g Hd Hg. by exists x, h, g. Qed.

(** A loop that visits the cells of an assertion. *)
Lemma wp_sized (n : nat) (f : nat -> prog C A) P (Q : A -> assertionI C) :
  at_least n P -> (forall fuel, (n < fuel)%nat -> P ⊢ wp u (f fuel) Q) -> P ⊢ wp u (sized f) Q.
Proof.
  intros Hn Hf. split; intros h HP hf g Hd Hg. unfold sized. cbn [cells].
  assert (n < S (size (h ∪ hf)))%nat as Hs by (rw map_size_disj_union //; specialize (Hn h HP); lia).
  apply (entailed _ _ (Hf _ Hs) h HP hf g Hd Hg).
Qed.
End rules.

Lemma wp_load u l c (Q : C -> assertionI C) : l ↦ c ∗ (l ↦ c -∗ Q c) ⊢ wp u (load (Some l)) Q.
Proof.
  split; intros h (h1 & h2 & -> & Hd12 & -> & HQ) hf g Hd Hg. exists c, ({[l := c]} ∪ h2), g. split; [|split; [done|split; [done|]]].
  - unfold load. cbn. by rw (lookup_union_Some_l _ _ l c) // (lookup_union_Some_l _ _ l c) // lookup_singleton_eq.
  - rw map_union_comm //. by apply HQ.
Qed.

Lemma heap_store u l c c' (Q : unit -> assertionI C) : l ↦ c ∗ (l ↦ c' -∗ Q tt) ⊢ wp u (store_to (Some l) c') Q.
Proof.
  split; intros h (h1 & h2 & -> & Hd12 & -> & HQ) hf g Hd Hg. apply map_disjoint_singleton_l in Hd12.
  exists tt, ({[l := c']} ∪ h2), g. split; [|split; [|split; [done|]]].
  - unfold store_to. cbn. rw (lookup_union_Some_l _ _ l c); [|by rw lookup_union_l // lookup_singleton_eq]. cbn.
    by rw !insert_union_l insert_singleton_eq.
  - apply map_disjoint_union_l in Hd as [Hd1 Hd2]. apply map_disjoint_union_l. split; [|done].
    apply map_disjoint_singleton_l. by apply map_disjoint_singleton_l in Hd1.
  - rw map_union_comm; [|by apply map_disjoint_singleton_l]. apply HQ; [|done]. by apply map_disjoint_singleton_r.
Qed.

Lemma wp_free u l c (Q : unit -> assertionI C) : l ↦ c ∗ Q tt ⊢ wp u (free (Some l)) Q.
Proof.
  split; intros h (h1 & h2 & -> & Hd12 & -> & HQ) hf g Hd Hg. apply map_disjoint_singleton_l in Hd12.
  apply map_disjoint_union_l in Hd as [Hd1 Hd2]. apply map_disjoint_singleton_l in Hd1.
  exists tt, h2, g. split; [|done]. unfold free. cbn.
  rw (lookup_union_Some_l _ _ l c); [|by rw lookup_union_l // lookup_singleton_eq]. cbn.
  by rw !delete_union delete_singleton_eq map_empty_union (delete_id h2) // (delete_id hf).
Qed.

(** An allocation gives a cell that nobody knows, or nothing. *)
Lemma wp_malloc u c (Q : ptr -> assertionI C) :
  (∀ l, l ↦ c -∗ Q (Some l)) ∧ (⌜u = true⌝ ∨ Q None) ⊢ wp u (malloc c) Q.
Proof.
  split; intros h [HS HN] hf g Hd Hg.
  assert (forall g', (u = true -> g' = []) -> exists x h' g'', Some (Some (fresh (dom (h ∪ hf))), mk_memory (<[fresh (dom (h ∪ hf)) := c]> (h ∪ hf)) g') =
    Some (x, mk_memory (h' ∪ hf) g'') /\ h' ##ₘ hf /\ (u = true -> g'' = []) /\ Q x h') as Hok.
  { intros g' Hg'. set (l := fresh (dom (h ∪ hf))).
    assert ((h ∪ hf) !! l = None) as Hl by (apply not_elem_of_dom, is_fresh). apply lookup_union_None in Hl as [Hl1 Hl2].
    exists (Some l), (<[l := c]> h), g'. split; [by rw insert_union_l|]. split; [by apply map_disjoint_insert_l|]. split; [done|].
    rw insert_union_singleton_r //. apply (HS l {[l := c]}); [by apply map_disjoint_singleton_r|done]. }
  unfold malloc. cbn [grants cells]. destruct g as [|[|] g].
  - apply Hok. done.
  - apply Hok. intros H. specialize (Hg H). done.
  - destruct HN as [Hu|HN]; [by specialize (Hg Hu)|]. exists None, h, g. split; [done|]. split; [done|]. split; [|done].
    intros H. by specialize (Hg H).
Qed.

(** A cell is in one part only. *)
Lemma cell_unique l (c d : C) : l ↦ c ∗ l ↦ d ⊢ False.
Proof.
  split; intros h (h1 & h2 & -> & Hd & -> & ->). cbn. apply map_disjoint_singleton_l in Hd. by rw lookup_singleton_eq in Hd.
Qed.

(** What the logic proves is so in a memory that has just these cells. *)
Lemma adequate {A} u (m : prog C A) P (Q : A -> assertionI C) h g : (P ⊢ wp u m Q) -> P h -> (u = true -> g = []) ->
  exists x h' g', m (mk_memory h g) = Some (x, mk_memory h' g') /\ (u = true -> g' = []) /\ Q x h'.
Proof.
  intros HPQ HP Hg. destruct (entailed _ _ HPQ h HP ∅ g) as (x & h' & g' & E & _ & Hg' & HQ); [apply map_disjoint_empty_r|done|].
  exists x, h', g'. by rw !map_union_empty in E.
Qed.
End wp.
