(* ===== verification/CJsonEdit.v ===== *)
(** * Building and editing JSON (src/src/dev_manage/cJSON/cJSON.c)

    The functions of the JSON library that create, link, detach, replace, copy
    and free items, on the cells that the library allocates: an item is a node
    with pointers to its neighbours, to its first child and to its texts.  The
    assertions of HeapLogic.v say which cells hold which tree. *)

From stdpp Require Import base list strings gmap.
From Stdlib Require Import ZArith Lia Ascii.
From iris.proofmode Require Import proofmode.
From S2P Require Import Prelude CString CJson HeapLogic.

Open Scope Z_scope.

(** ** Items *)

(** A [double] as a decimal mantissa and exponent, as in CJson.v. *)
Abbreviation number := (Z * Z)%type.

Record node := mk_node {
  next : ptr;
  prev : ptr;
  child : ptr;
  type : Z;
  valuestring : ptr;
  valueint : Z;
  valuedouble : number;
  string_ : ptr
}.

(** What the library allocates: a [cJSON] or a text. *)
Inductive cell := CNode (n : node) | CStr (s : string).

Abbreviation heap := (prog cell).
Abbreviation hprop := (assertionI cell).

Definition cJSON_False : Z := 0.
Definition cJSON_True : Z := 1.
Definition cJSON_NULL : Z := 2.
Definition cJSON_Number : Z := 3.
Definition cJSON_String : Z := 4.
Definition cJSON_Array : Z := 5.
Definition cJSON_Object : Z := 6.
Definition cJSON_IsReference : Z := 256.

(** The functions the library allocates and frees with; a null pointer, or a
    null function, stands for those of the C library. *)
Record cJSON_Hooks (F G : Type) := mk_hooks { malloc_fn : option F; free_fn : option G }.
Arguments malloc_fn {F G}.
Arguments free_fn {F G}.

Definition cJSON_InitHooks {F G} (malloc : F) (free : G) (hooks : option (cJSON_Hooks F G)) : F * G :=
  match hooks with
  | None => (malloc, free)
  | Some hooks => (default malloc (malloc_fn hooks), default free (free_fn hooks))
  end.

Definition is_reference (type : Z) : bool := negb (Z.land type cJSON_IsReference =? 0).

(** [*p] of a node and of a text; [p->field = ...] *)
Definition get (p : ptr) : heap node := c ← load p; match c with CNode n => mret n | CStr _ => ub end.
Definition text_at (p : ptr) : heap string := c ← load p; match c with CStr s => mret s | CNode _ => ub end.
Definition update (p : ptr) (f : node -> node) : heap unit := n ← get p; store_to p (CNode (f n)).

Definition set_next q n := mk_node q (prev n) (child n) (type n) (valuestring n) (valueint n) (valuedouble n) (string_ n).
Definition set_prev q n := mk_node (next n) q (child n) (type n) (valuestring n) (valueint n) (valuedouble n) (string_ n).
Definition set_child q n := mk_node (next n) (prev n) q (type n) (valuestring n) (valueint n) (valuedouble n) (string_ n).
Definition set_type t n := mk_node (next n) (prev n) (child n) t (valuestring n) (valueint n) (valuedouble n) (string_ n).
Definition set_valuestring q n := mk_node (next n) (prev n) (child n) (type n) q (valueint n) (valuedouble n) (string_ n).
Definition set_value i d n := mk_node (next n) (prev n) (child n) (type n) (valuestring n) i d (string_ n).
Definition set_string q n := mk_node (next n) (prev n) (child n) (type n) (valuestring n) (valueint n) (valuedouble n) q.

Definition zero_node : node := mk_node None None None 0 None 0 (0, 0) None.

Definition cJSON_strdup (s : string) : heap ptr := malloc (CStr s).
Definition cJSON_New_Item : heap ptr := malloc (CNode zero_node).

Definition free_if (p : ptr) : heap unit := match p with Some _ => free p | None => mret tt end.

(** ** Freeing *)

(** The loop of [cJSON_Delete]. *)
Fixpoint delete_items (fuel : nat) (c : ptr) : heap unit :=
  match fuel with
  | O => ub
  | S fuel =>
      match c with
      | None => mret tt
      | Some _ =>
          n ← get c;
          let nxt := next n in
          _ ← (if negb (is_reference (type n)) && bool_decide (is_Some (child n)) then delete_items fuel (child n) else mret tt);
          n ← get c;
          _ ← (if negb (is_reference (type n)) then free_if (valuestring n) else mret tt);
          n ← get c;
          _ ← free_if (string_ n);
          _ ← free c;
          delete_items fuel nxt
      end
  end.

Definition cJSON_Delete (c : ptr) : heap unit := sized (fun fuel => delete_items fuel c).

(** ** Linking *)

Definition suffix_object (prev item : ptr) : heap unit := _ ← update prev (set_next item); update item (set_prev prev).

Definition create_reference (item : ptr) : heap ptr :=
  ref ← cJSON_New_Item;
  match ref with
  | None => mret None
  | Some _ =>
      n ← get item;
      _ ← update ref (fun _ => set_next None (set_prev None (set_type (Z.lor (type n) cJSON_IsReference) (set_string None n))));
      mret ref
  end.

(** [while (c && c->next) c = c->next] *)
Fixpoint last_item (fuel : nat) (c : ptr) : heap ptr :=
  match fuel with
  | O => ub
  | S fuel =>
      match c with
      | None => mret None
      | Some _ => n ← get c; match next n with Some _ => last_item fuel (next n) | None => mret c end
      end
  end.

Definition cJSON_AddItemToArray (array item : ptr) : heap unit :=
  a ← get array;
  match item with
  | None => mret tt
  | Some _ =>
      match child a with
      | None => update array (set_child item)
      | Some _ => c ← sized (fun fuel => last_item fuel (child a)); suffix_object c item
      end
  end.

Definition cJSON_AddItemToObject (object : ptr) (string : string) (item : ptr) : heap unit :=
  match item with
  | None => mret tt
  | Some _ =>
      n ← get item;
      _ ← free_if (string_ n);
      s ← cJSON_strdup string;
      _ ← update item (set_string s);
      cJSON_AddItemToArray object item
  end.

Definition cJSON_AddItemReferenceToArray (array item : ptr) : heap unit :=
  ref ← create_reference item; cJSON_AddItemToArray array ref.
Definition cJSON_AddItemReferenceToObject (object : ptr) (string : string) (item : ptr) : heap unit :=
  ref ← create_reference item; cJSON_AddItemToObject object string ref.

(** [while (c && which > 0) c = c->next, which--] *)
Fixpoint nth_item (which : nat) (c : ptr) : heap ptr :=
  match which with
  | O => mret c
  | S which => match c with None => mret None | Some _ => n ← get c; nth_item which (next n) end
  end.

Definition cJSON_DetachItemFromArray (array : ptr) (which : Z) : heap ptr :=
  a ← get array;
  c ← nth_item (Z.to_nat which) (child a);
  match c with
  | None => mret None
  | Some _ =>
      n ← get c;
      _ ← (match prev n with Some _ => update (prev n) (set_next (next n)) | None => mret tt end);
      n ← get c;
      _ ← (match next n with Some _ => update (next n) (set_prev (prev n)) | None => mret tt end);
      a ← get array;
      n ← get c;
      _ ← (if decide (c = child a) then update array (set_child (next n)) else mret tt);
      _ ← update c (fun n => set_next None (set_prev None n));
      mret c
  end.

Definition cJSON_DeleteItemFromArray (array : ptr) (which : Z) : heap unit :=
  c ← cJSON_DetachItemFromArray array which; cJSON_Delete c.

(** [while (c && cJSON_strcasecmp(c->string, string)) i++, c = c->next]: a
    missing name differs from every text. *)
Fixpoint find_item (fuel : nat) (string : string) (i : Z) (c : ptr) : heap (Z * ptr) :=
  match fuel with
  | O => ub
  | S fuel =>
      match c with
      | None => mret (i, None)
      | Some _ =>
          n ← get c;
          same ← (match string_ n with None => mret false | Some _ => s ← text_at (string_ n); mret (strcaseeq s string) end);
          if same : bool then mret (i, c) else find_item fuel string (i + 1) (next n)
      end
  end.

Definition cJSON_DetachItemFromObject (object : ptr) (string : string) : heap ptr :=
  o ← get object;
  '(i, c) ← sized (fun fuel => find_item fuel string 0 (child o));
  match c with Some _ => cJSON_DetachItemFromArray object i | None => mret None end.

Definition cJSON_DeleteItemFromObject (object : ptr) (string : string) : heap unit :=
  c ← cJSON_DetachItemFromObject object string; cJSON_Delete c.

Definition cJSON_ReplaceItemInArray (array : ptr) (which : Z) (newitem : ptr) : heap unit :=
  a ← get array;
  c ← nth_item (Z.to_nat which) (child a);
  match c with
  | None => mret tt
  | Some _ =>
      n ← get c;
      _ ← update newitem (set_next (next n));
      _ ← update newitem (set_prev (prev n));
      _ ← (match next n with Some _ => update (next n) (set_prev newitem) | None => mret tt end);
      a ← get array;
      m ← get newitem;
      _ ← (if decide (c = child a) then update array (set_child newitem) else update (prev m) (set_next newitem));
      _ ← update c (fun n => set_next None (set_prev None n));
      cJSON_Delete c
  end.

Definition cJSON_ReplaceItemInObject (object : ptr) (string : string) (newitem : ptr) : heap unit :=
  o ← get object;
  '(i, c) ← sized (fun fuel => find_item fuel string 0 (child o));
  match c with
  | Some _ =>
      s ← cJSON_strdup string;
      _ ← update newitem (set_string s);
      cJSON_ReplaceItemInArray object i newitem
  | None => mret tt
  end.

(** ** Creating *)

(** A new item of a type. *)
Definition create (t : Z) : heap ptr :=
  item ← cJSON_New_Item;
  match item with Some _ => _ ← update item (set_type t); mret item | None => mret None end.

Definition cJSON_CreateNull : heap ptr := create cJSON_NULL.
Definition cJSON_CreateTrue : heap ptr := create cJSON_True.
Definition cJSON_CreateFalse : heap ptr := create cJSON_False.
Definition cJSON_CreateBool (b : Z) : heap ptr := create (if b =? 0 then cJSON_False else cJSON_True).
Definition cJSON_CreateArray : heap ptr := create cJSON_Array.
Definition cJSON_CreateObject : heap ptr := create cJSON_Object.

(** [(int)num], undefined when the number is out of range. *)
Definition truncated (num : number) : option Z :=
  let '(m, e) := num in
  let z := if 0 <=? e then m * 10 ^ e else Z.quot m (10 ^ (- e)) in
  if (INT_MIN <=? z) && (z <=? INT_MAX) then Some z else None.

Definition cJSON_CreateNumber (num : number) : heap ptr :=
  item ← cJSON_New_Item;
  match item with
  | Some _ => _ ← update item (set_type cJSON_Number); i ← lift (truncated num); _ ← update item (set_value i num); mret item
  | None => mret None
  end.

Definition cJSON_CreateString (string : string) : heap ptr :=
  item ← cJSON_New_Item;
  match item with
  | Some _ =>
      _ ← update item (set_type cJSON_String);
      s ← cJSON_strdup string;
      _ ← update item (set_valuestring s);
      mret item
  | None => mret None
  end.

(** The loop of the functions below: [p] is the item before. *)
Fixpoint fill_array {A} (new : A -> heap ptr) (values : list A) (first : bool) (a p : ptr) : heap unit :=
  match values with
  | [] => mret tt
  | x :: values =>
      n ← new x;
      _ ← (if first then update a (set_child n) else suffix_object p n);
      fill_array new values false a n
  end.

Definition create_array {A} (new : A -> heap ptr) (values : list A) : heap ptr :=
  a ← cJSON_CreateArray;
  match a with Some _ => _ ← fill_array new values true a None; mret a | None => mret None end.

(** An [int] or a [float] becomes a [double]. *)
Definition cJSON_CreateIntArray (numbers : list Z) : heap ptr := create_array (fun z => cJSON_CreateNumber (z, 0)) numbers.
Definition cJSON_CreateDoubleArray (numbers : list number) : heap ptr := create_array cJSON_CreateNumber numbers.
Definition cJSON_CreateFloatArray (numbers : list number) : heap ptr := create_array cJSON_CreateNumber numbers.
Definition cJSON_CreateStringArray (strings : list string) : heap ptr := create_array cJSON_CreateString strings.

(** ** Copying *)

(** [newitem->field = cJSON_strdup(item->field)] when there is one; false when
    the copy has failed and the new item was freed. *)
Definition copy_text (newitem src : ptr) (set : ptr -> node -> node) : heap bool :=
  match src with
  | None => mret true
  | Some _ =>
      s ← text_at src;
      v ← cJSON_strdup s;
      _ ← update newitem (set v);
      match v with Some _ => mret true | None => _ ← cJSON_Delete newitem; mret false end
  end.

(** [cJSON_Duplicate] and its loop over the children. *)
Fixpoint duplicate (fuel : nat) (item : ptr) (recurse : bool) : heap ptr :=
  match fuel with
  | O => ub
  | S fuel =>
      match item with
      | None => mret None
      | Some _ =>
          newitem ← cJSON_New_Item;
          match newitem with
          | None => mret None
          | Some _ =>
              n ← get item;
              _ ← update newitem (fun m => set_type (Z.land (type n) (Z.lnot cJSON_IsReference)) (set_value (valueint n) (valuedouble n) m));
              ok ← copy_text newitem (valuestring n) set_valuestring;
              if negb ok then mret None
              else
                ok ← copy_text newitem (string_ n) set_string;
                if negb ok then mret None
                else if negb recurse then mret newitem
                else n ← get item; duplicate_children fuel newitem (child n) None
          end
      end
  end
with duplicate_children (fuel : nat) (newitem cptr nptr : ptr) : heap ptr :=
  match fuel with
  | O => ub
  | S fuel =>
      match cptr with
      | None => mret newitem
      | Some _ =>
          newchild ← duplicate fuel cptr true;
          match newchild with
          | None => _ ← cJSON_Delete newitem; mret None
          | Some _ =>
              _ ← (match nptr with
                   | Some _ => _ ← update nptr (set_next newchild); update newchild (set_prev nptr)
                   | None => update newitem (set_child newchild)
                   end);
              n ← get cptr;
              duplicate_children fuel newitem (next n) newchild
          end
      end
  end.

Definition cJSON_Duplicate (item : ptr) (recurse : bool) : heap ptr := sized (fun fuel => duplicate (2 * fuel) item recurse).

(** ** What the cells hold *)

(** An item with its texts and its children, or a reference, which shares the
    text and the children of another item. *)
#[warnings="-register-all"]
Inductive item :=
  | Item (ty : Z) (name text : option string) (vi : Z) (vd : number) (kids : list item)
  | Shared (ty : Z) (name : option string) (text child : ptr) (vi : Z) (vd : number).

Definition own_text (p : ptr) (s : option string) : hprop :=
  match p, s with
  | None, None => emp
  | Some l, Some s => l ↦ CStr s
  | _, _ => False
  end.

(** The list of items from [p] to the end [nx]: the item before is [pv] and
    [lst] is the last one. *)
Section segment.
Context (own : item -> positive -> ptr -> ptr -> hprop).
Fixpoint segment (ks : list item) (p pv nx lst : ptr) : hprop :=
  match ks with
  | [] => <affine> ⌜p = nx /\ lst = pv⌝
  | k :: ks => ∃ l q, <affine> ⌜p = Some l⌝ ∗ own k l q pv ∗ segment ks q (Some l) nx lst
  end.
End segment.

(** The item at [l], with the next item [nx] and the one before [pv]. *)
Fixpoint own (i : item) (l : positive) (nx pv : ptr) : hprop :=
  match i with
  | Item ty name text vi vd kids =>
      ∃ nm tx ch lst, <affine> ⌜is_reference ty = false⌝ ∗ l ↦ CNode (mk_node nx pv ch ty tx vi vd nm) ∗
        own_text nm name ∗ own_text tx text ∗ segment own kids ch None None lst
  | Shared ty name tx ch vi vd =>
      ∃ nm, <affine> ⌜is_reference ty = true⌝ ∗ l ↦ CNode (mk_node nx pv ch ty tx vi vd nm) ∗ own_text nm name
  end.

Abbreviation chain := (segment own).

(** An item by itself. *)
Definition owned (i : item) (p : ptr) : hprop := ∃ l, <affine> ⌜p = Some l⌝ ∗ own i l None None.

(** The nodes of a tree and of a list of trees. *)
Fixpoint nodes (i : item) : nat :=
  match i with
  | Item _ _ _ _ _ kids => S ((fix all ks := match ks with [] => 0 | k :: ks => nodes k + all ks end)%nat kids)
  | Shared _ _ _ _ _ _ => 1
  end.
Definition total (ks : list item) : nat := foldr (fun k n => nodes k + n)%nat 0%nat ks.

Lemma nodes_item ty name text vi vd kids : nodes (Item ty name text vi vd kids) = S (total kids).
Proof. done. Qed.

Lemma item_tree_ind (P : item -> Prop) :
  (forall ty name text vi vd kids, Forall P kids -> P (Item ty name text vi vd kids)) ->
  (forall ty name text child vi vd, P (Shared ty name text child vi vd)) -> forall i, P i.
Proof.
  intros HI HS. fix IH 1. intros [ty name text vi vd kids|]; [|apply HS]. apply HI.
  induction kids as [|k kids IHk]; constructor; [apply IH|exact IHk].
Qed.

Lemma chain_at_least ks p pv nx lst : Forall (fun k => forall l nx pv, at_least (nodes k) (own k l nx pv)) ks ->
  at_least (total ks) (chain ks p pv nx lst).
Proof.
  intros H. revert p pv. induction H as [|k ks Hk Hks IH]; intros p pv; [apply at_least_0|].
  cbn. apply at_least_exist. intros l. apply at_least_exist. intros q. by apply at_least_right, at_least_sep.
Qed.

Lemma own_at_least i l nx pv : at_least (nodes i) (own i l nx pv).
Proof.
  revert l nx pv. induction i as [ty name text vi vd kids IH|ty name tx ch vi vd] using item_tree_ind; intros l nx pv.
  - rw nodes_item. cbn. do 4 (apply at_least_exist; intros ?). apply at_least_right. apply (at_least_sep 1 (total kids)); [apply at_least_cell|].
    by apply at_least_right, at_least_right, chain_at_least.
  - cbn. apply at_least_exist. intros nm. apply at_least_right, at_least_left, at_least_cell.
Qed.

Lemma chain_total ks p pv nx lst : at_least (total ks) (chain ks p pv nx lst).
Proof. apply chain_at_least, Forall_forall. intros k _. apply own_at_least. Qed.

(** ** Rules for nodes *)

Section proofs.
Context (u : bool).

Abbreviation wpu := (wp u).

Lemma wp_get_node l n (Q : node -> hprop) : l ↦ CNode n ∗ (l ↦ CNode n -∗ Q n) ⊢ wpu (get (Some l)) Q.
Proof.
  iIntros "[Hl HQ]". unfold get. iApply heap_bind. iApply wp_load. iFrame "Hl". iIntros "Hl". iApply heap_ret. by iApply "HQ".
Qed.

Lemma wp_text l s (Q : string -> hprop) : l ↦ CStr s ∗ (l ↦ CStr s -∗ Q s) ⊢ wpu (text_at (Some l)) Q.
Proof.
  iIntros "[Hl HQ]". unfold text_at. iApply heap_bind. iApply wp_load. iFrame "Hl". iIntros "Hl". iApply heap_ret. by iApply "HQ".
Qed.

Lemma wp_update l n f (Q : unit -> hprop) : l ↦ CNode n ∗ (l ↦ CNode (f n) -∗ Q tt) ⊢ wpu (update (Some l) f) Q.
Proof.
  iIntros "[Hl HQ]". unfold update. iApply heap_bind. iApply wp_get_node. iFrame "Hl". iIntros "Hl". iApply heap_store. iFrame.
Qed.

Lemma wp_free_if p s (Q : unit -> hprop) : own_text p s ∗ Q tt ⊢ wpu (free_if p) Q.
Proof.
  iIntros "[Hp HQ]". destruct p as [l|], s as [s|]; cbn; try iDestruct "Hp" as "[]".
  - iApply wp_free. iFrame.
  - iApply heap_ret. iFrame.
Qed.

(** The node of an item, and its links. *)
Lemma own_open i l nx pv : own i l nx pv ⊢ ∃ n, <affine> ⌜next n = nx /\ prev n = pv⌝ ∗ l ↦ CNode n ∗
  (∀ nx' pv', l ↦ CNode (set_next nx' (set_prev pv' n)) -∗ own i l nx' pv').
Proof.
  destruct i as [ty name text vi vd kids|ty name tx ch vi vd]; cbn.
  - iIntros "(%nm & %tx & %ch & %lst & %Hty & Hl & Hn & Ht & Hk)". iExists _. iFrame "Hl". iSplitR; [done|].
    iIntros (nx' pv') "Hl". iExists nm, tx, ch, lst. by iFrame.
  - iIntros "(%nm & %Hty & Hl & Hn)". iExists _. iFrame "Hl". iSplitR; [done|].
    iIntros (nx' pv') "Hl". iExists nm. by iFrame.
Qed.

Lemma wp_set_next i l nx pv nx' (Q : unit -> hprop) : own i l nx pv ∗ (own i l nx' pv -∗ Q tt) ⊢ wpu (update (Some l) (set_next nx')) Q.
Proof.
  iIntros "[Hi HQ]". iDestruct (own_open with "Hi") as (n) "(%Hn & Hl & Hi)". destruct Hn as [<- <-].
  iApply wp_update. iFrame "Hl". iIntros "Hl". iApply "HQ". iApply "Hi". by destruct n.
Qed.

Lemma wp_set_prev i l nx pv pv' (Q : unit -> hprop) : own i l nx pv ∗ (own i l nx pv' -∗ Q tt) ⊢ wpu (update (Some l) (set_prev pv')) Q.
Proof.
  iIntros "[Hi HQ]". iDestruct (own_open with "Hi") as (n) "(%Hn & Hl & Hi)". destruct Hn as [<- <-].
  iApply wp_update. iFrame "Hl". iIntros "Hl". iApply "HQ". iApply "Hi". by destruct n.
Qed.

Lemma wp_unlink i l nx pv (Q : unit -> hprop) :
  own i l nx pv ∗ (own i l None None -∗ Q tt) ⊢ wpu (update (Some l) (fun n => set_next None (set_prev None n))) Q.
Proof.
  iIntros "[Hi HQ]". iDestruct (own_open with "Hi") as (n) "(%Hn & Hl & Hi)".
  iApply wp_update. iFrame "Hl". iIntros "Hl". iApply "HQ". by iApply "Hi".
Qed.

(** The links of an item are read. *)
Lemma wp_links i l nx pv (Q : node -> hprop) :
  own i l nx pv ∗ (∀ n, <affine> ⌜next n = nx /\ prev n = pv⌝ -∗ own i l nx pv -∗ Q n) ⊢ wpu (get (Some l)) Q.
Proof.
  iIntros "[Hi HQ]". iDestruct (own_open with "Hi") as (n) "(%Hn & Hl & Hi)". destruct Hn as [<- <-].
  iApply wp_get_node. iFrame "Hl". iIntros "Hl". iApply "HQ"; [done|]. iApply "Hi". by destruct n.
Qed.

(** ** Chains *)

Lemma chain_app ks1 ks2 p pv nx lst :
  chain (ks1 ++ ks2) p pv nx lst ⊣⊢ ∃ m l, chain ks1 p pv m l ∗ chain ks2 m l nx lst.
Proof.
  revert p pv. induction ks1 as [|k ks1 IH]; intros p pv; cbn.
  - iSplit; [iIntros "H"; iExists p, pv; by iFrame|]. iIntros "(%m & %l & %E & H)". destruct E as [-> ->]. iFrame.
  - iSplit.
    + iIntros "(%l & %q & -> & Hk & H)". iDestruct (IH with "H") as (m l') "[H1 H2]". iExists m, l'. iFrame "H2". iExists l, q. by iFrame.
    + iIntros "(%m & %l' & (%l & %q & -> & Hk & H1) & H2)". iExists l, q. iSplitR; [done|]. iFrame "Hk". iApply IH. iExists m, l'. iFrame.
Qed.

Lemma chain_snoc ks k p pv nx lst :
  chain (ks ++ [k]) p pv nx lst ⊣⊢ ∃ l m, <affine> ⌜lst = Some l⌝ ∗ chain ks p pv (Some l) m ∗ own k l nx m.
Proof.
  rw chain_app. cbn. iSplit.
  - iIntros "(%m & %l & H1 & (%l' & %q & -> & Hk & %E))". destruct E as [-> ->]. iExists l', l. by iFrame.
  - iIntros "(%l & %m & -> & H1 & Hk)". iExists (Some l), m. iFrame "H1". iExists l, nx. by iFrame.
Qed.

(** A chain is empty exactly when its first pointer is its end. *)
Lemma chain_null ks pv nx lst : chain ks None pv nx lst ⊢ <affine> ⌜ks = [] /\ nx = None /\ lst = pv⌝.
Proof.
  destruct ks as [|k ks]; cbn.
  - iIntros "%E". destruct E as [<- ->]. done.
  - iIntros "(%l & %q & %E & H)". done.
Qed.

Lemma own_apart i j l nx pv nx' pv' : own i l nx pv ∗ own j l nx' pv' ⊢ False.
Proof.
  iIntros "[Hi Hj]". iDestruct (own_open with "Hi") as (n) "(_ & Hi & _)". iDestruct (own_open with "Hj") as (m) "(_ & Hj & _)".
  iApply cell_unique. iFrame.
Qed.

(** ** Walks *)

Lemma wp_nth ks p pv m lst (Q : ptr -> hprop) :
  chain ks p pv m lst ∗ (chain ks p pv m lst -∗ Q m) ⊢ wpu (nth_item (length ks) p) Q.
Proof.
  revert p pv Q. induction ks as [|k ks IH]; intros p pv Q; cbn.
  - iIntros "[%E HQ]". destruct E as [-> ->]. iApply heap_ret. by iApply "HQ".
  - iIntros "[(%l & %q & -> & Hk & Hc) HQ]". iApply heap_bind. iApply wp_links. iFrame "Hk". iIntros (n) "%Hn Hk".
    destruct Hn as [-> _]. iApply IH. iFrame "Hc". iIntros "Hc". iApply "HQ". iExists l, q. by iFrame.
Qed.

Lemma wp_nth_none n (Q : ptr -> hprop) : Q None ⊢ wpu (nth_item n None) Q.
Proof. destruct n; apply heap_ret. Qed.

(** Beyond the end there is nothing. *)
Lemma wp_nth_beyond ks n p pv lst (Q : ptr -> hprop) : (length ks <= n)%nat ->
  chain ks p pv None lst ∗ (chain ks p pv None lst -∗ Q None) ⊢ wpu (nth_item n p) Q.
Proof.
  revert n p pv Q. induction ks as [|k ks IH]; intros n p pv Q Hn; cbn.
  - iIntros "[%E HQ]". destruct E as [-> ->]. iApply wp_nth_none. by iApply "HQ".
  - destruct n as [|n]; [cbn in Hn; lia|]. cbn [nth_item]. iIntros "[(%l & %q & -> & Hk & Hc) HQ]".
    iApply heap_bind. iApply wp_links. iFrame "Hk". iIntros (m) "%Hm Hk". destruct Hm as [-> _].
    iApply IH; [cbn in Hn; lia|]. iFrame "Hc". iIntros "Hc". iApply "HQ". iExists l, q. by iFrame.
Qed.

(** The links at the two ends of a chain. *)
Lemma wp_first_prev ks p pv nx lst pv' (Q : unit -> hprop) : ks <> [] ->
  chain ks p pv nx lst ∗ (chain ks p pv' nx lst -∗ Q tt) ⊢ wpu (update p (set_prev pv')) Q.
Proof.
  destruct ks as [|k ks]; [done|]. intros _. cbn. iIntros "[(%l & %q & -> & Hk & Hc) HQ]".
  iApply wp_set_prev. iFrame "Hk". iIntros "Hk". iApply "HQ". iExists l, q. by iFrame.
Qed.

Lemma wp_last_next ks p pv nx lst nx' (Q : unit -> hprop) : ks <> [] ->
  chain ks p pv nx lst ∗ (chain ks p pv nx' lst -∗ Q tt) ⊢ wpu (update lst (set_next nx')) Q.
Proof.
  destruct ks as [|ks k _] using rev_ind; [done|]. intros _. rw !chain_snoc. iIntros "[(%l & %m & -> & Hc & Hk) HQ]".
  iApply wp_set_next. iFrame "Hk". iIntros "Hk". iApply "HQ". iExists l, m. by iFrame.
Qed.

(** A chain with items has pointers at its ends. *)
Lemma chain_ends ks p pv nx lst : ks <> [] -> chain ks p pv nx lst ⊢ ⌜is_Some p /\ is_Some lst⌝.
Proof.
  intros Hks. iIntros "Hc". iSplit.
  - destruct ks as [|k ks]; [done|]. cbn. iDestruct "Hc" as (l q) "(-> & Hc)". iPureIntro. by exists l.
  - destruct ks as [|ks k _] using rev_ind; [done|]. rw chain_snoc. iDestruct "Hc" as (l m) "(-> & Hc)". iPureIntro. by exists l.
Qed.

(** The node of an item with children. *)
Lemma own_array ty name text vi vd kids l nx pv : own (Item ty name text vi vd kids) l nx pv ⊣⊢
  ∃ n lst, <affine> ⌜next n = nx /\ prev n = pv /\ type n = ty /\ valueint n = vi /\ valuedouble n = vd /\ is_reference ty = false⌝ ∗
    l ↦ CNode n ∗ own_text (string_ n) name ∗ own_text (valuestring n) text ∗ chain kids (child n) None None lst.
Proof.
  cbn. iSplit.
  - iIntros "(%nm & %tx & %ch & %lst & %Hty & Hl & Hn & Ht & Hk)". iExists _, lst. iFrame "Hl". by iFrame.
  - iIntros "(%n & %lst & %E & Hl & Hn & Ht & Hk)". destruct n, E as (E1 & E2 & E3 & E4 & E5 & Hty). cbn in *. subst.
    iExists _, _, _, lst. by iFrame.
Qed.

(** The item after a removed or a new one gets its link back. *)
Lemma wp_relink ks q pv lst pv' (Q : unit -> hprop) :
  chain ks q pv None lst ∗ (∀ lst', chain ks q pv' None lst' -∗ Q tt) ⊢
  wpu (match q with Some _ => update q (set_prev pv') | None => mret tt end) Q.
Proof.
  iIntros "[Hc HQ]". destruct (decide (ks = [])) as [->|Hks].
  - cbn. iDestruct "Hc" as %[-> ->]. iApply heap_ret. by iApply ("HQ" $! pv').
  - iDestruct (chain_ends with "Hc") as %[[l' ->] _]; [done|]. iApply wp_first_prev; [done|]. iFrame "Hc". iIntros "Hc". by iApply "HQ".
Qed.

(** Of two chains' first items, a later one is not the first. *)
Lemma chain_first_apart ks p pv nx lst k l nx' pv' : ks <> [] ->
  chain ks p pv nx lst ∗ own k l nx' pv' ⊢ ⌜Some l <> p⌝.
Proof.
  destruct ks as [|k0 ks]; [done|]. intros _. cbn. iIntros "[(%l0 & %q & -> & Hk0 & Hc) Hk]".
  destruct (decide (l0 = l)) as [->|Hne]; [|iPureIntro; congruence]. iDestruct (own_apart with "[$Hk0 $Hk]") as "[]".
Qed.

Lemma wp_detach ty name text vi vd ks1 k ks2 a nx pv (Q : ptr -> hprop) :
  own (Item ty name text vi vd (ks1 ++ k :: ks2)) a nx pv ∗
    (∀ l, own k l None None -∗ own (Item ty name text vi vd (ks1 ++ ks2)) a nx pv -∗ Q (Some l)) ⊢
  wpu (cJSON_DetachItemFromArray (Some a) (Z.of_nat (length ks1))) Q.
Proof.
  rw {1}own_array. iIntros "[(%n & %lst & %E & Ha & Hn & Ht & Hc) HQ]". rw chain_app. iDestruct "Hc" as (m lm) "[Hc1 Hc2]".
  cbn [segment]. iDestruct "Hc2" as (l q) "(-> & Hk & Hc2)".
  unfold cJSON_DetachItemFromArray. rw Nat2Z.id. iApply heap_bind. iApply wp_get_node. iFrame "Ha". iIntros "Ha".
  iApply heap_bind. iApply wp_nth. iFrame "Hc1". iIntros "Hc1". iApply heap_bind. iApply wp_links. iFrame "Hk". iIntros (c) "%Hc Hk".
  destruct Hc as [-> ->]. iApply heap_bind. destruct (decide (ks1 = [])) as [->|Hks].
  - cbn [segment]. iDestruct "Hc1" as %[Hch ->]. iApply heap_ret.
    iApply heap_bind. iApply wp_links. iFrame "Hk". iIntros (c') "%Hc Hk". destruct Hc as [-> ->].
    iApply heap_bind. iApply wp_relink. iFrame "Hc2". iIntros (lst') "Hc2".
    iApply heap_bind. iApply wp_get_node. iFrame "Ha". iIntros "Ha".
    iApply heap_bind. iApply wp_links. iFrame "Hk". iIntros (c'') "%Hc Hk". destruct Hc as [-> _].
    rw decide_True; [|done]. iApply heap_bind. iApply wp_update. iFrame "Ha". iIntros "Ha".
    iApply heap_bind. iApply wp_unlink. iFrame "Hk". iIntros "Hk". iApply heap_ret. iApply ("HQ" with "Hk").
    iApply own_array. iExists (set_child q n), lst'. by iFrame.
  - iDestruct (chain_ends with "Hc1") as %[_ [l0 ->]]; [done|].
    iApply wp_last_next; [done|]. iFrame "Hc1". iIntros "Hc1".
    iApply heap_bind. iApply wp_links. iFrame "Hk". iIntros (c') "%Hc Hk". destruct Hc as [-> ->].
    iApply heap_bind. iApply wp_relink. iFrame "Hc2". iIntros (lst') "Hc2".
    iApply heap_bind. iApply wp_get_node. iFrame "Ha". iIntros "Ha".
    iApply heap_bind. iApply wp_links. iFrame "Hk". iIntros (c'') "%Hc Hk". destruct Hc as [-> _].
    iDestruct (chain_first_apart with "[$Hc1 $Hk]") as %Hne; [done|]. rw decide_False; [|done]. iApply heap_bind. iApply heap_ret.
    iApply heap_bind. iApply wp_unlink. iFrame "Hk". iIntros "Hk". iApply heap_ret. iApply ("HQ" with "Hk").
    iApply own_array. iExists n, lst'. iFrame "Ha Hn Ht". iSplitR; [done|]. rw chain_app. iExists q, (Some l0). iFrame.
Qed.

(** No item at this place. *)
Lemma wp_detach_beyond ty name text vi vd ks a nx pv which (Q : ptr -> hprop) : Z.of_nat (length ks) <= which ->
  own (Item ty name text vi vd ks) a nx pv ∗ (own (Item ty name text vi vd ks) a nx pv -∗ Q None) ⊢
  wpu (cJSON_DetachItemFromArray (Some a) which) Q.
Proof.
  intros Hw. rw {1}own_array. iIntros "[(%n & %lst & %E & Ha & Hn & Ht & Hc) HQ]".
  unfold cJSON_DetachItemFromArray. iApply heap_bind. iApply wp_get_node. iFrame "Ha". iIntros "Ha".
  iApply heap_bind. iApply (wp_nth_beyond ks); [lia|]. iFrame "Hc". iIntros "Hc". iApply heap_ret. iApply "HQ". iApply own_array. iExists n, lst. by iFrame.
Qed.

(** ** Freeing *)

Lemma wp_delete_items fuel ks p pv lst (Q : unit -> hprop) : (total ks < fuel)%nat ->
  chain ks p pv None lst ∗ Q tt ⊢ wpu (delete_items fuel p) Q.
Proof.
  revert ks p pv lst Q. induction fuel as [|fuel IH]; intros ks p pv lst Q Hf; [lia|]. cbn [delete_items].
  destruct ks as [|k ks]; cbn [segment].
  { iIntros "[%E HQ]". destruct E as [-> ->]. by iApply heap_ret. }
  change (total (k :: ks)) with (nodes k + total ks)%nat in Hf. iIntros "[(%l & %q & -> & Hk & Hc) HQ]". destruct k as [ty name text vi vd kids|ty name tx ch vi vd].
  - rw nodes_item in Hf. cbn [own]. iDestruct "Hk" as (nm tx ch lst') "(%Hty & Hl & Hn & Ht & Hkids)".
    assert (forall R : hprop, chain kids ch None None lst' ∗ R ⊢ wpu (if bool_decide (is_Some ch) then delete_items fuel ch else mret tt) (fun _ => R)) as Hkids.
    { intros R. case_bool_decide as Hch; [apply (IH kids ch None lst' (fun _ => R)); lia|]. destruct ch; [destruct Hch; eauto|]. iIntros "[Hkids HR]".
      iDestruct (chain_null with "Hkids") as "_". by iApply heap_ret. }
    iApply heap_bind. iApply wp_get_node. iFrame "Hl". iIntros "Hl". cbn [type next child]. rw Hty. cbn [negb andb].
    iApply heap_bind. iApply Hkids. iFrame "Hkids".
    iApply heap_bind. iApply wp_get_node. iFrame "Hl". iIntros "Hl". cbn [type valuestring]. rw Hty. cbn [negb].
    iApply heap_bind. iApply wp_free_if. iFrame "Ht". iApply heap_bind. iApply wp_get_node. iFrame "Hl". iIntros "Hl". cbn [string_].
    iApply heap_bind. iApply wp_free_if. iFrame "Hn". iApply heap_bind. iApply wp_free. iFrame "Hl".
    iApply (IH ks q (Some l) lst); [lia|]. iFrame.
  - cbn [own]. iDestruct "Hk" as (nm) "(%Hty & Hl & Hn)".
    iApply heap_bind. iApply wp_get_node. iFrame "Hl". iIntros "Hl". cbn [type next]. rw Hty. cbn [negb andb].
    iApply heap_bind. iApply heap_ret. iApply heap_bind. iApply wp_get_node. iFrame "Hl". iIntros "Hl". cbn [type]. rw Hty. cbn [negb].
    iApply heap_bind. iApply heap_ret. iApply heap_bind. iApply wp_get_node. iFrame "Hl". iIntros "Hl". cbn [string_].
    iApply heap_bind. iApply wp_free_if. iFrame "Hn". iApply heap_bind. iApply wp_free. iFrame "Hl".
    iApply (IH ks q (Some l) lst); [cbn [nodes] in Hf; lia|]. iFrame.
Qed.

(** [cJSON_Delete] frees exactly the cells of the item. *)
Lemma wp_Delete i p (Q : unit -> hprop) : owned i p ∗ Q tt ⊢ wpu (cJSON_Delete p) Q.
Proof.
  unfold cJSON_Delete. apply (wp_sized _ (nodes i)).
  - apply at_least_left. unfold owned. apply at_least_exist. intros l. apply at_least_right, own_at_least.
  - intros fuel Hf. iIntros "[(%l & -> & Hi) HQ]". iApply (wp_delete_items _ [i] _ None (Some l)); [cbn; lia|]. iFrame "HQ".
    cbn. iExists l, None. by iFrame.
Qed.

Lemma wp_Delete_null (Q : unit -> hprop) : Q tt ⊢ wpu (cJSON_Delete None) Q.
Proof.
  unfold cJSON_Delete. apply (wp_sized _ 0); [apply at_least_0|]. intros fuel Hf. destruct fuel as [|fuel]; [lia|]. apply heap_ret.
Qed.

(** ** Linking *)

Lemma total_length ks : (length ks <= total ks)%nat.
Proof. induction ks as [|k ks IH]; [done|]. change (total (k :: ks)) with (nodes k + total ks)%nat. cbn [length]. assert (1 <= nodes k)%nat by (destruct k; cbn; lia). lia. Qed.

Lemma wp_last_item fuel ks p pv lst (Q : ptr -> hprop) : ks <> [] -> (length ks < fuel)%nat ->
  chain ks p pv None lst ∗ (chain ks p pv None lst -∗ Q lst) ⊢ wpu (last_item fuel p) Q.
Proof.
  revert ks p pv Q. induction fuel as [|fuel IH]; intros ks p pv Q Hks Hf; [lia|]. cbn [last_item].
  destruct ks as [|k ks]; [done|]. cbn [segment]. iIntros "[(%l & %q & -> & Hk & Hc) HQ]".
  iApply heap_bind. iApply wp_links. iFrame "Hk". iIntros (n) "%Hn Hk". destruct Hn as [-> _].
  destruct (decide (ks = [])) as [->|Hks'].
  - cbn [segment]. iDestruct "Hc" as %[-> ->]. iApply heap_ret. iApply "HQ". iExists l, None. by iFrame.
  - iDestruct (chain_ends with "Hc") as %[[l' ->] _]; [done|]. iApply (IH ks); [done|cbn in Hf; lia|]. iFrame "Hc". iIntros "Hc".
    iApply "HQ". iExists l, (Some l'). by iFrame.
Qed.

Lemma wp_last ks p pv lst (Q : ptr -> hprop) : ks <> [] ->
  chain ks p pv None lst ∗ (chain ks p pv None lst -∗ Q lst) ⊢ wpu (sized (fun fuel => last_item fuel p)) Q.
Proof.
  intros Hks. apply (wp_sized _ (total ks)); [apply at_least_left, chain_total|]. intros fuel Hf.
  apply wp_last_item; [done|]. pose proof (total_length ks). lia.
Qed.

Lemma wp_add ty name text vi vd ks i a nx pv p (Q : unit -> hprop) :
  own (Item ty name text vi vd ks) a nx pv ∗ owned i p ∗ (own (Item ty name text vi vd (ks ++ [i])) a nx pv -∗ Q tt) ⊢
  wpu (cJSON_AddItemToArray (Some a) p) Q.
Proof.
  rw {1}own_array. iIntros "((%n & %lst & %E & Ha & Hn & Ht & Hc) & (%l & -> & Hi) & HQ)".
  unfold cJSON_AddItemToArray. iApply heap_bind. iApply wp_get_node. iFrame "Ha". iIntros "Ha". destruct (decide (ks = [])) as [->|Hks].
  - cbn [segment]. iDestruct "Hc" as %[-> ->]. iApply wp_update. iFrame "Ha". iIntros "Ha". iApply "HQ".
    iApply own_array. iExists (set_child (Some l) n), (Some l). iFrame "Ha Hn Ht". iSplitR; [done|]. cbn. iExists l, None. by iFrame.
  - iDestruct (chain_ends with "Hc") as %[[l' Hch] [l0 ->]]; [done|]. rw Hch. iApply heap_bind. iApply wp_last; [done|]. iFrame "Hc".
    iIntros "Hc". unfold suffix_object. iApply heap_bind. iApply wp_last_next; [done|]. iFrame "Hc". iIntros "Hc".
    iApply wp_set_prev. iFrame "Hi". iIntros "Hi". iApply "HQ". iApply own_array. iExists n, (Some l). rw Hch. iFrame "Ha Hn Ht".
    iSplitR; [done|]. iApply chain_snoc. iExists l, (Some l0). by iFrame.
Qed.

(** Nothing happens without an item. *)
Lemma wp_add_null ty name text vi vd ks a nx pv (Q : unit -> hprop) :
  own (Item ty name text vi vd ks) a nx pv ∗ (own (Item ty name text vi vd ks) a nx pv -∗ Q tt) ⊢
  wpu (cJSON_AddItemToArray (Some a) None) Q.
Proof.
  iIntros "[Ha HQ]". unfold cJSON_AddItemToArray. iApply heap_bind. iApply wp_links. iFrame "Ha". iIntros (n) "_ Ha".
  iApply heap_ret. by iApply "HQ".
Qed.

(** The name of an item. *)
Definition set_name (name : option string) (i : item) : item :=
  match i with
  | Item ty _ text vi vd kids => Item ty name text vi vd kids
  | Shared ty _ text child vi vd => Shared ty name text child vi vd
  end.
Definition name_of (i : item) : option string := match i with Item _ name _ _ _ _ | Shared _ name _ _ _ _ => name end.

Lemma own_named i l nx pv : own i l nx pv ⊢ ∃ n, <affine> ⌜next n = nx /\ prev n = pv⌝ ∗ l ↦ CNode n ∗ own_text (string_ n) (name_of i) ∗
  (∀ p name, l ↦ CNode (set_string p n) -∗ own_text p name -∗ own (set_name name i) l nx pv).
Proof.
  destruct i as [ty name text vi vd kids|ty name tx ch vi vd]; cbn.
  - iIntros "(%nm & %tx & %ch & %lst & %Hty & Hl & Hn & Ht & Hk)". iExists _. iFrame "Hl". iSplitR; [done|]. iFrame "Hn".
    iIntros (p name') "Hl Hn". iExists p, tx, ch, lst. by iFrame.
  - iIntros "(%nm & %Hty & Hl & Hn)". iExists _. iFrame "Hl". iSplitR; [done|]. iFrame "Hn".
    iIntros (p name') "Hl Hn". iExists p. by iFrame.
Qed.

(** A copy of a text, when there is memory for it. *)
Lemma wp_strdup s (Q : ptr -> hprop) :
  (∀ p c, <affine> ⌜c = Some s \/ u = false /\ c = None⌝ -∗ own_text p c -∗ Q p) ⊢ wpu (cJSON_strdup s) Q.
Proof.
  iIntros "HQ". iApply wp_malloc. iSplit.
  - iIntros (l) "Hl". iApply ("HQ" $! (Some l) (Some s)); [by eauto|iFrame].
  - destruct u; [by iLeft|iRight]. iApply ("HQ" $! None None); [by eauto|done].
Qed.

Lemma wp_add_to_object ty name text vi vd ks i a nx pv p string (Q : unit -> hprop) :
  own (Item ty name text vi vd ks) a nx pv ∗ owned i p ∗
    (∀ c, <affine> ⌜c = Some string \/ u = false /\ c = None⌝ -∗ own (Item ty name text vi vd (ks ++ [set_name c i])) a nx pv -∗ Q tt) ⊢
  wpu (cJSON_AddItemToObject (Some a) string p) Q.
Proof.
  iIntros "(Ha & (%l & -> & Hi) & HQ)". iDestruct (own_named with "Hi") as (n) "(%Hn & Hl & Hs & Hi)".
  unfold cJSON_AddItemToObject. iApply heap_bind. iApply wp_get_node. iFrame "Hl". iIntros "Hl".
  iApply heap_bind. iApply wp_free_if. iFrame "Hs". iApply heap_bind. iApply wp_strdup. iIntros (q c) "%Hc Hq".
  iApply heap_bind. iApply wp_update. iFrame "Hl". iIntros "Hl". iApply (wp_add _ _ _ _ _ _ (set_name c i)). iFrame "Ha".
  iSplitL "Hi Hl Hq"; [iExists l; iSplitR; [done|]; iApply ("Hi" with "Hl Hq")|]. by iApply "HQ".
Qed.

(** ** Finding by name *)

Definition has_name (string : string) (i : item) : bool :=
  match name_of i with Some n => strcaseeq n string | None => false end.

Fixpoint position (string : string) (ks : list item) : option nat :=
  match ks with
  | [] => None
  | k :: ks => if has_name string k then Some 0%nat else n ← position string ks; Some (S n)
  end.

Lemma position_split string ks n : position string ks = Some n ->
  exists ks1 k ks2, ks = ks1 ++ k :: ks2 /\ length ks1 = n.
Proof.
  revert n. induction ks as [|k ks IH]; intros n; [done|]. cbn. destruct (has_name string k).
  - intros [= <-]. by exists [], k, ks.
  - destruct (position string ks) as [m|]; [|done]. intros [= <-]. destruct (IH m) as (ks1 & k' & ks2 & -> & Hn); [done|].
    exists (k :: ks1), k', ks2. cbn. by rw Hn.
Qed.

Definition found (string : string) (i : Z) (ks : list item) (r : Z * ptr) : Prop :=
  match position string ks with Some n => fst r = i + Z.of_nat n /\ is_Some (snd r) | None => snd r = None end.

Lemma wp_find_item string fuel ks i p pv lst (Q : Z * ptr -> hprop) : (length ks < fuel)%nat ->
  chain ks p pv None lst ∗ (∀ r, <affine> ⌜found string i ks r⌝ -∗ chain ks p pv None lst -∗ Q r) ⊢ wpu (find_item fuel string i p) Q.
Proof.
  revert ks i p pv Q. induction fuel as [|fuel IH]; intros ks i p pv Q Hf; [lia|]. cbn [find_item].
  destruct ks as [|k ks]; cbn [segment].
  { iIntros "[%E HQ]". destruct E as [-> ->]. iApply heap_ret. by iApply "HQ". }
  iIntros "[(%l & %q & -> & Hk & Hc) HQ]". iDestruct (own_named with "Hk") as (n) "(%Hn & Hl & Hs & Hk)". destruct Hn as [Hnx Hpv].
  iApply heap_bind. iApply wp_get_node. iFrame "Hl". iIntros "Hl". iApply heap_bind.
  iAssert (wpu (match string_ n with None => mret false | Some _ => s ← text_at (string_ n); mret (strcaseeq s string) end)
    (fun b => <affine> ⌜b = has_name string k⌝ ∗ own_text (string_ n) (name_of k))%I) with "[Hs]" as "Hb".
  { unfold has_name. destruct (string_ n) as [ls|], (name_of k) as [nm|]; cbn [own_text]; try iDestruct "Hs" as "[]".
    - iApply heap_bind. iApply wp_text. iFrame "Hs". iIntros "Hs". iApply heap_ret. by iFrame.
    - iApply heap_ret. by iFrame. }
  iApply (wp_wand with "Hb"). iIntros (b) "[-> Hs]".
  iAssert (own k l q pv) with "[Hk Hl Hs]" as "Hk".
  { iSpecialize ("Hk" $! (string_ n) (name_of k) with "[Hl] Hs"); [by destruct n|]. by destruct k. }
  unfold found. cbn [position]. destruct (has_name string k).
  - iApply heap_ret. iApply "HQ"; [iPureIntro; split; [cbn; lia|eauto]|]. iExists l, q. by iFrame.
  - rw Hnx. iApply (IH ks); [cbn in Hf; lia|]. iFrame "Hc". iIntros (r) "%Hr Hc". iApply "HQ".
    + iPureIntro. unfold found in Hr. destruct (position string ks) as [m|]; cbn; [|done]. destruct Hr as [-> Hr]. split; [lia|done].
    + iExists l, q. by iFrame.
Qed.

Lemma wp_find string ks i p pv lst (Q : Z * ptr -> hprop) :
  chain ks p pv None lst ∗ (∀ r, <affine> ⌜found string i ks r⌝ -∗ chain ks p pv None lst -∗ Q r) ⊢
  wpu (sized (fun fuel => find_item fuel string i p)) Q.
Proof.
  apply (wp_sized _ (total ks)); [apply at_least_left, chain_total|]. intros fuel Hf.
  apply wp_find_item. pose proof (total_length ks). lia.
Qed.

(** ** Replacing *)

Lemma wp_replace ty name text vi vd ks1 k ks2 i a nx pv p (Q : unit -> hprop) :
  own (Item ty name text vi vd (ks1 ++ k :: ks2)) a nx pv ∗ owned i p ∗
    (own (Item ty name text vi vd (ks1 ++ i :: ks2)) a nx pv -∗ Q tt) ⊢
  wpu (cJSON_ReplaceItemInArray (Some a) (Z.of_nat (length ks1)) p) Q.
Proof.
  rw {1}own_array. iIntros "((%n & %lst & %E & Ha & Hn & Ht & Hc) & (%l' & -> & Hi) & HQ)". rw chain_app. iDestruct "Hc" as (m lm) "[Hc1 Hc2]".
  cbn [segment]. iDestruct "Hc2" as (l q) "(-> & Hk & Hc2)".
  unfold cJSON_ReplaceItemInArray. rw Nat2Z.id. iApply heap_bind. iApply wp_get_node. iFrame "Ha". iIntros "Ha".
  iApply heap_bind. iApply wp_nth. iFrame "Hc1". iIntros "Hc1". iApply heap_bind. iApply wp_links. iFrame "Hk". iIntros (c) "%Hc Hk".
  destruct Hc as [-> ->]. iApply heap_bind. iApply wp_set_next. iFrame "Hi". iIntros "Hi".
  iApply heap_bind. iApply wp_set_prev. iFrame "Hi". iIntros "Hi". iApply heap_bind. iApply wp_relink. iFrame "Hc2". iIntros (lst') "Hc2".
  iApply heap_bind. iApply wp_get_node. iFrame "Ha". iIntros "Ha". iApply heap_bind. iApply wp_links. iFrame "Hi". iIntros (c') "%Hc Hi".
  destruct Hc as [_ ->]. iApply heap_bind. destruct (decide (ks1 = [])) as [->|Hks].
  - cbn [segment]. iDestruct "Hc1" as %[Hch ->]. rw decide_True; [|done]. iApply wp_update. iFrame "Ha". iIntros "Ha".
    iApply heap_bind. iApply wp_unlink. iFrame "Hk". iIntros "Hk". iApply (wp_Delete k). iSplitL "Hk"; [iExists l; by iFrame|].
    iApply "HQ". iApply own_array. iExists (set_child (Some l') n), lst'. iFrame "Ha Hn Ht". iSplitR; [done|]. cbn. iExists l', q. by iFrame.
  - iDestruct (chain_ends with "Hc1") as %[_ [l0 ->]]; [done|]. iDestruct (chain_first_apart with "[$Hc1 $Hk]") as %Hne; [done|].
    rw decide_False; [|done]. iApply wp_last_next; [done|]. iFrame "Hc1". iIntros "Hc1".
    iApply heap_bind. iApply wp_unlink. iFrame "Hk". iIntros "Hk". iApply (wp_Delete k). iSplitL "Hk"; [iExists l; by iFrame|].
    iApply "HQ". iApply own_array. iExists n, lst'. iFrame "Ha Hn Ht". iSplitR; [done|]. rw chain_app.
    iExists (Some l'), (Some l0). iFrame "Hc1". cbn. iExists l', q. by iFrame.
Qed.

(** ** Creating *)

(** A new item, or a null pointer when there was no memory. *)
Definition made (i : item) (p : ptr) : hprop :=
  match p with Some l => own i l None None | None => <affine> ⌜u = false⌝ end.

Definition leaf (ty : Z) (text : option string) (vi : Z) (vd : number) : item := Item ty None text vi vd [].

(** The node of a leaf. *)
Lemma own_leaf l n : l ↦ CNode n -∗ <affine> ⌜next n = None /\ prev n = None /\ child n = None /\ string_ n = None /\ is_reference (type n) = false⌝ -∗
  ∀ text, own_text (valuestring n) text -∗ own (leaf (type n) text (valueint n) (valuedouble n)) l None None.
Proof.
  iIntros "Hl %E" (text) "Ht". destruct n, E as (E1 & E2 & E3 & E4 & E5). cbn in *. subst. iExists None, _, None, None. by iFrame.
Qed.

Lemma wp_New_Item (Q : ptr -> hprop) :
  (∀ l, l ↦ CNode zero_node -∗ Q (Some l)) ∧ (<affine> ⌜u = false⌝ -∗ Q None) ⊢ wpu cJSON_New_Item Q.
Proof.
  iIntros "HQ". iApply wp_malloc. iSplit; [by iDestruct "HQ" as "[HQ _]"|]. iDestruct "HQ" as "[_ HQ]".
  destruct u; [by iLeft|iRight]. by iApply "HQ".
Qed.

Lemma wp_create t (Q : ptr -> hprop) : is_reference t = false ->
  (∀ p, made (leaf t None 0 (0, 0)) p -∗ Q p) ⊢ wpu (create t) Q.
Proof.
  intros Ht. iIntros "HQ". unfold create. iApply heap_bind. iApply wp_New_Item. iSplit.
  - iIntros (l) "Hl". iApply heap_bind. iApply wp_update. iFrame "Hl". iIntros "Hl". iApply heap_ret. iApply "HQ".
    by iApply (own_leaf with "Hl").
  - iIntros "%Hu". iApply heap_ret. by iApply ("HQ" $! None).
Qed.

Lemma wp_CreateNumber num z (Q : ptr -> hprop) : truncated num = Some z ->
  (∀ p, made (leaf cJSON_Number None z num) p -∗ Q p) ⊢ wpu (cJSON_CreateNumber num) Q.
Proof.
  intros Hz. iIntros "HQ". unfold cJSON_CreateNumber. iApply heap_bind. iApply wp_New_Item. iSplit.
  - iIntros (l) "Hl". iApply heap_bind. iApply wp_update. iFrame "Hl". iIntros "Hl". iApply heap_bind. iApply (wp_lift _ _ z); [done|].
    iApply heap_bind. iApply wp_update. iFrame "Hl". iIntros "Hl". iApply heap_ret. iApply "HQ". by iApply (own_leaf with "Hl").
  - iIntros "%Hu". iApply heap_ret. by iApply ("HQ" $! None).
Qed.

Lemma wp_CreateString s (Q : ptr -> hprop) :
  (∀ p c, <affine> ⌜c = Some s \/ u = false /\ c = None⌝ -∗ made (leaf cJSON_String c 0 (0, 0)) p -∗ Q p) ⊢ wpu (cJSON_CreateString s) Q.
Proof.
  iIntros "HQ". unfold cJSON_CreateString. iApply heap_bind. iApply wp_New_Item. iSplit.
  - iIntros (l) "Hl". iApply heap_bind. iApply wp_update. iFrame "Hl". iIntros "Hl". iApply heap_bind. iApply wp_strdup. iIntros (q c) "%Hc Hq".
    iApply heap_bind. iApply wp_update. iFrame "Hl". iIntros "Hl". iApply heap_ret. iApply ("HQ" $! (Some l) c); [done|].
    iApply (own_leaf with "Hl"); done.
  - iIntros "%Hu". iApply heap_ret. by iApply ("HQ" $! None None with "[] []"); eauto.
Qed.

(** ** Copying *)

Lemma wp_copied s (Q : ptr -> hprop) :
  (∀ p, match p with Some l => l ↦ CStr s | None => <affine> ⌜u = false⌝ end -∗ Q p) ⊢ wpu (cJSON_strdup s) Q.
Proof.
  iIntros "HQ". iApply wp_malloc. iSplit; [iIntros (l) "Hl"; by iApply ("HQ" $! (Some l))|].
  destruct u; [by iLeft|iRight]. by iApply ("HQ" $! None).
Qed.

(** A text of a new item is set, or the item is freed again.  [with_text s] is
    the item with the text. *)
Lemma wp_copy_text (set : ptr -> node -> node) (with_text : option string -> item) a tx text (Q : bool -> hprop) :
  (own (with_text None) a None None ⊢ ∃ n, a ↦ CNode n ∗ ∀ p c, a ↦ CNode (set p n) -∗ own_text p c -∗ own (with_text c) a None None) ->
  own (with_text None) a None None ∗ own_text tx text ∗
    (∀ ok : bool, (if ok then own (with_text text) a None None else <affine> ⌜u = false⌝) -∗ own_text tx text -∗ Q ok) ⊢
  wpu (copy_text (Some a) tx set) Q.
Proof.
  intros Hopen. iIntros "(Ha & Ht & HQ)". unfold copy_text. destruct tx as [lt|], text as [text|]; cbn [own_text]; try iDestruct "Ht" as "[]".
  - iApply heap_bind. iApply wp_text. iFrame "Ht". iIntros "Ht". iApply heap_bind. iApply wp_copied. iIntros (q) "Hq".
    iDestruct (Hopen with "Ha") as (n) "[Hl Ha]". iApply heap_bind. iApply wp_update. iFrame "Hl". iIntros "Hl". destruct q as [q|].
    + iApply heap_ret. iApply ("HQ" $! true with "[Ha Hl Hq] Ht"). iApply ("Ha" $! (Some q) (Some text) with "Hl Hq").
    + iDestruct "Hq" as %Hu. iApply heap_bind. iApply (wp_Delete (with_text None)). iSplitL "Ha Hl".
      * iExists a. iSplitR; [done|]. by iApply ("Ha" $! None None with "Hl").
      * iApply heap_ret. by iApply ("HQ" $! false with "[] Ht").
  - iApply heap_ret. iApply ("HQ" $! true with "Ha Ht").
Qed.

Lemma open_valuestring ty name vi vd kids a : own (Item ty name None vi vd kids) a None None ⊢
  ∃ n, a ↦ CNode n ∗ ∀ p c, a ↦ CNode (set_valuestring p n) -∗ own_text p c -∗ own (Item ty name c vi vd kids) a None None.
Proof.
  cbn. iIntros "(%nm & %tx & %ch & %lst & %Hty & Hl & Hn & Ht & Hk)". destruct tx; [done|]. iDestruct "Ht" as "_". iExists _. iFrame "Hl".
  iIntros (p c) "Hl Ht". iExists nm, p, ch, lst. by iFrame.
Qed.

Lemma open_name ty text vi vd kids a : own (Item ty None text vi vd kids) a None None ⊢
  ∃ n, a ↦ CNode n ∗ ∀ p c, a ↦ CNode (set_string p n) -∗ own_text p c -∗ own (Item ty c text vi vd kids) a None None.
Proof.
  cbn. iIntros "(%nm & %tx & %ch & %lst & %Hty & Hl & Hn & Ht & Hk)". destruct nm; [done|]. iDestruct "Hn" as "_". iExists _. iFrame "Hl".
  iIntros (p c) "Hl Hn". iExists p, tx, ch, lst. by iFrame.
Qed.

(** No item of the tree is a reference. *)
Fixpoint plain (i : item) : bool :=
  match i with
  | Item _ _ _ _ _ kids => forallb plain kids
  | Shared _ _ _ _ _ _ => false
  end.

Lemma type_copied ty : is_reference ty = false -> Z.land ty (Z.lnot cJSON_IsReference) = ty.
Proof.
  unfold is_reference, cJSON_IsReference. intros H%negb_false_iff%Z.eqb_eq. apply Z.bits_inj'. intros n Hn.
  rw Z.land_spec Z.lnot_spec //. assert (Z.testbit (Z.land ty 256) n = false) as Hb by (rw H; apply Z.bits_0).
  rw Z.land_spec in Hb. destruct (Z.testbit ty n); [|done]. cbn in *. by rw Hb.
Qed.

(** [cJSON_Duplicate] of a tree, and the loop over children: [done] are copied. *)
Definition duplicates (fuel : nat) : Prop := forall i l nx pv (Q : ptr -> hprop), (2 * nodes i <= fuel)%nat -> plain i = true ->
  own i l nx pv ∗ (∀ p, made i p -∗ own i l nx pv -∗ Q p) ⊢ wpu (duplicate fuel (Some l) true) Q.

Definition duplicates_all (fuel : nat) : Prop := forall ks done_ a n ty name text vi vd cptr pv nptr lst (Q : ptr -> hprop),
  (2 * total ks + 1 <= fuel)%nat -> forallb plain ks = true ->
  next n = None /\ prev n = None /\ type n = ty /\ valueint n = vi /\ valuedouble n = vd /\ is_reference ty = false ->
  a ↦ CNode n ∗ own_text (string_ n) name ∗ own_text (valuestring n) text ∗ chain done_ (child n) None None nptr ∗
    chain ks cptr pv None lst ∗ (∀ p, made (Item ty name text vi vd (done_ ++ ks)) p -∗ chain ks cptr pv None lst -∗ Q p) ⊢
  wpu (duplicate_children fuel (Some a) cptr nptr) Q.

Lemma duplicate_step fuel : duplicates_all fuel -> duplicates (S fuel).
Proof.
  intros IH i l nx pv Q Hf Hp. destruct i as [ty name text vi vd kids|]; [|done]. rw nodes_item in Hf. cbn [plain] in Hp.
  cbn [duplicate own]. iIntros "[(%nm & %tx & %ch & %lst & %Hty & Hl & Hn & Ht & Hk) HQ]".
  iApply heap_bind. iApply wp_New_Item. iSplit.
  2: { iIntros "%Hu". iApply heap_ret. iApply ("HQ" $! None with "[//]"). iExists nm, tx, ch, lst. by iFrame. }
  iIntros (a) "Ha". iApply heap_bind. iApply wp_get_node. iFrame "Hl". iIntros "Hl". cbn [type valueint valuedouble valuestring string_ child].
  iApply heap_bind. iApply wp_update. iFrame "Ha". iIntros "Ha". rw type_copied //.
  iAssert (own (Item ty None None vi vd []) a None None) with "[Ha]" as "Ha"; [iExists None, None, None, None; by iFrame|].
  iApply heap_bind. iApply (wp_copy_text set_valuestring (fun c => Item ty None c vi vd [])); [apply open_valuestring|]. iFrame "Ha Ht".
  iIntros (ok) "Ha Ht". destruct ok; cbn [negb].
  2: { iDestruct "Ha" as %Hu. iApply heap_ret. iApply ("HQ" $! None with "[//]"). iExists nm, tx, ch, lst. by iFrame. }
  iApply heap_bind. iApply (wp_copy_text set_string (fun c => Item ty c text vi vd [])); [apply open_name|]. iFrame "Ha Hn".
  iIntros (ok) "Ha Hn". destruct ok; cbn [negb].
  2: { iDestruct "Ha" as %Hu. iApply heap_ret. iApply ("HQ" $! None with "[//]"). iExists nm, tx, ch, lst. by iFrame. }
  iApply heap_bind. iApply wp_get_node. iFrame "Hl". iIntros "Hl". cbn [child].
  rw own_array. iDestruct "Ha" as (n lst') "(%E & Ha & Han & Hat & Hc)".
  cbn [segment]. iDestruct "Hc" as %[Hch ->]. iApply (IH kids [] a n); [lia|done|done|]. iFrame "Ha Han Hat Hk". iSplitR; [done|].
  cbn [app]. iIntros (p) "Hp Hk".
  iApply ("HQ" with "Hp"). iExists nm, tx, ch, lst. by iFrame.
Qed.

Lemma duplicates_all_step fuel : duplicates fuel -> duplicates_all fuel -> duplicates_all (S fuel).
Proof.
  intros IHd IH ks done_ a n ty name text vi vd cptr pv nptr lst Q Hf Hp E. cbn [duplicate_children].
  iIntros "(Ha & Hn & Ht & Hd & Hk & HQ)". destruct ks as [|k ks].
  { cbn [segment]. iDestruct "Hk" as %[-> ->]. iApply heap_ret. iApply ("HQ" $! (Some a) with "[-]"); [|done].
    rw app_nil_r. iApply own_array. iExists n, nptr. by iFrame. }
  change (total (k :: ks)) with (nodes k + total ks)%nat in Hf. cbn [forallb] in Hp. apply andb_prop in Hp as [Hpk Hpks].
  assert (1 <= nodes k)%nat by (destruct k; cbn; lia).
  cbn [segment]. iDestruct "Hk" as (l q) "(-> & Hk & Hks)". iApply heap_bind. iApply (IHd k); [lia|done|]. iFrame "Hk".
  iIntros (nc) "Hnc Hk". destruct nc as [l'|].
  2: { iDestruct "Hnc" as %Hu. iApply heap_bind. iApply (wp_Delete (Item ty name text vi vd done_)). iSplitL "Ha Hn Ht Hd".
    - iExists a. iSplitR; [done|]. iApply own_array. iExists n, nptr. by iFrame.
    - iApply heap_ret. iApply ("HQ" $! None with "[//]"). iExists l, q. by iFrame. }
  cbn [made]. iApply heap_bind. destruct (decide (done_ = [])) as [->|Hd].
  - cbn [segment]. iDestruct "Hd" as %[Hch ->]. iApply wp_update. iFrame "Ha". iIntros "Ha".
    iApply heap_bind. iApply wp_links. iFrame "Hk". iIntros (m) "%Hm Hk". destruct Hm as [-> _].
    iApply (IH ks [k] a (set_child (Some l') n)); [lia|done|done|]. iFrame "Ha Hn Ht Hks". iSplitL "Hnc"; [cbn; iExists l', None; by iFrame|].
    iIntros (p) "Hp Hks". iApply ("HQ" with "Hp"). iExists l, q. by iFrame.
  - iDestruct (chain_ends with "Hd") as %[_ [l0 ->]]; [done|]. iApply heap_bind. iApply wp_last_next; [done|]. iFrame "Hd". iIntros "Hd".
    iApply wp_set_prev. iFrame "Hnc". iIntros "Hnc". iApply heap_bind. iApply wp_links. iFrame "Hk". iIntros (m) "%Hm Hk". destruct Hm as [-> _].
    iApply (IH ks (done_ ++ [k]) a n); [lia|done|done|]. iFrame "Ha Hn Ht Hks".
    iSplitL "Hd Hnc"; [iApply chain_snoc; iExists l', (Some l0); by iFrame|]. rw -app_assoc. cbn [app].
    iIntros (p) "Hp Hks". iApply ("HQ" with "Hp"). iExists l, q. by iFrame.
Qed.

Lemma duplicate_spec fuel : duplicates fuel /\ duplicates_all fuel.
Proof.
  induction fuel as [|fuel [IH1 IH2]].
  - split; intros i; intros; [destruct i; cbn in *; lia|lia].
  - split; [by apply duplicate_step|by apply duplicates_all_step].
Qed.

Lemma wp_Duplicate i l nx pv (Q : ptr -> hprop) : plain i = true ->
  own i l nx pv ∗ (∀ p, made i p -∗ own i l nx pv -∗ Q p) ⊢ wpu (cJSON_Duplicate (Some l) true) Q.
Proof.
  intros Hp. unfold cJSON_Duplicate. apply (wp_sized _ (nodes i)); [apply at_least_left, own_at_least|]. intros fuel Hf.
  apply duplicate_spec; [lia|done].
Qed.

(** ** By name *)

Lemma wp_detach_named ty name text vi vd ks a nx pv string (Q : ptr -> hprop) :
  own (Item ty name text vi vd ks) a nx pv ∗
    match position string ks with
    | Some n => ∀ ks1 k ks2 l, <affine> ⌜ks = ks1 ++ k :: ks2 /\ length ks1 = n⌝ -∗
        own k l None None -∗ own (Item ty name text vi vd (ks1 ++ ks2)) a nx pv -∗ Q (Some l)
    | None => own (Item ty name text vi vd ks) a nx pv -∗ Q None
    end ⊢
  wpu (cJSON_DetachItemFromObject (Some a) string) Q.
Proof.
  rw {1}own_array. iIntros "[(%n & %lst & %E & Ha & Hn & Ht & Hc) HQ]". unfold cJSON_DetachItemFromObject.
  iApply heap_bind. iApply wp_get_node. iFrame "Ha". iIntros "Ha". iApply heap_bind. iApply wp_find. iFrame "Hc". iIntros ([i c]) "%Hr Hc".
  unfold found in Hr. destruct (position string ks) as [m|] eqn:Em; cbn [fst snd] in Hr.
  - destruct Hr as [-> [l0 ->]]. destruct (position_split _ _ _ Em) as (ks1 & k & ks2 & -> & <-).
    rw Z.add_0_l. iApply wp_detach. iSplitL "Ha Hn Ht Hc"; [iApply own_array; iExists n, lst; by iFrame|].
    iIntros (l) "Hk Ha". iApply ("HQ" $! ks1 k ks2 l with "[//] Hk Ha").
  - subst c. iApply heap_ret. iApply "HQ". iApply own_array. iExists n, lst. by iFrame.
Qed.

Lemma wp_replace_named ty name text vi vd ks1 k ks2 i a nx pv p string (Q : unit -> hprop) :
  position string (ks1 ++ k :: ks2) = Some (length ks1) -> name_of i = None ->
  own (Item ty name text vi vd (ks1 ++ k :: ks2)) a nx pv ∗ owned i p ∗
    (∀ c, <affine> ⌜c = Some string \/ u = false /\ c = None⌝ -∗ own (Item ty name text vi vd (ks1 ++ set_name c i :: ks2)) a nx pv -∗ Q tt) ⊢
  wpu (cJSON_ReplaceItemInObject (Some a) string p) Q.
Proof.
  intros Hpos Hname. rw {1}own_array. iIntros "((%n & %lst & %E & Ha & Hn & Ht & Hc) & (%l & -> & Hi) & HQ)". unfold cJSON_ReplaceItemInObject.
  iApply heap_bind. iApply wp_get_node. iFrame "Ha". iIntros "Ha". iApply heap_bind. iApply wp_find. iFrame "Hc". iIntros ([j c]) "%Hr Hc".
  unfold found in Hr. rw Hpos in Hr. cbn [fst snd] in Hr. destruct Hr as [-> [l0 ->]]. rw Z.add_0_l.
  iDestruct (own_named with "Hi") as (m) "(_ & Hl & Hs & Hi)". rw Hname. iApply heap_bind. iApply wp_strdup. iIntros (q c) "%Hq Hq".
  iApply heap_bind. iApply wp_update. iFrame "Hl". iIntros "Hl".
  iApply (wp_replace _ _ _ _ _ ks1 k ks2 (set_name c i)). iSplitL "Ha Hn Ht Hc"; [iApply own_array; iExists n, lst; by iFrame|].
  iSplitR "HQ"; [|by iApply "HQ"]. destruct (string_ m); [done|]. iDestruct "Hs" as "_". iExists l. iSplitR; [done|]. iApply ("Hi" with "Hl Hq").
Qed.

(** ** References *)

Lemma reference_type ty : is_reference (Z.lor ty cJSON_IsReference) = true.
Proof.
  unfold is_reference, cJSON_IsReference. apply negb_true_iff, Z.eqb_neq. intros H.
  assert (Z.testbit (Z.land (Z.lor ty 256) 256) 8 = false) as Hb by (by rw H).
  by rw Z.land_spec Z.lor_spec orb_true_r in Hb.
Qed.

(** A reference leaves the item as it is and shares its text and children. *)
Lemma wp_create_reference i l nx pv (Q : ptr -> hprop) :
  own i l nx pv ∗ (∀ r ty tx ch vi vd, made (Shared (Z.lor ty cJSON_IsReference) None tx ch vi vd) r -∗ own i l nx pv -∗ Q r) ⊢
  wpu (create_reference (Some l)) Q.
Proof.
  iIntros "[Hi HQ]". unfold create_reference. iApply heap_bind. iApply wp_New_Item. iSplit.
  - iIntros (r) "Hr". iDestruct (own_open with "Hi") as (n) "(%Hn & Hl & Hi)". iApply heap_bind. iApply wp_get_node. iFrame "Hl". iIntros "Hl".
    iApply heap_bind. iApply wp_update. iFrame "Hr". iIntros "Hr". iApply heap_ret.
    iApply ("HQ" $! (Some r) (type n) (valuestring n) (child n) (valueint n) (valuedouble n) with "[Hr] [Hl Hi]").
    + iExists None. iFrame. by rw reference_type.
    + iApply "Hi". destruct Hn as [<- <-]. by destruct n.
  - iIntros "%Hu". iApply heap_ret. by iApply ("HQ" $! None 0 None None 0 (0, 0) with "[] Hi").
Qed.
End proofs.
