(* ===== verification/CJsonEditProps.v ===== *)
(** * What edits of JSON do (src/src/dev_manage/cJSON/cJSON.c)

    Sequences of the editing functions of CJsonEdit.v on one array or object,
    the arrays of numbers and texts, and copies: the tree afterwards, with
    nothing lost and nothing freed twice. *)

From stdpp Require Import base list strings gmap.
From Stdlib Require Import ZArith Lia Ascii.
From iris.proofmode Require Import proofmode.
From S2P Require Import Prelude CString CJson HeapLogic CJsonEdit.

Open Scope Z_scope.

(** ** Values *)

Inductive value := VNull | VBool (b : Z) | VNumber (z : Z) | VString (s : string) | VNumbers (l : list Z).

Definition new_value (v : value) : heap ptr :=
  match v with
  | VNull => cJSON_CreateNull
  | VBool b => cJSON_CreateBool b
  | VNumber z => cJSON_CreateNumber (z, 0)
  | VString s => cJSON_CreateString s
  | VNumbers l => cJSON_CreateIntArray l
  end.

Definition number_item (z : Z) : item := leaf cJSON_Number None z (z, 0).

Definition item_of (v : value) : item :=
  match v with
  | VNull => leaf cJSON_NULL None 0 (0, 0)
  | VBool b => leaf (if b =? 0 then cJSON_False else cJSON_True) None 0 (0, 0)
  | VNumber z => number_item z
  | VString s => leaf cJSON_String (Some s) 0 (0, 0)
  | VNumbers l => Item cJSON_Array None None 0 (0, 0) (number_item <$> l)
  end.

Definition int_range (z : Z) : Prop := INT_MIN <= z <= INT_MAX.
Definition value_ok (v : value) : Prop :=
  match v with VNumber z => int_range z | VNumbers l => Forall int_range l | _ => True end.

Lemma truncated_int z : int_range z -> truncated (z, 0) = Some z.
Proof.
  intros [H1 H2]. unfold truncated. change (0 <=? 0) with true. cbv iota. change (10 ^ 0) with 1. rw Z.mul_1_r.
  by replace ((INT_MIN <=? z) && (z <=? INT_MAX)) with true by lia.
Qed.

(** ** Arrays of numbers, without failing allocations *)

Section arrays.
Context {A : Type} (new : A -> heap ptr) (mk : A -> item) (ok : A -> Prop).
Hypothesis (Hnew : forall x (Q : ptr -> hprop), ok x -> (∀ p, made true (mk x) p -∗ Q p) ⊢ wp true (new x) Q).

Lemma wp_new x (Q : ptr -> hprop) : ok x -> (∀ l, own (mk x) l None None -∗ Q (Some l)) ⊢ wp true (new x) Q.
Proof.
  intros Hx. iIntros "HQ". iApply Hnew; [done|]. iIntros (p) "Hp". destruct p as [l|]; cbn [made]; [by iApply "HQ"|]. by iDestruct "Hp" as %Hu.
Qed.

Lemma wp_fill values ks ch a p (Q : unit -> hprop) : Forall ok values -> ks <> [] ->
  segment own ks ch None None p ∗ (∀ p', segment own (ks ++ (mk <$> values)) ch None None p' -∗ Q tt) ⊢
  wp true (fill_array new values false a p) Q.
Proof.
  intros Hok. revert ks p. induction Hok as [|x values Hx Hok IH]; intros ks p Hks; cbn [fill_array fmap list_fmap].
  - rw app_nil_r. iIntros "[Hc HQ]". iApply heap_ret. by iApply "HQ".
  - iIntros "[Hc HQ]". iApply heap_bind. iApply wp_new; [done|]. iIntros (l) "Hl".
    iDestruct (chain_ends with "Hc") as %[_ [l0 ->]]; [done|].
    iApply heap_bind. unfold suffix_object. iApply heap_bind. iApply wp_last_next; [done|]. iFrame "Hc". iIntros "Hc".
    iApply wp_set_prev. iFrame "Hl". iIntros "Hl". iApply (IH (ks ++ [mk x])); [by destruct ks|]. rw -app_assoc. iFrame "HQ".
    iApply chain_snoc. iExists l, (Some l0). by iFrame.
Qed.

Lemma wp_create_array values (Q : ptr -> hprop) : Forall ok values ->
  (∀ p, made true (Item cJSON_Array None None 0 (0, 0) (mk <$> values)) p -∗ Q p) ⊢ wp true (create_array new values) Q.
Proof.
  intros Hok. iIntros "HQ". unfold create_array. iApply heap_bind. iApply wp_create; [done|]. iIntros (p) "Hp".
  destruct p as [a|]; cbn [made]; [|by iDestruct "Hp" as %Hu]. destruct Hok as [|x values Hx Hok]; cbn [fill_array].
  { iApply heap_bind. iApply heap_ret. iApply heap_ret. by iApply ("HQ" $! (Some a)). }
  iApply heap_bind. iApply heap_bind. iApply wp_new; [done|]. iIntros (l) "Hl". unfold leaf. rw own_array. iDestruct "Hp" as (n lst) "(%E & Ha & Hn & Ht & Hc)".
  cbn [segment]. iDestruct "Hc" as %[Hch ->]. iApply heap_bind. iApply wp_update. iFrame "Ha". iIntros "Ha".
  iApply (wp_fill values [mk x]); [done|done|]. iSplitL "Hl"; [cbn; iExists l, None; by iFrame|]. iIntros (p') "Hc". iApply heap_ret.
  iApply ("HQ" $! (Some a)). iApply own_array. iExists (set_child (Some l) n), p'. by iFrame.
Qed.
End arrays.

Lemma wp_new_value v (Q : ptr -> hprop) : value_ok v -> (∀ l, own (item_of v) l None None -∗ Q (Some l)) ⊢ wp true (new_value v) Q.
Proof.
  intros Hv. iIntros "HQ". iAssert (∀ p, made true (item_of v) p -∗ Q p)%I with "[HQ]" as "HQ".
  { iIntros (p) "Hp". destruct p as [l|]; cbn [made]; [by iApply "HQ"|]. by iDestruct "Hp" as %Hu. }
  destruct v as [|b|z|s|l]; cbn [new_value item_of value_ok] in *.
  - by iApply wp_create.
  - iApply wp_create; [by destruct (b =? 0)|done].
  - iApply wp_CreateNumber; [by apply truncated_int|done].
  - iApply wp_CreateString. iIntros (p c) "%Hc". destruct Hc as [->|[? _]]; [iApply "HQ"|done].
  - iApply (wp_create_array _ number_item int_range); [|done|done]. intros z Q' Hz. apply wp_CreateNumber. by apply truncated_int.
Qed.

(** ** Sequences of edits *)

Inductive edit :=
  | Append (v : value)
  | AppendNamed (name : string) (v : value)
  | Remove (which : Z)
  | RemoveNamed (name : string)
  | Replace (which : Z) (v : value)
  | ReplaceNamed (name : string) (v : value).

(** The calls of a client of the library on the array or object [a]. *)
Definition run_edit (a : ptr) (e : edit) : heap unit :=
  match e with
  | Append v => i ← new_value v; cJSON_AddItemToArray a i
  | AppendNamed name v => i ← new_value v; cJSON_AddItemToObject a name i
  | Remove which => cJSON_DeleteItemFromArray a which
  | RemoveNamed name => cJSON_DeleteItemFromObject a name
  | Replace which v => i ← new_value v; cJSON_ReplaceItemInArray a which i
  | ReplaceNamed name v => i ← new_value v; cJSON_ReplaceItemInObject a name i
  end.

Definition run_edits (a : ptr) (l : list edit) : heap unit := mfor l (run_edit a).

(** What they do to the list of children: an index below 0 counts as 0, what
    is not there is not removed, and cannot be replaced (the new item would be
    lost). *)
Definition edit_spec (e : edit) (ks : list item) : option (list item) :=
  match e with
  | Append v => Some (ks ++ [item_of v])
  | AppendNamed name v => Some (ks ++ [set_name (Some name) (item_of v)])
  | Remove which => Some (delete (Z.to_nat which) ks)
  | RemoveNamed name => Some (match position name ks with Some n => delete n ks | None => ks end)
  | Replace which v => if decide (Z.to_nat which < length ks)%nat then Some (<[Z.to_nat which := item_of v]> ks) else None
  | ReplaceNamed name v => n ← position name ks; Some (<[n := set_name (Some name) (item_of v)]> ks)
  end.

Fixpoint edits_spec (l : list edit) (ks : list item) : option (list item) :=
  match l with [] => Some ks | e :: l => ks ← edit_spec e ks; edits_spec l ks end.

Definition edit_ok (e : edit) : Prop :=
  match e with Append v | AppendNamed _ v | Replace _ v | ReplaceNamed _ v => value_ok v | _ => True end.

Lemma detach_index a which : cJSON_DetachItemFromArray a which = cJSON_DetachItemFromArray a (Z.of_nat (Z.to_nat which)).
Proof. unfold cJSON_DetachItemFromArray. by rw Nat2Z.id. Qed.

Lemma replace_index a which p : cJSON_ReplaceItemInArray a which p = cJSON_ReplaceItemInArray a (Z.of_nat (Z.to_nat which)) p.
Proof. unfold cJSON_ReplaceItemInArray. by rw Nat2Z.id. Qed.

(** A place of a list. *)
Lemma split_at (ks : list item) n : (n < length ks)%nat -> exists ks1 k ks2, ks = ks1 ++ k :: ks2 /\ length ks1 = n.
Proof.
  intros Hn. destruct (lookup_lt_is_Some_2 ks n Hn) as [k Hk]. exists (take n ks), k, (drop (S n) ks).
  split; [by symmetry; apply take_drop_middle|]. rw length_take. lia.
Qed.

Lemma delete_split (ks1 : list item) k ks2 : delete (length ks1) (ks1 ++ k :: ks2) = ks1 ++ ks2.
Proof. by rw delete_middle. Qed.

Lemma insert_split (ks1 : list item) k i ks2 : <[length ks1 := i]> (ks1 ++ k :: ks2) = ks1 ++ i :: ks2.
Proof. by rw insert_app_r_alt // Nat.sub_diag. Qed.

Lemma delete_beyond (ks : list item) n : (length ks <= n)%nat -> delete n ks = ks.
Proof. revert n. induction ks as [|k ks IH]; intros [|n] Hn; cbn in *; [done|done|lia|]. by rw IH; [|lia]. Qed.

Section session.
Context (ty : Z) (name text : option string) (vi : Z) (vd : number) (a : positive) (nx pv : ptr).

Abbreviation root ks := (own (Item ty name text vi vd ks) a nx pv).

Lemma wp_edit e ks ks' (Q : unit -> hprop) : edit_ok e -> edit_spec e ks = Some ks' ->
  root ks ∗ (root ks' -∗ Q tt) ⊢ wp true (run_edit (Some a) e) Q.
Proof.
  intros Hok Hs. iIntros "[Ha HQ]". destruct e as [v|nm v|which|nm|which v|nm v]; cbn [run_edit edit_spec edit_ok] in *.
  - injection Hs as <-. iApply heap_bind. iApply wp_new_value; [done|]. iIntros (l) "Hl". iApply (wp_add _ _ _ _ _ _ _ (item_of v)). iFrame "Ha HQ".
    iExists l. by iFrame.
  - injection Hs as <-. iApply heap_bind. iApply wp_new_value; [done|]. iIntros (l) "Hl". iApply (wp_add_to_object _ _ _ _ _ _ _ (item_of v)).
    iFrame "Ha". iSplitL "Hl"; [iExists l; by iFrame|]. iIntros (c) "%Hc". destruct Hc as [->|[? _]]; done.
  - injection Hs as <-. unfold cJSON_DeleteItemFromArray. rw detach_index. iApply heap_bind. destruct (decide (Z.to_nat which < length ks)%nat) as [Hw|Hw].
    + destruct (split_at ks _ Hw) as (ks1 & k & ks2 & -> & Hn). rw -Hn delete_split. iApply wp_detach. iFrame "Ha".
      iIntros (l) "Hk Ha". iApply (wp_Delete _ k). iSplitL "Hk"; [iExists l; by iFrame|]. by iApply "HQ".
    + rw delete_beyond; [|lia]. iApply (wp_detach_beyond _ _ _ _ _ _ ks); [lia|]. iFrame "Ha". iIntros "Ha". iApply wp_Delete_null. by iApply "HQ".
  - injection Hs as <-. unfold cJSON_DeleteItemFromObject. iApply heap_bind. iApply wp_detach_named. iFrame "Ha".
    destruct (position nm ks) as [n|].
    + iIntros (ks1 k ks2 l) "%E Hk Ha". destruct E as [-> <-]. rw delete_split. iApply (wp_Delete _ k).
      iSplitL "Hk"; [iExists l; by iFrame|]. by iApply "HQ".
    + iIntros "Ha". iApply wp_Delete_null. by iApply "HQ".
  - case_decide as Hw; [|done]. injection Hs as <-. destruct (split_at ks _ Hw) as (ks1 & k & ks2 & -> & Hn). rw -Hn insert_split.
    iApply heap_bind. iApply wp_new_value; [done|]. iIntros (l) "Hl". rw replace_index -Hn. iApply (wp_replace _ _ _ _ _ _ ks1 k ks2 (item_of v)). iFrame "Ha HQ".
    iExists l. by iFrame.
  - destruct (position nm ks) as [n|] eqn:Ep; [|done]. injection Hs as <-. destruct (position_split _ _ _ Ep) as (ks1 & k & ks2 & -> & <-).
    rw insert_split. iApply heap_bind. iApply wp_new_value; [done|]. iIntros (l) "Hl".
    iApply (wp_replace_named _ _ _ _ _ _ ks1 k ks2 (item_of v)); [done|by destruct v|]. iFrame "Ha". iSplitL "Hl"; [iExists l; by iFrame|].
    iIntros (c) "%Hc". destruct Hc as [->|[? _]]; done.
Qed.

Lemma wp_edits l ks ks' (Q : unit -> hprop) : Forall edit_ok l -> edits_spec l ks = Some ks' ->
  root ks ∗ (root ks' -∗ Q tt) ⊢ wp true (run_edits (Some a) l) Q.
Proof.
  intros Hok. revert ks. induction Hok as [|e l He Hok IH]; intros ks Hs; cbn in Hs; iIntros "[Ha HQ]".
  - injection Hs as ->. iApply heap_ret. by iApply "HQ".
  - destruct (edit_spec e ks) as [ks1|] eqn:Es; [|done]. iApply heap_bind. iApply wp_edit; [done..|]. iFrame "Ha". iIntros "Ha".
    iApply IH; [done|]. iFrame.
Qed.
End session.

Lemma owned_at i p h : owned i p h -> exists l, p = Some l /\ own i l None None h.
Proof.
  intros (l & h1 & h2 & -> & _ & (Hemp & Hp) & Ho). exists l. split; [done|]. rw (Hemp : h1 = ∅). by rw map_empty_union.
Qed.

(** C18: On a new array or object, in a memory that never refuses, every
    sequence of edits (append, remove and replace, by place or by name) has the
    effect of its specification on the list of children: no null or freed
    pointer is used, the cells hold exactly the specified tree, and deleting
    it gives every cell back. *)
Theorem edits_refine (ty : Z) (Hty : ty = cJSON_Array \/ ty = cJSON_Object) (l : list edit) (Hl : Forall edit_ok l)
    (ks : list item) (Hks : edits_spec l [] = Some ks) :
  exists a h, (a ← create ty; _ ← run_edits a l; mret a) (mk_memory ∅ []) = Some (Some a, mk_memory h []) /\
    own (Item ty None None 0 (0, 0) ks) a None None h /\
    cJSON_Delete (Some a) (mk_memory h []) = Some (tt, mk_memory ∅ []).
Proof.
  assert (is_reference ty = false) as Hr by (by destruct Hty as [-> | ->]).
  destruct (adequate true (a ← create ty; _ ← run_edits a l; mret a) emp%I (owned (Item ty None None 0 (0, 0) ks)) ∅ [])
    as (p & h & g & E & Hg & HQ); [|done|done|].
  - iIntros "_". iApply heap_bind. iApply wp_create; [done|]. iIntros (p) "Hp". destruct p as [a|]; cbn [made]; [|by iDestruct "Hp" as %Hu].
    iApply heap_bind. iApply (wp_edits _ _ _ _ _ _ _ _ _ [] ks); [done|done|]. iFrame "Hp". iIntros "Hp". iApply heap_ret. iExists a. by iFrame.
  - rw (Hg eq_refl) in E. destruct (owned_at _ _ _ HQ) as (a & -> & Ho). exists a, h. split; [done|]. split; [done|].
    destruct (adequate true (cJSON_Delete (Some a)) (owned (Item ty None None 0 (0, 0) ks) (Some a)) (fun _ => emp%I) h [])
      as ([] & h' & g' & E' & Hg' & HQ'); [|done|done|].
    + iIntros "Ho". iApply wp_Delete. by iFrame.
    + rw E' (Hg' eq_refl). by rw (HQ' : h' = ∅).
Qed.

(** A list of rooms is edited. *)
Definition sample_edits : list edit :=
  [AppendNamed "id" (VNumber 7); AppendNamed "name" (VString "lamp"); AppendNamed "on" (VBool 1);
   ReplaceNamed "NAME" (VString "desk lamp"); Remove 0; RemoveNamed "none"; AppendNamed "rooms" (VNumbers [1; 2])].

Definition sample_children : list item :=
  [Item cJSON_String (Some "NAME") (Some "desk lamp") 0 (0, 0) []; Item cJSON_True (Some "on") None 0 (0, 0) [];
   Item cJSON_Array (Some "rooms") None 0 (0, 0) [number_item 1; number_item 2]].

Lemma edits_refine_witness :
  edits_spec sample_edits [] = Some sample_children /\
  exists a h, (a ← create cJSON_Object; _ ← run_edits a sample_edits; mret a) (mk_memory ∅ []) = Some (Some a, mk_memory h []) /\
    own (Item cJSON_Object None None 0 (0, 0) sample_children) a None None h.
Proof.
  assert (edits_spec sample_edits [] = Some sample_children) as Hs by (vm_compute; reflexivity). split; [exact Hs|].
  assert (Forall edit_ok sample_edits) as Hok.
  { unfold sample_edits. repeat (apply Forall_cons_2; [cbn; unfold int_range, INT_MIN, INT_MAX; try done; try lia|]); [..|apply Forall_nil_2].
    repeat (apply Forall_cons_2; [unfold INT_MIN, INT_MAX; lia|]). apply Forall_nil_2. }
  destruct (edits_refine cJSON_Object (or_intror eq_refl) sample_edits Hok sample_children Hs) as (a & h & E & Ho & _).
  exists a, h. split; [exact E|exact Ho].
Defined.

(** C19: Copying a tree without references works in every memory: whatever
    allocations fail, nothing undefined happens, the original stays, and the
    result is either a copy of the whole tree in cells of its own or null, with
    every cell of the unfinished copy given back. *)
Theorem duplicate_or_nothing (i : item) (Hi : plain i = true) (l : positive) (h : gmap positive cell)
    (Hh : own i l None None h) (g : list bool) :
  exists r h' g', cJSON_Duplicate (Some l) true (mk_memory h g) = Some (r, mk_memory h' g') /\
    ((exists l' h1 h2, r = Some l' /\ h' = h1 ∪ h2 /\ h1 ##ₘ h2 /\ own i l' None None h1 /\ own i l None None h2) \/
     (r = None /\ own i l None None h')) /\
    (g = [] -> r <> None).
Proof.
  assert (forall u, (u = true -> g = []) -> exists r h' g', cJSON_Duplicate (Some l) true (mk_memory h g) = Some (r, mk_memory h' g') /\
    (made u i r ∗ own i l None None)%I h') as Hrun.
  { intros u Hu. destruct (adequate u (cJSON_Duplicate (Some l) true) (own i l None None) (fun r => made u i r ∗ own i l None None)%I h g)
      as (r & h' & g' & E & _ & HQ); [|done|done|by exists r, h', g'].
    iIntros "Hi". iApply wp_Duplicate; [done|]. iFrame "Hi". iIntros (p) "Hp Hi". iFrame. }
  destruct (Hrun false) as (r & h' & g' & E & h1 & h2 & Eh & Hd & Hm & Ho); [done|]. exists r, h', g'. split; [done|]. split.
  - destruct r as [l'|]; [left|right].
    + exists l', h1, h2. done.
    + split; [done|]. destruct Hm as [Hemp _]. rw Eh (Hemp : h1 = ∅). by rw map_empty_union.
  - intros ->. destruct (Hrun true) as (r2 & h2' & g2' & E2 & h3 & h4 & _ & _ & Hm2 & _); [done|]. rw E in E2. injection E2 as <- _ _.
    destruct r; [done|]. by destruct Hm2 as [_ Hm2].
Qed.

(** An object of one member. *)
Definition sample_tree : item := Item cJSON_Object None None 0 (0, 0) [Item cJSON_NULL (Some "x") None 0 (0, 0) []].

Definition object_cell : cell := CNode (mk_node None None (Some 2%positive) cJSON_Object None 0 (0, 0) None).
Definition member_cell : cell := CNode (mk_node None None None cJSON_NULL None 0 (0, 0) (Some 3%positive)).
Definition sample_heap : gmap positive cell :=
  {[1%positive := object_cell]} ∪ ({[2%positive := member_cell]} ∪ {[3%positive := CStr "x"]}).

Lemma sample_owned : own sample_tree 1 None None sample_heap.
Proof.
  assert ((1%positive ↦ object_cell ∗ 2%positive ↦ member_cell ∗ 3%positive ↦ CStr "x")%I ⊢ own sample_tree 1 None None) as [H].
  { iIntros "(H1 & H2 & H3)". iExists None, None, (Some 2%positive), (Some 2%positive). iFrame "H1". do 3 (iSplitR; [done|]).
    iExists 2%positive, None. iSplitR; [done|]. iSplitL; [|done]. iExists (Some 3%positive), None, None, None. by iFrame. }
  apply H. exists {[1%positive := object_cell]}, ({[2%positive := member_cell]} ∪ {[3%positive := CStr "x"]}).
  split; [done|]. split; [by apply map_disjoint_singleton_l|]. split; [done|].
  exists {[2%positive := member_cell]}, {[3%positive := CStr "x"]}. split; [done|]. split; [by apply map_disjoint_singleton_l|done].
Qed.

Lemma duplicate_or_nothing_witness :
  exists r h' g', cJSON_Duplicate (Some 1%positive) true (mk_memory sample_heap [true; true; false]) = Some (r, mk_memory h' g') /\
    ((exists l' h1 h2, r = Some l' /\ h' = h1 ∪ h2 /\ h1 ##ₘ h2 /\ own sample_tree l' None None h1 /\ own sample_tree 1 None None h2) \/
     (r = None /\ own sample_tree 1 None None h')).
Proof.
  destruct (duplicate_or_nothing sample_tree eq_refl 1%positive sample_heap sample_owned [true; true; false]) as (r & h' & g' & E & H & _).
  exists r, h', g'. split; [exact E|exact H].
Defined.

(** An array of numbers whose second item gets no memory: the null pointer is
    linked to the first item. *)
Lemma int_array_without_memory : cJSON_CreateIntArray [1; 2] (mk_memory ∅ [true; true; false]) = None.
Proof. vm_compute. reflexivity. Qed.
