(* ===== verification/CJsonMinify.v ===== *)
(** * Taking the blanks out of JSON (cJSON_Minify of src/src/dev_manage/cJSON/cJSON.c)

    [cJSON_Minify] works in place: it reads at [json], writes at [into], and
    [into] never overtakes [json].  The model has the buffer and the two
    positions; its specification [minified] is a state machine on the
    characters from [json] on.  On a formatted text the function gives the
    unformatted one.  An unterminated literal or comment makes it run past
    the NUL that ends the text. *)

From stdpp Require Import base list strings.
From Stdlib Require Import ZArith Lia Ascii.
From S2P Require Import Prelude CString CJson.

Open Scope nat_scope.

Definition nul : ascii := "000".
Definition slash : ascii := "/".
Definition star : ascii := "*".
Definition line_feed : ascii := "010".

(** ** The function *)

(** [*i = c]. *)
Definition put_char (i : nat) (c : ascii) (buf : list ascii) : option (list ascii) :=
  if decide (i < length buf) then Some (<[i := c]> buf) else None.

(** The positions [json] and [into], and the buffer. *)
Definition minify_state : Type := nat * nat * list ascii.

(** [*into++=*json++]. *)
Definition copy_char (st : minify_state) : option minify_state :=
  let '(json, into, buf) := st in
  c ← buf !! json;
  buf ← put_char into c buf;
  Some (S json, S into, buf).

Definition is_blank (c : ascii) : bool := is_char " " c || is_char "009" c || is_char "013" c || is_char line_feed c.

(** [while ( *json && *json!='\n') json++]. *)
Fixpoint skip_line (fuel : nat) (buf : list ascii) (json : nat) : option nat :=
  match fuel with
  | O => None
  | S fuel => c ← buf !! json; if is_char nul c || is_char line_feed c then Some json else skip_line fuel buf (S json)
  end.

(** [while ( *json && !( *json=='*' && json[1]=='/')) json++]. *)
Fixpoint skip_comment (fuel : nat) (buf : list ascii) (json : nat) : option nat :=
  match fuel with
  | O => None
  | S fuel =>
      c ← buf !! json;
      if is_char nul c then Some json
      else
        stop ← (if is_char star c then is_char slash <$> buf !! S json else Some false);
        if stop : bool then Some json else skip_comment fuel buf (S json)
  end.

(** The loop of a literal and the copy of its closing quote. *)
Fixpoint copy_literal (fuel : nat) (st : minify_state) : option minify_state :=
  match fuel with
  | O => None
  | S fuel =>
      let '(json, into, buf) := st in
      c ← buf !! json;
      if is_char nul c || is_char dquote c then copy_char st
      else
        st ← (if is_char bslash c then copy_char st else Some st);
        st ← copy_char st;
        copy_literal fuel st
  end.

Fixpoint minify_loop (fuel : nat) (st : minify_state) : option (list ascii) :=
  match fuel with
  | O => None
  | S fuel =>
      let '(json, into, buf) := st in
      c ← buf !! json;
      if is_char nul c then put_char into nul buf
      else if is_blank c then minify_loop fuel (S json, into, buf)
      else
        next ← (if is_char slash c then buf !! S json else Some nul);
        if is_char slash c && is_char slash next then
          json ← skip_line (S (length buf)) buf json;
          minify_loop fuel (json, into, buf)
        else if is_char slash c && is_char star next then
          json ← skip_comment (S (length buf)) buf json;
          minify_loop fuel (json + 2, into, buf)
        else
          st ← copy_char st;
          if is_char dquote c then st ← copy_literal (S (length buf)) st; minify_loop fuel st
          else minify_loop fuel st
  end.

(** No loop goes round more often than there are characters. *)
Definition cJSON_Minify (json : list ascii) : option (list ascii) := minify_loop (S (length json)) (0, 0, json).

(** ** The state machine *)

Inductive mode := Text | Line | Block | Literal.

(** What is written while the characters [s] are read; [None] when the end of
    the buffer is passed. *)
Fixpoint minified (m : mode) (s : list ascii) : option (list ascii) :=
  match s with
  | [] => None
  | c :: r =>
      match m with
      | Text =>
          if is_char nul c then Some []
          else if is_blank c then minified Text r
          else if is_char slash c then
            match r with
            | [] => None
            | d :: _ =>
                if is_char slash d then minified Line r
                else if is_char star d then minified Block r
                else cons c <$> minified Text r
            end
          else if is_char dquote c then cons c <$> minified Literal r
          else cons c <$> minified Text r
      | Line => if is_char nul c then Some [] else if is_char line_feed c then minified Text r else minified Line r
      | Block =>
          if is_char nul c then match r with [] => None | _ :: r => minified Text r end
          else if is_char star c then
            match r with [] => None | d :: r' => if is_char slash d then minified Text r' else minified Block r end
          else minified Block r
      | Literal =>
          if is_char nul c || is_char dquote c then cons c <$> minified Text r
          else if is_char bslash c then match r with [] => None | d :: r => cons c <$> (cons d <$> minified Literal r) end
          else cons c <$> minified Literal r
      end
  end.

(** ** Refinement *)

(** The buffer once [out] was written from [into] on and ended. *)
Definition finish (into : nat) (buf : list ascii) (out : option (list ascii)) : option (list ascii) :=
  out ← out; Some (take into buf ++ out ++ nul :: drop (S (into + length out)) buf).

Lemma unread buf json (c : ascii) : buf !! json = Some c -> drop json buf = c :: drop (S json) buf.
Proof. apply drop_S. Qed.

Lemma unread_none (buf : list ascii) json : buf !! json = None -> drop json buf = [].
Proof. intros H. apply drop_ge. by apply lookup_ge_None. Qed.

Lemma copied json into buf (c : ascii) : into <= json -> buf !! json = Some c ->
  copy_char (json, into, buf) = Some (S json, S into, <[into := c]> buf) /\ drop (S json) (<[into := c]> buf) = drop (S json) buf.
Proof.
  intros Hi Hc. unfold copy_char. rewrite Hc. cbn. unfold put_char. apply lookup_lt_Some in Hc.
  rewrite decide_True by lia. split; [done|]. rewrite drop_insert_lt by lia. done.
Qed.

Lemma finish_copied into buf c out : into < length buf -> finish (S into) (<[into := c]> buf) out = finish into buf (cons c <$> out).
Proof.
  intros Hi. destruct out as [out|]; [|done]. cbn. f_equal. rewrite drop_insert_lt by lia.
  rewrite (take_S_r _ _ c) by (rewrite list_lookup_insert_eq; done || lia). rewrite take_insert_ge, <- app_assoc by lia. cbn.
  by replace (S (into + S (length out))) with (S (S (into + length out))) by lia.
Qed.

Lemma skip_line_refines fuel buf json : length buf < fuel + json ->
  match skip_line fuel buf json with
  | Some j => json <= j /\ minified Line (drop json buf) = minified Text (drop j buf)
  | None => minified Line (drop json buf) = None
  end.
Proof.
  revert json. induction fuel as [|fuel IH]; intros json Hf; cbn [skip_line]; [by rewrite drop_ge by lia|].
  destruct (buf !! json) as [c|] eqn:Hc; cbn [mbind option_bind]; [|by rewrite unread_none].
  rewrite (unread _ _ _ Hc). cbn [minified]. destruct (is_char nul c) eqn:En; cbn [orb].
  - split; [done|]. rewrite (unread _ _ _ Hc). cbn [minified]. by rewrite En.
  - destruct (is_char line_feed c) eqn:El.
    + split; [done|]. rewrite (unread _ _ _ Hc). cbn [minified]. rewrite En. unfold is_blank. rewrite El. by rewrite orb_true_r.
    + specialize (IH (S json) ltac:(lia)). destruct (skip_line fuel buf (S json)); [destruct IH; split; [lia|done]|done].
Qed.

Lemma skip_comment_refines fuel buf json : length buf < fuel + json ->
  match skip_comment fuel buf json with
  | Some j => json <= j /\ minified Block (drop json buf) = minified Text (drop (j + 2) buf)
  | None => minified Block (drop json buf) = None
  end.
Proof.
  revert json. induction fuel as [|fuel IH]; intros json Hf; cbn [skip_comment]; [by rewrite drop_ge by lia|].
  destruct (buf !! json) as [c|] eqn:Hc; cbn [mbind option_bind]; [|by rewrite unread_none].
  rewrite (unread _ _ _ Hc). cbn [minified]. destruct (is_char nul c).
  - split; [done|]. destruct (buf !! S json) as [d|] eqn:Hd.
    + rewrite (unread _ _ _ Hd). by replace (json + 2) with (S (S json)) by lia.
    + rewrite (unread_none _ _ Hd). apply lookup_ge_None in Hd. by rewrite drop_ge by lia.
  - destruct (is_char star c).
    + destruct (buf !! S json) as [d|] eqn:Hd; cbn; [|by rewrite unread_none].
      rewrite (unread _ _ _ Hd). destruct (is_char slash d).
      * split; [done|]. by replace (json + 2) with (S (S json)) by lia.
      * specialize (IH (S json) ltac:(lia)). rewrite (unread _ _ _ Hd) in IH.
        destruct (skip_comment fuel buf (S json)); [destruct IH; split; [lia|done]|done].
    + cbn. specialize (IH (S json) ltac:(lia)). destruct (skip_comment fuel buf (S json)); [destruct IH; split; [lia|done]|done].
Qed.

Lemma copy_literal_refines fuel json into buf : into <= json -> length buf < fuel + json ->
  match copy_literal fuel (json, into, buf) with
  | Some (j, i, b) => json <= j /\ i <= j /\ length b = length buf /\
      finish i b (minified Text (drop j b)) = finish into buf (minified Literal (drop json buf))
  | None => finish into buf (minified Literal (drop json buf)) = None
  end.
Proof.
  revert json into buf. induction fuel as [|fuel IH]; intros json into buf Hi Hf; cbn [copy_literal]; [by rewrite drop_ge by lia|].
  destruct (buf !! json) as [c|] eqn:Hc; cbn [mbind option_bind]; [|by rewrite unread_none].
  pose proof (lookup_lt_Some _ _ _ Hc) as Hl. destruct (copied _ _ _ _ Hi Hc) as [Ec Ed].
  rewrite (unread _ _ _ Hc). cbn [minified]. destruct (is_char nul c || is_char dquote c).
  { rewrite Ec. repeat split; [lia|lia|by rewrite length_insert|]. rewrite Ed. apply finish_copied. lia. }
  destruct (is_char bslash c).
  - rewrite Ec. cbn [mbind option_bind]. destruct (buf !! S json) as [d|] eqn:Hd.
    + assert (<[into := c]> buf !! S json = Some d) as Hd' by (rewrite list_lookup_insert_ne; [done|lia]).
      destruct (copied (S json) (S into) _ _ ltac:(lia) Hd') as [Ec' Ed']. rewrite Ec'. cbn [mbind option_bind].
      specialize (IH (S (S json)) (S (S into)) (<[S into := d]> (<[into := c]> buf)) ltac:(lia) ltac:(rewrite !length_insert; lia)).
      pose proof (lookup_lt_Some _ _ _ Hd). rewrite (unread _ _ _ Hd). rewrite !finish_copied in IH by (rewrite ?length_insert; lia).
      rewrite Ed', drop_insert_lt in IH by lia.
      destruct (copy_literal _ _) as [[[j i] b]|]; [|exact IH]. rewrite !length_insert in IH. intuition lia.
    + unfold copy_char at 1. rewrite list_lookup_insert_ne, Hd by lia. cbn. by rewrite unread_none.
  - cbn [mbind option_bind]. rewrite Ec. cbn [mbind option_bind].
    specialize (IH (S json) (S into) (<[into := c]> buf) ltac:(lia) ltac:(rewrite length_insert; lia)).
    rewrite finish_copied, Ed in IH by lia. destruct (copy_literal _ _) as [[[j i] b]|]; [|exact IH].
    rewrite length_insert in IH. intuition lia.
Qed.

Lemma minify_loop_refines fuel json into buf : into <= json -> length buf < fuel + json ->
  minify_loop fuel (json, into, buf) = finish into buf (minified Text (drop json buf)).
Proof.
  revert json into buf. induction fuel as [|fuel IH]; intros json into buf Hi Hf; cbn [minify_loop]; [by rewrite drop_ge by lia|].
  destruct (buf !! json) as [c|] eqn:Hc; cbn [mbind option_bind]; [|by rewrite unread_none].
  pose proof (lookup_lt_Some _ _ _ Hc) as Hl. destruct (copied _ _ _ _ Hi Hc) as [Ec Ed].
  rewrite (unread _ _ _ Hc). cbn [minified]. destruct (is_char nul c) eqn:En.
  { unfold put_char, finish. cbn. rewrite decide_True by lia. f_equal. rewrite insert_take_drop by lia. by rewrite Nat.add_0_r. }
  destruct (is_blank c) eqn:Eb; [apply IH; lia|]. rewrite Ec.
  assert (forall st, copy_literal (S (length buf)) (S json, S into, <[into := c]> buf) = st ->
    (st ← st; minify_loop fuel st) = finish into buf (cons c <$> minified Literal (drop (S json) buf))) as Hlit.
  { intros st <-. pose proof (copy_literal_refines (S (length buf)) (S json) (S into) (<[into := c]> buf) ltac:(lia)
      ltac:(rewrite length_insert; lia)) as H. rewrite finish_copied, Ed in H by lia.
    destruct (copy_literal _ _) as [[[j i] b]|]; [|by rewrite H]. destruct H as (H1 & H2 & H3 & <-). cbn [mbind option_bind].
    rewrite length_insert in H3. apply IH; lia. }
  assert (minify_loop fuel (S json, S into, <[into := c]> buf) = finish into buf (cons c <$> minified Text (drop (S json) buf))) as Hone.
  { rewrite IH by (rewrite ?length_insert; lia). by rewrite finish_copied, Ed by lia. }
  destruct (is_char slash c) eqn:Es; cbn [andb mbind option_bind].
  - destruct (buf !! S json) as [d|] eqn:Hd; cbn [mbind option_bind]; [|by rewrite unread_none].
    assert (is_char dquote c = false) as -> by (by destruct c as [[] [] [] [] [] [] [] []]).
    assert (is_char line_feed c = false /\ is_char star c = false) as [El Est] by (by destruct c as [[] [] [] [] [] [] [] []]).
    rewrite (unread _ _ _ Hd) at 1. destruct (is_char slash d) eqn:Ed1; [|destruct (is_char star d) eqn:Ed2].
    + pose proof (skip_line_refines (S (length buf)) buf json ltac:(lia)) as H. rewrite (unread _ _ _ Hc) in H. cbn [minified] in H.
      rewrite En, El in H. cbn [skip_line] in *. rewrite Hc in *. cbn [mbind option_bind] in *. rewrite En, El in *. cbn [orb] in *.
      pose proof (skip_line_refines (length buf) buf (S json) ltac:(lia)) as H'.
      destruct (skip_line (length buf) buf (S json)) as [j|]; cbn [mbind option_bind]; [|by rewrite H']. destruct H' as [Hj ->]. apply IH; lia.
    + cbn [skip_comment]. rewrite Hc. cbn [mbind option_bind]. rewrite En, Est. cbn [mbind option_bind].
      pose proof (skip_comment_refines (length buf) buf (S json) ltac:(lia)) as H'.
      destruct (skip_comment (length buf) buf (S json)) as [j|]; cbn [mbind option_bind]; [|by rewrite H']. destruct H' as [Hj ->]. apply IH; lia.
    + exact Hone.
  - destruct (is_char dquote c); [by apply Hlit|exact Hone].
Qed.

(** In place, the function writes what the state machine says, and leaves the
    bytes behind it as they were. *)
Lemma minify_refines buf : cJSON_Minify buf = finish 0 buf (minified Text buf).
Proof. unfold cJSON_Minify. by rewrite minify_loop_refines by lia. Qed.

(** ** Texts that keep the machine in its first mode *)

Abbreviation chars s := (String.list_ascii_of_string s).

(** Reading [t] writes [t'], whatever follows. *)
Definition emits (t t' : string) : Prop := forall r, minified Text (chars t ++ r) = app (chars t') <$> minified Text r.

Lemma chars_app a b : chars (a +:+ b) = chars a ++ chars b.
Proof. induction a as [|c a IH]; cbn; [done|]. by rewrite IH. Qed.

Lemma emits_nil : emits "" "".
Proof. intros r. cbn. by destruct (minified Text r). Qed.

Lemma emits_app a a' b b' : emits a a' -> emits b b' -> emits (a +:+ b) (a' +:+ b').
Proof.
  intros Ha Hb r. rewrite !chars_app, <- app_assoc, Ha, Hb. destruct (minified Text r); cbn; [|done]. by rewrite app_assoc.
Qed.

Lemma emits_dropped a b b' : emits a "" -> emits b b' -> emits (a +:+ b) b'.
Proof. apply emits_app. Qed.

(** A character outside of literals and comments. *)
Definition plain_char (c : ascii) : bool :=
  negb (is_char nul c) && negb (is_blank c) && negb (is_char slash c) && negb (is_char dquote c).

Lemma emits_char c t t' : plain_char c = true -> emits t t' -> emits (String c t) (String c t').
Proof.
  intros Hc Ht r. unfold plain_char in Hc. cbn [String.list_ascii_of_string app minified].
  destruct (is_char nul c), (is_blank c), (is_char slash c), (is_char dquote c); try done.
  rewrite Ht. by destruct (minified Text r).
Qed.

Lemma emits_plain s : all_chars plain_char s = true -> emits s s.
Proof.
  induction s as [|c s IH]; cbn [all_chars]; intros H; [apply emits_nil|]. apply andb_prop in H as [H1 H2]. by apply emits_char; [|apply IH].
Qed.

Lemma emits_blank c t t' : is_blank c = true -> emits t t' -> emits (String c t) t'.
Proof. intros Hc Ht r. destruct c as [[] [] [] [] [] [] [] []]; try done; apply Ht. Qed.

Lemma emits_tabs n : emits (tabs n) "".
Proof. induction n; [apply emits_nil|]. by apply emits_blank. Qed.

(** A character a literal can have as it is, and an escaped one. *)
Definition literal_char (c : ascii) : bool := negb (is_char nul c) && negb (is_char dquote c) && negb (is_char bslash c).

Lemma literal_plain c r : literal_char c = true -> minified Literal (c :: r) = cons c <$> minified Literal r.
Proof. unfold literal_char. cbn [minified]. by destruct (is_char nul c), (is_char dquote c), (is_char bslash c). Qed.

Lemma literal_pair d r : minified Literal (bslash :: d :: r) = app [bslash; d] <$> minified Literal r.
Proof. cbn. by destruct (minified Literal r). Qed.

Lemma literal_digit d : (0 <= d < 16)%Z -> literal_char (lower_digit d) = true.
Proof. intros H. assert (d ∈ seqZ 0 16) as Hd by (apply elem_of_seqZ; lia). clear H. apply list_elem_of_In in Hd. revert d Hd. by apply List.forallb_forall. Qed.

(** An escaped character inside a literal. *)
Lemma literal_escape c r : c <> nul -> minified Literal (chars (escape c) ++ r) = app (chars (escape c)) <$> minified Literal r.
Proof.
  intros Hc. assert (0 <= code c < 256)%Z as Hr by apply code_range. unfold escape.
  destruct ((31 <? code c)%Z && negb (Ascii.eqb c dquote) && negb (Ascii.eqb c bslash)) eqn:E1.
  { cbn [String.list_ascii_of_string app]. apply literal_plain. unfold literal_char, is_char.
    apply andb_prop in E1 as [E1 ->]. apply andb_prop in E1 as [_ ->]. by destruct (Ascii.eqb_spec c nul). }
  do 7 (case_match; [apply literal_pair|]).
  assert (code c < 32)%Z by (destruct (Ascii.eqb c bslash), (Ascii.eqb c dquote); try done; lia).
  cbn [String.list_ascii_of_string app]. rewrite literal_pair. do 4 (rewrite literal_plain by (done || (apply literal_digit; Z.div_mod_to_equations; lia))).
  by destruct (minified Literal r).
Qed.

Lemma literal_escape_all s r : nul_free s = true ->
  minified Literal (chars (escape_all s) ++ r) = app (chars (escape_all s)) <$> minified Literal r.
Proof.
  induction s as [|c s IH]; cbn [escape_all]; intros H; [cbn; by destruct (minified Literal r)|]. cbn in H. apply andb_prop in H as [Hc Hs].
  rewrite !chars_app, <- app_assoc, literal_escape, IH by (done || by intros ->). destruct (minified Literal r); cbn; [|done].
  by rewrite app_assoc.
Qed.

Lemma emits_string s : nul_free s = true -> emits (print_string_ptr s) (print_string_ptr s).
Proof.
  intros Hs r. unfold print_string_ptr. cbn [String.list_ascii_of_string app]. rewrite chars_app, <- app_assoc.
  change (minified Text (dquote :: ?l)) with (cons dquote <$> minified Literal l). rewrite literal_escape_all by done.
  change (minified Literal (chars (String dquote "") ++ r)) with (cons dquote <$> minified Text r).
  destruct (minified Text r); cbn; [|done]. by rewrite <- app_assoc.
Qed.

Lemma emits_number m : emits (fmt_d m) (fmt_d m).
Proof.
  apply emits_plain.
  assert (forall p n, all_chars plain_char (pad_left p (unsigned_digits 10 n)) = true) as Hd.
  { intros p n. eapply all_chars_impl; [|apply pad_left_digits]. intros c. by destruct c as [[] [] [] [] [] [] [] []]. }
  unfold fmt_d, fmt_d_prec. destruct (m <? 0)%Z; cbn [all_chars]; by rewrite Hd.
Qed.

(** ** Printed items *)

Definition shrinks (j : json) : Prop := forall depth depth' t, print_value j depth true = Some t ->
  exists t', print_value j depth' false = Some t' /\ emits t t'.

Lemma items_shrink d d' l t : Forall shrinks l -> print_items true (fun x => print_value x d true) l = Some t ->
  exists t', print_items false (fun x => print_value x d' false) l = Some t' /\ emits t t'.
Proof.
  intros Hl. revert t. induction Hl as [|x l Hx Hl IH]; intros t Ht; cbn [print_items] in *.
  - injection Ht as <-. eexists. split; [done|]. by apply emits_plain.
  - destruct (print_value x d true) as [tx|] eqn:Ex; [|done]. cbn [mbind option_bind] in Ht.
    destruct (Hx d d' tx Ex) as (tx' & -> & Htx). cbn [mbind option_bind].
    destruct (print_items true _ l) as [tl|]; [|done]. destruct (IH tl eq_refl) as (tl' & -> & Htl). injection Ht as <-.
    eexists. split; [done|]. apply emits_app; [done|]. apply emits_app; [|done].
    destruct l; [apply emits_nil|]. apply emits_char; [done|]. apply emits_blank; [done|apply emits_nil].
Qed.

Lemma members_shrink d d' e e' l t : Forall (fun p => nul_free (fst p) = true /\ shrinks (snd p)) l ->
  print_members true e (fun x => print_value x d true) l = Some t ->
  exists t', print_members false e' (fun x => print_value x d' false) l = Some t' /\ emits t t'.
Proof.
  intros Hl. revert t. induction Hl as [|[k x] l [Hk Hx] Hl IH]; intros t Ht; cbn [print_members fst snd] in *.
  - injection Ht as <-. eexists. split; [done|]. apply (emits_app _ ""); [apply emits_tabs|]. by apply emits_plain.
  - destruct (print_value x d true) as [tx|] eqn:Ex; [|done]. cbn [mbind option_bind] in Ht.
    destruct (Hx d d' tx Ex) as (tx' & -> & Htx). cbn [mbind option_bind].
    destruct (print_members true e _ l) as [tl|]; [|done]. destruct (IH tl eq_refl) as (tl' & -> & Htl). apply (inj Some) in Ht as <-.
    eexists. split; [done|]. apply (emits_app _ ""); [apply emits_tabs|]. apply emits_app; [by apply emits_string|].
    apply emits_char; [done|]. apply (emits_app _ ""); [apply (emits_tabs 1)|]. apply emits_app; [done|].
    apply emits_app; [destruct l; [apply emits_nil|by apply emits_plain]|]. by apply (emits_blank line_feed).
Qed.

Lemma printable_shrinks j : printable j = true -> shrinks j.
Proof.
  induction j as [| | |m e|s|l IH|l IH] using json_tree_ind; intros Hp depth depth' t Ht; cbn [print_value printable] in *.
  1-3: injection Ht as <-; eexists; split; [done|]; by apply emits_plain.
  - unfold print_number in *. destruct (_ && _); [|done]. injection Ht as <-. eexists. split; [done|apply emits_number].
  - injection Ht as <-. eexists. split; [done|by apply emits_string].
  - destruct (print_items true _ l) as [r|] eqn:Er; [|done]. injection Ht as <-.
    destruct (items_shrink (S depth) (S depth') l r) as (r' & -> & Hr); [|done|].
    { rewrite forallb_forall in Hp. apply Forall_forall. intros x Hx. rewrite Forall_forall in IH. apply IH; [done|]. apply Hp. by apply list_elem_of_In. }
    eexists. split; [done|]. by apply emits_char.
  - assert (Forall (fun p => nul_free (fst p) = true /\ shrinks (snd p)) l) as Hl.
    { rewrite forallb_forall in Hp. apply Forall_forall. intros x Hx. rewrite Forall_forall in IH. specialize (IH x Hx).
      apply list_elem_of_In in Hx. apply Hp in Hx. apply andb_prop in Hx as [H1 H2]. split; [done|by apply IH]. }
    destruct l as [|p l].
    + injection Ht as <-. eexists. split; [done|]. apply emits_char; [done|]. apply (emits_blank line_feed); [done|].
      apply emits_dropped; [apply emits_tabs|]. by apply emits_plain.
    + destruct (print_members true depth _ (p :: l)) as [r|] eqn:Er; [|done]. injection Ht as <-.
      destruct (members_shrink (S depth) (S depth') depth depth' (p :: l) r Hl Er) as (r' & -> & Hr).
      eexists. split; [done|]. apply emits_char; [done|]. by apply (emits_blank line_feed).
Qed.

(** ** What the function does to the texts of the printer *)

Lemma minify_emits t t' rest : emits t t' ->
  exists rest', cJSON_Minify (chars t ++ nul :: rest) = Some (chars t' ++ nul :: rest').
Proof. intros H. rewrite minify_refines, H. cbn. eexists. by rewrite app_nil_r. Qed.

(** C20: Minifying the formatted text of an item, in place and with whatever
    follows its NUL, leaves exactly the unformatted text of the item, from which
    the parser reads the item. *)
Theorem minify_formatted (j : json) (Hj : printable j = true) (rest : list ascii) :
  exists t t' rest', cJSON_Print j = Some t /\ cJSON_PrintUnformatted j = Some t' /\
    cJSON_Minify (chars t ++ nul :: rest) = Some (chars t' ++ nul :: rest') /\ cJSON_Parse t' = POk j "".
Proof.
  destruct (printable_prints j 0 true Hj) as [t Ht]. destruct (printable_shrinks j Hj 0 0 t Ht) as (t' & Ht' & He).
  destruct (minify_emits t t' rest He) as [rest' Hr]. exists t, t', rest'. repeat split; [done|done|done|].
  by apply (printed_parses false).
Qed.

Lemma minify_formatted_witness :
  exists t t' rest', cJSON_Print (JObj [("a b", JArr [JNum 1 0; JStr "/* */"])]) = Some t /\
    cJSON_PrintUnformatted (JObj [("a b", JArr [JNum 1 0; JStr "/* */"])]) = Some t' /\
    cJSON_Minify (chars t ++ [nul]) = Some (chars t' ++ nul :: rest').
Proof.
  destruct (minify_formatted (JObj [("a b", JArr [JNum 1 0; JStr "/* */"])]) eq_refl []) as (t & t' & rest' & H1 & H2 & H3 & _).
  exists t, t', rest'. split; [exact H1|]. split; [exact H2|exact H3].
Defined.

Lemma block_star d l : is_char slash d = false -> minified Block (star :: d :: l) = minified Block (d :: l).
Proof.
  intros H. change (minified Block (star :: d :: l)) with (if is_char slash d then minified Text l else minified Block (d :: l)). by rewrite H.
Qed.

(** A comment to the end of the line, and one between its marks, disappear. *)
Lemma emits_line_comment w : all_chars (fun c => negb (is_char nul c) && negb (is_char line_feed c)) w = true ->
  emits (String slash (String slash (w +:+ String line_feed ""))) "".
Proof.
  intros Hw r. cbn [String.list_ascii_of_string app]. change (minified Text (slash :: slash :: ?l)) with (minified Line l).
  induction w as [|c w IH]; cbn [all_chars String.append String.list_ascii_of_string app] in *.
  { change (minified Text r = id <$> minified Text r). by destruct (minified Text r). }
  apply andb_prop in Hw as [Hc Hw]. cbn [minified]. destruct (is_char nul c), (is_char line_feed c); try done. by apply IH.
Qed.

Lemma emits_block_comment w : all_chars (fun c => negb (is_char nul c) && negb (is_char star c)) w = true ->
  head_is (is_char slash) w = false -> emits (String slash (String star (w +:+ String star (String slash "")))) "".
Proof.
  intros Hw Hh r. cbn [String.list_ascii_of_string app]. change (minified Text (slash :: star :: ?l)) with (minified Block (star :: l)).
  assert (minified Block (star :: chars (w +:+ String star (String slash "")) ++ r) =
    minified Block (chars (w +:+ String star (String slash "")) ++ r)) as ->.
  { destruct w as [|c w]; [done|]. by apply block_star. }
  clear Hh. induction w as [|c w IH]; cbn [all_chars String.append String.list_ascii_of_string app] in *.
  { change (minified Text r = id <$> minified Text r). by destruct (minified Text r). }
  apply andb_prop in Hw as [Hc Hw]. cbn [minified]. destruct (is_char nul c), (is_char star c); try done. by apply IH.
Qed.

(** A literal or a comment that the text does not end makes the function pass
    the NUL, and leave a buffer that ends there. *)
Lemma literal_overruns t t' w : emits t t' -> all_chars (fun c => negb (is_char nul c) && negb (is_char dquote c) && negb (is_char bslash c)) w = true ->
  cJSON_Minify (chars (t +:+ String dquote w) ++ [nul]) = None.
Proof.
  intros Ht Hw. rewrite minify_refines, chars_app, <- app_assoc, Ht. cbn [String.list_ascii_of_string app].
  change (minified Text (dquote :: ?l)) with (cons dquote <$> minified Literal l).
  assert (minified Literal (chars w ++ [nul]) = None) as ->; [|done].
  induction w as [|c w IH]; [done|]. cbn [all_chars String.list_ascii_of_string app] in *. apply andb_prop in Hw as [Hc Hw].
  cbn [minified]. destruct (is_char nul c), (is_char dquote c), (is_char bslash c); try done. by rewrite IH.
Qed.

Lemma comment_overruns t t' w : emits t t' -> all_chars (fun c => negb (is_char nul c) && negb (is_char star c)) w = true ->
  head_is (is_char slash) w = false -> cJSON_Minify (chars (t +:+ String slash (String star w)) ++ [nul]) = None.
Proof.
  intros Ht Hw Hh. rewrite minify_refines, chars_app, <- app_assoc, Ht. cbn [String.list_ascii_of_string app].
  change (minified Text (slash :: star :: ?l)) with (minified Block (star :: l)).
  assert (minified Block (star :: chars w ++ [nul]) = minified Block (chars w ++ [nul])) as ->.
  { destruct w as [|c w]; [done|]. by apply block_star. }
  assert (minified Block (chars w ++ [nul]) = None) as ->; [|done]. clear Hh.
  induction w as [|c w IH]; [done|]. cbn [all_chars String.list_ascii_of_string app] in *. apply andb_prop in Hw as [Hc Hw].
  cbn [minified]. destruct (is_char nul c), (is_char star c); try done. by apply IH.
Qed.
