(* ===== verification/Sms.v ===== *)
(** * Text messages through the GSM modem (src/src/dev_manage/sms.c, and the
      decoder of sms_control.c)

    Messages in PDU form: the digits of a telephone number are written in
    swapped pairs, a text is cut into parts of 280 hexadecimal digits, and a
    received PDU is taken apart at fixed places.  Every character array has
    its size in the model; a write or read outside of one is [None]. *)

From stdpp Require Import base list strings.
From Stdlib Require Import ZArith Lia Ascii.
From S2P Require Import Prelude CString.

Open Scope Z_scope.

Definition MAX_BUFFER_SIZE : nat := 512.

(** [substring(src, dest, index, length)]: [avail] bytes can be read at
    [src], and are NUL behind the text; [dest] has [cap] bytes. *)
Definition substring (avail cap : nat) (src : string) (index : nat) (length : Z) : option string :=
  let n := Z.to_nat length in
  if (n =? 0)%nat then fits cap ""
  else if (index + n <=? avail)%nat && (S n <=? cap)%nat then Some (String.substring index n src)
  else None.

(** ** Telephone numbers *)

(** The loop that swaps [to[i]] and [to[i + 1]]. *)
Fixpoint swap_pairs (s : string) : string :=
  match s with
  | String a (String b s) => String b (String a (swap_pairs s))
  | s => s
  end.

Definition drop_plus (s : string) : string :=
  match s with String "+" s => s | s => s end.

(** The digits behind a leading plus, with an [F] when their number is odd,
    in swapped pairs. *)
Definition number_handler (cap : nat) (to : string) : option string :=
  to ← fits cap (drop_plus to);
  to ← (if Nat.odd (String.length to) then fits cap (to +:+ "F") else Some to);
  Some (swap_pairs to).

(** Two shifts by two places; each writes a NUL at [str_len + 3]. *)
Definition shift_in (cap : nat) (front s : string) : option string :=
  if (String.length s + 3 <? cap)%nat then Some (front +:+ s) else None.

Definition center_next_handler (cap : nat) (center : string) : option string :=
  center ← shift_in cap "91" center;
  let tmp := Z.of_nat (String.length center / 2) in
  shift_in cap (String (ascii_of_N (Z.to_N (tmp / 10 + 48))) (String (ascii_of_N (Z.to_N (tmp mod 10 + 48))) "")) center.

Definition CENTER_NUMBER : string := "+8613010888500".

(** ** Sending *)

(** What is written to the modem. *)
Definition write_to_uart (final : string) (length : Z) : option (list string) :=
  head ← fits MAX_BUFFER_SIZE ("AT+CMGS=" +:+ (fmt_d_prec 2 length +:+ String "013" ""));
  text ← fits MAX_BUFFER_SIZE (final +:+ String "026" "");
  Some [head; text].

Definition sms_send (to msg : string) : option (list string) :=
  number ← fits 20 ("+86" +:+ to);
  number ← number_handler 20 number;
  center ← fits 20 CENTER_NUMBER;
  center ← number_handler 20 center;
  _ ← center_next_handler 20 center;
  text ← fits MAX_BUFFER_SIZE (fmt_X_prec 2 (Z.of_nat (String.length msg / 2)) +:+ msg);
  final ← fits MAX_BUFFER_SIZE ("1100" +:+ (fmt_X_prec 2 (Z.of_nat (String.length to) + 2) +:+
            ("91" +:+ (number +:+ ("000800" +:+ text)))));
  write_to_uart final (Z.of_nat (String.length final / 2)).

(** The [for] loop: [k] parts from the [i]th on. *)
Fixpoint send_parts (to msg : string) (i k : nat) : option (list string) :=
  match k with
  | O => Some []
  | S k =>
      part ← substring (S (String.length msg)) 290 msg (i * 280) 280;
      a ← sms_send to part;
      b ← send_parts to msg (S i) k;
      Some (a ++ b)
  end.

Definition sms_send_support_multi (to msg : string) : option (list string) :=
  let sms_lenght := String.length msg in
  let i := (sms_lenght / 280)%nat in
  a ← send_parts to msg 0 i;
  rest ← substring (S (String.length msg)) 290 msg (i * 280) (Z.of_nat (sms_lenght - i * 280));
  b ← sms_send to rest;
  Some (a ++ b).

(** The result [true] and what is written; [false] for a null pointer. *)
Definition sms_send_to_user (to msg : option string) : option (bool * list string) :=
  match to, msg with
  | Some to, Some msg =>
      w ← (if (String.length msg <=? 280)%nat then sms_send to msg else sms_send_support_multi to msg);
      Some (true, w)
  | _, _ => Some (false, [])
  end.

Definition gsm_init : list string :=
  [("AT" +:+ String "013" ""); ("ATE0" +:+ String "013" ""); ("AT+CNMI=2,1,0,2,1" +:+ String "013" "");
   ("AT+CPMS=" +:+ (dq +:+ ("SM" +:+ (dq +:+ ("," +:+ (dq +:+ ("SM" +:+ (dq +:+ ("," +:+ (dq +:+ ("SM" +:+ (dq +:+ String "013" ""))))))))))));
   ("AT+CMGF=0" +:+ String "013" "")].

(** ** Receiving *)

Inductive charset_t := CHARSET_8BITS | CHARSET_7BITS | CHARSET_UCS2.

Record message_info_t := mk_msg {
  center_number : string;         (* char[20] *)
  send_number : string;           (* char[20] *)
  send_time : string;             (* char[20] *)
  send_content : string;          (* char[MAX_BUFFER_SIZE] *)
  charset : charset_t
}.

Definition nth_char (i : nat) (s : string) : option ascii := String.get i s.

(** [s[n] = '\0'] of a text of an array of [cap] bytes. *)
Definition cut_at (cap n : nat) (s : string) : option string :=
  if (n <? cap)%nat then Some (String.substring 0 n s) else None.

Definition msg_charset (temp_charset : string) (charset0 : charset_t) : charset_t :=
  match strstr temp_charset "08", strstr temp_charset "00", strstr temp_charset "04" with
  | Some _, _, _ => CHARSET_UCS2
  | None, Some _, _ => CHARSET_7BITS
  | None, None, Some _ => CHARSET_8BITS
  | _, _, _ => charset0
  end.

(** The time, printed over its digits. *)
Definition msg_time (slack : nat) (digits : string) : option string :=
  let part i := t ← substring 20 (2 + slack) digits i 2; Some (fmt_d_prec 2 (u8 (atoi t))) in
  year ← part 0%nat; month ← part 2%nat; day ← part 4%nat; hour ← part 6%nat; minute ← part 8%nat; second ← part 10%nat;
  fits 20 ("20" +:+ (year +:+ ("-" +:+ (month +:+ ("-" +:+ (day +:+ (" " +:+ (hour +:+ (":" +:+ (minute +:+ (":" +:+ second))))))))))).

(** [t] and [len] are [char[2]], and get two characters with a NUL; [slack]
    bytes behind them hold nothing that is used (how many is for the compiler
    to choose; the language promises none).  [avail] bytes can be read at [src]; [charset0] is what an unknown coding leaves in the
    uninitialised result. *)
Definition handler_receive_msg (slack avail : nat) (charset0 : charset_t) (src : string) : option message_info_t :=
  center ← substring avail 20 src 6 12;
  center ← number_handler 20 center;
  center ← cut_at 20 11 center;
  len ← substring avail (2 + slack) src 20 2;
  let pre_length := strtol len 16 in
  let length := if Z.odd pre_length then pre_length + 1 else pre_length in
  let national := match nth_char 22 src, nth_char 23 src with
                  | Some "9"%char, Some "1"%char => true | _, _ => false end in
  number ← (if national then substring avail 20 src 26 (length - 2) else substring avail 20 src 24 length);
  number ← number_handler 20 number;
  number ← (if Z.odd pre_length
            then if national then (if pre_length <? 2 then None else cut_at 20 (Z.to_nat (pre_length - 2)) number)
                 else (if pre_length <? 0 then None else cut_at 20 (Z.to_nat pre_length) number)
            else Some number);
  let at_ k := Z.to_nat (k + length) in
  temp_charset ← substring avail 3 src (at_ 26) 2;
  time ← substring avail 20 src (at_ 28) 12;
  time ← number_handler 20 time;
  time ← msg_time slack time;
  len ← substring avail (2 + slack) src (at_ 42) 2;
  content ← substring avail MAX_BUFFER_SIZE src (at_ 44) (strtol len 16 * 2);
  Some (mk_msg center number time content (msg_charset temp_charset charset0)).

(** ** The 7-bit alphabet *)

(** Two characters of memory as the text [y] of two digits. *)
Definition hex_pair (a b : ascii) : Z :=
  u8 (strtol (if Ascii.eqb a "000" then "" else if Ascii.eqb b "000" then String a "" else String a (String b "")) 16).

(** The bytes that the first loop writes into [x]. *)
Definition hex_bytes (mem : nat -> ascii) (n : nat) : list Z :=
  (fun i => hex_pair (mem (2 * i)%nat) (mem (2 * i + 1)%nat)) <$> seq 0 n.

(** The second loop: bytes to septets. *)
Fixpoint unpack (nByte nLeft : Z) (x : list Z) : list Z :=
  match x with
  | [] => []
  | b :: x =>
      let d := Z.land (Z.lor (Z.shiftl b nByte) nLeft) 0x7f in
      let left := u8 (Z.shiftr b (7 - nByte)) in
      if nByte + 1 =? 7 then d :: left :: unpack 0 0 x
      else d :: unpack (nByte + 1) left x
  end.

(** The text in [pDst]: the septets before the first NUL. *)
Fixpoint c_text (l : list Z) : string :=
  match l with
  | [] => ""
  | z :: l => if z =? 0 then "" else String (ascii_of_N (Z.to_N z)) (c_text l)
  end.

(** [mem]: the memory at [Src]; [x] has 50 bytes and [pDst] [cap]. *)
Definition gsmDecode7bit (cap : nat) (mem : nat -> ascii) (nSrcLength : nat) : option (option string) :=
  if Nat.odd nSrcLength then Some None
  else if (50 <? nSrcLength)%nat then None
  else
    let dst := unpack 0 0 (hex_bytes mem nSrcLength) in
    if (length dst <? cap)%nat then Some (Some (c_text dst)) else None.

(** ** Facts about numbers *)

Lemma swap_pairs_length s : String.length (swap_pairs s) = String.length s.
Proof.
  enough (forall n s, (String.length s <= n)%nat -> String.length (swap_pairs s) = String.length s) as H by by apply (H (String.length s)).
  clear s. induction n as [|n IH]; intros [|a [|b s]] H; try done; cbn in H; [lia|]. cbn. rewrite IH by lia. done.
Qed.

(** Induction two characters at a time. *)
Lemma pairs_ind (P : string -> Prop) :
  P "" -> (forall a, P (String a "")) -> (forall a b s, P s -> P (String a (String b s))) -> forall s, P s.
Proof.
  intros H0 H1 H2 s. enough (P s /\ forall a, P (String a s)) by tauto. induction s as [|a s [IH1 IH2]]; [auto|].
  split; [apply IH2|]. intros b. by apply H2.
Qed.

Lemma swap_pairs_swap s : swap_pairs (swap_pairs s) = s.
Proof. induction s as [|a|a b s IH] using pairs_ind; [done|done|]. cbn. by rewrite IH. Qed.

Lemma swap_pairs_all p s : all_chars p (swap_pairs s) = all_chars p s.
Proof. induction s as [|a|a b s IH] using pairs_ind; [done|done|]. cbn. rewrite IH. destruct (p a), (p b); done. Qed.

Lemma swap_pairs_app a b : Nat.even (String.length a) = true -> swap_pairs (a +:+ b) = swap_pairs a +:+ swap_pairs b.
Proof. induction a as [|x|x y a IH] using pairs_ind; [done|done|]. cbn. intros H. by rewrite IH. Qed.

Lemma drop_plus_id s : all_chars (fun c => negb (Ascii.eqb c "+")) s = true -> drop_plus s = s.
Proof. destruct s as [|c s]; [done|]. cbn. intros [Hc _]%andb_prop. unfold drop_plus. destruct c as [[] [] [] [] [] [] [] []]; done. Qed.

(** The number as it is transmitted, before swapping. *)
Definition padded (s : string) : string := if Nat.odd (String.length s) then s +:+ "F" else s.

Lemma padded_even s : Nat.even (String.length (padded s)) = true.
Proof.
  unfold padded. rewrite <- Nat.negb_even. destruct (Nat.even (String.length s)) eqn:E; [done|].
  cbn [negb]. rewrite length_app_s. cbn. by rewrite Nat.add_1_r, Nat.even_succ, <- Nat.negb_even, E.
Qed.

Definition no_plus (s : string) : bool := all_chars (fun c => negb (Ascii.eqb c "+")) s.

Lemma number_handler_run cap s : no_plus s = true -> (String.length s + 1 < cap)%nat ->
  number_handler cap s = Some (swap_pairs (padded s)).
Proof.
  intros Hp Hc. unfold number_handler. rewrite drop_plus_id by done. rewrite fits_ok by lia. cbn [mbind option_bind].
  unfold padded. destruct (Nat.odd _); [|done]. rewrite fits_ok; [done|]. rewrite length_app_s. cbn. lia.
Qed.

Lemma number_handler_plus cap s : no_plus s = true -> (String.length s + 1 < cap)%nat ->
  number_handler cap ("+" +:+ s) = Some (swap_pairs (padded s)).
Proof.
  intros Hp Hc. rewrite <- (number_handler_run cap s) by done. unfold number_handler.
  by rewrite (drop_plus_id s).
Qed.

Lemma no_plus_padded s : no_plus s = true -> no_plus (padded s) = true.
Proof. unfold padded, no_plus. intros H. destruct (Nat.odd _); [|done]. by rewrite all_chars_app, H. Qed.

Lemma padded_length s : (String.length s <= String.length (padded s) <= S (String.length s))%nat.
Proof. unfold padded. destruct (Nat.odd _); rewrite ?length_app_s; cbn; lia. Qed.

Lemma even_padded s : Nat.even (String.length s) = true -> padded s = s.
Proof. unfold padded. rewrite <- Nat.negb_even. by intros ->. Qed.

(** a number handled twice is the number again, with an [F] behind it
    when its number of digits is odd; the leading plus is dropped. *)
Theorem number_handler_roundtrip (cap : nat) (s : string)
    (Hp : no_plus s = true) (Hc : (String.length s + 2 < cap)%nat) :
  exists w, number_handler cap ("+" +:+ s) = Some w /\ number_handler cap s = Some w /\
            number_handler cap w = Some (padded s) /\ String.length w = String.length (padded s).
Proof.
  exists (swap_pairs (padded s)). rewrite number_handler_plus, number_handler_run by (done || lia).
  split; [done|]. split; [done|]. rewrite swap_pairs_length. split; [|done].
  pose proof (padded_length s). rewrite number_handler_run.
  - by rewrite even_padded, swap_pairs_swap by (rewrite swap_pairs_length; apply padded_even).
  - unfold no_plus. rewrite swap_pairs_all. by apply no_plus_padded.
  - rewrite swap_pairs_length. lia.
Qed.

Lemma number_handler_roundtrip_witness :
  exists w, number_handler 20 ("+" +:+ "8613010888500") = Some w /\ number_handler 20 "8613010888500" = Some w /\
            number_handler 20 w = Some (padded "8613010888500") /\ String.length w = String.length (padded "8613010888500").
Proof. apply number_handler_roundtrip; [reflexivity|cbn; lia]. Defined.

(** ** Facts about parts *)

Lemma substring_full s : String.substring 0 (String.length s) s = s.
Proof. induction s as [|c s IH]; [done|]. cbn. by rewrite IH. Qed.

Lemma substring_app i n m s : String.substring i (n + m) s = String.substring i n s +:+ String.substring (i + n) m s.
Proof.
  revert i n. induction s as [|c s IH]; intros i n; [by destruct i, n, m|].
  destruct i as [|i]; cbn; [|apply IH]. destruct n as [|n]; cbn; [done|]. by rewrite IH.
Qed.

Lemma substring_le i n s : (String.length (String.substring i n s) <= n)%nat.
Proof.
  revert i n. induction s as [|c s IH]; intros i n; [destruct i, n; cbn; lia|].
  destruct i as [|i]; cbn; [|apply IH]. destruct n as [|n]; cbn; [lia|]. apply le_n_S, IH.
Qed.

Lemma substring_0 i s : String.substring i 0 s = "".
Proof. revert i. induction s as [|c s IH]; intros [|i]; try done. apply IH. Qed.

Lemma parts_join k : forall msg i,
  cat_all ((fun j => String.substring (j * 280) 280 msg) <$> seq i k) = String.substring (i * 280) (k * 280) msg.
Proof.
  induction k as [|k IH]; intros msg i; [symmetry; apply substring_0|].
  cbn [seq fmap list_fmap]. change (cat_all (?x :: ?l)) with (x +:+ cat_all l). rewrite IH.
  change (S k * 280)%nat with (280 + k * 280)%nat. rewrite substring_app. f_equal. f_equal. lia.
Qed.

(** What is sent for one part. *)
Definition pdu (to part : string) : string :=
  "1100" +:+ (fmt_X_prec 2 (Z.of_nat (String.length to) + 2) +:+
    ("91" +:+ (swap_pairs (padded ("86" +:+ to)) +:+
    ("000800" +:+ (fmt_X_prec 2 (Z.of_nat (String.length part / 2)) +:+ part))))).
Definition pdu_lines (to part : string) : list string :=
  ["AT+CMGS=" +:+ (fmt_d_prec 2 (Z.of_nat (String.length (pdu to part) / 2)) +:+ String "013" "");
   pdu to part +:+ String "026" ""].

Lemma fmt_X_byte_length n : 0 <= n < 256 -> String.length (fmt_X_prec 2 n) = 2%nat.
Proof. intros Hn. rewrite (fmt_X_fixed 1) by (cbn; lia). by rewrite fixed_digits_length. Qed.

Lemma fmt_d_prec_short p k n : (p <= k)%nat -> (1 <= k)%nat -> 0 <= n < 10 ^ Z.of_nat k -> (String.length (fmt_d_prec p n) <= k)%nat.
Proof.
  intros Hp Hk Hn. rewrite fmt_d_prec_nonneg by lia. unfold pad_left. rewrite length_app_s.
  pose proof (digits_of_short 32 k n "" Hk Hn) as H. cbn [String.length] in H. fold (unsigned_digits 10 n) in H.
  assert (forall j, String.length (zeros j) = j) as -> by (induction j as [|j IH]; [done|cbn; by rewrite IH]). lia.
Qed.

Lemma pdu_length to part : (String.length to <= 16)%nat -> (String.length part <= 280)%nat ->
  (String.length (pdu to part) <= 315)%nat.
Proof.
  intros Ht Hp. unfold pdu. rewrite !length_app_s, swap_pairs_length.
  pose proof (padded_length ("86" +:+ to)) as H. rewrite length_app_s in H. cbn [String.length] in *.
  assert (String.length part / 2 < 256)%nat by (apply Nat.Div0.div_lt_upper_bound; lia).
  rewrite (fmt_X_byte_length (Z.of_nat (String.length to) + 2)) by lia.
  rewrite fmt_X_byte_length by (split; [apply Nat2Z.is_nonneg|]; change 256 with (Z.of_nat 256); by apply Nat2Z.inj_lt). lia.
Qed.

Lemma sms_send_lines to part : no_plus to = true -> (String.length to <= 16)%nat -> (String.length part <= 280)%nat ->
  sms_send to part = Some (pdu_lines to part).
Proof.
  intros Hp Ht Hl. pose proof (pdu_length to part Ht Hl) as Hlen. unfold sms_send.
  rewrite (fits_ok 20 ("+86" +:+ to)) by (rewrite length_app_s; cbn; lia). cbn [mbind option_bind].
  change ("+86" +:+ to) with ("+" +:+ ("86" +:+ to)). rewrite number_handler_plus by (try (rewrite length_app_s); cbn in *; done || lia).
  cbn [mbind option_bind]. change (fits 20 CENTER_NUMBER) with (Some CENTER_NUMBER). cbn [mbind option_bind].
  set (cn := number_handler 20 CENTER_NUMBER). vm_compute in cn. subst cn. cbn [mbind option_bind].
  set (cc := center_next_handler 20 _). vm_compute in cc. subst cc. cbn [mbind option_bind].
  unfold pdu in Hlen. rewrite !length_app_s in Hlen. unfold MAX_BUFFER_SIZE.
  rewrite fits_ok by (rewrite !length_app_s in *; cbn [String.length] in *; lia). cbn [mbind option_bind].
  rewrite fits_ok by (rewrite !length_app_s; cbn [String.length] in *; lia). cbn [mbind option_bind].
  unfold write_to_uart, MAX_BUFFER_SIZE. fold (pdu to part).
  assert (String.length (pdu to part) <= 315)%nat as Hlen' by by apply pdu_length.
  assert (String.length (pdu to part) / 2 < 1000)%nat by (apply Nat.Div0.div_lt_upper_bound; lia).
  pose proof (fmt_d_prec_short 2 3 (Z.of_nat (String.length (pdu to part) / 2)) ltac:(lia) ltac:(lia) ltac:(change (10 ^ Z.of_nat 3) with 1000; lia)).
  rewrite !fits_ok by (rewrite !length_app_s; cbn [String.length]; lia). done.
Qed.

(** The parts of a text. *)
Definition parts (msg : string) : list string :=
  if (String.length msg <=? 280)%nat then [msg]
  else ((fun j => String.substring (j * 280) 280 msg) <$> seq 0 (String.length msg / 280)) ++
       [String.substring (String.length msg / 280 * 280) (String.length msg - String.length msg / 280 * 280) msg].

Lemma send_parts_lines to msg k : forall i, no_plus to = true -> (String.length to <= 16)%nat ->
  ((i + k) * 280 <= String.length msg)%nat ->
  send_parts to msg i k = Some (((fun j => String.substring (j * 280) 280 msg) <$> seq i k) ≫= pdu_lines to).
Proof.
  induction k as [|k IH]; intros i Hp Ht Hk; [done|]. cbn [send_parts]. unfold substring.
  change (Z.to_nat 280) with 280%nat. change (280 =? 0)%nat with false. cbv iota zeta.
  replace ((i * 280 + 280 <=? S (String.length msg))%nat && (281 <=? 290)%nat) with true
    by (symmetry; apply andb_true_intro; split; apply Nat.leb_le; lia).
  cbn [mbind option_bind]. rewrite sms_send_lines by (done || apply substring_le). cbn [mbind option_bind].
  rewrite IH by (done || lia). done.
Qed.

Lemma sms_send_to_user_parts to msg : no_plus to = true -> (String.length to <= 16)%nat ->
  sms_send_to_user (Some to) (Some msg) = Some (true, parts msg ≫= pdu_lines to).
Proof.
  intros Hp Ht. pose proof (Nat.div_mod_eq (String.length msg) 280) as Hdm.
  pose proof (Nat.mod_upper_bound (String.length msg) 280 ltac:(lia)) as Hm.
  unfold parts, sms_send_to_user. destruct (Nat.leb_spec (String.length msg) 280) as [Hl|Hl]; [by rewrite sms_send_lines|].
  unfold sms_send_support_multi. rewrite send_parts_lines by (done || lia). cbn [mbind option_bind].
  unfold substring. rewrite Nat2Z.id.
  set (q := (String.length msg / 280)%nat) in *. set (rest := String.substring (q * 280) (String.length msg - q * 280) msg).
  assert ((if (String.length msg - q * 280 =? 0)%nat then fits 290 ""
    else if (q * 280 + (String.length msg - q * 280) <=? S (String.length msg))%nat && (S (String.length msg - q * 280) <=? 290)%nat
    then Some rest else None) = Some rest) as ->.
  { subst rest. destruct (Nat.eqb_spec (String.length msg - q * 280) 0) as [->|_].
    - change (fits 290 "") with (Some ""). f_equal. pose proof (substring_le (q * 280) 0 msg) as H0.
      by destruct (String.substring _ 0 msg); [|cbn in H0; lia].
    - by replace (_ && _) with true by (symmetry; apply andb_true_intro; split; apply Nat.leb_le; lia). }
  cbn [mbind option_bind]. rewrite sms_send_lines; [|done|done|subst rest; etrans; [apply substring_le|lia]].
  cbn [mbind option_bind]. rewrite bind_app. reflexivity.
Qed.

Lemma parts_facts msg : cat_all (parts msg) = msg /\ Forall (fun p => String.length p <= 280)%nat (parts msg) /\
  (length (parts msg) = if (String.length msg <=? 280)%nat then 1 else String.length msg / 280 + 1)%nat.
Proof.
  pose proof (Nat.div_mod_eq (String.length msg) 280) as Hdm. pose proof (Nat.mod_upper_bound (String.length msg) 280 ltac:(lia)) as Hm.
  unfold parts. destruct (Nat.leb_spec (String.length msg) 280) as [Hl|Hl].
  { split; [apply app_nil_r_s|]. split; [by apply Forall_singleton|done]. }
  set (q := (String.length msg / 280)%nat) in *. rewrite cat_all_app, parts_join. split.
  { unfold cat_all. cbn [foldr]. rewrite app_nil_r_s. rewrite <- (substring_app 0 (q * 280)).
    replace (q * 280 + (String.length msg - q * 280))%nat with (String.length msg) by lia. apply substring_full. }
  split; [|rewrite length_app, length_fmap, length_seq; cbn; lia].
  apply Forall_app. split; [|apply Forall_singleton; etrans; [apply substring_le|lia]].
  apply Forall_fmap, Forall_forall. intros j _. apply substring_le.
Qed.

(** C34: to a number of at most 16 digits any text is sent, in parts of at
    most 280 digits that join to the text; a text whose length is a multiple
    of 280 gets an empty part in addition.  A longer number overflows. *)
Theorem sms_parts_sent (to msg : string) (Hp : no_plus to = true) :
  ((String.length to <= 16)%nat ->
   exists ps, sms_send_to_user (Some to) (Some msg) = Some (true, ps ≫= pdu_lines to) /\
     cat_all ps = msg /\ Forall (fun p => String.length p <= 280)%nat ps /\
     (length ps = if (String.length msg <=? 280)%nat then 1 else String.length msg / 280 + 1)%nat) /\
  ((16 < String.length to)%nat -> sms_send_to_user (Some to) (Some msg) = None).
Proof.
  split; intros Ht; [exists (parts msg); split; [by apply sms_send_to_user_parts|apply parts_facts]|].
  assert (forall part, sms_send to part = None) as Hn.
  { intros part. unfold sms_send. by rewrite (fits_overflow 20 ("+86" +:+ to)) by (rewrite length_app_s; cbn; lia). }
  pose proof (Nat.div_mod_eq (String.length msg) 280) as Hdm. pose proof (Nat.mod_upper_bound (String.length msg) 280 ltac:(lia)) as Hm.
  unfold sms_send_to_user. destruct (Nat.leb_spec (String.length msg) 280); [by rewrite Hn|].
  unfold sms_send_support_multi. destruct (String.length msg / 280)%nat as [|q] eqn:E; [lia|].
  cbn [send_parts]. destruct (substring _ 290 msg (0 * 280) 280) as [part|]; [|done]. cbn [mbind option_bind]. by rewrite (Hn part).
Qed.

Lemma sms_parts_sent_witness :
  exists ps, sms_send_to_user (Some "13800138000") (Some "5BF94E0D8D77") = Some (true, ps ≫= pdu_lines "13800138000") /\
     cat_all ps = "5BF94E0D8D77" /\ Forall (fun p => String.length p <= 280)%nat ps /\ length ps = 1%nat.
Proof. apply (sms_parts_sent "13800138000" "5BF94E0D8D77"); [reflexivity|cbn; lia]. Defined.

(** ** Facts about septets *)

(** The number whose digits in base [b] are [l], the lowest first. *)
Definition digits_val (b : Z) (l : list Z) : Z := foldr (fun d v => d + b * v) 0 l.

Lemma land_7f z : Z.land z 0x7f = z mod 128.
Proof. change 0x7f with (Z.ones 7). by rewrite Z.land_ones by lia. Qed.

Lemma join_bits b n r : 0 <= r -> 0 <= n < 2 ^ r -> Z.lor (Z.shiftl b r) n = b * 2 ^ r + n.
Proof.
  intros Hr Hn. rewrite Z.shiftl_mul_pow2 by done. rewrite <- Z.add_lor_land.
  replace (Z.land (b * 2 ^ r) n) with 0; [lia|]. symmetry. apply Z.bits_inj'. intros i Hi.
  rewrite Z.land_spec, Z.bits_0. destruct (Z.lt_ge_cases i r) as [H|H].
  - by rewrite Z.mul_pow2_bits_low.
  - destruct (Z.eq_dec n 0) as [->|Hn0]; [by rewrite Z.bits_0, andb_false_r|].
    rewrite (Z.bits_above_log2 n i); [|lia|apply Z.lt_le_trans with r; [apply Z.log2_lt_pow2; lia|done]].
    apply andb_false_r.
Qed.

(** One round of the loop: a septet and what is carried over. *)
Lemma unpack_step b n r : 0 <= r <= 6 -> 0 <= n < 2 ^ r -> byte_range b ->
  Z.land (Z.lor (Z.shiftl b r) n) 0x7f = (b * 2 ^ r + n) mod 128 /\
  u8 (Z.shiftr b (7 - r)) = (b * 2 ^ r + n) / 128 /\ 0 <= (b * 2 ^ r + n) / 128 < 2 ^ (r + 1).
Proof.
  intros Hr Hn Hb. unfold byte_range in Hb. rewrite land_7f, join_bits by lia. split; [done|].
  assert (Z.shiftr b (7 - r) = (b * 2 ^ r + n) / 128) as E.
  { rewrite Z.shiftr_div_pow2 by lia. replace 128 with (2 ^ r * 2 ^ (7 - r)) by (rewrite <- Z.pow_add_r by lia; by replace (r + (7 - r)) with 7 by lia).
    rewrite <- Z.div_div by lia. rewrite Z.div_add_l, (Z.div_small n) by lia. by rewrite Z.add_0_r. }
  assert (0 <= (b * 2 ^ r + n) / 128 < 2 ^ (r + 1)) as Hd.
  { split; [apply Z.div_pos; lia|]. apply Z.div_lt_upper_bound; [lia|]. rewrite Z.pow_add_r by lia. nia. }
  rewrite E. split; [|done]. apply u8_small. unfold byte_range. split; [lia|].
  assert (2 ^ (r + 1) <= 2 ^ 7) by (apply Z.pow_le_mono_r; lia). cbn in *. lia.
Qed.

Lemma unpack_val x : forall r n, 0 <= r <= 6 -> 0 <= n < 2 ^ r -> bytes_ok x ->
  exists c, 0 <= c /\ n + 2 ^ r * digits_val 256 x = digits_val 128 (unpack r n x) + c * 128 ^ Z.of_nat (length (unpack r n x)) /\
  Forall (fun d => 0 <= d < 128) (unpack r n x) /\
  (length (unpack r n x) = length x + (Z.to_nat r + length x) / 7)%nat.
Proof.
  induction x as [|b x IH]; intros r n Hr Hn Hx.
  { exists n. cbn [unpack digits_val foldr length]. rewrite Nat.add_0_r, Nat.div_small by lia. repeat split; [lia|cbn; lia|constructor]. }
  apply Forall_cons in Hx as [Hb Hx]. destruct (unpack_step b n r Hr Hn Hb) as (Ed & El & Hl).
  cbn [unpack]. cbv zeta. rewrite Ed, El. pose proof (Z.div_mod (b * 2 ^ r + n) 128 ltac:(lia)) as Hdm.
  pose proof (Z.mod_pos_bound (b * 2 ^ r + n) 128 ltac:(lia)) as Hmod.
  set (d := (b * 2 ^ r + n) mod 128) in *. set (m := (b * 2 ^ r + n) / 128) in *.
  change (digits_val 256 (b :: x)) with (b + 256 * digits_val 256 x).
  destruct (Z.eqb_spec (r + 1) 7) as [E|E].
  - assert (r = 6) as -> by lia. destruct (IH 0 0 ltac:(lia) ltac:(lia) Hx) as (c & Hc & Hv & HF & Hlen).
    exists c. split; [done|]. change (2 ^ 0) with 1 in Hv. change (2 ^ 6) with 64 in *. change (2 ^ (6 + 1)) with 128 in Hl.
    cbn [length]. rewrite !Nat2Z.inj_succ, !Z.pow_succ_r by lia.
    change (digits_val 128 (d :: m :: ?l)) with (d + 128 * (m + 128 * digits_val 128 l)).
    split; [nia|]. split; [apply Forall_cons; split; [done|]; by apply Forall_cons|]. rewrite Hlen. change (Z.to_nat 6) with 6%nat. change (Z.to_nat 0) with 0%nat.
    replace (6 + S (length x))%nat with (length x + 1 * 7)%nat by lia. rewrite Nat.div_add by lia. cbn [Nat.add]. lia.
  - destruct (IH (r + 1) m ltac:(lia) Hl Hx) as (c & Hc & Hv & HF & Hlen).
    exists c. split; [done|]. cbn [length]. rewrite !Nat2Z.inj_succ, !Z.pow_succ_r by lia.
    change (digits_val 128 (d :: ?l)) with (d + 128 * digits_val 128 l). rewrite Z.pow_add_r in Hv by lia. change (2 ^ 1) with 2 in Hv.
    split; [nia|]. split; [by constructor|]. rewrite Hlen. replace (Z.to_nat (r + 1) + length x)%nat with (Z.to_nat r + S (length x))%nat by lia. lia.
Qed.

Lemma unpack_app x : forall r n y, exists r' n', unpack r n (x ++ y) = unpack r n x ++ unpack r' n' y.
Proof.
  induction x as [|b x IH]; intros r n y; [by exists r, n|]. cbn [app unpack]. cbv zeta. destruct (r + 1 =? 7).
  - destruct (IH 0 0 y) as (r' & n' & ->). by eexists _, _.
  - destruct (IH (r + 1) (u8 (Z.shiftr b (7 - r))) y) as (r' & n' & ->). by eexists _, _.
Qed.

Lemma digits_val_range b l : 1 < b -> Forall (fun d => 0 <= d < b) l -> 0 <= digits_val b l < b ^ Z.of_nat (length l).
Proof.
  intros Hb. induction 1 as [|d l Hd HF IH]; [cbn; lia|]. cbn [length]. rewrite Nat2Z.inj_succ, Z.pow_succ_r by lia.
  change (digits_val b (d :: l)) with (d + b * digits_val b l). nia.
Qed.

(** Digits are determined by the number, up to leading zeros. *)
Lemma digits_val_inj b l l' : 1 < b -> Forall (fun d => 0 <= d < b) l -> Forall (fun d => 0 <= d < b) l' ->
  (length l <= length l')%nat -> digits_val b l = digits_val b l' -> l' = l ++ repeat 0 (length l' - length l).
Proof.
  intros Hb HF. revert l'. induction HF as [|d l Hd HF IH]; intros l' HF' Hlen Hv.
  - cbn in Hv |- *. rewrite Nat.sub_0_r. clear Hlen. induction HF' as [|d l' Hd HF' IH]; [done|].
    change (digits_val b (d :: l')) with (d + b * digits_val b l') in Hv.
    pose proof (digits_val_range b l' Hb HF'). cbn. assert (d = 0) as -> by nia. f_equal. apply IH. nia.
  - destruct l' as [|d' l']; [cbn in Hlen; lia|]. apply Forall_cons in HF' as [Hd' HF'].
    change (digits_val b (?x :: ?k)) with (x + b * digits_val b k) in Hv.
    assert (d = d' /\ digits_val b l = digits_val b l') as [-> Hv'].
    { assert (d = d') by (apply (f_equal (fun z => z mod b)) in Hv; rewrite !(Z.mul_comm b), !Z.mod_add, !Z.mod_small in Hv by lia; done). nia. }
    cbn. f_equal. apply IH; [done|cbn in Hlen; lia|done].
Qed.

Lemma c_text_stop l k : c_text (l ++ 0 :: k) = c_text l.
Proof. induction l as [|z l IH]; [done|]. cbn. by rewrite IH. Qed.

(** The memory that holds the text [s]: its NUL, and what was left behind it. *)
Definition mem_of (s : string) (stale : nat -> ascii) (i : nat) : ascii :=
  match String.get i s with
  | Some c => c
  | None => if (i =? String.length s)%nat then "000"%char else stale i
  end.

(** Bytes as the modem writes them. *)
Fixpoint hex_text (l : list Z) : string :=
  match l with [] => "" | b :: l => String (digit_char (b / 16)) (String (digit_char (b mod 16)) (hex_text l)) end.

Lemma hex_text_length l : String.length (hex_text l) = (2 * length l)%nat.
Proof. induction l as [|b l IH]; [done|]. cbn [hex_text String.length length]. rewrite IH. lia. Qed.

Lemma hex_bytes_ext m m' n : (forall i, m i = m' i) -> hex_bytes m n = hex_bytes m' n.
Proof. intros H. unfold hex_bytes. apply list_fmap_ext. intros i x _. by rewrite !H. Qed.

Lemma hex_bytes_cons m n : hex_bytes m (S n) = hex_pair (m 0%nat) (m 1%nat) :: hex_bytes (fun i => m (S (S i))) n.
Proof.
  unfold hex_bytes. cbn [seq fmap list_fmap]. change (2 * 0)%nat with 0%nat. change (0 + 1)%nat with 1%nat. f_equal.
  rewrite <- seq_shift, <- list_fmap_compose. apply list_fmap_ext. intros i x _. unfold compose.
  by replace (2 * S x)%nat with (S (S (2 * x))) by lia.
Qed.

Lemma mem_of_tail a b s stale i : mem_of (String a (String b s)) stale (S (S i)) = mem_of s (fun i => stale (S (S i))) i.
Proof. reflexivity. Qed.

Lemma digit_char_not_nul d : 0 <= d < 16 -> Ascii.eqb (digit_char d) "000" = false.
Proof.
  intros Hd. pose proof (is_hex_digit_char d Hd) as H. destruct (Ascii.eqb_spec (digit_char d) "000") as [E|]; [|done].
  by rewrite E in H.
Qed.

Lemma hex_pair_digits b : byte_range b -> hex_pair (digit_char (b / 16)) (digit_char (b mod 16)) = b.
Proof.
  unfold byte_range. intros Hb. pose proof (Z.div_mod b 16 ltac:(lia)). pose proof (Z.mod_pos_bound b 16 ltac:(lia)).
  assert (0 <= b / 16 < 16) by (split; [apply Z.div_pos; lia|apply Z.div_lt_upper_bound; lia]).
  unfold hex_pair. rewrite !digit_char_not_nul, strtol_hex_byte by done. rewrite u8_small; [lia|unfold byte_range; lia].
Qed.

Lemma hex_bytes_text l : forall stale k, bytes_ok l ->
  exists rest, hex_bytes (mem_of (hex_text l) stale) (length l + S k) = l ++ 0 :: rest.
Proof.
  induction l as [|b l IH]; intros stale k Hl.
  - eexists. cbn [length Nat.add]. rewrite hex_bytes_cons. reflexivity.
  - apply Forall_cons in Hl as [Hb Hl]. destruct (IH (fun i => stale (S (S i))) k Hl) as [rest Hr].
    exists rest. cbn [length Nat.add]. rewrite hex_bytes_cons. cbn [hex_text].
    change (mem_of (String ?x ?s) stale 0%nat) with x. change (mem_of (String ?x (String ?y ?s)) stale 1%nat) with y.
    rewrite hex_pair_digits by done. cbn [app]. f_equal. rewrite <- Hr. by apply hex_bytes_ext.
Qed.

(** [bytes] carry [septets]: the same number, low digits first, in as many
    bytes as seven bits for each septet need. *)
Definition packs (septets bytes : list Z) : Prop :=
  Forall (fun d => 0 < d < 128) septets /\ bytes_ok bytes /\
  digits_val 256 bytes = digits_val 128 septets /\ (7 * length septets <= 8 * length bytes)%nat.

Lemma hex_bytes_ok m n : bytes_ok (hex_bytes m n).
Proof. apply Forall_fmap, Forall_forall. intros i _. apply u8_range. Qed.

(** The septets of the packed bytes and one zero byte are the text and zeros. *)
Lemma unpack_packed septets bytes : packs septets bytes -> bytes <> [] ->
  exists k, unpack 0 0 (bytes ++ [0]) = septets ++ repeat 0 (S k).
Proof.
  intros (HF & Hb & Hv & Hlen) Hne.
  assert (bytes_ok (bytes ++ [0])) as Hb0 by (apply Forall_app; split; [done|apply Forall_singleton; unfold byte_range; lia]).
  destruct (unpack_val (bytes ++ [0]) 0 0 ltac:(lia) ltac:(cbn; lia) Hb0) as (c & Hc & Hval & HFo & Hlo).
  assert (digits_val 256 (bytes ++ [0]) = digits_val 256 bytes) as Hv0 by (unfold digits_val; rewrite foldr_app; reflexivity).
  rewrite Hv0, Hv in Hval. change (2 ^ 0) with 1 in Hval. rewrite length_app in Hlo. change (Z.to_nat 0) with 0%nat in Hlo. cbn [length Nat.add] in Hlo.
  set (o := unpack 0 0 (bytes ++ [0])) in *.
  assert (Forall (fun d => 0 <= d < 128) septets) as HF' by (eapply Forall_impl; [exact HF|cbn; lia]).
  assert (length septets < length o)%nat as Hlt.
  { rewrite Hlo. pose proof (Nat.div_mod_eq (length bytes + 1) 7). pose proof (Nat.mod_upper_bound (length bytes + 1) 7 ltac:(lia)). lia. }
  pose proof (digits_val_range 128 septets ltac:(lia) HF') as Hr1. pose proof (digits_val_range 128 o ltac:(lia) HFo) as Hr2.
  assert (128 ^ Z.of_nat (length septets) <= 128 ^ Z.of_nat (length o)) by (apply Z.pow_le_mono_r; lia).
  assert (c = 0) as -> by nia.
  pose proof (digits_val_inj 128 septets o ltac:(lia) HF' HFo ltac:(lia) ltac:(lia)) as E. rewrite E.
  exists (length o - length septets - 1)%nat. f_equal. f_equal. lia.
Qed.

(** The decoder's own bound: 50 digits. *)
Lemma gsm_decodes (septets bytes : list Z) (stale : nat -> ascii) : packs septets bytes -> (length bytes <= 25)%nat ->
  gsmDecode7bit 100 (mem_of (hex_text bytes) stale) (String.length (hex_text bytes)) = Some (Some (c_text septets)).
Proof.
  intros Hp Hn.
  assert (length septets <= 8 * length bytes)%nat as Hm by (destruct Hp as (_ & _ & _ & ?); lia).
  pose proof Hp as (_ & Hb & _ & _). rewrite hex_text_length. unfold gsmDecode7bit.
  rewrite Nat.odd_mul. change (Nat.odd 2) with false. cbn [andb].
  replace (50 <? 2 * length bytes)%nat with false by (symmetry; apply Nat.ltb_ge; lia).
  destruct (decide (bytes = [])) as [->|Hne]; [destruct septets; [done|cbn in Hm; lia]|].
  assert (length bytes <> 0)%nat as H0 by by destruct bytes.
  destruct (unpack_packed _ _ Hp Hne) as [k Hk].
  destruct (hex_bytes_text bytes stale (length bytes - 1) Hb) as [rest Hr].
  replace (length bytes + S (length bytes - 1))%nat with (2 * length bytes)%nat in Hr by lia.
  destruct (unpack_val (hex_bytes (mem_of (hex_text bytes) stale) (2 * length bytes)) 0 0 ltac:(lia) ltac:(cbn; lia) (hex_bytes_ok _ _))
    as (c & _ & _ & _ & Hl).
  replace (length (hex_bytes _ (2 * length bytes))) with (2 * length bytes)%nat in Hl by (unfold hex_bytes; by rewrite length_fmap, length_seq).
  change (Z.to_nat 0) with 0%nat in Hl. cbn [Nat.add] in Hl. assert (2 * length bytes / 7 <= 7)%nat by (apply Nat.lt_succ_r, Nat.Div0.div_lt_upper_bound; lia).
  replace (length (unpack _ _ _) <? 100)%nat with true by (symmetry; apply Nat.ltb_lt; lia).
  rewrite Hr. replace (bytes ++ 0 :: rest) with ((bytes ++ [0]) ++ rest) by by rewrite <- app_assoc.
  destruct (unpack_app (bytes ++ [0]) 0 0 rest) as (r' & n' & ->). rewrite Hk, <- app_assoc.
  change (repeat 0 (S k) ++ ?l) with (0 :: repeat 0 k ++ l). by rewrite c_text_stop.
Qed.

Lemma gsm_overflows (bytes : list Z) (stale : nat -> ascii) : (25 < length bytes)%nat ->
  gsmDecode7bit 100 (mem_of (hex_text bytes) stale) (String.length (hex_text bytes)) = None.
Proof.
  intros Hn. rewrite hex_text_length. unfold gsmDecode7bit. rewrite Nat.odd_mul. change (Nat.odd 2) with false. cbn [andb].
  by replace (50 <? 2 * length bytes)%nat with true by (symmetry; apply Nat.ltb_lt; lia).
Qed.

(** C33: a message of the 7-bit alphabet of at most 25 bytes is decoded to its
    text, whatever the memory behind it holds; a longer one, of which the
    caller passes up to 50 bytes, is written past the end of [x]. *)
Theorem gsm_7bit_decoded (septets bytes : list Z) (stale : nat -> ascii) (Hp : packs septets bytes) :
  ((length bytes <= 25)%nat ->
   gsmDecode7bit 100 (mem_of (hex_text bytes) stale) (String.length (hex_text bytes)) = Some (Some (c_text septets))) /\
  ((25 < length bytes)%nat ->
   gsmDecode7bit 100 (mem_of (hex_text bytes) stale) (String.length (hex_text bytes)) = None).
Proof. split; intros Hn; [by apply gsm_decodes|by apply gsm_overflows]. Qed.

Lemma gsm_7bit_decoded_witness :
  gsmDecode7bit 100 (mem_of (hex_text [0x39; 0x58; 0x0E]) (fun _ => "x"%char)) (String.length (hex_text [0x39; 0x58; 0x0E])) =
    Some (Some (c_text [57; 48; 57])) /\ c_text [57; 48; 57] = "909".
Proof.
  split; [|reflexivity]. apply (gsm_7bit_decoded [57; 48; 57] [0x39; 0x58; 0x0E]); [|cbn; lia].
  split; [by repeat constructor|]. split; [by repeat constructor|]. split; [reflexivity|cbn; lia].
Defined.

(** ** A received message *)

Definition total_length (l : list string) : nat := foldr (fun s n => (String.length s + n)%nat) 0%nat l.

Lemma cat_all_length l : String.length (cat_all l) = total_length l.
Proof. induction l as [|s l IH]; [done|]. change (cat_all (s :: l)) with (s +:+ cat_all l). rewrite length_app_s, IH. done. Qed.

Lemma substring_skip a b i n : String.substring (String.length a + i) n (a +:+ b) = String.substring i n b.
Proof. induction a as [|c a IH]; [done|]. cbn. done. Qed.

Lemma substring_prefix a b : String.substring 0 (String.length a) (a +:+ b) = a.
Proof. induction a as [|c a IH]; [by destruct b|]. cbn. by rewrite IH. Qed.

(** A field of a concatenation, by its place. *)
Lemma field_slice l k x i n : l !! k = Some x -> i = total_length (take k l) -> n = String.length x ->
  String.substring i n (cat_all l) = x.
Proof.
  intros Hk -> ->. revert k Hk. induction l as [|s l IH]; intros [|k] Hk; simplify_eq/=.
  - apply substring_prefix.
  - change (cat_all (s :: l)) with (s +:+ cat_all l). rewrite substring_skip. by apply IH.
Qed.

Lemma substring_get i s a b : String.substring i 2 s = String a (String b "") -> nth_char i s = Some a /\ nth_char (S i) s = Some b.
Proof.
  unfold nth_char. revert i. induction s as [|c s IH]; intros i H; [by destruct i|].
  destruct i as [|i]; [|by apply IH in H]. destruct s as [|d s]; cbn in H; [done|].
  injection H as -> -> _. done.
Qed.

Lemma substring_read avail cap src i n x : (i + n <= avail)%nat -> (n < cap)%nat -> (0 < n)%nat ->
  String.substring i n src = x -> substring avail cap src i (Z.of_nat n) = Some x.
Proof.
  intros Ha Hc Hn <-. unfold substring. rewrite Nat2Z.id. replace (n =? 0)%nat with false by (symmetry; apply Nat.eqb_neq; lia).
  by replace (_ && _) with true by (symmetry; apply andb_true_intro; split; apply Nat.leb_le; lia).
Qed.

(** The fields of a message from the network: the service centre, the sender,
    the coding, the time, the length and the text. *)
Definition deliver_fields (center number dcs : string) (time : list Z) (zone : string) (udl : Z) (content : string) : list string :=
  ["0891"; "68"; swap_pairs (padded center); "24"; "0D"; "91"; "68"; swap_pairs (padded number); "00"; dcs;
   swap_pairs (cat_all (fmt_d_prec 2 <$> time)); zone; fmt_X_prec 2 udl; content].

Definition stamp (time : list Z) : string :=
  match fmt_d_prec 2 <$> time with
  | [y; mo; d; h; mi; s] => "20" +:+ (y +:+ ("-" +:+ (mo +:+ ("-" +:+ (d +:+ (" " +:+ (h +:+ (":" +:+ (mi +:+ (":" +:+ s))))))))))
  | _ => ""
  end.

Definition two_digits (n : Z) : Prop := 0 <= n < 100.

Lemma two_digits_length n : two_digits n -> String.length (fmt_d_prec 2 n) = 2%nat.
Proof. intros H. apply fmt_d_prec_length; [exact H|lia]. Qed.

Lemma time_fields_length time : length time = 6%nat -> Forall two_digits time ->
  String.length (cat_all (fmt_d_prec 2 <$> time)) = 12%nat.
Proof.
  intros Hl HF. destruct time as [|y [|mo [|d [|h [|mi [|s [|]]]]]]]; try done. rewrite cat_all_length.
  repeat (apply Forall_cons in HF as [? HF]). cbn [fmap list_fmap total_length foldr].
  by rewrite !two_digits_length.
Qed.

Lemma msg_time_read slack time : (1 <= slack)%nat -> length time = 6%nat -> Forall two_digits time ->
  msg_time slack (cat_all (fmt_d_prec 2 <$> time)) = Some (stamp time).
Proof.
  intros H2 Hl HF. destruct time as [|y [|mo [|d [|h [|mi [|s [|]]]]]]]; try done.
  repeat (apply Forall_cons in HF as [? HF]). unfold msg_time, stamp. cbv zeta.
  assert (forall i k n, i = (2 * k)%nat -> fmt_d_prec 2 <$> [y; mo; d; h; mi; s] !! k = Some (fmt_d_prec 2 n) -> two_digits n ->
    substring 20 (2 + slack) (cat_all (fmt_d_prec 2 <$> [y; mo; d; h; mi; s])) i 2 = Some (fmt_d_prec 2 n)) as Hp.
  { intros i k n -> Hk Hn. assert (k < 6)%nat by (rewrite <- list_lookup_fmap in Hk; by apply lookup_lt_Some in Hk).
    apply (substring_read 20 (2 + slack) _ (2 * k) 2); [lia|lia|lia|].
    apply (field_slice _ k); [by rewrite list_lookup_fmap| |by rewrite two_digits_length].
    do 6 (destruct k as [|k]; [cbn [fmap list_fmap take total_length foldr]; by rewrite ?two_digits_length|]). lia. }
  assert (forall n, two_digits n -> fmt_d_prec 2 (u8 (atoi (fmt_d_prec 2 n))) = fmt_d_prec 2 n) as Ha.
  { intros n Hn. unfold two_digits in Hn. rewrite atoi_fmt_d_prec by (unfold INT_MAX; lia). rewrite u8_small; [done|unfold byte_range; lia]. }
  rewrite (Hp 0%nat 0%nat y), (Hp 2%nat 1%nat mo), (Hp 4%nat 2%nat d), (Hp 6%nat 3%nat h), (Hp 8%nat 4%nat mi), (Hp 10%nat 5%nat s) by done.
  cbn [mbind option_bind fmap list_fmap]. rewrite !Ha by done. apply fits_ok. rewrite !length_app_s, !two_digits_length by done. cbn. lia.
Qed.

Definition coding (dcs : string) (cs : charset_t) : Prop :=
  (dcs = "08" /\ cs = CHARSET_UCS2) \/ (dcs = "00" /\ cs = CHARSET_7BITS) \/ (dcs = "04" /\ cs = CHARSET_8BITS).

(** A field of the source can be read where the code expects it. *)
Lemma field_read avail cap l k x i n :
  (total_length l <= avail)%nat -> l !! k = Some x -> i = total_length (take k l) -> n = Z.of_nat (String.length x) ->
  (0 < String.length x < cap)%nat -> substring avail cap (cat_all l) i n = Some x.
Proof.
  intros Ha Hk Hi -> Hn. apply substring_read; [|lia|lia|by apply (field_slice l k)].
  subst i. etrans; [|exact Ha]. clear -Hk. revert k Hk. induction l as [|s l IH]; intros [|k] Hk; simplify_eq/=; [lia|].
  specialize (IH k Hk). lia.
Qed.

(** Eleven digits are sent as twelve characters and come back. *)
Lemma eleven_sent s : String.length s = 11%nat -> no_plus s = true ->
  String.length (swap_pairs (padded s)) = 12%nat /\
  (n ← number_handler 20 (swap_pairs (padded s)); cut_at 20 11 n) = Some s.
Proof.
  intros Hl Hp. assert (padded s = s +:+ "F") as E by (unfold padded; by rewrite Hl).
  rewrite swap_pairs_length, E, length_app_s, Hl. split; [done|].
  rewrite number_handler_run.
  - rewrite even_padded by (rewrite swap_pairs_length, length_app_s, Hl; done). rewrite swap_pairs_swap. cbn [mbind option_bind].
    unfold cut_at. change (11 <? 20)%nat with true. cbv iota. f_equal. rewrite <- Hl. apply substring_prefix.
  - unfold no_plus in *. by rewrite swap_pairs_all, all_chars_app, Hp.
  - rewrite swap_pairs_length, length_app_s, Hl. cbn. lia.
Qed.

Lemma time_no_plus time : Forall two_digits time -> no_plus (cat_all (fmt_d_prec 2 <$> time)) = true.
Proof.
  unfold no_plus. induction 1 as [|n l Hn HF IH]; [done|]. cbn [fmap list_fmap]. change (cat_all (?x :: ?k)) with (x +:+ cat_all k).
  rewrite all_chars_app, IH, andb_true_r. unfold two_digits in Hn. rewrite fmt_d_prec_nonneg by lia.
  eapply all_chars_impl; [|apply pad_left_digits]. intros c Hc. by destruct (Ascii.eqb_spec c "+") as [->|].
Qed.

Lemma strtol_fmt_X_byte n : 0 <= n < 256 -> strtol (fmt_X_prec 2 n) 16 = n.
Proof.
  intros Hn. rewrite (fmt_X_fixed 1) by (cbn; lia). cbn [fixed_digits].
  assert (0 <= n / 16 < 16) by (split; [apply Z.div_pos; lia|apply Z.div_lt_upper_bound; lia]).
  rewrite strtol_hex_byte; [pose proof (Z.div_mod n 16); rewrite (Z.mod_small (n / 16)); lia|rewrite Z.mod_small; lia|apply Z.mod_pos_bound; lia].
Qed.

(** Every message overflows the arrays [t] and [len] by one byte.  When the
    bytes behind them are unused, it is taken apart into the sender, the centre,
    the time, the coding and the text. *)
Theorem message_received (slack avail : nat) (charset0 : charset_t) (center number dcs zone content post : string)
    (cs : charset_t) (time : list Z) (udl : Z)
    (Hc : String.length center = 11%nat /\ no_plus center = true)
    (Hn : String.length number = 11%nat /\ no_plus number = true)
    (Hd : coding dcs cs)
    (Ht : length time = 6%nat /\ Forall two_digits time) (Hz : String.length zone = 2%nat)
    (Hu : 0 < udl < 256) (Hl : Z.of_nat (String.length content) = 2 * udl)
    (Ha : (58 + String.length content + String.length post <= avail)%nat) (H2 : (1 <= slack)%nat) :
  handler_receive_msg slack avail charset0 (cat_all (deliver_fields center number dcs time zone udl content) +:+ post) =
    Some (mk_msg center number (stamp time) content cs) /\
  handler_receive_msg 0 avail charset0 (cat_all (deliver_fields center number dcs time zone udl content) +:+ post) = None.
Proof.
  destruct Hc as [Hcl Hcp], Hn as [Hnl Hnp], Ht as [Htl Htf].
  destruct (eleven_sent center Hcl Hcp) as [Lc Rc]. destruct (eleven_sent number Hnl Hnp) as [Ln Rn].
  assert (String.length dcs = 2%nat) as Ld by (by destruct Hd as [[-> _]|[[-> _]|[-> _]]]).
  assert (msg_charset dcs charset0 = cs) as Hcs by (by destruct Hd as [[-> ->]|[[-> ->]|[-> ->]]]).
  pose proof (time_fields_length time Htl Htf) as Lt. pose proof (fmt_X_byte_length udl ltac:(lia)) as Lu.
  assert (String.length (swap_pairs (cat_all (fmt_d_prec 2 <$> time))) = 12%nat) as Lt' by (by rewrite swap_pairs_length).
  set (l := deliver_fields center number dcs time zone udl content ++ [post]).
  replace (cat_all _ +:+ post) with (cat_all l) by (unfold l; rewrite cat_all_app; cbn [cat_all foldr]; by rewrite app_nil_r_s).
  assert (total_length l <= avail)%nat as Hav by (subst l; cbn [total_length deliver_fields foldr String.length app]; lia).
  assert (forall k, (k < 14)%nat -> total_length (take k l) = nth k [0; 4; 6; 18; 20; 22; 24; 26; 38; 40; 42; 54; 56; 58]%nat 0%nat) as Hoff.
  { intros k Hk. subst l. unfold deliver_fields. cbn [app]. do 14 (destruct k as [|k]; [cbn [take total_length foldr String.length nth]; lia|]). lia. }
  assert (forall k x i n cap, (k < 14)%nat -> l !! k = Some x -> i = nth k [0; 4; 6; 18; 20; 22; 24; 26; 38; 40; 42; 54; 56; 58]%nat 0%nat ->
    n = Z.of_nat (String.length x) -> (0 < String.length x < cap)%nat -> substring avail cap (cat_all l) i n = Some x) as Hf.
  { intros k x i n cap Hk14 Hk Hi Hn Hx. apply (field_read avail cap l k); [done|done| |done|done]. by rewrite Hoff. }
  assert (String.substring 22 2 (cat_all l) = "91") as H91 by (apply (field_slice l 5); [done|by rewrite Hoff by lia|done]).
  apply substring_get in H91 as [H9 H1].
  unfold handler_receive_msg.
  rewrite (Hf 2%nat (swap_pairs (padded center)) 6%nat 12 20%nat) by (done || lia). cbn [mbind option_bind].
  destruct (number_handler 20 (swap_pairs (padded center))) as [cn|]; [|done]. cbn [mbind option_bind] in Rc |- *. rewrite Rc.
  cbn [mbind option_bind]. split; [|unfold substring; change (2 + 0)%nat with 2%nat; change (Z.to_nat 2) with 2%nat; cbn [Nat.eqb Nat.leb andb]; by rewrite andb_false_r].
  rewrite (Hf 4%nat "0D" 20%nat 2 (2 + slack)%nat) by (done || cbn; lia). cbn [mbind option_bind].
  change (strtol "0D" 16) with 13. cbv zeta. change (Z.odd 13) with true. cbv iota. rewrite H9, H1. cbv iota.
  change (13 + 1 - 2) with 12. change (13 <? 2) with false. cbv iota. change (Z.to_nat (13 - 2)) with 11%nat.
  rewrite (Hf 7%nat (swap_pairs (padded number)) 26%nat 12 20%nat) by (done || lia). cbn [mbind option_bind].
  destruct (number_handler 20 (swap_pairs (padded number))) as [nn|]; [|done]. cbn [mbind option_bind] in Rn |- *. rewrite Rn.
  cbn [mbind option_bind].
  rewrite (Hf 9%nat dcs _ 2 3%nat) by (done || lia). cbn [mbind option_bind].
  rewrite (Hf 10%nat (swap_pairs (cat_all (fmt_d_prec 2 <$> time))) _ 12 20%nat) by (done || lia). cbn [mbind option_bind].
  rewrite number_handler_run by (unfold no_plus; rewrite ?swap_pairs_all; try apply time_no_plus; done || lia).
  rewrite even_padded, swap_pairs_swap by (rewrite Lt'; done). cbn [mbind option_bind].
  rewrite msg_time_read by done. cbn [mbind option_bind].
  rewrite (Hf 12%nat (fmt_X_prec 2 udl) _ 2 (2 + slack)%nat) by (done || lia). cbn [mbind option_bind].
  rewrite strtol_fmt_X_byte by lia. unfold MAX_BUFFER_SIZE.
  rewrite (Hf 13%nat content _ (udl * 2) 512%nat) by (done || lia). cbn [mbind option_bind]. by rewrite Hcs.
Qed.

Lemma message_received_witness :
  handler_receive_msg 1 512 CHARSET_8BITS (cat_all (deliver_fields "13010888500" "13800138000" "00" [14; 9; 9; 8; 30; 0] "23" 3 "39580E") +:+ String "013" "OK") =
    Some (mk_msg "13010888500" "13800138000" "2014-09-09 08:30:00" "39580E" CHARSET_7BITS).
Proof.
  apply (message_received 1 512 CHARSET_8BITS "13010888500" "13800138000" "00" "23" "39580E" (String "013" "OK") CHARSET_7BITS [14; 9; 9; 8; 30; 0] 3);
    [done|done|right; left; done|split; [done|by repeat constructor]|done|lia|done|cbn; lia|lia].
Defined.
