(* ===== verification/CityId.v ===== *)
(** * City codes (src/src/dev_manage/cityid.c, src/src/update_cityid)

    The table [citytable] of city.db maps the name of a city to its code.
    The program update_cityid fills it from a text file of lines
    [code=name]; the daemon looks a name up for its clients. *)

From stdpp Require Import base list strings gmap.
From Stdlib Require Import ZArith Lia Ascii.
From S2P Require Import Prelude CString Sql UartQueue DevControl DevState DbTriple DbStore.

Open Scope Z_scope.

(** ** The code *)

Section Code.
Context `{Sqlite}.

Definition city_sql : string := "create table citytable(F_NAME VARCHAR(30),F_CityID VARCHAR(50));".
Definition city_create : DM unit := _ ← db_exec city_file city_sql; mret tt.
Definition city_open : DM bool :=
  rc ← db_open city_file;
  if rc =? SQLITE_ERROR then mret false else _ ← city_create; mret true.

Definition insertIntoCityIDTable (name cityid : string) : DM bool :=
  update_on city_open city_file 1024 ("insert into citytable values('" +:+ (name +:+ ("','" +:+ (cityid +:+ "')")))).

(** [cap]: the size of the caller's array; the code or nothing. *)
Definition GetCityIDByName (cap : nat) (name : string) : DM (option string) :=
  opening city_open None
    (sql ← sprintf 1024 ("select F_CityID from citytable where F_NAME='" +:+ (name +:+ "'"));
     r ← db_get_table city_file sql;
     if (1 <=? row_num r)%nat then s ← az r 1; s ← lift (fits cap s); mret (Some s) else mret None).

(** [name[strlen(name) - 2] = '\0'] *)
Definition cut_two (name : string) : option string :=
  if (2 <=? String.length name)%nat then Some (String.substring 0 (String.length name - 2) name) else None.

(** The loop over the lines that [getline] reads. *)
Fixpoint update_lines (lines : list string) : DM unit :=
  match lines with
  | [] => mret tt
  | line :: lines =>
      let '(id, rest) := strtok "=" line in
      let '(name, _) := strtok "=" rest in
      name ← lift name;
      name ← lift (cut_two name);
      _ ← (match id with Some id => insertIntoCityIDTable name id | None => mret true end);
      update_lines lines
  end.

(** [fd]: the lines of the file, if it can be opened. *)
Definition UpdateCityID (fd : option (list string)) : DM bool :=
  match fd with
  | None => mret false
  | Some lines => _ ← update_lines lines; mret true
  end.
End Code.

(** ** Specification *)

Record city := mk_city { ci_name : string; ci_id : string }.
Definition enc_city (c : city) : list value := [VText (ci_name c); VText (ci_id c)].
Definition city_cols : list column := Eval vm_compute in cols_of city_sql.
Abbreviation cities := (list city).

Definition city_db (l : cities) (rest : sqldb) : sqldb := <["citytable" := mk_table city_cols 0 (enc_city <$> l)]> rest.

Definition is_city (name : string) (c : city) : bool := String.eqb (ci_name c) name.

(** The code of the first entry with the name. *)
Definition code_of (name : string) (l : cities) : option string := ci_id <$> List.find (is_city name) l.

Lemma city_db_table l rest : city_db l rest !! "citytable" = Some (mk_table city_cols 0 (enc_city <$> l)).
Proof. unfold city_db. by rewrite lookup_insert_eq. Qed.

Lemma city_db_set l l' rest :
  <["citytable" := mk_table city_cols 0 (enc_city <$> l')]> (city_db l rest) = city_db l' rest.
Proof. unfold city_db. by rewrite insert_insert_eq. Qed.

Lemma city_db_full l rest : city_db l rest ∪ city_db [] ∅ = city_db l rest.
Proof.
  apply map_eq. intros i. destruct (decide (i = "citytable")) as [->|Hi].
  - apply lookup_union_l'. eexists. apply city_db_table.
  - apply lookup_union_l. unfold city_db. by rewrite lookup_insert_ne.
Qed.

Lemma city_open_spec {S : Sqlite} {SL : SqliteLaws S} l rest db :
  db ∪ city_db [] ∅ = city_db l rest ->
  triple city_file db city_open (fun b db' => b = true /\ db' = city_db l rest).
Proof.
  intros Hdb. unfold city_open.
  eapply (triple_bind city_file _ _ _ (fun rc db' => rc = SQLITE_OK /\ db' = db)); [by apply triple_open|].
  intros ? ? [-> ->]. change (SQLITE_OK =? SQLITE_ERROR) with false. cbv iota.
  eapply (triple_bind city_file _ _ _ (fun _ db' => db' = _)); [eapply (triple_create city_file); reflexivity|].
  intros _ ? ->. apply triple_ret; [exact _|]. split; [done|]. by rewrite <- Hdb.
Qed.

#[export] Instance city_store {S : Sqlite} {SL : SqliteLaws S} : Store cities := {|
  st_file := city_file; st_open := city_open; st_db := city_db; st_empty := city_db [] ∅;
  st_full := city_db_full; st_open_law := city_open_spec
|}.

Section City.
Context {S : Sqlite} {SL : SqliteLaws S}.

Lemma insertIntoCityIDTable_spec (l : cities) name id : arg_ok name -> arg_ok id ->
  dtriple l (insertIntoCityIDTable name id) (fun b l' => l' = l ++ [mk_city name id] /\ b = true).
Proof.
  intros [Hq Hl] [Hq1 Hl1]. eapply (add_on_spec (ST := city_store) "citytable" city_cols 0 enc_city l (mk_city name id) l
    (l ++ [mk_city name id]) _ 1024 None _ (city_db_table l)); try done; [|parse_text|sql_len|..].
  all: intros; try apply city_db_set; try done.
Qed.

Lemma GetCityIDByName_spec (l : cities) cap name :
  NoDup (ci_name <$> l) -> arg_ok name -> Forall (fun c => (String.length (ci_id c) < cap)%nat) l ->
  dtriple l (GetCityIDByName cap name) (fun o l' => l' = l /\ o = code_of name l).
Proof.
  intros Hnd [Hq Hl] Hcap. apply (dtriple_open (ST := city_store)).
  eapply (otriple_bind _ _ _ (fun s l' => s = _ /\ l' = l)); [by apply otriple_sprintf; [sql_len|]|]. intros ? ? [-> ->].
  eapply (otriple_bind _ _ _ (fun r l' => l' = l /\ ((row_num r = 0%nat /\ List.find (is_city name) l = None) \/
     (exists x, (1 <= row_num r)%nat /\ x ∈ l /\ is_city name x = true /\ mjoin (azResult r !! 1%nat) = Some (ci_id x))))).
  { eapply (otriple_first (ST := city_store) "citytable" _ _ _ _ (is_city name) _ _ _ _ (fun x => VText (ci_id x)));
      [apply city_db_table|parse_text| |done|done|auto].
    intros x. unfold is_city. cbn. by destruct (String.eqb _ _). }
  unfold code_of. intros r ? [-> [[-> ->]|(x & Hr & Hx & Hp & Haz)]]; [by apply otriple_ret|].
  destruct (Nat.leb_spec 1 (row_num r)); [|lia].
  eapply (otriple_bind _ _ _ (fun s l' => s = _ /\ l' = l)); [by eapply otriple_lift; [exact Haz|]|]. intros ? ? [-> ->].
  eapply (otriple_bind _ _ _ (fun s l' => s = ci_id x /\ l' = l)).
  { rewrite Forall_forall in Hcap. specialize (Hcap x Hx). eapply otriple_lift; [by apply fits_ok|done]. }
  intros ? ? [-> ->]. apply otriple_ret. split; [done|].
  rewrite (find_same ci_name _ _ x Hnd); [done|intros a b|done|done].
  unfold is_city. intros ->%String.eqb_eq ->%String.eqb_eq. done.
Qed.

(** A line of the file. *)
Definition city_line (c : city) : string := ci_id c +:+ ("=" +:+ (ci_name c +:+ (String "013" (String "010" "")))).

Definition city_ok (c : city) : Prop :=
  arg_ok (ci_name c) /\ arg_ok (ci_id c) /\ token_ok "=" (ci_id c) = true /\
  all_chars (fun a => negb (Ascii.eqb "=" a)) (ci_name c) = true.

Lemma substring_front a b : String.substring 0 (String.length a) (a +:+ b) = a.
Proof. induction a as [|x a IH]; [by destruct b|]. cbn. by rewrite IH. Qed.

Lemma update_lines_spec es : forall (l : cities), Forall city_ok es ->
  dtriple l (update_lines (city_line <$> es)) (fun _ l' => l' = l ++ es).
Proof.
  induction es as [|c es IH]; intros l Hes; [apply dtriple_ret; by rewrite app_nil_r|].
  apply Forall_cons in Hes as [(Hn & Hi & Ht & Ha) Hes]. cbn [fmap list_fmap update_lines]. unfold city_line at 1.
  change ("=" +:+ ?x) with (String "=" x). rewrite strtok_sep by done.
  assert (token_ok "=" (ci_name c +:+ String "013" (String "010" "")) = true) as Htn.
  { assert (all_chars (fun a => negb (Ascii.eqb "=" a)) (ci_name c +:+ String "013" (String "010" "")) = true) as H
      by (rewrite all_chars_app, Ha; done). destruct (ci_name c); exact H. }
  rewrite strtok_last by done.
  eapply dtriple_step; [reflexivity|]. eapply dtriple_step.
  { unfold cut_two. rewrite length_app_s. cbn [String.length]. rewrite Nat.add_sub.
    replace (2 <=? String.length (ci_name c) + 2)%nat with true by (symmetry; apply Nat.leb_le; lia).
    by rewrite substring_front. }
  eapply dtriple_bind; [by apply insertIntoCityIDTable_spec|]. intros _ ? [-> _].
  eapply dtriple_mono; [by apply IH|]. cbn. intros _ ? ->. rewrite <- app_assoc. by destruct c.
Qed.
End City.

Definition holds_cities (l : cities) (rest db : sqldb) : Prop := db ∪ city_db [] ∅ = city_db l rest.

Lemma holds_cities_full l rest : holds_cities l rest (city_db l rest).
Proof. apply city_db_full. Qed.

(** The file of city codes, read line by line into the table, is what a
    look-up answers from: the code of the city, or nothing for a name that is
    in no line. *)
Theorem city_codes_found {S : Sqlite} {SL : SqliteLaws S} (l es : cities) (rest : sqldb) (s : dm_state) (name : string) :
  ready (f_city s) -> holds_cities l rest (view (f_city s)) -> Forall city_ok es -> arg_ok name ->
  NoDup (ci_name <$> l ++ es) -> Forall (fun c => (String.length (ci_id c) < 20)%nat) (l ++ es) ->
  exists file, (ok ← UpdateCityID (Some (city_line <$> es)); o ← GetCityIDByName 20 name; mret (ok, o)) s =
      Some ((true, code_of name (l ++ es)), set_f_city file s) /\
    ready file /\ holds_cities (l ++ es) rest (view file).
Proof.
  intros Hr Hh Hes Hn Hnd Hcap.
  assert (dtriple l (ok ← UpdateCityID (Some (city_line <$> es)); o ← GetCityIDByName 20 name; mret (ok, o))
    (fun x l' => l' = l ++ es /\ x = (true, code_of name (l ++ es)))) as Ht.
  { eapply (dtriple_bind _ _ _ (fun ok l' => l' = l ++ es /\ ok = true)).
    - eapply dtriple_bind; [by apply update_lines_spec|]. intros _ ? ->. by apply dtriple_ret.
    - intros ? ? [-> ->]. eapply dtriple_bind; [by apply GetCityIDByName_spec|]. intros ? ? [-> ->]. by apply dtriple_ret. }
  destruct (Ht rest _ Hh s Hr eq_refl) as (x & file & E & Hf & l' & Hl' & -> & ->). by exists file.
Qed.

Definition sample_city_dm (l : cities) : dm_state (H := RefSqlite) :=
  mk_dm (H := RefSqlite) ∅ ∅ (city_db l ∅) "" "" "" "" "" "" "" (mk_uart [] quene_static) None "" [].

Lemma city_codes_found_witness :
  exists file, (ok ← UpdateCityID (H := RefSqlite) (Some ["101010100=beijing" +:+ String "013" (String "010" "")]);
      o ← GetCityIDByName (H := RefSqlite) 20 "beijing"; mret (ok, o)) (sample_city_dm []) =
      Some ((true, Some "101010100"), set_f_city (H := RefSqlite) file (sample_city_dm [])) /\
    ready (SqliteLaws := RefSqliteLaws) file /\ holds_cities [mk_city "beijing" "101010100"] ∅ file.
Proof.
  apply (city_codes_found (SL := RefSqliteLaws) [] [mk_city "beijing" "101010100"] ∅ (sample_city_dm []) "beijing").
  - unfold ready. cbn. unfold city_db, db_wf. apply map_Forall_insert_2; [constructor|apply map_Forall_empty].
  - apply holds_cities_full.
  - apply Forall_singleton. split; [split; [reflexivity|vm_compute; lia]|]. split; [split; [reflexivity|vm_compute; lia]|]. done.
  - split; [reflexivity|vm_compute; lia].
  - apply NoDup_singleton.
  - apply Forall_singleton. vm_compute. lia.
Defined.
