(* ===== verification/Notify.v ===== *)
(** * What the daemon tells the world (src/src/dev_manage/net_broadcast.c,
      led.c, ring.c, wechat.c, mail_common.c, sms_common.c, familygroup.c)

    Broadcasts on the local network, shell commands for the lamp, the siren
    and the messenger, the threads that send mails and text messages, and the
    file of the family group.  The effects are the events of DevState.v. *)

From stdpp Require Import base list strings gmap.
From Stdlib Require Import ZArith Lia Ascii.
From S2P Require Import Prelude CString Sql UartQueue DevControl DevState DbTriple DbStore Alarm Sms.

Open Scope Z_scope.

(** [alarm_t]: four arrays of 512 bytes. *)
Record alarm_t := mk_alarm {
  alarm_name : string;
  alarm_value : string;
  alarm_unicode_name : string;
  alarm_unicode_value : string
}.

Definition crlf : string := String "013" (String "010" "").
Definition tab : string := String "009" "".

(** [led_item] *)
Definition LED_FOR_NETWORK : Z := 1.
Definition LED_FOR_ZIGBEE_NET : Z := 2.

Section Notify.
Context `{Sqlite}.

(** [net_ok]: [socket] and [setsockopt] succeed. *)
Definition send_broadcast (net_ok : bool) (who : string) (user_action : Z) (dev_name : string) : DM unit :=
  if net_ok then
    msg ← sprintf 512 ("[" +:+ (json_object ["who"; "action"; "dev_name"] [who; fmt_d user_action; dev_name] +:+ "]"));
    emit_ev (EvBroadcast msg)
  else mret tt.

Definition led_flash (item interval times : Z) : DM unit :=
  cmd ← sprintf 20 ("led_flash " +:+ (fmt_d item +:+ (" " +:+ (fmt_d interval +:+ (" " +:+ (fmt_d times +:+ "&"))))));
  emit_ev (EvSystem cmd).

(** [RING_MAX] itself passes the test and is no index. *)
Definition RING_MAX : Z := 1.
Definition ring_items : list string := ["alarm.mp3"].
Definition system_ring (type : Z) : DM unit :=
  if RING_MAX <? type then mret tt
  else
    path ← lift (ring_items !! Z.to_nat type);
    cmd ← sprintf 512 ("madplay " +:+ ("/usr/alarm/" +:+ (path +:+ "&")));
    emit_ev (EvSystem cmd).

Definition InformUserByWechat (alarm : alarm_t) : DM unit :=
  cmd ← sprintf 512 ("upload " +:+ (alarm_name alarm +:+ (" " +:+ (alarm_value alarm +:+ "&"))));
  emit_ev (EvSystem cmd).

(** ** mail_common.c *)

Definition mail_text (name value attach : string) : string :=
  cat_all ["From: "; dq; "SmartHousehold"; dq; "<smart-household@center.com>"; crlf;
    "To: "; dq; "user"; dq; "<smart-user@user.com>"; crlf; "data"; crlf;
    "Subject: SmartHousehold System Alarm!!"; crlf; crlf; "MIME-Version: 1.0"; crlf;
    "Content-Type: multipart/mixed;"; crlf; tab; "boundary="; dq; "XX-1234DED0099A"; dq; ";"; crlf;
    "Content-Transfer-Encoding: 8bit"; crlf; crlf; "This is a multi-part message in MIME format."; crlf; crlf;
    "--XX-1234DED0099A"; crlf; "Content-Type: text/plain;charset=us-ascii"; crlf;
    "Content-Transfer-Encoding: 8bit"; crlf; crlf; name; " "; value; "!"; crlf; crlf;
    "--XX-1234DED0099A"; crlf; "Content-Type: image/jpg;"; crlf; tab; "name="; dq; "20140101163101.jpg"; dq; ";"; crlf;
    "Content-Transfer-Encoding: base64"; crlf; "Content-Disposition: attachment; filename="; dq; "img.jpg"; dq; crlf;
    attach; crlf; crlf; "--XX-1234DED0099A"; crlf; "."; crlf].

Definition InformUserByEmail (alarm : alarm_t) : DM unit :=
  text ← sprintf (1024 * 24)%nat (mail_text (alarm_name alarm) (alarm_value alarm) "121");
  _ ← modify (set_mail_body text);
  emit_ev EvMailThread.

Definition SERVER_QQ : Z := 0.
Definition SERVER_126 : Z := 1.
Definition SERVER_SOHU : Z := 2.

(** [dns_ok]: the name of a well-known host is resolved; [sent]: does
    [SendMail] through this server succeed?  One server after the other is tried. *)
Definition send_mail_thread (dns_ok : bool) (sent : Z -> bool) : DM unit :=
  _ ← GetEmailList;
  email_list ← gets g_email_list;
  if String.eqb email_list "_NULL_" then mret tt
  else if negb dns_ok then mret tt
  else
    body ← gets mail_body;
    _ ← emit_ev (EvMail email_list body SERVER_QQ);
    if sent SERVER_QQ then mret tt
    else
      _ ← emit_ev (EvMail email_list body SERVER_126);
      if sent SERVER_126 then mret tt
      else emit_ev (EvMail email_list body SERVER_SOHU).

(** ** sms_common.c *)

Fixpoint emit_all (l : list event) : DM unit :=
  match l with [] => mret tt | e :: l => _ ← emit_ev e; emit_all l end.

(** [sms.send] *)
Definition sms_dot_send (to msg : option string) : DM bool :=
  '(ok, texts) ← lift (sms_send_to_user to msg);
  _ ← emit_all (EvModem <$> texts);
  mret ok.

(** The thread gets a pointer to a copy of the alarm that is gone when the
    function returns. *)
Definition InformUserByMobile (alarm : alarm_t) : DM unit := emit_ev (EvMobileThread (alarm_name alarm)).

Fixpoint send_to_all (mobiles : list string) (content : string) : DM unit :=
  match mobiles with
  | [] => mret tt
  | mobile :: mobiles =>
      tempMobile ← lift (fits 12 mobile);
      _ ← sms_dot_send (Some tempMobile) (Some content);
      send_to_all mobiles content
  end.

(** [strcpy] copies the first member of the alarm only: [stale_name] and
    [stale_value] are what the stack holds in the two members that are sent. *)
Definition send_msg_thread (is_sms_ok : bool) (stale_name stale_value : string) : DM unit :=
  if negb is_sms_ok then mret tt
  else
    content ← sprintf 1024 (stale_name +:+ stale_value);
    _ ← GetMobileList;
    list ← gets g_mobile_list;
    if String.eqb list "_NULL_" then mret tt
    else
      temp ← sprintf 1024 list;
      send_to_all (tokens "," temp) content.

(** ["%-<n>s"] *)
Fixpoint spaces (n : nat) : string := match n with O => "" | S n => String " " (spaces n) end.
Definition pad_right (n : nat) (s : string) : string := s +:+ spaces (n - String.length s).

Definition save_gsm_log (history_info : message_info_t) : DM unit :=
  line ← sprintf 1024 (pad_right 20 (center_number history_info) +:+ (pad_right 20 (send_number history_info) +:+
    (pad_right 25 (send_time history_info) +:+ (send_content history_info +:+ String "010" ""))));
  emit_ev (EvLog line).

(** One round of [sms_read_thread] for the text that [read] put into the zeroed
    buffer: the message if one came, and the new [rcv_msg_sim_index]. *)
Definition sms_read_step (slack : nat) (charset0 : charset_t) (buffer index : string) : DM (option message_info_t * string) :=
  match strstr buffer "0891" with
  | Some src =>
      let avail := (MAX_BUFFER_SIZE - (String.length buffer - String.length src))%nat in
      info ← lift (handler_receive_msg slack avail charset0 src);
      _ ← save_gsm_log info;
      cmd ← sprintf 512 ("AT+CMGD=" +:+ (index +:+ String "013" ""));
      _ ← emit_ev (EvModem cmd);
      _ ← emit_ev EvMessageThread;
      mret (Some info, index)
  | None =>
      match strstr buffer "CMTI:" with
      | Some _ =>
          command ← lift (fits 512 buffer);
          let '(_, rest) := strtok "," command in
          index ← lift (fst (strtok "," rest));
          index ← lift (fits 3 index);
          cmd ← sprintf 512 ("AT+CMGR=" +:+ (index +:+ String "013" ""));
          _ ← emit_ev (EvModem cmd);
          mret (None, index)
      | None => mret (None, index)
      end
  end.

(** ** familygroup.c *)

Record groupInfo_t := mk_group { group_id : string; group_name : string }.  (* char[512] each *)

Definition SaveFamilyGroupInfo (group_info : groupInfo_t) : DM bool :=
  line ← sprintf 1024 (group_id group_info +:+ (crlf +:+ (group_name group_info +:+ crlf)));
  _ ← modify (fun s => set_family (Some (default "" (family_ini s) +:+ line)) s);
  mret true.

Definition SetFamilyGroupInfo (group_info : groupInfo_t) : DM bool := SaveFamilyGroupInfo group_info.

(** [getline]: the line with its end, and what follows. *)
Fixpoint getline_from (s : string) : string * string :=
  match s with
  | EmptyString => ("", "")
  | String c s => if Ascii.eqb c "010" then (String c "", s) else let '(l, r) := getline_from s in (String c l, r)
  end.
Definition getline (s : string) : option (string * string) :=
  match s with EmptyString => None | _ => Some (getline_from s) end.

(** [strncpy(dst, line, strlen(line))] writes no NUL: [junk] is the text that
    the array holds from there on.  Then the last two characters are cut. *)
Definition copy_line (line junk : string) : option string :=
  s ← fits 512 (line +:+ junk);
  if (2 <=? String.length s)%nat then Some (String.substring 0 (String.length s - 2) s) else None.

Definition GetFamilyGroupInfo (junk_id junk_name : string) : DM (option groupInfo_t) :=
  f ← gets family_ini;
  match f with
  | None => mret None
  | Some text =>
      match getline text with
      | None => mret None
      | Some (line, rest) =>
          id ← lift (copy_line line junk_id);
          match getline rest with
          | None => mret None
          | Some (line, _) => name ← lift (copy_line line junk_name); mret (Some (mk_group id name))
          end
      end
  end.
End Notify.

(** ** Text messages about an alarm *)

Lemma emit_all_run `{Sqlite} l s : emit_all l s = Some (tt, set_out (out s ++ l) s).
Proof.
  revert s. induction l as [|e l IH]; intros s; [destruct s; cbn; by rewrite app_nil_r|].
  cbn [emit_all]. unfold emit_ev at 1, modify at 1. unfold mbind, M_bind. rewrite IH. cbn [out set_out]. by rewrite <- app_assoc.
Qed.

(** A mobile number that fits [char tempMobile[12]]. *)
Definition mobile_ok (m : string) : Prop := (1 <= String.length m <= 11)%nat /\ all_chars isdigit m = true.

Lemma mobile_plain m : mobile_ok m -> no_plus m = true /\ token_ok "," m = true.
Proof.
  intros [Hl Hd]. split.
  - eapply all_chars_impl; [|exact Hd]. intros c Hc. by destruct (Ascii.eqb_spec c "+") as [->|].
  - unfold token_ok. destruct m; [cbn in Hl; lia|]. eapply all_chars_impl; [|exact Hd].
    intros c Hc. by destruct (Ascii.eqb_spec "," c) as [<-|].
Qed.

(** What the modem gets for each receiver. *)
Definition texts (mobiles : list string) (content : string) : list event :=
  mobiles ≫= fun m => EvModem <$> (parts content ≫= pdu_lines m).

Lemma send_to_all_run `{Sqlite} ms content s : Forall mobile_ok ms ->
  send_to_all ms content s = Some (tt, set_out (out s ++ texts ms content) s).
Proof.
  intros Hm. revert s. induction Hm as [|m ms Hok Hm IH]; intros s; [destruct s; cbn; by rewrite app_nil_r|].
  destruct (mobile_plain m Hok) as [Hp _]. destruct Hok as [Hl _].
  cbn [send_to_all]. rewrite (bind_some _ _ _ m s) by (unfold lift; by rewrite fits_ok by lia).
  assert (sms_dot_send (Some m) (Some content) s =
    Some (true, set_out (out s ++ (EvModem <$> (parts content ≫= pdu_lines m))) s)) as E.
  { unfold sms_dot_send. rewrite (bind_some _ _ _ (true, parts content ≫= pdu_lines m) s)
      by (unfold lift; by rewrite sms_send_to_user_parts by (done || lia)).
    unfold mbind, M_bind. by rewrite emit_all_run. }
  rewrite (bind_some _ _ _ _ _ E), IH. cbn [out set_out texts mbind list_bind]. by rewrite <- app_assoc.
Qed.

Lemma join_total x l : (String.length (join "," (x :: l)) + 1 = total_length (x :: l) + length (x :: l))%nat.
Proof.
  revert x. induction l as [|y l IH]; intros x; [cbn; lia|].
  change (join "," (x :: y :: l)) with (x +:+ String "," (join "," (y :: l))). rewrite length_app_s.
  specialize (IH y). cbn [String.length total_length foldr length] in *. lia.
Qed.

Lemma total_length_filter {A} (h : A -> string) p (l ms : list A) : ms ≡ₚ List.filter p l ->
  (total_length (h <$> ms) + length ms <= total_length (h <$> l) + length l)%nat.
Proof.
  intros Hp. assert (total_length (h <$> ms) = total_length (h <$> List.filter p l)) as ->.
  { enough (forall a b : list A, a ≡ₚ b -> total_length (h <$> a) = total_length (h <$> b)) as H by by apply H.
    clear. unfold total_length. induction 1; rewrite ?fmap_cons; cbn [foldr] in *; lia. }
  apply Permutation_length in Hp. rewrite Hp. clear. unfold total_length. induction l as [|x l IH]; [done|]. cbn [List.filter].
  destruct (p x); rewrite ?fmap_cons; cbn [foldr length] in *; lia.
Qed.

(** The list of open mobile numbers, when it fits. *)
Lemma GetMobileList_run {S0 : Sqlite} {SL : SqliteLaws S0} (l : receivers) (rest : sqldb) (s : dm_state) :
  ready (f_user s) -> holds_al_db l rest (view (f_user s)) ->
  exists ms file, ms ≡ₚ List.filter (is_open "mobile") l /\ ready file /\ view file = alarm_db l rest /\
    GetMobileList s = (fun t => (tt, set_mobile_list t (set_f_user file s))) <$> comma_text 1024 (a_value <$> ms).
Proof.
  intros Hr Hh.
  assert (forall x, holds alarm_cols (EAnd (EEq (ECol "f_type") (ELit (VText "mobile"))) (EEq (ECol "f_state") (ELit (VText "o"))))
    (enc_al x) = Some (is_open "mobile" x)) as Hw.
  { intros x. unfold is_open. cbn. by destruct (String.eqb _ "mobile"), (String.eqb _ "o"). }
  apply (comma_column_spec (ST := alarm_store) mobile_list_buf a_value _ l rest _ s Hr Hh); [cbn; lia|].
  eapply query_select; [reflexivity|apply alarm_db_table|apply filter_opt_fmap, Hw|by apply map_opt_fmap].
Qed.

(** An alarm is sent to every unlocked mobile number and to no other;
    but its text is what happens to be on the stack of the thread, whatever
    the alarm. *)
Theorem alarm_texts_sent {S0 : Sqlite} {SL : SqliteLaws S0} (l : receivers) (rest : sqldb) (s : dm_state) (stale_name stale_value : string) :
  ready (f_user s) -> holds_al_db l rest (view (f_user s)) ->
  (String.length (stale_name +:+ stale_value) < 1024)%nat ->
  Forall (fun r => is_open "mobile" r = true -> mobile_ok (a_value r)) l ->
  (total_length (a_value <$> l) + length l < 1024)%nat ->
  exists ms s', ms ≡ₚ a_value <$> List.filter (is_open "mobile") l /\
    send_msg_thread true stale_name stale_value s = Some (tt, s') /\
    out s' = out s ++ texts ms (stale_name +:+ stale_value).
Proof.
  intros Hr Hh Hc Hm Hlen. unfold send_msg_thread. cbn [negb].
  rewrite (bind_some _ _ _ (stale_name +:+ stale_value) s) by (unfold sprintf, lift; by rewrite fits_ok).
  destruct (GetMobileList_run l rest s Hr Hh) as (ms & file & Hms & _ & _ & E).
  pose proof (total_length_filter a_value _ l ms Hms) as Htot.
  assert (Forall mobile_ok (a_value <$> ms)) as Hok.
  { apply Forall_fmap. rewrite Hms. apply Forall_forall. intros x Hx. apply list_elem_of_In, List.filter_In in Hx as [Hx Hp].
    rewrite Forall_forall in Hm. apply Hm; [by apply list_elem_of_In|done]. }
  exists (a_value <$> ms). destruct ms as [|m ms].
  { eexists. split; [by rewrite <- Hms|]. cbn [fmap list_fmap comma_text option_fmap option_map] in E.
    rewrite (bind_some _ _ _ _ _ E). split; [reflexivity|]. cbn. by rewrite app_nil_r. }
  assert (String.length (join "," (a_value <$> m :: ms)) + 1 < 1024)%nat as Hj.
  { pose proof (join_total (a_value m) (a_value <$> ms)) as H. cbn [fmap list_fmap] in *. rewrite H. rewrite length_cons, length_fmap in *. cbn [length] in *. lia. }
  assert (comma_text 1024 (a_value <$> m :: ms) = Some (join "," (a_value <$> m :: ms))) as Et.
  { unfold comma_text. cbn [fmap list_fmap] in *. by replace (_ <? 1024)%nat with true by (symmetry; apply Nat.ltb_lt; lia). }
  rewrite Et in E. cbn [fmap option_fmap option_map] in E. rewrite (bind_some _ _ _ _ _ E).
  set (s1 := set_mobile_list _ _) in *. rewrite (bind_some _ _ _ (join "," (a_value <$> m :: ms)) s1) by done.
  assert (tokens "," (join "," (a_value <$> m :: ms)) = a_value <$> m :: ms) as Hto.
  { apply tokens_join. eapply Forall_impl; [exact Hok|]. intros x Hx. by apply mobile_plain. }
  assert (String.eqb (join "," (a_value <$> m :: ms)) "_NULL_" = false) as Hnn.
  { clear -Hok. cbn [fmap list_fmap] in *. apply Forall_cons in Hok as [[Hl Hd] _]. destruct (a_value m) as [|c t]; [cbn in Hl; lia|].
    cbn in Hd. apply andb_prop in Hd as [Hd _].
    assert (exists w, join "," (String c t :: (a_value <$> ms)) = String c w) as [w ->] by (destruct (a_value <$> ms); by eexists).
    destruct (Ascii.eqb_spec c "_") as [->|Hne]; [done|]. cbn. by destruct (Ascii.eqb_spec c "_"). }
  rewrite Hnn. rewrite (bind_some _ _ _ (join "," (a_value <$> m :: ms)) s1) by (unfold sprintf, lift; by rewrite fits_ok by lia).
  rewrite Hto, send_to_all_run by done. eexists. split; [by rewrite <- Hms|]. split; [reflexivity|]. done.
Qed.

Lemma alarm_texts_sent_witness :
  let l := [mk_al "mobile" "13800138000" "o"; mk_al "mobile" "13900139000" "c"] in
  exists ms s', ms ≡ₚ ["13800138000"] /\
    send_msg_thread (H := RefSqlite) true "5B" "8B" (sample_user l) = Some (tt, s') /\
    out s' = [] ++ texts ms "5B8B".
Proof.
  intros l. apply (alarm_texts_sent (SL := RefSqliteLaws) l ∅ (sample_user l) "5B" "8B").
  - apply alarm_db_wf, map_Forall_empty.
  - apply holds_al_full.
  - vm_compute. lia.
  - repeat apply Forall_cons_2; [| |constructor]; intros _; (split; [cbn; lia|reflexivity]).
  - cbn. lia.
Defined.

(** The list of open mail addresses. *)
Lemma GetEmailList_run {S0 : Sqlite} {SL : SqliteLaws S0} (l : receivers) (rest : sqldb) (s : dm_state) :
  ready (f_user s) -> holds_al_db l rest (view (f_user s)) ->
  exists es file, es ≡ₚ List.filter (is_open "email") l /\ ready file /\ view file = alarm_db l rest /\
    GetEmailList s = (fun t => (tt, set_email_list t (set_f_user file s))) <$> comma_text 1024 (a_value <$> es).
Proof.
  intros Hr Hh.
  assert (forall x, holds alarm_cols (EAnd (EEq (ECol "f_type") (ELit (VText "email"))) (EEq (ECol "f_state") (ELit (VText "o"))))
    (enc_al x) = Some (is_open "email" x)) as Hw.
  { intros x. unfold is_open. cbn. by destruct (String.eqb _ "email"), (String.eqb _ "o"). }
  apply (comma_column_spec (ST := alarm_store) email_list_buf a_value _ l rest _ s Hr Hh); [cbn; lia|].
  eapply query_select; [reflexivity|apply alarm_db_table|apply filter_opt_fmap, Hw|by apply map_opt_fmap].
Qed.

(** The calls of [SendMail]: one for all addresses, through one server after
    the other until it reports success. *)
Definition mails (emails : list string) (body : string) (sent : Z -> bool) : list event :=
  let via server := EvMail (join "," emails) body server in
  match emails with
  | [] => []
  | _ => via SERVER_QQ :: (if sent SERVER_QQ then [] else via SERVER_126 :: (if sent SERVER_126 then [] else [via SERVER_SOHU]))
  end.

Lemma joined_not_null m ms : m <> "_NULL_" -> join "," (m :: ms) <> "_NULL_".
Proof.
  intros Hm E. destruct ms as [|m' ms]; [done|]. cbn [join] in E.
  apply (f_equal (all_chars (fun c => negb (Ascii.eqb c ",")))) in E. rewrite !all_chars_app in E. cbn in E.
  rewrite !andb_false_r in E. discriminate E.
Qed.

(** The mail thread sends the text of the alarm to every unlocked address. *)
Lemma alarm_mailed {S0 : Sqlite} {SL : SqliteLaws S0} (l : receivers) (rest : sqldb) (s : dm_state) (sent : Z -> bool) :
  ready (f_user s) -> holds_al_db l rest (view (f_user s)) ->
  Forall (fun r => is_open "email" r = true -> a_value r <> "_NULL_") l -> (total_length (a_value <$> l) + length l < 1024)%nat ->
  exists es s', es ≡ₚ a_value <$> List.filter (is_open "email") l /\
    send_mail_thread true sent s = Some (tt, s') /\ out s' = out s ++ mails es (mail_body s) sent.
Proof.
  intros Hr Hh Hm Hlen. destruct (GetEmailList_run l rest s Hr Hh) as (es & file & Hes & _ & _ & E).
  pose proof (total_length_filter a_value _ l es Hes) as Htot. exists (a_value <$> es). unfold send_mail_thread. destruct es as [|e es].
  { eexists. split; [by rewrite <- Hes|]. cbn [fmap list_fmap comma_text option_fmap option_map] in E.
    rewrite (bind_some _ _ _ _ _ E). split; [reflexivity|]. cbn. by rewrite app_nil_r. }
  assert (String.length (join "," (a_value <$> e :: es)) + 1 < 1024)%nat as Hj.
  { pose proof (join_total (a_value e) (a_value <$> es)) as H. cbn [fmap list_fmap] in *. rewrite H. rewrite length_cons, length_fmap in *. cbn [length] in *. lia. }
  assert (comma_text 1024 (a_value <$> e :: es) = Some (join "," (a_value <$> e :: es))) as Et.
  { unfold comma_text. cbn [fmap list_fmap] in *. by replace (_ <? 1024)%nat with true by (symmetry; apply Nat.ltb_lt; lia). }
  rewrite Et in E. cbn [fmap option_fmap option_map] in E. rewrite (bind_some _ _ _ _ _ E).
  set (s1 := set_email_list _ _) in *. rewrite (bind_some _ _ _ (join "," (a_value <$> e :: es)) s1) by done.
  assert (String.eqb (join "," (a_value <$> e :: es)) "_NULL_" = false) as ->.
  { apply String.eqb_neq. cbn [fmap list_fmap]. apply joined_not_null. assert (e ∈ e :: es) as He by (by left). rewrite Hes in He.
    apply list_elem_of_In, List.filter_In in He as [He Hp]. rewrite Forall_forall in Hm. apply Hm; [by apply list_elem_of_In|done]. }
  cbn [negb]. rewrite (bind_some _ _ _ (mail_body s) s1) by done. unfold mails. cbn [fmap list_fmap] in *.
  destruct (sent SERVER_QQ), (sent SERVER_126); (eexists; split; [by rewrite <- Hes|split; [reflexivity|]]);
    cbn [out set_out]; by rewrite <- ?app_assoc.
Qed.

(** ** The family group *)

Lemma getline_from_line l rest : all_chars (fun c => negb (Ascii.eqb c "010")) l = true ->
  getline_from (l +:+ String "010" rest) = (l +:+ String "010" "", rest).
Proof.
  induction l as [|c l IH]; [done|]. cbn. intros [Hc Hl]%andb_prop. apply negb_true_iff in Hc. by rewrite Hc, IH.
Qed.

(** A name of a group in the file: one line. *)
Definition one_line (s : string) : Prop :=
  all_chars (fun c => negb (Ascii.eqb c "010")) s = true /\ (String.length s <= 500)%nat.

Lemma getline_crlf x rest : one_line x -> getline (x +:+ (crlf +:+ rest)) = Some (x +:+ crlf, rest).
Proof.
  intros [Hx _]. unfold crlf. cbn [String.append].
  assert (x +:+ String "013" (String "010" rest) = (x +:+ String "013" "") +:+ String "010" rest) as E by (by rewrite app_assoc_s).
  rewrite E. unfold getline. destruct ((x +:+ String "013" "") +:+ String "010" rest) eqn:E0.
  { apply (f_equal String.length) in E0. rewrite !length_app_s in E0. cbn in E0. lia. }
  rewrite <- E0, getline_from_line; [by rewrite app_assoc_s|]. by rewrite all_chars_app, Hx.
Qed.

Lemma copy_line_crlf x : one_line x -> copy_line (x +:+ crlf) "" = Some x.
Proof.
  intros [_ Hl]. unfold copy_line. rewrite app_nil_r_s, fits_ok by (rewrite length_app_s; cbn; lia). cbn [mbind option_bind].
  rewrite length_app_s. cbn [String.length crlf]. replace (2 <=? String.length x + 2)%nat with true by (symmetry; apply Nat.leb_le; lia).
  by rewrite Nat.add_sub, substring_prefix.
Qed.

(** The group that was saved first is the group for ever: a second one
    is appended to the file, and the file is read from its beginning. *)
Theorem first_family_group_stays `{Sqlite} (first second : groupInfo_t) (s : dm_state) :
  family_ini s = None -> one_line (group_id first) -> one_line (group_name first) ->
  one_line (group_id second) -> one_line (group_name second) ->
  exists s1 s2, SetFamilyGroupInfo first s = Some (true, s1) /\ GetFamilyGroupInfo "" "" s1 = Some (Some first, s1) /\
    SetFamilyGroupInfo second s1 = Some (true, s2) /\ GetFamilyGroupInfo "" "" s2 = Some (Some first, s2).
Proof.
  intros Hs H1 H2 H3 H4.
  assert (forall g s, one_line (group_id g) -> one_line (group_name g) -> SetFamilyGroupInfo g s =
    Some (true, set_family (Some (default "" (family_ini s) +:+ (group_id g +:+ (crlf +:+ (group_name g +:+ crlf))))) s)) as Hset.
  { intros g s0 [_ Hi] [_ Hn]. unfold SetFamilyGroupInfo, SaveFamilyGroupInfo, sprintf.
    rewrite (bind_some _ _ _ (group_id g +:+ (crlf +:+ (group_name g +:+ crlf))) s0); [done|].
    unfold lift. by rewrite fits_ok by (rewrite !length_app_s; cbn; lia). }
  assert (forall s text, family_ini s = Some (group_id first +:+ (crlf +:+ (group_name first +:+ (crlf +:+ text)))) ->
    GetFamilyGroupInfo "" "" s = Some (Some first, s)) as Hget.
  { intros s0 text Hf. unfold GetFamilyGroupInfo. rewrite (bind_some _ _ _ (family_ini s0) s0) by done. rewrite Hf.
    rewrite getline_crlf by done. rewrite (bind_some _ _ _ (group_id first) s0) by (unfold lift; by rewrite copy_line_crlf).
    rewrite getline_crlf by done. rewrite (bind_some _ _ _ (group_name first) s0) by (unfold lift; by rewrite copy_line_crlf).
    by destruct first. }
  eexists _, _. split; [by apply Hset|]. split.
  { apply (Hget _ ""). cbn [family_ini set_family]. rewrite Hs. cbn [default]. by rewrite app_nil_r_s. }
  split; [by apply Hset|]. eapply Hget. cbn [family_ini set_family]. rewrite Hs. cbn [default].
  unfold Datatypes.id. cbn [String.append]. rewrite !app_assoc_s. reflexivity.
Qed.

Lemma first_family_group_stays_witness :
  exists s1 s2, SetFamilyGroupInfo (H := RefSqlite) (mk_group "17" "home") (sample_user []) = Some (true, s1) /\
    GetFamilyGroupInfo "" "" s1 = Some (Some (mk_group "17" "home"), s1) /\
    SetFamilyGroupInfo (mk_group "18" "away") s1 = Some (true, s2) /\ GetFamilyGroupInfo "" "" s2 = Some (Some (mk_group "17" "home"), s2).
Proof.
  apply (first_family_group_stays (H := RefSqlite) (mk_group "17" "home") (mk_group "18" "away") (sample_user []));
    [reflexivity|..]; (split; [reflexivity|cbn; lia]).
Defined.
