(* ===== verification/UartCommon.v ===== *)
(** * From the network to the devices and back (src/src/dev_manage/uart_common.c,
      uart.c, and the worker of timertask.c)

    [ForwardControlToUart] finds the address of a registered device and sends
    it a command; [uart_thread] reads the lines of the Zigbee coordinator: a
    module announces itself, a sensor raises an alarm, a switch answers. *)

From stdpp Require Import base list strings gmap.
From Stdlib Require Import ZArith Lia Ascii.
From S2P Require Import Prelude CString Calendar Sql UartQueue DevControl DevState DbTriple DbStore DevDb DevReg DevRegProps Timer Sms Notify.

Open Scope Z_scope.

(** string_common.h *)
Definition STR_UART_ALARM_COME : string := "FF".
Definition STR_UART_ALARM_GONE : string := "00".
Definition STR_ALARM_SEND_BROADCAST_PRE : string := "Tip:".
Definition STR_CHS_SYS_ALARM_COME : string := "发生报警".
Definition STR_UNI_SYS_ALARM_COME : string := "53D1751F62A58B66".
Definition STR_CHS_SYS_ALRAM_GONE : string := "报警已解除".
Definition STR_UNI_SYS_ALARM_GONE : string := "62A58B665DF289E39664".

(** [USER_ACTION] *)
Definition ACTION_SYS_ALARM_COME : Z := 6.
Definition ACTION_SYS_ALARM_GONE : Z := 7.
Definition DEV_ALARM_RING_CMD : Z := 0.

Definition SetDefaultAlarmUnicodeName (dev_type : Z) : string :=
  if dev_type =? DEV_SOUND then "58F097F34F20611F5668"
  else if dev_type =? DEV_YUDI then "96E86EF44F20611F5668"
  else if dev_type =? DEV_YANWU then "70DF96FE4F20611F5668"
  else if dev_type =? DEV_HONGWAI then "7EA259164F20611F5668"
  else "672A77E54F20611F5668".

Definition SetDefaultAlarmName (dev_type : Z) : string :=
  if dev_type =? DEV_SOUND then "声音传感器"
  else if dev_type =? DEV_YUDI then "雨滴传感器"
  else if dev_type =? DEV_YANWU then "烟雾传感器"
  else if dev_type =? DEV_HONGWAI then "红外传感器"
  else "未知传感器".

(** ** uart.c *)

(** [ReadFromUart]: what the calls of [read] deliver until one of them fails.
    A piece of 50 bytes leaves [temp] without a NUL. *)
Fixpoint ReadFromUart (pieces : list string) (buffer : string) : option (bool * string) :=
  match pieces with
  | [] => Some (false, buffer)
  | temp :: pieces =>
      temp ← fits 50 temp;
      match strchr temp "*", strchr temp "#" with
      | Some _, _ => buffer ← fits 1024 temp; ReadFromUart pieces buffer
      | None, Some _ => buffer ← strcat_into 1024 buffer temp; Some (true, buffer)
      | None, None => buffer ← strcat_into 1024 buffer temp; ReadFromUart pieces buffer
      end
  end.

Section Uart.
Context `{Sqlite}.
(** The serial line ([wr]), the other threads ([sched]), the number of polls
    that are observed ([fuel]: see DevControl.v), the network. *)
Context (wr : list Z -> bool) (sched : nat -> queue -> queue) (fuel : nat) (net_ok : bool).

Definition on_uart {A} (f : uart_state -> option (A * uart_state)) : DM A := fun s =>
  match f (uart_st s) with Some (x, u) => Some (x, set_uart u s) | None => None end.
Definition on_uart' {A} (f : uart_state -> A * uart_state) : DM A := on_uart (fun u => Some (f u)).

(** The command or [CMD_NULL]. *)
Definition SWGetCurrentState (mac name : string) (dev_number : Z) : DM Z :=
  m ← isMacAndNameMatch mac name;
  if negb m then mret CMD_NULL
  else
    ip ← GetDevIPByMac 10 mac;
    match ip with
    | Some ip => on_uart (switch_dev_get_state wr sched fuel (Some ip) dev_number)
    | None => mret CMD_NULL
    end.

(** The [switch] on the type of the device. *)
Definition control_device (ip : string) (dev_type dev_cmd dev_number : Z) : DM bool :=
  if dev_type =? TYPE_SW_DEV then on_uart (switch_dev_control_func wr sched fuel (Some ip) dev_cmd dev_number)
  else if dev_type =? TYPE_CL_DEV then on_uart' (chuanglian_dev_control_func wr (Some ip) dev_cmd)
  else if dev_type =? TYPE_DOOR_DEV then on_uart' (door_dev_control_func wr (Some ip) dev_cmd)
  else if dev_type =? TYPE_KONGTIAO_DEV then on_uart' (kongtiao_dev_control_func wr (Some ip) dev_cmd dev_number)
  else if dev_type =? TYPE_TV_DEV then on_uart' (tv_dev_control_func wr (Some ip) dev_cmd dev_number)
  else mret false.

Definition ForwardControlToUart (mac name : string) (dev_type dev_cmd dev_number : Z) : DM bool :=
  m ← isMacAndNameMatch mac name;
  if negb m then mret false
  else
    ip ← GetDevIPByMac 10 mac;
    match ip with
    | Some ip => control_device ip dev_type dev_cmd dev_number
    | None => mret false
    end.

(** What happens before a thread waits for its answer: the frame it waits for,
    or none when it does not wait. *)
Definition write_frame (frame : list Z) : DM (option (list Z)) :=
  ok ← on_uart' (WriteToUart wr frame); mret (if ok : bool then Some frame else None).

Definition begin_command (mac name : string) (frame : string -> list Z) : DM (option (list Z)) :=
  m ← isMacAndNameMatch mac name;
  if negb m then mret None
  else
    ip ← GetDevIPByMac 10 mac;
    match ip with
    | Some ip => write_frame (frame ip)
    | None => mret None
    end.

(** ** The lines of the coordinator *)

(** The name and the kind of an alarm are told to everybody. *)
Definition raise_alarm (uart_cmd_type : Z) (ip state : string) : DM unit :=
  name ← GetDevNameByIP 1024 ip;
  let name := default (SetDefaultAlarmName uart_cmd_type) name in
  unicode_name ← GetDevUnicodeNameByIP 1024 ip;
  let unicode_name := default (SetDefaultAlarmUnicodeName uart_cmd_type) unicode_name in
  name ← lift (fits 512 name);
  unicode_name ← lift (fits 512 unicode_name);
  alarm ← (match strstr state STR_UART_ALARM_COME, strstr state STR_UART_ALARM_GONE with
    | Some _, _ =>
        _ ← send_broadcast net_ok STR_ALARM_SEND_BROADCAST_PRE ACTION_SYS_ALARM_COME name;
        _ ← system_ring DEV_ALARM_RING_CMD;
        mret (mk_alarm name STR_CHS_SYS_ALARM_COME unicode_name STR_UNI_SYS_ALARM_COME)
    | None, Some _ =>
        _ ← send_broadcast net_ok STR_ALARM_SEND_BROADCAST_PRE ACTION_SYS_ALARM_GONE name;
        mret (mk_alarm name STR_CHS_SYS_ALRAM_GONE unicode_name STR_UNI_SYS_ALARM_GONE)
    | None, None => mret (mk_alarm name "" unicode_name "")
    end);
  _ ← InformUserByEmail alarm;
  _ ← InformUserByWechat alarm;
  InformUserByMobile alarm.

(** An answer of a switch goes to the table.  The two bytes behind a short
    address are in the line. *)
Definition queue_answer (ip rest p1 p2 p3 : string) : DM unit :=
  let '(lo, hi) := get_ip_byte (Some (ip +:+ String "000" rest)) in
  let cmd := [DEV_SWITCH; lo; hi; u8 (strtol p1 16); u8 (strtol p2 16); u8 (strtol p3 16)] in
  on_uart (fun u => q ← uart_data_queuing cmd (len cmd_SW) (table u); Some (tt, mk_uart (sent u) q)).

(** The two characters before the end of the header; the one before the
    header is in the buffer only when commas were skipped. *)
Definition header_type (buffer uart_header : string) : option Z :=
  let n := String.length uart_header in
  if (2 <=? n)%nat then Some (strtol (String.substring (n - 2) 2 uart_header) 16)
  else match buffer with
       | String "," _ => Some (strtol ("," +:+ uart_header) 16)
       | _ => None
       end.

Definition dispatch_line (uart_cmd_type : Z) (rest : string) : DM unit :=
  if uart_cmd_type =? DEV_ADD then
    let '(ip, rest) := strtok "," rest in
    let '(mac, _) := strtok "," rest in
    match ip, mac with
    | Some ip, Some mac => _ ← AddDevToDynamicTable mac ip; mret tt
    | _, _ => mret tt
    end
  else if (uart_cmd_type =? DEV_SOUND) || (uart_cmd_type =? DEV_YUDI) || (uart_cmd_type =? DEV_YANWU) ||
          (uart_cmd_type =? DEV_HONGWAI) then
    let '(ip, rest) := strtok "," rest in
    let '(second, rest) := strtok "," rest in
    let '(state, _) := strtok "," rest in
    match ip, second, state with
    | Some ip, Some _, Some state => raise_alarm uart_cmd_type ip state
    | _, _, _ => mret tt
    end
  else if uart_cmd_type =? DEV_SWITCH then
    let '(ip, rest) := strtok "," rest in
    let '(p1, rest1) := strtok "," rest in
    let '(p2, rest2) := strtok "," rest1 in
    let '(p3, _) := strtok "," rest2 in
    match ip, p1, p2, p3 with
    | Some ip, Some p1, Some p2, Some p3 => queue_answer ip rest p1 p2 p3
    | _, _, _, _ => mret tt
    end
  else mret tt.

(** The text that [strtok] leaves in the buffer. *)
Definition after_strtok (buffer : string) : string :=
  let lead := (String.length buffer - String.length (skip_delims "," buffer))%nat in
  String.substring 0 (lead + String.length (fst (take_token "," (skip_delims "," buffer)))) buffer.

(** The body of the [if] in [uart_thread]: the buffer it leaves. *)
Definition handle_line (buffer : string) : DM string :=
  let n := String.length buffer in
  buffer ← lift (if (3 <=? n)%nat then Some (String.substring 0 (n - 3) buffer) else None);
  let '(uart_header, rest) := strtok "," buffer in
  match uart_header with
  | None => mret buffer
  | Some uart_header =>
      _ ← led_flash LED_FOR_ZIGBEE_NET 1 4;
      uart_cmd_type ← lift (header_type buffer uart_header);
      _ ← dispatch_line uart_cmd_type rest;
      mret (after_strtok buffer)
  end.

(** One round of [uart_thread]. *)
Definition uart_round (pieces : list string) (buffer : string) : DM string :=
  '(ok, buffer) ← lift (ReadFromUart pieces buffer);
  if ok : bool then handle_line buffer else mret buffer.

(** ** timertask.c: what a timer tick does *)

Fixpoint run_items (items : list timertask_item_t) : DM unit :=
  match items with
  | [] => mret tt
  | item :: items =>
      _ ← ForwardControlToUart (dev_mac item) (dev_name item) TYPE_SW_DEV (u8 (action item)) (u8 (devnumber item));
      run_items items
  end.

Definition do_timer_func (now : Z) : DM unit :=
  let '(current_time, weekday) := GetCurrentTime now in
  '(nums, items) ← GetValidThingsToDo current_time weekday;
  run_items (take (Z.to_nat nums) items).
End Uart.

(** ** Commands reach their device *)

(** The frame a device of this type gets, if there is such a type. *)
Definition device_frame (ip : string) (dev_type dev_cmd dev_number : Z) : option (list Z) :=
  if dev_type =? TYPE_SW_DEV then Some (switch_frame (Some ip) dev_cmd dev_number)
  else if dev_type =? TYPE_CL_DEV then Some (chuanglian_frame (Some ip) dev_cmd)
  else if dev_type =? TYPE_DOOR_DEV then Some (take 5 (door_frame (Some ip) dev_cmd))
  else if dev_type =? TYPE_KONGTIAO_DEV then Some (kongtiao_frame (Some ip) dev_cmd dev_number)
  else if dev_type =? TYPE_TV_DEV then Some (tv_frame (Some ip) dev_cmd dev_number)
  else None.

(** The command puts its frame on the serial line; only a switch is waited for. *)
Lemma control_device_run `{Sqlite} wr sched fuel ip dev_type dev_cmd dev_number s :
  control_device wr sched fuel ip dev_type dev_cmd dev_number s =
    match device_frame ip dev_type dev_cmd dev_number with
    | None => Some (false, s)
    | Some f =>
        let s' := set_uart (with_frame f (uart_st s)) s in
        if (dev_type =? TYPE_SW_DEV) && wr f then on_uart (switch_wait sched fuel f) s' else Some (wr f, s')
    end.
Proof.
  unfold control_device, device_frame, on_uart', on_uart.
  destruct (dev_type =? TYPE_SW_DEV); [|destruct (dev_type =? TYPE_CL_DEV); [|destruct (dev_type =? TYPE_DOOR_DEV);
    [|destruct (dev_type =? TYPE_KONGTIAO_DEV); [|destruct (dev_type =? TYPE_TV_DEV)]]]]; cbn [andb]; cbv zeta.
  - rewrite switch_control_run. by destruct (wr _).
  - unfold chuanglian_dev_control_func, WriteToUart. by rewrite take_ge by (unfold chuanglian_frame; repeat case_match; done).
  - done.
  - unfold kongtiao_dev_control_func, WriteToUart. by rewrite take_ge by (unfold kongtiao_frame; repeat case_match; done).
  - unfold tv_dev_control_func, WriteToUart. by rewrite take_ge by (unfold tv_frame; repeat case_match; done).
  - done.
Qed.

(** A command is its beginning and the wait. *)
Lemma forward_begins `{Sqlite} wr sched fuel mac name dev_cmd dev_number s :
  ForwardControlToUart wr sched fuel mac name TYPE_SW_DEV dev_cmd dev_number s =
    (o ← begin_command wr mac name (fun ip => switch_frame (Some ip) dev_cmd dev_number);
     match o with Some f => on_uart (switch_wait sched fuel f) | None => mret false end) s.
Proof.
  unfold ForwardControlToUart, begin_command, write_frame, mbind, M_bind.
  destruct (isMacAndNameMatch mac name s) as [[b s1]|]; [|done]. destruct b; cbn [negb]; [|done].
  destruct (GetDevIPByMac 10 mac s1) as [[o s2]|]; [|done]. destruct o as [ip|]; [|done].
  rewrite control_device_run. unfold device_frame. change (TYPE_SW_DEV =? TYPE_SW_DEV) with true. cbn [andb]. cbv iota zeta.
  unfold on_uart', on_uart at 2, WriteToUart. cbn [fst]. by destruct (wr _).
Qed.

Lemma state_begins `{Sqlite} wr sched fuel mac name dev_number s : byte_range dev_number ->
  SWGetCurrentState wr sched fuel mac name dev_number s =
    (o ← begin_command wr mac name (fun ip => get_state_frame (Some ip) dev_number);
     match o with Some f => on_uart (state_wait sched fuel f dev_number) | None => mret CMD_NULL end) s.
Proof.
  intros Hn. unfold SWGetCurrentState, begin_command, write_frame, mbind, M_bind.
  destruct (isMacAndNameMatch mac name s) as [[b s1]|]; [|done]. destruct b; cbn [negb]; [|done].
  destruct (GetDevIPByMac 10 mac s1) as [[o s2]|]; [|done]. destruct o as [ip|]; [|done].
  unfold on_uart', on_uart, switch_dev_get_state, WriteToUart.
  rewrite take_ge by (by rewrite (proj1 (get_state_frame_for (Some ip) dev_number Hn))). cbn [fst snd]. by destruct (wr _).
Qed.

Lemma on_wait_sent `{Sqlite} sched fuel f s r s' : on_uart (switch_wait sched fuel f) s = Some (r, s') ->
  s' = set_uart (uart_st s') s /\ sent (uart_st s') = sent (uart_st s).
Proof.
  unfold on_uart. destruct (switch_wait sched fuel f (uart_st s)) as [[x u]|] eqn:E; [|done]. intros [= <- <-].
  apply switch_wait_sent in E. done.
Qed.

(** The command changes the serial line and its table only. *)
Lemma control_device_sends `{Sqlite} wr sched fuel ip dev_type dev_cmd dev_number s r s' :
  control_device wr sched fuel ip dev_type dev_cmd dev_number s = Some (r, s') ->
  s' = set_uart (uart_st s') s /\
  sent (uart_st s') = sent (uart_st s) ++ option_list (device_frame ip dev_type dev_cmd dev_number) /\
  (r = true -> exists f, device_frame ip dev_type dev_cmd dev_number = Some f /\ wr f = true).
Proof.
  rewrite control_device_run. destruct (device_frame _ _ _ _) as [f|]; cbn [option_list]; [|intros [= <- <-]; destruct s; cbn; by rewrite app_nil_r].
  cbv zeta. destruct ((dev_type =? TYPE_SW_DEV) && wr f) eqn:E.
  - apply andb_prop in E as [_ Hw]. intros [Es Hs]%on_wait_sent. split; [exact Es|]. split; [exact Hs|]. eauto.
  - intros [= <- <-]. split; [done|]. split; [done|]. eauto.
Qed.

Section Registry.
Context {S0 : Sqlite} {SL : SqliteLaws S0}.

(** A triple on the registry, run in a state. *)
Lemma reg_run {A} g rest (m : DM A) (Q : A -> registry -> Prop) s :
  dtriple g m Q -> ready (f_dev s) -> holds_reg g rest (view (f_dev s)) ->
  exists x file g', m s = Some (x, set_f_dev file s) /\ ready file /\ holds_reg g' rest (view file) /\ Q x g'.
Proof.
  intros Ht Hr Hh. destruct (Ht rest _ Hh s Hr eq_refl) as (x & file & E & Hf & g' & Hg' & HQ). exists x, file, g'. done.
Qed.

(** The address of a registered device. *)
Definition device_address (mac name : string) (g : registry) : option string :=
  if existsb (is_dev mac name) (devs g) then reg_ip mac g else None.

Definition short_ips (g : registry) : Prop := Forall (fun r => (String.length (y_ip r) < 10)%nat) (dyns g).

Lemma forward_run g rest s wr sched fuel mac name dev_type dev_cmd dev_number :
  ready (f_dev s) -> holds_reg g rest (view (f_dev s)) -> reg_inv g -> short_ips g -> arg_ok mac -> arg_ok name ->
  exists file, ready file /\ holds_reg g rest (view file) /\
    ForwardControlToUart wr sched fuel mac name dev_type dev_cmd dev_number s =
    match device_address mac name g with
    | Some ip => control_device wr sched fuel ip dev_type dev_cmd dev_number (set_f_dev file s)
    | None => Some (false, set_f_dev file s)
    end.
Proof.
  intros Hr Hh Hi Hips Hm Hn. unfold ForwardControlToUart, device_address.
  destruct (reg_run g rest _ _ s (isMacAndNameMatch_spec g mac name Hm Hn) Hr Hh) as (b & f1 & g1 & E1 & Hf1 & Hg1 & -> & ->).
  rewrite (bind_some _ _ _ _ _ E1). destruct (existsb _ _); cbn [negb]; [|by exists f1].
  destruct (reg_run g rest _ _ (set_f_dev f1 s) (GetDevIPByMac_spec g 10 mac Hi Hm Hips) Hf1 Hg1) as (o & f2 & g2 & E2 & Hf2 & Hg2 & -> & ->).
  rewrite (bind_some _ _ _ _ _ E2). exists f2. split; [done|]. split; [done|]. by destruct (reg_ip mac g).
Qed.

Lemma begin_run g rest s wr mac name frame :
  ready (f_dev s) -> holds_reg g rest (view (f_dev s)) -> reg_inv g -> short_ips g -> arg_ok mac -> arg_ok name ->
  exists file, ready file /\ holds_reg g rest (view file) /\
    begin_command wr mac name frame s =
    match device_address mac name g with
    | Some ip => write_frame wr (frame ip) (set_f_dev file s)
    | None => Some (None, set_f_dev file s)
    end.
Proof.
  intros Hr Hh Hi Hips Hm Hn. unfold begin_command, device_address.
  destruct (reg_run g rest _ _ s (isMacAndNameMatch_spec g mac name Hm Hn) Hr Hh) as (b & f1 & g1 & E1 & Hf1 & Hg1 & -> & ->).
  rewrite (bind_some _ _ _ _ _ E1). destruct (existsb _ _); cbn [negb]; [|by exists f1].
  destruct (reg_run g rest _ _ (set_f_dev f1 s) (GetDevIPByMac_spec g 10 mac Hi Hm Hips) Hf1 Hg1) as (o & f2 & g2 & E2 & Hf2 & Hg2 & -> & ->).
  rewrite (bind_some _ _ _ _ _ E2). exists f2. split; [done|]. split; [done|]. by destruct (reg_ip mac g).
Qed.
End Registry.

(** C26: [ForwardControlToUart] puts on the serial line one frame, addressed
    to the module that the registered device is behind, and none, returning
    FALSE, for a device that is not registered, whose module has not announced
    itself or whose type is unknown.  A command to a switch then waits, without
    sending anything more, and returns TRUE once the switch has echoed it; the
    other commands return whether the frame was written.  The registry and
    the rest of the daemon's state stay as they are. *)
Theorem forward_to_device {S0 : Sqlite} {SL : SqliteLaws S0} (g : registry) (rest : sqldb) (s : dm_state)
    wr sched fuel (mac name : string) (dev_type dev_cmd dev_number : Z) :
  ready (f_dev s) -> holds_reg g rest (view (f_dev s)) -> reg_inv g -> short_ips g -> arg_ok mac -> arg_ok name ->
  let frame := ip ← device_address mac name g; device_frame ip dev_type dev_cmd dev_number in
  exists file, ready file /\ holds_reg g rest (view file) /\
    let forward := ForwardControlToUart wr sched fuel mac name dev_type dev_cmd dev_number s in
    let s1 := set_f_dev file s in
    match frame with
    | None => forward = Some (false, s1)
    | Some f =>
        let s2 := set_uart (mk_uart (sent (uart_st s) ++ [f]) (table (uart_st s))) s1 in
        if (dev_type =? TYPE_SW_DEV) && wr f then
          forward = on_uart (switch_wait sched fuel f) s2 /\
          (forall r s', forward = Some (r, s') -> s' = set_uart (mk_uart (sent (uart_st s) ++ [f]) (table (uart_st s'))) s1) /\
          (forall k, byte_range dev_number -> (forall j, slots_sized (table_at sched (table (uart_st s)) j)) ->
             f ∈ pending (table_at sched (table (uart_st s)) k) -> (k < fuel)%nat -> exists s', forward = Some (true, s'))
        else forward = Some (wr f, s2)
    end.
Proof.
  intros Hr Hh Hi Hips Hm Hn frame. subst frame.
  destruct (forward_run g rest s wr sched fuel mac name dev_type dev_cmd dev_number Hr Hh Hi Hips Hm Hn) as (file & Hf & Hg & E).
  exists file. split; [done|]. split; [done|]. cbv zeta. rewrite E. destruct (device_address mac name g) as [ip|]; cbn [mbind option_bind]; [|done].
  rewrite control_device_run. destruct (device_frame ip dev_type dev_cmd dev_number) as [f|] eqn:Ef; [|done]. cbv zeta.
  destruct ((dev_type =? TYPE_SW_DEV) && wr f) eqn:Et; [|done]. split; [done|]. split.
  - intros r s' [Es Hs]%on_wait_sent. rewrite Es. destruct (uart_st s') as [sn tb]. cbn in Hs |- *. by subst sn.
  - intros k Hb Hsz Hk Hlt. apply andb_prop in Et as [Et _]. unfold device_frame in Ef. rewrite Et in Ef. injection Ef as <-.
    destruct (switch_wait_ends sched fuel _ (with_frame (switch_frame (Some ip) dev_cmd dev_number) (uart_st s)) k
      (proj1 (switch_frame_for (Some ip) dev_cmd dev_number Hb)) Hsz Hk Hlt) as [q Eq].
    unfold on_uart. cbn [uart_st set_uart set_f_dev] in *. rewrite Eq. by eexists.
Qed.

Lemma forward_to_device_witness :
  exists s', ForwardControlToUart (H := RefSqlite) (fun _ => true) (fun _ q => q) 1 "0013A200" "lamp" TYPE_CL_DEV CMD_CL_OPEN 0
      (sample_dm (reg_db sample_reg ∅)) = Some (true, s') /\ sent (uart_st s') = [[0x03; 0xAB; 0x12; 0x01; 0x10]].
Proof.
  assert (short_ips sample_reg) as Hips by (apply Forall_singleton; vm_compute; lia).
  assert (arg_ok "0013A200" /\ arg_ok "lamp") as [Hm Hn] by (split; (split; [reflexivity|vm_compute; lia])).
  pose proof (reg_db_wf sample_reg ∅ (map_Forall_empty _)) as Hr.
  destruct (forward_to_device (SL := RefSqliteLaws) sample_reg ∅ (sample_dm (reg_db sample_reg ∅)) (fun _ => true) (fun _ q => q) 1
    "0013A200" "lamp" TYPE_CL_DEV CMD_CL_OPEN 0 Hr (holds_reg_db _ _) sample_reg_inv Hips Hm Hn) as (file & _ & _ & E).
  eexists. split; [exact E|]. reflexivity.
Defined.

(** ** Lines of the coordinator *)

(** A line: the fields with commas between them, and three characters (the end
    of the line) behind. *)
Definition line (fields : list string) (tail : string) : string := join "," fields +:+ tail.

Lemma handle_line_run `{Sqlite} net_ok header fields tail s ty :
  token_ok "," header = true -> Forall (fun f => token_ok "," f = true) fields -> String.length tail = 3%nat ->
  (2 <= String.length header)%nat -> strtol (String.substring (String.length header - 2) 2 header) 16 = ty -> fields <> [] ->
  handle_line net_ok (line (header :: fields) tail) s =
    (_ ← dispatch_line net_ok ty (join "," fields); mret header) (set_out (out s ++ [EvSystem "led_flash 2 1 4&"]) s).
Proof.
  intros Hh Hf Ht Hl Hty Hne. unfold handle_line, line. rewrite length_app_s, Ht, Nat.add_sub.
  replace (3 <=? String.length (join "," (header :: fields)) + 3)%nat with true by (symmetry; apply Nat.leb_le; lia).
  rewrite substring_prefix. rewrite (bind_some _ _ _ (join "," (header :: fields)) s) by done.
  assert (join "," (header :: fields) = header +:+ String "," (join "," fields)) as -> by (by destruct fields).
  rewrite strtok_sep by done.
  rewrite (bind_some _ _ _ tt (set_out (out s ++ [EvSystem "led_flash 2 1 4&"]) s)) by done.
  unfold header_type. replace (2 <=? String.length header)%nat with true by (symmetry; apply Nat.leb_le; lia). rewrite Hty.
  rewrite (bind_some _ _ _ ty (set_out (out s ++ [EvSystem "led_flash 2 1 4&"]) s)) by done.
  unfold after_strtok. rewrite skip_delims_token by done. rewrite Nat.sub_diag.
  rewrite take_token_sep by (by apply token_ok_all). cbn [fst Nat.add]. by rewrite substring_prefix.
Qed.

Lemma fmt_X_token sep p n : (p < 32)%nat -> 0 <= n < 16 ^ Z.of_nat (S p) -> is_hex_digit sep = false ->
  token_ok sep (fmt_X_prec (S p) n) = true.
Proof.
  intros Hp Hn Hs. rewrite fmt_X_fixed by done. unfold token_ok.
  assert (forall k m acc, 0 <= m -> all_chars (fun c => negb (Ascii.eqb sep c)) acc = true ->
    all_chars (fun c => negb (Ascii.eqb sep c)) (fixed_digits k 16 m acc) = true) as H.
  { induction k as [|k IH]; intros m acc Hm Ha; [done|]. cbn [fixed_digits]. apply IH; [by apply Z.div_pos|].
    cbn [all_chars]. rewrite Ha, andb_true_r. pose proof (is_hex_digit_char (m mod 16) (Z.mod_pos_bound m 16 ltac:(lia))) as Hd.
    destruct (Ascii.eqb_spec sep (digit_char (m mod 16))) as [->|]; [congruence|done]. }
  specialize (H (S p) n "" ltac:(lia) eq_refl). pose proof (fixed_digits_length (S p) 16 n "") as Hl.
  destruct (fixed_digits (S p) 16 n ""); [cbn in Hl; lia|exact H].
Qed.

(** The line a switch module sends for an answer with these three bytes. *)
Definition answer_line (addr b1 b2 b3 : Z) (tail : string) : string :=
  line ["*02"; ip_text addr; fmt_X_prec 2 b1; fmt_X_prec 2 b2; fmt_X_prec 2 b3] tail.

Lemma get_ip_byte_prefix ip rest : String.length ip = 4%nat -> get_ip_byte (Some (ip +:+ rest)) = get_ip_byte (Some ip).
Proof.
  destruct ip as [|a [|b [|c [|d [|]]]]]; try done. intros _. unfold get_ip_byte, two_chars. cbn [String.append String.substring].
  by rewrite !substring_0.
Qed.

(** The answer of a switch to a command, read from the coordinator, is
    put into the table: as the frame of the command, when the three bytes are
    its last ones; so that the thread that waits for it finds it, unless 20
    answers wait already. *)
Lemma answer_stored `{Sqlite} net_ok (addr dev_cmd n : Z) (tail : string) (s : dm_state) :
  0 <= addr < 65536 -> byte_range n -> String.length tail = 3%nat -> queue_ok (table (uart_st s)) ->
  let f := switch_frame (Some (ip_text addr)) dev_cmd n in
  exists q, handle_line net_ok (answer_line addr (f !!! 3%nat) (f !!! 4%nat) (f !!! 5%nat) tail) s =
      Some ("*02", set_uart (mk_uart (sent (uart_st s)) q) (set_out (out s ++ [EvSystem "led_flash 2 1 4&"]) s)) /\
    queue_ok q /\
    if decide (length (pending (table (uart_st s))) < 20)%nat
    then exists l1 l2, pending (table (uart_st s)) = l1 ++ l2 /\ pending q = l1 ++ f :: l2
    else q = table (uart_st s).
Proof.
  intros Ha Hn Ht Hq f. destruct (switch_frame_for (Some (ip_text addr)) dev_cmd n Hn) as (Hlen & Hb & _). fold f in Hlen, Hb.
  assert (String.length (ip_text addr) = 4%nat) as Hl4 by (unfold ip_text; rewrite (fmt_X_fixed 3) by (cbn; lia); by rewrite fixed_digits_length).
  assert (exists lo hi b3 b4 b5, f = [DEV_SWITCH; lo; hi; b3; b4; b5] /\ get_ip_byte (Some (ip_text addr)) = (lo, hi)) as (lo & hi & b3 & b4 & b5 & Ef & Eip).
  { unfold f, switch_frame. destruct (get_ip_byte (Some (ip_text addr))) as [lo hi]. repeat case_match; simplify_eq; by repeat eexists. }
  rewrite Ef in *. repeat (apply Forall_cons in Hb as [? Hb]). unfold byte_range in *.
  cbn [lookup_total list_lookup_total].
  destruct (queuing_spec [DEV_SWITCH; lo; hi; b3; b4; b5] (table (uart_st s)) Hq eq_refl) as (q & Eq & Hok & Hp).
  exists q. split; [|split; [done|exact Hp]]. unfold answer_line.
  assert (forall b, 0 <= b < 256 -> token_ok "," (fmt_X_prec 2 b) = true) as Hx by (intros; apply fmt_X_token; [lia|cbn; lia|done]).
  assert (token_ok "," (ip_text addr) = true) as Hip by (apply fmt_X_token; [lia|cbn; lia|done]).
  rewrite (handle_line_run net_ok "*02" _ tail s 2); [|done| |done|cbn; lia|reflexivity|done].
  2:{ repeat apply Forall_cons_2; auto. }
  unfold dispatch_line. change (2 =? DEV_ADD) with false. change ((2 =? DEV_SOUND) || _ || _ || _) with false.
  change (2 =? DEV_SWITCH) with true. cbv iota. cbn [join]. rewrite !strtok_sep by auto. rewrite strtok_last by auto.
  unfold queue_answer. rewrite get_ip_byte_prefix, Eip by done. rewrite !strtol_fmt_X_byte by done. rewrite !u8_small by done.
  unfold mbind, M_bind, on_uart. cbn [uart_st set_out len cmd_SW]. change 6%nat with UART_DATA_NUM. rewrite Eq. done.
Qed.

(** What reading a line does to the table of answers. *)
Definition line_effect `{Sqlite} (net_ok : bool) (text : string) (s : dm_state) (q : queue) : queue :=
  match handle_line net_ok text (set_uart (mk_uart (sent (uart_st s)) q) s) with
  | Some (_, s') => table (uart_st s')
  | None => q
  end.

Lemma line_effect_spec `{Sqlite} net_ok (addr dev_cmd n : Z) (tail : string) (s : dm_state) (q : queue) :
  0 <= addr < 65536 -> byte_range n -> String.length tail = 3%nat -> queue_ok q ->
  let f := switch_frame (Some (ip_text addr)) dev_cmd n in
  let q' := line_effect net_ok (answer_line addr (f !!! 3%nat) (f !!! 4%nat) (f !!! 5%nat) tail) s q in
  queue_ok q' /\ ((length (pending q) < 20)%nat -> f ∈ pending q').
Proof.
  intros Ha Hn Ht Hq f q'.
  destruct (answer_stored net_ok addr dev_cmd n tail (set_uart (mk_uart (sent (uart_st s)) q) s) Ha Hn Ht Hq) as (q1 & Eq & Hok & Hp).
  fold f in Eq, Hp. unfold q', line_effect. rewrite Eq. cbn [uart_st set_uart table] in *. split; [done|]. intros Hl.
  destruct (decide _) as [_|]; [|done]. destruct Hp as (l1 & l2 & _ & ->). rewrite elem_of_app, elem_of_cons. auto.
Qed.

(** C6: A switch command comes to an end: once the coordinator delivers the
    line with the switch's answer, at whatever pause [k] of the waiting
    thread and whatever the other threads do before and after, the command
    returns success, at the latest at the next poll, provided the table had
    room for the answer. *)
Theorem command_answered `{Sqlite} net_ok (wr : list Z -> bool) (sched : nat -> queue -> queue) (addr dev_cmd n : Z) (tail : string)
    (s0 : dm_state) (u : uart_state) (k fuel : nat) :
  let f := switch_frame (Some (ip_text addr)) dev_cmd n in
  0 <= addr < 65536 -> byte_range n -> String.length tail = 3%nat -> wr f = true ->
  (forall j, queue_ok (table_at sched (table u) j)) ->
  (length (pending (table_at sched (table u) k)) < 20)%nat ->
  sched k (table_at sched (table u) k) =
    line_effect net_ok (answer_line addr (f !!! 3%nat) (f !!! 4%nat) (f !!! 5%nat) tail) s0 (table_at sched (table u) k) ->
  (k + 1 < fuel)%nat ->
  exists u', switch_dev_control_func wr sched fuel (Some (ip_text addr)) dev_cmd n u = Some (true, u') /\
    sent u' = sent u ++ [f].
Proof.
  intros f Ha Hn Ht Hw Hok Hroom Hline Hf.
  destruct (line_effect_spec net_ok addr dev_cmd n tail s0 _ Ha Hn Ht (Hok k)) as [_ Hp].
  fold f in Hp. rewrite <- Hline in Hp. specialize (Hp Hroom).
  destruct (switch_frame_for (Some (ip_text addr)) dev_cmd n Hn) as (Hlen & _ & _). fold f in Hlen.
  assert (uart_check f 6 6 (table_at sched (table u) (k + 1)) <> None) as Hfound.
  { pose proof (uart_check_spec f 6 6 _ (queue_ok_sized _ (Hok (k + 1)%nat)) ltac:(unfold UART_DATA_NUM; lia) ltac:(by rewrite Hlen)) as Hs.
    destruct (uart_check _ _ _ _); [done|]. intros _. rewrite Nat.add_1_r in Hs. cbn [table_at] in Hs.
    rewrite Forall_forall in Hs. by apply (Hs f). }
  destruct (poll_ends sched f 6 6 (table u) (k + 1) fuel Hfound Hf) as (j & got & q' & _ & E & _).
  exists (mk_uart (sent u ++ [f]) q'). split; [|done].
  rewrite switch_control_run. fold f. rewrite Hw. unfold switch_wait, with_frame. cbn [table sent]. by rewrite E.
Qed.

Lemma command_answered_witness :
  let f := switch_frame (Some (ip_text 0x12AB)) CMD_SW_OPEN 1 in
  let l := answer_line 0x12AB (f !!! 3%nat) (f !!! 4%nat) (f !!! 5%nat) (String "013" (String "010" "#")) in
  let sched := fun k q => if decide (k = 2%nat) then line_effect (H := RefSqlite) true l (sample_dm ∅) q else q in
  exists u', switch_dev_control_func (fun _ => true) sched 4 (Some (ip_text 0x12AB)) CMD_SW_OPEN 1
      (mk_uart [] (uart_data_quene_init quene_static)) = Some (true, u') /\ sent u' = [] ++ [f].
Proof.
  intros f l sched.
  assert (forall j, table_at sched (uart_data_quene_init quene_static) j = if (j <=? 2)%nat then uart_data_quene_init quene_static
    else line_effect (H := RefSqlite) true l (sample_dm ∅) (uart_data_quene_init quene_static)) as Ht.
  { intros [|[|[|j]]]; [reflexivity..|]. induction j as [|j IH]; [reflexivity|]. cbn [table_at] in *. rewrite IH. unfold sched.
    by destruct (decide _). }
  apply (command_answered (H := RefSqlite) true (fun _ => true) sched 0x12AB CMD_SW_OPEN 1 (String "013" (String "010" "#")) (sample_dm ∅)
    (mk_uart [] (uart_data_quene_init quene_static)) 2 4); [lia|unfold byte_range; lia|reflexivity|reflexivity| | |reflexivity|lia].
  - intros j. cbn [table]. rewrite Ht. destruct (j <=? 2)%nat; [apply init_ok|].
    apply (line_effect_spec (H := RefSqlite) true 0x12AB CMD_SW_OPEN 1 (String "013" (String "010" "#")) (sample_dm ∅));
      [lia|unfold byte_range; lia|reflexivity|apply init_ok].
  - vm_compute. lia.
Defined.

Section Lines.
Context {S0 : Sqlite} {SL : SqliteLaws S0}.

(** The device that an alarm from [ip] is about: one behind a module with this
    address. *)
Definition device_at (g : registry) (ip : string) (r : dev_row) : Prop :=
  r ∈ devs g /\ exists y, y ∈ dyns g /\ y_ip y = ip /\ y_mac y = d_mac r.

Lemma dev_text_by_ip_spec g col (h : dev_row -> string) cap ip :
  (col = "F_NAME" /\ h = d_name \/ col = "F_UNICODE" /\ h = d_unicode) -> arg_ok ip ->
  Forall (fun y => arg_ok (y_mac y) /\ (String.length (y_mac y) < 41)%nat) (dyns g) ->
  Forall (fun r => (String.length (h r) < cap)%nat) (devs g) ->
  dtriple g (dev_text_by_ip col cap ip) (fun o g' => g' = g /\
    match o with
    | Some t => exists r, device_at g ip r /\ t = h r
    | None => (forall y, y ∈ dyns g -> y_ip y <> ip) \/
              (exists y, y ∈ dyns g /\ y_ip y = ip /\ forall r, r ∈ devs g -> d_mac r <> y_mac y)
    end).
Proof.
  intros Hcol [Hq Hl] Hmacs Hcap. apply dtriple_with_open.
  eapply (otriple_bind _ _ _ (fun s g' => s = _ /\ g' = g)); [by apply otriple_sprintf; [sql_len|]|]. intros ? ? [-> ->].
  set (p := fun y => String.eqb (y_ip y) ip).
  eapply (otriple_bind _ _ _ (fun r g' => g' = g /\ ((row_num r = 0%nat /\ List.find p (dyns g) = None) \/
     (exists x, (1 <= row_num r)%nat /\ x ∈ dyns g /\ p x = true /\ mjoin (azResult r !! 1%nat) = Some (y_mac x))))).
  { eapply (otriple_first (ST := reg_store) "dynamictable" _ _ _ _ p _ _ _ _ (fun x => VText (y_mac x)));
      [apply reg_db_dynamic|parse_text| |done|done|auto].
    intros x. unfold p. cbn. by destruct (String.eqb _ _). }
  intros r ? [-> [[-> Hnone]|(y & Hr & Hy & Hp & Haz)]].
  { apply otriple_ret. split; [done|]. left. intros y Hy E. apply list_elem_of_In in Hy.
    pose proof (List.find_none _ _ Hnone _ Hy) as H. unfold p in H. by rewrite E, String.eqb_refl in H. }
  destruct (Nat.eqb_spec (row_num r) 0); [lia|]. apply String.eqb_eq in Hp.
  rewrite Forall_forall in Hmacs. destruct (Hmacs y Hy) as [[Hqm Hlm] H41].
  eapply (otriple_bind _ _ _ (fun s g' => s = _ /\ g' = g)); [by eapply otriple_lift; [exact Haz|]|]. intros ? ? [-> ->].
  eapply (otriple_bind _ _ _ (fun s g' => s = y_mac y /\ g' = g)); [by eapply otriple_lift; [by apply fits_ok|]|]. intros ? ? [-> ->].
  assert (String.length col <= 9)%nat as Hc by (destruct Hcol as [[-> _]|[-> _]]; cbn; lia).
  eapply (otriple_bind _ _ _ (fun s g' => s = _ /\ g' = g)).
  { apply otriple_sprintf; [|done]. rewrite !length_app_s. cbn [String.length]. lia. }
  intros ? ? [-> ->].
  set (q := fun r => String.eqb (d_mac r) (y_mac y)).
  eapply (otriple_bind _ _ _ (fun r g' => g' = g /\ ((row_num r = 0%nat /\ List.find q (devs g) = None) \/
     (exists x, (1 <= row_num r)%nat /\ x ∈ devs g /\ q x = true /\ mjoin (azResult r !! 1%nat) = Some (h x))))).
  { destruct Hcol as [[-> ->]|[-> ->]].
    - eapply (otriple_first (ST := reg_store) "statictable" _ _ _ _ q _ _ _ _ (fun x => VText (d_name x)));
        [apply reg_db_static|parse_text| |done|done|auto]. intros x. unfold q. cbn. by destruct (String.eqb _ _).
    - eapply (otriple_first (ST := reg_store) "statictable" _ _ _ _ q _ _ _ _ (fun x => VText (d_unicode x)));
        [apply reg_db_static|parse_text| |done|done|auto]. intros x. unfold q. cbn. by destruct (String.eqb _ _). }
  intros r2 ? [-> [[-> Hnone]|(x & Hr2 & Hx & Hp2 & Haz2)]].
  { apply otriple_ret. split; [done|]. right. exists y. split; [done|]. split; [done|]. intros x Hx E. apply list_elem_of_In in Hx.
    pose proof (List.find_none _ _ Hnone _ Hx) as H. unfold q in H. by rewrite E, String.eqb_refl in H. }
  destruct (Nat.eqb_spec (row_num r2) 0); [lia|]. apply String.eqb_eq in Hp2.
  eapply (otriple_bind _ _ _ (fun s g' => s = _ /\ g' = g)); [by eapply otriple_lift; [exact Haz2|]|]. intros ? ? [-> ->].
  rewrite Forall_forall in Hcap.
  eapply (otriple_bind _ _ _ (fun s g' => s = h x /\ g' = g)); [by eapply otriple_lift; [by apply fits_ok, Hcap|]|]. intros ? ? [-> ->].
  apply otriple_ret. split; [done|]. exists x. split; [|done]. split; [done|]. by exists y.
Qed.
End Lines.

Lemma find_map {A} (p : A -> bool) (f : A -> A) l : (forall x, p (f x) = p x) -> List.find p (f <$> l) = f <$> List.find p l.
Proof. intros Hp. induction l as [|x l IH]; [done|]. cbn. rewrite Hp. by destruct (p x). Qed.

Lemma find_app_s {A} (p : A -> bool) l k :
  List.find p (l ++ k) = match List.find p l with Some x => Some x | None => List.find p k end.
Proof. induction l as [|x l IH]; [done|]. cbn. by destruct (p x). Qed.

Lemma existsb_find {A} (p : A -> bool) l : existsb p l = match List.find p l with Some _ => true | None => false end.
Proof. induction l as [|x l IH]; [done|]. cbn. by destruct (p x). Qed.

(** The announcement replaces the address of the module, and of no other. *)
Lemma reg_ip_announced mac ip g mac' :
  reg_ip mac' (snd (reg_announce mac ip g)) = if String.eqb mac' mac then Some ip else reg_ip mac' g.
Proof.
  unfold reg_announce, reg_ip. rewrite existsb_find. destruct (List.find (is_mac mac) (dyns g)) as [y|] eqn:Ef; cbn [snd dyns with_dyns].
  - unfold map_if. rewrite find_map by (intros x; unfold is_mac; by destruct (String.eqb (y_mac x) mac)).
    destruct (String.eqb_spec mac' mac) as [->|Hne].
    + rewrite Ef. apply List.find_some in Ef as [_ Hy]. cbn. by rewrite Hy.
    + destruct (List.find (is_mac mac') (dyns g)) as [x|] eqn:Ex; [|done]. apply List.find_some in Ex as [_ Hx].
      cbn. unfold is_mac in *. apply String.eqb_eq in Hx. destruct (String.eqb_spec (y_mac x) mac); [congruence|done].
  - rewrite find_app_s. destruct (String.eqb_spec mac' mac) as [->|Hne].
    + rewrite Ef. cbn. unfold is_mac. cbn. by rewrite String.eqb_refl.
    + destruct (List.find (is_mac mac') (dyns g)); [done|]. cbn. unfold is_mac. cbn.
      by destruct (String.eqb_spec mac mac'); [congruence|].
Qed.

(** A module that announces itself gives its devices its address: from
    then on commands for them go there. *)
Theorem announcement_registered {S0 : Sqlite} {SL : SqliteLaws S0} (g : registry) (rest : sqldb) (s : dm_state) net_ok
    (ip mac tail : string) :
  ready (f_dev s) -> holds_reg g rest (view (f_dev s)) -> arg_ok ip -> arg_ok mac ->
  token_ok "," ip = true -> token_ok "," mac = true -> String.length tail = 3%nat ->
  exists file, let g' := snd (reg_announce mac ip g) in
    handle_line net_ok (line ["*01"; ip; mac] tail) s =
      Some ("*01", set_f_dev file (set_out (out s ++ [EvSystem "led_flash 2 1 4&"]) s)) /\
    ready file /\ holds_reg g' rest (view file) /\
    (forall mac' name, device_address mac' name g' =
       if existsb (is_dev mac' name) (devs g) then if String.eqb mac' mac then Some ip else reg_ip mac' g else None).
Proof.
  intros Hr Hh Hi Hm Ti Tm Ht. set (s1 := set_out (out s ++ [EvSystem "led_flash 2 1 4&"]) s).
  destruct (reg_run g rest _ _ s1 (AddDevToDynamicTable_spec g mac ip Hm Hi) Hr Hh) as (b & file & g' & E & Hf & Hg' & Ea).
  exists file. cbv zeta. rewrite <- Ea. cbn [snd]. split_and!; [|done|done|].
  - rewrite (handle_line_run net_ok "*01" [ip; mac] tail s 1); [|done| |done|cbn; lia|done|done].
    2:{ repeat apply Forall_cons_2; auto. }
    fold s1. unfold dispatch_line. change (1 =? DEV_ADD) with true. cbv iota. cbn [join].
    rewrite strtok_sep, strtok_last by done. unfold mbind, M_bind. rewrite E. done.
  - intros mac' name. unfold device_address. rewrite (f_equal snd Ea : g' = _) at 2. rewrite reg_ip_announced.
    enough (devs g' = devs g) as -> by done. unfold reg_announce in Ea. by destruct (existsb _ _); injection Ea as _ ->.
Qed.

Lemma announcement_registered_witness :
  exists file, handle_line (H := RefSqlite) true (line ["*01"; "3F2A"; "0013A200"] (String "013" (String "010" "#"))) (sample_dm (reg_db sample_reg ∅)) =
      Some ("*01", set_f_dev (H := RefSqlite) file (set_out [EvSystem "led_flash 2 1 4&"] (sample_dm (reg_db sample_reg ∅)))) /\
    ready (SqliteLaws := RefSqliteLaws) file /\ device_address "0013A200" "lamp" (snd (reg_announce "0013A200" "3F2A" sample_reg)) = Some "3F2A".
Proof.
  destruct (announcement_registered (SL := RefSqliteLaws) sample_reg ∅ (sample_dm (reg_db sample_reg ∅)) true "3F2A" "0013A200"
    (String "013" (String "010" "#")) (reg_db_wf sample_reg ∅ (map_Forall_empty _)) (holds_reg_db _ _)
    ltac:(split; [reflexivity|vm_compute; lia]) ltac:(split; [reflexivity|vm_compute; lia]) eq_refl eq_refl eq_refl)
    as (file & E & Hf & _ & Hd).
  exists file. split; [exact E|]. split; [exact Hf|]. exact (Hd "0013A200" "lamp").
Defined.

(** What an alarm from [name] sends before the messages: the broadcast, the siren. *)
Definition alarm_news (net_ok : bool) (name state : string) : string * list event :=
  let bcast act := if net_ok
    then [EvBroadcast ("[" +:+ (json_object ["who"; "action"; "dev_name"] ["Tip:"; fmt_d act; name] +:+ "]"))] else [] in
  match strstr state "FF", strstr state "00" with
  | Some _, _ => (STR_CHS_SYS_ALARM_COME, bcast 6 ++ [EvSystem "madplay /usr/alarm/alarm.mp3&"])
  | None, Some _ => (STR_CHS_SYS_ALRAM_GONE, bcast 7)
  | None, None => ("", [])
  end.

(** The name in an alarm from [ip]: a device behind the module, or the kind of
    the sensor when there is none. *)
Definition alarm_name_of (g : registry) (ty : Z) (ip name : string) : Prop :=
  (exists r, device_at g ip r /\ name = d_name r) \/
  (name = SetDefaultAlarmName ty /\
   ((forall y, y ∈ dyns g -> y_ip y <> ip) \/
    (exists y, y ∈ dyns g /\ y_ip y = ip /\ forall r, r ∈ devs g -> d_mac r <> y_mac y))).

Lemma bind_fits `{Sqlite} {A} cap x (k : string -> DM A) s : (String.length x < cap)%nat -> (lift (fits cap x) ≫= k) s = k x s.
Proof. intros Hl. unfold mbind, M_bind, lift. by rewrite fits_ok. Qed.

Lemma mail_text_length name value : (String.length (mail_text name value "121") = String.length (mail_text "" "" "121") + String.length name + String.length value)%nat.
Proof. unfold mail_text. rewrite !cat_all_length. cbn [total_length foldr]. change (String.length "") with 0%nat. lia. Qed.

Lemma inform_run `{Sqlite} name value uname uvalue s : (String.length name <= 400)%nat -> (String.length value <= 16)%nat ->
  (let alarm := mk_alarm name value uname uvalue in _ ← InformUserByEmail alarm; _ ← InformUserByWechat alarm; InformUserByMobile alarm) s =
  Some (tt, set_out (out s ++ [EvMailThread; EvSystem ("upload " +:+ (name +:+ (" " +:+ (value +:+ "&")))); EvMobileThread name])
    (set_mail_body (mail_text name value "121") s)).
Proof.
  intros Hn Hv. cbv zeta.
  pose proof (mail_text_length name value) as Hl. set (m := String.length (mail_text "" "" "121")) in Hl.
  assert (m <= 2000)%nat as Hm by (subst m; apply Nat.leb_le; vm_compute; reflexivity). clearbody m.
  set (alarm := mk_alarm name value uname uvalue).
  assert (InformUserByEmail alarm s = Some (tt, set_out (out s ++ [EvMailThread]) (set_mail_body (mail_text name value "121") s))) as E1.
  { unfold InformUserByEmail, sprintf, alarm. cbn [alarm_name alarm_value]. rewrite bind_fits by lia. done. }
  rewrite (bind_some _ _ _ _ _ E1). set (s1 := set_out _ _).
  assert (InformUserByWechat alarm s1 = Some (tt, set_out (out s1 ++ [EvSystem ("upload " +:+ (name +:+ (" " +:+ (value +:+ "&"))))]) s1)) as E2.
  { unfold InformUserByWechat, sprintf, alarm. cbn [alarm_name alarm_value].
    rewrite bind_fits by (rewrite !length_app_s; cbn [String.length]; lia). done. }
  rewrite (bind_some _ _ _ _ _ E2). subst s1. unfold InformUserByMobile, emit_ev, modify.
  cbn [out set_out set_mail_body alarm_name alarm]. by rewrite <- !app_assoc.
Qed.

Section Alarms.
Context {S0 : Sqlite} {SL : SqliteLaws S0}.

Definition alarm_dev_ok (r : dev_row) : Prop := (String.length (d_name r) <= 400)%nat /\ (String.length (d_unicode r) < 512)%nat.

Lemma news_run net_ok name uname state s : (String.length name <= 400)%nat ->
  exists uvalue, (match strstr state STR_UART_ALARM_COME, strstr state STR_UART_ALARM_GONE with
    | Some _, _ =>
        _ ← send_broadcast net_ok STR_ALARM_SEND_BROADCAST_PRE ACTION_SYS_ALARM_COME name;
        _ ← system_ring DEV_ALARM_RING_CMD;
        mret (mk_alarm name STR_CHS_SYS_ALARM_COME uname STR_UNI_SYS_ALARM_COME)
    | None, Some _ =>
        _ ← send_broadcast net_ok STR_ALARM_SEND_BROADCAST_PRE ACTION_SYS_ALARM_GONE name;
        mret (mk_alarm name STR_CHS_SYS_ALRAM_GONE uname STR_UNI_SYS_ALARM_GONE)
    | None, None => mret (mk_alarm name "" uname "")
    end) s = Some (mk_alarm name (fst (alarm_news net_ok name state)) uname uvalue,
                   set_out (out s ++ snd (alarm_news net_ok name state)) s).
Proof.
  intros Hn.
  assert (forall act, 0 <= act < 10 -> send_broadcast net_ok STR_ALARM_SEND_BROADCAST_PRE act name s =
    Some (tt, set_out (out s ++ if net_ok then [EvBroadcast ("[" +:+ (json_object ["who"; "action"; "dev_name"] ["Tip:"; fmt_d act; name] +:+ "]"))] else []) s)) as Hb.
  { intros act Ha. unfold send_broadcast. destruct net_ok; [|destruct s; cbn; by rewrite app_nil_r].
    unfold sprintf. rewrite bind_fits; [done|]. unfold json_object, json_field. cbn [zip_with join].
    repeat (rewrite !length_app_s; cbn [String.length]).
    pose proof (fmt_d_short 1 act ltac:(lia) ltac:(cbn; lia)). change (String.length dq) with 1%nat. change (String.length STR_ALARM_SEND_BROADCAST_PRE) with 4%nat. lia. }
  unfold STR_UART_ALARM_COME, STR_UART_ALARM_GONE, alarm_news.
  destruct (strstr state "FF"); [|destruct (strstr state "00")]; cbn [fst snd].
  - exists STR_UNI_SYS_ALARM_COME. rewrite (bind_some _ _ _ _ _ (Hb 6 ltac:(lia))).
    set (s1 := set_out _ s). assert (system_ring DEV_ALARM_RING_CMD s1 = Some (tt, set_out (out s1 ++ [EvSystem "madplay /usr/alarm/alarm.mp3&"]) s1)) as E by done.
    rewrite (bind_some _ _ _ _ _ E). subst s1. cbn [out set_out]. by rewrite <- app_assoc.
  - exists STR_UNI_SYS_ALARM_GONE. by rewrite (bind_some _ _ _ _ _ (Hb 7 ltac:(lia))).
  - exists "". destruct s. cbn. by rewrite app_nil_r.
Qed.

Lemma raise_alarm_run g rest s net_ok ty ip state :
  ready (f_dev s) -> holds_reg g rest (view (f_dev s)) -> arg_ok ip ->
  Forall (fun y => arg_ok (y_mac y) /\ (String.length (y_mac y) < 41)%nat) (dyns g) -> Forall alarm_dev_ok (devs g) ->
  exists name file, alarm_name_of g ty ip name /\ ready file /\ holds_reg g rest (view file) /\
    raise_alarm net_ok ty ip state s =
    Some (tt, set_mail_body (mail_text name (fst (alarm_news net_ok name state)) "121")
      (set_out (out s ++ snd (alarm_news net_ok name state) ++
        [EvMailThread; EvSystem ("upload " +:+ (name +:+ (" " +:+ (fst (alarm_news net_ok name state) +:+ "&")))); EvMobileThread name])
        (set_f_dev file s))).
Proof.
  intros Hr Hh Hi Hm Hd. unfold raise_alarm. rewrite Forall_forall in Hd.
  assert (Forall (fun r => (String.length (d_name r) < 1024)%nat) (devs g)) as Hd1 by (apply Forall_forall; intros r Hr'; specialize (Hd r Hr'); unfold alarm_dev_ok in Hd; lia).
  assert (Forall (fun r => (String.length (d_unicode r) < 1024)%nat) (devs g)) as Hd2 by (apply Forall_forall; intros r Hr'; specialize (Hd r Hr'); unfold alarm_dev_ok in Hd; lia).
  destruct (reg_run g rest _ _ s (dev_text_by_ip_spec g "F_NAME" d_name 1024 ip ltac:(auto) Hi Hm Hd1) Hr Hh)
    as (o1 & f1 & g1 & E1 & Hf1 & Hg1 & -> & Ho1).
  rewrite (bind_some _ _ _ _ _ E1).
  destruct (reg_run g rest _ _ (set_f_dev f1 s) (dev_text_by_ip_spec g "F_UNICODE" d_unicode 1024 ip ltac:(auto) Hi Hm Hd2) Hf1 Hg1)
    as (o2 & f2 & g2 & E2 & Hf2 & Hg2 & -> & Ho2).
  rewrite (bind_some _ _ _ _ _ E2). cbn [f_dev set_f_dev].
  set (name := default (SetDefaultAlarmName ty) o1). set (uname := default (SetDefaultAlarmUnicodeName ty) o2).
  assert (alarm_name_of g ty ip name /\ (String.length name <= 400)%nat) as [Hname Hl].
  { subst name. destruct o1 as [t|]; cbn [default].
    - destruct Ho1 as (r & Hr' & ->). split; [left; eauto|]. destruct Hr' as [Hr' _]. by destruct (Hd r Hr').
    - split; [right; eauto|]. unfold SetDefaultAlarmName. repeat case_match; cbn; lia. }
  assert (String.length uname < 512)%nat as Hu.
  { subst uname. destruct o2 as [t|]; cbn [default].
    - destruct Ho2 as (r & [Hr' _] & ->). by destruct (Hd r Hr').
    - unfold SetDefaultAlarmUnicodeName. repeat case_match; cbn; lia. }
  exists name, f2. split; [done|]. split; [done|]. split; [done|]. cbv zeta.
  rewrite bind_fits by lia. rewrite bind_fits by done.
  destruct (news_run net_ok name uname state (set_f_dev f2 (set_f_dev f1 s)) Hl) as [uvalue En].
  rewrite (bind_some _ _ _ _ _ En).
  pose proof (inform_run name (fst (alarm_news net_ok name state)) uname uvalue
    (set_out (out s ++ snd (alarm_news net_ok name state)) (set_f_dev f2 s)) Hl) as Ei. cbv zeta in Ei.
  etrans; [exact (Ei ltac:(unfold alarm_news; repeat case_match; cbn; lia))|]. cbn [out set_out]. by rewrite <- app_assoc.
Qed.
End Alarms.

(** The line of an alarm sensor, handled. *)
Lemma alarm_line_run {S0 : Sqlite} {SL : SqliteLaws S0} (g : registry) (rest : sqldb) (s : dm_state) net_ok
    (ty : Z) (ip second state tail : string) :
  ready (f_dev s) -> holds_reg g rest (view (f_dev s)) -> arg_ok ip ->
  Forall (fun y => arg_ok (y_mac y) /\ (String.length (y_mac y) < 41)%nat) (dyns g) -> Forall alarm_dev_ok (devs g) ->
  ty = DEV_SOUND \/ ty = DEV_YUDI \/ ty = DEV_YANWU \/ ty = DEV_HONGWAI ->
  Forall (fun f => token_ok "," f = true) [ip; second; state] -> String.length tail = 3%nat ->
  exists name file, alarm_name_of g ty ip name /\ ready file /\ holds_reg g rest (view file) /\
    let value := fst (alarm_news net_ok name state) in
    handle_line net_ok (line ["*" +:+ fmt_X_prec 2 ty; ip; second; state] tail) s =
    Some ("*" +:+ fmt_X_prec 2 ty, set_mail_body (mail_text name value "121")
      (set_out (out s ++ [EvSystem "led_flash 2 1 4&"] ++ snd (alarm_news net_ok name state) ++
        [EvMailThread; EvSystem ("upload " +:+ (name +:+ (" " +:+ (value +:+ "&")))); EvMobileThread name])
        (set_f_dev file s))).
Proof.
  intros Hr Hh Hi Hm Hd Hty Ht Hl. set (s1 := set_out (out s ++ [EvSystem "led_flash 2 1 4&"]) s).
  destruct (raise_alarm_run g rest s1 net_ok ty ip state Hr Hh Hi Hm Hd) as (name & file & Hname & Hf & Hg & E).
  exists name, file. split; [done|]. split; [done|]. split; [done|]. cbv zeta.
  rewrite (handle_line_run net_ok _ _ tail s ty); [| |done|done|..|done].
  - fold s1. repeat (apply Forall_cons in Ht as [? Ht]).
    assert (dispatch_line net_ok ty (join "," [ip; second; state]) s1 = raise_alarm net_ok ty ip state s1) as Ed.
    { unfold dispatch_line. cbn [join].
      assert ((ty =? DEV_ADD) = false /\ (ty =? DEV_SOUND) || (ty =? DEV_YUDI) || (ty =? DEV_YANWU) || (ty =? DEV_HONGWAI) = true) as [-> ->].
      { by destruct Hty as [->|[->|[->| ->]]]. }
      rewrite strtok_sep by done. rewrite strtok_sep by done. by rewrite strtok_last. }
    rewrite <- Ed in E. rewrite (bind_some _ _ _ _ _ E). subst s1. cbn [out set_out]. by rewrite <- app_assoc.
  - by destruct Hty as [->|[->|[->| ->]]].
  - destruct Hty as [->|[->|[->| ->]]]; by apply Nat.leb_le.
  - by destruct Hty as [->|[->|[->| ->]]].
Qed.
