(* ===== verification/UartLines.v ===== *)
(** * The daemon's loops over the serial line and the clock
      (uart_thread of src/src/dev_manage/uart_common.c, ReadFromUart of uart.c,
      TimerTaskRun of timertask.c)

    The coordinator's bytes come in pieces, which [ReadFromUart] puts together
    until the end of a line; between two pieces [read] may find nothing.  The
    theorems say which lines are handled, and what the timer sends. *)

From stdpp Require Import base list strings gmap.
From Stdlib Require Import ZArith Lia Ascii.
From S2P Require Import Prelude CString Calendar Sql UartQueue DevControl DevState DbTriple DbStore DevDb DevReg DevRegProps Alarm Timer Sms Notify UartCommon.

Open Scope Z_scope.

(** ** Rounds of [uart_thread] *)

Section Rounds.
Context `{Sqlite} (net_ok : bool).

(** Each round: the pieces that [read] delivers until it finds nothing, or
    until the end of a line. *)
Fixpoint uart_rounds (rounds : list (list string)) (buffer : string) : DM string :=
  match rounds with
  | [] => mret buffer
  | pieces :: rounds => buffer ← uart_round net_ok pieces buffer; uart_rounds rounds buffer
  end.

Definition has (c : ascii) (s : string) : bool := match strchr s c with Some _ => true | None => false end.

(** A piece that fits [temp], one that starts no line and ends none, and one
    that ends a line. *)
Definition piece_ok (p : string) : Prop := (String.length p < 50)%nat.
Definition middle (p : string) : Prop := piece_ok p /\ has "*" p = false /\ has "#" p = false.
Definition final (p : string) : Prop := piece_ok p /\ has "*" p = false /\ has "#" p = true.

(** The rounds bring the line [text], in two pieces at least: with the start
    mark in the first, and the end mark in the last. *)
Definition brings (rounds : list (list string)) (text : string) : Prop :=
  exists rs r first mid last, rounds = rs ++ [r ++ [last]] /\ concat rs ++ r = first :: mid /\
    piece_ok first /\ has "*" first = true /\ Forall middle mid /\ final last /\
    text = cat_all (first :: mid) +:+ last /\ (String.length text < 1024)%nat.

Lemma read_first temp pieces buffer : piece_ok temp -> has "*" temp = true ->
  ReadFromUart (temp :: pieces) buffer = ReadFromUart pieces temp.
Proof.
  unfold piece_ok, has. intros Hl Hs. cbn [ReadFromUart]. rewrite fits_ok by done. cbn [mbind option_bind].
  destruct (strchr temp "*"); [|done]. by rewrite fits_ok by lia.
Qed.

Lemma read_middle l more buffer : Forall middle l -> (String.length buffer + String.length (cat_all l) < 1024)%nat ->
  ReadFromUart (l ++ more) buffer = ReadFromUart more (buffer +:+ cat_all l).
Proof.
  intros Hl. revert buffer. induction Hl as [|p l (Hp & Hs & He) Hl IH]; intros buffer Hlen.
  - cbn. by rewrite app_nil_r_s.
  - rewrite cat_all_cons, length_app_s in Hlen. cbn [app ReadFromUart]. unfold has in *. rewrite fits_ok by done. cbn [mbind option_bind].
    destruct (strchr p "*"); [done|]. destruct (strchr p "#"); [done|]. unfold strcat_into. rewrite fits_ok by (rewrite length_app_s; lia).
    cbn [mbind option_bind]. rewrite IH by (rewrite length_app_s; lia). by rewrite cat_all_cons, app_assoc_s.
Qed.

Lemma read_final temp pieces buffer : final temp -> (String.length buffer + String.length temp < 1024)%nat ->
  ReadFromUart (temp :: pieces) buffer = Some (true, buffer +:+ temp).
Proof.
  intros (Hp & Hs & He) Hl. cbn [ReadFromUart]. unfold has in *. rewrite fits_ok by done. cbn [mbind option_bind].
  destruct (strchr temp "*"); [done|]. destruct (strchr temp "#"); [|done]. unfold strcat_into.
  by rewrite fits_ok by (rewrite length_app_s; lia).
Qed.

Lemma round_middle l buffer s : Forall middle l -> (String.length buffer + String.length (cat_all l) < 1024)%nat ->
  uart_round net_ok l buffer s = Some (buffer +:+ cat_all l, s).
Proof.
  intros Hl Hlen. unfold uart_round. rewrite <- (app_nil_r l), read_middle by done. cbn [ReadFromUart].
  by rewrite (bind_lift _ _ _ (false, buffer +:+ cat_all l)), app_nil_r.
Qed.

Lemma round_final l last buffer : Forall middle l -> final last ->
  (String.length buffer + String.length (cat_all l) + String.length last < 1024)%nat ->
  forall s, uart_round net_ok (l ++ [last]) buffer s = handle_line net_ok ((buffer +:+ cat_all l) +:+ last) s.
Proof.
  intros Hl Hf Hlen s. unfold uart_round. rewrite read_middle by (done || lia). rewrite read_final by (done || rewrite length_app_s; lia). done.
Qed.

Lemma rounds_middle rs r last buffer s : Forall middle (concat rs ++ r) -> final last ->
  (String.length buffer + String.length (cat_all (concat rs ++ r)) + String.length last < 1024)%nat ->
  uart_rounds (rs ++ [r ++ [last]]) buffer s = handle_line net_ok ((buffer +:+ cat_all (concat rs ++ r)) +:+ last) s.
Proof.
  intros Hm Hf. revert buffer. induction rs as [|l rs IH]; intros buffer Hlen; cbn [app concat] in *.
  - cbn [uart_rounds]. pose proof (round_final r last buffer Hm Hf Hlen s) as E. unfold mbind, M_bind. rewrite E.
    by destruct (handle_line _ _ s) as [[]|].
  - rewrite <- app_assoc in *. apply Forall_app in Hm as [Hl Hm]. rewrite cat_all_app, length_app_s in Hlen. cbn [uart_rounds].
    rewrite (bind_some _ _ _ (buffer +:+ cat_all l) s) by (apply round_middle; done || lia).
    rewrite IH by (done || rewrite length_app_s; lia). by rewrite !cat_all_app, !app_assoc_s.
Qed.

(** A line that the rounds bring is handled, once, as a whole, whatever was in
    the buffer before. *)
Lemma brought_line rounds text buffer s : brings rounds text ->
  uart_rounds rounds buffer s = handle_line net_ok text s.
Proof.
  intros (rs & r & first & mid & last & -> & E & Hp & Hs & Hm & Hf & -> & Hl).
  rewrite cat_all_cons, !length_app_s in Hl. revert buffer. induction rs as [|l rs IH]; intros buffer; cbn [app concat] in E |- *.
  - subst r. cbn [uart_rounds]. unfold mbind at 1, M_bind at 1. unfold uart_round. cbn [app]. rewrite read_first by done.
    pose proof (round_final mid last first Hm Hf ltac:(lia) s) as E. unfold uart_round in E. rewrite E. rewrite cat_all_cons.
    by destruct (handle_line _ _ s) as [[]|].
  - destruct l as [|p l].
    + cbn [uart_rounds]. rewrite (bind_some _ _ _ buffer s) by done. by apply IH.
    + cbn in E. injection E as -> E. cbn [uart_rounds]. rewrite <- E, <- app_assoc, cat_all_app, length_app_s in *. apply Forall_app in Hm as [Hm1 Hm2].
      rewrite (bind_some _ _ _ (first +:+ cat_all l) s).
      * rewrite rounds_middle by (done || rewrite length_app_s; lia). by rewrite cat_all_cons, !cat_all_app, !app_assoc_s.
      * unfold uart_round. rewrite read_first by done. apply (round_middle l first s Hm1). lia.
Qed.

(** A line that a single [read] brings, both of its marks in it, is not
    handled, nor is any other line as long as they come so. *)
Lemma whole_lines_ignored rounds buffer s : Forall (Forall (fun p => piece_ok p /\ has "*" p = true)) rounds ->
  exists buffer', uart_rounds rounds buffer s = Some (buffer', s).
Proof.
  intros Hr. revert buffer. induction Hr as [|l rounds Hl Hr IH]; intros buffer; [by exists buffer|]. cbn [uart_rounds].
  assert (exists b, ReadFromUart l buffer = Some (false, b)) as [b Eb].
  { clear IH. revert buffer. induction Hl as [|p l [Hp Hs] Hl IH]; intros buffer; [by exists buffer|]. rewrite read_first by done. apply IH. }
  destruct (IH b) as [b' Eb']. exists b'. rewrite (bind_some _ _ _ b s); [done|]. unfold uart_round. by rewrite (bind_lift _ _ _ _ Eb).
Qed.
End Rounds.

(** ** Alarms, from the pieces on the serial line to the people *)

(** What the threads that an alarm starts need of the receivers' addresses:
    numbers that fit their array, and lists that fit theirs. *)
Definition receivers_ok (l : receivers) : Prop :=
  Forall (fun r => is_open "mobile" r = true -> mobile_ok (a_value r)) l /\
  Forall (fun r => is_open "email" r = true -> a_value r <> "_NULL_") l /\
  (total_length (a_value <$> l) + length l < 1024)%nat.

(** C8: A line of an alarm sensor that the serial line brings in two pieces or
    more, with pauses wherever they fall, is told to everybody: a broadcast and
    the siren when the alarm comes, a broadcast when it is over, and always the
    messenger's uploader is started with the name of a device behind the
    module or the kind of the sensor, and a thread each for mails and for text
    messages.  The mail thread sends one mail with that name to all unlocked
    addresses; the other sends text messages to all unlocked numbers, but
    their text is what its stack holds, not the alarm. *)
Theorem alarm_line_informs {S0 : Sqlite} {SL : SqliteLaws S0} (g : registry) (rest : sqldb) (s : dm_state) net_ok
    (ty : Z) (ip second state tail : string) (rounds : list (list string)) (buffer : string) (l : receivers) (rest_u : sqldb) :
  ready (f_dev s) -> holds_reg g rest (view (f_dev s)) -> arg_ok ip ->
  Forall (fun y => arg_ok (y_mac y) /\ (String.length (y_mac y) < 41)%nat) (dyns g) -> Forall alarm_dev_ok (devs g) ->
  ty = DEV_SOUND \/ ty = DEV_YUDI \/ ty = DEV_YANWU \/ ty = DEV_HONGWAI ->
  Forall (fun f => token_ok "," f = true) [ip; second; state] -> String.length tail = 3%nat ->
  brings rounds (line ["*" +:+ fmt_X_prec 2 ty; ip; second; state] tail) ->
  ready (f_user s) -> holds_al_db l rest_u (view (f_user s)) -> receivers_ok l ->
  exists name file s1, alarm_name_of g ty ip name /\ ready file /\ holds_reg g rest (view file) /\
    let value := fst (alarm_news net_ok name state) in
    uart_rounds net_ok rounds buffer s = Some ("*" +:+ fmt_X_prec 2 ty, s1) /\
    s1 = set_mail_body (mail_text name value "121")
      (set_out (out s ++ [EvSystem "led_flash 2 1 4&"] ++ snd (alarm_news net_ok name state) ++
        [EvMailThread; EvSystem ("upload " +:+ (name +:+ (" " +:+ (value +:+ "&")))); EvMobileThread name])
        (set_f_dev file s)) /\
    (forall sent, exists es s2, es ≡ₚ a_value <$> List.filter (is_open "email") l /\
      send_mail_thread true sent s1 = Some (tt, s2) /\ out s2 = out s1 ++ mails es (mail_text name value "121") sent) /\
    (forall stale_name stale_value, (String.length (stale_name +:+ stale_value) < 1024)%nat ->
      exists ms s2, ms ≡ₚ a_value <$> List.filter (is_open "mobile") l /\
        send_msg_thread true stale_name stale_value s1 = Some (tt, s2) /\ out s2 = out s1 ++ texts ms (stale_name +:+ stale_value)).
Proof.
  intros Hr Hh Hi Hm Hd Hty Ht Hl Hb Hru Hu (Hmob & Hem & Hlen). rewrite (brought_line _ _ _ _ _ Hb).
  destruct (alarm_line_run g rest s net_ok ty ip second state tail) as (name & file & Hname & Hf & Hg & E); [done..|].
  eexists name, file, _. split; [done|]. split; [done|]. split; [done|]. cbv zeta in E |- *. split; [exact E|]. split; [done|]. split.
  - intros sent. by apply (alarm_mailed l rest_u).
  - intros stale_name stale_value Hst. by apply (alarm_texts_sent l rest_u).
Qed.

(** The line of a sound sensor in three pieces, with a pause. *)
Definition sample_rounds : list (list string) := [["*08,12"]; []; ["AB,01,"; "FF" +:+ String "013" (String "010" "#")]].

Definition alarm_home : dm_state (H := RefSqlite) :=
  set_f_user (H := RefSqlite) (alarm_db [mk_al "mobile" "13800138000" "o"; mk_al "email" "a@b.c" "o"] ∅) (sample_dm (reg_db sample_reg ∅)).

Lemma alarm_line_informs_witness :
  exists name file s1 es s2, alarm_name_of sample_reg DEV_SOUND "12AB" name /\ ready (SqliteLaws := RefSqliteLaws) file /\ holds_reg sample_reg ∅ file /\
    uart_rounds (H := RefSqlite) true sample_rounds "*0" alarm_home = Some ("*08", s1) /\ es ≡ₚ ["a@b.c"] /\
    send_mail_thread (H := RefSqlite) true (fun _ => true) s1 = Some (tt, s2) /\
    out (H := RefSqlite) s2 = out (H := RefSqlite) s1 ++ mails es (mail_text name (fst (alarm_news true name "FF")) "121") (fun _ => true).
Proof.
  destruct (alarm_line_informs (SL := RefSqliteLaws) sample_reg ∅ alarm_home true DEV_SOUND "12AB" "01" "FF"
    (String "013" (String "010" "#")) sample_rounds "*0" [mk_al "mobile" "13800138000" "o"; mk_al "email" "a@b.c" "o"] ∅
    (reg_db_wf sample_reg ∅ (map_Forall_empty _)) (holds_reg_db _ _)) as (name & file & s1 & H1 & H2 & H3 & H4 & _ & H5 & _).
  - split; [reflexivity|vm_compute; lia].
  - apply Forall_singleton. split; [split; [reflexivity|vm_compute; lia]|vm_compute; lia].
  - apply Forall_singleton. split; vm_compute; lia.
  - by left.
  - by repeat constructor.
  - reflexivity.
  - exists [["*08,12"]; []], ["AB,01,"], "*08,12", ["AB,01,"], ("FF" +:+ String "013" (String "010" "#")).
    assert (middle "AB,01,") by (split; [vm_compute; lia|done]).
    split; [reflexivity|]. split; [reflexivity|]. split; [vm_compute; lia|]. split; [reflexivity|]. split; [by apply Forall_singleton|].
    split; [split; [vm_compute; lia|done]|]. split; [reflexivity|vm_compute; lia].
  - apply alarm_db_wf, map_Forall_empty.
  - apply holds_al_full.
  - split; [|split; [|vm_compute; lia]]; repeat apply Forall_cons_2; [| |constructor| | |constructor]; intros ?; try done; split; [cbn; lia|done].
  - destruct (H5 (fun _ => true)) as (es & s2 & E1 & E2 & E3). exists name, file, s1, es, s2.
    split; [exact H1|]. split; [exact H2|]. split; [exact H3|]. split; [exact H4|]. split; [exact E1|]. split; [exact E2|exact E3].
Defined.

(** ** The timer *)

(** A turn of [TimerTaskRun], without its sleep: the flag
    [isHasTimerTasks] and the worker that [do_timer] starts. *)
Definition timer_turn `{Sqlite} wr sched fuel (isHasTimerTasks : bool) (now : Z) : DM unit :=
  if isHasTimerTasks then do_timer_func wr sched fuel now else mret tt.

Section Timer.
Context {S0 : Sqlite} {SL : SqliteLaws S0}.
Context (wr : list Z -> bool) (sched : nat -> queue -> queue) (fuel : nat).

(** The frame for a task: none when its device is not registered under its
    name or its module has no address. *)
Definition task_frame (g : registry) (x : task) : list (list Z) :=
  match device_address (t_mac x) (t_name x) g with
  | Some ip => [switch_frame (Some ip) (u8 (t_action x)) (u8 (reg_number (t_mac x) (t_name x) g))]
  | None => []
  end.

(** The wait for the answer to a written frame is over within the polls that
    are observed. *)
Definition answered (frames : list (list Z)) : Prop :=
  Forall (fun f => wr f = true -> forall q, uart_check_from_queue sched f 6 6 fuel q <> None) frames.

Lemma switch_runs f0 ip c n s : answered [switch_frame (Some ip) c n] ->
  exists r tb, control_device wr sched fuel ip TYPE_SW_DEV c n (set_f_dev f0 s) =
    Some (r, set_uart (mk_uart (sent (uart_st s) ++ [switch_frame (Some ip) c n]) tb) (set_f_dev f0 s)).
Proof.
  intros Ha. unfold answered in Ha. rewrite Forall_singleton in Ha. rewrite control_device_run. unfold device_frame.
  change (TYPE_SW_DEV =? TYPE_SW_DEV) with true. cbv iota zeta. cbn [andb].
  destruct (wr (switch_frame (Some ip) c n)) eqn:Ew; [|by eexists _, _].
  specialize (Ha eq_refl (table (uart_st s))). unfold on_uart, switch_wait. cbn [uart_st set_uart set_f_dev with_frame table sent].
  destruct (uart_check_from_queue _ _ _ _ _ _) as [[[r d] q]|]; [|done]. by eexists _, _.
Qed.

Lemma run_items_sends g rest l s : reg_inv g -> short_ips g -> Forall task_ok l -> answered (l ≫= task_frame g) ->
  ready (f_dev s) -> holds_reg g rest (view (f_dev s)) ->
  exists file tb, ready file /\ holds_reg g rest (view file) /\
    run_items wr sched fuel (item_of g <$> l) s =
      Some (tt, set_uart (mk_uart (sent (uart_st s) ++ (l ≫= task_frame g)) tb) (set_f_dev file s)).
Proof.
  intros Hi Hips Hok. revert s. induction Hok as [|x l Hx Hok IH]; intros s Ha Hr Hh.
  - exists (f_dev s), (table (uart_st s)). split; [done|]. split; [done|]. destruct s as [? ? ? ? ? ? ? ? ? ? [] ? ? ?]. cbn. by rewrite app_nil_r.
  - cbn [fmap list_fmap mbind list_bind] in *. apply Forall_app in Ha as [Hax Ha]. destruct Hx as (Hm & Hn & _).
    destruct (forward_run g rest s wr sched fuel (t_mac x) (t_name x) TYPE_SW_DEV (u8 (t_action x)) (u8 (reg_number (t_mac x) (t_name x) g)) Hr Hh Hi Hips Hm Hn)
      as (f0 & Hf0 & Hg0 & E).
    assert (exists r tb, ForwardControlToUart wr sched fuel (t_mac x) (t_name x) TYPE_SW_DEV (u8 (t_action x)) (u8 (reg_number (t_mac x) (t_name x) g)) s =
      Some (r, set_uart (mk_uart (sent (uart_st s) ++ task_frame g x) tb) (set_f_dev f0 s))) as (r & tb & E').
    { unfold task_frame in *. destruct (device_address _ _ _) as [ip|].
      - destruct (switch_runs f0 ip _ _ s Hax) as (r & tb & E2). exists r, tb. by rewrite E.
      - exists false, (table (uart_st s)). rewrite E. destruct s as [? ? ? ? ? ? ? ? ? ? [] ? ? ?]. cbn. by rewrite app_nil_r. }
    destruct (IH (set_uart (mk_uart (sent (uart_st s) ++ task_frame g x) tb) (set_f_dev f0 s)) Ha Hf0 Hg0) as (file & tb' & Hf & Hg & E'').
    exists file, tb'. split; [done|]. split; [done|]. cbn [run_items item_of dev_mac dev_name action devnumber].
    rewrite (bind_some _ _ _ _ _ E'). rewrite E''. cbn [uart_st set_uart sent set_f_dev]. by rewrite <- app_assoc.
Qed.
End Timer.

(** In every minute the timer's worker sends, for each task that is due
    then and whose device is registered and has an address, exactly one frame
    of the task's action to that device, and comes to its end if the answers
    come; nothing else changes.  With more than 100 tasks due it overruns its
    array. *)
Lemma timer_turn_commands {S0 : Sqlite} {SL : SqliteLaws S0} wr sched fuel (t : timers) (g : registry) (rest rg : sqldb) (s : dm_state) (now : Z) :
  ready (f_dev s) -> view (f_dev s) ∪ timer_db no_timers ∅ = timer_db t rest -> holds_reg g rg (timer_db t rest) -> reg_inv g -> short_ips g -> minute_ok now ->
  let curr := fmt_time (minutes_tm now) in
  let l := List.filter (due curr (String.substring 11 5 curr) (weekday_of now)) (tasks t) in
  Forall task_ok l -> answered wr sched fuel (l ≫= task_frame g) ->
  ((length l <= 100)%nat -> exists l' file tb, l' ≡ₚ l /\ ready file /\ holds_reg g rg (view file) /\
     timer_turn wr sched fuel true now s =
       Some (tt, set_uart (mk_uart (sent (uart_st s) ++ (l' ≫= task_frame g)) tb) (set_f_dev file s))) /\
  ((100 < length l)%nat -> timer_turn wr sched fuel true now s = None).
Proof.
  intros Hr Hh Hgt Hi Hips Hnow curr l Hok Ha. destruct (current_time_ok now Hnow) as [Hq H16]. cbn [GetCurrentTime fst] in Hq, H16. fold curr in Hq, H16.
  destruct (due_tasks_found t g rest rg s curr (weekday_of now) Hr Hh Hgt Hi) as [H1 H2]; [split; [done|lia]|lia|unfold weekday_of; case_match; Z.div_mod_to_equations; lia| |].
  - by rewrite H16.
  - rewrite H16 in H1, H2. fold l in H1, H2. unfold timer_turn, do_timer_func, GetCurrentTime. fold curr. split; intros Hl.
    + destruct (H1 Hl) as (l' & f0 & Hl' & Hf0 & Hg0 & E0). rewrite (bind_some _ _ _ _ _ E0).
      replace (take _ (item_of g <$> l')) with (item_of g <$> l') by (rewrite take_ge; [done|rewrite length_fmap, Nat2Z.id; by rewrite Hl']).
      destruct (run_items_sends wr sched fuel g rg l' (set_f_dev f0 s)) as (file & tb & Hf & Hg & E); [done|done|by rewrite Hl'| |done|done|].
      { unfold answered in *. by rewrite Hl'. }
      exists l', file, tb. done.
    + unfold mbind, M_bind. by rewrite (H2 Hl).
Qed.

(** Tuesday 2014-09-09, 08:30, with the answer of the lamp's switch in the
    table whenever it is looked for again. *)
Definition sample_minute : Z := 16322 * 1440 + 510.
Definition sample_answer : queue := [mk_slot 0 (switch_frame (Some "12AB") 1 (u8 (reg_number "0013A200" "lamp" sample_reg)))].
