(* ===== verification/SmsControl.v ===== *)
(** * Commands by text message (src/src/dev_manage/sms_control.c)

    A text of digits from an unlocked mobile number: [909] asks for the list of
    the devices; any other number is the number of a device in that list with
    one digit behind it, 0 to switch it off, 1 to switch it on, 2 to ask for
    its state. *)

From stdpp Require Import base list strings gmap.
From Stdlib Require Import ZArith Lia Ascii.
From S2P Require Import Prelude CString Sql UartQueue DevControl DevState DbTriple DbStore DevDb DevReg DevRegProps Alarm Sms Notify UartCommon.

Open Scope Z_scope.

(** [SMS_ACTION] *)
Definition SMS_ACTION_GET_LIST : Z := 0.
Definition SMS_ACTION_CLOSE : Z := 1.
Definition SMS_ACTION_OPEN : Z := 2.
Definition SMS_ACTION_GET_STATE : Z := 3.
Definition SMS_ACTION_MAX : Z := 4.

Section SmsControl.
Context `{Sqlite}.
Context (wr : list Z -> bool) (sched : nat -> queue -> queue) (fuel : nat).

Definition send_dev_list_by_sms (who : string) : DM unit :=
  _ ← GetUnicodeDeviceList;
  unicode_dev_list ← gets g_unicode_dev_list;
  if String.eqb unicode_dev_list "_NULL_" then
    _ ← sms_dot_send (Some who) (Some "5BF94E0D8D77002C8FDC7A0B8BBE5907521788684E3A7A7A0021"); mret tt
  else
    temp ← lift (fits (16 * 1024) unicode_dev_list);
    _ ← sms_dot_send (Some who) (Some temp); mret tt.

(** [s[strlen(s) - 1]] *)
Definition last_char (s : string) : option ascii :=
  match String.length s with O => None | S n => String.get n s end.

(** The second [switch]. *)
Definition do_sms_action (sms_action : Z) (ip : string) (devnumber : Z) : DM unit :=
  let control cmd := _ ← on_uart (switch_dev_control_func wr sched fuel (Some ip) cmd devnumber); mret tt in
  if sms_action =? SMS_ACTION_CLOSE then control CMD_SW_CLOSE
  else if sms_action =? SMS_ACTION_OPEN then control CMD_SW_OPEN
  else if sms_action =? SMS_ACTION_GET_STATE then control CMD_SW_GET_STATE
  else mret tt.

(** What a text's thread does before it waits for the switch. *)
Definition begin_text (id : string) (cmd : Z) : DM (option (list Z)) :=
  o ← GetIPAndDevNumberByID 10 id;
  match o with
  | None => mret None
  | Some (ip, devnumber) => write_frame wr (switch_frame (Some ip) cmd devnumber)
  end.

(** A decoded text. *)
Definition process_text (who user_msg_decode : string) : DM unit :=
  if (strspn user_msg_decode "0123456789" <? String.length user_msg_decode)%nat then mret tt
  else if String.eqb user_msg_decode "909" then send_dev_list_by_sms who
  else
    id ← lift (substring 100 20 user_msg_decode 0 (Z.of_nat (String.length user_msg_decode) - 1));
    o ← GetIPAndDevNumberByID 10 id;
    match o with
    | None => mret tt
    | Some (ip, devnumber) =>
        c ← lift (last_char user_msg_decode);
        let sms_action := code c - 0x30 + 1 in
        if SMS_ACTION_MAX - 1 <? sms_action then mret tt else do_sms_action sms_action ip devnumber
    end.

(** [stale]: the memory behind the content of the message. *)
Definition user_msg_process (stale : nat -> ascii) (msg_info : message_info_t) : DM unit :=
  valid ← isUserMobileNumberValid (send_number msg_info);
  if negb valid then mret tt
  else
    match charset msg_info with
    | CHARSET_7BITS =>
        let n := String.length (send_content msg_info) in
        if (100 <? n)%nat then mret tt
        else
          decoded ← lift (gsmDecode7bit 100 (mem_of (send_content msg_info) stale) n);
          match decoded with
          | None => mret tt
          | Some user_msg_decode => process_text (send_number msg_info) user_msg_decode
          end
    | _ => mret tt
    end.
End SmsControl.

(** ** Specification *)

(** What a text asks for: an address, a command and a device number. *)
Definition text_command (g : registry) (text : string) : option (string * Z * Z) :=
  c ← last_char text;
  r ← reg_dev (atoi (String.substring 0 (String.length text - 1) text)) g;
  ip ← reg_ip (d_mac r) g;
  cmd ← (if code c =? 48 then Some CMD_SW_CLOSE else if code c =? 49 then Some CMD_SW_OPEN
         else if code c =? 50 then Some CMD_SW_GET_STATE else None);
  Some (ip, cmd, d_num r).

Definition may_command (l : receivers) (number : string) : bool :=
  existsb (fun r => is_al "mobile" number r && is_open "mobile" r) l.

Lemma strspn_digits s : all_chars isdigit s = true -> strspn s "0123456789" = String.length s.
Proof.
  induction s as [|c s IH]; [done|]. cbn [all_chars]. intros [Hc Hs]%andb_prop. cbn [strspn String.length]. rewrite IH by done.
  replace (mem_char c "0123456789") with true; [done|]. symmetry. revert Hc.
  destruct c as [[] [] [] [] [] [] [] []]; vm_compute; done.
Qed.

Lemma last_char_snoc s c : last_char (s +:+ String c "") = Some c.
Proof.
  unfold last_char. rewrite length_app_s, Nat.add_1_r. induction s as [|a s IH]; [done|]. cbn. exact IH.
Qed.

Lemma on_switch_sends `{Sqlite} wr sched fuel ip cmd n s x s' :
  on_uart (switch_dev_control_func wr sched fuel (Some ip) cmd n) s = Some (x, s') ->
  sent (uart_st s') = sent (uart_st s) ++ [switch_frame (Some ip) cmd n] /\ s' = set_uart (uart_st s') s.
Proof.
  intros E. by destruct (control_device_sends wr sched fuel ip TYPE_SW_DEV cmd n s x s' E) as (? & ? & _).
Qed.

Section Texts.
Context {S0 : Sqlite} {SL : SqliteLaws S0}.

Definition module_ok (r : dev_row) : Prop := arg_ok (d_mac r) /\ (String.length (d_mac r) < 50)%nat.

Lemma atoi_range s : INT_MIN <= atoi s <= INT_MAX.
Proof. unfold atoi, strtol. repeat case_match; unfold clamp32, INT_MIN, INT_MAX; lia. Qed.

Lemma atoi_digits_nonneg s : all_chars isdigit s = true -> 0 <= atoi s.
Proof.
  intros Hs. destruct s as [|c s]; [done|]. cbn [all_chars] in Hs. apply andb_prop in Hs as [Hc Hs].
  unfold atoi. rewrite strtol_digits_first by done.
  enough (forall acc, 0 <= acc -> 0 <= digits_value 10 acc (String c s)) as H by (specialize (H 0); unfold clamp32, INT_MIN, INT_MAX; lia).
  assert (all_chars isdigit (String c s) = true) as Ha by (cbn; by rewrite Hc). clear Hc Hs. induction (String c s) as [|a t IH]; [done|].
  cbn [all_chars] in Ha. apply andb_prop in Ha as [Ha Ht]. intros acc Hacc. cbn [digits_value]. unfold digit_of. rewrite Ha.
  unfold isdigit in Ha. replace (code a - 48 <? 10) with true by lia. apply IH; [done|lia].
Qed.

Lemma isUserMobileNumberValid_run l rest s number :
  ready (f_user s) -> holds_al_db l rest (view (f_user s)) -> arg_ok number ->
  exists file, ready file /\ holds_al_db l rest (view file) /\
    isUserMobileNumberValid number s = Some (may_command l number, set_f_user file s).
Proof.
  intros Hr Hh Ha.
  destruct (isUserMobileNumberValid_spec l number Ha rest _ Hh s Hr eq_refl) as (x & file & E & Hf & l' & Hl' & -> & ->).
  by exists file.
Qed.

(** The last digit decides the command. *)
Lemma digit_action c ip n wr sched fuel s : isdigit c = true ->
  (if SMS_ACTION_MAX - 1 <? code c - 0x30 + 1 then mret tt else do_sms_action wr sched fuel (code c - 0x30 + 1) ip n) s =
  match (if code c =? 48 then Some CMD_SW_CLOSE else if code c =? 49 then Some CMD_SW_OPEN
         else if code c =? 50 then Some CMD_SW_GET_STATE else None) with
  | Some cmd => (_ ← on_uart (switch_dev_control_func wr sched fuel (Some ip) cmd n); mret tt) s
  | None => Some (tt, s)
  end.
Proof.
  unfold isdigit, do_sms_action, SMS_ACTION_MAX, SMS_ACTION_CLOSE, SMS_ACTION_OPEN, SMS_ACTION_GET_STATE. intros Hc.
  apply andb_prop in Hc as [H1 H2].
  destruct (Z.eqb_spec (code c) 48) as [->|]; [done|]. destruct (Z.eqb_spec (code c) 49) as [->|]; [done|].
  destruct (Z.eqb_spec (code c) 50) as [->|]; [done|]. by replace (4 - 1 <? code c - 48 + 1) with true by lia.
Qed.

Lemma last_char_all p s : all_chars p s = true -> s <> "" -> exists c, last_char s = Some c /\ p c = true.
Proof.
  intros Hs Hne. unfold last_char. induction s as [|a s IH]; [done|]. cbn [all_chars] in Hs. apply andb_prop in Hs as [Ha Hs].
  destruct s as [|b s]; [by exists a|]. destruct (IH Hs ltac:(done)) as (c & Hc & Hp). by exists c.
Qed.

Lemma process_text_run g rest s wr sched fuel who text :
  ready (f_dev s) -> holds_reg g rest (view (f_dev s)) -> reg_inv g -> Forall module_ok (devs g) -> short_ips g ->
  all_chars isdigit text = true -> text <> "" -> text <> "909" -> (String.length text <= 20)%nat ->
  exists file, ready file /\ holds_reg g rest (view file) /\
    process_text wr sched fuel who text s =
    match text_command g text with
    | Some (ip, cmd, n) => (_ ← on_uart (switch_dev_control_func wr sched fuel (Some ip) cmd n); mret tt) (set_f_dev file s)
    | None => Some (tt, set_f_dev file s)
    end.
Proof.
  intros Hr Hh Hi Hm Hip Hd Hne H909 Hl. unfold process_text. rewrite strspn_digits by done. rewrite Nat.ltb_irrefl.
  apply String.eqb_neq in H909. rewrite H909.
  set (id := String.substring 0 (String.length text - 1) text).
  assert (substring 100 20 text 0 (Z.of_nat (String.length text) - 1) = Some id) as Es.
  { assert (String.length text <> 0)%nat as H0 by by destruct text.
    unfold substring. replace (Z.to_nat (Z.of_nat (String.length text) - 1)) with (String.length text - 1)%nat by lia.
    destruct (Nat.eqb_spec (String.length text - 1) 0) as [E|E]; [unfold id; rewrite E; by destruct text|].
    by replace (_ && _) with true by (symmetry; apply andb_true_intro; split; apply Nat.leb_le; lia). }
  cbv match; rewrite (bind_lift _ _ _ _ Es).
  assert (0 <= atoi id <= INT_MAX) as Hid by (split; [by apply atoi_digits_nonneg, all_chars_substring|apply atoi_range]).
  destruct (text_command_address g rest s 10 id Hr Hh Hi Hid Hm Hip) as (file & Hf & Hg & E).
  exists file. split; [done|]. split; [done|]. rewrite (bind_some _ _ _ _ _ E).
  unfold text_command. fold id. destruct (last_char_all _ _ Hd Hne) as (c & Hc & Hdc). rewrite Hc.
  cbn [mbind option_bind]. destruct (reg_dev (atoi id) g) as [r|]; [|done]. cbn [mbind option_bind].
  destruct (reg_ip (d_mac r) g) as [ip|]; [|done]. cbn [mbind option_bind]. rewrite (bind_lift _ _ _ _ eq_refl).
  rewrite (digit_action c ip (d_num r) wr sched fuel _ Hdc). by destruct (code c =? 48), (code c =? 49), (code c =? 50).
Qed.
End Texts.

(** A text in the 7-bit alphabet from an open mobile number of the receivers'
    table that spells a device number of the list and a digit 0, 1 or 2 sends
    exactly the frame of that command to that device; another last digit, an
    unknown device and another sender send nothing.  The databases keep their
    content. *)
Lemma text_processed {S0 : Sqlite} {SL : SqliteLaws S0} (g : registry) (rest rest' : sqldb) (l : receivers)
    (s : dm_state) wr sched fuel (stale : nat -> ascii) (m : message_info_t) (septets bytes : list Z) :
  ready (f_dev s) -> holds_reg g rest (view (f_dev s)) -> reg_inv g -> Forall module_ok (devs g) -> short_ips g ->
  ready (f_user s) -> holds_al_db l rest' (view (f_user s)) -> arg_ok (send_number m) ->
  charset m = CHARSET_7BITS -> send_content m = hex_text bytes -> packs septets bytes -> (length bytes <= 25)%nat ->
  let text := c_text septets in
  all_chars isdigit text = true -> text <> "" -> text <> "909" -> (String.length text <= 20)%nat ->
  exists devf userf, ready devf /\ holds_reg g rest (view devf) /\ ready userf /\ holds_al_db l rest' (view userf) /\
    let s1 := set_f_dev devf (set_f_user userf s) in
    match (if may_command l (send_number m) then text_command g text else None) with
    | Some (ip, cmd, n) =>
        user_msg_process wr sched fuel stale m s = (_ ← on_uart (switch_dev_control_func wr sched fuel (Some ip) cmd n); mret tt) s1 /\
        (forall s', user_msg_process wr sched fuel stale m s = Some (tt, s') ->
           sent (uart_st s') = sent (uart_st s) ++ [switch_frame (Some ip) cmd n])
    | None => user_msg_process wr sched fuel stale m s = Some (tt, s1)
    end.
Proof.
  intros Hr Hh Hi Hm Hip Hru Hhu Ha Hc Hs Hp Hb text Hd Hne H909 Hl. unfold user_msg_process.
  destruct (isUserMobileNumberValid_run l rest' s (send_number m) Hru Hhu Ha) as (userf & Hf & Hu & E).
  rewrite !(bind_some _ _ _ _ _ E). clear E. destruct (may_command l (send_number m)); cbn [negb].
  2:{ exists (f_dev s), userf. do 4 (split; [done|]). by destruct s. }
  rewrite Hc, Hs. replace (100 <? String.length (hex_text bytes))%nat with false by (symmetry; apply Nat.ltb_ge; rewrite hex_text_length; lia).
  cbv match; rewrite !(bind_lift _ _ _ _ (gsm_decodes septets bytes stale Hp Hb)).
  destruct (process_text_run g rest (set_f_user userf s) wr sched fuel (send_number m) text Hr Hh Hi Hm Hip Hd Hne H909 Hl)
    as (devf & Hdf & Hdg & E). fold text. exists devf, userf. do 4 (split; [done|]). cbv zeta. rewrite E.
  destruct (text_command g text) as [[[ip cmd] n]|]; [|done]. split; [done|]. intros s' Eo.
  apply bind_unit in Eo as [x Eo]. cbn [snd] in Eo. by apply on_switch_sends in Eo as [-> _].
Qed.
