(* ===== verification/SmsThread.v ===== *)
(** * Text messages, from the modem's line to the devices (sms_read_thread of
      src/src/dev_manage/sms_common.c)

    The modem announces a message, [sms_read_thread] asks for it, takes it
    apart, logs it, deletes it from the card, and starts a thread that carries
    out its text.  All these threads get the address of the one [g_rcv_info].
    Each [read] is taken for a whole answer of the modem; the reads and the
    threads come in any order. *)

From stdpp Require Import base list strings gmap.
From Stdlib Require Import ZArith Lia Ascii.
From S2P Require Import Prelude CString Sql UartQueue DevControl DevState DbTriple DbStore DevDb DevReg DevRegProps Alarm Sms Notify UartCommon SmsControl.

Open Scope Z_scope.

Section Reads.
Context `{Sqlite}.
Context (wr : list Z -> bool) (sched : nat -> queue -> queue) (fuel : nat) (slack : nat) (charset0 : charset_t) (stale : nat -> ascii).

(** [rcv_msg_sim_index]; [g_rcv_info], once a message has come; the threads
    that were started and have not yet read it. *)
Record sms_state := mk_sms { rcv_msg_sim_index : string; g_rcv_info : option message_info_t; started : nat }.

(** What [read] puts into the zeroed buffer, or the turn of a started thread. *)
Inductive sms_event := SmsRead (buffer : string) | SmsThread.

(** [handler_on_user_message] starts a thread on [&g_rcv_info]. *)
Definition handler_on_user_message (st : sms_state) : sms_state := mk_sms (rcv_msg_sim_index st) (g_rcv_info st) (S (started st)).

(** A turn of the loop of [sms_read_thread], and a thread of
    [user_msg_process]. *)
Definition sms_turn (buffer : string) (st : sms_state) : DM sms_state :=
  '(o, index) ← sms_read_step slack charset0 buffer (rcv_msg_sim_index st);
  mret (match o with
        | Some m => handler_on_user_message (mk_sms index (Some m) (started st))
        | None => mk_sms index (g_rcv_info st) (started st)
        end).
Definition sms_thread_turn (st : sms_state) : DM sms_state :=
  match started st, g_rcv_info st with
  | S k, Some m => _ ← user_msg_process wr sched fuel stale m; mret (mk_sms (rcv_msg_sim_index st) (Some m) k)
  | _, _ => mret st
  end.

Fixpoint sms_read_thread (events : list sms_event) (st : sms_state) : DM sms_state :=
  match events with
  | [] => mret st
  | SmsRead buffer :: events => st ← sms_turn buffer st; sms_read_thread events st
  | SmsThread :: events => st ← sms_thread_turn st; sms_read_thread events st
  end.
End Reads.

(** ** The dialogue with the modem *)

Definition log_line (m : message_info_t) : string :=
  pad_right 20 (center_number m) +:+ (pad_right 20 (send_number m) +:+ (pad_right 25 (send_time m) +:+ (send_content m +:+ String "010" ""))).

Definition at_command (name index : string) : string := name +:+ (index +:+ String "013" "").

(** What [sms_read_thread] has sent and written once it has a message. *)
Definition dialogue (index : string) (m : message_info_t) : list event :=
  [EvModem (at_command "AT+CMGR=" index); EvLog (log_line m); EvModem (at_command "AT+CMGD=" index); EvMessageThread].

Lemma spaces_length n : String.length (spaces n) = n.
Proof. induction n as [|n IH]; [done|]. cbn. by rewrite IH. Qed.

Lemma pad_right_length n s : String.length (pad_right n s) = Nat.max n (String.length s).
Proof. unfold pad_right. rewrite length_app_s, spaces_length. lia. Qed.

Lemma stamp_length time : length time = 6%nat -> Forall two_digits time -> String.length (stamp time) = 19%nat.
Proof.
  intros Hl Ht. unfold stamp. do 6 (destruct time as [|? time]; [done|]). destruct time; [|done].
  repeat (apply Forall_cons in Ht as [? Ht]). cbn [fmap list_fmap]. rewrite !length_app_s, !two_digits_length by done.
  repeat (cbn [String.length]; rewrite ?length_app_s, ?two_digits_length by done). lia.
Qed.

Section Dialogue.
Context `{Sqlite}.

(** The line that announces message [index]. *)
Lemma announced slack charset0 head index old s :
  strstr (head +:+ String "," index) "0891" = None -> strstr (head +:+ String "," index) "CMTI:" <> None ->
  token_ok "," head = true -> token_ok "," index = true -> (String.length index < 3)%nat ->
  (String.length head <= 500)%nat ->
  sms_read_step slack charset0 (head +:+ String "," index) old s =
    Some ((None, index), set_out (out s ++ [EvModem (at_command "AT+CMGR=" index)]) s).
Proof.
  intros H1 H2 Hh Hi Hl Hhl. unfold sms_read_step. rewrite H1. destruct (strstr _ "CMTI:"); [|done].
  rewrite (bind_lift _ _ _ (head +:+ String "," index)) by (apply fits_ok; rewrite length_app_s; cbn [String.length]; lia).
  rewrite strtok_sep by done. rewrite (bind_lift _ _ _ index) by (by rewrite strtok_last).
  rewrite (bind_lift _ _ _ index) by by apply fits_ok. unfold sprintf.
  rewrite (bind_lift _ _ _ (at_command "AT+CMGR=" index)) by (apply fits_ok; unfold at_command; rewrite !length_app_s; cbn [String.length]; lia).
  reflexivity.
Qed.

(** An announcement that ends with the end of its line overruns
    [rcv_msg_sim_index]. *)
Lemma announcement_overruns slack charset0 head index old s :
  strstr (head +:+ String "," index) "0891" = None -> strstr (head +:+ String "," index) "CMTI:" <> None ->
  token_ok "," head = true -> token_ok "," index = true -> (3 <= String.length index)%nat ->
  sms_read_step slack charset0 (head +:+ String "," index) old s = None.
Proof.
  intros H1 H2 Hh Hi Hl. unfold sms_read_step. rewrite H1. destruct (strstr _ "CMTI:"); [|done].
  destruct (decide (String.length (head +:+ String "," index) < 512)%nat) as [Hlt|Hge].
  - rewrite (bind_lift _ _ _ (head +:+ String "," index)) by by apply fits_ok.
    rewrite strtok_sep by done. rewrite (bind_lift _ _ _ index) by (by rewrite strtok_last).
    unfold lift, mbind, M_bind. by rewrite fits_overflow.
  - unfold lift, mbind, M_bind. by rewrite fits_overflow by lia.
Qed.

(** The answer with the message. *)
Lemma message_read charset0 buffer pdu index m s avail :
  strstr buffer "0891" = Some pdu -> avail = (MAX_BUFFER_SIZE - (String.length buffer - String.length pdu))%nat ->
  handler_receive_msg 1 avail charset0 pdu = Some m -> (String.length index < 3)%nat -> (String.length (log_line m) < 1024)%nat ->
  sms_read_step 1 charset0 buffer index s =
    Some ((Some m, index), set_out (out s ++ [EvLog (log_line m); EvModem (at_command "AT+CMGD=" index); EvMessageThread]) s).
Proof.
  intros Hb -> Hm Hi Hl. unfold sms_read_step. rewrite Hb. cbv zeta. rewrite (bind_lift _ _ _ m) by done.
  unfold save_gsm_log, sprintf. fold (log_line m).
  assert (lift (fits 1024 (log_line m)) s = Some (log_line m, s)) as E1 by (unfold lift; by rewrite fits_ok).
  assert ((line ← lift (fits 1024 (log_line m)); emit_ev (EvLog line)) s = Some (tt, set_out (out s ++ [EvLog (log_line m)]) s)) as E2
    by (by rewrite (bind_some _ _ _ _ _ E1)).
  rewrite (bind_some _ _ _ _ _ E2).
  rewrite (bind_lift _ _ _ (at_command "AT+CMGD=" index)) by (apply fits_ok; unfold at_command; rewrite !length_app_s; cbn [String.length]; lia).
  transitivity (Some ((Some m, index), set_out (((out s ++ [EvLog (log_line m)]) ++ [EvModem (at_command "AT+CMGD=" index)]) ++ [EvMessageThread]) s)); [reflexivity|].
  by rewrite <- !app_assoc.
Qed.
End Dialogue.

Lemma turn_reads `{Sqlite} slack charset0 buffer index g0 k s o index' s' :
  sms_read_step slack charset0 buffer index s = Some ((o, index'), s') ->
  sms_turn slack charset0 buffer (mk_sms index g0 k) s =
    Some (match o with Some m => mk_sms index' (Some m) (S k) | None => mk_sms index' g0 k end, s').
Proof. intros E. unfold sms_turn, mbind, M_bind. cbn [rcv_msg_sim_index]. rewrite E. by destruct o. Qed.

(** When a second message is read before the thread for the first one has
    its turn, both threads carry out the second, and the first is lost. *)
Lemma message_overwritten `{Sqlite} wr sched fuel slack charset0 stale b1 b2 index0 g0 index1 index2 m1 m2 s s1 s2 s3 s4 :
  sms_read_step slack charset0 b1 index0 s = Some ((Some m1, index1), s1) ->
  sms_read_step slack charset0 b2 index1 s1 = Some ((Some m2, index2), s2) ->
  user_msg_process wr sched fuel stale m2 s2 = Some (tt, s3) -> user_msg_process wr sched fuel stale m2 s3 = Some (tt, s4) ->
  sms_read_thread wr sched fuel slack charset0 stale [SmsRead b1; SmsRead b2; SmsThread; SmsThread] (mk_sms index0 g0 0) s =
    Some (mk_sms index2 (Some m2) 0, s4).
Proof.
  intros E1 E2 E3 E4. cbn [sms_read_thread]. rewrite (bind_some _ _ _ _ _ (turn_reads _ _ _ _ _ _ _ _ _ _ E1)). cbn [sms_read_thread].
  rewrite (bind_some _ _ _ _ _ (turn_reads _ _ _ _ _ _ _ _ _ _ E2)). cbn [sms_read_thread sms_thread_turn started g_rcv_info rcv_msg_sim_index].
  unfold mbind, M_bind, mret, M_ret. rewrite E3. cbn [sms_thread_turn started g_rcv_info rcv_msg_sim_index].
  unfold mbind, M_bind, mret, M_ret. by rewrite E4.
Qed.

(** C9: A short text in the 7-bit alphabet (seven characters at most, so that
    its length is that of its packed form, which the code takes it for)
    arrives at the modem, which announces it without the end of the line and
    then delivers it in one piece.  Reading it overruns the arrays [t] and
    [len] of two characters by one byte each, which is undefined behaviour.
    Where the compiler leaves the bytes behind them unused, the daemon asks for
    the message, logs it and deletes it, and when it comes from an open mobile
    number of the receivers' table and spells a device number of the list and a
    digit 0, 1 or 2, the thread started for it sends exactly the frame of that
    command to that device and waits for the echo; another last digit, an
    unknown device and another sender send nothing.  The databases keep their
    content. *)
Theorem text_message_controls {S0 : Sqlite} {SL : SqliteLaws S0} (g : registry) (rest rest' : sqldb) (l : receivers)
    (s : dm_state) wr sched fuel (charset0 : charset_t) (stale : nat -> ascii)
    (head index old buffer center number zone post : string) (g0 : option message_info_t) (time septets bytes : list Z) :
  ready (f_dev s) -> holds_reg g rest (view (f_dev s)) -> reg_inv g -> Forall module_ok (devs g) -> short_ips g ->
  ready (f_user s) -> holds_al_db l rest' (view (f_user s)) -> arg_ok number ->
  strstr (head +:+ String "," index) "0891" = None -> strstr (head +:+ String "," index) "CMTI:" <> None ->
  token_ok "," head = true -> token_ok "," index = true -> (String.length index < 3)%nat -> (String.length head <= 500)%nat ->
  String.length center = 11%nat /\ no_plus center = true -> String.length number = 11%nat /\ no_plus number = true ->
  length time = 6%nat /\ Forall two_digits time -> String.length zone = 2%nat ->
  packs septets bytes -> length bytes = length septets -> (1 <= length septets <= 7)%nat ->
  let pdu := cat_all (deliver_fields center number "00" time zone (Z.of_nat (length septets)) (hex_text bytes)) +:+ post in
  strstr buffer "0891" = Some pdu -> (String.length buffer <= MAX_BUFFER_SIZE)%nat -> (String.length pdu <= String.length buffer)%nat ->
  let text := c_text septets in
  all_chars isdigit text = true -> text <> "" -> text <> "909" -> (String.length text <= 20)%nat ->
  let m := mk_msg center number (stamp time) (hex_text bytes) CHARSET_7BITS in
  (exists devf userf, ready devf /\ holds_reg g rest (view devf) /\ ready userf /\ holds_al_db l rest' (view userf) /\
    let s1 := set_f_dev devf (set_f_user userf (set_out (out s ++ dialogue index m) s)) in
    let done := mk_sms index (Some m) 0 in
    sms_read_thread wr sched fuel 1 charset0 stale [SmsRead (head +:+ String "," index); SmsRead buffer; SmsThread] (mk_sms old g0 0) s =
    match (if may_command l number then text_command g text else None) with
    | Some (ip, cmd, n) => (_ ← on_uart (switch_dev_control_func wr sched fuel (Some ip) cmd n); mret done) s1
    | None => Some (done, s1)
    end) /\
  sms_read_thread wr sched fuel 0 charset0 stale [SmsRead (head +:+ String "," index); SmsRead buffer] (mk_sms old g0 0) s = None.
Proof.
  intros Hr Hh Hi Hm Hip Hru Hhu Ha Hb1 Hb2 Hth Hti Hil Hhl Hc Hn Ht Hz Hp Hbs Hlen pdu Hbuf Hbl Hpl text Hd Hne H909 Htl m.
  assert (String.length (hex_text bytes) = 2 * length septets)%nat as Hhex by (rewrite hex_text_length; lia).
  assert (String.length pdu = 58 + 2 * length septets + String.length post)%nat as Hpdu.
  { unfold pdu. rewrite length_app_s, cat_all_length. cbn [total_length deliver_fields foldr String.length].
    destruct Hc as [Hcl Hcp], Hn as [Hnl Hnp], Ht as [Htl' Htf]. destruct (eleven_sent center Hcl Hcp) as [-> _]. destruct (eleven_sent number Hnl Hnp) as [-> _].
    rewrite swap_pairs_length, time_fields_length, fmt_X_byte_length, Hz, Hhex by (done || lia). lia. }
  set (avail := (MAX_BUFFER_SIZE - (String.length buffer - String.length pdu))%nat).
  assert (handler_receive_msg 1 avail charset0 pdu = Some m /\ handler_receive_msg 0 avail charset0 pdu = None) as Hrec.
  { apply message_received; try done; [right; by left|lia|lia|]. unfold avail, MAX_BUFFER_SIZE in *. lia. }
  set (s0 := set_out (out s ++ [EvModem (at_command "AT+CMGR=" index)]) s).
  split.
  - assert (String.length (log_line m) < 1024)%nat as Hlog.
    { unfold log_line. cbn [m center_number send_number send_time send_content]. destruct Hc as [Hcl _], Hn as [Hnl _], Ht as [Htl' Htf].
      rewrite !length_app_s, !pad_right_length, Hcl, Hnl, stamp_length, Hhex by done. cbn [String.length]. lia. }
    set (s2 := set_out (out s0 ++ [EvLog (log_line m); EvModem (at_command "AT+CMGD=" index); EvMessageThread]) s0).
    assert (set_out (out s ++ dialogue index m) s = s2) as E2 by (unfold s2, s0, dialogue; cbn; by rewrite <- app_assoc).
    destruct (text_processed g rest rest' l s2 wr sched fuel stale m septets bytes) as (devf & userf & H1 & H2 & H3 & H4 & E); try done; [lia|].
    exists devf, userf. do 4 (split; [done|]). cbv zeta in E |- *. rewrite E2. cbn [sms_read_thread].
    rewrite (bind_some _ _ _ _ _ (turn_reads _ _ _ _ _ _ _ _ _ _ (announced 1 charset0 head index old s Hb1 Hb2 Hth Hti Hil Hhl))). fold s0.
    cbn [sms_read_thread].
    rewrite (bind_some _ _ _ _ _ (turn_reads _ _ _ _ _ _ _ _ _ _
      (message_read charset0 buffer pdu index m s0 avail Hbuf eq_refl (proj1 Hrec) Hil Hlog))). fold s2.
    cbn [sms_read_thread handler_on_user_message sms_thread_turn started g_rcv_info rcv_msg_sim_index].
    change (if may_command l (send_number m) then _ else _) with (if may_command l number then text_command g text else None) in E.
    destruct (if may_command l number then text_command g text else None) as [[[ip cmd] n]|].
    + destruct E as [E _]. unfold mbind, M_bind, mret, M_ret in *. rewrite E. by destruct (on_uart _ _) as [[x s3]|].
    + unfold mbind, M_bind, mret, M_ret. by rewrite E.
  - cbn [sms_read_thread]. rewrite (bind_some _ _ _ _ _ (turn_reads _ _ _ _ _ _ _ _ _ _ (announced 0 charset0 head index old s Hb1 Hb2 Hth Hti Hil Hhl))). fold s0.
    cbn [sms_read_thread]. unfold sms_turn, sms_read_step, mbind, M_bind. cbn [rcv_msg_sim_index]. rewrite Hbuf. cbv zeta. fold avail.
    unfold lift at 1. by rewrite (proj2 Hrec).
Qed.

(** The text 11: device 1 of the list, on. *)
Definition sample_head : string := "+CMTI: " +:+ (dq +:+ ("SM" +:+ dq)).
Definition sample_pdu : string :=
  cat_all (deliver_fields "13010888500" "13800138000" "00" [14; 9; 9; 8; 30; 0] "23" 2 (hex_text [0xB1; 0x18])) +:+ String "013" (String "010" "OK").
Definition sample_buffer : string := "+CMGR: 0,,22" +:+ String "013" (String "010" sample_pdu).
Definition sample_user : dm_state (H := RefSqlite) :=
  set_f_user (H := RefSqlite) (alarm_db [mk_al "mobile" "13800138000" "o"] ∅) (sample_dm (reg_db sample_reg ∅)).
Definition sample_message : message_info_t := mk_msg "13010888500" "13800138000" "2014-09-09 08:30:00" (hex_text [0xB1; 0x18]) CHARSET_7BITS.

Lemma text_message_controls_witness :
  (exists devf userf, ready (SqliteLaws := RefSqliteLaws) devf /\ holds_reg sample_reg ∅ devf /\
    ready (SqliteLaws := RefSqliteLaws) userf /\ holds_al_db [mk_al "mobile" "13800138000" "o"] ∅ userf /\
    let s1 := set_f_dev (H := RefSqlite) devf (set_f_user (H := RefSqlite) userf (set_out (dialogue "7" sample_message) sample_user)) in
    sms_read_thread (H := RefSqlite) (fun _ => true) (fun _ q => q) 3 1 CHARSET_8BITS (fun _ => "x"%char)
      [SmsRead (sample_head +:+ ",7"); SmsRead sample_buffer; SmsThread] (mk_sms "" None 0) sample_user =
      (_ ← on_uart (switch_dev_control_func (fun _ => true) (fun _ q => q) 3 (Some "12AB") CMD_SW_OPEN 2);
       mret (mk_sms "7" (Some sample_message) 0)) s1) /\
  sms_read_thread (H := RefSqlite) (fun _ => true) (fun _ q => q) 3 0 CHARSET_8BITS (fun _ => "x"%char)
      [SmsRead (sample_head +:+ ",7"); SmsRead sample_buffer] (mk_sms "" None 0) sample_user = None.
Proof.
  assert (strstr sample_buffer "0891" = Some sample_pdu) as Hb by (vm_compute; reflexivity).
  assert (String.length sample_buffer = 80%nat /\ String.length sample_pdu = 66%nat) as [Hl1 Hl2] by (split; vm_compute; reflexivity).
  apply (text_message_controls (SL := RefSqliteLaws) sample_reg ∅ ∅ [mk_al "mobile" "13800138000" "o"] sample_user (fun _ => true) (fun _ q => q) 3
    CHARSET_8BITS (fun _ => "x"%char) sample_head "7" "" sample_buffer "13010888500" "13800138000" "23" (String "013" (String "010" "OK")) None
    [14; 9; 9; 8; 30; 0] [49; 49] [0xB1; 0x18]); try done.
  - apply reg_db_wf, map_Forall_empty.
  - apply sample_reg_inv.
  - repeat constructor; vm_compute; lia.
  - repeat constructor; vm_compute; lia.
  - apply alarm_db_wf, map_Forall_empty.
  - split; [reflexivity|vm_compute; lia].
  - cbn; lia.
  - cbn; lia.
  - split; [done|by repeat constructor].
  - split; [by repeat constructor|]. split; [by repeat constructor|]. split; [reflexivity|cbn; lia].
  - cbn; lia.
  - rewrite Hl1. unfold MAX_BUFFER_SIZE. lia.
  - change (String.length sample_pdu <= String.length sample_buffer)%nat. rewrite Hl1, Hl2. lia.
  - cbn; lia.
Defined.
