(* ===== verification/Frame.v ===== *)
(** * Frames: what a call cannot send

    [silent p m]: whatever [m] does, it sends out no event that satisfies
    [p].  The hint database [silent] closes such goals for the functions of
    the daemon by walking through their code. *)

From stdpp Require Import base list strings gmap.
From Stdlib Require Import ZArith Lia Ascii.
From S2P Require Import Prelude CString Calendar Sql UartQueue DevControl DevState DevDb Alarm Timer Sms CityId Notify UartCommon.

Open Scope Z_scope.

Section Frame.
Context `{Sqlite} (p : event -> bool).

Definition silent {A} (m : DM A) : Prop :=
  forall s x s', m s = Some (x, s') -> List.filter p (out s') = List.filter p (out s).

Lemma silent_ret {A} (x : A) : silent (mret x).
Proof. by intros s y s' [= <- <-]. Qed.
Lemma silent_lift {A} (o : option A) : silent (lift o).
Proof. intros s y s'. unfold lift. destruct o; [|done]. by intros [= <- <-]. Qed.
Lemma silent_gets {A} (f : dm_state -> A) : silent (gets f).
Proof. by intros s y s' [= <- <-]. Qed.
Lemma silent_ub {A} : silent (ub : DM A).
Proof. done. Qed.
Lemma silent_bind {A B} (m : DM A) (k : A -> DM B) : silent m -> (forall x, silent (k x)) -> silent (m ≫= k).
Proof.
  intros Hm Hk s y s'. unfold mbind, M_bind. destruct (m s) as [[x s1]|] eqn:E; [|done].
  intros E'. by rewrite (Hk _ _ _ _ E'), (Hm _ _ _ E).
Qed.
Lemma silent_modify f : (forall s, out (f s) = out s) -> silent (modify f).
Proof. intros Hf s y s' [= <- <-]. by rewrite Hf. Qed.
Lemma silent_emit e : p e = false -> silent (emit_ev e).
Proof. intros He s y s' [= <- <-]. cbn. rewrite List.filter_app. cbn. by rewrite He, app_nil_r. Qed.
Lemma silent_emit_all l : Forall (fun e => p e = false) l -> silent (emit_all l).
Proof. induction 1 as [|e l He _ IH]; [apply silent_ret|]. apply silent_bind; [by apply silent_emit|done]. Qed.
Lemma silent_mfor {X} (l : list X) body : (forall x, silent (body x)) -> silent (mfor l body).
Proof. intros Hb. induction l as [|x l IH]; [apply silent_ret|]. by apply silent_bind. Qed.
Lemma silent_on_uart {A} (f : uart_state -> option (A * uart_state)) : silent (on_uart f).
Proof. intros s y s'. unfold on_uart. destruct (f _) as [[]|]; [|done]. by intros [= <- <-]. Qed.

(** The three files and the static arrays are apart from [out]. *)
Class QuietFile (f : dbfile) := quiet_file c s : out (upd f c s) = out s.
Class QuietBuf (b : charbuf) := quiet_buf x s : out (b_set b x s) = out s.

Lemma silent_db_open f `{!QuietFile f} : silent (db_open f).
Proof. intros s y s'. unfold db_open. destruct (sqlite3_open _). intros [= <- <-]. by rewrite quiet_file. Qed.
Lemma silent_db_exec f `{!QuietFile f} sql : silent (db_exec f sql).
Proof. intros s y s'. unfold db_exec. destruct (sqlite3_exec _ _). intros [= <- <-]. by rewrite quiet_file. Qed.
Lemma silent_db_get_table f `{!QuietFile f} sql : silent (db_get_table f sql).
Proof. intros s y s'. unfold db_get_table. destruct (sqlite3_get_table _ _). intros [= <- <-]. by rewrite quiet_file. Qed.
Lemma silent_sprintf cap x : silent (sprintf cap x).
Proof. apply silent_lift. Qed.
Lemma silent_az r k : silent (az r k).
Proof. apply silent_lift. Qed.
Lemma silent_buf_copy b `{!QuietBuf b} x : silent (buf_copy b x).
Proof. apply silent_modify, quiet_buf. Qed.

End Frame.

#[export] Instance dev_file_quiet `{Sqlite} : QuietFile dev_file. Proof. done. Qed.
#[export] Instance user_file_quiet `{Sqlite} : QuietFile user_file. Proof. done. Qed.
#[export] Instance city_file_quiet `{Sqlite} : QuietFile city_file. Proof. done. Qed.
#[export] Instance dev_list_quiet `{Sqlite} : QuietBuf dev_list_buf. Proof. done. Qed.
#[export] Instance group_name_quiet `{Sqlite} : QuietBuf group_name_buf. Proof. done. Qed.
#[export] Instance alarm_alllist_quiet `{Sqlite} : QuietBuf alarm_alllist_buf. Proof. done. Qed.
#[export] Instance timertask_info_quiet `{Sqlite} : QuietBuf timertask_info_buf. Proof. done. Qed.

Create HintDb silent.
#[export] Hint Resolve silent_ret silent_lift silent_gets silent_ub silent_on_uart silent_mfor silent_sprintf silent_az : silent.
#[export] Hint Extern 1 (silent _ (db_open _)) => (apply silent_db_open; exact _) : silent.
#[export] Hint Extern 1 (silent _ (db_exec _ _)) => (apply silent_db_exec; exact _) : silent.
#[export] Hint Extern 1 (silent _ (db_get_table _ _)) => (apply silent_db_get_table; exact _) : silent.
#[export] Hint Extern 1 (silent _ (buf_copy _ _)) => (apply silent_buf_copy; exact _) : silent.
#[export] Hint Extern 1 (silent _ (modify _)) => (apply silent_modify; (done || apply quiet_buf)) : silent.

(** One step into the code. *)
Ltac silent_step :=
  first
    [ match goal with |- forall _, _ => intro end
    | solve [auto 2 with silent]
    | apply silent_bind
    | apply silent_mfor
    | match goal with
      | |- silent _ (match ?x with _ => _ end) => destruct x
      | |- silent _ (if ?x then _ else _) => destruct x
      | |- silent _ (let '(_, _) := ?x in _) => destruct x
      end ].
Ltac silent_walk := repeat silent_step.

Section Library.
Context `{Sqlite} (p : event -> bool).

Lemma silent_opening {A} opn (d : A) k : silent p opn -> silent p k -> silent p (opening opn d k).
Proof. intros. unfold opening. silent_walk; done. Qed.
Lemma silent_buf_cat b `{!QuietBuf b} x : silent p (buf_cat b x).
Proof. unfold buf_cat. silent_walk. Qed.
Lemma silent_buf_set_last b `{!QuietBuf b} x : silent p (buf_set_last b x).
Proof. unfold buf_set_last. silent_walk. Qed.
Lemma silent_buf_drop_last b `{!QuietBuf b} : silent p (buf_drop_last b).
Proof. unfold buf_drop_last. silent_walk. Qed.
End Library.

#[export] Hint Extern 1 (silent _ (buf_cat _ _)) => (apply silent_buf_cat; exact _) : silent.
#[export] Hint Extern 1 (silent _ (buf_set_last _ _)) => (apply silent_buf_set_last; exact _) : silent.
#[export] Hint Extern 1 (silent _ (buf_drop_last _)) => (apply silent_buf_drop_last; exact _) : silent.

Section Shapes.
Context `{Sqlite} (p : event -> bool).

Lemma silent_cat_row b `{!QuietBuf b} cap width row r i : silent p (cat_row b cap width row r i).
Proof. unfold cat_row, sprintf. silent_walk. Qed.
Lemma silent_exists_on opn f `{!QuietFile f} cap text : silent p opn -> silent p (exists_on opn f cap text).
Proof. intros. unfold exists_on, sprintf. apply silent_opening; silent_walk; done. Qed.
Lemma silent_update_on opn f `{!QuietFile f} cap text : silent p opn -> silent p (update_on opn f cap text).
Proof. intros. unfold update_on, sprintf. apply silent_opening; silent_walk; done. Qed.
Lemma silent_comma_column opn f `{!QuietFile f} b `{!QuietBuf b} text : silent p opn -> silent p (comma_column opn f b text).
Proof. intros. unfold comma_column, for_rows, az. apply silent_opening; silent_walk; done. Qed.
Lemma silent_json_array opn f `{!QuietFile f} b `{!QuietBuf b} cap width row text :
  silent p opn -> silent p (json_array opn f b cap width row text).
Proof.
  intros. unfold json_array, for_rows. apply silent_opening; [done|]. silent_walk; done.
Qed.
End Shapes.

#[export] Hint Extern 1 (silent _ (cat_row _ _ _ _ _ _)) => (apply silent_cat_row; exact _) : silent.

(** ** The database modules *)

Section Modules.
Context `{Sqlite} (p : event -> bool).

Lemma silent_dev_open : silent p database_open.
Proof. unfold database_open, CreateStaticTable, CreateDynamicTable, CreateDevGroupTable. silent_walk. Qed.
Lemma silent_alarm_open : silent p alarm_open.
Proof. unfold alarm_open, alarm_create. silent_walk. Qed.
Lemma silent_timer_open : silent p timer_open.
Proof. unfold timer_open, timer_create. silent_walk. Qed.
Lemma silent_city_open : silent p city_open.
Proof. unfold city_open, city_create. silent_walk. Qed.

Lemma silent_with_open {A} (d : A) k : silent p k -> silent p (with_open d k).
Proof. apply silent_opening, silent_dev_open. Qed.
Lemma silent_sql_exists cap text : silent p (sql_exists cap text).
Proof. apply silent_exists_on; [exact _|apply silent_dev_open]. Qed.
Lemma silent_sql_update cap text : silent p (sql_update cap text).
Proof. apply silent_update_on; [exact _|apply silent_dev_open]. Qed.
Lemma silent_al_exists text : silent p (al_exists text).
Proof. apply silent_exists_on; [exact _|apply silent_alarm_open]. Qed.
Lemma silent_al_update text : silent p (al_update text).
Proof. apply silent_update_on; [exact _|apply silent_alarm_open]. Qed.
End Modules.

#[export] Hint Resolve silent_dev_open silent_alarm_open silent_timer_open silent_city_open silent_sql_exists silent_sql_update
  silent_al_exists silent_al_update : silent.
#[export] Hint Extern 1 (silent _ (with_open _ _)) => apply silent_with_open : silent.

Section Functions.
Context `{Sqlite} (p : event -> bool).

Lemma silent_AddDevGroupName g : silent p (AddDevGroupName g).
Proof. unfold AddDevGroupName, sprintf. apply silent_with_open. silent_walk. Qed.
Lemma silent_GetGroupIDByName g : silent p (GetGroupIDByName g).
Proof. unfold GetGroupIDByName, sprintf, az. apply silent_with_open. silent_walk. Qed.
Lemma silent_isMacOrNameExist m n d : silent p (isMacOrNameExist m n d).
Proof. unfold isMacOrNameExist, sprintf. silent_walk; try (apply silent_with_open; silent_walk). Qed.
Lemma silent_isNewNameExist n : silent p (isNewNameExist n).
Proof. unfold isNewNameExist. silent_walk. Qed.
Lemma silent_sql_first a b text : silent p (sql_first a b text).
Proof. unfold sql_first, sprintf, az. apply silent_with_open. silent_walk. Qed.
End Functions.
#[export] Hint Resolve silent_AddDevGroupName silent_GetGroupIDByName silent_isMacOrNameExist silent_isNewNameExist silent_sql_first : silent.

Section Commands.
Context `{Sqlite} (p : event -> bool).

Lemma silent_AddDev m n u g d t : silent p (AddDevToStaticTable m n u g d t).
Proof. unfold AddDevToStaticTable, insertIntoStaticTable. silent_walk. Qed.
Lemma silent_RemoveDev m n : silent p (RemoveDevFromStaticTable m n).
Proof. unfold RemoveDevFromStaticTable, isMacAndNameMatch, deleteFromStaticTable. silent_walk. Qed.
Lemma silent_UpdateDisplay m o n u : silent p (UpdateDevDisplayName m o n u).
Proof. unfold UpdateDevDisplayName, isMacAndNameMatch, UpdateDevNameByMacAndOldname. silent_walk. Qed.
Lemma silent_UpdateGroup m n g : silent p (UpdateDevGroupName m n g).
Proof. unfold UpdateDevGroupName, isMacAndNameMatch, UpdateDevGroupIDByMacAndName. silent_walk. Qed.
Lemma silent_GetDeviceList : silent p GetDeviceList.
Proof. unfold GetDeviceList, for_rows. apply silent_with_open. silent_walk. Qed.
Lemma silent_GetAllGroupName : silent p GetAllGroupName.
Proof. apply silent_comma_column; [exact _..|apply silent_dev_open]. Qed.
Lemma silent_GetAlarmAllList : silent p GetAlarmAllList.
Proof. apply silent_json_array; [exact _..|apply silent_alarm_open]. Qed.
Lemma silent_GetAllTimerTaskInfo : silent p GetAllTimerTaskInfo.
Proof. apply silent_json_array; [exact _..|apply silent_timer_open]. Qed.
Lemma silent_AddOneTimerTask now i : silent p (AddOneTimerTask now i).
Proof. apply silent_update_on; [exact _|apply silent_timer_open]. Qed.
Lemma silent_DeleteOneTimerTask i : silent p (DeleteOneTimerTaskByID i).
Proof. apply silent_update_on; [exact _|apply silent_timer_open]. Qed.
Lemma silent_GetCityIDByName cap n : silent p (GetCityIDByName cap n).
Proof. unfold GetCityIDByName, sprintf, az. apply silent_opening; silent_walk. Qed.
Lemma silent_match type v : silent p (isAlarmTypeAndValueMatch type v).
Proof. unfold isAlarmTypeAndValueMatch. silent_walk; apply silent_opening; silent_walk. Qed.
Lemma silent_AddAlarmItem t v : silent p (AddAlarmItem t v).
Proof.
  unfold AddAlarmItem. unfold insertIntoAlarmTable. silent_walk; first [apply silent_match|apply silent_opening; silent_walk].
Qed.
Lemma silent_DeleteAlarm t v : silent p (DeleteFromAlarmTable t v).
Proof.
  unfold DeleteFromAlarmTable. unfold DeleteByEmailOrMobile. silent_walk; first [apply silent_match|apply silent_opening; silent_walk].
Qed.
Lemma silent_ChangeAlarm k t v : silent p (ChangeAlarmItemToState k t v).
Proof.
  unfold ChangeAlarmItemToState. unfold SetAlarmState. silent_walk; first [apply silent_match|apply silent_opening; silent_walk].
Qed.
Lemma silent_GetDevIPByMac cap m : silent p (GetDevIPByMac cap m).
Proof. unfold GetDevIPByMac. silent_walk. Qed.
Lemma silent_control_device wr sched fuel ip t c n : silent p (control_device wr sched fuel ip t c n).
Proof. unfold control_device, on_uart'. silent_walk. Qed.
Lemma silent_forward wr sched fuel m n t c d : silent p (ForwardControlToUart wr sched fuel m n t c d).
Proof.
  unfold ForwardControlToUart, isMacAndNameMatch. silent_walk; first [apply silent_GetDevIPByMac|apply silent_control_device].
Qed.
Lemma silent_get_state wr sched fuel m n d : silent p (SWGetCurrentState wr sched fuel m n d).
Proof. unfold SWGetCurrentState, isMacAndNameMatch. silent_walk. Qed.
Lemma silent_sms to msg : (forall t, p (EvModem t) = false) -> silent p (sms_dot_send to msg).
Proof.
  intros Hp. unfold sms_dot_send. silent_walk. apply silent_emit_all. apply Forall_fmap, Forall_true. intros x. apply Hp.
Qed.
Lemma silent_broadcast ok w a n : (forall m, p (EvBroadcast m) = false) -> silent p (send_broadcast ok w a n).
Proof. intros Hp. unfold send_broadcast, sprintf. silent_walk. by apply silent_emit. Qed.
Lemma silent_SetFamilyGroupInfo g : silent p (SetFamilyGroupInfo g).
Proof. unfold SetFamilyGroupInfo, SaveFamilyGroupInfo, sprintf. silent_walk. Qed.
Lemma silent_GetFamilyGroupInfo a b : silent p (GetFamilyGroupInfo a b).
Proof. unfold GetFamilyGroupInfo. silent_walk. Qed.
End Commands.
