(* ===== verification/Socketd.v ===== *)
(** * Requests of the clients (src/src/dev_manage/socketd.c)

    A client connects to port 2003 and writes one JSON object with the members
    [param0] to [param8].  [client_thread] reads it, carries the action out
    and answers.  The file holds the thread, with a definition for each
    action; SocketdProps.v says what is answered. *)

From stdpp Require Import base list strings gmap.
From Stdlib Require Import ZArith Lia Ascii.
From S2P Require Import Prelude CString Calendar Sql UartQueue DevControl DevState DbTriple DbStore DevDb DevReg DevRegProps Alarm Timer CJson Sms CityId Notify UartCommon.

Open Scope Z_scope.

Definition SOCKET_RESPONSE_YES : string := "YES".
Definition SOCKET_RESPONSE_NO : string := "NO".
Definition SOCKET_RESPONSE_MAC_EXIST : string := "MAC_EXIST".
Definition SOCKET_RESPONSE_NAME_EXIST : string := "NAME_EXIST".

(** [USER_ACTION] *)
Definition ACTION_DEV_ADD : Z := 0.
Definition ACTION_DEV_REMOVE : Z := 1.
Definition ACTION_DEV_EDIT : Z := 2.
Definition ACTION_GET_DEV_LIST : Z := 3.
Definition ACTION_DEV_CONTROL : Z := 4.
Definition ACTION_SEND_MSG : Z := 5.
Definition ACTION_GET_CITY_ID : Z := 8.
Definition ACTION_ALARM_ADD : Z := 9.
Definition ACTION_GET_ALARM_LIST : Z := 10.
Definition ACTION_ALARM_LOCK : Z := 11.
Definition ACTION_ALARM_UNLOCK : Z := 12.
Definition ACTION_ALARM_DELETE : Z := 13.
Definition ACTION_DEV_ADD_GROUP : Z := 14.
Definition ACTION_GET_ALL_GROUP_NAME : Z := 15.
Definition ACTION_UPDATE_DEV_GROUP : Z := 16.
Definition ACTION_SET_GROUP_ID : Z := 17.
Definition ACTION_GET_GROUP_ID : Z := 18.
Definition ACTION_ADD_TIMERTASK : Z := 19.
Definition ACTION_DELETE_TIMERTASK : Z := 20.
Definition ACTION_GET_TIMERTASK_INFO : Z := 21.
Definition ACTION_SW_GET_STATE : Z := 22.
Definition ACTION_QUIT : Z := 23.

(** What the members hold; those that may be NULL after the test. *)
Record request := mk_request {
  who : string;
  user_action : string;
  r_mac : string;
  r_name : string;
  r_type : option string;
  r_cmd : string;
  r_group : string;
  param1 : option string;
  param2 : option string
}.

(** [cJSON_GetObjectItem(root, k)->valuestring]; of a missing member the
    null pointer is read. *)
Definition param (root : json) (k : string) : option (option string) := valuestring <$> cJSON_GetObjectItem root k.

(** Lines 120 to 133; [Some None] stands for the early return. *)
Definition read_request (root : json) : option (option request) :=
  p0 ← param root "param0"; p1 ← param root "param1"; p2 ← param root "param2"; p3 ← param root "param3";
  p4 ← param root "param4"; p5 ← param root "param5"; p6 ← param root "param6"; p7 ← param root "param7";
  p8 ← param root "param8";
  Some match p0, p1, p2, p3, p5, p6 with
       | Some w, Some a, Some m, Some n, Some c, Some g => Some (mk_request w a m n p4 c g p7 p8)
       | _, _, _, _, _, _ => None
       end.

(** How an action leaves the [switch]: [goto response_client] with [ret], or
    [break]. *)
Inductive outcome := Respond (ret : bool) | Break.

Section Socketd.
Context `{Sqlite}.
(** The serial line, the other threads and the number of polls (see
    DevControl.v); the network; the services; the clock at the two calls of
    [AddOneTimerTask] and the time zone; what uninitialised arrays hold. *)
Context (wr : list Z -> bool) (sched : nat -> queue -> queue) (fuel : nat) (net_ok is_uart_ok is_sms_ok : bool)
  (now now' tz : Z) (junk_id junk_name : string).

Definition write_client (s : string) : DM unit := emit_ev (EvReply s).
Definition close_client : DM unit := emit_ev EvClose.

(** [atoi(p)] *)
Definition atoi_ptr (p : option string) : DM Z := lift (atoi <$> p).

(** The name and its code, separated by a colon. *)
Definition split_name (name : string) : option string * option string :=
  let '(name, rest) := strtok ":" name in
  let '(unicode, _) := strtok ":" rest in (name, unicode).

Definition action_dev_add (r : request) (user_action_type : Z) : DM outcome :=
  match split_name (r_name r) with
  | (Some name, Some unicode) =>
      number ← atoi_ptr (param1 r);
      type ← atoi_ptr (param2 r);
      ret_add_dev ← AddDevToStaticTable (r_mac r) name unicode (r_group r) (u8 number) (u8 type);
      match ret_add_dev with
      | DEV_ADD_OK =>
          _ ← write_client SOCKET_RESPONSE_YES;
          _ ← send_broadcast net_ok (who r) user_action_type name; mret Break
      | DEV_MAC_EXIST => _ ← write_client SOCKET_RESPONSE_MAC_EXIST; mret Break
      | DEV_NAME_EXIST => _ ← write_client SOCKET_RESPONSE_NAME_EXIST; mret Break
      | DEV_ADD_FAIL => mret Break
      end
  | _ => mret Break
  end.

Definition action_dev_remove (r : request) (user_action_type : Z) : DM outcome :=
  ret ← RemoveDevFromStaticTable (r_mac r) (r_name r);
  _ ← (if ret : bool then send_broadcast net_ok (who r) user_action_type (r_name r) else mret tt);
  mret (Respond ret).

Definition action_dev_edit (r : request) (user_action_type : Z) : DM outcome :=
  match split_name (r_name r), param1 r with
  | (Some name, Some unicode), Some oldname =>
      ret ← UpdateDevDisplayName (r_mac r) oldname name unicode;
      _ ← (if ret : bool then send_broadcast net_ok (who r) user_action_type name else mret tt);
      mret (Respond ret)
  | _, _ => mret Break
  end.

(** The actions that fill a buffer and write it. *)
Definition action_list (fill : DM unit) (b : charbuf) : DM outcome :=
  _ ← fill; s ← gets (b_get b); _ ← write_client s; mret Break.

Definition action_get_city_id (r : request) : DM outcome :=
  cityid ← GetCityIDByName 20 (r_name r);
  _ ← write_client (default SOCKET_RESPONSE_NO cityid); mret Break.

Definition action_dev_control (r : request) : DM outcome :=
  if is_uart_ok then
    type ← atoi_ptr (r_type r);
    number ← atoi_ptr (param1 r);
    ret ← ForwardControlToUart wr sched fuel (r_mac r) (r_name r) type (u8 (atoi (r_cmd r))) (u8 number);
    mret (Respond ret)
  else mret (Respond false).

Definition action_send_msg (r : request) : DM outcome :=
  if is_sms_ok then ret ← sms_dot_send (Some (r_mac r)) (Some (r_name r)); mret (Respond ret)
  else mret (Respond false).

Definition action_alarm (f : Z -> string -> DM bool) (r : request) : DM outcome :=
  type ← atoi_ptr (r_type r); ret ← f type (r_mac r); mret (Respond ret).

Definition action_set_group_id (r : request) : DM outcome :=
  id ← lift (fits 512 (r_mac r));
  name ← lift (fits 512 (r_name r));
  ret ← SetFamilyGroupInfo (mk_group id name); mret (Respond ret).

Definition action_get_group_id : DM outcome :=
  g ← GetFamilyGroupInfo junk_id junk_name;
  match g with
  | Some g =>
      buf ← sprintf 1024 (group_id g +:+ ("," +:+ (group_name g +:+ ",")));
      _ ← write_client buf; mret Break
  | None => _ ← write_client "_FAIL_"; mret Break
  end.

Definition action_add_timertask (r : request) : DM outcome :=
  mac ← lift (fits 30 (r_mac r));
  name ← lift (fits 50 (r_name r));
  happen ← lift (param1 r ≫= fits 20);
  per ← atoi_ptr (r_type r);
  how ← atoi_ptr (param2 r);
  let item := mk_item 0 mac name (u8 per) happen (u8 (atoi (r_cmd r))) (u32 (atoi (r_group r))) (u32 how) 0 "" in
  ret ← AddOneTimerTask now item;
  if ret && (0 <? howlong item) then
    after ← lift (TimeAdd tz happen (howlong item / 100) (howlong item mod 100));
    let opposite := if action item =? CMD_SW_OPEN then CMD_SW_CLOSE else CMD_SW_OPEN in
    ret ← AddOneTimerTask now' (mk_item 0 mac name (u8 per) after opposite (tipinfo item) 0 0 "");
    mret (Respond ret)
  else mret (Respond ret).

Definition action_delete_timertask : DM outcome :=
  ret ← DeleteOneTimerTaskByID 0; mret (Respond ret).

Definition action_sw_get_state (r : request) : DM outcome :=
  number ← atoi_ptr (param1 r);
  state ← SWGetCurrentState wr sched fuel (r_mac r) (r_name r) (u8 number);
  buffer ← sprintf 10 (fmt_d state);
  _ ← write_client buffer; mret Break.

(** The [switch]. *)
Definition handle_action (r : request) : DM outcome :=
  let t := atoi (user_action r) in
  if t =? ACTION_DEV_ADD then action_dev_add r t
  else if t =? ACTION_DEV_REMOVE then action_dev_remove r t
  else if t =? ACTION_DEV_ADD_GROUP then ret ← AddDevGroupName (r_group r); mret (Respond ret)
  else if t =? ACTION_DEV_EDIT then action_dev_edit r t
  else if t =? ACTION_GET_ALARM_LIST then action_list GetAlarmAllList alarm_alllist_buf
  else if t =? ACTION_GET_DEV_LIST then action_list GetDeviceList dev_list_buf
  else if t =? ACTION_GET_CITY_ID then action_get_city_id r
  else if t =? ACTION_DEV_CONTROL then action_dev_control r
  else if t =? ACTION_SEND_MSG then action_send_msg r
  else if t =? ACTION_ALARM_ADD then action_alarm AddAlarmItem r
  else if t =? ACTION_ALARM_LOCK then action_alarm (ChangeAlarmItemToState ALARM_LOCK) r
  else if t =? ACTION_ALARM_UNLOCK then action_alarm (ChangeAlarmItemToState ALARM_UNLOCK) r
  else if t =? ACTION_ALARM_DELETE then action_alarm DeleteFromAlarmTable r
  else if t =? ACTION_GET_ALL_GROUP_NAME then action_list GetAllGroupName group_name_buf
  else if t =? ACTION_UPDATE_DEV_GROUP then
    ret ← UpdateDevGroupName (r_mac r) (r_name r) (r_group r); mret (Respond ret)
  else if t =? ACTION_SET_GROUP_ID then action_set_group_id r
  else if t =? ACTION_GET_GROUP_ID then action_get_group_id
  else if t =? ACTION_ADD_TIMERTASK then action_add_timertask r
  else if t =? ACTION_DELETE_TIMERTASK then action_delete_timertask
  else if t =? ACTION_GET_TIMERTASK_INFO then action_list GetAllTimerTaskInfo timertask_info_buf
  else if t =? ACTION_SW_GET_STATE then action_sw_get_state r
  else if t =? ACTION_QUIT then mret Break
  else mret Break.

(** From the [switch] to the end. *)
Definition serve_request (r : request) : DM unit :=
  o ← handle_action r;
  _ ← (match o with
       | Respond ret => write_client (if ret then SOCKET_RESPONSE_YES else SOCKET_RESPONSE_NO)
       | Break => mret tt
       end);
  close_client.

(** [received]: the bytes read before the first NUL, none when nothing came
    within five seconds; [None] when [read] fails.  Behind 512 bytes there is
    no NUL in [buffer]. *)
Definition client_thread (received : option string) : DM unit :=
  match received with
  | None => close_client
  | Some text =>
      buffer ← lift (fits 512 text);
      _ ← led_flash LED_FOR_NETWORK 1 3;
      match cJSON_Parse buffer with
      | POk root _ =>
          r ← lift (read_request root);
          match r with
          | None => close_client
          | Some r => serve_request r
          end
      | PFail => mret tt
      | PUndef | PFuel => ub
      end
  end.
End Socketd.
