(* ===== verification/SocketdProps.v ===== *)
(** * What the clients are answered (src/src/dev_manage/socketd.c)

    Every request is answered at most once and its connection closed at the
    end, unless it is no JSON; a registry command that a client prints with
    cJSON is carried out and answered as its specification says; timer
    requests and what becomes of them. *)

From stdpp Require Import base list strings gmap.
From Stdlib Require Import ZArith Lia Ascii.
From S2P Require Import Prelude CString Calendar Sql UartQueue DevControl DevState DbTriple DbStore DevDb DevReg DevRegProps Alarm Timer CJson Sms CityId Notify UartCommon Frame Socketd.

Open Scope Z_scope.

(** ** Answers and the end of the connection *)

Definition to_client (e : event) : bool := match e with EvReply _ | EvClose => true | _ => false end.

Section Answers.
Context `{Sqlite}.

(** [m] writes [l] to the client, for some [l] that [P] allows. *)
Definition says {A} (P : A -> list event -> Prop) (m : DM A) : Prop :=
  forall s x s', m s = Some (x, s') ->
    exists l, P x l /\ List.filter to_client (out s') = List.filter to_client (out s) ++ l.

Lemma says_silent {A B} (P : B -> list event -> Prop) (m : DM A) (k : A -> DM B) :
  silent to_client m -> (forall x, says P (k x)) -> says P (m ≫= k).
Proof.
  intros Hm Hk s y s'. unfold mbind, M_bind. destruct (m s) as [[x s1]|] eqn:E; [|done]. intros E'.
  destruct (Hk _ _ _ _ E') as (l & Hl & Ho). exists l. split; [done|]. by rewrite Ho, (Hm _ _ _ E).
Qed.

Lemma says_ret {A} (P : A -> list event -> Prop) x : P x [] -> says P (mret x).
Proof. intros HP s y s' [= <- <-]. exists []. by rewrite app_nil_r. Qed.

Lemma says_ub {A} (P : A -> list event -> Prop) : says P ub.
Proof. done. Qed.

(** An answer in front of what says nothing more. *)
Lemma says_reply {A} (P : A -> list event -> Prop) t (m : DM A) x :
  (forall s r, m s = Some r -> r = (x, snd r) /\ List.filter to_client (out (snd r)) = List.filter to_client (out s)) ->
  P x [EvReply t] -> says P (_ ← write_client t; m).
Proof.
  intros Hm HP s y s'. unfold write_client, mbind, M_bind, emit_ev, modify. intros E.
  destruct (Hm _ _ E) as [[= ->] Ho]. cbn [snd] in Ho. exists [EvReply t]. split; [done|].
  rewrite Ho. cbn. rewrite List.filter_app. done.
Qed.

Definition at_most_one (o : outcome) (l : list event) : Prop :=
  match o with
  | Respond _ => l = []
  | Break => l = [] \/ exists t, l = [EvReply t]
  end.

Lemma says_respond {A} (m : DM A) (f : A -> bool) : silent to_client m -> says at_most_one (x ← m; mret (Respond (f x))).
Proof. intros Hm. apply says_silent; [done|]. intros x. by apply says_ret. Qed.

Lemma says_break t : says at_most_one (_ ← write_client t; mret Break).
Proof. eapply (says_reply _ _ _ Break); [|by right; exists t]. by intros s [x s1] [= <- <-]. Qed.

Lemma silent_to_sms to msg : silent to_client (sms_dot_send to msg).
Proof. by apply silent_sms. Qed.
Lemma silent_to_broadcast ok w a n : silent to_client (send_broadcast ok w a n).
Proof. by apply silent_broadcast. Qed.
Lemma silent_atoi_ptr p : silent to_client (atoi_ptr p).
Proof. apply silent_lift. Qed.
End Answers.

#[export] Hint Resolve silent_AddDev silent_RemoveDev silent_UpdateDisplay silent_UpdateGroup silent_GetDeviceList silent_GetAllGroupName
  silent_GetAlarmAllList silent_GetAllTimerTaskInfo silent_AddOneTimerTask silent_DeleteOneTimerTask silent_GetCityIDByName
  silent_AddAlarmItem silent_DeleteAlarm silent_ChangeAlarm silent_forward silent_get_state silent_SetFamilyGroupInfo
  silent_GetFamilyGroupInfo silent_to_sms silent_to_broadcast silent_atoi_ptr : silent.

(** One step into the code of an action. *)
Ltac says_step :=
  first
    [ match goal with |- forall _, _ => intro end
    | apply says_break
    | apply says_ret; first [done | by left]
    | apply says_silent; [solve [auto 2 with silent | silent_walk]|]
    | match goal with
      | |- says _ (match ?x with _ => _ end) => destruct x
      | |- says _ (if ?x then _ else _) => destruct x
      | |- says _ (let '(_, _) := ?x in _) => destruct x
      end ].
Ltac says_walk := repeat says_step.

Section Actions.
Context `{Sqlite}.
Context (wr : list Z -> bool) (sched : nat -> queue -> queue) (fuel : nat) (net_ok is_uart_ok is_sms_ok : bool)
  (now now' tz : Z) (junk_id junk_name : string).

Lemma says_add r t : says at_most_one (action_dev_add net_ok r t).
Proof.
  unfold action_dev_add. says_walk. eapply (says_reply _ _ _ Break); [|by right; eexists].
  intros w [y w1]. unfold mbind, M_bind.
  destruct (send_broadcast _ _ _ _ w) as [[u w2]|] eqn:E; [|done]. intros [= <- <-]. split; [done|].
  by apply (silent_to_broadcast _ _ _ _ _ _ _ E).
Qed.

Lemma says_list fill b : silent to_client fill -> says at_most_one (action_list fill b).
Proof. intros Hf. unfold action_list. says_walk. Qed.

Lemma says_alarm f r : (forall t v, silent to_client (f t v)) -> says at_most_one (action_alarm f r).
Proof. intros Hf. unfold action_alarm. says_walk. Qed.

Lemma says_timer r : says at_most_one (action_add_timertask now now' tz r).
Proof. unfold action_add_timertask. says_walk. Qed.

Lemma says_handle_action r :
  says at_most_one (handle_action wr sched fuel net_ok is_uart_ok is_sms_ok now now' tz junk_id junk_name r).
Proof.
  unfold handle_action. cbv zeta.
  repeat (match goal with |- context [if ?c then _ else _] => destruct c end);
    first [apply says_add | apply says_timer | apply says_list; solve [auto 2 with silent]
          | apply says_alarm; intros; solve [auto 2 with silent] | idtac ].
  all: unfold action_dev_remove, action_dev_edit, action_get_city_id, action_dev_control, action_send_msg, action_set_group_id,
    action_get_group_id, action_delete_timertask, action_sw_get_state; says_walk.
Qed.
End Actions.

(** Whether the thread closes the connection: when [read] fails, and when the
    text is JSON. *)
Definition closes (received : option string) : bool :=
  match received with
  | None => true
  | Some text => match cJSON_Parse text with POk _ _ => true | _ => false end
  end.

(** A connection on which a JSON text arrives gets at most one answer and is
    then closed, once, whatever the request is.  One on which nothing arrives
    within five seconds, or no JSON text, gets no answer and is never closed:
    the thread ends and leaves the descriptor open. *)
Lemma connection_answered_and_closed `{Sqlite} wr sched fuel net_ok is_uart_ok is_sms_ok now now' tz junk_id junk_name
    (received : option string) (s s' : dm_state) :
  client_thread wr sched fuel net_ok is_uart_ok is_sms_ok now now' tz junk_id junk_name received s = Some (tt, s') ->
  exists answers, (length answers <= 1)%nat /\
    List.filter to_client (out s') =
      List.filter to_client (out s) ++ (if closes received then (EvReply <$> answers) ++ [EvClose] else []).
Proof.
  assert (forall r (s s' : dm_state),
    serve_request wr sched fuel net_ok is_uart_ok is_sms_ok now now' tz junk_id junk_name r s = Some (tt, s') ->
    exists answers, (length answers <= 1)%nat /\
      List.filter to_client (out s') = List.filter to_client (out s) ++ (EvReply <$> answers) ++ [EvClose]) as Hserve.
  { intros r t t'. unfold serve_request, mbind at 1, M_bind at 1.
    destruct (handle_action _ _ _ _ _ _ _ _ _ _ _ _ _) as [[o t1]|] eqn:E; [|done].
    destruct (says_handle_action _ _ _ _ _ _ _ _ _ _ _ _ _ _ _ E) as (l & Hl & Ho).
    destruct o as [ret|]; cbn [at_most_one] in Hl; intros [= <-]; cbn [out set_out].
    - subst l. exists [if ret then SOCKET_RESPONSE_YES else SOCKET_RESPONSE_NO]. split; [cbn; lia|].
      cbn. rewrite !List.filter_app, Ho, app_nil_r. cbn. by rewrite <- app_assoc.
    - destruct Hl as [->|[x ->]]; [exists []|exists [x]]; (split; [cbn; lia|]); cbn; by rewrite List.filter_app, Ho, <- app_assoc. }
  unfold client_thread, closes. destruct received as [text|].
  - unfold fits, lift, mbind at 1, M_bind at 1. destruct (_ <? _)%nat; [|done].
    unfold led_flash, sprintf, emit_ev. rewrite bind_some with (x := tt) (w' := set_out (out s ++ [EvSystem "led_flash 1 1 3&"]) s) by done.
    destruct (cJSON_Parse text) as [root rest| | |]; try done.
    + unfold lift, mbind, M_bind. destruct (read_request root) as [[r|]|]; [..|done].
      * intros (answers & Ha & Hf)%Hserve. exists answers. split; [done|]. rewrite Hf. cbn. by rewrite List.filter_app, app_nil_r.
      * intros [= <-]. exists []. split; [cbn; lia|]. cbn. rewrite !List.filter_app. cbn. by rewrite app_nil_r.
    + intros [= <-]. exists []. split; [cbn; lia|]. cbn. by rewrite List.filter_app.
  - intros [= <-]. exists []. split; [cbn; lia|]. cbn. by rewrite List.filter_app.
Qed.

(** ** A request on the wire *)

Definition param_names : list string :=
  ["param0"; "param1"; "param2"; "param3"; "param4"; "param5"; "param6"; "param7"; "param8"].
Definition request_json (params : list string) : json := JObj (zip_with (fun k v => (k, JStr v)) param_names params).

(** The request of nine parameters. *)
Definition request_of (params : list string) : option request :=
  match params with
  | [w; a; m; n; t; c; g; p1; p2] => Some (mk_request w a m n (Some t) c g (Some p1) (Some p2))
  | _ => None
  end.

(** [text] is what a client sends for [params]. *)
Definition wire (fmt : bool) (params : list string) (text : string) : Prop :=
  Forall (fun v => nul_free v = true) params /\ print_value (request_json params) 0 fmt = Some text /\
  (String.length text < 512)%nat.

Section Wire.
Context `{Sqlite}.

Lemma read_printed params r : request_of params = Some r -> read_request (request_json params) = Some (Some r).
Proof. destruct params as [|? [|? [|? [|? [|? [|? [|? [|? [|? [|]]]]]]]]]]; try done. by intros [= <-]. Qed.

Lemma request_printable params r : request_of params = Some r -> Forall (fun v => nul_free v = true) params ->
  printable (request_json params) = true.
Proof.
  destruct params as [|? [|? [|? [|? [|? [|? [|? [|? [|? [|]]]]]]]]]]; try done. intros _ HF.
  repeat (apply Forall_cons in HF as [? HF]). cbn. by repeat (rewrite andb_true_r || rewrite andb_true_iff || split).
Qed.

Definition flash (s : dm_state) : dm_state := set_out (out s ++ [EvSystem "led_flash 1 1 3&"]) s.

(** The request arrives as it was sent. *)
Lemma client_thread_wire wr sched fuel net_ok is_uart_ok is_sms_ok now now' tz junk_id junk_name fmt params text r s :
  request_of params = Some r -> wire fmt params text ->
  client_thread wr sched fuel net_ok is_uart_ok is_sms_ok now now' tz junk_id junk_name (Some text) s =
  serve_request wr sched fuel net_ok is_uart_ok is_sms_ok now now' tz junk_id junk_name r (flash s).
Proof.
  intros Hr (Hn & Ht & Hl). unfold client_thread. rewrite (bind_lift _ _ _ text) by by apply fits_ok.
  rewrite (bind_some _ _ _ tt (flash s)) by done.
  rewrite (printed_parses fmt (request_json params) text) by (done || by eapply request_printable).
  by rewrite (bind_lift _ _ _ _ (read_printed _ _ Hr)).
Qed.

(** The broadcast about a device. *)
Definition broadcast (net_ok : bool) (w : string) (act : Z) (name : string) : list event :=
  if net_ok then [EvBroadcast ("[" +:+ (json_object ["who"; "action"; "dev_name"] [w; fmt_d act; name] +:+ "]"))] else [].

Lemma send_broadcast_run net_ok w act name s : (String.length w + String.length name <= 400)%nat -> 0 <= act < 100 ->
  send_broadcast net_ok w act name s = Some (tt, set_out (out s ++ broadcast net_ok w act name) s).
Proof.
  intros Hl Ha. unfold send_broadcast, broadcast. destruct net_ok; [|destruct s; cbn; by rewrite app_nil_r].
  unfold sprintf. rewrite bind_fits; [done|]. unfold json_object, json_field. cbn [zip_with join].
  repeat (rewrite !length_app_s; cbn [String.length]).
  pose proof (fmt_d_short 2 act ltac:(lia) ltac:(change (10 ^ Z.of_nat 2) with 100; lia)). change (String.length dq) with 1%nat. lia.
Qed.
End Wire.

(** ** Registry requests *)

(** The parameters by which the client [w] asks for a command. *)
Definition registry_params (w : string) (c : reg_cmd) : option (list string) :=
  match c with
  | CAdd mac name unicode group num type =>
      Some [w; "0"; mac; name +:+ String ":" unicode; ""; ""; group; fmt_d num; fmt_d type]
  | CRemove mac name => Some [w; "1"; mac; name; ""; ""; ""; ""; ""]
  | CRename mac old new unicode => Some [w; "2"; mac; new +:+ String ":" unicode; ""; ""; ""; old; ""]
  | CRegroup mac name group => Some [w; "16"; mac; name; ""; ""; group; ""; ""]
  | CAddGroup name => Some [w; "14"; ""; ""; ""; ""; name; ""; ""]
  | CAnnounce _ _ => None
  end.

(** Names that survive [strtok]. *)
Definition names_ok (c : reg_cmd) : Prop :=
  match c with
  | CAdd _ name unicode _ _ _ | CRename _ _ name unicode =>
      token_ok ":" name = true /\ token_ok ":" unicode = true /\ (String.length name <= 200)%nat
  | CRemove _ name => (String.length name <= 200)%nat
  | _ => True
  end.

Definition yes_no (x : DEV_ADD_RETURN) : list event :=
  [EvReply (if decide (x = DEV_ADD_OK) then SOCKET_RESPONSE_YES else SOCKET_RESPONSE_NO)].

(** What the client and the others hear of a command with the result [x]. *)
Definition heard (net_ok : bool) (w : string) (c : reg_cmd) (x : DEV_ADD_RETURN) : list event :=
  match c with
  | CAdd _ name _ _ _ _ =>
      match x with
      | DEV_ADD_OK => EvReply SOCKET_RESPONSE_YES :: broadcast net_ok w 0 name
      | DEV_MAC_EXIST => [EvReply SOCKET_RESPONSE_MAC_EXIST]
      | DEV_NAME_EXIST => [EvReply SOCKET_RESPONSE_NAME_EXIST]
      | DEV_ADD_FAIL => []
      end
  | CRemove _ name => (if decide (x = DEV_ADD_OK) then broadcast net_ok w 1 name else []) ++ yes_no x
  | CRename _ _ name _ => (if decide (x = DEV_ADD_OK) then broadcast net_ok w 2 name else []) ++ yes_no x
  | _ => yes_no x
  end.

Lemma split_name_ok name unicode : token_ok ":" name = true -> token_ok ":" unicode = true ->
  split_name (name +:+ String ":" unicode) = (Some name, Some unicode).
Proof. intros Hn Hu. unfold split_name. by rewrite strtok_sep, strtok_last. Qed.

Section RegistryRequests.
Context {S0 : Sqlite} {SL : SqliteLaws S0}.
Context (wr : list Z -> bool) (sched : nat -> queue -> queue) (fuel : nat) (net_ok is_uart_ok is_sms_ok : bool)
  (now now' tz : Z) (junk_id junk_name : string).

Lemma serve_break r s t :
  handle_action wr sched fuel net_ok is_uart_ok is_sms_ok now now' tz junk_id junk_name r s = Some (Break, t) ->
  serve_request wr sched fuel net_ok is_uart_ok is_sms_ok now now' tz junk_id junk_name r s =
    Some (tt, set_out (out t ++ [EvClose]) t).
Proof. intros E. unfold serve_request. by rewrite (bind_some _ _ _ _ _ E). Qed.

(** A command whose answer is its success. *)
Lemma serve_bool (r : request) (m : DM bool) (after : bool -> DM unit) (evs : bool -> list event) b file s :
  m s = Some (b, set_f_dev file s) ->
  (forall s, after b s = Some (tt, set_out (out s ++ evs b) s)) ->
  handle_action wr sched fuel net_ok is_uart_ok is_sms_ok now now' tz junk_id junk_name r s =
    (ret ← m; _ ← after ret; mret (Respond ret)) s ->
  serve_request wr sched fuel net_ok is_uart_ok is_sms_ok now now' tz junk_id junk_name r s =
    Some (tt, set_out (out s ++ evs b ++ [EvReply (if b then SOCKET_RESPONSE_YES else SOCKET_RESPONSE_NO)] ++ [EvClose]) (set_f_dev file s)).
Proof.
  intros Hm Ha Hh. rewrite (bind_some _ _ _ _ _ Hm), (bind_some _ _ _ _ _ (Ha _)) in Hh.
  unfold serve_request. rewrite (bind_some _ _ _ _ _ Hh). unfold write_client, close_client, emit_ev, modify, mbind, M_bind.
  cbn [out set_out set_f_dev]. by rewrite <- !app_assoc.
Qed.

(** A boolean command of the registry, run. *)
Lemma reg_bool_run g rest (m : DM bool) (spec : bool * registry) s :
  dtriple g m (fun b g' => (b, g') = spec) -> ready (f_dev s) -> holds_reg g rest (view (f_dev s)) ->
  exists file, m s = Some (fst spec, set_f_dev file s) /\ ready file /\ holds_reg (snd spec) rest (view file).
Proof.
  intros Ht Hr Hh. destruct (reg_run g rest _ _ s Ht Hr Hh) as (x & file & g' & E & Hf & Hg & <-). by exists file.
Qed.

Lemma if_broadcast (b : bool) w act name s : (String.length w + String.length name <= 400)%nat -> 0 <= act < 100 ->
  (if b then send_broadcast net_ok w act name else mret tt) s =
  Some (tt, set_out (out s ++ (if b then broadcast net_ok w act name else [])) s).
Proof. intros Hl Ha. destruct b; [by apply send_broadcast_run|]. destruct s. cbn. by rewrite app_nil_r. Qed.

Let serve := serve_request wr sched fuel net_ok is_uart_ok is_sms_ok now now' tz junk_id junk_name.

Lemma serve_add g rest s w mac name unicode group num type :
  let c := CAdd mac name unicode group num type in
  ready (f_dev s) -> holds_reg g rest (view (f_dev s)) -> reg_inv g -> cmd_ok c -> grp_seq g < INT_MAX ->
  names_ok c -> (String.length w <= 200)%nat ->
  exists file, serve (mk_request w "0" mac (name +:+ String ":" unicode) (Some "") "" group (Some (fmt_d num)) (Some (fmt_d type))) s =
    Some (tt, set_out (out s ++ heard net_ok w c (fst (reg_spec c g)) ++ [EvClose]) (set_f_dev file s)) /\
    ready file /\ holds_reg (snd (reg_spec c g)) rest (view file).
Proof.
  intros c Hr Hh Hi Hc Hmax (Hn & Hu & Hl) Hw. pose proof Hc as (_ & _ & _ & _ & Hb1 & Hb2). unfold byte_range in *.
  destruct (run_cmd_spec c g Hi Hc Hmax rest _ Hh s Hr eq_refl) as (x & file & E & Hf & g' & Hg' & Hx).
  exists file. rewrite <- Hx. split; [|done].
  assert (forall n, 0 <= n < 256 -> atoi (fmt_d n) = n /\ u8 n = n) as Ha
    by (intros n Hrange; rewrite atoi_fmt_d, u8_small; unfold byte_range, INT_MAX; lia).
  destruct (Ha num Hb1) as [A1 U1], (Ha type Hb2) as [A2 U2].
  set (r := mk_request _ _ _ _ _ _ _ _ _). unfold serve.
  assert (handle_action wr sched fuel net_ok is_uart_ok is_sms_ok now now' tz junk_id junk_name r s =
    Some (Break, set_out (out s ++ heard net_ok w c x) (set_f_dev file s))) as Eh.
  { unfold handle_action, action_dev_add. subst r. cbn [user_action r_name param1 param2 r_mac r_group who].
    change (atoi "0") with 0. cbv zeta. change (0 =? ACTION_DEV_ADD) with true. cbv iota. rewrite split_name_ok by done.
    unfold atoi_ptr. cbn [fmap option_fmap option_map]. rewrite !(bind_lift _ _ _ _ eq_refl), A1, A2, U1, U2.
    rewrite (bind_some _ _ _ _ _ E). destruct x; cbn [heard c]; try done; [|by destruct s; cbn; rewrite app_nil_r].
    rewrite (bind_some _ _ _ tt (set_out (out s ++ [EvReply SOCKET_RESPONSE_YES]) (set_f_dev file s))) by done.
    rewrite (bind_some _ _ _ _ _ (send_broadcast_run net_ok w 0 name _ ltac:(lia) ltac:(lia))).
    cbn [out set_out set_f_dev]. by rewrite <- app_assoc. }
  rewrite (serve_break _ _ _ Eh). cbn [out set_out set_f_dev]. by rewrite <- app_assoc.
Qed.

Lemma serve_registry g rest s w c params r :
  ready (f_dev s) -> holds_reg g rest (view (f_dev s)) -> reg_inv g -> cmd_ok c -> grp_seq g < INT_MAX ->
  names_ok c -> (String.length w <= 200)%nat -> registry_params w c = Some params -> request_of params = Some r ->
  exists file, serve r s =
    Some (tt, set_out (out s ++ heard net_ok w c (fst (reg_spec c g)) ++ [EvClose]) (set_f_dev file s)) /\
    ready file /\ holds_reg (snd (reg_spec c g)) rest (view file).
Proof.
  intros Hr Hh Hi Hc Hmax Hn Hw Hp Hq. destruct c as [mac name unicode group num type|mac name|mac old new unicode|mac name group|name|mac ip];
    cbn [registry_params] in Hp; try done; injection Hp as <-; cbn [request_of] in Hq; injection Hq as <-.
  - by apply serve_add.
  - destruct Hc as [Hm Hc]. cbn [names_ok] in Hn.
    destruct (reg_bool_run g rest _ _ s (RemoveDevFromStaticTable_spec g mac name Hm Hc) Hr Hh) as (file & E & Hf & Hg).
    exists file. split; [|done]. eapply (serve_bool _ _ (fun b => if b then _ else _) (fun b => if b then _ else _)) in E as E'.
    + subst serve. rewrite E'. do 2 f_equal. f_equal. f_equal. cbn [heard reg_spec ret_of_bool fst]. rewrite <- app_assoc. by destruct (fst _).
    + intros t. apply (if_broadcast _ w 1 name t); lia.
    + done.
  - destruct Hc as (Hm & Ho & Hnew & Hu), Hn as (T1 & T2 & Hl).
    destruct (reg_bool_run g rest _ _ s (UpdateDevDisplayName_spec g mac old new unicode Hm Ho Hnew Hu) Hr Hh) as (file & E & Hf & Hg).
    exists file. split; [|done]. eapply (serve_bool _ _ (fun b => if b then _ else _) (fun b => if b then _ else _)) in E as E'.
    + subst serve. rewrite E'. do 2 f_equal. f_equal. f_equal. cbn [heard reg_spec ret_of_bool fst]. rewrite <- app_assoc. by destruct (fst _).
    + intros t. apply (if_broadcast _ w 2 new t); lia.
    + change (handle_action _ _ _ _ _ _ _ _ _ _ _ ?r) with (action_dev_edit net_ok r 2).
      unfold action_dev_edit. cbn [r_name param1 r_mac who]. by rewrite split_name_ok.
  - destruct Hc as (Hm & Hname & Hgrp).
    destruct (reg_bool_run g rest _ _ s (UpdateDevGroupName_spec g mac name group Hi ltac:(lia) Hm Hname Hgrp) Hr Hh) as (file & E & Hf & Hg).
    exists file. split; [|done]. eapply (serve_bool _ _ (fun _ => mret tt) (fun _ => [])) in E as E'.
    + subst serve. rewrite E'. cbn [heard reg_spec ret_of_bool fst yes_no app]. by destruct (fst _).
    + intros t. destruct t. cbn. by rewrite app_nil_r.
    + done.
  - destruct (reg_bool_run g rest _ _ s (AddDevGroupName_spec g name Hc) Hr Hh) as (file & E & Hf & Hg).
    exists file. split; [|done]. eapply (serve_bool _ _ (fun _ => mret tt) (fun _ => [])) in E as E'.
    + subst serve. rewrite E'. cbn [heard reg_spec ret_of_bool fst yes_no app]. by destruct (fst _).
    + intros t. destruct t. cbn. by rewrite app_nil_r.
    + done.
Qed.
End RegistryRequests.

(** C1: A registry command that a client prints as a JSON text, formatted or
    not, is carried out on the registry as its specification says; the client
    gets the specified answer, the others the broadcast of a change, and the
    connection is closed. *)
Theorem registry_request_served {S0 : Sqlite} {SL : SqliteLaws S0} wr sched fuel net_ok is_uart_ok is_sms_ok now now' tz junk_id junk_name
    (g : registry) (rest : sqldb) (s : dm_state) (fmt : bool) (w text : string) (c : reg_cmd) (params : list string) :
  ready (f_dev s) -> holds_reg g rest (view (f_dev s)) -> reg_inv g -> grp_seq g < INT_MAX ->
  cmd_ok c -> names_ok c -> (String.length w <= 200)%nat ->
  registry_params w c = Some params -> wire fmt params text ->
  exists file,
    client_thread wr sched fuel net_ok is_uart_ok is_sms_ok now now' tz junk_id junk_name (Some text) s =
      Some (tt, set_out (out s ++ [EvSystem "led_flash 1 1 3&"] ++ heard net_ok w c (fst (reg_spec c g)) ++ [EvClose]) (set_f_dev file s)) /\
    ready file /\ holds_reg (snd (reg_spec c g)) rest (view file).
Proof.
  intros Hr Hh Hi Hmax Hc Hn Hw Hp Hwire.
  assert (exists r, request_of params = Some r) as [r Hq] by (destruct c; cbn in Hp; simplify_eq; by eexists).
  rewrite (client_thread_wire _ _ _ _ _ _ _ _ _ _ _ _ _ _ _ _ Hq Hwire).
  destruct (serve_registry wr sched fuel net_ok is_uart_ok is_sms_ok now now' tz junk_id junk_name g rest (flash s) w c params r
    Hr Hh Hi Hc Hmax Hn Hw Hp Hq) as (file & E & Hf & Hg).
  exists file. rewrite E. split; [|done]. cbn [out set_out flash]. by rewrite <- app_assoc.
Qed.

Definition sample_text (params : list string) : string :=
  default "" (cJSON_PrintUnformatted (request_json params)).

Lemma registry_request_served_witness :
  exists file,
    client_thread (H := RefSqlite) (fun _ => true) (fun _ q => q) 0 true true true 0 0 0 "" ""
      (Some (sample_text ["phone"; "0"; "0013A200"; "lamp:706F"; ""; ""; "hall"; "1"; "0"])) (sample_dm ∅) =
      Some (tt, set_out ([] ++ [EvSystem "led_flash 1 1 3&"] ++ heard true "phone" sample_add DEV_ADD_OK ++ [EvClose])
        (set_f_dev (H := RefSqlite) file (sample_dm ∅))) /\
    ready (SqliteLaws := RefSqliteLaws) file /\ holds_reg (mk_reg [mk_dev 1 "0013A200" "lamp" "706F" 1 1 0] 1 [] [mk_grp 1 "hall"] 1) ∅ file.
Proof.
  apply (registry_request_served (SL := RefSqliteLaws) (fun _ => true) (fun _ q => q) 0 true true true 0 0 0 "" ""
    empty_registry ∅ (sample_dm ∅) false "phone" _ sample_add ["phone"; "0"; "0013A200"; "lamp:706F"; ""; ""; "hall"; "1"; "0"]).
  - apply map_Forall_empty.
  - apply holds_empty.
  - apply empty_registry_inv.
  - vm_compute. reflexivity.
  - repeat split; vm_compute; try discriminate; try lia; done.
  - split; [reflexivity|]. split; [reflexivity|]. vm_compute. lia.
  - vm_compute. lia.
  - reflexivity.
  - split; [by repeat constructor|]. split; [vm_compute; reflexivity|]. apply Nat.ltb_lt. vm_compute. reflexivity.
Defined.

(** ** Timer requests *)

Definition timer_params (w mac name : string) (per act tip how : Z) (happen : string) : list string :=
  [w; "19"; mac; name; fmt_d per; fmt_d act; fmt_d tip; happen; fmt_d how].

(** The command that ends what [act] begins. *)
Definition opposite (act : Z) : Z := if act =? CMD_SW_OPEN then CMD_SW_CLOSE else CMD_SW_OPEN.

Lemma minute_text_arg n : minute_ok n -> quote_free (fmt_time (minutes_tm n)) = true /\ String.length (fmt_time (minutes_tm n)) = 16%nat.
Proof. intros H. pose proof (minutes_tm_range n) as (?&?&?&?). by apply fmt_time_arg. Qed.

Lemma timers_delete_none id t : Forall (fun x => t_id x <> id) (tasks t) -> timers_delete id t = t.
Proof.
  destruct t as [l k]. unfold timers_delete. cbn. intros HF. f_equal. induction HF as [|x l Hx _ IH]; [done|]. cbn.
  destruct (Z.eqb_spec (t_id x) id); [done|]. cbn. by rewrite IH.
Qed.

Section Timers.
Context {S0 : Sqlite} {SL : SqliteLaws S0}.
Context (wr : list Z -> bool) (sched : nat -> queue -> queue) (fuel : nat) (net_ok is_uart_ok is_sms_ok : bool)
  (now now' tz : Z) (junk_id junk_name : string).

Definition holds_timers (t : timers) (rest db : sqldb) : Prop := db ∪ timer_db no_timers ∅ = timer_db t rest.

Lemma timer_run t rest (m : DM bool) (t' : timers) s :
  dtriple t m (fun b g => g = t' /\ b = true) -> ready (f_dev s) -> holds_timers t rest (view (f_dev s)) ->
  exists file, m s = Some (true, set_f_dev file s) /\ ready file /\ holds_timers t' rest (view file).
Proof.
  intros Ht Hr Hh. destruct (Ht rest _ Hh s Hr eq_refl) as (x & file & E & Hf & g' & Hg' & -> & ->). by exists file.
Qed.

Lemma serve_respond r b s t :
  handle_action wr sched fuel net_ok is_uart_ok is_sms_ok now now' tz junk_id junk_name r s = Some (Respond b, t) ->
  serve_request wr sched fuel net_ok is_uart_ok is_sms_ok now now' tz junk_id junk_name r s =
    Some (tt, set_out (out t ++ [EvReply (if b then SOCKET_RESPONSE_YES else SOCKET_RESPONSE_NO); EvClose]) t).
Proof.
  intros E. unfold serve_request. rewrite (bind_some _ _ _ _ _ E). unfold write_client, close_client, emit_ev, modify, mbind, M_bind.
  cbn [out set_out]. by rewrite <- app_assoc.
Qed.
(** Adding a single task, with the opposite one when there is a duration. *)
Lemma add_timertask_run t rest s w mac name act tip hours minutes n :
  ready (f_dev s) -> holds_timers t rest (view (f_dev s)) ->
  arg_ok mac -> arg_ok name -> (String.length mac < 30)%nat -> (String.length name < 50)%nat ->
  0 <= act < 256 -> 0 <= tip <= INT_MAX -> 0 <= hours <= 1000 -> 0 <= minutes < 60 ->
  -86400 <= tz <= 86400 -> 86400 <= n * 60 -> (n + 60 * hours + minutes) * 60 + 86400 <= INT_MAX ->
  minute_ok now -> minute_ok now' -> minute_ok n -> minute_ok (n + 60 * hours + minutes) ->
  let how := 100 * hours + minutes in
  let first := mk_item 0 mac name 0 (fmt_time (minutes_tm n)) act tip how 0 "" in
  let second := mk_item 0 mac name 0 (fmt_time (minutes_tm (n + 60 * hours + minutes))) (opposite act) tip 0 0 "" in
  exists file,
    action_add_timertask now now' tz (mk_request w "19" mac name (Some (fmt_d 0)) (fmt_d act) (fmt_d tip)
      (Some (fmt_time (minutes_tm n))) (Some (fmt_d how))) s = Some (Respond true, set_f_dev file s) /\
    ready file /\
    holds_timers (if 0 <? how then timers_add now' second (timers_add now first t) else timers_add now first t) rest (view file).
Proof.
  intros Hr Hh Hm Hn Lm Ln Ha Htip Hho Hmi Htz Hn1 Hmax Hnow Hnow' Hn2 Hn3 how first second.
  destruct (minute_text_arg n Hn2) as [Q1 L1]. destruct (minute_text_arg _ Hn3) as [Q2 L2].
  assert (item_ok first /\ item_ok second) as [Ho1 Ho2].
  { unfold item_ok, arg_ok, byte_range, INT_MAX, opposite, CMD_SW_OPEN, CMD_SW_CLOSE in *. cbn [dev_mac dev_name happen_time period action tipinfo howlong first second].
    destruct Hm, Hn. rewrite ?L1, ?L2. repeat split; first [done|lia|case_match; lia]. }
  unfold action_add_timertask, atoi_ptr. cbn [r_mac r_name r_type r_cmd r_group param1 param2 fmap option_fmap option_map mbind option_bind].
  rewrite !(bind_lift _ _ _ _ (fits_ok 30 mac Lm)), !(bind_lift _ _ _ _ (fits_ok 50 name Ln)).
  rewrite (bind_lift (fits 20 (fmt_time (minutes_tm n))) _ _ (fmt_time (minutes_tm n))) by (apply fits_ok; rewrite L1; lia).
  rewrite !(bind_lift _ _ _ _ eq_refl).
  rewrite !atoi_fmt_d by (unfold how, INT_MAX in *; lia).
  rewrite (u8_small 0), (u8_small act), !u32_small by (unfold byte_range, how, INT_MAX in *; lia).
  fold first. cbv zeta.
  destruct (timer_run t rest _ _ s (AddOneTimerTask_spec t now first Ho1 Hnow) Hr Hh) as (f1 & E1 & Hf1 & Hg1).
  rewrite (bind_some _ _ _ _ _ E1). cbn [howlong first andb]. destruct (Z.ltb_spec 0 how) as [Hpos|Hzero]; [|by exists f1].
  assert (how / 100 = hours /\ how mod 100 = minutes) as [-> ->].
  { unfold how. rewrite Z.add_comm, Z.mul_comm, Z.div_add, Z.mod_add, Z.div_small, Z.mod_small by lia. lia. }
  rewrite (bind_lift _ _ _ _ (TimeAdd_minutes tz n hours minutes Htz Hn1 ltac:(lia) ltac:(lia) Hmax Hn2 Hn3)).
  change (if action first =? CMD_SW_OPEN then CMD_SW_CLOSE else CMD_SW_OPEN) with (opposite act). cbn [tipinfo first]. fold second.
  destruct (timer_run (timers_add now first t) rest _ _ (set_f_dev f1 s) (AddOneTimerTask_spec _ now' second Ho2 Hnow') Hf1 Hg1)
    as (f2 & E2 & Hf2 & Hg2).
  rewrite (bind_some _ _ _ _ _ E2). by exists f2.
Qed.
End Timers.

(** C11: A client's timer for a single date and time, with a duration of
    [how] hours and minutes, stores two tasks: the client's own, and one with
    the opposite action that much later; without a duration it stores the
    first only.  The client hears [YES]. *)
Theorem timer_request_stores_both {S0 : Sqlite} {SL : SqliteLaws S0} wr sched fuel net_ok is_uart_ok is_sms_ok now now' tz junk_id junk_name
    (t : timers) (rest : sqldb) (s : dm_state) (fmt : bool) (w text mac name : string) (act tip hours minutes n : Z) :
  ready (f_dev s) -> holds_timers t rest (view (f_dev s)) ->
  arg_ok mac -> arg_ok name -> (String.length mac < 30)%nat -> (String.length name < 50)%nat ->
  byte_range act -> 0 <= tip <= INT_MAX -> 0 <= hours <= 1000 -> 0 <= minutes < 60 ->
  -86400 <= tz <= 86400 -> 86400 <= n * 60 -> (n + 60 * hours + minutes) * 60 + 86400 <= INT_MAX ->
  minute_ok now -> minute_ok now' -> minute_ok n -> minute_ok (n + 60 * hours + minutes) ->
  let how := 100 * hours + minutes in
  wire fmt (timer_params w mac name 0 act tip how (fmt_time (minutes_tm n))) text ->
  let first := mk_item 0 mac name 0 (fmt_time (minutes_tm n)) act tip how 0 "" in
  let second := mk_item 0 mac name 0 (fmt_time (minutes_tm (n + 60 * hours + minutes))) (opposite act) tip 0 0 "" in
  exists file,
    client_thread wr sched fuel net_ok is_uart_ok is_sms_ok now now' tz junk_id junk_name (Some text) s =
      Some (tt, set_out (out s ++ [EvSystem "led_flash 1 1 3&"; EvReply SOCKET_RESPONSE_YES; EvClose]) (set_f_dev file s)) /\
    ready file /\
    holds_timers (if 0 <? how then timers_add now' second (timers_add now first t) else timers_add now first t) rest (view file).
Proof.
  intros Hr Hh Hm Hn Lm Ln Ha Htip Hho Hmi Htz Hn1 Hmax Hnow Hnow' Hn2 Hn3 how Hw first second.
  set (r := mk_request w "19" mac name (Some (fmt_d 0)) (fmt_d act) (fmt_d tip) (Some (fmt_time (minutes_tm n))) (Some (fmt_d how))).
  assert (request_of (timer_params w mac name 0 act tip how (fmt_time (minutes_tm n))) = Some r) as Hq by done.
  rewrite (client_thread_wire _ _ _ _ _ _ _ _ _ _ _ _ _ _ r _ Hq Hw).
  destruct (add_timertask_run now now' tz t rest (flash s) w mac name act tip hours minutes n Hr Hh Hm Hn Lm Ln Ha Htip Hho Hmi Htz Hn1 Hmax
    Hnow Hnow' Hn2 Hn3) as (file & E & Hf & Hg).
  exists file. split; [|done]. rewrite (serve_respond _ _ _ _ _ _ _ _ _ _ _ r true _ _ E). cbn. by rewrite <- app_assoc.
Qed.

Lemma timer_request_stores_both_witness :
  let t := mk_timers [sample_task] 1 in
  let first := mk_item 0 "0013A200" "lamp" 0 (fmt_time (minutes_tm 23667810)) 0 0 45 0 "" in
  let second := mk_item 0 "0013A200" "lamp" 0 (fmt_time (minutes_tm 23667855)) 1 0 0 0 "" in
  exists file,
    client_thread (H := RefSqlite) (fun _ => true) (fun _ q => q) 0 true true true 23667810 23667810 28800 "" ""
      (Some (sample_text (timer_params "phone" "0013A200" "lamp" 0 0 0 45 (fmt_time (minutes_tm 23667810))))) sample_home =
      Some (tt, set_out ([] ++ [EvSystem "led_flash 1 1 3&"; EvReply SOCKET_RESPONSE_YES; EvClose])
        (set_f_dev (H := RefSqlite) file sample_home)) /\
    ready (SqliteLaws := RefSqliteLaws) file /\
    holds_timers (timers_add 23667810 second (timers_add 23667810 first t)) (reg_db sample_reg ∅) file.
Proof.
  intros t first second.
  apply (timer_request_stores_both (SL := RefSqliteLaws) (fun _ => true) (fun _ q => q) 0 true true true 23667810 23667810 28800 "" ""
    t (reg_db sample_reg ∅) sample_home false "phone" _ "0013A200" "lamp" 0 0 0 45 23667810).
  - apply timer_db_wf, reg_db_wf, map_Forall_empty.
  - apply timer_db_full.
  - split; [reflexivity|vm_compute; lia].
  - split; [reflexivity|vm_compute; lia].
  - vm_compute. lia.
  - vm_compute. lia.
  - unfold byte_range. lia.
  - unfold INT_MAX. lia.
  - lia.
  - lia.
  - lia.
  - lia.
  - unfold INT_MAX. lia.
  - vm_compute. split; [discriminate|reflexivity].
  - vm_compute. split; [discriminate|reflexivity].
  - vm_compute. split; [discriminate|reflexivity].
  - vm_compute. split; [discriminate|reflexivity].
  - split; [by repeat constructor|]. split; [vm_compute; reflexivity|]. apply Nat.ltb_lt. vm_compute. reflexivity.
Defined.

(** The request to delete a timer never deletes one: the thread passes
    the identifier 0, which no task has, whatever the client sends, and
    answers [YES]. *)
Theorem delete_timer_request_ignored {S0 : Sqlite} {SL : SqliteLaws S0} wr sched fuel net_ok is_uart_ok is_sms_ok now now' tz junk_id junk_name
    (t : timers) (rest : sqldb) (s : dm_state) (fmt : bool) (text : string) (params : list string) (r : request) :
  ready (f_dev s) -> holds_timers t rest (view (f_dev s)) -> by_id t ->
  request_of params = Some r -> user_action r = "20" -> wire fmt params text ->
  exists file,
    client_thread wr sched fuel net_ok is_uart_ok is_sms_ok now now' tz junk_id junk_name (Some text) s =
      Some (tt, set_out (out s ++ [EvSystem "led_flash 1 1 3&"; EvReply SOCKET_RESPONSE_YES; EvClose]) (set_f_dev file s)) /\
    ready file /\ holds_timers t rest (view file).
Proof.
  intros Hr Hh Hby Hq Ha Hw. rewrite (client_thread_wire _ _ _ _ _ _ _ _ _ _ _ _ _ _ r _ Hq Hw).
  destruct (timer_run t rest _ _ (flash s) (DeleteOneTimerTaskByID_spec t 0 ltac:(unfold INT_MAX; lia)) Hr Hh) as (file & E & Hf & Hg).
  exists file. split; [|split; [done|]].
  - assert (handle_action wr sched fuel net_ok is_uart_ok is_sms_ok now now' tz junk_id junk_name r (flash s) =
      Some (Respond true, set_f_dev file (flash s))) as Eh.
    { unfold handle_action. rewrite Ha. change (atoi "20") with 20. cbv zeta. change (action_delete_timertask (flash s) = Some (Respond true, set_f_dev file (flash s))).
      unfold action_delete_timertask. by rewrite (bind_some _ _ _ _ _ E). }
    rewrite (serve_respond _ _ _ _ _ _ _ _ _ _ _ r true _ _ Eh). cbn. by rewrite <- app_assoc.
  - replace t with (timers_delete 0 t) by (apply timers_delete_none, Forall_forall; intros x Hx;
      destruct Hby as [_ Hb]; rewrite Forall_forall in Hb; specialize (Hb x Hx); lia). done.
Qed.

Lemma delete_timer_request_ignored_witness :
  exists file,
    client_thread (H := RefSqlite) (fun _ => true) (fun _ q => q) 0 true true true 0 0 0 "" ""
      (Some (sample_text ["phone"; "20"; "1"; "1"; "1"; "1"; "1"; "1"; "1"])) sample_home =
      Some (tt, set_out ([] ++ [EvSystem "led_flash 1 1 3&"; EvReply SOCKET_RESPONSE_YES; EvClose])
        (set_f_dev (H := RefSqlite) file sample_home)) /\
    ready (SqliteLaws := RefSqliteLaws) file /\ holds_timers (mk_timers [sample_task] 1) (reg_db sample_reg ∅) file.
Proof.
  apply (delete_timer_request_ignored (SL := RefSqliteLaws) (fun _ => true) (fun _ q => q) 0 true true true 0 0 0 "" ""
    (mk_timers [sample_task] 1) (reg_db sample_reg ∅) sample_home false _ ["phone"; "20"; "1"; "1"; "1"; "1"; "1"; "1"; "1"]
    (mk_request "phone" "20" "1" "1" (Some "1") "1" "1" (Some "1") (Some "1"))).
  - apply timer_db_wf, reg_db_wf, map_Forall_empty.
  - apply timer_db_full.
  - split; cbn; [by repeat constructor|]. apply Forall_singleton. cbn. lia.
  - reflexivity.
  - reflexivity.
  - split; [by repeat constructor|]. split; [vm_compute; reflexivity|]. apply Nat.ltb_lt. vm_compute. reflexivity.
Defined.
