(* ===== verification/Partial.v ===== *)
(** * Rules for what a step of the daemon keeps

    [post P m Q] says of every result that [m] gives, from a state with [P],
    that it and the new state satisfy [Q].  It is a partial triple: where the
    program is undefined it says nothing.  Most functions of the daemon only
    touch buffers, events and the files they ask; they are [quiet]. *)

From stdpp Require Import base list strings gmap.
From Stdlib Require Import ZArith Lia Ascii.
From S2P Require Import Prelude CString Calendar Sql UartQueue DevControl DevState DbTriple DbStore.

Open Scope Z_scope.

Section Post.
Context `{Sqlite}.

Definition post {A} (P : dm_state -> Prop) (m : DM A) (Q : A -> dm_state -> Prop) : Prop :=
  forall s x s', P s -> m s = Some (x, s') -> Q x s'.

(** The step keeps [P]. *)
Definition keeps {A} (P : dm_state -> Prop) (m : DM A) : Prop := post P m (fun _ => P).

Lemma post_weaken {A} (P P' : dm_state -> Prop) (m : DM A) (Q Q' : A -> dm_state -> Prop) :
  post P' m Q' -> (forall s, P s -> P' s) -> (forall x s, Q' x s -> Q x s) -> post P m Q.
Proof. intros Hm HP HQ s x s' Hs E. eapply HQ, Hm; [by apply HP|exact E]. Qed.

Lemma post_ret {A} (P : dm_state -> Prop) (x : A) (Q : A -> dm_state -> Prop) : (forall s, P s -> Q x s) -> post P (mret x) Q.
Proof. intros HQ s y s' Hs [= <- <-]. by apply HQ. Qed.

Lemma post_bind {A B} P (m : DM A) (k : A -> DM B) (R : A -> dm_state -> Prop) (Q : B -> dm_state -> Prop) :
  post P m R -> (forall x, post (R x) (k x) Q) -> post P (m ≫= k) Q.
Proof.
  intros Hm Hk s y s' Hs E. unfold mbind, M_bind in E. destruct (m s) as [[x s1]|] eqn:E1; [|done].
  exact (Hk x s1 y s' (Hm s x s1 Hs E1) E).
Qed.

Lemma post_keeps {A B} P (m : DM A) (k : A -> DM B) (Q : B -> dm_state -> Prop) :
  keeps P m -> (forall x, post P (k x) Q) -> post P (m ≫= k) Q.
Proof. intros Hm Hk. by eapply post_bind. Qed.

Lemma post_lift {A B} P (o : option A) (k : A -> DM B) (Q : B -> dm_state -> Prop) :
  (forall x, o = Some x -> post P (k x) Q) -> post P (lift o ≫= k) Q.
Proof. intros Hk s y s' Hs. unfold mbind, M_bind, lift. destruct o as [x|]; [|done]. by apply Hk. Qed.

Lemma post_sprintf {B} P cap text (k : string -> DM B) (Q : B -> dm_state -> Prop) :
  ((String.length text < cap)%nat -> post P (k text) Q) -> post P (sprintf cap text ≫= k) Q.
Proof.
  intros Hk. apply post_lift. unfold fits. intros x Hx. destruct (Nat.ltb_spec (String.length text) cap); [|done].
  injection Hx as <-. by apply Hk.
Qed.

Lemma post_pre {A} (phi : Prop) P (m : DM A) (Q : A -> dm_state -> Prop) :
  (phi -> post P m Q) -> post (fun s => phi /\ P s) m Q.
Proof. intros Hm s x s' [Hp Hs]. by apply Hm. Qed.

Lemma post_unit {A} P (m : DM A) (Q : dm_state -> Prop) {B} (f : A -> B) :
  post P (x ← m; mret (f x)) (fun _ => Q) <-> post P m (fun _ => Q).
Proof.
  split; intros Hm s x s' Hs E.
  - apply (Hm s (f x) s' Hs). by rewrite (bind_some _ _ _ _ _ E).
  - unfold mbind, M_bind in E. destruct (m s) as [[y s1]|] eqn:E1; [|done]. injection E as <- <-. by apply (Hm s y s1).
Qed.

Lemma keeps_mfor {A} P (l : list A) (body : A -> DM unit) : (forall x, keeps P (body x)) -> keeps P (mfor l body).
Proof.
  intros Hb. induction l as [|x l IH]; [by apply post_ret|]. cbn [mfor]. by apply post_keeps.
Qed.

(** ** Functions that leave the files of devices and users and the serial line alone *)

Definition core (s : dm_state) : conn * conn * uart_state := (f_dev s, f_user s, uart_st s).

Definition quiet {A} (m : DM A) : Prop := forall s x s', m s = Some (x, s') -> core s' = core s.

(** Predicates on those parts. *)
Class OnCore (P : dm_state -> Prop) : Prop := on_core s s' : core s' = core s -> P s -> P s'.

Lemma keeps_quiet {A} P {HP : OnCore P} (m : DM A) : quiet m -> keeps P m.
Proof. intros Hm s x s' Hs E. eapply on_core; [by eapply Hm|done]. Qed.

Lemma quiet_ret {A} (x : A) : quiet (mret x).
Proof. by intros s y s' [= _ <-]. Qed.
Lemma quiet_lift {A} (o : option A) : quiet (lift o).
Proof. intros s y s'. unfold lift. destruct o; [|done]. by intros [= _ <-]. Qed.
Lemma quiet_gets {A} (f : dm_state -> A) : quiet (gets f).
Proof. by intros s y s' [= _ <-]. Qed.
Lemma quiet_bind {A B} (m : DM A) (k : A -> DM B) : quiet m -> (forall x, quiet (k x)) -> quiet (m ≫= k).
Proof.
  intros Hm Hk s y s' E. unfold mbind, M_bind in E. destruct (m s) as [[x s1]|] eqn:E1; [|done].
  rewrite (Hk _ _ _ _ E). by apply (Hm _ _ _ E1).
Qed.
Lemma quiet_mfor {A} (l : list A) (body : A -> DM unit) : (forall x, quiet (body x)) -> quiet (mfor l body).
Proof. intros Hb. induction l as [|x l IH]; [apply quiet_ret|]. cbn [mfor]. by apply quiet_bind. Qed.
Lemma quiet_modify (f : dm_state -> dm_state) : (forall s, core (f s) = core s) -> quiet (modify f).
Proof. intros Hf s y s' [= _ <-]. apply Hf. Qed.
Lemma quiet_emit e : quiet (emit_ev e).
Proof. by apply quiet_modify. Qed.
Lemma quiet_sprintf cap s : quiet (sprintf cap s).
Proof. apply quiet_lift. Qed.
Lemma quiet_az r k : quiet (az r k).
Proof. apply quiet_lift. Qed.

(** The static buffers are outside of the core. *)
Class BufQuiet (b : charbuf) : Prop := buf_core x s : core (b_set b x s) = core s.
#[export] Instance dev_list_quiet : BufQuiet dev_list_buf. Proof. done. Qed.
#[export] Instance unicode_dev_list_quiet : BufQuiet unicode_dev_list_buf. Proof. done. Qed.
#[export] Instance group_name_quiet : BufQuiet group_name_buf. Proof. done. Qed.
#[export] Instance email_list_quiet : BufQuiet email_list_buf. Proof. done. Qed.
#[export] Instance mobile_list_quiet : BufQuiet mobile_list_buf. Proof. done. Qed.
#[export] Instance alarm_alllist_quiet : BufQuiet alarm_alllist_buf. Proof. done. Qed.
#[export] Instance timertask_info_quiet : BufQuiet timertask_info_buf. Proof. done. Qed.

Lemma quiet_buf_copy b {Hb : BufQuiet b} x : quiet (buf_copy b x).
Proof. apply quiet_modify, buf_core. Qed.
Lemma quiet_buf_cat b {Hb : BufQuiet b} x : quiet (buf_cat b x).
Proof. apply quiet_bind; [apply quiet_gets|]. intros g. apply quiet_bind; [apply quiet_lift|]. intros g'. apply quiet_modify, buf_core. Qed.
Lemma quiet_buf_set_last b {Hb : BufQuiet b} c : quiet (buf_set_last b c).
Proof. apply quiet_bind; [apply quiet_gets|]. intros g. apply quiet_bind; [apply quiet_lift|]. intros g'. apply quiet_modify, buf_core. Qed.
Lemma quiet_buf_drop_last b {Hb : BufQuiet b} : quiet (buf_drop_last b).
Proof. apply quiet_bind; [apply quiet_gets|]. intros g. apply quiet_bind; [apply quiet_lift|]. intros g'. apply quiet_modify, buf_core. Qed.
Lemma quiet_cat_row b {Hb : BufQuiet b} cap width row r i : quiet (cat_row b cap width row r i).
Proof.
  apply quiet_bind; [apply quiet_lift|]. intros cells. apply quiet_bind; [apply quiet_sprintf|]. intros x. by apply quiet_buf_cat.
Qed.
End Post.

Create HintDb quiet.
#[export] Hint Resolve quiet_ret quiet_lift quiet_gets quiet_emit quiet_sprintf quiet_az quiet_buf_copy quiet_buf_cat
  quiet_buf_set_last quiet_buf_drop_last quiet_cat_row : quiet.

(** Follows the structure of a function down to its calls. *)
Ltac quiet_step :=
  match goal with
  | |- quiet (mbind _ _) => apply quiet_bind; [|intros ?]
  | |- quiet (mfor _ _) => apply quiet_mfor; intros ?
  | |- quiet (modify _) => apply quiet_modify; intros ?; reflexivity
  | |- quiet (match ?x with _ => _ end) => destruct x
  | |- quiet _ => solve [eauto with quiet typeclass_instances]
  end.
Ltac quiet := repeat quiet_step.

(** The same for what keeps a predicate on the core; the lemmas about the
    files are in the base [keeps]. *)
Create HintDb keeps.
Ltac keeps_step :=
  match goal with
  | |- keeps ?P ?m => change (post P m (fun _ => P))
  | |- post _ (mbind _ _) _ => apply post_keeps; [|intros ?]
  | |- post ?P (match ?x with _ => _ end) (fun _ => ?P) => destruct x
  | |- post ?P (mret _) (fun _ => ?P) => apply post_ret; intros ? ?; assumption
  | |- post ?P ?m (fun _ => ?P) => change (keeps P m); solve [eauto with keeps | apply keeps_quiet; [exact _|solve [quiet]]]
  end.
Ltac keeps := repeat keeps_step.
