(* ===== verification/Home.v ===== *)
(** * The state of the daemon that must stay consistent

    [home n] is the invariant of the running daemon: the registry and the
    timer tasks in dev.db, the alarm receivers in user.db, and the frames
    written to the serial line.  The rules here say which functions of the
    modules keep it; [n] bounds the identifiers given so far. *)

From stdpp Require Import base list strings gmap sets.
From Stdlib Require Import ZArith Lia Ascii.
From S2P Require Import Prelude CString Calendar Sql UartQueue DevControl DevState DbTriple DbStore DevDb DevReg DevRegProps Alarm Timer CityId Sms Notify UartCommon SmsControl Partial.

Open Scope Z_scope.

(** The tables of [db], missing ones counted as empty, hold [g]. *)
Definition stored {S : Sqlite} {SL : SqliteLaws S} {R} {ST : Store R} (g : R) (db : sqldb) : Prop :=
  exists rest, holds_st g rest db.

(** Consistent, with identifiers up to [n], and with texts that can be put
    into a statement again. *)
Definition reg_ok (n : Z) (g : registry) : Prop :=
  reg_inv g /\ seq_bound n g /\ Forall (fun r => arg_ok (d_mac r)) (devs g) /\ Forall (fun y => arg_ok (y_mac y)) (dyns g).

Definition timers_ok (t : timers) : Prop :=
  by_id t /\ 0 <= task_seq t /\ Forall (fun x => arg_ok (t_mac x) /\ arg_ok (t_name x)) (tasks t).

(** A frame of some type of device. *)
Definition frame_ok (f : list Z) : Prop := exists c ip, frame_for c ip f.

Record home {S : Sqlite} {SL : SqliteLaws S} (n : Z) (s : dm_state) : Prop := mk_home {
  home_dev : ready (f_dev s);
  home_user : ready (f_user s);
  home_registry : exists g : registry, stored g (view (f_dev s)) /\ reg_ok n g;
  home_timers : exists t : timers, stored t (view (f_dev s)) /\ timers_ok t;
  home_receivers : exists l : receivers, stored l (view (f_user s)) /\ NoDup (al_key <$> l);
  home_frames : Forall frame_ok (sent (uart_st s))
}.

(** ** Two stores in one file *)

Lemma stored_timers {S : Sqlite} {SL : SqliteLaws S} (t : timers) db : stored t db <->
  (db ∪ timer_db no_timers ∅) !! "timertasktable" = Some (mk_table timer_cols (task_seq t) (enc_task <$> tasks t)).
Proof.
  split.
  - intros [rest Hr]. unfold holds_st in Hr. cbn in Hr. rewrite Hr. apply timer_db_table.
  - intros Ht. exists db. unfold holds_st. cbn. apply map_eq. intros i. destruct (decide (i = "timertasktable")) as [->|Hi].
    + by rewrite Ht, timer_db_table.
    + unfold timer_db. rewrite lookup_union_l by (by rewrite lookup_insert_ne). by rewrite lookup_insert_ne.
Qed.

Lemma stored_registry {S : Sqlite} {SL : SqliteLaws S} (g : registry) db : stored g db <->
  (db ∪ dev_empties) !! "statictable" = Some (mk_table static_cols (dev_seq g) (enc_dev <$> devs g)) /\
  (db ∪ dev_empties) !! "dynamictable" = Some (mk_table dynamic_cols 0 (enc_dyn <$> dyns g)) /\
  (db ∪ dev_empties) !! "grouptable" = Some (mk_table group_cols (grp_seq g) (enc_grp <$> grps g)).
Proof.
  split.
  - intros [rest Hr]. unfold holds_st in Hr. cbn in Hr. rewrite Hr. auto using reg_db_static, reg_db_dynamic, reg_db_group.
  - intros (H1 & H2 & H3). exists db. unfold holds_st. cbn. apply map_eq. intros i.
    destruct (decide (i = "statictable")) as [->|N1]; [by rewrite H1, reg_db_static|].
    destruct (decide (i = "dynamictable")) as [->|N2]; [by rewrite H2, reg_db_dynamic|].
    destruct (decide (i = "grouptable")) as [->|N3]; [by rewrite H3, reg_db_group|].
    unfold dev_empties, reg_db. rewrite lookup_union_l by (by rewrite !lookup_insert_ne). by rewrite !lookup_insert_ne.
Qed.

(** A change of one store leaves the tables of the other one. *)
Lemma timers_beside {S : Sqlite} {SL : SqliteLaws S} (t : timers) (g g' : registry) rest db db' :
  holds_reg g rest db -> holds_reg g' rest db' -> stored t db -> stored t db'.
Proof.
  unfold holds_reg. rewrite !stored_timers. intros H H' Ht. rewrite <- Ht, !lookup_union. f_equal.
  assert (forall d k, d ∪ dev_empties = reg_db k rest -> d !! "timertasktable" = rest !! "timertasktable") as Hl.
  { intros d k Hd. apply (f_equal (lookup "timertasktable")) in Hd. unfold dev_empties, reg_db in Hd.
    rewrite lookup_union_l in Hd by (by rewrite !lookup_insert_ne). by rewrite !lookup_insert_ne in Hd. }
  by rewrite (Hl _ _ H), (Hl _ _ H').
Qed.

Lemma registry_beside {S : Sqlite} {SL : SqliteLaws S} (g : registry) (t t' : timers) rest db db' :
  holds_st t rest db -> holds_st t' rest db' -> stored g db -> stored g db'.
Proof.
  unfold holds_st. cbn. rewrite !stored_registry. intros H H' Hg.
  assert (forall d k i, i <> "timertasktable" -> d ∪ timer_db no_timers ∅ = timer_db k rest -> d !! i = rest !! i) as Hl.
  { intros d k i Hi Hd. apply (f_equal (lookup i)) in Hd. unfold timer_db in Hd.
    rewrite lookup_union_l in Hd by (by rewrite lookup_insert_ne). by rewrite !lookup_insert_ne in Hd. }
  assert (forall i, i <> "timertasktable" -> (db' ∪ dev_empties) !! i = (db ∪ dev_empties) !! i) as He
    by (intros i Hi; by rewrite !lookup_union, (Hl _ _ i Hi H), (Hl _ _ i Hi H')).
  by rewrite !He.
Qed.

Section Home.
Context {S0 : Sqlite} {SL : SqliteLaws S0}.

#[export] Instance home_on_core n : OnCore (home n).
Proof.
  intros s s' [= E1 E2 E3] []. by split; rewrite ?E1, ?E2, ?E3.
Qed.

Lemma home_le n n' s : n <= n' -> home n s -> home n' s.
Proof.
  intros Hn [H1 H2 (g & Hg & Hi & [Hb1 Hb2] & Hm) H4 H5 H6]. split; [done|done| |done|done|done].
  exists g. split; [done|]. split; [done|]. split; [|done]. unfold seq_bound. lia.
Qed.

(** ** Triples of the three stores *)

Lemma reg_post {A} n n' (m : DM A) (Q : A -> Prop) : n <= n' ->
  (forall g, reg_ok n g -> dtriple g m (fun x g' => reg_ok n' g' /\ Q x)) ->
  post (home n) m (fun x s => Q x /\ home n' s).
Proof.
  intros Hn Hm s x s' Hs E. pose proof (home_le n n' s Hn Hs) as [_ Hu _ (t & Ht & Hto) Hl Hf].
  destruct Hs as [Hr _ (g & [rest Hg] & Hgo) _ _ _].
  destruct (Hm g Hgo rest _ Hg s Hr eq_refl) as (y & file & E' & Hr' & g' & Hg' & Hgo' & HQ). cbn in E'.
  rewrite E' in E. injection E as <- <-. split; [done|]. split; [done|done|exists g'; split; [by exists rest|done]| |done|done].
  exists t. split; [|done]. exact (timers_beside t g g' rest _ _ Hg Hg' Ht).
Qed.

Lemma timers_post {A} n (m : DM A) (Q : A -> Prop) :
  (forall t : timers, timers_ok t -> dtriple t m (fun x t' => timers_ok t' /\ Q x)) ->
  post (home n) m (fun x s => Q x /\ home n s).
Proof.
  intros Hm s x s' [Hr Hu (g & Hg & Hgo) (t & [rest Ht] & Hto) Hl Hf] E.
  destruct (Hm t Hto rest _ Ht s Hr eq_refl) as (y & file & E' & Hr' & t' & Ht' & Hto' & HQ). cbn in E'.
  rewrite E' in E. injection E as <- <-. split; [done|]. split; [done|done| |exists t'; split; [by exists rest|done]|done|done].
  exists g. split; [|done]. exact (registry_beside g t t' rest _ _ Ht Ht' Hg).
Qed.

Lemma receivers_post {A} n (m : DM A) (Q : A -> Prop) :
  (forall l : receivers, NoDup (al_key <$> l) -> dtriple l m (fun x l' => NoDup (al_key <$> l') /\ Q x)) ->
  post (home n) m (fun x s => Q x /\ home n s).
Proof.
  intros Hm s x s' [Hr Hu Hg Ht (l & [rest Hl] & Hnd) Hf] E.
  destruct (Hm l Hnd rest _ Hl s Hu eq_refl) as (y & file & E' & Hr' & l' & Hl' & Hnd' & HQ). cbn in E'.
  rewrite E' in E. injection E as <- <-. split; [done|]. split; [done|done|done|done|exists l'; split; [by exists rest|done]|done].
Qed.

(** ** Queries

    [sees f db P]: the file [f] has exactly the tables [db]. *)
Definition sees (f : dbfile) (db : sqldb) (P : dm_state -> Prop) (s : dm_state) : Prop := view (sel f s) = db /\ P s.

#[export] Instance sees_dev_on_core db P `{!OnCore P} : OnCore (sees dev_file db P).
Proof. intros s s' E [Hv HP]. split; [|by eapply on_core]. injection E as E _ _. cbn. by rewrite E. Qed.
#[export] Instance sees_user_on_core db P `{!OnCore P} : OnCore (sees user_file db P).
Proof. intros s s' E [Hv HP]. split; [|by eapply on_core]. injection E as _ E _. cbn. by rewrite E. Qed.

Lemma reg_opening {A} n d (k : DM A) (Q : A -> dm_state -> Prop) :
  (forall (g : registry) rest, reg_ok n g -> post (sees dev_file (reg_db g rest) (home n)) k Q) ->
  post (home n) (opening database_open d k) Q.
Proof.
  intros Hk s x s' Hs E. destruct Hs as [Hr Hu (g & [rest Hg] & Hgo) (t & Ht & Hto) Hl Hf].
  destruct (opening_run (ST := reg_store) g rest s Hr Hg) as (file & Hr' & Hv' & E').
  rewrite (E' _ d k : opening database_open d k s = _) in E. refine (Hk g rest Hgo _ _ _ _ E). split; [done|].
  pose proof (holds_reg_db g rest) as Hg'. split; [done|done| | |done|done]; cbn; rewrite Hv'.
  - exists g. split; [by exists rest|done].
  - exists t. split; [|done]. exact (timers_beside t g g rest _ _ Hg Hg' Ht).
Qed.

Lemma timers_opening {A} n d (k : DM A) (Q : A -> dm_state -> Prop) :
  (forall (t : timers) rest, timers_ok t -> post (sees dev_file (timer_db t rest) (home n)) k Q) ->
  post (home n) (opening timer_open d k) Q.
Proof.
  intros Hk s x s' Hs E. destruct Hs as [Hr Hu (g & Hg & Hgo) (t & [rest Ht] & Hto) Hl Hf].
  destruct (opening_run (ST := timer_store) t rest s Hr Ht) as (file & Hr' & Hv' & E').
  rewrite (E' _ d k : opening timer_open d k s = _) in E. refine (Hk t rest Hto _ _ _ _ E). split; [done|].
  pose proof (timer_db_full t rest) as Ht'. split; [done|done| | |done|done]; cbn; rewrite Hv'.
  - exists g. split; [|done]. exact (registry_beside g t t rest _ _ Ht Ht' Hg).
  - exists t. split; [by exists rest|done].
Qed.

Lemma receivers_opening {A} n d (k : DM A) (Q : A -> dm_state -> Prop) :
  (forall (l : receivers) rest, post (sees user_file (alarm_db l rest) (home n)) k Q) ->
  post (home n) (opening alarm_open d k) Q.
Proof.
  intros Hk s x s' Hs E. destruct Hs as [Hr Hu Hg Ht (l & [rest Hl] & Hnd) Hf].
  destruct (opening_run (ST := alarm_store) l rest s Hu Hl) as (file & Hr' & Hv' & E').
  rewrite (E' _ d k : opening alarm_open d k s = _) in E. refine (Hk l rest _ _ _ _ E). split; [done|].
  split; [done|done|done|done| |done]. cbn. rewrite Hv'. exists l. split; [|done]. exists rest. apply alarm_db_full.
Qed.

(** A query that the laws cover leaves the file as it is and gives its rows. *)
Lemma dev_query_post n db text o rows : query_sql text db = Some (o, rows) ->
  post (sees dev_file db (home n)) (db_get_table dev_file text)
    (fun r s => (exists rows', rows' ≡ₚ rows /\ result_for rows' r) /\ sees dev_file db (home n) s).
Proof.
  intros Hq s r s' [Hv [Hr Hu Hg Ht Hl Hf]] E.
  destruct (triple_get_table dev_file db text o rows (fun r db' => db' = db /\ exists rows', rows' ≡ₚ rows /\ result_for rows' r) Hq)
    with (s := s) as (y & file & E' & Hr' & Hv' & Hrows); [by eauto|done|done|].
  rewrite E' in E. injection E as <- <-. split; [done|]. split; [done|]. cbn in Hv. split; [done|done| | |done|done]; cbn; by rewrite Hv', <- Hv.
Qed.

Lemma user_query_post n db text o rows : query_sql text db = Some (o, rows) ->
  post (sees user_file db (home n)) (db_get_table user_file text) (fun r s => sees user_file db (home n) s).
Proof.
  intros Hq s r s' [Hv [Hr Hu Hg Ht Hl Hf]] E.
  destruct (triple_get_table user_file db text o rows (fun r db' => db' = db) Hq)
    with (s := s) as (y & file & E' & Hr' & Hv'); [by eauto|done|done|].
  rewrite E' in E. injection E as <- <-. split; [done|]. cbn in Hv. split; [done|done|done|done| |done]. cbn. by rewrite Hv', <- Hv.
Qed.

Lemma dev_query_keeps n db text o rows : query_sql text db = Some (o, rows) ->
  keeps (sees dev_file db (home n)) (db_get_table dev_file text).
Proof. intros Hq. eapply post_weaken; [by apply (dev_query_post n db text o rows)|done|]. by intros r s []. Qed.
End Home.
