(* ===== verification/HomeOps.v ===== *)
(** * The functions that keep the daemon's state consistent

    One lemma for each function of the database modules and of the serial
    line, from the rules of Home.v; they form the base [keeps]. *)

From stdpp Require Import base list strings gmap sets.
From Stdlib Require Import ZArith Lia Ascii.
From S2P Require Import Prelude CString Calendar Sql UartQueue DevControl DevState DbTriple DbStore DevDb DevReg DevRegProps Alarm Timer CityId Sms Notify UartCommon SmsControl Partial Home.

Open Scope Z_scope.

Section Ops.
Context {S0 : Sqlite} {SL : SqliteLaws S0}.

(** ** Changes *)

Lemma reg_spec_ok n c g : reg_ok n g -> cmd_ok c -> reg_ok (n + 1) (snd (reg_spec c g)).
Proof.
  intros (Hi & Hb & Hd & Hy) Hc. split; [by apply reg_spec_inv|]. split; [by apply reg_spec_bound|].
  destruct c; cbn [reg_spec ret_of_bool snd cmd_ok] in *.
  - unfold reg_add, reg_add_group. destruct Hc as (Hm & _). repeat (case_match; cbn [snd devs dyns]; try done);
      (split; [|done]); apply Forall_app; (split; [done|]); by apply Forall_singleton.
  - unfold reg_remove. case_match; [|done]. split; [|done]. cbn. apply Forall_self. intros x Hx%elem_of_filter_sub.
    rewrite Forall_forall in Hd. auto.
  - unfold reg_rename. case_match; [|done]. split; [|done]. cbn. unfold map_if. apply Forall_fmap.
    eapply Forall_impl; [exact Hd|]. intros x Hx. cbn. by case_match.
  - unfold reg_regroup. repeat (case_match; try done). split; [|done]. cbn. unfold map_if. apply Forall_fmap.
    eapply Forall_impl; [exact Hd|]. intros x Hx. cbn. by case_match.
  - unfold reg_add_group. by case_match.
  - unfold reg_announce. destruct Hc as [Hm _]. case_match; (split; [done|]); cbn.
    + unfold map_if. apply Forall_fmap. eapply Forall_impl; [exact Hy|]. intros x Hx. cbn. by case_match.
    + apply Forall_app. split; [done|]. by apply Forall_singleton.
Qed.

(** A command of the registry may use up an identifier. *)
Lemma run_cmd_post n c : cmd_ok c -> n < INT_MAX -> post (home n) (run_cmd c) (fun _ => home (n + 1)).
Proof.
  intros Hc Hn. eapply post_weaken; [apply (reg_post n (n + 1) (run_cmd c) (fun _ => True)); [lia|]|done|by intros x s []].
  intros g Hg. pose proof Hg as (Hi & [_ Hb] & _). eapply dtriple_mono; [apply run_cmd_spec; [done|done|lia]|].
  intros x g' Hx. split; [|done]. rewrite (eq_refl : g' = snd (x, g')), Hx. by apply reg_spec_ok.
Qed.

Lemma reg_bool_post n c (m : DM bool) : run_cmd c = of_ok m -> cmd_ok c -> n < INT_MAX ->
  post (home n) m (fun _ => home (n + 1)).
Proof.
  intros E Hc Hn. apply (proj1 (post_unit _ m (home (n + 1)) (fun ok : bool => if ok then DEV_ADD_OK else DEV_ADD_FAIL))).
  change (post (home n) (of_ok m) (fun _ => home (n + 1))). rewrite <- E. by apply run_cmd_post.
Qed.

Lemma AddOneTimerTask_keeps n now item : item_ok item -> minute_ok now -> keeps (home n) (AddOneTimerTask now item).
Proof.
  intros Hit Hnow. eapply post_weaken; [apply (timers_post n _ (fun _ => True))|done|by intros x s []].
  intros t (Hid & H0 & Ht). eapply dtriple_mono; [by apply AddOneTimerTask_spec|].
  intros x t' [-> _]. destruct (by_id_add now item t Hid H0) as [Hid' H0']. split; [|done]. split; [done|]. split; [done|].
  cbn. apply Forall_app. split; [done|]. apply Forall_singleton. by destruct Hit as (? & ? & _).
Qed.

Lemma DeleteOneTimerTaskByID_keeps n id : 0 <= id <= INT_MAX -> keeps (home n) (DeleteOneTimerTaskByID id).
Proof.
  intros Hr. eapply post_weaken; [apply (timers_post n _ (fun _ => True))|done|by intros x s []].
  intros t (Hid & H0 & Ht). eapply dtriple_mono; [by apply DeleteOneTimerTaskByID_spec|].
  intros x t' [-> _]. split; [|done]. split; [by apply by_id_delete|]. split; [done|].
  cbn. apply Forall_self. intros y Hy%elem_of_filter_sub. rewrite Forall_forall in Ht. auto.
Qed.

Lemma al_run_keeps n c : arg_ok (al_arg c) -> way (al_type c) <> None -> keeps (home n) (al_run c).
Proof.
  intros Ha Hw. eapply post_weaken; [apply (receivers_post n _ (fun _ => True))|done|by intros x s []].
  intros l Hl. eapply dtriple_mono; [by apply al_run_spec|]. intros x l' Hx. split; [|done].
  rewrite (eq_refl : l' = snd (x, l')), Hx. by apply al_spec_unique.
Qed.

(** ** Frames *)

Lemma on_uart_keeps {A} n (f : uart_state -> option (A * uart_state)) :
  (forall u x u', f u = Some (x, u') -> Forall frame_ok (sent u) -> Forall frame_ok (sent u')) -> keeps (home n) (on_uart f).
Proof.
  intros Hf s x s' [] E. unfold on_uart in E. destruct (f (uart_st s)) as [[y u]|] eqn:Ef; [|done]. injection E as <- <-.
  split; try done. cbn. by eapply Hf.
Qed.

Lemma curtain_frame_for ip cmd : frame_for cmd_CL ip (chuanglian_frame ip cmd).
Proof. unfold frame_for, chuanglian_frame. frame_tac ip. Qed.
Lemma door_frame_for ip cmd : frame_for cmd_DOOR ip (take (len cmd_DOOR) (door_frame ip cmd)).
Proof. unfold frame_for, door_frame. frame_tac ip. Qed.
Lemma aircon_frame_for ip cmd n : byte_range n -> frame_for cmd_KONGTIAO ip (kongtiao_frame ip cmd n).
Proof. intros Hn. unfold frame_for, kongtiao_frame. frame_tac ip. Qed.
Lemma television_frame_for ip cmd n : byte_range n -> frame_for cmd_TV ip (tv_frame ip cmd n).
Proof. intros Hn. unfold frame_for, tv_frame. frame_tac ip. Qed.

Lemma device_frame_ok ip type cmd n f : byte_range n -> device_frame ip type cmd n = Some f -> frame_ok f.
Proof.
  intros Hn. unfold device_frame.
  destruct (type =? TYPE_SW_DEV); [|destruct (type =? TYPE_CL_DEV); [|destruct (type =? TYPE_DOOR_DEV);
    [|destruct (type =? TYPE_KONGTIAO_DEV); [|destruct (type =? TYPE_TV_DEV); [|done]]]]]; intros Hf;
    (apply (inj Some) in Hf; subst f).
  - exists cmd_SW, (Some ip). by apply switch_frame_for.
  - exists cmd_CL, (Some ip). apply curtain_frame_for.
  - exists cmd_DOOR, (Some ip). apply (door_frame_for (Some ip) cmd).
  - exists cmd_KONGTIAO, (Some ip). by apply aircon_frame_for.
  - exists cmd_TV, (Some ip). by apply television_frame_for.
Qed.

Lemma control_device_keeps n wr sched fuel ip type cmd number : byte_range number ->
  keeps (home n) (control_device wr sched fuel ip type cmd number).
Proof.
  intros Hn s x s' [] E. destruct (control_device_sends _ _ _ _ _ _ _ _ _ _ E) as (Es & Hs & _).
  rewrite Es. split; try done. cbn [uart_st set_uart]. rewrite Hs. apply Forall_app. split; [done|]. destruct (device_frame ip type cmd number) as [f|] eqn:Ef; cbn; [|constructor].
  apply Forall_singleton. by eapply device_frame_ok.
Qed.

Lemma switch_control_keeps n wr sched fuel ip cmd number : byte_range number ->
  keeps (home n) (on_uart (switch_dev_control_func wr sched fuel (Some ip) cmd number)).
Proof. intros Hn. exact (control_device_keeps n wr sched fuel ip TYPE_SW_DEV cmd number Hn). Qed.

Lemma switch_state_keeps n wr sched fuel ip number : byte_range number ->
  keeps (home n) (on_uart (switch_dev_get_state wr sched fuel (Some ip) number)).
Proof.
  intros Hn. apply on_uart_keeps. intros u x u' E Hu.
  enough (sent u' = sent u ++ [get_state_frame (Some ip) number]) as ->.
  { apply Forall_app. split; [done|]. apply Forall_singleton. exists cmd_SW, (Some ip). by apply get_state_frame_for. }
  revert E. unfold switch_dev_get_state, state_wait, WriteToUart. pose proof (get_state_frame_for (Some ip) number Hn) as Hf.
  rewrite take_ge by (by rewrite (proj1 Hf)). cbn [fst snd sent table]. destruct (wr _); cbn [negb]; [|by intros [= _ <-]].
  destruct (uart_check_from_queue _ _ _ _ _ _) as [[[[] [st|]] q]|]; try done; by intros [= _ <-].
Qed.

Lemma queue_answer_keeps n ip rest p1 p2 p3 : keeps (home n) (queue_answer ip rest p1 p2 p3).
Proof.
  unfold queue_answer. destruct (get_ip_byte _) as [lo hi]. apply on_uart_keeps. intros u x u' E Hu.
  destruct (uart_data_queuing _ _ _); [|done]. by injection E as _ <-.
Qed.
End Ops.
