(* ===== verification/HomeQueries.v ===== *)
(** * The functions that ask the databases keep the state consistent

    A query leaves the tables as they are when the laws of SQLite cover it:
    its text must parse, its tables must be there, and the texts in it must
    not hold a quote.  Where the text comes from the file itself, that is part
    of the invariant. *)

From stdpp Require Import base list strings gmap sets.
From Stdlib Require Import ZArith Lia Ascii.
From S2P Require Import Prelude CString Calendar Sql UartQueue DevControl DevState DbTriple DbStore DevDb DevReg DevRegProps Alarm Timer CityId Sms Notify UartCommon SmsControl Partial Home HomeOps.

Open Scope Z_scope.

Section Queries.
Context {S0 : Sqlite} {SL : SqliteLaws S0}.

Lemma sees_out {A} f db P (m : DM A) : keeps (sees f db P) m -> post (sees f db P) m (fun _ => P).
Proof. intros Hm. eapply post_weaken; [exact Hm|done|]. by intros x s []. Qed.

Lemma reg_look {A} n (m : DM A) :
  (forall g, reg_ok n g -> exists Q, dtriple (ST := reg_store) g m (fun x g' => g' = g /\ Q x)) -> keeps (home n) m.
Proof.
  intros Hm. eapply post_weaken; [apply (reg_post n n m (fun _ => True)); [lia|]|done|by intros x s []].
  intros g Hg. destruct (Hm g Hg) as [Q HQ]. eapply dtriple_mono; [exact HQ|]. by intros x g' [-> _].
Qed.

(** A [select] with a condition on a table of encoded records. *)
Lemma query_filter {A} sql db t cols seq (enc : A -> list value) l (p : A -> bool) cs w (pr : A -> list value) :
  parse_sql sql = Some [SSelect cs t (Some w) None] -> db !! t = Some (mk_table cols seq (enc <$> l)) ->
  (forall x, holds cols w (enc x) = Some (p x)) ->
  (forall x, match cs with None => Some (enc x) | Some cs => project cols cs (enc x) end = Some (pr x)) ->
  query_sql sql db = Some (false, pr <$> List.filter p l).
Proof.
  intros Hp Ht Hw Hpr. eapply query_select; [exact Hp|exact Ht|by apply filter_opt_fmap|].
  destruct cs as [cs|]; [by apply map_opt_fmap|]. f_equal. apply list_fmap_ext. intros _ x _. specialize (Hpr x). congruence.
Qed.

Lemma query_listed {A} sql db t cols seq (enc : A -> list value) l cs (pr : A -> list value) :
  parse_sql sql = Some [SSelect cs t None None] -> db !! t = Some (mk_table cols seq (enc <$> l)) ->
  (forall x, match cs with None => Some (enc x) | Some cs => project cols cs (enc x) end = Some (pr x)) ->
  query_sql sql db = Some (false, pr <$> l).
Proof.
  intros Hp Ht Hpr. eapply query_all; [exact Hp|exact Ht|].
  destruct cs as [cs|]; [by apply map_opt_fmap|]. f_equal. apply list_fmap_ext. intros _ x _. specialize (Hpr x). cbn in *. congruence.
Qed.

(** The first cell of a row of the answer belongs to one of the records. *)
Lemma row_cell {A} (pr : A -> list value) (l : list A) rows r i j x s :
  rows ≡ₚ pr <$> l -> result_for rows r -> (i < row_num r)%nat ->
  (forall y, exists v, pr y !! j = Some v /\ cell v = Some (x y)) ->
  mjoin (azResult r !! (S i * column_num r + j)%nat) = Some s -> exists y, y ∈ l /\ s = x y.
Proof.
  intros Hp Hr Hi Hj Hs. rewrite (result_rows _ _ Hr) in Hi. destruct (lookup_lt_is_Some_2 _ _ Hi) as [row Hrow].
  assert (row ∈ pr <$> l) as Hin by (rewrite <- Hp; by eapply list_elem_of_lookup_2).
  apply list_elem_of_fmap in Hin as (y & -> & Hy). destruct (Hj y) as (v & Hv & Hc).
  rewrite (az_cell _ _ _ _ _ _ Hr Hrow Hv) in Hs. cbn in Hs. rewrite Hc in Hs. injection Hs as <-. by exists y.
Qed.

Lemma post_az {B} P r k (kk : string -> DM B) (Q : B -> dm_state -> Prop) :
  (forall s, mjoin (azResult r !! k) = Some s -> post P (kk s) Q) -> post P (az r k ≫= kk) Q.
Proof. apply post_lift. Qed.

(** ** dev_db.c *)

Lemma isMacAndNameMatch_keeps n mac name : arg_ok mac -> arg_ok name -> keeps (home n) (isMacAndNameMatch mac name).
Proof.
  intros Hm Hn. apply reg_look. intros g _. eexists. by apply isMacAndNameMatch_spec.
Qed.

Lemma GetDevIPByMac_keeps n cap mac : arg_ok mac -> keeps (home n) (GetDevIPByMac cap mac).
Proof.
  intros [Hq Hl]. apply reg_opening. intros g rest Hg. apply sees_out, post_sprintf. intros _.
  apply post_keeps; [|intros r; keeps].
  eapply dev_query_keeps, (query_filter _ _ _ _ _ _ _ (is_mac mac)); [parse_text|apply reg_db_dynamic|
    intros x; unfold is_mac; cbn; by destruct (String.eqb _ _)|reflexivity].
Qed.

Lemma GetDevNumberByMacAndName_keeps n mac name : arg_ok mac -> arg_ok name ->
  keeps (home n) (GetDevNumberByMacAndName mac name).
Proof.
  intros [Hq Hl] [Hq' Hl']. apply reg_opening. intros g rest Hg. apply sees_out, post_sprintf. intros _.
  apply post_keeps; [|intros r; keeps].
  eapply dev_query_keeps, (query_filter _ _ _ _ _ _ _ (is_dev mac name)); [parse_text|apply reg_db_static|
    intros x; unfold is_dev; cbn; by destruct (String.eqb _ _), (String.eqb _ _)|reflexivity].
Qed.

(** The module's identification comes from the registry. *)
Lemma GetMacAndDevNumberByID_post n cap id : 0 <= atoi id ->
  post (home n) (GetMacAndDevNumberByID cap id) (fun o s => (forall m k, o = Some (m, k) -> arg_ok m /\ byte_range k) /\ home n s).
Proof.
  intros Hid. pose proof (atoi_range id) as Hr. unfold INT_MIN, INT_MAX in Hr. unfold GetMacAndDevNumberByID.
  generalize dependent (atoi id). clear id. intros id Hid Hr. apply reg_opening. intros g rest (_ & _ & Hd & _).
  apply post_sprintf. intros _. eapply post_bind.
  { eapply (dev_query_post n _ _ false), (query_filter _ _ _ _ _ _ _ (fun x => d_id x =? id) _ _ (fun x => [VText (d_mac x); VInt (d_num x)]));
      [parse_text|apply reg_db_static| |reflexivity].
    intros x. cbn -[to_num]. rewrite to_num_fmt_d by lia. cbn. by destruct (d_id x =? id). }
  intros r. apply post_pre. intros (rows & Hp & Hres). destruct (Nat.leb_spec 1 (row_num r)); [|apply post_ret; by intros s []].
  apply post_az. intros m Hm. replace (column_num r) with (1 * column_num r + 0)%nat in Hm by lia.
  destruct (row_cell _ _ _ _ 0 0 d_mac m Hp Hres ltac:(lia) ltac:(by eauto) Hm) as (y & Hy%elem_of_filter_sub & ->).
  rewrite Forall_forall in Hd. specialize (Hd y Hy). apply post_lift. intros m'. unfold fits. case_match; [|done]. intros [= <-].
  apply post_az. intros k _. apply post_ret. intros s [_ Hs]. split; [|done].
  intros ? ? [= <- <-]. split; [done|apply u8_range].
Qed.

Lemma GetIPAndDevNumberByID_post n cap id : 0 <= atoi id ->
  post (home n) (GetIPAndDevNumberByID cap id) (fun o s => (forall ip k, o = Some (ip, k) -> byte_range k) /\ home n s).
Proof.
  intros Hid. eapply post_bind; [by apply GetMacAndDevNumberByID_post|]. intros [[mac k]|]; apply post_pre; intros Ho.
  - destruct (Ho _ _ eq_refl) as [Hm Hk]. apply post_keeps; [by apply GetDevIPByMac_keeps|]. intros o.
    apply post_ret. intros s Hs. split; [|done]. destruct o as [ip|]; [|done]. by intros ? ? [= _ <-].
  - by apply post_ret.
Qed.

(** The device's name or code for a module's address: the identification of
    the module comes from the table of addresses. *)
Lemma dev_text_by_ip_keeps n col cap ip : col = "F_NAME" \/ col = "F_UNICODE" -> arg_ok ip ->
  keeps (home n) (dev_text_by_ip col cap ip).
Proof.
  intros Hcol [Hq Hl]. apply reg_opening. intros g rest (_ & _ & _ & Hy). apply post_sprintf. intros _. eapply post_bind.
  { eapply (dev_query_post n _ _ false), (query_filter _ _ _ _ _ _ _ (fun y => String.eqb (y_ip y) ip) _ _ (fun y => [VText (y_mac y)]));
      [parse_text|apply reg_db_dynamic| |reflexivity]. intros y. cbn. by destruct (String.eqb _ _). }
  intros r. apply post_pre. intros (rows & Hp & Hres). destruct (Nat.eqb_spec (row_num r) 0); [by apply post_ret; intros s []|].
  assert (column_num r = 1%nat) as Hc.
  { pose proof (result_rows _ _ Hres) as Hn. destruct rows as [|row rows]; [done|]. rewrite (result_width _ _ 0 _ Hres eq_refl).
    assert (row ∈ row :: rows) as Hin by left. rewrite Hp in Hin. by apply list_elem_of_fmap in Hin as (? & -> & _). }
  apply post_az. intros m Hm. replace 1%nat with (1 * column_num r + 0)%nat in Hm by lia.
  destruct (row_cell _ _ _ _ 0 0 y_mac m Hp Hres ltac:(lia) ltac:(by eauto) Hm) as (y & Hin%elem_of_filter_sub & ->).
  rewrite Forall_forall in Hy. specialize (Hy y Hin) as [Hqm Hlm].
  apply post_lift. intros m. unfold fits. case_match; [|done]. intros [= <-]. apply post_sprintf. intros _. apply sees_out.
  apply post_keeps; [|intros r2; keeps].
  destruct Hcol as [-> | ->]; (eapply dev_query_keeps, (query_filter _ _ _ _ _ _ _ (fun r => String.eqb (d_mac r) (y_mac y)));
    [parse_text|apply reg_db_static|intros x; cbn; by destruct (String.eqb _ _)|reflexivity]).
Qed.

Lemma GetAllGroupName_keeps n : keeps (home n) GetAllGroupName.
Proof.
  apply reg_opening. intros g rest _. apply sees_out. apply post_keeps; [|intros r; unfold for_rows; keeps].
  eapply dev_query_keeps, query_listed; [reflexivity|apply reg_db_group|reflexivity].
Qed.

Lemma unicode_rows_quiet r l index : quiet (unicode_rows r l index).
Proof. revert index. induction l as [|i l IH]; intros index; cbn [unicode_rows]; quiet. Qed.

Lemma GetUnicodeDeviceList_keeps n : keeps (home n) GetUnicodeDeviceList.
Proof.
  apply reg_opening. intros g rest _. apply sees_out. apply post_keeps.
  - eapply dev_query_keeps, query_listed; [reflexivity|apply reg_db_static|reflexivity].
  - intros r. keeps_step; [keeps|]. keeps_step; [|keeps]. keeps_step; [|keeps]. apply keeps_quiet; [exact _|apply unicode_rows_quiet].
Qed.

(** The join of the devices and their rooms. *)
Lemma filter_opt_total {A} (f : A -> option bool) l : (forall x, x ∈ l -> is_Some (f x)) -> is_Some (filter_opt f l).
Proof.
  induction l as [|x l IH]; intros Hf; [by eexists|]. cbn. destruct (Hf x ltac:(by left)) as [b ->]. cbn.
  destruct IH as [l' ->]; [intros y Hy; apply Hf; by right|]. by eexists.
Qed.
Lemma map_opt_total {A B} (f : A -> option B) l : (forall x, x ∈ l -> is_Some (f x)) -> is_Some (map_opt f l).
Proof.
  induction l as [|x l IH]; intros Hf; [by eexists|]. cbn. destruct (Hf x ltac:(by left)) as [b ->]. cbn.
  destruct IH as [l' ->]; [intros y Hy; apply Hf; by right|]. by eexists.
Qed.

Lemma device_list_query g rest : exists rows, query_sql
  "select F_MAC,F_NAME,F_GROUPNAME,F_DEVTYPE,F_DEVNUMBER from statictable a inner join grouptable b on a.F_GROUPID=b.F_ID"
  (reg_db g rest) = Some (false, rows).
Proof.
  unfold query_sql. set (p := parse_sql _). vm_compute in p. subst p. cbn [mbind option_bind select_rows].
  rewrite reg_db_static, reg_db_group. cbn [mbind option_bind t_rows t_cols]. match goal with |- context [filter_opt _ ?l] => set (pairs := l) end.
  assert (forall q, q ∈ pairs -> exists r k, q = (enc_dev r, enc_grp k)) as Hpairs.
  { intros q Hq. unfold pairs in Hq. apply list_elem_of_bind in Hq as (v & Hq & Hv). apply list_elem_of_fmap in Hv as (r & -> & _).
    apply list_elem_of_bind in Hq as (v & Hq & Hv). apply list_elem_of_fmap in Hv as (k & -> & _).
    apply list_elem_of_singleton in Hq as ->. eauto. }
  match goal with |- context [filter_opt ?f pairs] => assert (is_Some (filter_opt f pairs)) as [kept Hk] end.
  { apply filter_opt_total. intros q Hq. destruct (Hpairs q Hq) as (r & k & ->). by eexists. }
  rewrite Hk. cbn [mbind option_bind].
  assert (forall q, q ∈ kept -> exists r k, q = (enc_dev r, enc_grp k)) as Hkept.
  { apply Forall_forall. eapply filter_opt_sub; [exact Hk|]. by apply Forall_forall. }
  match goal with |- context [map_opt ?f kept] => assert (is_Some (map_opt f kept)) as [out ->] end; [|by eexists].
  apply map_opt_total. intros q Hq. destruct (Hkept q Hq) as (r & k & ->). by eexists.
Qed.

Lemma GetDeviceList_keeps n : keeps (home n) GetDeviceList.
Proof.
  apply reg_opening. intros g rest _. apply sees_out. destruct (device_list_query g rest) as [rows Hrows].
  apply post_keeps; [by eapply dev_query_keeps|]. intros r. unfold for_rows. repeat (keeps_step; [solve [keeps]|]).
  keeps_step; [|solve [keeps]]. repeat (keeps_step; [solve [keeps]|]). keeps_step; [|solve [keeps]].
  eapply dev_query_keeps, query_listed; [reflexivity|apply reg_db_group|reflexivity].
Qed.

(** ** alarm_db.c *)

Lemma user_list_keeps {A} n b {HB : BufQuiet b} text cols (pr : al_row -> list value) (k : get_table_result -> DM A) d :
  parse_sql text = Some [SSelect cols "alarmtable" None None] ->
  (forall x, match cols with None => Some (enc_al x) | Some cs => project alarm_cols cs (enc_al x) end = Some (pr x)) ->
  (forall r, quiet (k r)) -> keeps (home n) (opening alarm_open d (r ← db_get_table user_file text; k r)).
Proof.
  intros Hp Hpr Hk. apply receivers_opening. intros l rest. apply sees_out, post_keeps.
  - eapply user_query_post, query_listed; [exact Hp|apply alarm_db_table|exact Hpr].
  - intros r. apply keeps_quiet; [exact _|apply Hk].
Qed.

Lemma GetAlarmAllList_keeps n : keeps (home n) GetAlarmAllList.
Proof. eapply (user_list_keeps n alarm_alllist_buf); [reflexivity|reflexivity|]. intros r. unfold for_rows. quiet. Qed.

Lemma isUserMobileNumberValid_keeps n number : arg_ok number -> keeps (home n) (isUserMobileNumberValid number).
Proof.
  intros Ha. eapply post_weaken; [apply (receivers_post n _ (fun _ => True))|done|by intros x s []].
  intros l Hl. eapply dtriple_mono; [by apply isUserMobileNumberValid_spec|]. by intros x l' [-> _].
Qed.

(** ** timertask_db.c *)

Definition item_args (it : timertask_item_t) : Prop := arg_ok (dev_mac it) /\ arg_ok (dev_name it).

Lemma read_item_post n r i rows (l : list task) : rows ≡ₚ enc_task <$> l -> result_for rows r ->
  Forall (fun x => arg_ok (t_mac x) /\ arg_ok (t_name x)) l -> (i < row_num r)%nat ->
  post (home n) (read_item r (S i)) (fun it s => item_args it /\ home n s).
Proof.
  intros Hp Hres Hl Hi. rewrite Forall_forall in Hl. unfold read_item. apply post_lift. intros _ _. cbv zeta.
  apply post_az. intros id _. apply post_az. intros mac Hm.
  destruct (row_cell _ _ _ _ i 1 t_mac mac Hp Hres Hi ltac:(by eauto) Hm) as (x & Hx & ->).
  apply post_sprintf. intros _. apply post_az. intros name Hn.
  destruct (row_cell _ _ _ _ i 2 t_name name Hp Hres Hi ltac:(by eauto) Hn) as (y & Hy & ->).
  apply post_sprintf. intros _. apply post_az. intros per _. apply post_az. intros ht _. apply post_sprintf. intros _.
  apply post_az. intros act _. apply post_az. intros tip _. apply post_az. intros how _. apply post_az. intros cre _.
  apply post_sprintf. intros _.
  apply post_keeps; [apply GetDevNumberByMacAndName_keeps; [apply (Hl x Hx)|apply (Hl y Hy)]|].
  intros num. apply post_ret. intros s Hs; split; [split; [apply (Hl x Hx)|apply (Hl y Hy)]|exact Hs].
Qed.

Lemma read_items_post n r rows (l : list task) ks : rows ≡ₚ enc_task <$> l -> result_for rows r ->
  Forall (fun x => arg_ok (t_mac x) /\ arg_ok (t_name x)) l -> Forall (fun i => (1 <= i <= row_num r)%nat) ks ->
  post (home n) (read_items r ks) (fun its s => Forall item_args its /\ home n s).
Proof.
  intros Hp Hres Hl His. induction His as [|i ks Hi His IH]; cbn [read_items]; [by apply post_ret|].
  destruct i as [|i]; [lia|]. eapply post_bind; [eapply (read_item_post n r i); [exact Hp|exact Hres|exact Hl|lia]|].
  intros it. apply post_pre. intros Hit. eapply post_bind; [exact IH|]. intros its. apply post_pre. intros Hits.
  apply post_ret. intros s Hs. split; [by constructor|done].
Qed.

Lemma GetValidThingsToDo_post n curr weekday : quote_free curr = true -> 1 <= weekday <= 7 ->
  post (home n) (GetValidThingsToDo curr weekday) (fun p s => Forall item_args (snd p) /\ home n s).
Proof.
  intros Hq Hw. apply timers_opening. intros t rest (_ & _ & Ht). apply post_lift. intros short Hs.
  assert (quote_free short = true) as Hqs by (destruct (_ <=? _)%nat; [|done]; injection Hs as <-; by apply all_chars_substring).
  apply post_sprintf. intros _. eapply post_bind; [eapply (dev_query_post n), query_due; done|].
  intros r. apply post_pre. intros (rows & Hp & Hres). eapply post_bind.
  { eapply post_weaken; [eapply (read_items_post n r rows _ _ Hp Hres)| |intros x s Hx; exact Hx].
    - apply Forall_self. intros x Hx%elem_of_filter_sub. rewrite Forall_forall in Ht. auto.
    - apply Forall_forall. intros i Hi%elem_of_seq. lia.
    - by intros s []. }
  intros its. apply post_pre. intros Hits. by apply post_ret.
Qed.

Lemma GetAllTimerTaskInfo_keeps n : keeps (home n) GetAllTimerTaskInfo.
Proof.
  apply timers_opening. intros t rest _. apply sees_out, post_keeps.
  - eapply dev_query_keeps. unfold query_sql. change (parse_sql _) with (Some [SSelect None "timertasktable" None (Some "f_id")]).
    cbn [mbind option_bind select_rows]. rewrite timer_db_table. cbn [mbind option_bind t_cols t_rows].
    rewrite (map_opt_fmap enc_task _ (fun x => (t_id x, enc_task x))) by done. reflexivity.
  - intros r. unfold for_rows. keeps.
Qed.

(** ** cityid.c, whose file ks not part of the state looked at *)

Lemma quiet_city_file {A} (f : conn -> A * conn) : quiet (fun s => let '(x, c) := f (sel city_file s) in Some (x, upd city_file c s)).
Proof. intros s x s' E. destruct (f _) as [y c]. by injection E as _ <-. Qed.

Lemma GetCityIDByName_quiet cap name : quiet (GetCityIDByName cap name).
Proof.
  assert (forall t, quiet (db_exec city_file t)) as He by (intros t; exact (quiet_city_file (sqlite3_exec t))).
  assert (forall t, quiet (db_get_table city_file t)) as Hg by (intros t; exact (quiet_city_file (sqlite3_get_table t))).
  assert (quiet (db_open city_file)) as Ho by exact (quiet_city_file sqlite3_open).
  unfold GetCityIDByName, opening, city_open, city_create. quiet.
Qed.
End Queries.

#[export] Hint Resolve GetAllGroupName_keeps GetUnicodeDeviceList_keeps GetDeviceList_keeps GetAlarmAllList_keeps
  GetAllTimerTaskInfo_keeps isMacAndNameMatch_keeps GetDevIPByMac_keeps isUserMobileNumberValid_keeps
  dev_text_by_ip_keeps queue_answer_keeps switch_control_keeps switch_state_keeps
  control_device_keeps : keeps.
#[export] Hint Resolve GetCityIDByName_quiet : quiet.
