(* ===== verification/Daemon.v ===== *)
(** * The daemon as a whole (src/src/dev_manage/main.c, with the start of
      sms.c and uart.c)

    [main] opens the serial lines and starts the threads; from then on clients,
    the coordinator, the modem and the clock make the daemon work in any
    order.  A step of [daemon_step] is one piece of this work, from a read to
    the next one.  The theorem says what no sequence of steps can break. *)

From stdpp Require Import base list strings gmap sets relations.
From Stdlib Require Import ZArith Lia Ascii.
From S2P Require Import Prelude CString Calendar Sql UartQueue DevControl DevState DbTriple DbStore DevDb DevReg DevRegProps Alarm Timer CJson CityId Sms Notify UartCommon UartLines SmsControl SmsThread Socketd SocketdProps Partial Home HomeOps HomeQueries.

Open Scope Z_scope.

(** [app_status] *)
Record app_status_t := mk_app_status {
  is_sms_ok : bool;
  is_uart_ok : bool;
  isTimerTaskRun : bool;
  CurrentTime : string;        (* char[20] *)
  isHasTimerTasks : bool
}.

(** The threads of [main]. *)
Inductive thread := Timer_Thread | Uart_Thread | Sms_Thread | Socket_Thread.

#[export] Instance thread_eq_dec : EqDecision thread.
Proof. solve_decision. Defined.

Definition LED_FOR_PROGRAM_RUN : Z := 0.
Definition ON : Z := 1.

(** [TIMER_TIME*1000000*2], in microseconds *)
Definition TIMER_TIME : Z := 30.
Definition timer_sleep : Z := TIMER_TIME * 1000000 * 2.

Section Start.
Context `{Sqlite}.

(** [opened]: [open] gives a descriptor; [configured]: [tcsetattr] succeeds. *)
Definition Uart_Config (opened configured : bool) : bool := if opened then configured else false.
Definition uart_config (opened : bool) : bool := opened.

Definition sms_init (opened : bool) : DM bool :=
  if negb (uart_config opened) then mret false
  else _ ← emit_all (EvModem <$> gsm_init); mret true.

(** [led]: /dev/led is there. *)
Definition app_init (led zigbee configured gsm : bool) (now : Z) : DM app_status_t :=
  _ ← (if led then emit_ev (EvLed LED_FOR_PROGRAM_RUN ON) else mret tt);
  let uart_ok := Uart_Config zigbee configured in
  sms_ok ← sms_init gsm;
  mret (mk_app_status sms_ok uart_ok true (fst (GetCurrentTime now)) true).

(** The threads that [main] starts. *)
Definition main (led zigbee configured gsm : bool) (now : Z) : DM (app_status_t * list thread) :=
  st ← app_init led zigbee configured gsm now;
  mret (st, (if isTimerTaskRun st then [Timer_Thread] else []) ++ (if is_uart_ok st then [Uart_Thread] else []) ++
            (if is_sms_ok st then [Sms_Thread] else []) ++ [Socket_Thread]).

End Start.

(** What [uart_thread] does before its loop. *)
Definition uart_thread_start `{Sqlite} : DM unit :=
  on_uart' (fun u => (tt, mk_uart (sent u) (uart_data_quene_init (table u)))).

(** ** Steps *)

(** The running daemon: the state of the modules, whether [uart_thread] has
    come to its loop, its [buffer], and the variables of sms_common.c. *)
Record daemon `{Sqlite} := mk_daemon { d_main : dm_state; d_looping : bool; d_line : string; d_sms : sms_state }.
Arguments mk_daemon {_}.

(** What the world may ask: texts without a quote that fit the statements,
    and the codes that the clients use for the ways of alarming and for times
    ([alarm_unknown_type_duplicates] and [remove_injection] show what other
    requests do). *)
Definition request_ok (r : request) : Prop :=
  let t := atoi (user_action r) in
  arg_ok (r_mac r) /\ arg_ok (r_name r) /\ arg_ok (r_group r) /\ (forall p, param1 r = Some p -> arg_ok p) /\
  (t ∈ [ACTION_ALARM_ADD; ACTION_ALARM_LOCK; ACTION_ALARM_UNLOCK; ACTION_ALARM_DELETE] ->
     forall p, r_type r = Some p -> way (atoi p) <> None) /\
  (t = ACTION_ADD_TIMERTASK -> 0 <= atoi (r_group r) /\ forall p, param2 r = Some p -> 0 <= atoi p).

(** Any bytes, as long as a request in them is in order. *)
Definition client_ok (received : option string) : Prop :=
  forall text root rest r, received = Some text -> cJSON_Parse text = POk root rest -> read_request root = Some (Some r) ->
  request_ok r.

(** Pieces of a line, and the line so far. *)
Definition pieces_ok (pieces : list string) (buffer : string) : Prop :=
  Forall (fun p => quote_free p = true) pieces /\
  forall ok b, ReadFromUart pieces buffer = Some (ok, b) -> (String.length b <= 200)%nat.

Section Steps.
Context `{Sqlite}.

(** The ways to come to a wait for a switch: a command of a client or the
    timer, a client's question for the state, and a text message. *)
Inductive begins (wr : list Z -> bool) : DM (option (list Z)) -> Prop :=
  | begins_command mac name cmd n : arg_ok mac -> arg_ok name -> byte_range n ->
      begins wr (begin_command wr mac name (fun ip => switch_frame (Some ip) cmd n))
  | begins_query mac name n : arg_ok mac -> arg_ok name -> byte_range n ->
      begins wr (begin_command wr mac name (fun ip => get_state_frame (Some ip) n))
  | begins_text id cmd : 0 <= atoi id -> begins wr (begin_text wr id cmd).

(** The network, the serial line and the other threads that use its table may
    behave differently at each step.  A step is the whole of a request, line,
    message or turn, or the beginning of a command whose thread then waits for
    the switch, for ever perhaps, or a poll that ends such a wait.  Steps do
    not overlap: between the look of a request into the database and its
    change no other thread changes it ([adds_overlap] shows what happens
    otherwise). *)
Inductive daemon_step (st : app_status_t) (threads : list thread) : daemon -> daemon -> Prop :=
  | step_client wr sched fuel net_ok now now' tz junk_id junk_name received s s' run line m :
      Socket_Thread ∈ threads -> client_ok received -> minute_ok now -> minute_ok now' ->
      client_thread wr sched fuel net_ok (is_uart_ok st) (is_sms_ok st) now now' tz junk_id junk_name received s = Some (tt, s') ->
      daemon_step st threads (mk_daemon s run line m) (mk_daemon s' run line m)
  | step_start s s' m :
      Uart_Thread ∈ threads -> uart_thread_start s = Some (tt, s') ->
      daemon_step st threads (mk_daemon s false "" m) (mk_daemon s' true "" m)
  | step_line net_ok pieces s s' line line' m :
      Uart_Thread ∈ threads -> pieces_ok pieces line ->
      uart_round net_ok pieces line s = Some (line', s') ->
      daemon_step st threads (mk_daemon s true line m) (mk_daemon s' true line' m)
  | step_modem slack charset0 buffer s s' run line m m' :
      Sms_Thread ∈ threads -> quote_free buffer = true -> sms_turn slack charset0 buffer m s = Some (m', s') ->
      daemon_step st threads (mk_daemon s run line m) (mk_daemon s' run line m')
  | step_message wr sched fuel stale s s' run line m m' :
      sms_thread_turn wr sched fuel stale m s = Some (m', s') ->
      daemon_step st threads (mk_daemon s run line m) (mk_daemon s' run line m')
  | step_timer wr sched fuel now s s' run line m :
      Timer_Thread ∈ threads -> minute_ok now ->
      timer_turn wr sched fuel (isHasTimerTasks st) now s = Some (tt, s') ->
      daemon_step st threads (mk_daemon s run line m) (mk_daemon s' run line m)
  | step_waits wr b o s s' run line m :
      begins wr b -> b s = Some (o, s') -> daemon_step st threads (mk_daemon s run line m) (mk_daemon s' run line m)
  | step_polled f n got q s run line m :
      uart_check f n 6 (table (uart_st s)) = Some (got, q) ->
      daemon_step st threads (mk_daemon s run line m) (mk_daemon (set_uart (mk_uart (sent (uart_st s)) q) s) run line m)
  | step_mail dns_ok mail_sent s s' run line m :
      EvMailThread ∈ out s -> send_mail_thread dns_ok mail_sent s = Some (tt, s') ->
      daemon_step st threads (mk_daemon s run line m) (mk_daemon s' run line m)
  | step_mobile name stale_name stale_value s s' run line m :
      EvMobileThread name ∈ out s -> send_msg_thread (is_sms_ok st) stale_name stale_value s = Some (tt, s') ->
      daemon_step st threads (mk_daemon s run line m) (mk_daemon s' run line m).

(** What the daemon may have come to after [n] steps. *)
Definition daemon_reaches (st : app_status_t) (threads : list thread) : nat -> daemon -> daemon -> Prop :=
  nsteps (daemon_step st threads).
End Steps.

(** ** Texts that stay free of quotes *)

Lemma take_token_all p delims s : all_chars p s = true ->
  all_chars p (fst (take_token delims s)) = true /\ all_chars p (snd (take_token delims s)) = true /\
  (String.length (fst (take_token delims s)) + String.length (snd (take_token delims s)) <= String.length s)%nat.
Proof.
  induction s as [|c s IH]; [done|]. cbn [all_chars take_token]. intros [Hc Hs]%andb_prop.
  destruct (mem_char c delims); [cbn; auto with lia|]. destruct (take_token delims s) as [t r]. cbn [fst snd] in *.
  destruct (IH Hs) as (Ht & Hr & Hl). cbn. rewrite Hc. auto with lia.
Qed.

Lemma skip_delims_all p delims s : all_chars p s = true ->
  all_chars p (skip_delims delims s) = true /\ (String.length (skip_delims delims s) <= String.length s)%nat.
Proof.
  induction s as [|c s IH]; [done|]. cbn [skip_delims]. intros Hs. destruct (mem_char c delims); [|done].
  cbn [all_chars] in Hs. apply andb_prop in Hs as [_ Hs]. destruct (IH Hs) as [? ?]. cbn. auto with lia.
Qed.

Lemma strtok_arg delims s t rest : arg_ok s -> strtok delims s = (t, rest) ->
  (forall x, t = Some x -> arg_ok x) /\ arg_ok rest.
Proof.
  intros [Hq Hl]. unfold strtok. destruct (skip_delims_all _ delims s Hq) as [Hq1 Hl1].
  destruct (skip_delims delims s) as [|c u] eqn:E; [intros [= <- <-]; by split; [|split; [|cbn; lia]]|].
  destruct (take_token_all _ delims _ Hq1) as (Ht & Hr & Htr). destruct (take_token delims (String c u)) as [x r].
  cbn [fst snd] in *. intros [= <- <-]. unfold arg_ok. split; [intros ? [= <-]|]; (split; [done|lia]).
Qed.

Lemma split_name_arg name n u : arg_ok name -> split_name name = (Some n, Some u) -> arg_ok n /\ arg_ok u.
Proof.
  intros Ha. unfold split_name. destruct (strtok ":" name) as [t rest] eqn:E1. destruct (strtok ":" rest) as [t2 rest2] eqn:E2.
  intros [= -> ->]. destruct (strtok_arg _ _ _ _ Ha E1) as [H1 Hrest]. destruct (strtok_arg _ _ _ _ Hrest E2) as [H2 _]. auto.
Qed.

Lemma quote_free_fmt_d_prec p n : quote_free (fmt_d_prec p n) = true.
Proof.
  assert (forall m, quote_free (pad_left p (unsigned_digits 10 m)) = true) as Hp.
  { intros m. eapply all_chars_impl; [|apply pad_left_digits]. intros c Hc. destruct (Ascii.eqb_spec c quote) as [->|]; done. }
  unfold fmt_d_prec. destruct (n <? 0); [|done]. cbn [quote_free all_chars]. exact (Hp (- n)).
Qed.

Lemma fits_some cap s x : fits cap s = Some x -> x = s /\ (String.length s < cap)%nat.
Proof. unfold fits. destruct (Nat.ltb_spec (String.length s) cap); [|done]. by intros [= <-]. Qed.

(** Whatever the times are, the text has no quote. *)
Lemma TimeAdd_arg tz happen h m after : TimeAdd tz happen h m = Some after -> arg_ok after.
Proof.
  assert (forall t, fits 20 (fmt_time t) = Some after -> arg_ok after) as Hlast.
  { intros t [-> Hl]%fits_some. split; [|lia]. unfold fmt_time, quote_free. rewrite !all_chars_app.
    fold quote_free. pose proof quote_free_fmt_d_prec as Hp. unfold quote_free in Hp. by rewrite !Hp. }
  unfold TimeAdd. destruct (fits 20 happen) as [pre|]; [|done]. cbn [mbind option_bind].
  destruct (strtok " " pre) as [pre1 h1]. destruct (strtok " " h1) as [pre2 h2].
  destruct (strtok "-" (default h2 pre1)) as [[y|] h3]; [|done]. cbn [mbind option_bind].
  destruct (strtok "-" h3) as [[mo|] h4]; [|done]. cbn [mbind option_bind].
  destruct (strtok "-" h4) as [[d|] h5]; [|done]. cbn [mbind option_bind].
  destruct (strtok ":" (default h5 pre2)) as [[hh|] h6]; [|done]. cbn [mbind option_bind].
  destruct (strtok ":" h6) as [[mi|] h7]; [|done]. cbn [mbind option_bind]. apply Hlast.
Qed.

Lemma substring_arg avail cap src i n x : quote_free src = true -> substring avail cap src i n = Some x -> quote_free x = true.
Proof.
  intros Hq. unfold substring. destruct (Z.to_nat n =? 0)%nat; [by intros [-> _]%fits_some|]. destruct (_ && _); [|done].
  intros [= <-]. by apply all_chars_substring.
Qed.

Lemma number_handler_arg to x : quote_free to = true -> number_handler 20 to = Some x -> arg_ok x.
Proof.
  intros Hq. unfold number_handler. destruct (fits 20 (drop_plus to)) as [t|] eqn:E; [|done]. apply fits_some in E as [-> Hl].
  assert (quote_free (drop_plus to) = true) as Hd.
  { destruct to as [|c to]; [done|]. unfold quote_free in *. cbn [all_chars] in Hq. apply andb_prop in Hq as [Hc Hq].
    destruct c as [[] [] [] [] [] [] [] []]; cbn [drop_plus all_chars]; by rewrite ?Hq. }
  cbn [mbind option_bind].
  destruct (Nat.odd _); [destruct (fits 20 _) as [t|] eqn:E; [|done]; apply fits_some in E as [-> Hl2]|];
    cbn [mbind option_bind]; intros [= <-]; unfold arg_ok, quote_free in *;
    rewrite swap_pairs_all, swap_pairs_length, ?all_chars_app, Hd; (split; [done|lia]).
Qed.

Lemma cut_at_arg cap n s x : arg_ok s -> cut_at cap n s = Some x -> arg_ok x.
Proof.
  intros [Hq Hl]. unfold cut_at. destruct (_ <? _)%nat; [|done]. intros [= <-].
  pose proof (length_substring 0 n s). split; [by apply all_chars_substring|lia].
Qed.

(** The sender's number is made of characters of the message. *)
Lemma receive_msg_arg slack avail charset0 src m : quote_free src = true -> handler_receive_msg slack avail charset0 src = Some m ->
  arg_ok (send_number m).
Proof.
  intros Hq. unfold handler_receive_msg. cbv zeta.
  destruct (substring avail 20 src 6 12) as [c|]; [|done]. cbn [mbind option_bind].
  destruct (number_handler 20 c) as [c1|]; [|done]. cbn [mbind option_bind].
  destruct (cut_at 20 11 c1) as [c2|]; [|done]. cbn [mbind option_bind].
  destruct (substring avail (2 + slack) src 20 2) as [len|]; [|done]. cbn [mbind option_bind].
  match goal with |- context [if ?b then substring avail 20 src 26 _ else _] => set (national := b) end. set (n := strtol len 16). set (k := if Z.odd n then n + 1 else n).
  destruct (if national then _ else _) as [x|] eqn:E1; [|done]. cbn [mbind option_bind].
  assert (quote_free x = true) as Hx by (destruct national; by eapply substring_arg).
  destruct (number_handler 20 x) as [y|] eqn:E2; [|done]. cbn [mbind option_bind].
  pose proof (number_handler_arg _ _ Hx E2) as Hy.
  destruct (if Z.odd n then _ else Some y) as [z|] eqn:E3; [|done]. cbn [mbind option_bind].
  assert (arg_ok z) as Hz.
  { destruct (Z.odd n); [|by injection E3 as <-]. destruct national; [destruct (n <? 2)|destruct (n <? 0)]; try done; by eapply cut_at_arg. }
  destruct (substring avail 3 src _ 2) as [t1|]; [|done]. cbn [mbind option_bind].
  destruct (substring avail 20 src _ 12) as [t2|]; [|done]. cbn [mbind option_bind].
  destruct (number_handler 20 t2) as [t3|]; [|done]. cbn [mbind option_bind].
  destruct (msg_time slack t3) as [t4|]; [|done]. cbn [mbind option_bind].
  destruct (substring avail (2 + slack) src _ 2) as [t5|]; [|done]. cbn [mbind option_bind].
  destruct (substring avail MAX_BUFFER_SIZE src _ _) as [t6|]; [|done]. cbn [mbind option_bind]. by intros [= <-].
Qed.

Lemma strstr_all p s needle r : all_chars p s = true -> strstr s needle = Some r -> all_chars p r = true.
Proof.
  induction s as [|c s IH]; intros Hs; cbn [strstr]; (case_match; [by intros [= <-]|]); [done|].
  cbn [all_chars] in Hs. apply andb_prop in Hs as [_ Hs]. by apply IH.
Qed.

Lemma ReadFromUart_all p pieces buffer ok b : Forall (fun x => all_chars p x = true) pieces -> all_chars p buffer = true ->
  ReadFromUart pieces buffer = Some (ok, b) -> all_chars p b = true.
Proof.
  intros Hp. revert buffer. induction Hp as [|x pieces Hx Hp IH]; intros buffer Hb; cbn [ReadFromUart]; [by intros [= _ <-]|].
  destruct (fits 50 x) as [y|] eqn:E; [|done]. apply fits_some in E as [-> _]. cbn [mbind option_bind]. unfold strcat_into.
  assert (all_chars p (buffer +:+ x) = true) as Hbx by (by rewrite all_chars_app, Hb, Hx).
  destruct (strchr x "*").
  - destruct (fits 1024 x) as [z|] eqn:E; [|done]. apply fits_some in E as [-> _]. by apply IH.
  - destruct (strchr x "#"); (destruct (fits 1024 (buffer +:+ x)) as [z|] eqn:E; [|done]; apply fits_some in E as [-> _]; cbn [mbind option_bind]).
    + by intros [= _ <-].
    + by apply IH.
Qed.

(** ** Quiet functions *)

Section Quiet.
Context {SQ : Sqlite}.

Lemma send_broadcast_quiet net_ok who act name : quiet (send_broadcast net_ok who act name).
Proof. unfold send_broadcast. quiet. Qed.
Lemma led_flash_quiet item interval times : quiet (led_flash item interval times).
Proof. unfold led_flash. quiet. Qed.
Lemma system_ring_quiet type : quiet (system_ring type).
Proof. unfold system_ring. quiet. Qed.
Lemma emit_all_quiet l : quiet (emit_all l).
Proof. induction l as [|e l IH]; cbn [emit_all]; quiet. Qed.
Lemma sms_dot_send_quiet to msg : quiet (sms_dot_send to msg).
Proof. unfold sms_dot_send. apply quiet_bind; [quiet|]. intros [ok texts]. apply quiet_bind; [apply emit_all_quiet|]. intros _. quiet. Qed.
Lemma send_to_all_quiet ms content : quiet (send_to_all ms content).
Proof. induction ms as [|m ms IH]; cbn [send_to_all]; [quiet|]. apply quiet_bind; [quiet|]. intros t. by apply quiet_bind; [apply sms_dot_send_quiet|]. Qed.
Lemma inform_email_quiet alarm : quiet (InformUserByEmail alarm).
Proof. unfold InformUserByEmail. apply quiet_bind; [quiet|]. intros t. quiet. Qed.
Lemma inform_wechat_quiet alarm : quiet (InformUserByWechat alarm).
Proof. unfold InformUserByWechat. quiet. Qed.
Lemma inform_mobile_quiet alarm : quiet (InformUserByMobile alarm).
Proof. unfold InformUserByMobile. quiet. Qed.
Lemma save_group_quiet g : quiet (SetFamilyGroupInfo g).
Proof. unfold SetFamilyGroupInfo, SaveFamilyGroupInfo. quiet. Qed.
Lemma get_group_quiet junk_id junk_name : quiet (GetFamilyGroupInfo junk_id junk_name).
Proof. unfold GetFamilyGroupInfo. quiet. Qed.
Lemma save_gsm_log_quiet info : quiet (save_gsm_log info).
Proof. unfold save_gsm_log. quiet. Qed.
End Quiet.

#[export] Hint Resolve send_broadcast_quiet led_flash_quiet system_ring_quiet emit_all_quiet sms_dot_send_quiet send_to_all_quiet
  inform_email_quiet inform_wechat_quiet inform_mobile_quiet save_group_quiet get_group_quiet save_gsm_log_quiet : quiet.
#[export] Hint Unfold write_client close_client atoi_ptr : quiet.

Section Daemon.
Context {SQ : Sqlite} {SL : SqliteLaws SQ}.

Lemma keeps_up {A} n (m : DM A) : keeps (home n) m -> post (home n) m (fun _ => home (n + 1)).
Proof. intros Hm. eapply post_weaken; [exact Hm|done|]. intros x s. apply home_le. lia. Qed.

(** ** Commands to devices *)

Section Uart.
Context (wr : list Z -> bool) (sched : nat -> queue -> queue) (fuel : nat).

Lemma SWGetCurrentState_keeps n mac name number : arg_ok mac -> arg_ok name -> byte_range number ->
  keeps (home n) (SWGetCurrentState wr sched fuel mac name number).
Proof. intros Hm Hn Hb. unfold SWGetCurrentState. keeps. Qed.

Lemma ForwardControlToUart_keeps n mac name type cmd number : arg_ok mac -> arg_ok name -> byte_range number ->
  keeps (home n) (ForwardControlToUart wr sched fuel mac name type cmd number).
Proof. intros Hm Hn Hb. unfold ForwardControlToUart. keeps. Qed.

Lemma run_items_keeps n items : Forall item_args items -> keeps (home n) (run_items wr sched fuel items).
Proof.
  intros Hi. induction Hi as [|it items [Hm Hn] Hi IH]; cbn [run_items]; [keeps|].
  apply post_keeps; [by apply ForwardControlToUart_keeps; [| |apply u8_range]|]. intros _. exact IH.
Qed.

Lemma timer_turn_keeps n has now : minute_ok now -> keeps (home n) (timer_turn wr sched fuel has now).
Proof.
  intros Hnow. destruct (current_time_ok now Hnow) as [Hq _]. unfold timer_turn. destruct has; [|keeps]. unfold do_timer_func, GetCurrentTime.
  eapply post_bind; [apply GetValidThingsToDo_post; [exact Hq|]|].
  - unfold weekday_of. case_match; Z.div_mod_to_equations; lia.
  - intros [nums items]. apply post_pre. intros Hi. by apply run_items_keeps, Forall_take.
Qed.

(** ** Text messages *)

Lemma process_text_keeps n who text : keeps (home n) (process_text wr sched fuel who text).
Proof.
  unfold process_text. destruct (Nat.ltb_spec (strspn text "0123456789") (String.length text)) as [|Hd]; [keeps|].
  assert (all_chars isdigit text = true) as Hall.
  { clear -Hd. induction text as [|c t IH]; [done|]. cbn [strspn String.length] in Hd.
    destruct (mem_char c "0123456789") eqn:E; cbn in Hd; [|lia]. cbn [all_chars]. rewrite IH by lia. rewrite andb_true_r.
    clear -E. destruct c as [[] [] [] [] [] [] [] []]; vm_compute in E |- *; done. }
  destruct (String.eqb _ _); [unfold send_dev_list_by_sms; keeps|]. apply post_lift. intros id Hid.
  assert (0 <= atoi id) as H0.
  { apply atoi_digits_nonneg. unfold substring in Hid. repeat case_match; simplify_eq; [|by apply all_chars_substring].
    by apply fits_some in Hid as [-> _]. }
  eapply post_bind; [by apply GetIPAndDevNumberByID_post|]. intros [[ip k]|]; apply post_pre; intros Hk; [|keeps].
  specialize (Hk ip k eq_refl). apply post_lift. intros c _. unfold do_sms_action. keeps.
Qed.

Lemma user_msg_process_keeps n stale m : arg_ok (send_number m) -> keeps (home n) (user_msg_process wr sched fuel stale m).
Proof.
  intros Ha. unfold user_msg_process. apply post_keeps; [by apply isUserMobileNumberValid_keeps|]. intros valid.
  destruct (negb valid); [keeps|]. destruct (charset m); [keeps| |keeps]. cbv zeta. destruct (_ <? _)%nat; [keeps|].
  apply post_lift. intros [text|] _; [apply process_text_keeps|keeps].
Qed.

(** The message that threads may read has a sender without a quote. *)
Definition sms_ok (m : sms_state) : Prop := forall x, g_rcv_info m = Some x -> arg_ok (send_number x).

Lemma sms_turn_post n slack charset0 buffer m : quote_free buffer = true -> sms_ok m ->
  post (home n) (sms_turn slack charset0 buffer m) (fun m' s => sms_ok m' /\ home n s).
Proof.
  intros Hq Hm. unfold sms_turn. eapply post_bind.
  - instantiate (1 := fun p s => (forall x, fst p = Some x -> arg_ok (send_number x)) /\ home n s). unfold sms_read_step.
    destruct (strstr buffer "0891") as [src|] eqn:E1.
    + apply post_lift. intros info Hi. repeat (apply post_keeps; [keeps|intros ?]). apply post_ret. intros ? ?. split; [|done].
      intros ? [= <-]. eapply receive_msg_arg; [|exact Hi]. by eapply strstr_all.
    + destruct (strstr buffer "CMTI:"); [|by apply post_ret]. apply post_lift. intros command _. destruct (strtok "," command) as [t rest].
      repeat (apply post_keeps; [keeps|intros ?]). by apply post_ret.
  - intros [o index']. cbn [fst]. apply post_pre. intros Ho. apply post_ret. intros s Hs. split; [|done].
    destruct o as [info|]; [|exact Hm]. intros y [= <-]. by apply Ho.
Qed.

Lemma sms_thread_post n stale m : sms_ok m -> post (home n) (sms_thread_turn wr sched fuel stale m) (fun m' s => sms_ok m' /\ home n s).
Proof.
  intros Hm. unfold sms_thread_turn. destruct (started m) as [|k]; [by apply post_ret|]. destruct (g_rcv_info m) as [x|] eqn:E; [|by apply post_ret].
  apply post_keeps; [apply user_msg_process_keeps; by apply Hm|]. intros ?. apply post_ret. intros s Hs. split; [|done]. intros y [= <-]. by apply Hm.
Qed.
End Uart.

(** ** Lines of the coordinator *)

Lemma raise_alarm_keeps n net_ok type ip state : arg_ok ip -> keeps (home n) (raise_alarm net_ok type ip state).
Proof.
  intros Ha. unfold raise_alarm, GetDevNameByIP, GetDevUnicodeNameByIP.
  apply post_keeps; [apply dev_text_by_ip_keeps; auto|]. intros name. cbv zeta.
  apply post_keeps; [apply dev_text_by_ip_keeps; auto|]. intros unicode. keeps.
Qed.

Lemma dispatch_line_keeps n net_ok type rest : n < INT_MAX -> arg_ok rest ->
  post (home n) (dispatch_line net_ok type rest) (fun _ => home (n + 1)).
Proof.
  intros Hn Ha. unfold dispatch_line. destruct (type =? DEV_ADD).
  - destruct (strtok "," rest) as [ip r1] eqn:E1. destruct (strtok_arg _ _ _ _ Ha E1) as [Hip Hr1].
    destruct (strtok "," r1) as [mac r2] eqn:E2. destruct (strtok_arg _ _ _ _ Hr1 E2) as [Hmac _].
    destruct ip as [ip|]; [|apply keeps_up; keeps]. destruct mac as [mac|]; [|apply keeps_up; keeps].
    apply post_unit. apply (reg_bool_post n (CAnnounce mac ip)); [done|split; auto|done].
  - apply keeps_up. destruct (_ || _).
    + destruct (strtok "," rest) as [ip r1] eqn:E1. destruct (strtok_arg _ _ _ _ Ha E1) as [Hip _].
      destruct (strtok "," r1) as [second r2]. destruct (strtok "," r2) as [state r3].
      destruct ip as [ip|], second, state; [|keeps..]. by apply raise_alarm_keeps, Hip.
    + destruct (type =? DEV_SWITCH); [|keeps]. destruct (strtok "," rest) as [ip r1]. destruct (strtok "," r1) as [p1 r2].
      destruct (strtok "," r2) as [p2 r3]. destruct (strtok "," r3) as [p3 r4].
      destruct ip, p1, p2, p3; [|keeps..]. apply queue_answer_keeps.
Qed.

Lemma handle_line_post n net_ok buffer : n < INT_MAX -> arg_ok buffer ->
  post (home n) (handle_line net_ok buffer) (fun b s => quote_free b = true /\ home (n + 1) s).
Proof.
  intros Hn [Hq Hl]. unfold handle_line. cbv zeta. apply post_lift. intros b Hb.
  assert (arg_ok b) as Ha.
  { destruct (3 <=? String.length buffer)%nat; [|done]. injection Hb as <-.
    pose proof (length_substring 0 (String.length buffer - 3) buffer). split; [by apply all_chars_substring|lia]. }
  destruct (strtok "," b) as [header rest] eqn:E. destruct (strtok_arg _ _ _ _ Ha E) as [_ Hrest].
  destruct header as [header|].
  - apply post_keeps; [keeps|]. intros _. apply post_lift. intros type _. eapply post_bind; [by apply dispatch_line_keeps|].
    intros ?. apply post_ret. intros s Hs. split; [|done]. unfold after_strtok. by apply all_chars_substring; apply Ha.
  - apply post_ret. intros s Hs. split; [apply Ha|]. by eapply home_le; [|exact Hs]; lia.
Qed.

Lemma uart_round_post n net_ok pieces buffer : n < INT_MAX -> quote_free buffer = true -> pieces_ok pieces buffer ->
  post (home n) (uart_round net_ok pieces buffer) (fun b s => quote_free b = true /\ home (n + 1) s).
Proof.
  intros Hn Hq [Hp Hl]. apply post_lift. intros [ok b] Hr. pose proof (ReadFromUart_all _ _ _ _ _ Hp Hq Hr) as Hqb.
  destruct ok; [apply handle_line_post; [done|split; [done|by eapply Hl]]|].
  apply post_ret. intros s Hs. split; [done|]. by eapply home_le; [|exact Hs]; lia.
Qed.

(** ** Requests *)

Lemma action_list_keeps n fill b : keeps (home n) fill -> keeps (home n) (action_list fill b).
Proof. intros Hf. unfold action_list, write_client. apply post_keeps; [exact Hf|]. intros _. keeps. Qed.

Lemma action_alarm_keeps n (f : Z -> string -> DM bool) (c : Z -> string -> al_cmd) r :
  (forall t v, f t v = al_run (c t v) /\ al_arg (c t v) = v /\ al_type (c t v) = t) ->
  arg_ok (r_mac r) -> (forall p, r_type r = Some p -> way (atoi p) <> None) -> keeps (home n) (action_alarm f r).
Proof.
  intros Hf Ha Hw. unfold action_alarm, atoi_ptr. apply post_lift. intros t Ht. destruct (r_type r) as [p|]; [|done]. injection Ht as <-.
  destruct (Hf (atoi p) (r_mac r)) as (-> & E1 & E2). apply post_keeps; [|intros b; keeps].
  apply al_run_keeps; [by rewrite E1|rewrite E2; by apply Hw].
Qed.

Section Requests.
Context (wr : list Z -> bool) (sched : nat -> queue -> queue) (fuel : nat) (net_ok uart_ok sms_ok : bool)
  (now now' tz : Z) (junk_id junk_name : string).

Lemma action_add_timertask_keeps n r : minute_ok now -> minute_ok now' ->
  arg_ok (r_mac r) -> arg_ok (r_name r) -> (forall p, param1 r = Some p -> arg_ok p) ->
  0 <= atoi (r_group r) -> (forall p, param2 r = Some p -> 0 <= atoi p) ->
  keeps (home n) (action_add_timertask now now' tz r).
Proof.
  intros Hnow Hnow' Hm Hn Hp1 Hg Hp2. pose proof (atoi_range (r_group r)) as Rg. unfold INT_MIN, INT_MAX in Rg.
  unfold action_add_timertask, atoi_ptr. apply post_lift. intros mac [-> _]%fits_some.
  apply post_lift. intros name [-> _]%fits_some. apply post_lift. intros happen Hh.
  destruct (param1 r) as [p|]; [|done]. apply fits_some in Hh as [-> _]. specialize (Hp1 p eq_refl).
  apply post_lift. intros per _. apply post_lift. intros how Hhow. destruct (param2 r) as [q|]; [|done]. injection Hhow as <-.
  specialize (Hp2 q eq_refl). pose proof (atoi_range q) as Rq. unfold INT_MIN, INT_MAX in Rq. cbv zeta.
  assert (item_ok (mk_item 0 (r_mac r) (r_name r) (u8 per) p (u8 (atoi (r_cmd r))) (u32 (atoi (r_group r))) (u32 (atoi q)) 0 "")) as Hit.
  { unfold item_ok, INT_MAX. cbn [dev_mac dev_name happen_time period action tipinfo howlong]. rewrite !u32_small by lia.
    split; [done|]. split; [done|]. split; [done|]. split; [apply u8_range|]. split; [apply u8_range|lia]. }
  apply post_keeps; [by apply AddOneTimerTask_keeps|]. intros ok. destruct (ok && _); [|keeps].
  apply post_lift. intros after Hafter%TimeAdd_arg. apply post_keeps; [|intros b; keeps]. apply AddOneTimerTask_keeps; [|done].
  unfold item_ok, INT_MAX. cbn [dev_mac dev_name happen_time period action tipinfo howlong]. rewrite u32_small by lia.
  split; [done|]. split; [done|]. split; [done|]. split; [apply u8_range|]. split; [|lia].
  unfold byte_range, CMD_SW_OPEN, CMD_SW_CLOSE. case_match; lia.
Qed.

Lemma action_dev_add_post n r t : n < INT_MAX -> arg_ok (r_mac r) -> arg_ok (r_name r) -> arg_ok (r_group r) ->
  post (home n) (action_dev_add net_ok r t) (fun _ => home (n + 1)).
Proof.
  intros Hn Hm Hna Hg. unfold action_dev_add, atoi_ptr. destruct (split_name (r_name r)) as [[name|] [unicode|]] eqn:E;
    try solve [apply keeps_up; keeps]. destruct (split_name_arg _ _ _ Hna E) as [H1 H2].
  apply post_lift. intros number _. apply post_lift. intros type _.
  eapply post_bind; [apply (run_cmd_post n (CAdd (r_mac r) name unicode (r_group r) (u8 number) (u8 type))); [|done]|].
  - repeat split; try apply u8_range; first [apply Hm|apply H1|apply H2|apply Hg].
  - intros ret. destruct ret; unfold write_client; keeps.
Qed.

Lemma action_dev_remove_post n r t : n < INT_MAX -> arg_ok (r_mac r) -> arg_ok (r_name r) ->
  post (home n) (action_dev_remove net_ok r t) (fun _ => home (n + 1)).
Proof.
  intros Hn Hm Hna. unfold action_dev_remove.
  eapply post_bind; [by apply (reg_bool_post n (CRemove (r_mac r) (r_name r)))|]. intros ret. keeps.
Qed.

Lemma action_dev_edit_post n r t : n < INT_MAX -> arg_ok (r_mac r) -> arg_ok (r_name r) -> (forall p, param1 r = Some p -> arg_ok p) ->
  post (home n) (action_dev_edit net_ok r t) (fun _ => home (n + 1)).
Proof.
  intros Hn Hm Hna Hp. unfold action_dev_edit. destruct (split_name (r_name r)) as [[name|] [unicode|]] eqn:E;
    try solve [apply keeps_up; keeps]. destruct (param1 r) as [old|]; [|apply keeps_up; keeps].
  destruct (split_name_arg _ _ _ Hna E) as [H1 H2].
  eapply post_bind; [by apply (reg_bool_post n (CRename (r_mac r) old name unicode)); [|split_and!; auto|]|].
  intros ret. keeps.
Qed.

Lemma handle_action_post n r : n < INT_MAX -> minute_ok now -> minute_ok now' -> request_ok r ->
  post (home n) (handle_action wr sched fuel net_ok uart_ok sms_ok now now' tz junk_id junk_name r) (fun _ => home (n + 1)).
Proof.
  intros Hn Hnow Hnow' (Hm & Hna & Hg & Hp1 & Hal & Htt). unfold handle_action. cbv zeta.
  set (t := atoi (user_action r)) in *.
  destruct (Z.eqb_spec t ACTION_DEV_ADD); [by apply action_dev_add_post|].
  destruct (Z.eqb_spec t ACTION_DEV_REMOVE); [by apply action_dev_remove_post|].
  destruct (Z.eqb_spec t ACTION_DEV_ADD_GROUP).
  { apply post_unit. by apply (reg_bool_post n (CAddGroup (r_group r))). }
  destruct (Z.eqb_spec t ACTION_DEV_EDIT); [by apply action_dev_edit_post|].
  destruct (Z.eqb_spec t ACTION_GET_ALARM_LIST); [apply keeps_up, action_list_keeps; auto with keeps|].
  destruct (Z.eqb_spec t ACTION_GET_DEV_LIST); [apply keeps_up, action_list_keeps; auto with keeps|].
  destruct (Z.eqb_spec t ACTION_GET_CITY_ID).
  { apply keeps_up. unfold action_get_city_id, write_client. keeps. }
  destruct (Z.eqb_spec t ACTION_DEV_CONTROL).
  { apply keeps_up. unfold action_dev_control, atoi_ptr. destruct uart_ok; [|keeps]. apply post_lift. intros type _.
    apply post_lift. intros number _. apply post_keeps; [|intros b; keeps]. apply ForwardControlToUart_keeps; [done|done|apply u8_range]. }
  destruct (Z.eqb_spec t ACTION_SEND_MSG).
  { apply keeps_up. unfold action_send_msg. destruct sms_ok; keeps. }
  destruct (Z.eqb_spec t ACTION_ALARM_ADD) as [E|].
  { apply keeps_up, (action_alarm_keeps n _ AAdd); [done|done|]. apply Hal. rewrite E. apply list_elem_of_In. cbn. auto. }
  destruct (Z.eqb_spec t ACTION_ALARM_LOCK) as [E|].
  { apply keeps_up, (action_alarm_keeps n _ (AState ALARM_LOCK)); [done|done|]. apply Hal. rewrite E. apply list_elem_of_In. cbn. auto. }
  destruct (Z.eqb_spec t ACTION_ALARM_UNLOCK) as [E|].
  { apply keeps_up, (action_alarm_keeps n _ (AState ALARM_UNLOCK)); [done|done|]. apply Hal. rewrite E. apply list_elem_of_In. cbn. auto. }
  destruct (Z.eqb_spec t ACTION_ALARM_DELETE) as [E|].
  { apply keeps_up, (action_alarm_keeps n _ ADelete); [done|done|]. apply Hal. rewrite E. apply list_elem_of_In. cbn. auto. }
  destruct (Z.eqb_spec t ACTION_GET_ALL_GROUP_NAME); [apply keeps_up, action_list_keeps; auto with keeps|].
  destruct (Z.eqb_spec t ACTION_UPDATE_DEV_GROUP).
  { apply post_unit. by apply (reg_bool_post n (CRegroup (r_mac r) (r_name r) (r_group r))). }
  destruct (Z.eqb_spec t ACTION_SET_GROUP_ID); [apply keeps_up; unfold action_set_group_id; keeps|].
  destruct (Z.eqb_spec t ACTION_GET_GROUP_ID); [apply keeps_up; unfold action_get_group_id, write_client; keeps|].
  destruct (Z.eqb_spec t ACTION_ADD_TIMERTASK) as [E|].
  { destruct (Htt E). apply keeps_up. by apply action_add_timertask_keeps. }
  destruct (Z.eqb_spec t ACTION_DELETE_TIMERTASK).
  { apply keeps_up, post_keeps; [|intros b; keeps]. apply DeleteOneTimerTaskByID_keeps. unfold INT_MAX. lia. }
  destruct (Z.eqb_spec t ACTION_GET_TIMERTASK_INFO); [apply keeps_up, action_list_keeps; auto with keeps|].
  destruct (Z.eqb_spec t ACTION_SW_GET_STATE).
  { apply keeps_up. unfold action_sw_get_state, atoi_ptr, write_client. apply post_lift. intros number _.
    apply post_keeps; [apply SWGetCurrentState_keeps; [done|done|apply u8_range]|]. intros state. keeps. }
  destruct (t =? ACTION_QUIT); apply keeps_up; keeps.
Qed.

Lemma client_thread_post n received : n < INT_MAX -> minute_ok now -> minute_ok now' -> client_ok received ->
  post (home n) (client_thread wr sched fuel net_ok uart_ok sms_ok now now' tz junk_id junk_name received) (fun _ => home (n + 1)).
Proof.
  intros Hn Hnow Hnow' Hc. unfold client_thread, close_client. destruct received as [text|]; [|apply keeps_up; keeps].
  apply post_lift. intros buffer [-> _]%fits_some. apply post_keeps; [keeps|]. intros _.
  destruct (cJSON_Parse text) as [root rest| | |] eqn:Ep; [|apply keeps_up; keeps|by intros s x s'..].
  apply post_lift. intros [r|] Hr; [|apply keeps_up; keeps]. unfold serve_request, close_client, write_client.
  eapply post_bind; [apply handle_action_post; [done..|by eapply Hc]|]. intros o. keeps.
Qed.
End Requests.

(** ** The threads of an alarm *)

Lemma receivers_column_keeps n (b : charbuf) {HB : BufQuiet b} text w (p : al_row -> bool) :
  parse_sql text = Some [SSelect (Some ["f_value"]) "alarmtable" (Some w) None] ->
  (forall x, holds alarm_cols w (enc_al x) = Some (p x)) -> keeps (home n) (comma_column alarm_open user_file b text).
Proof.
  intros Hp Hw. apply receivers_opening. intros l rest. apply sees_out, post_keeps; [|intros r; unfold for_rows; keeps].
  eapply user_query_post, (query_filter _ _ _ _ _ _ _ p); [exact Hp|apply alarm_db_table|exact Hw|reflexivity].
Qed.

Lemma send_mail_thread_keeps n dns_ok mail_sent : keeps (home n) (send_mail_thread dns_ok mail_sent).
Proof.
  unfold send_mail_thread. apply post_keeps; [|intros _; keeps].
  eapply (receivers_column_keeps n email_list_buf _ (EAnd (EEq (ECol "f_type") (ELit (VText "email"))) (EEq (ECol "f_state") (ELit (VText "o"))))
    (is_open "email")); [reflexivity|].
  intros x. unfold is_open. cbn. by destruct (String.eqb _ "email"), (String.eqb _ "o").
Qed.

Lemma send_msg_thread_keeps n ok stale_name stale_value : keeps (home n) (send_msg_thread ok stale_name stale_value).
Proof.
  unfold send_msg_thread. destruct (negb ok); [keeps|]. apply post_sprintf. intros _. apply post_keeps; [|intros _; keeps].
  eapply (receivers_column_keeps n mobile_list_buf _ (EAnd (EEq (ECol "f_type") (ELit (VText "mobile"))) (EEq (ECol "f_state") (ELit (VText "o"))))
    (is_open "mobile")); [reflexivity|].
  intros x. unfold is_open. cbn. by destruct (String.eqb _ "mobile"), (String.eqb _ "o").
Qed.

(** ** All steps *)

Definition daemon_ok (n : Z) (d : daemon) : Prop := home n (d_main d) /\ quote_free (d_line d) = true /\ sms_ok (d_sms d).

Lemma uart_thread_start_keeps n : keeps (home n) uart_thread_start.
Proof. unfold uart_thread_start, on_uart'. apply on_uart_keeps. by intros u x u' [= _ <-]. Qed.

(** A thread that waits has sent a frame of some device type. *)
Lemma write_frame_keeps wr n f : frame_ok f -> keeps (home n) (write_frame wr f).
Proof.
  intros Hf. unfold write_frame. apply post_keeps; [|intros ?; keeps]. unfold on_uart'. apply on_uart_keeps.
  intros u x u' [= _ <-] Hu. cbn [sent]. apply Forall_app. split; [done|]. by apply Forall_singleton.
Qed.

Lemma begins_keeps wr n b : begins wr b -> keeps (home n) b.
Proof.
  assert (forall ip cmd k, byte_range k -> frame_ok (switch_frame (Some ip) cmd k)) as Hsw
    by (intros ip cmd k Hk; exists cmd_SW, (Some ip); by apply switch_frame_for).
  intros [mac name cmd k Hm Hn Hk|mac name k Hm Hn Hk|id cmd Hid]; unfold begin_command, begin_text.
  - apply post_keeps; [keeps|]. intros b1. destruct (negb b1); [keeps|]. apply post_keeps; [keeps|]. intros [ip|]; [|keeps].
    by apply write_frame_keeps, Hsw.
  - apply post_keeps; [keeps|]. intros b1. destruct (negb b1); [keeps|]. apply post_keeps; [keeps|]. intros [ip|]; [|keeps].
    apply write_frame_keeps. exists cmd_SW, (Some ip). by apply get_state_frame_for.
  - eapply post_bind; [by apply GetIPAndDevNumberByID_post|]. intros [[ip k]|]; apply post_pre; intros Hk; [|keeps].
    apply write_frame_keeps, Hsw. by eapply Hk.
Qed.

Lemma daemon_step_ok st threads n d d' : n < INT_MAX -> daemon_ok n d -> daemon_step st threads d d' -> daemon_ok (n + 1) d'.
Proof.
  intros Hn (Hd & Hq & Hm) Hs.
  destruct Hs as [wr sched fuel net_ok now now' tz junk_id junk_name received s s' run line m _ Hc Hnow Hnow' E
    |s s' m _ E|net_ok pieces s s' line line' m _ Hp E|slack charset0 buffer s s' run line m m' _ Hb E
    |wr sched fuel stale s s' run line m m' E
    |wr sched fuel now s s' run line m _ Hnow E|wr b o s s' run line m Hb E|f k got q s run line m E|dns_ok mail_sent s s' run line m _ E
    |name stale_name stale_value s s' run line m _ E]; cbn [d_main d_line d_sms] in Hd, Hq, Hm; unfold daemon_ok; cbn [d_main d_line d_sms].
  - split; [|done].
    exact (client_thread_post wr sched fuel net_ok _ _ now now' tz junk_id junk_name n received Hn Hnow Hnow' Hc s tt s' Hd E).
  - split; [|done]. exact (keeps_up n _ (uart_thread_start_keeps n) s tt s' Hd E).
  - destruct (uart_round_post n net_ok pieces line Hn Hq Hp s line' s' Hd E) as [? ?]. done.
  - destruct (sms_turn_post n slack charset0 buffer m Hb Hm s m' s' Hd E) as [Hm' Hs']. split; [|done]. eapply home_le; [|exact Hs']. lia.
  - destruct (sms_thread_post wr sched fuel n stale m Hm s m' s' Hd E) as [Hm' Hs']. split; [|done]. eapply home_le; [|exact Hs']. lia.
  - split; [|done]. exact (keeps_up n _ (timer_turn_keeps wr sched fuel n _ now Hnow) s tt s' Hd E).
  - split; [|done]. exact (keeps_up n _ (begins_keeps wr n b Hb) s o s' Hd E).
  - split; [|done]. eapply (home_le n); [lia|]. destruct Hd. by split.
  - split; [|done]. exact (keeps_up n _ (send_mail_thread_keeps n dns_ok mail_sent) s tt s' Hd E).
  - split; [|done]. exact (keeps_up n _ (send_msg_thread_keeps n _ stale_name stale_value) s tt s' Hd E).
Qed.

Lemma main_quiet led zigbee configured gsm now : quiet (main led zigbee configured gsm now).
Proof. unfold main, app_init, sms_init. quiet. Qed.

(** Files without tables and a serial line that has sent nothing. *)
Lemma home_new (s : dm_state) : ready (f_dev s) -> ready (f_user s) -> view (f_dev s) = ∅ -> view (f_user s) = ∅ ->
  sent (uart_st s) = [] -> home 0 s.
Proof.
  intros Hr Hu Hv Hvu Hs. split; [done|done| | | |by rewrite Hs].
  - exists empty_registry. rewrite Hv. split; [exists ∅; apply holds_empty|]. split; [apply empty_registry_inv|]. by repeat split.
  - exists no_timers. rewrite Hv. split; [exists ∅; unfold holds_st; apply map_empty_union|].
    split; [split; [apply Sorted.SSorted_nil|done]|]. done.
  - exists []. rewrite Hvu. split; [|constructor]. exists ∅. unfold holds_st. apply map_empty_union.
Qed.
End Daemon.

(** C2: Started on a consistent state (a new one, for instance), the daemon
    keeps it through any number [n] of steps in any order, as long as the steps
    do not overlap, the requests keep to the clients' codes and texts that fit,
    and no text has a quote; a step is a request, a line, a text message, a
    turn of the timer or the thread of an alarm, each carried out to its end,
    or a command up to the point where its thread waits for a switch.  Then the
    names, addresses and identifiers of the registry stay unique and its rooms
    exist, the timer tasks stay ordered, no receiver is registered twice, and
    every frame ever written to the serial line is a frame of some device type,
    with any behaviour of the network and the serial line. *)
Theorem daemon_stays_consistent {SQ : Sqlite} {SL : SqliteLaws SQ} (led zigbee configured gsm : bool) (now k : Z) (s0 s1 : dm_state)
    (st : app_status_t) (threads : list thread) (n : nat) (d : daemon) :
  home k s0 -> main led zigbee configured gsm now s0 = Some ((st, threads), s1) ->
  daemon_reaches st threads n (mk_daemon s1 false "" (mk_sms "" None 0)) d -> k + Z.of_nat n <= INT_MAX ->
  home (k + Z.of_nat n) (d_main d) /\ quote_free (d_line d) = true.
Proof.
  intros Hk Hmain Hr Hn. assert (daemon_ok k (mk_daemon s1 false "" (mk_sms "" None 0))) as H0.
  { split; [|done]. eapply (keeps_quiet (home k)); [apply main_quiet|exact Hk|exact Hmain]. }
  clear Hk Hmain. remember (mk_daemon s1 false "" (mk_sms "" None 0)) as d0 eqn:E. clear E. revert k H0 Hn.
  induction Hr as [d|n d d1 d2 Hs Hr IH]; intros k H0 Hn; [rewrite Z.add_0_r; by destruct H0 as (?&?&?)|].
  replace (k + Z.of_nat (Datatypes.S n)) with (k + 1 + Z.of_nat n) by lia. apply IH; [|lia].
  eapply daemon_step_ok; [|exact H0|exact Hs]. lia.
Qed.

(** A new daemon with a coordinator and without a modem; a client adds a room
    and the coordinator announces a module. *)
Definition state_after {A} (m : M (dm_state (H := RefSqlite)) A) (s : dm_state (H := RefSqlite)) : dm_state (H := RefSqlite) :=
  match m s with Some (_, s) => s | None => s end.
Definition returns {A} (m : M (dm_state (H := RefSqlite)) A) (s : dm_state (H := RefSqlite)) : option A := fst <$> m s.

Lemma returns_run {A} (m : M (dm_state (H := RefSqlite)) A) s x : returns m s = Some x -> m s = Some (x, state_after m s).
Proof. unfold returns, state_after. destruct (m s) as [[y s']|]; [|done]. cbn. by intros [= ->]. Qed.

Definition sample_status : app_status_t := mk_app_status false true true "2014-12-31 23:30" true.
Definition sample_threads : list thread := [Timer_Thread; Uart_Thread; Socket_Thread].
Definition sample_main : M (dm_state (H := RefSqlite)) (app_status_t * list thread) := main true true true false 23667810.
Definition sample_started : dm_state (H := RefSqlite) := state_after sample_main (sample_dm ∅).

Definition room_text : string := Eval vm_compute in sample_text ["phone"; "14"; ""; ""; ""; ""; "hall"; ""; ""].
Definition sample_client : M (dm_state (H := RefSqlite)) unit :=
  client_thread (fun _ => true) (fun _ q => q) 1 true true false 23667810 23667810 0 "" "" (Some room_text).
Definition sample_line : M (dm_state (H := RefSqlite)) string := uart_round true ["*01,3F2A,"; "0013A200" +:+ String "013" (String "010" "#")] "".
Definition sample_daemon : daemon (H := RefSqlite) :=
  mk_daemon (H := RefSqlite) (state_after sample_line (state_after uart_thread_start (state_after sample_client sample_started))) true "*01" (mk_sms "" None 0).

Lemma daemon_stays_consistent_witness :
  home (SL := RefSqliteLaws) (0 + Z.of_nat 3) (d_main sample_daemon) /\ quote_free (d_line sample_daemon) = true.
Proof.
  apply (daemon_stays_consistent (SL := RefSqliteLaws) true true true false 23667810 0 (sample_dm ∅) sample_started
    sample_status sample_threads 3 sample_daemon).
  - apply (home_new (SL := RefSqliteLaws)); [change (db_wf ∅); apply map_Forall_empty..|reflexivity|reflexivity|reflexivity].
  - apply (returns_run sample_main). vm_compute. reflexivity.
  - eapply nsteps_l; [|eapply nsteps_l; [|eapply nsteps_l; [|apply nsteps_O]]].
    + apply (step_client _ _ (fun _ => true) (fun _ q => q) 1 true 23667810 23667810 0 "" "" (Some room_text) sample_started
        (state_after sample_client sample_started) false).
      * apply list_elem_of_In. cbn. auto.
      * intros text root rest r [= <-] Hp Hr. vm_compute in Hp. injection Hp as <- <-. vm_compute in Hr. injection Hr as <-.
        assert (atoi "14" = 14) as Ea by reflexivity. unfold request_ok. cbn [user_action r_mac r_name r_group param1 param2 r_type].
        rewrite Ea. assert (arg_ok "" /\ arg_ok "hall") as [A1 A2] by (split; split; [done|cbn; lia|done|cbn; lia]).
        split; [exact A1|]. split; [exact A1|]. split; [exact A2|]. split; [intros p [= <-]; exact A1|]. split; [|discriminate].
        intros Hin%list_elem_of_In. cbn in Hin. exfalso. clear -Hin. intuition discriminate.
      * vm_compute. split; [discriminate|reflexivity].
      * vm_compute. split; [discriminate|reflexivity].
      * apply (returns_run sample_client). vm_compute. reflexivity.
    + apply (step_start _ _ (state_after sample_client sample_started)
        (state_after uart_thread_start (state_after sample_client sample_started))).
      * apply list_elem_of_In. cbn. auto.
      * apply (returns_run uart_thread_start). vm_compute. reflexivity.
    + apply (step_line _ _ true ["*01,3F2A,"; "0013A200" +:+ String "013" (String "010" "#")]).
      * apply list_elem_of_In. cbn. auto.
      * split; [by repeat constructor|]. intros ok b Hr. vm_compute in Hr. injection Hr as <- <-. vm_compute. lia.
      * apply (returns_run sample_line). vm_compute. reflexivity.
  - vm_compute. discriminate.
Defined.

(** ** Requests that overlap *)

(** [AddDevToStaticTable] after its look into the table. *)
Definition finish_add `{Sqlite} (ret : DEV_ADD_RETURN) (mac name unicode groupname : string) (dev_number type : Z) : DM DEV_ADD_RETURN :=
  if decide (ret = DEV_ADD_OK) then
    _ ← AddDevGroupName groupname;
    g ← GetGroupIDByName groupname;
    match g with
    | None => mret DEV_ADD_FAIL
    | Some group_id =>
        ok ← insertIntoStaticTable mac name unicode group_id dev_number type;
        mret (if ok : bool then DEV_ADD_OK else DEV_ADD_FAIL)
    end
  else mret ret.

Lemma add_in_two `{Sqlite} mac name unicode groupname dev_number type :
  AddDevToStaticTable mac name unicode groupname dev_number type =
    (ret ← isMacOrNameExist (Some mac) (Some name) dev_number; finish_add ret mac name unicode groupname dev_number type).
Proof. reflexivity. Qed.

(** Two clients add a device of the same name, and both look before either
    inserts: the registry then has two devices of that name. *)
Definition two_adds : M (dm_state (H := RefSqlite)) (DEV_ADD_RETURN * DEV_ADD_RETURN * nat) :=
  r1 ← isMacOrNameExist (Some "0013A201") (Some "lamp") 1;
  r2 ← isMacOrNameExist (Some "0013A202") (Some "lamp") 1;
  a ← finish_add r1 "0013A201" "lamp" "706F" "hall" 1 0;
  b ← finish_add r2 "0013A202" "lamp" "706F" "hall" 1 0;
  r ← db_get_table dev_file "select * from statictable where F_NAME='lamp'";
  mret (a, b, row_num r).

Lemma adds_overlap : returns two_adds (sample_dm ∅) = Some (DEV_ADD_OK, DEV_ADD_OK, 2%nat).
Proof. vm_compute. reflexivity. Qed.
