(* ===== verification/TimerLoop.v ===== *)
(** * The timer's loop and its workers (src/src/dev_manage/timertask.c)

    The thread of [TimerTaskRun] starts a worker and sleeps for sixty seconds.
    The worker, a detached thread, reads the clock when it comes to run, finds
    the tasks of that minute and sends their commands one after the other,
    waiting for the echo of each; so workers run beside each other, one may
    wait for ever, and what matters is in which minute each reads the clock. *)

From stdpp Require Import base list strings gmap sets.
From Stdlib Require Import ZArith Lia Ascii Sorting.Sorted.
From S2P Require Import Prelude CString Calendar Sql UartQueue DevControl DevState DbTriple DbStore DevDb DevReg DevRegProps Timer UartCommon UartLines Daemon.

Open Scope Z_scope.

(** ** Times and their texts *)

Lemma app_inj_length (a b c d : string) : String.length a = String.length c -> a +:+ b = c +:+ d -> a = c /\ b = d.
Proof.
  revert c. induction a as [|x a IH]; intros [|y c] Hl E; try done. cbn in E. injection E as -> E. injection Hl as Hl.
  by destruct (IH c Hl E) as [-> ->].
Qed.

Lemma two_figures_inj a b : 0 <= a < 100 -> 0 <= b < 100 -> fmt_d_prec 2 a = fmt_d_prec 2 b -> a = b.
Proof. intros Ha Hb E. apply (f_equal atoi) in E. rewrite !atoi_fmt_d_prec in E by (unfold INT_MAX; lia). done. Qed.

(** Different minutes have different texts. *)
Lemma fmt_time_inj a b : minute_ok a -> minute_ok b -> fmt_time (minutes_tm a) = fmt_time (minutes_tm b) -> a = b.
Proof.
  unfold minute_ok. intros Ya Yb E. pose proof (minutes_tm_range a) as (A1 & A2 & A3 & A4). pose proof (minutes_tm_range b) as (B1 & B2 & B3 & B4).
  rewrite <- (tm_minutes_minutes_tm a), <- (tm_minutes_minutes_tm b). f_equal.
  destruct (minutes_tm a) as [ya ma da ha ia], (minutes_tm b) as [yb mb db hb ib]. unfold fmt_time in E. cbn in *.
  assert (forall x y, 0 <= x < 10000 -> 0 <= y < 10000 -> String.length (fmt_d_prec 4 x) = String.length (fmt_d_prec 4 y)) as L4
    by (intros x y Hx Hy; by rewrite !(fmt_d_prec_length 4) by (try (change (10 ^ Z.of_nat 4) with 10000); lia)).
  assert (forall x y, 0 <= x < 100 -> 0 <= y < 100 -> String.length (fmt_d_prec 2 x) = String.length (fmt_d_prec 2 y)) as L2
    by (intros x y Hx Hy; by rewrite !(fmt_d_prec_length 2) by (try (change (10 ^ Z.of_nat 2) with 100); lia)).
  apply app_inj_length in E as [E1 E]; [|apply L4; lia]. injection E as E.
  apply app_inj_length in E as [E2 E]; [|apply L2; lia]. injection E as E.
  apply app_inj_length in E as [E3 E]; [|apply L2; lia]. injection E as E.
  apply app_inj_length in E as [E4 E]; [|apply L2; lia]. injection E as E.
  apply (f_equal atoi) in E1. rewrite !atoi_fmt_d_prec in E1 by (unfold INT_MAX; lia).
  apply two_figures_inj in E2, E3, E4, E; [|lia..]. f_equal; lia.
Qed.

(** ** Wakes *)

Definition minute_of (w : Z) : Z := w / 60000000.

(** The thread sleeps [timer_sleep] at least between two looks. *)
Definition spaced (wakes : list Z) : Prop := StronglySorted (fun a b => a + timer_sleep <= b) wakes.

(** Is the task due at the time of this text, on the day of the week of [t]? *)
Definition due_for (curr : string) (t : Z) (x : task) : bool :=
  due curr (String.substring 11 (String.length curr - 11) curr) (weekday_of (minute_of t)) x.

(** Is it due at the time [w]? *)
Definition due_at (w : Z) (x : task) : bool := due_for (fmt_time (minutes_tm (minute_of w))) w x.

Lemma due_single curr w x : t_period x = 0 -> due_for curr w x = String.eqb (t_time x) curr.
Proof. intros Hp. unfold due_for, due. rewrite Hp. cbn. by rewrite andb_true_r, andb_false_r, orb_false_r. Qed.

Lemma spaced_minutes w ws : spaced (w :: ws) -> Forall (fun v => minute_of w < minute_of v) ws.
Proof.
  intros H. apply StronglySorted_inv in H as [_ H]. eapply Forall_impl; [exact H|]. intros v Hv. cbn in Hv.
  unfold minute_of, timer_sleep, TIMER_TIME in *. Z.div_mod_to_equations. lia.
Qed.

(** A single task is due at one wake at most. *)
Lemma due_once x wakes : t_period x = 0 -> spaced wakes -> Forall (fun w => minute_ok (minute_of w)) wakes ->
  (length (List.filter (fun w => due_at w x) wakes) <= 1)%nat.
Proof.
  intros Hp Hs Hm. induction wakes as [|w ws IH]; [cbn; lia|]. pose proof (spaced_minutes w ws Hs) as Hlt.
  apply StronglySorted_inv in Hs as [Hs _]. apply Forall_cons in Hm as [Hw Hm]. cbn [List.filter].
  destruct (due_at w x) eqn:E; [|by apply IH]. enough (List.filter (fun v => due_at v x) ws = []) as -> by (cbn; lia).
  unfold due_at in *. rewrite due_single in E by done. apply String.eqb_eq in E. clear IH Hs.
  induction ws as [|v ws IH]; [done|]. apply Forall_cons in Hlt as [Hv Hlt]. apply Forall_cons in Hm as [Hmv Hm]. cbn [List.filter].
  rewrite due_single by done. destruct (String.eqb_spec (t_time x) (fmt_time (minutes_tm (minute_of v)))) as [E'|]; [|by apply IH].
  rewrite E in E'. apply fmt_time_inj in E'; [lia|done|done].
Qed.

(** ** The loop and its workers *)

(** A worker: started at [wake]; having read the clock at [read], with the day
    of the week in a variable of its own; or with the tasks it found for the
    text [curr], of which [i] are done, and the frame whose echo it waits for. *)
Inductive worker :=
  | Started (wake : Z)
  | Clocked (wake read : Z)
  | Looked (wake read : Z) (curr : string) (items : list timertask_item_t) (i : nat) (waits : option (list Z)).

(** The daemon's state, [app_status.CurrentTime], which the workers share, the
    workers, and the time before which the thread does not wake up again;
    times are in microseconds. *)
Record timer_sys `{Sqlite} := mk_timer { ts_main : dm_state; ts_time : string; ts_workers : list worker; ts_next : Z }.
Arguments mk_timer {_}.

(** [TimerTaskRun] wakes up; a worker reads the clock, writing the shared text;
    looks for the tasks of the text that is there now; sends the command of its
    next task; or gets the echo it waits for.  The other threads change the
    table of answers as they like. *)
Inductive timer_step `{Sqlite} (wr : list Z -> bool) (st : app_status_t) : timer_sys -> timer_sys -> Prop :=
  | wakes_up s c ws next w :
      isTimerTaskRun st = true -> next <= w ->
      timer_step wr st (mk_timer s c ws next)
        (mk_timer s c (if isHasTimerTasks st then ws ++ [Started w] else ws) (w + timer_sleep))
  | reads s c ws next k w t :
      ws !! k = Some (Started w) -> w <= t -> minute_ok (minute_of t) ->
      timer_step wr st (mk_timer s c ws next) (mk_timer s (fst (GetCurrentTime (minute_of t))) (<[k := Clocked w t]> ws) next)
  | looks s c ws next k w t nums items s' :
      ws !! k = Some (Clocked w t) ->
      GetValidThingsToDo c (snd (GetCurrentTime (minute_of t))) s = Some ((nums, items), s') ->
      timer_step wr st (mk_timer s c ws next) (mk_timer s' c (<[k := Looked w t c (take (Z.to_nat nums) items) 0 None]> ws) next)
  | sends s c ws next k w t curr items i item o s' :
      ws !! k = Some (Looked w t curr items i None) -> items !! i = Some item ->
      begin_command wr (dev_mac item) (dev_name item) (fun ip => switch_frame (Some ip) (u8 (action item)) (u8 (devnumber item))) s = Some (o, s') ->
      timer_step wr st (mk_timer s c ws next) (mk_timer s' c (<[k := Looked w t curr items (S i) o]> ws) next)
  | echoed s c ws next k w t curr items i f got q :
      ws !! k = Some (Looked w t curr items i (Some f)) -> uart_check f 6 6 (table (uart_st s)) = Some (got, q) ->
      timer_step wr st (mk_timer s c ws next)
        (mk_timer (set_uart (mk_uart (sent (uart_st s)) q) s) c (<[k := Looked w t curr items i None]> ws) next)
  | others s c ws next q :
      timer_step wr st (mk_timer s c ws next) (mk_timer (set_uart (mk_uart (sent (uart_st s)) q) s) c ws next).

(** ** What the workers have done *)

Definition wake_of (k : worker) : Z := match k with Started w | Clocked w _ | Looked w _ _ _ _ _ => w end.

(** The text of some minute. *)
Definition time_text (c : string) : Prop := exists m, minute_ok m /\ c = fmt_time (minutes_tm m).

(** [l] is what the worker has carried out: some of the tasks due for the text
    it looked with, each once. *)
Definition did (g : registry) (ts : list task) (k : worker) (l : list task) : Prop :=
  match k with
  | Started _ => l = []
  | Clocked w t => w <= t /\ minute_ok (minute_of t) /\ l = []
  | Looked w t curr items i _ => w <= t /\ time_text curr /\ exists l', l' ≡ₚ List.filter (due_for curr t) ts /\ items = item_of g <$> l' /\ l = take i l'
  end.

(** Did the worker look for tasks with a text at which the task is due? *)
Definition looked_at (x : task) (k : worker) : bool := match k with Looked _ t curr _ _ _ => due_for curr t x | _ => false end.

(** The worker looked in the minute in which it was started: with its text. *)
Definition prompt (k : worker) : Prop :=
  match k with Looked w _ curr _ _ _ => curr = fmt_time (minutes_tm (minute_of w)) /\ minute_ok (minute_of w) | _ => True end.

Definition times (x : task) (l : list task) : nat := length (List.filter (fun y => Z.eqb (t_id y) (t_id x)) l).

Lemma times_app x l l' : times x (l ++ l') = (times x l + times x l')%nat.
Proof. unfold times. by rewrite List.filter_app, length_app. Qed.

Lemma times_perm x l l' : l ≡ₚ l' -> times x l = times x l'.
Proof. unfold times. induction 1; cbn; repeat case_match; cbn; congruence || lia. Qed.

Lemma times_member (l : list task) x : NoDup (t_id <$> l) -> x ∈ l -> times x l = 1%nat.
Proof.
  intros Hnd Hx. induction l as [|y l IH]; [by apply elem_of_nil in Hx|]. csimpl in Hnd. apply NoDup_cons in Hnd as [Hy Hnd].
  unfold times. cbn [List.filter]. apply elem_of_cons in Hx as [<-|Hx].
  - rewrite Z.eqb_refl. cbn [length]. destruct (List.filter _ l) as [|z r] eqn:Ef; [done|]. assert (In z (z :: r)) as Hz by (by left).
    rewrite <- Ef in Hz. apply List.filter_In in Hz as [Hz Ez%Z.eqb_eq]. exfalso. apply Hy. rewrite <- Ez.
    apply list_elem_of_fmap. exists z. split; [done|by apply list_elem_of_In].
  - destruct (Z.eqb_spec (t_id y) (t_id x)) as [E|]; [|by apply IH]. exfalso. apply Hy. rewrite E. apply list_elem_of_fmap. eauto.
Qed.

Lemma times_filter (l : list task) p x : NoDup (t_id <$> l) -> x ∈ l -> (times x (List.filter p l) <= if p x then 1 else 0)%nat.
Proof.
  intros Hnd Hx. assert (forall l', times x (List.filter p l') <= times x l')%nat as Hle.
  { intros l'. unfold times. induction l' as [|y l' IH]; [done|]. cbn [List.filter]. destruct (p y); cbn [List.filter]; destruct (_ =? _); cbn; lia. }
  destruct (p x) eqn:Ep; [rewrite <- (times_member l x Hnd Hx); apply Hle|].
  destruct (times x (List.filter p l)) as [|n] eqn:En; [done|]. exfalso. unfold times in En.
  destruct (List.filter (fun y => t_id y =? t_id x) (List.filter p l)) as [|z r] eqn:Ef; [done|].
  assert (In z (z :: r)) as Hz by (by left). rewrite <- Ef in Hz. apply List.filter_In in Hz as [Hz Ez%Z.eqb_eq]. apply List.filter_In in Hz as [Hz Hpz].
  enough (z = x) by congruence. apply list_elem_of_In in Hz. clear -Hnd Hz Hx Ez.
  induction l as [|y l IH]; [by apply elem_of_nil in Hx|]. csimpl in Hnd. apply NoDup_cons in Hnd as [Hy Hnd].
  apply elem_of_cons in Hx as [->|Hx], Hz as [->|Hz]; try done; [| |by apply IH].
  - exfalso. apply Hy. rewrite <- Ez. apply list_elem_of_fmap. eauto.
  - exfalso. apply Hy. rewrite Ez. apply list_elem_of_fmap. eauto.
Qed.

(** A task is carried out at most as often as a worker reads the clock while
    it is due. *)
Lemma times_did g ts ws ls x : NoDup (t_id <$> ts) -> x ∈ ts -> Forall2 (did g ts) ws ls ->
  (times x (concat ls) <= length (List.filter (looked_at x) ws))%nat.
Proof.
  intros Hnd Hx HF. induction HF as [|k l ws ls Hk HF IH]; [done|]. cbn [concat List.filter]. rewrite times_app.
  enough (times x l <= if looked_at x k then 1 else 0)%nat by (destruct (looked_at x k); cbn [length]; lia).
  destruct k as [w|w t|w t curr items i o]; cbn [did looked_at] in *; [by rewrite Hk|by destruct Hk as (_ & _ & ->)|]. destruct Hk as (_ & _ & l' & Hl' & _ & ->).
  etransitivity; [|by apply (times_filter ts (due_for curr t) x)]. rewrite <- (times_perm x _ _ Hl').
  rewrite <- (take_drop i l') at 2. rewrite times_app. lia.
Qed.

Definition has_looked (k : worker) : bool := match k with Looked _ _ _ _ _ _ => true | _ => false end.

Lemma prompt_looked_at x k : prompt k -> t_period x = 0 -> looked_at x k = has_looked k && due_at (wake_of k) x.
Proof. destruct k as [w|w t|w t curr items i o]; cbn; [done|done|]. intros [-> _] Hp. unfold due_at. by rewrite !due_single. Qed.

Lemma prompt_looks_once ws x : t_period x = 0 -> Forall prompt ws -> spaced (wake_of <$> ws) ->
  (length (List.filter (looked_at x) ws) <= 1)%nat.
Proof.
  intros Hp Hpr Hs. set (looked := List.filter has_looked ws).
  assert (length (List.filter (looked_at x) ws) = length (List.filter (fun w => due_at w x) (wake_of <$> looked))) as ->.
  { unfold looked. clear Hs. induction Hpr as [|k ws Hk Hpr IH]; [done|]. cbn [List.filter]. rewrite prompt_looked_at by done.
    destruct (has_looked k); cbn [andb]; [|exact IH]. csimpl. destruct (due_at _ x); cbn [length]; by rewrite IH. }
  apply due_once; [done| |].
  - unfold looked. clear Hpr. induction ws as [|k ws IH]; [constructor|]. cbn [fmap list_fmap] in Hs. apply StronglySorted_inv in Hs as [Hs Hk].
    specialize (IH Hs). cbn [List.filter]. destruct (has_looked k); cbn [fmap list_fmap]; [|exact IH]. constructor; [exact IH|].
    apply Forall_forall. intros v Hv. rewrite Forall_forall in Hk. apply Hk. apply list_elem_of_fmap in Hv as (k' & -> & Hkin).
    apply list_elem_of_In, List.filter_In in Hkin as [Hkin _]. apply list_elem_of_fmap. exists k'. split; [done|by apply list_elem_of_In].
  - unfold looked. clear Hs. induction Hpr as [|k ws Hk Hpr IH]; [constructor|]. cbn [List.filter].
    destruct k as [w|w t|w t curr items i o]; cbn; [exact IH|exact IH|]. constructor; [apply Hk|exact IH].
Qed.

(** ** The state that the steps keep *)

Section Loop.
Context {S0 : Sqlite} {SL : SqliteLaws S0}.
Context (wr : list Z -> bool) (st : app_status_t) (t : timers) (g : registry).
Context (Hi : reg_inv g) (Hips : short_ips g) (Hok : Forall task_ok (tasks t)).

Lemma both_stored db :
  Home.stored t db -> Home.stored g db -> exists rest rg, holds_st (ST := timer_store) t rest db /\ holds_reg g rg (timer_db t rest).
Proof.
  intros [rest Ht] Hg. assert (holds_st (ST := timer_store) t rest (timer_db t rest)) as Ht' by apply timer_db_full.
  destruct (Home.registry_beside g t t rest _ _ Ht Ht' Hg) as [rg Hrg]. by exists rest, rg.
Qed.

Definition file_ok (file : conn) : Prop := ready file /\ Home.stored t (view file) /\ Home.stored g (view file).

(** A worker's look. *)
Lemma look_finds s c w : file_ok (f_dev s) -> time_text c ->
  let look := GetValidThingsToDo c (snd (GetCurrentTime (minute_of w))) s in
  let l := List.filter (due_for c w) (tasks t) in
  ((length l <= 100)%nat -> exists l' file, l' ≡ₚ l /\ file_ok file /\ look = Some ((Z.of_nat (length l'), item_of g <$> l'), set_f_dev file s)) /\
  ((100 < length l)%nat -> look = None).
Proof.
  intros (Hr & Ht & Hg) (m & Hm & ->) look l. destruct (both_stored _ Ht Hg) as (rest & rg & Hh & Hrg).
  destruct (current_time_ok _ Hm) as [Hq H16]. cbn [GetCurrentTime fst] in Hq, H16.
  assert (Forall task_ok l) as Hokl.
  { apply Forall_self. intros x Hx%elem_of_filter_sub. rewrite Forall_forall in Hok. auto. }
  destruct (due_tasks_found t g rest rg s (fmt_time (minutes_tm m)) (weekday_of (minute_of w)) Hr Hh Hrg Hi) as [H1 H2];
    [split; [done|lia]|lia|unfold weekday_of; case_match; Z.div_mod_to_equations; lia|exact Hokl|].
  split; [|exact H2]. intros Hl. destruct (H1 Hl) as (l' & file & Hl' & Hf & Hgf & E).
  exists l', file. split; [exact Hl'|]. split; [|rewrite (Permutation_length Hl'); exact E]. split; [done|].
  split; [|by exists rg]. eapply (Home.timers_beside t g g rg); [exact Hrg|exact Hgf|]. exists rest. apply timer_db_full.
Qed.

(** A worker's command. *)
Lemma send_sends s x : file_ok (f_dev s) -> task_ok x ->
  exists file o, file_ok file /\
    begin_command wr (t_mac x) (t_name x) (fun ip => switch_frame (Some ip) (u8 (t_action x)) (u8 (reg_number (t_mac x) (t_name x) g))) s =
      Some (o, set_uart (mk_uart (sent (uart_st s) ++ task_frame g x) (table (uart_st s))) (set_f_dev file s)).
Proof.
  intros (Hr & Ht & Hg) (Hm & Hn & _). destruct (both_stored _ Ht Hg) as (rest & rg0 & Hh & Hrg0). destruct Hg as [rg Hg].
  destruct (begin_run g rg s wr (t_mac x) (t_name x)
    (fun ip => switch_frame (Some ip) (u8 (t_action x)) (u8 (reg_number (t_mac x) (t_name x) g))) Hr Hg Hi Hips Hm Hn) as (file & Hf & Hgf & E).
  assert (file_ok file) as Hfile.
  { split; [done|]. split; [|by exists rg]. eapply (Home.timers_beside t g g rg); [exact Hg|exact Hgf|exact Ht]. }
  unfold task_frame. exists file. rewrite E. destruct (device_address (t_mac x) (t_name x) g) as [ip|].
  - eexists. split; [done|]. reflexivity.
  - exists None. split; [done|]. rewrite app_nil_r. by destruct s as [? ? ? ? ? ? ? ? ? ? [] ? ? ?].
Qed.

Record timer_inv (sent0 : list (list Z)) (y : timer_sys) : Prop := {
  ti_file : file_ok (f_dev (ts_main y));
  ti_spaced : spaced (wake_of <$> ts_workers y);
  ti_next : Forall (fun k => wake_of k + timer_sleep <= ts_next y) (ts_workers y);
  ti_time : (exists k w v, ts_workers y !! k = Some (Clocked w v)) -> time_text (ts_time y);
  ti_did : exists ls fr, Forall2 (did g (tasks t)) (ts_workers y) ls /\
    sent (uart_st (ts_main y)) = sent0 ++ fr /\ fr ≡ₚ concat ls ≫= task_frame g
}.

Lemma spaced_snoc ws w : spaced ws -> Forall (fun v => v + timer_sleep <= w) ws -> spaced (ws ++ [w]).
Proof.
  unfold spaced. induction ws as [|v ws IH]; intros Hs Hw; [repeat constructor|]. apply StronglySorted_inv in Hs as [Hs Hv].
  apply Forall_cons in Hw as [Hvw Hw]. cbn. constructor; [by apply IH|]. apply Forall_app. split; [done|by apply Forall_singleton].
Qed.

(** A worker that does not change its start. *)
Lemma replaced ws k x y next : ws !! k = Some x -> wake_of y = wake_of x -> spaced (wake_of <$> ws) ->
  Forall (fun k => wake_of k + timer_sleep <= next) ws ->
  spaced (wake_of <$> <[k := y]> ws) /\ Forall (fun k => wake_of k + timer_sleep <= next) (<[k := y]> ws).
Proof.
  intros Hk Hy Hs Hn. split.
  - rewrite list_fmap_insert, list_insert_id; [done|]. by rewrite list_lookup_fmap, Hk, Hy.
  - apply Forall_insert; [done|]. rewrite Hy. exact (proj1 (Forall_lookup _ _) Hn _ _ Hk).
Qed.

(** The workers' tasks when one of them has done some more. *)
Lemma did_more ws ls k x y l l' more : Forall2 (did g (tasks t)) ws ls -> ws !! k = Some x -> ls !! k = Some l ->
  did g (tasks t) y l' -> l' = l ++ more ->
  Forall2 (did g (tasks t)) (<[k := y]> ws) (<[k := l']> ls) /\ (concat (<[k := l']> ls) ≡ₚ concat ls ++ more).
Proof.
  intros HF Hk Hl Hy ->. split; [by apply Forall2_insert|].
  rewrite insert_take_drop by (by eapply lookup_lt_Some). rewrite <- (take_drop_middle ls k l Hl) at 3.
  rewrite !concat_app. cbn [concat]. rewrite <- !app_assoc. do 2 f_equiv. apply Permutation_app_comm.
Qed.

(** No other worker gets to have only read the clock. *)
Lemma clocked_before (ws : list worker) (k : nat) x : match x with Clocked _ _ => False | _ => True end ->
  (exists (j : nat) w v, <[k := x]> ws !! j = Some (Clocked w v)) -> exists (j : nat) w v, ws !! j = Some (Clocked w v).
Proof.
  intros Hx (j & w & v & Hj). destruct (decide (j = k)) as [->|]; [|exists j, w, v; by rewrite list_lookup_insert_ne in Hj by done].
  rewrite list_lookup_insert_Some in Hj. destruct Hj as [(_ & -> & _)|(? & _)]; done.
Qed.

(** A worker takes a step in which it carries out [more]. *)
Lemma worker_moves sent0 s s' c c' ws k x x' next l l' more : timer_inv sent0 (mk_timer s c ws next) -> ws !! k = Some x ->
  file_ok (f_dev s') -> sent (uart_st s') = sent (uart_st s) ++ (more ≫= task_frame g) -> wake_of x' = wake_of x ->
  (time_text c' \/ c' = c /\ match x' with Clocked _ _ => False | _ => True end) ->
  did g (tasks t) x l -> (forall l0, did g (tasks t) x l0 -> l0 = l) -> did g (tasks t) x' l' -> l' = l ++ more ->
  timer_inv sent0 (mk_timer s' c' (<[k := x']> ws) next).
Proof.
  intros [Hf Hs Hn Hc (ls & fr & HF & Hsent & Hfr)] Hk Hf' Hs' Hwake Htime Hd Hu Hd' Hl'. cbn [ts_main ts_workers ts_next ts_time] in *.
  destruct (Forall2_lookup_l _ _ _ _ _ HF Hk) as (l0 & Hl0 & Hd0). rewrite (Hu _ Hd0) in *.
  destruct (replaced ws k _ x' next Hk Hwake Hs Hn) as [Hsp Hne].
  destruct (did_more ws ls k _ x' l l' more HF Hk Hl0 Hd' Hl') as [HF' Hcat].
  split; cbn [ts_main ts_workers ts_next ts_time]; try done.
  - destruct Htime as [?|[-> Hx']]; [done|]. intros Hex. by apply Hc, (clocked_before ws k x').
  - exists (<[k := l']> ls), (fr ++ (more ≫= task_frame g)). split; [done|]. rewrite Hs', Hsent, <- app_assoc. split; [done|].
    rewrite Hcat, bind_app, Hfr. done.
Qed.

Lemma timer_step_inv sent0 y y' : timer_inv sent0 y -> timer_step wr st y y' -> timer_inv sent0 y'.
Proof.
  intros Hinv Hstep. pose proof Hinv as [Hf Hs Hn Hc (ls & fr & HF & Hsent & Hfr)].
  destruct Hstep as [s c ws next w _ Hw|s c ws next k w v Hk Hle Hm|s c ws next k w v nums items s' Hk E|s c ws next k w v curr items i item o s' Hk Hitem E
    |s c ws next k w v curr items i f got q Hk E|s c ws next q]; cbn [ts_main ts_workers ts_next ts_time] in *.
  - assert (timer_inv sent0 (mk_timer s c ws (w + timer_sleep))) as Hstay.
    { split; cbn; try done; [|by exists ls, fr]. eapply Forall_impl; [exact Hn|]. intros k Hk. cbn in Hk |- *. unfold timer_sleep, TIMER_TIME in *. lia. }
    destruct (isHasTimerTasks st); [|exact Hstay]. destruct Hstay as [_ _ Hn' _ _]. split; cbn [ts_main ts_workers ts_next ts_time] in *; [done| | | |].
    + rewrite fmap_app. apply spaced_snoc; [done|]. apply Forall_fmap. eapply Forall_impl; [exact Hn|]. intros k Hk. cbn in Hk |- *. lia.
    + apply Forall_app. split; [done|]. apply Forall_singleton. cbn. lia.
    + intros (j & w0 & v0 & Hj). apply Hc. apply lookup_snoc_Some in Hj as [[_ Hj]|[_ ?]]; [eauto|done].
    + exists (ls ++ [[]]), fr. split; [by apply Forall2_app; [|repeat constructor]|]. split; [done|]. by rewrite concat_app, app_nil_r.
  - eapply (worker_moves sent0 s s c _ ws k _ (Clocked w v) next [] [] []); try done; [by rewrite app_nil_r|left; by exists (minute_of v)].
  - assert (time_text c) as Hct by (apply Hc; eauto). destruct (look_finds s c v Hf Hct) as [H1 H2].
    destruct (decide (length (List.filter (due_for c v) (tasks t)) <= 100)%nat) as [Hl|Hl].
    2:{ rewrite E in H2. specialize (H2 ltac:(lia)). done. }
    destruct (H1 Hl) as (l' & file & Hl' & Hfile & E'). rewrite E in E'. injection E' as -> -> ->.
    rewrite Nat2Z.id, take_ge by (by rewrite length_fmap).
    destruct (Forall2_lookup_l _ _ _ _ _ HF Hk) as (l0 & Hl0 & Hle & Hm & ->).
    eapply (worker_moves sent0 s _ c c ws k _ (Looked w v c (item_of g <$> l') 0 None) next [] [] []); try done; [by rewrite app_nil_r|by right|by intros l0 (_ & _ & ->)|].
    split; [done|]. split; [done|]. by exists l'.
  - destruct (Forall2_lookup_l _ _ _ _ _ HF Hk) as (l0 & Hl0 & Hd). pose proof Hd as (Hle & Hm & l' & Hl' & -> & ->).
    rewrite list_lookup_fmap in Hitem. destruct (l' !! i) as [x|] eqn:Ex; [|done]. injection Hitem as <-.
    assert (task_ok x) as Hx.
    { rewrite Forall_forall in Hok. apply Hok. eapply elem_of_filter_sub. rewrite <- Hl'. by eapply list_elem_of_lookup_2. }
    destruct (send_sends s x Hf Hx) as (file & o' & Hfile & E').
    cbn [item_of dev_mac dev_name action devnumber] in E. rewrite E in E'. injection E' as -> ->.
    assert (inj_items : forall l1, item_of g <$> l' = item_of g <$> l1 -> l1 = l').
    { intros l1 Heq. symmetry. eapply list_fmap_eq_inj; [|exact Heq]. intros [] []. by inversion 1. }
    eapply (worker_moves sent0 s _ c c ws k _ (Looked w v curr (item_of g <$> l') (S i) o') next (take i l') (take (S i) l') [x]); try done.
    + cbn [uart_st set_uart sent mbind list_bind]. by rewrite app_nil_r.
    + by right.
    + intros l1 (_ & _ & l2 & _ & Heq & ->). by rewrite (inj_items _ Heq).
    + split; [done|]. split; [done|]. by exists l'.
    + by apply take_S_r.
  - destruct (Forall2_lookup_l _ _ _ _ _ HF Hk) as (l0 & Hl0 & Hd).
    destruct (replaced ws k _ (Looked w v curr items i None) next Hk eq_refl Hs Hn) as [Hs' Hn'].
    destruct (did_more ws ls k _ (Looked w v curr items i None) l0 l0 [] HF Hk Hl0 Hd) as [HF' Hc']; [by rewrite app_nil_r|].
    split; cbn [ts_main ts_workers ts_next ts_time]; try done.
    + intros Hex. by apply Hc, (clocked_before ws k (Looked w v curr items i None)).
    + exists (<[k := l0]> ls), fr. split; [done|]. split; [done|]. by rewrite Hc', app_nil_r.
  - split; cbn [ts_main ts_workers ts_next ts_time]; try done. by exists ls, fr.
Qed.

(** What a worker can do next. *)
Definition can_go_on (y : timer_sys) (k : nat) (x : worker) : Prop :=
  exists x' y', timer_step wr st y y' /\ ts_workers y' = <[k := x']> (ts_workers y) /\ x' <> x.

Definition goes_on (y : timer_sys) (k : nat) (x : worker) : Prop :=
  match x with
  | Started w => forall v, w <= v -> minute_ok (minute_of v) -> can_go_on y k x
  | Clocked w v => (length (List.filter (due_for (ts_time y) v) (tasks t)) <= 100)%nat -> can_go_on y k x
  | Looked w v curr items i None => (i < length items)%nat -> can_go_on y k x
  | Looked w v curr items i (Some f) => length f = 6%nat -> slots_sized (table (uart_st (ts_main y))) ->
      f ∈ pending (table (uart_st (ts_main y))) -> can_go_on y k x
  end.

Lemma worker_progress sent0 y k x : timer_inv sent0 y -> ts_workers y !! k = Some x -> goes_on y k x.
Proof.
  intros [Hf Hs Hn Hc (ls & fr & HF & Hsent & Hfr)] Hk. destruct y as [s c ws next]. cbn [ts_main ts_workers ts_next ts_time] in *.
  destruct x as [w|w v|w v curr items i [f|]]; cbn [goes_on ts_main ts_time].
  - intros v Hle Hm. eexists _, _. split; [by eapply reads|]. split; [reflexivity|done].
  - intros Hl. destruct (proj1 (look_finds s c v Hf (Hc ltac:(eauto))) Hl) as (l' & file & Hl' & Hfile & E).
    eexists _, _. split; [by eapply looks|]. split; [reflexivity|done].
  - intros Hlen Hsz Hin. pose proof (attempt_spec f _ Hlen Hsz) as Ha.
    destruct (uart_check f 6 6 (table (uart_st s))) as [[got q]|] eqn:E; [|done].
    eexists _, _. split; [by eapply echoed|]. split; [reflexivity|done].
  - intros Hlt. destruct (lookup_lt_is_Some_2 items i Hlt) as [item Hitem].
    destruct (Forall2_lookup_l _ _ _ _ _ HF Hk) as (l0 & _ & Hle & Hm & l' & Hl' & -> & _).
    pose proof Hitem as Hx. rewrite list_lookup_fmap in Hx. destruct (l' !! i) as [x|] eqn:Ex; [|done]. injection Hx as <-.
    assert (task_ok x) as Hx.
    { rewrite Forall_forall in Hok. apply Hok. eapply elem_of_filter_sub. rewrite <- Hl'. by eapply list_elem_of_lookup_2. }
    destruct (send_sends s x Hf Hx) as (file & o & Hfile & E).
    eexists _, _. split; [eapply sends; [exact Hk|exact Hitem|exact E]|]. split; [reflexivity|]. intros Heq. injection Heq. lia.
Qed.
End Loop.

(** C24: As long as the stored tasks and the registry stay as they are: in
    whatever order the timer's thread wakes up, with its sleep of sixty
    seconds in between, and its workers read the clock into the text they
    share, look for tasks, send and get their echoes, and however long each
    takes: what is sent are the frames of tasks that each worker found due at
    the text it looked with, each worker's tasks once and nothing else; no
    worker is held up except by a missing echo or by more tasks than its array
    holds, and it holds up no other.  So a task is carried out at most as often
    as a worker looks with a text at which it is due; a single task at most
    once, as long as each worker looks in the minute in which it was started
    (see [minute_twice] for when not). *)
Theorem single_tasks_run_once {S0 : Sqlite} {SL : SqliteLaws S0} wr (st : app_status_t) (t : timers) (g : registry) (s0 : dm_state)
    (c0 : string) (next : Z) (y : timer_sys) :
  reg_inv g -> short_ips g -> Forall task_ok (tasks t) -> NoDup (t_id <$> tasks t) ->
  ready (f_dev s0) -> Home.stored t (view (f_dev s0)) -> Home.stored g (view (f_dev s0)) ->
  rtc (timer_step wr st) (mk_timer s0 c0 [] next) y ->
  (exists ls fr, Forall2 (did g (tasks t)) (ts_workers y) ls /\
     sent (uart_st (ts_main y)) = sent (uart_st s0) ++ fr /\ fr ≡ₚ concat ls ≫= task_frame g /\
     forall x, x ∈ tasks t -> (times x (concat ls) <= length (List.filter (looked_at x) (ts_workers y)))%nat /\
       (t_period x = 0 -> Forall prompt (ts_workers y) -> (times x (concat ls) <= 1)%nat)) /\
  (forall k x, ts_workers y !! k = Some x -> goes_on wr st t y k x).
Proof.
  intros Hi Hips Hok Hnd Hr Ht Hg Hrun.
  assert (timer_inv t g (sent (uart_st s0)) y) as Hinv.
  { assert (timer_inv t g (sent (uart_st s0)) (mk_timer s0 c0 [] next)) as H0.
    { split; cbn; [done|constructor|constructor|by intros (? & ? & ? & ?)|]. exists [], []. split; [constructor|]. by rewrite app_nil_r. }
    clear Hr Ht Hg. induction Hrun as [y|y1 y2 y3 Hstep Hrun IH]; [done|]. apply IH. by eapply timer_step_inv. }
  split; [|intros k x Hk; by eapply worker_progress].
  destruct Hinv as [_ Hs _ _ (ls & fr & HF & Hsent & Hfr)]. exists ls, fr. split; [done|]. split; [done|]. split; [done|]. intros x Hx.
  pose proof (times_did g (tasks t) _ ls x Hnd Hx HF) as Hle. split; [done|]. intros Hp Hpr.
  etransitivity; [exact Hle|]. by eapply prompt_looks_once.
Qed.

(** ** Delays *)

(** One microsecond more than the sleep, and a minute is left out: a single
    task of that minute is never carried out. *)
Lemma minute_missed (m : Z) (x : task) :
  minute_ok (m - 1) -> minute_ok m -> minute_ok (m + 1) -> t_period x = 0 -> t_time x = fmt_time (minutes_tm m) ->
  let wakes := [m * 60000000 - 1; (m + 1) * 60000000] in
  spaced wakes /\ Forall (fun w => due_at w x = false) wakes /\ Forall (fun w => minute_of w <> m) wakes.
Proof.
  intros H1 H2 H3 Hp Ht wakes.
  assert (minute_of (m * 60000000 - 1) = m - 1) as E1 by (unfold minute_of; Z.div_mod_to_equations; lia).
  assert (minute_of ((m + 1) * 60000000) = m + 1) as E2 by (unfold minute_of; by rewrite Z.div_mul).
  split; [|split].
  - constructor; [repeat constructor|]. repeat constructor. unfold timer_sleep, TIMER_TIME. lia.
  - repeat constructor; unfold due_at; rewrite due_single by done; rewrite ?E1, ?E2, Ht; apply String.eqb_neq; intros E; apply fmt_time_inj in E; done || lia.
  - repeat constructor; rewrite ?E1, ?E2; lia.
Qed.

(** A worker that is started at the end of a minute and reads the clock at
    the beginning of the next, before the next worker, which is started at the
    end of that minute: both find the single task of that minute. *)
Lemma minute_twice (m : Z) (x : task) : t_period x = 0 -> t_time x = fmt_time (minutes_tm m) ->
  let wakes := [m * 60000000 - 1; (m + 1) * 60000000 - 1] in
  let looks := [m * 60000000; (m + 1) * 60000000 - 1] in
  spaced wakes /\ Forall2 Z.le wakes looks /\ Forall (fun v => due_at v x = true) looks.
Proof.
  intros Hp Ht wakes looks.
  assert (minute_of (m * 60000000) = m) as E1 by (unfold minute_of; by rewrite Z.div_mul).
  assert (minute_of ((m + 1) * 60000000 - 1) = m) as E2 by (unfold minute_of; Z.div_mod_to_equations; lia).
  split; [|split].
  - constructor; [repeat constructor|]. repeat constructor. unfold timer_sleep, TIMER_TIME. lia.
  - repeat constructor; lia.
  - repeat constructor; unfold due_at; rewrite due_single by done; rewrite ?E1, ?E2, Ht; apply String.eqb_refl.
Qed.

(** A single task for Tuesday 2014-09-09, 08:30: a worker that is started in
    that minute finds it and sends its command. *)
Definition single_task : task := mk_task 1 "0013A200" "lamp" 0 "2014-09-09 08:30" 1 0 0 "2014-09-09 08:00".
Definition single_home : dm_state (H := RefSqlite) :=
  mk_dm (H := RefSqlite) (home_db (mk_timers [single_task] 1) sample_reg ∅) ∅ ∅ "" "" "" "" "" "" "" (mk_uart [] quene_static) None "" [].
Definition sample_wake : Z := sample_minute * 60000000 + 59000000.

Lemma single_tasks_run_once_witness :
  let t := mk_timers [single_task] 1 in
  exists y, rtc (timer_step (H := RefSqlite) (fun _ => true) (mk_app_status false true true "" true)) (mk_timer (H := RefSqlite) single_home "" [] 0) y /\
    length (ts_workers (H := RefSqlite) y) = 1%nat /\
    exists ls fr, Forall2 (did sample_reg [single_task]) (ts_workers (H := RefSqlite) y) ls /\
      sent (uart_st (H := RefSqlite) (ts_main (H := RefSqlite) y)) = [] ++ fr /\ fr ≡ₚ concat ls ≫= task_frame sample_reg.
Proof.
  intros t.
  assert (minute_of sample_wake = sample_minute) as E1 by reflexivity.
  set (c := fst (GetCurrentTime (minute_of sample_wake))).
  assert (List.filter (due_for c sample_wake) [single_task] = [single_task]) as F1 by (vm_compute; reflexivity).
  assert (reg_inv sample_reg /\ short_ips sample_reg) as [Hi Hips] by (split; [apply sample_reg_inv|apply Forall_singleton; vm_compute; lia]).
  assert (Forall task_ok (tasks t)) as Hok by (repeat constructor; vm_compute; try discriminate; lia).
  assert (ready (SqliteLaws := RefSqliteLaws) (f_dev (H := RefSqlite) single_home)) as Hr by (apply timer_db_wf, reg_db_wf, map_Forall_empty).
  assert (Home.stored (SL := RefSqliteLaws) t (f_dev (H := RefSqlite) single_home)) as Ht by (exists (reg_db sample_reg ∅); apply timer_db_full).
  assert (Home.stored (SL := RefSqliteLaws) sample_reg (f_dev (H := RefSqlite) single_home)) as Hg.
  { exists (timer_db t ∅). change (f_dev (H := RefSqlite) single_home) with (home_db t sample_reg ∅). rewrite home_db_swap. apply holds_reg_db. }
  assert (minute_ok (minute_of sample_wake)) as Hm by (unfold minute_ok; rewrite E1; change (tm_year (minutes_tm sample_minute)) with 114; lia).
  destruct (proj1 (look_finds (SL := RefSqliteLaws) t sample_reg Hi Hok single_home c sample_wake (conj Hr (conj Ht Hg)) (ex_intro _ _ (conj Hm eq_refl))))
    as (l' & file & _ & _ & E); [cbn [tasks t]; rewrite F1; cbn; lia|].
  eexists. assert (rtc (timer_step (H := RefSqlite) (fun _ => true) (mk_app_status false true true "" true)) (mk_timer (H := RefSqlite) single_home "" [] 0)
    (mk_timer (H := RefSqlite) (set_f_dev (H := RefSqlite) file single_home) c
      (<[0%nat := Looked sample_wake sample_wake c (take (Z.to_nat (Z.of_nat (length l'))) (item_of sample_reg <$> l')) 0 None]> [Clocked sample_wake sample_wake])
      (sample_wake + timer_sleep))) as Hrun.
  { eapply rtc_l; [apply (wakes_up _ _ _ _ _ _ sample_wake); [reflexivity|vm_compute; discriminate]|].
    eapply rtc_l; [apply (reads _ _ _ _ _ _ 0 sample_wake sample_wake); [reflexivity|lia|exact Hm]|].
    eapply rtc_l; [|apply rtc_refl]. apply (looks _ _ _ _ _ _ 0 sample_wake sample_wake); [reflexivity|exact E]. }
  split; [exact Hrun|]. split; [reflexivity|].
  destruct (single_tasks_run_once (SL := RefSqliteLaws) (fun _ => true) (mk_app_status false true true "" true) t sample_reg single_home "" 0 _
    Hi Hips Hok (NoDup_singleton _) Hr Ht Hg Hrun) as [(ls & fr & H1 & H2 & H3 & _) _].
  exists ls, fr. split; [exact H1|]. split; [exact H2|exact H3].
Defined.
