(* ===== verification/Server.v ===== *)
(** * The server of the daemon and its threads (server_thread of
      src/src/dev_manage/socketd.c)

    [server_thread] accepts connections and starts a [client_thread] for each,
    with the address of its local variable [fd], which the next [accept]
    overwrites.  The threads read the descriptor whenever they use it.  The
    model interleaves the server with its threads: a thread takes one step from
    its start to the first use of the descriptor after the request, and one for
    each use after that. *)

From stdpp Require Import base list strings gmap.
From Stdlib Require Import ZArith Lia Ascii.
From S2P Require Import Prelude CString Calendar Sql UartQueue DevControl DevState DbTriple DbStore DevDb DevReg DevRegProps CJson Sms Notify UartCommon Frame Socketd SocketdProps.

Open Scope Z_scope.

(** ** The state *)

(** A thread of [client_thread]: started, or with what it still does to the
    descriptor. *)
Inductive worker := Started | Doing (l : list event).

Section Server.
Context `{Sqlite}.
Context (wr : list Z -> bool) (sched : nat -> queue -> queue) (fuel : nat) (net_ok is_uart_ok is_sms_ok : bool)
  (now now' tz : Z) (junk_id junk_name : string).

Abbreviation client := (client_thread wr sched fuel net_ok is_uart_ok is_sms_ok now now' tz junk_id junk_name).

(** [fd], the open connections with what can still be read from each, the
    daemon, the threads in the order of their creation, and what was done to
    which connection. *)
Record net := mk_net {
  fd : Z;
  conns : gmap Z (option string);
  daemon : dm_state;
  workers : list worker;
  seen : list (Z * event)
}.

(** A turn of the loop of [server_thread]: [pthread_create] may fail. *)
Definition accept_client (c : Z) (text : string) (n : net) : net :=
  mk_net c (<[c := Some text]> (conns n)) (daemon n) (workers n ++ [Started]) (seen n).
Definition refuse_client (c : Z) (n : net) : net :=
  mk_net c (delete c (conns n)) (daemon n) (workers n) (seen n ++ [(c, EvClose)]).

(** What [select] and [read] leave in [buffer], [read] on a connection never
    failing: nothing when nothing comes
    within five seconds, or when the descriptor is closed. *)
Definition received (n : net) : string := match conns n !! fd n with Some (Some t) => t | _ => "" end.
Definition read_off (c : Z) (m : gmap Z (option string)) : gmap Z (option string) :=
  match m !! c with Some (Some _) => <[c := None]> m | _ => m end.

Definition not_to_client (e : event) : bool := negb (to_client e).
Definition is_close (e : event) : bool := match e with EvClose => true | _ => false end.

(** A step of thread [i].  To a closed descriptor nothing can be written. *)
Definition worker_step (i : nat) (n : net) : option net :=
  match workers n !! i with
  | Some Started =>
      '(_, d) ← client (Some (received n)) (set_out [] (daemon n));
      Some (mk_net (fd n) (read_off (fd n) (conns n)) (set_out (out (daemon n) ++ List.filter not_to_client (out d)) d)
        (<[i := Doing (List.filter to_client (out d))]> (workers n)) (seen n))
  | Some (Doing (e :: l)) =>
      let open := bool_decide (is_Some (conns n !! fd n)) in
      Some (mk_net (fd n) (if is_close e then delete (fd n) (conns n) else conns n) (daemon n) (<[i := Doing l]> (workers n))
        (if open then seen n ++ [(fd n, e)] else seen n))
  | _ => Some n
  end.

Inductive happening := Accept (c : Z) (text : string) | Refuse (c : Z) | Step (i : nat).

Definition happen (h : happening) (n : net) : option net :=
  match h with
  | Accept c text => Some (accept_client c text n)
  | Refuse c => Some (refuse_client c n)
  | Step i => worker_step i n
  end.

Fixpoint happens (l : list happening) (n : net) : option net :=
  match l with [] => Some n | h :: l => n ← happen h n; happens l n end.

Lemma happens_app l k n : happens (l ++ k) n = n ← happens l n; happens k n.
Proof. revert n. induction l as [|h l IH]; intros n; cbn; [done|]. destruct (happen h n) as [n1|]; [apply IH|done]. Qed.

Lemma step_started i n : workers n !! i = Some Started ->
  worker_step i n = '(_, d) ← client (Some (received n)) (set_out [] (daemon n));
    Some (mk_net (fd n) (read_off (fd n) (conns n)) (set_out (out (daemon n) ++ List.filter not_to_client (out d)) d)
      (<[i := Doing (List.filter to_client (out d))]> (workers n)) (seen n)).
Proof. intros E. unfold worker_step. by rewrite E. Qed.

Lemma step_doing i n e l : workers n !! i = Some (Doing (e :: l)) ->
  worker_step i n = Some (mk_net (fd n) (if is_close e then delete (fd n) (conns n) else conns n) (daemon n) (<[i := Doing l]> (workers n))
    (if bool_decide (is_Some (conns n !! fd n)) then seen n ++ [(fd n, e)] else seen n)).
Proof. intros E. unfold worker_step. by rewrite E. Qed.

Lemma step_done i n : workers n !! i = Some (Doing []) -> worker_step i n = Some n.
Proof. intros E. unfold worker_step. by rewrite E. Qed.

(** ** One client after the other *)

(** Each connection is served to its end before the next one is accepted; [i]
    is the number of the first thread. *)
Fixpoint one_by_one (i : nat) (l : list (Z * string)) : list happening :=
  match l with
  | [] => []
  | (c, text) :: l => [Accept c text; Step i; Step i; Step i] ++ one_by_one (S i) l
  end.

(** What it should be: [client_thread] on one request after the other, each
    with its own connection. *)
Fixpoint in_turn (l : list (Z * string)) (d : dm_state) : option (list (Z * event) * dm_state) :=
  match l with
  | [] => Some ([], d)
  | (c, text) :: l =>
      '(_, d1) ← client (Some text) (set_out [] d);
      '(evs, d2) ← in_turn l (set_out (out d ++ List.filter not_to_client (out d1)) d1);
      Some ((pair c <$> List.filter to_client (out d1)) ++ evs, d2)
  end.

(** At most one answer, then the end of the connection. *)
Lemma client_events text d u d1 : closes (Some text) = true -> client (Some text) (set_out [] d) = Some (u, d1) ->
  List.filter to_client (out d1) = [EvClose] \/ exists t, List.filter to_client (out d1) = [EvReply t; EvClose].
Proof.
  intros Hc E. destruct u. destruct (connection_answered_and_closed _ _ _ _ _ _ _ _ _ _ _ _ _ _ E) as (l & Hl & Ho).
  rewrite Hc in Ho. cbn in Ho. rewrite Ho. destruct l as [|t [|]]; cbn in *; [by left|right; by exists t|lia].
Qed.

Lemma served_alone c text n : closes (Some text) = true -> conns n !! c = None ->
  happens (one_by_one (length (workers n)) [(c, text)]) n =
    '(_, d) ← client (Some text) (set_out [] (daemon n));
    Some (mk_net c (conns n) (set_out (out (daemon n) ++ List.filter not_to_client (out d)) d) (workers n ++ [Doing []])
      (seen n ++ (pair c <$> List.filter to_client (out d)))).
Proof.
  intros Hc Hn. cbn [one_by_one app happens happen mbind option_bind]. set (i := length (workers n)).
  assert (forall x, (workers n ++ [x]) !! i = Some x) as Hi by (intros; by apply list_lookup_middle).
  assert (forall x y, <[i := y]> (workers n ++ [x]) = workers n ++ [y]) as Hi'.
  { intros x y. unfold i. by rewrite insert_app_r_alt, Nat.sub_diag by lia. }
  rewrite step_started by apply Hi. unfold received. cbn [accept_client workers fd conns daemon seen]. rewrite lookup_insert_eq.
  destruct (client (Some text) (set_out [] (daemon n))) as [[u d]|] eqn:E; [|done]. cbn [mbind option_bind].
  unfold read_off. rewrite lookup_insert_eq, insert_insert_eq, Hi'.
  destruct (client_events text (daemon n) u d Hc E) as [->|[t ->]].
  - erewrite step_doing by apply Hi. cbn [mbind option_bind workers fd conns daemon seen is_close]. rewrite Hi'.
    rewrite step_done by apply Hi. cbn [mbind option_bind]. by rewrite lookup_insert_eq, delete_insert_id.
  - erewrite step_doing by apply Hi. cbn [mbind option_bind workers fd conns daemon seen is_close]. rewrite Hi'.
    erewrite step_doing by apply Hi. cbn [mbind option_bind workers fd conns daemon seen is_close]. rewrite Hi'.
    rewrite lookup_insert_eq, delete_insert_id by done. cbn. by rewrite <- app_assoc.
Qed.

Lemma one_by_one_run l n : Forall (fun x => closes (Some (snd x)) = true /\ conns n !! fst x = None) l ->
  happens (one_by_one (length (workers n)) l) n =
    '(evs, d) ← in_turn l (daemon n);
    Some (mk_net (foldl (fun _ => fst) (fd n) l) (conns n) d (workers n ++ replicate (length l) (Doing [])) (seen n ++ evs)).
Proof.
  revert n. induction l as [|[c text] l IH]; intros n Hl.
  - cbn. rewrite !app_nil_r. by destruct n.
  - apply Forall_cons in Hl as [[Hc Hn] Hl]. cbn [fst snd] in *.
    change (one_by_one (length (workers n)) ((c, text) :: l)) with
      (one_by_one (length (workers n)) [(c, text)] ++ one_by_one (S (length (workers n))) l).
    rewrite happens_app, served_alone by done. cbn [in_turn]. destruct (client _ _) as [[u d]|]; [|done]. cbn [mbind option_bind].
    set (n1 := mk_net _ _ _ _ _).
    replace (S (length (workers n))) with (length (workers n1)) by (cbn; rewrite length_app; cbn; lia).
    rewrite IH by done. cbn [daemon n1 workers conns fd seen]. destruct (in_turn _ _) as [[evs d2]|]; [|done]. cbn [mbind option_bind].
    unfold n1. cbn. by rewrite <- !app_assoc.
Qed.

(** ** Clients at the same time *)

(** Nothing is accepted as connection [c]. *)
Definition spares (c : Z) (h : happening) : Prop :=
  match h with Accept c' _ | Refuse c' => c' <> c | Step _ => True end.

(** While another connection is in [fd], nothing happens to [c]. *)
Lemma hears_nothing c l n n' : fd n <> c -> Forall (spares c) l -> happens l n = Some n' ->
  conns n' !! c = conns n !! c /\ exists es, seen n' = seen n ++ es /\ Forall (fun e => fst e <> c) es.
Proof.
  intros Hc Hl. revert n Hc. induction Hl as [|h l Hh Hl IH]; intros n Hc E; cbn in E.
  - injection E as <-. split; [done|]. exists []. by rewrite app_nil_r.
  - destruct (happen h n) as [n1|] eqn:E1; [|done]. cbn in E.
    assert (fd n1 <> c /\ conns n1 !! c = conns n !! c /\ exists es, seen n1 = seen n ++ es /\ Forall (fun e => fst e <> c) es) as (Hc1 & Hs1 & es & He & Hes).
    { destruct h as [c' text|c'|i]; cbn in E1, Hh.
      - injection E1 as <-. cbn. split; [done|]. rewrite lookup_insert_ne by done. split; [done|]. exists []. by rewrite app_nil_r.
      - injection E1 as <-. cbn. rewrite lookup_delete_ne by done. split; [done|]. split; [done|]. exists [(c', EvClose)]. split; [done|]. by apply Forall_singleton.
      - unfold worker_step in E1. destruct (workers n !! i) as [[|[|e l']]|]; [..|injection E1 as <-].
        + destruct (client _ _) as [[u d]|]; [|done]. injection E1 as <-. cbn. split; [done|]. split; [|exists []; by rewrite app_nil_r].
          unfold read_off. destruct (conns n !! fd n) as [[t|]|]; try done. by rewrite lookup_insert_ne.
        + injection E1 as <-. split; [done|]. split; [done|]. exists []. by rewrite app_nil_r.
        + injection E1 as <-. cbn. split; [done|]. split; [destruct (is_close e); [by rewrite lookup_delete_ne|done]|].
          destruct (bool_decide _); [exists [(fd n, e)]; split; [done|by apply Forall_singleton]|exists []; by rewrite app_nil_r].
        + split; [done|]. split; [done|]. exists []. by rewrite app_nil_r. }
    destruct (IH n1 Hc1 E) as (Hs2 & es2 & He2 & Hes2). split; [by rewrite Hs2|]. exists (es ++ es2). split; [by rewrite He2, He, app_assoc|].
    by apply Forall_app.
Qed.

(** A thread that finds its connection closed. *)
Lemma client_nothing s : client (Some "") s = Some (tt, flash s).
Proof. reflexivity. Qed.

(** The thread of [c1] has handled its request when [c2] is accepted, and has
    not answered yet. *)
Lemma crossed c1 c2 t1 t2 a u d n : c1 <> c2 -> conns n !! c2 = None ->
  client (Some t1) (set_out [] (daemon n)) = Some (u, d) -> List.filter to_client (out d) = [EvReply a; EvClose] ->
  let i := length (workers n) in
  happens [Accept c1 t1; Step i; Accept c2 t2; Step i; Step i; Step (S i)] n =
    Some (mk_net c2 (<[c1 := None]> (conns n)) (flash (set_out (out (daemon n) ++ List.filter not_to_client (out d)) d))
      (workers n ++ [Doing []; Doing []]) (seen n ++ [(c2, EvReply a); (c2, EvClose)])).
Proof.
  intros Hc H2 E Ho i. cbn [happens happen mbind option_bind].
  assert (forall x k, (workers n ++ x :: k) !! i = Some x) as Hi by (intros; by apply list_lookup_middle).
  assert (forall x y k, <[i := y]> (workers n ++ x :: k) = workers n ++ y :: k) as Hi'.
  { intros x y k. unfold i. by rewrite insert_app_r_alt, Nat.sub_diag by lia. }
  rewrite step_started by apply Hi. unfold received. cbn [accept_client workers fd conns daemon seen]. rewrite lookup_insert_eq, E. cbn [mbind option_bind].
  unfold read_off. rewrite lookup_insert_eq, insert_insert_eq, Hi', Ho. unfold accept_client. cbn [workers fd conns daemon seen].
  rewrite <- app_assoc. cbn [app].
  erewrite step_doing by apply Hi. cbn [mbind option_bind workers fd conns daemon seen is_close]. rewrite Hi'.
  erewrite step_doing by apply Hi. cbn [mbind option_bind workers fd conns daemon seen is_close]. rewrite Hi', lookup_insert_eq, delete_insert_id.
  2: by rewrite lookup_insert_ne by done.
  rewrite step_started. 2: { cbn [workers]. unfold i. by rewrite lookup_app_r, Nat.sub_succ_l, Nat.sub_diag by lia. }
  unfold received. cbn [workers fd conns daemon seen]. rewrite lookup_insert_ne, H2, client_nothing by done. cbn [mbind option_bind].
  unfold read_off. rewrite lookup_insert_ne, H2 by done. rewrite insert_app_r_alt by (unfold i; lia).
  unfold i. rewrite Nat.sub_succ_l, Nat.sub_diag by lia. unfold flash. cbn. by rewrite <- !app_assoc.
Qed.

(** C5: Clients that come one after the other are each answered at most once,
    on their own connection, which is then closed, as if [client_thread] were
    called for one after the other.  But once the next client is accepted, a
    client whose thread is not done hears nothing more, in any interleaving,
    and its connection stays open; its answer goes to the next client, whose
    connection is closed and whose request is never read. *)
Theorem clients_one_at_a_time (n : net) (l : list (Z * string))
    (Hl : Forall (fun x => closes (Some (snd x)) = true /\ conns n !! fst x = None) l)
    (c1 c2 : Z) (t1 t2 a : string) (u : unit) (d : dm_state) (Hc : c1 <> c2) (H2 : conns n !! c2 = None)
    (Hd : client (Some t1) (set_out [] (daemon n)) = Some (u, d)) (Ha : List.filter to_client (out d) = [EvReply a; EvClose]) :
  let i := length (workers n) in
  (happens (one_by_one i l) n =
    '(evs, d) ← in_turn l (daemon n);
    Some (mk_net (foldl (fun _ => fst) (fd n) l) (conns n) d (workers n ++ replicate (length l) (Doing [])) (seen n ++ evs))) /\
  (forall k n', fd n <> c1 -> Forall (spares c1) k -> happens k n = Some n' ->
    conns n' !! c1 = conns n !! c1 /\ exists es, seen n' = seen n ++ es /\ Forall (fun e => fst e <> c1) es) /\
  happens [Accept c1 t1; Step i; Accept c2 t2; Step i; Step i; Step (S i)] n =
    Some (mk_net c2 (<[c1 := None]> (conns n)) (flash (set_out (out (daemon n) ++ List.filter not_to_client (out d)) d))
      (workers n ++ [Doing []; Doing []]) (seen n ++ [(c2, EvReply a); (c2, EvClose)])).
Proof.
  intros i. split; [by apply one_by_one_run|]. split; [intros k n'; apply hears_nothing|]. by apply (crossed c1 c2 t1 t2 a u d n).
Qed.
End Server.

(** Two phones switch devices; the serial line is not available. *)
Definition sample_params (name : string) : list string := ["phone"; "4"; "0013A200"; name; "0"; "0"; "hall"; "1"; "0"].
Definition sample_net : net (H := RefSqlite) := mk_net (H := RefSqlite) 0 ∅ (sample_dm ∅) [] [].
Abbreviation sample_client := (client_thread (H := RefSqlite) (fun _ => true) (fun _ q => q) 0 true false true 0 0 0 "" "").

Lemma sample_wire name : nul_free name = true ->
  (String.length (sample_text (sample_params name)) < 512)%nat -> wire false (sample_params name) (sample_text (sample_params name)).
Proof.
  intros Hn Hl. split; [by repeat constructor|]. split; [|done]. unfold sample_text.
  destruct (printable_prints (request_json (sample_params name)) 0 false) as [t Ht]; [cbn; by rewrite Hn|]. unfold cJSON_PrintUnformatted. by rewrite Ht.
Qed.

Lemma clients_one_at_a_time_witness :
  exists d, happens (H := RefSqlite) (fun _ => true) (fun _ q => q) 0 true false true 0 0 0 "" ""
    [Accept 4 (sample_text (sample_params "lamp")); Step 0; Accept 5 (sample_text (sample_params "fan")); Step 0; Step 0; Step 1] sample_net =
  Some (mk_net (H := RefSqlite) 5 (<[4 := None]> ∅) d [Doing []; Doing []] [(5, EvReply "NO"); (5, EvClose)]).
Proof.
  assert (forall name, name = "lamp" \/ name = "fan" -> wire false (sample_params name) (sample_text (sample_params name))) as Hw.
  { intros name Hname. apply sample_wire; [by destruct Hname as [->| ->]|]. destruct Hname as [->| ->]; apply Nat.ltb_lt; vm_compute; reflexivity. }
  assert (forall name, name = "lamp" \/ name = "fan" -> closes (Some (sample_text (sample_params name))) = true) as Hcl.
  { intros name Hname. destruct (Hw name Hname) as (Hn & Ht & _). unfold closes.
    rewrite (printed_parses false (request_json (sample_params name))); [done| |done]. by eapply request_printable. }
  assert (forall s, sample_client (Some (sample_text (sample_params "lamp"))) s =
    Some (tt, set_out ((out s ++ [EvSystem "led_flash 1 1 3&"]) ++ [EvReply "NO"; EvClose]) s)) as Hrun.
  { intros s. rewrite (client_thread_wire _ _ _ _ _ _ _ _ _ _ _ false (sample_params "lamp") _
      (mk_request "phone" "4" "0013A200" "lamp" (Some "0") "0" "hall" (Some "1") (Some "0"))) by (done || apply Hw; auto).
    unfold serve_request. rewrite (bind_some _ _ _ (Respond false) (flash s)) by reflexivity. 
    transitivity (Some (tt, set_out (((out s ++ [EvSystem "led_flash 1 1 3&"]) ++ [EvReply "NO"]) ++ [EvClose]) s)); [reflexivity|by rewrite <- !app_assoc]. }
  eexists. refine (proj2 (proj2 (clients_one_at_a_time (H := RefSqlite) (fun _ => true) (fun _ q => q) 0 true false true 0 0 0 "" ""
    sample_net [(4, sample_text (sample_params "lamp")); (5, sample_text (sample_params "fan"))] _ 4 5
    (sample_text (sample_params "lamp")) (sample_text (sample_params "fan")) "NO" tt _ _ _ (Hrun _) _))); [|done|done|done].
  repeat apply Forall_cons_2; [split; [apply Hcl; auto|done]..|apply Forall_nil_2].
Defined.
