(* ===== verification/Mail.v ===== *)
(** * Sending a mail (src/src/dev_manage/mail.c)

    [SendMail] speaks SMTP to one of three servers: it waits for a greeting,
    connecting again while the server closes the connection without one, and
    sends a fixed sequence of commands, whatever the server answers, with the
    account in Base64.  The daemon ignores SIGPIPE, so a [send] on a broken
    connection fails and is not noticed.
    Bytes are integers; [unsigned int] bit fields are laid out from the low
    bits on, as the compilers for the daemon's little-endian processor do. *)

From stdpp Require Import base list strings.
From Stdlib Require Import ZArith Lia Ascii.
From S2P Require Import Prelude CString.

Open Scope Z_scope.

(** ** Base64 *)

Definition con628 (c6 : Z) : Z :=
  if c6 <? 26 then c6 + 65
  else if c6 <? 52 then c6 + 71
  else if c6 <? 62 then c6 - 4
  else if c6 =? 62 then 43
  else 47.

(** [struct data6]: the first four bytes of [tmp] after the first and the
    third have been swapped, as four fields [d1], [d2], [d3], [d4]. *)
Definition data6 (tmp : list Z) : Z * Z * Z * Z :=
  let v := nth 2 tmp 0 + nth 1 tmp 0 * 2 ^ 8 + nth 0 tmp 0 * 2 ^ 16 + nth 3 tmp 0 * 2 ^ 24 in
  (Z.land (Z.shiftr v 18) 63, Z.land (Z.shiftr v 12) 63, Z.land (Z.shiftr v 6) 63, Z.land v 63).

(** The text at the beginning of an array: the bytes before its first NUL. *)
Fixpoint memory_text (mem : list Z) : option (list Z) :=
  match mem with
  | [] => None
  | b :: mem => if b =? 0 then Some [] else s ← memory_text mem; Some (b :: s)
  end.

(** [char buf[256] = {0}; strcpy(buf, buf128)] *)
Definition strcpy_buf (buf128 : list Z) : option (list Z) :=
  s ← memory_text buf128; if (length s <? 256)%nat then Some (s ++ repeat 0 (256 - length s)) else None.

(** What the loop and the two [if]s store, one list for each pass. *)
Definition base64_group (buf : list Z) (i : nat) : list Z :=
  let '(d1, d2, d3, d4) := data6 (drop ((i - 1) * 3) buf) in [con628 d1; con628 d2; con628 d3; con628 d4].

Definition base64_rest (buf : list Z) (len i : nat) : list Z :=
  let '(d1, d2, d3, d4) := data6 (drop ((i - 1) * 3) buf) in
  if (len mod 3 =? 1)%nat then [con628 d1; con628 d2; 61; 61]
  else if (len mod 3 =? 2)%nat then [con628 d1; con628 d2; con628 d3; 61]
  else [].

(** [buf128]: the memory at the pointer; [cap]: the bytes of [dbuf].  The
    result: the bytes stored in [dbuf], to which no NUL is added.  With [len]
    256 or more the last pass is beyond [buf]. *)
Definition base64 (cap : nat) (buf128 : list Z) (len : nat) : option (list Z) :=
  buf ← strcpy_buf buf128;
  if (256 <=? len)%nat then None
  else
    let n := (len / 3)%nat in
    let dbuf := concat (base64_group buf <$> seq 1 n) ++ base64_rest buf len (n + 1) in
    if (length dbuf <=? cap)%nat then Some dbuf else None.

(** ** The dialogue *)

Record MAIL_SERVER := mk_server { sv_name : string; sv_port : Z; sv_username : string; sv_password : string }.

Definition mail_server_list : list MAIL_SERVER := [
  mk_server "smtp.qq.com" 25 "1010622394@qq.com" "d150b9320b9304..";
  mk_server "smtp.126.com" 25 "smart_household@126.com" "192.168.0.1.,.,";
  mk_server "smtp.sohu.com" 25 "smart-household@sohu.com" "192.168.0.1;;;;"].

Definition bytes_of (s : string) : list Z := code <$> String.list_ascii_of_string s.
Definition text_of (l : list Z) : string := String.string_of_list_ascii ((fun z => ascii_of_N (Z.to_N z)) <$> l).

Definition eol : string := String "013" (String "010" "").

Fixpoint rcpt_commands (users : list string) : option (list string) :=
  match users with
  | [] => Some []
  | userto :: users =>
      buf ← fits 1500 ("RCPT TO: <" +:+ (userto +:+ (">" +:+ eol)));
      rest ← rcpt_commands users; Some (buf :: rest)
  end.

(** The account or the password in Base64, as [sprintf(buf, "%s\r\n", login)]
    reads it from its array of 128 zeroed bytes.  The accounts hold no [%], so
    that [sprintf(buf, username)] copies them. *)
Definition encoded (account : string) : option string :=
  dbuf ← base64 128 (bytes_of account ++ [0]) (String.length account);
  login ← memory_text (dbuf ++ repeat 0 (128 - length dbuf));
  Some (text_of login +:+ eol).

(** What is sent once the server has answered. *)
Definition mail_commands (to body : string) (server : MAIL_SERVER) : option (list string) :=
  login ← encoded (sv_username server);
  pass ← encoded (sv_password server);
  from ← fits 1500 ("MAIL FROM: <" +:+ (sv_username server +:+ (">" +:+ eol)));
  userlist ← fits 1024 to;
  rcpts ← rcpt_commands (tokens "," userlist);
  data ← fits 1500 (body +:+ (eol +:+ ("." +:+ eol)));
  Some (["EHLO licp" +:+ eol; "AUTH LOGIN" +:+ eol; login; pass; from] ++ rcpts ++
        ["DATA" +:+ eol; data; "QUIT" +:+ eol]).

(** What the first [recv] on a connection gives: 0, some bytes, or -1. *)
Inductive greeting := HangsUp | Talks | RecvFails.

(** The socket that is used after the greeting: that of a connection, or the
    -1 of an [open_socket] that failed. *)
Inductive socket := On (k : nat) | NoSocket.

(** [while(recv(...) == 0){sleep; close; open_socket;}] from connection [k]
    on.  [conns]: for each call of [open_socket] whether it succeeds and what
    that connection then gives; [recv] on -1 fails, which ends the loop. *)
Fixpoint await_greeting (fuel : nat) (conns : nat -> option greeting) (k : nat) : option socket :=
  match fuel with
  | O => None
  | S fuel =>
      match conns k with
      | None => Some NoSocket
      | Some HangsUp => await_greeting fuel conns (S k)
      | Some _ => Some (On k)
      end
  end.

(** [Reconnecting]: it has not left the loop.  What a call that returned has
    sent: on which connection which command. *)
Inductive mail_result :=
  | Reconnecting
  | Undefined
  | Returned (result : bool) (sent : list (nat * string)).

(** [dns_ok]: the name is found.  The answers of the server are only printed,
    from an array of 1500 bytes; [full n]: the [n]-th fills it without a NUL. *)
Definition SendMail (fuel : nat) (dns_ok : bool) (conns : nat -> option greeting) (full : nat -> bool) (to body : string) (server_type : nat)
  : mail_result :=
  match mail_server_list !! server_type with
  | None => Undefined
  | Some server =>
      if negb dns_ok then Returned false []
      else if decide (conns 0%nat = None) then Returned false []
      else
        match await_greeting fuel conns 0, mail_commands to body server with
        | None, _ => Reconnecting
        | Some _, None => Undefined
        | Some NoSocket, Some cmds => Returned true []
        | Some (On k), Some cmds =>
            if existsb full (seq 0 (S (length cmds))) then Undefined else Returned true (pair k <$> cmds)
        end
  end.

(** ** Base64 as RFC 4648 defines it

    The bits of the bytes, the high ones first, in groups of six, the last one
    filled with zeros; a letter for each group; and [=] up to a multiple of
    four letters. *)

Definition alphabet : string := "ABCDEFGHIJKLMNOPQRSTUVWXYZabcdefghijklmnopqrstuvwxyz0123456789+/".

Definition byte_bits (b : Z) : list bool := Z.testbit b <$> [7; 6; 5; 4; 3; 2; 1; 0].
Definition bits_value (l : list bool) : Z := foldl (fun v b => 2 * v + Z.b2z b) 0 l.

Fixpoint sextets (l : list bool) : list (list bool) :=
  match l with
  | a :: b :: c :: d :: e :: f :: l => [a; b; c; d; e; f] :: sextets l
  | [] => []
  | l => [l ++ repeat false (6 - length l)]
  end.

Definition letter (v : Z) : Z := from_option code 0 (String.get (Z.to_nat v) alphabet).

Definition rfc4648 (bytes : list Z) : list Z :=
  ((fun l => letter (bits_value l)) <$> sextets (concat (byte_bits <$> bytes))) ++ repeat 61 ((3 - length bytes mod 3) mod 3).

(** The bytes of [s + k] with zeros behind them, and a pass over them. *)
Definition buf_from (s : list Z) (k : nat) : list Z := drop k s ++ repeat 0 4.
Definition group_of (s : list Z) (i : nat) : list Z :=
  let '(d1, d2, d3, d4) := data6 (buf_from s ((i - 1) * 3)) in [con628 d1; con628 d2; con628 d3; con628 d4].
Definition rest_of (s : list Z) (i : nat) : list Z :=
  let '(d1, d2, d3, d4) := data6 (buf_from s ((i - 1) * 3)) in
  if (length s mod 3 =? 1)%nat then [con628 d1; con628 d2; 61; 61]
  else if (length s mod 3 =? 2)%nat then [con628 d1; con628 d2; con628 d3; 61]
  else [].

Lemma con628_letter v : 0 <= v < 64 -> con628 v = letter v.
Proof.
  intros Hv. assert (forallb (fun n => con628 (Z.of_nat n) =? letter (Z.of_nat n)) (seq 0 64) = true) as H by reflexivity.
  rewrite forallb_forall in H. specialize (H (Z.to_nat v) ltac:(apply in_seq; lia)). rewrite Z2Nat.id in H by lia. lia.
Qed.

Lemma bits_value_app l l' : bits_value (l ++ l') = bits_value l * 2 ^ Z.of_nat (length l') + bits_value l'.
Proof.
  unfold bits_value. rewrite foldl_app. generalize (foldl (fun v b => 2 * v + Z.b2z b) 0 l). intros n.
  induction l' as [|b l' IH] using rev_ind; [cbn; lia|].
  rewrite !foldl_snoc, length_app, IH. replace (Z.of_nat (length l' + length [b])) with (Z.of_nat (length l') + 1) by (cbn; lia).
  rewrite Z.pow_add_r by lia. lia.
Qed.

(** The parts of a byte. *)
Lemma byte_parts b : byte_range b ->
  bits_value (take 6 (byte_bits b)) = b / 4 /\ bits_value (drop 6 (byte_bits b)) = b mod 4 /\
  bits_value (take 4 (byte_bits b)) = b / 16 /\ bits_value (drop 4 (byte_bits b)) = b mod 16 /\
  bits_value (take 2 (byte_bits b)) = b / 64 /\ bits_value (drop 2 (byte_bits b)) = b mod 64.
Proof.
  unfold byte_range. intros Hb.
  set (P := fun b => (bits_value (take 6 (byte_bits b)) =? b / 4) && (bits_value (drop 6 (byte_bits b)) =? b mod 4) &&
    (bits_value (take 4 (byte_bits b)) =? b / 16) && (bits_value (drop 4 (byte_bits b)) =? b mod 16) &&
    (bits_value (take 2 (byte_bits b)) =? b / 64) && (bits_value (drop 2 (byte_bits b)) =? b mod 64)).
  assert (forallb (fun n => P (Z.of_nat n)) (seq 0 256) = true) as H by (vm_compute; reflexivity).
  rewrite forallb_forall in H. specialize (H (Z.to_nat b) ltac:(apply in_seq; lia)). rewrite Z2Nat.id in H by lia.
  unfold P in H. rewrite !andb_true_iff, !Z.eqb_eq in H. tauto.
Qed.

(** The four fields of three bytes. *)
Lemma data6_fields a b c t rest : byte_range a -> byte_range b -> byte_range c ->
  data6 (a :: b :: c :: t :: rest) = (a / 4, (a mod 4) * 16 + b / 16, (b mod 16) * 4 + c / 64, c mod 64).
Proof.
  unfold byte_range, data6. intros Ha Hb Hc. cbn [nth].
  rewrite !Z.shiftr_div_pow2 by lia. change 63 with (Z.ones 6). rewrite !Z.land_ones by lia.
  change (2 ^ 8) with 256. change (2 ^ 16) with 65536. change (2 ^ 24) with 16777216. change (2 ^ 18) with 262144.
  change (2 ^ 12) with 4096. change (2 ^ 6) with 64.
  f_equal; [f_equal; [f_equal|]|]; Z.div_mod_to_equations; lia.
Qed.

Lemma sextets_three a b c l :
  sextets (byte_bits a ++ byte_bits b ++ byte_bits c ++ l) =
    take 6 (byte_bits a) :: (drop 6 (byte_bits a) ++ take 4 (byte_bits b)) ::
    (drop 4 (byte_bits b) ++ take 2 (byte_bits c)) :: drop 2 (byte_bits c) :: sextets l.
Proof. reflexivity. Qed.

(** Three bytes. *)
Lemma group_rfc a b c s : byte_range a -> byte_range b -> byte_range c ->
  rfc4648 (a :: b :: c :: s) = group_of (a :: b :: c :: s) 1 ++ rfc4648 s.
Proof.
  intros Ha Hb Hc. pose proof (byte_parts a Ha) as (A1 & A2 & _). pose proof (byte_parts b Hb) as (_ & _ & B1 & B2 & _).
  pose proof (byte_parts c Hc) as (_ & _ & _ & _ & C1 & C2).
  unfold rfc4648. replace (length (a :: b :: c :: s) mod 3)%nat with (length s mod 3)%nat
    by (cbn [length]; replace (S (S (S (length s)))) with (length s + 1 * 3)%nat by lia; by rewrite Nat.Div0.mod_add).
  cbn [fmap list_fmap concat]. rewrite sextets_three. cbn [fmap list_fmap]. rewrite !bits_value_app.
  rewrite A1, A2, B1, B2, C1, C2. unfold group_of.
  assert (exists t rest, buf_from (a :: b :: c :: s) ((1 - 1) * 3) = a :: b :: c :: t :: rest) as (t & rest & ->).
  { unfold buf_from. cbn. destruct s; by do 2 eexists. }
  rewrite data6_fields by done. unfold byte_range in *. change (2 ^ Z.of_nat (length (take 4 (byte_bits b)))) with 16.
  change (2 ^ Z.of_nat (length (take 2 (byte_bits c)))) with 4.
  rewrite !con628_letter by (Z.div_mod_to_equations; lia). done.
Qed.

Lemma buf_from_three a b c s i : (1 <= i)%nat -> buf_from (a :: b :: c :: s) ((S i - 1) * 3) = buf_from s ((i - 1) * 3).
Proof. intros Hi. unfold buf_from. replace ((S i - 1) * 3)%nat with (S (S (S ((i - 1) * 3)))) by lia. done. Qed.

(** One or two bytes, and the zeros behind them. *)
Lemma rest_rfc s : Forall byte_range s -> (length s < 3)%nat -> rfc4648 s = rest_of s 1.
Proof.
  intros Hs Hl. destruct s as [|a [|b [|c s]]]; [done| | |cbn in Hl; lia].
  - apply Forall_cons in Hs as [Hs _]. pose proof (byte_parts a Hs) as (A1 & A2 & _).
    assert (sextets (byte_bits a) = [take 6 (byte_bits a); drop 6 (byte_bits a) ++ take 4 (byte_bits 0)]) as E by done.
    unfold rfc4648. cbn [fmap list_fmap concat]. rewrite app_nil_r, E. cbn [fmap list_fmap]. rewrite bits_value_app, A1, A2.
    unfold rest_of. change (buf_from [a] _) with [a; 0; 0; 0; 0]. rewrite data6_fields by (done || (unfold byte_range; lia)).
    change (length [a] mod 3 =? 1)%nat with true. unfold byte_range in Hs. cbv iota. change (0 / 16) with 0. rewrite Z.add_0_r.
    rewrite !con628_letter by (Z.div_mod_to_equations; lia). change (2 ^ Z.of_nat (length (take 4 (byte_bits 0)))) with 16.
    change (bits_value (take 4 (byte_bits 0))) with 0. by rewrite Z.add_0_r.
  - apply Forall_cons in Hs as [Ha Hs]. apply Forall_cons in Hs as [Hb _]. pose proof (byte_parts a Ha) as (A1 & A2 & _).
    pose proof (byte_parts b Hb) as (_ & _ & B1 & B2 & _).
    assert (sextets (byte_bits a ++ byte_bits b) = [take 6 (byte_bits a); drop 6 (byte_bits a) ++ take 4 (byte_bits b);
      drop 4 (byte_bits b) ++ take 2 (byte_bits 0)]) as E by done.
    unfold rfc4648. cbn [fmap list_fmap concat]. rewrite app_nil_r, E. cbn [fmap list_fmap]. rewrite !bits_value_app, A1, A2, B1, B2.
    unfold rest_of. change (buf_from [a; b] _) with [a; b; 0; 0; 0; 0]. rewrite data6_fields by (done || (unfold byte_range; lia)).
    change (length [a; b] mod 3 =? 1)%nat with false. change (length [a; b] mod 3 =? 2)%nat with true. unfold byte_range in *. cbv iota.
    change (0 / 64) with 0. rewrite Z.add_0_r. rewrite !con628_letter by (Z.div_mod_to_equations; lia).
    change (2 ^ Z.of_nat (length (take 4 (byte_bits b)))) with 16. change (2 ^ Z.of_nat (length (take 2 (byte_bits 0)))) with 4.
    change (bits_value (take 2 (byte_bits 0))) with 0. by rewrite Z.add_0_r.
Qed.

(** All the passes together. *)
Lemma passes_rfc s : Forall byte_range s ->
  concat (group_of s <$> seq 1 (length s / 3)) ++ rest_of s (length s / 3 + 1) = rfc4648 s.
Proof.
  remember (length s) as n eqn:Hn. revert s Hn. induction n as [n IH] using lt_wf_ind. intros s -> Hs.
  destruct (decide (length s < 3)%nat) as [Hl|Hl].
  { rewrite Nat.div_small by done. cbn [seq fmap list_fmap concat app]. by rewrite rest_rfc. }
  destruct s as [|a [|b [|c s]]]; cbn [length] in Hl; [lia..|]. repeat apply Forall_cons in Hs as [? Hs].
  replace (length (a :: b :: c :: s) / 3)%nat with (S (length s / 3))
    by (cbn [length]; replace (S (S (S (length s)))) with (length s + 1 * 3)%nat by lia; rewrite Nat.div_add by lia; lia).
  rewrite group_rfc by done. rewrite <- (IH (length s) ltac:(cbn; lia) s eq_refl Hs).
  cbn [seq fmap list_fmap concat]. rewrite <- app_assoc. f_equal. f_equal.
  - rewrite <- seq_shift, <- list_fmap_compose. f_equal. apply list_fmap_ext. intros i x Hx.
    apply lookup_seq in Hx as [-> _]. unfold compose, group_of. by rewrite buf_from_three by lia.
  - unfold rest_of. rewrite Nat.add_1_r, buf_from_three by lia. rewrite Nat.add_1_r.
    replace (length (a :: b :: c :: s) mod 3)%nat with (length s mod 3)%nat
      by (cbn [length]; replace (S (S (S (length s)))) with (length s + 1 * 3)%nat by lia; by rewrite Nat.Div0.mod_add).
    done.
Qed.

(** The fields only depend on the bytes. *)
Lemma data6_ext l l' : (forall n, nth n l 0 = nth n l' 0) -> data6 l = data6 l'.
Proof. intros H. unfold data6. by rewrite !H. Qed.

Lemma zeros_behind (l : list Z) m n : nth n (l ++ repeat 0 m) 0 = nth n l 0.
Proof.
  destruct (decide (n < length l)%nat) as [Hn|Hn]; [by rewrite app_nth1|].
  by rewrite app_nth2, nth_repeat, nth_overflow by lia.
Qed.

Lemma nth_drop (l : list Z) k n : nth n (drop k l) 0 = nth (k + n) l 0.
Proof. revert l. induction k as [|k IH]; intros [|x l]; try done; cbn; [by destruct n|apply IH]. Qed.

(** A text, padded with zeros, as the passes see it. *)
Lemma passes_padded (s : list Z) m n i : data6 (drop i (s ++ repeat 0 m)) = data6 (buf_from (s ++ repeat 0 n) i).
Proof. apply data6_ext. intros k. unfold buf_from. by rewrite zeros_behind, !nth_drop, !zeros_behind. Qed.

Lemma memory_text_some (s rest : list Z) : Forall (fun b => 0 < b < 256) s -> memory_text (s ++ 0 :: rest) = Some s.
Proof. induction 1 as [|b s Hb _ IH]; [done|]. cbn [app memory_text]. destruct (Z.eqb_spec b 0); [lia|]. by rewrite IH. Qed.

Lemma base64_rfc (cap len : nat) (s rest : list Z) : Forall (fun b => 0 < b < 256) s -> (length s <= len < 256)%nat ->
  let r := rfc4648 (s ++ repeat 0 (len - length s)) in
  base64 cap (s ++ 0 :: rest) len = if (length r <=? cap)%nat then Some r else None.
Proof.
  intros Hs Hl. unfold base64, strcpy_buf. rewrite memory_text_some by done. cbn [mbind option_bind].
  rewrite (proj2 (Nat.ltb_lt _ _)), (proj2 (Nat.leb_gt _ _)) by lia. cbn [mbind option_bind]. set (s' := s ++ repeat 0 (len - length s)).
  assert (length s' = len) as Hl' by (unfold s'; rewrite length_app, repeat_length; lia).
  rewrite <- (passes_rfc s'), Hl'.
  2:{ apply Forall_app. split; [eapply Forall_impl; [exact Hs|]; intros b; cbn; unfold byte_range; lia|].
      apply Forall_forall. intros b Hb%list_elem_of_In%repeat_spec. subst b. unfold byte_range. lia. }
  assert (forall i, base64_group (s ++ repeat 0 (256 - length s)) i = group_of s' i) as Hg
    by (intros i; unfold base64_group, group_of, s'; by rewrite (passes_padded s _ (len - length s))).
  assert (forall i, base64_rest (s ++ repeat 0 (256 - length s)) len i = rest_of s' i) as Hr
    by (intros i; unfold base64_rest, rest_of; rewrite Hl'; unfold s'; by rewrite (passes_padded s _ (len - length s))).
  rewrite Hr. by rewrite (list_fmap_ext _ (group_of s') _ (fun i x _ => Hg x)).
Qed.

(** C28: [base64] is the Base64 of RFC 4648 for a text of fewer than 256
    bytes, and writes beyond its result exactly when that is too long for it.
    It copies the text up to its NUL, whatever [len] says: asked for more than
    the text has, it encodes zeros, not what lies behind the NUL. *)
Theorem base64_is_rfc4648 (cap len : nat) (s rest : list Z) :
  Forall (fun b => 0 < b < 256) s -> (length s < 256)%nat ->
  (base64 cap (s ++ 0 :: rest) (length s) = if (length (rfc4648 s) <=? cap)%nat then Some (rfc4648 s) else None) /\
  ((length s <= len < 256)%nat ->
    let r := rfc4648 (s ++ repeat 0 (len - length s)) in
    base64 cap (s ++ 0 :: rest) len = if (length r <=? cap)%nat then Some r else None).
Proof.
  intros Hs Hl. split; [|by apply base64_rfc]. rewrite (base64_rfc cap (length s)) by (done || lia).
  by rewrite Nat.sub_diag, app_nil_r.
Qed.

Lemma base64_is_rfc4648_witness :
  base64 128 (bytes_of "d15093209304@126.com" ++ [0]) 20 = (if (length (rfc4648 (bytes_of "d15093209304@126.com")) <=? 128)%nat
    then Some (rfc4648 (bytes_of "d15093209304@126.com")) else None) /\
  text_of (rfc4648 (bytes_of "d15093209304@126.com")) = "ZDE1MDkzMjA5MzA0QDEyNi5jb20=" /\
  base64 4 [65; 0; 66] 3 = Some (bytes_of "QQAA").
Proof.
  split; [|split; [reflexivity|]].
  - destruct (base64_is_rfc4648 128 0 (bytes_of "d15093209304@126.com") []) as [H _]; [|vm_compute; lia|exact H].
    unfold bytes_of. cbn [fmap list_fmap String.list_ascii_of_string]. repeat (constructor; [vm_compute; split; reflexivity|]). constructor.
  - change [65; 0; 66] with ([65] ++ 0 :: [66]). destruct (base64_is_rfc4648 4 3 [65] [66]) as [_ H]; [repeat constructor|cbn; lia|].
    rewrite H by (cbn; lia). reflexivity.
Defined.

(** ** The dialogue *)

Definition rcpt (r : string) : string := "RCPT TO: <" +:+ (r +:+ (">" +:+ eol)).

Lemma rcpt_commands_all rs : Forall (fun r => (String.length r < 1400)%nat) rs -> rcpt_commands rs = Some (rcpt <$> rs).
Proof.
  induction 1 as [|r rs Hr _ IH]; [done|]. cbn [rcpt_commands].
  rewrite fits_ok by (rewrite !length_app_s; cbn [String.length eol]; lia). cbn [mbind option_bind]. by rewrite IH.
Qed.

Lemma bytes_of_range s : Forall byte_range (bytes_of s).
Proof. apply Forall_fmap, Forall_true. intros c. apply code_range. Qed.

Lemma join_member sep r rs : r ∈ rs -> (String.length r <= String.length (join sep rs))%nat.
Proof.
  induction rs as [|x rs IH]; intros Hr; [by apply elem_of_nil in Hr|]. apply elem_of_cons in Hr.
  destruct rs as [|y rs]; cbn [join]; [destruct Hr as [->|Hr]; [done|by apply elem_of_nil in Hr]|].
  rewrite length_app_s. destruct Hr as [->|Hr]; [lia|]. specialize (IH Hr). cbn [join String.length] in *. lia.
Qed.

(** The accounts fit their arrays. *)
Lemma server_ok k server : mail_server_list !! k = Some server ->
  encoded (sv_username server) = Some (text_of (rfc4648 (bytes_of (sv_username server))) +:+ eol) /\
  encoded (sv_password server) = Some (text_of (rfc4648 (bytes_of (sv_password server))) +:+ eol) /\
  (String.length (sv_username server) < 100)%nat.
Proof.
  intros Hk. destruct k as [|[|[|k]]]; try (injection Hk as <-); try done;
    (split; [vm_compute; reflexivity|split; [vm_compute; reflexivity|apply Nat.ltb_lt; reflexivity]]).
Qed.

(** The dialogue for a mail. *)
Definition dialogue (server : MAIL_SERVER) (rs : list string) (body : string) : list string :=
  ["EHLO licp" +:+ eol; "AUTH LOGIN" +:+ eol; text_of (rfc4648 (bytes_of (sv_username server))) +:+ eol;
   text_of (rfc4648 (bytes_of (sv_password server))) +:+ eol; "MAIL FROM: <" +:+ (sv_username server +:+ (">" +:+ eol))] ++
  (rcpt <$> rs) ++ ["DATA" +:+ eol; body +:+ (eol +:+ ("." +:+ eol)); "QUIT" +:+ eol].

Lemma commands_dialogue k server rs body :
  mail_server_list !! k = Some server -> Forall (fun r => token_ok "," r = true) rs -> (String.length (join "," rs) < 1024)%nat ->
  mail_commands (join "," rs) body server = if (String.length body + 5 <? 1500)%nat then Some (dialogue server rs body) else None.
Proof.
  intros Hk Hrs Hl. unfold mail_commands. destruct (server_ok k server Hk) as (-> & -> & Hu). cbn [mbind option_bind].
  assert (fits 1500 ("MAIL FROM: <" +:+ (sv_username server +:+ (">" +:+ eol))) = Some ("MAIL FROM: <" +:+ (sv_username server +:+ (">" +:+ eol)))) as ->
    by (apply fits_ok; rewrite !length_app_s; cbn [String.length eol]; lia).
  assert (fits 1024 (join "," rs) = Some (join "," rs)) as -> by by apply fits_ok. cbn [mbind option_bind].
  rewrite tokens_join by done. rewrite rcpt_commands_all.
  2:{ apply Forall_forall. intros r Hr. pose proof (join_member "," r rs Hr). lia. }
  cbn [mbind option_bind]. unfold fits. rewrite !length_app_s. cbn [String.length eol].
  replace (String.length body + (2 + (1 + 2)))%nat with (String.length body + 5)%nat by lia. by destruct (_ <? _)%nat.
Qed.

(** After [k] connections that hang up. *)
Lemma await_past fuel conns j k : (forall i, (j <= i < k)%nat -> conns i = Some HangsUp) -> (j <= k)%nat -> (k - j < fuel)%nat -> conns k <> Some HangsUp ->
  await_greeting fuel conns j = Some (match conns k with None => NoSocket | Some _ => On k end).
Proof.
  revert j. induction fuel as [|fuel IH]; intros j Hup Hj Hf Hk; [lia|]. cbn [await_greeting].
  destruct (decide (j = k)) as [->|Hne]; [by destruct (conns k) as [[]|]|].
  rewrite (Hup j) by lia. apply IH; [intros i Hi; apply Hup; lia|lia..|done].
Qed.

Lemma await_forever fuel conns j : (forall i, conns i = Some HangsUp) -> await_greeting fuel conns j = None.
Proof. intros H. revert j. induction fuel as [|fuel IH]; intros j; [done|]. cbn [await_greeting]. by rewrite H. Qed.

(** C29: What a mail to the addresses of the list comes to, for every
    behaviour of the server.  Connections that are closed without a greeting
    are tried again.  On the first that is not, the code sends one SMTP
    dialogue: the account in Base64 as RFC 4648 has it, the sender, one
    recipient after the other, the text, closed by a line with a dot; and it
    reports success, whatever the server answers (as long as no answer fills
    the 1500 bytes it is printed from).  A text that does not fit 1500 bytes
    with its end overruns the buffer.  If trying again fails to connect, it
    reports success and has sent nothing; if every connection is closed, it
    never returns; it reports failure only if the name is not found or the
    first connection fails. *)
Theorem mail_dialogue (n : nat) (server : MAIL_SERVER) (rs : list string) (body : string) (conns : nat -> option greeting) (full : nat -> bool) :
  mail_server_list !! n = Some server ->
  Forall (fun r => token_ok "," r = true) rs -> (String.length (join "," rs) < 1024)%nat ->
  let fits_body := (String.length body + 5 <? 1500)%nat in
  let mail fuel := SendMail fuel true conns full (join "," rs) body n in
  (forall k fuel g, (k < fuel)%nat -> (forall i, (i < k)%nat -> conns i = Some HangsUp) -> conns k = Some g -> g <> HangsUp ->
    (forall i, full i = false) ->
    mail fuel = if fits_body then Returned true (pair k <$> dialogue server rs body) else Undefined) /\
  (forall k fuel, (k < fuel)%nat -> (forall i, (i < k)%nat -> conns i = Some HangsUp) -> conns k = None ->
    mail fuel = if (k =? 0)%nat then Returned false [] else if fits_body then Returned true [] else Undefined) /\
  ((forall i, conns i = Some HangsUp) -> forall fuel, mail fuel = Reconnecting) /\
  (forall fuel, SendMail fuel false conns full (join "," rs) body n = Returned false []).
Proof.
  intros Hk Hrs Hl fits_body mail. unfold mail, SendMail. rewrite Hk, (commands_dialogue n) by done. cbn [negb]. fold fits_body.
  split; [|split; [|split]].
  - intros k fuel g Hf Hup Hg Hgh Hfull. rewrite decide_False.
    2:{ destruct k; [by rewrite Hg|rewrite (Hup 0%nat) by lia; done]. }
    rewrite (await_past fuel conns 0 k) by (try (intros; apply Hup); lia || congruence). rewrite Hg.
    destruct fits_body; [|done]. assert (existsb full (seq 0 (S (length (dialogue server rs body)))) = false) as ->; [|done].
    apply not_true_is_false. intros (i & _ & Hi)%existsb_exists. by rewrite Hfull in Hi.
  - intros k fuel Hf Hup Hnone. destruct (Nat.eqb_spec k 0) as [->|Hne]; [by rewrite decide_True|].
    rewrite decide_False by (rewrite (Hup 0%nat) by lia; done).
    rewrite (await_past fuel conns 0 k) by (try (intros; apply Hup); lia || congruence). rewrite Hnone. by destruct fits_body.
  - intros Hup fuel. rewrite decide_False by (by rewrite Hup). by rewrite await_forever.
  - done.
Qed.

(** A server that hangs up on the first connection and greets on the second. *)
Lemma mail_dialogue_witness :
  let conns i := Some (if (i =? 0)%nat then HangsUp else Talks) in
  SendMail 5 true conns (fun _ => false) (join "," ["a@b.c"; "d@e.f"]) "hello" 1 =
    Returned true (pair 1%nat <$> dialogue (mk_server "smtp.126.com" 25 "smart_household@126.com" "192.168.0.1.,.,") ["a@b.c"; "d@e.f"] "hello").
Proof.
  intros conns.
  destruct (mail_dialogue 1 (mk_server "smtp.126.com" 25 "smart_household@126.com" "192.168.0.1.,.,") ["a@b.c"; "d@e.f"] "hello" conns (fun _ => false))
    as [H _]; [reflexivity|by repeat constructor|vm_compute; lia|].
  apply (H 1%nat 5%nat Talks); [lia| |done|done|done]. intros i Hi. by replace i with 0%nat by lia.
Defined.
