(* ===== verification/Lunar.v ===== *)
(** * The lunar calendar (src/src/Yang2Yin/Yang2Yin.c)

    [_GetYinLiDate] converts a date of the years 1901 to 2099 to the Chinese
    lunar calendar, from a table of three bytes for each year.  The file holds
    the code, what the table says about a lunar year, and the theorem that the
    answer is the same day, and when its year is wrong. *)

From stdpp Require Import base list.
From Stdlib Require Import ZArith Lia.
From S2P Require Import Prelude Calendar.

Open Scope Z_scope.

(** Three bytes for each year from 1901 on: the leap month in the high half
    of the first; the lengths of 13 months from its bit 3 on; the month and
    the day of the new year in the last seven bits. *)
Definition year_code : list Z := [
  0x04; 0xAE; 0x53; 0x0A; 0x57; 0x48; 0x55; 0x26; 0xBD; 0x0D; 0x26; 0x50; 0x0D; 0x95; 0x44;
  0x46; 0xAA; 0xB9; 0x05; 0x6A; 0x4D; 0x09; 0xAD; 0x42; 0x24; 0xAE; 0xB6; 0x04; 0xAE; 0x4A;
  0x6A; 0x4D; 0xBE; 0x0A; 0x4D; 0x52; 0x0D; 0x25; 0x46; 0x5D; 0x52; 0xBA; 0x0B; 0x54; 0x4E;
  0x0D; 0x6A; 0x43; 0x29; 0x6D; 0x37; 0x09; 0x5B; 0x4B; 0x74; 0x9B; 0xC1; 0x04; 0x97; 0x54;
  0x0A; 0x4B; 0x48; 0x5B; 0x25; 0xBC; 0x06; 0xA5; 0x50; 0x06; 0xD4; 0x45; 0x4A; 0xDA; 0xB8;
  0x02; 0xB6; 0x4D; 0x09; 0x57; 0x42; 0x24; 0x97; 0xB7; 0x04; 0x97; 0x4A; 0x66; 0x4B; 0x3E;
  0x0D; 0x4A; 0x51; 0x0E; 0xA5; 0x46; 0x56; 0xD4; 0xBA; 0x05; 0xAD; 0x4E; 0x02; 0xB6; 0x44;
  0x39; 0x37; 0x38; 0x09; 0x2E; 0x4B; 0x7C; 0x96; 0xBF; 0x0C; 0x95; 0x53; 0x0D; 0x4A; 0x48;
  0x6D; 0xA5; 0x3B; 0x0B; 0x55; 0x4F; 0x05; 0x6A; 0x45; 0x4A; 0xAD; 0xB9; 0x02; 0x5D; 0x4D;
  0x09; 0x2D; 0x42; 0x2C; 0x95; 0xB6; 0x0A; 0x95; 0x4A; 0x7B; 0x4A; 0xBD; 0x06; 0xCA; 0x51;
  0x0B; 0x55; 0x46; 0x55; 0x5A; 0xBB; 0x04; 0xDA; 0x4E; 0x0A; 0x5B; 0x43; 0x35; 0x2B; 0xB8;
  0x05; 0x2B; 0x4C; 0x8A; 0x95; 0x3F; 0x0E; 0x95; 0x52; 0x06; 0xAA; 0x48; 0x7A; 0xD5; 0x3C;
  0x0A; 0xB5; 0x4F; 0x04; 0xB6; 0x45; 0x4A; 0x57; 0x39; 0x0A; 0x57; 0x4D; 0x05; 0x26; 0x42;
  0x3E; 0x93; 0x35; 0x0D; 0x95; 0x49; 0x75; 0xAA; 0xBE; 0x05; 0x6A; 0x51; 0x09; 0x6D; 0x46;
  0x54; 0xAE; 0xBB; 0x04; 0xAD; 0x4F; 0x0A; 0x4D; 0x43; 0x4D; 0x26; 0xB7; 0x0D; 0x25; 0x4B;
  0x8D; 0x52; 0xBF; 0x0B; 0x54; 0x52; 0x0B; 0x6A; 0x47; 0x69; 0x6D; 0x3C; 0x09; 0x5B; 0x50;
  0x04; 0x9B; 0x45; 0x4A; 0x4B; 0xB9; 0x0A; 0x4B; 0x4D; 0xAB; 0x25; 0xC2; 0x06; 0xA5; 0x54;
  0x06; 0xD4; 0x49; 0x6A; 0xDA; 0x3D; 0x0A; 0xB6; 0x51; 0x09; 0x37; 0x46; 0x54; 0x97; 0xBB;
  0x04; 0x97; 0x4F; 0x06; 0x4B; 0x44; 0x36; 0xA5; 0x37; 0x0E; 0xA5; 0x4A; 0x86; 0xB2; 0xBF;
  0x05; 0xAC; 0x53; 0x0A; 0xB6; 0x47; 0x59; 0x36; 0xBC; 0x09; 0x2E; 0x50; 0x0C; 0x96; 0x45;
  0x4D; 0x4A; 0xB8; 0x0D; 0x4A; 0x4C; 0x0D; 0xA5; 0x41; 0x25; 0xAA; 0xB6; 0x05; 0x6A; 0x49;
  0x7A; 0xAD; 0xBD; 0x02; 0x5D; 0x52; 0x09; 0x2D; 0x47; 0x5C; 0x95; 0xBA; 0x0A; 0x95; 0x4E;
  0x0B; 0x4A; 0x43; 0x4B; 0x55; 0x37; 0x0A; 0xD5; 0x4A; 0x95; 0x5A; 0xBF; 0x04; 0xBA; 0x53;
  0x0A; 0x5B; 0x48; 0x65; 0x2B; 0xBC; 0x05; 0x2B; 0x50; 0x0A; 0x93; 0x45; 0x47; 0x4A; 0xB9;
  0x06; 0xAA; 0x4C; 0x0A; 0xD5; 0x41; 0x24; 0xDA; 0xB6; 0x04; 0xB6; 0x4A; 0x69; 0x57; 0x3D;
  0x0A; 0x4E; 0x51; 0x0D; 0x26; 0x46; 0x5E; 0x93; 0x3A; 0x0D; 0x53; 0x4D; 0x05; 0xAA; 0x43;
  0x36; 0xB5; 0x37; 0x09; 0x6D; 0x4B; 0xB4; 0xAE; 0xBF; 0x04; 0xAD; 0x53; 0x0A; 0x4D; 0x48;
  0x6D; 0x25; 0xBC; 0x0D; 0x25; 0x4F; 0x0D; 0x52; 0x44; 0x5D; 0xAA; 0x38; 0x0B; 0x5A; 0x4C;
  0x05; 0x6D; 0x41; 0x24; 0xAD; 0xB6; 0x04; 0x9B; 0x4A; 0x7A; 0x4B; 0xBE; 0x0A; 0x4B; 0x51;
  0x0A; 0xA5; 0x46; 0x5B; 0x52; 0xBA; 0x06; 0xD2; 0x4E; 0x0A; 0xDA; 0x42; 0x35; 0x5B; 0x37;
  0x09; 0x37; 0x4B; 0x84; 0x97; 0xC1; 0x04; 0x97; 0x53; 0x06; 0x4B; 0x48; 0x66; 0xA5; 0x3C;
  0x0E; 0xA5; 0x4F; 0x06; 0xB2; 0x44; 0x4A; 0xB6; 0x38; 0x0A; 0xAE; 0x4C; 0x09; 0x2E; 0x42;
  0x3C; 0x97; 0x35; 0x0C; 0x96; 0x49; 0x7D; 0x4A; 0xBD; 0x0D; 0x4A; 0x51; 0x0D; 0xA5; 0x45;
  0x55; 0xAA; 0xBA; 0x05; 0x6A; 0x4E; 0x0A; 0x6D; 0x43; 0x45; 0x2E; 0xB7; 0x05; 0x2D; 0x4B;
  0x8A; 0x95; 0xBF; 0x0A; 0x95; 0x53; 0x0B; 0x4A; 0x47; 0x6B; 0x55; 0x3B; 0x0A; 0xD5; 0x4F;
  0x05; 0x5A; 0x45; 0x4A; 0x5D; 0x38; 0x0A; 0x5B; 0x4C; 0x05; 0x2B; 0x42; 0x3A; 0x93; 0xB6;
  0x06; 0x93; 0x49; 0x77; 0x29; 0xBD; 0x06; 0xAA; 0x51; 0x0A; 0xD5; 0x46; 0x54; 0xDA; 0xBA;
  0x04; 0xB6; 0x4E; 0x0A; 0x57; 0x43; 0x45; 0x27; 0x38; 0x0D; 0x26; 0x4A; 0x8E; 0x93; 0x3E;
  0x0D; 0x52; 0x52; 0x0D; 0xAA; 0x47; 0x66; 0xB5; 0x3B; 0x05; 0x6D; 0x4F; 0x04; 0xAE; 0x45;
  0x4A; 0x4E; 0xB9; 0x0A; 0x4D; 0x4C; 0x0D; 0x15; 0x41; 0x2D; 0x92; 0xB5].

Definition day_code1 : list Z := [0x0; 0x1f; 0x3b; 0x5a; 0x78; 0x97; 0xb5; 0xd4; 0xf3].
Definition day_code2 : list Z := [0x111; 0x130; 0x14e].

Record date_t := mk_date { year : Z; month : Z; day : Z }.

(** [_cror_] *)
Definition cror (origin bits : Z) : Z := u8 (Z.shiftr origin bits + Z.shiftl origin (8 - bits)).

(** An element of [year_code]; an index beyond its end is undefined. *)
Definition code_at (i : Z) : option Z := if (0 <=? i) && (i <? 597) then year_code !! Z.to_nat i else None.

(** A month of 30 days. *)
Definition get_moon_day (month_p table_addr : Z) : option Z :=
  let test i mask := b ← code_at i; Some (if Z.land b mask =? 0 then 0 else 1) in
  if month_p =? 1 then test table_addr 0x08
  else if month_p =? 2 then test table_addr 0x04
  else if month_p =? 3 then test table_addr 0x02
  else if month_p =? 4 then test table_addr 0x01
  else if month_p =? 5 then test (table_addr + 1) 0x80
  else if month_p =? 6 then test (table_addr + 1) 0x40
  else if month_p =? 7 then test (table_addr + 1) 0x20
  else if month_p =? 8 then test (table_addr + 1) 0x10
  else if month_p =? 9 then test (table_addr + 1) 0x08
  else if month_p =? 10 then test (table_addr + 1) 0x04
  else if month_p =? 11 then test (table_addr + 1) 0x02
  else if month_p =? 12 then test (table_addr + 1) 0x01
  else if month_p =? 13 then test (table_addr + 2) 0x80
  else Some 0.

Definition month_days (flag2 : Z) : Z := if flag2 =? 0 then 0x1d else 0x1e.

(** The loop of a date after the new year: the month, and [temp4] at the end. *)
Fixpoint forward (fuel : nat) (table_addr temp2 temp4 temp1 month_p mon flag_y : Z) : option (Z * Z) :=
  match fuel with
  | O => None
  | S fuel =>
      if temp4 <? temp1 then Some (mon, temp4)
      else
        let temp4 := temp4 - temp1 in
        let month_p := u8 (month_p + 1) in
        let flag_y' := if mon =? temp2 then u8 (Z.lnot flag_y) else flag_y in
        let mon' := if mon =? temp2 then (if flag_y' =? 0 then u8 (mon + 1) else mon) else u8 (mon + 1) in
        flag2 ← get_moon_day month_p table_addr;
        forward fuel table_addr temp2 temp4 (month_days flag2) month_p mon' flag_y'
  end.

(** The loop of a date before it: the month, and the day. *)
Fixpoint backward (fuel : nat) (table_addr temp2 temp3 temp1 month_p mon flag_y : Z) : option (Z * Z) :=
  match fuel with
  | O => None
  | S fuel =>
      if temp3 <=? temp1 then Some (mon, u8 (temp1 - temp3 + 1))
      else
        let temp3 := u8 (temp3 - temp1) in
        let month_p := u8 (month_p - 1) in
        let mon' := if flag_y =? 0 then u8 (mon - 1) else mon in
        let flag_y' := if mon' =? temp2 then u8 (Z.lnot flag_y) else flag_y in
        flag2 ← get_moon_day month_p table_addr;
        backward fuel table_addr temp2 temp3 (month_days flag2) month_p mon' flag_y'
  end.

(** [temp3]: the days from the first of January to the lunar new year. *)
Definition new_year_offset (b2 : Z) : Z :=
  let temp1 := cror (Z.land b2 0x60) 5 in
  let temp2 := Z.land b2 0x1f in
  if temp1 =? 1 then u8 (temp2 - 1) else u8 (temp2 + 0x1f - 1).

(** [temp4]: the days from the first of January to the date. *)
Definition day_of_year (yr mon d : Z) : option Z :=
  c ← (if mon <? 10 then day_code1 !! Z.to_nat (mon - 1) else day_code2 !! Z.to_nat (mon - 10));
  let temp4 := u32 (c + d - 1) in
  Some (if (2 <? mon) && (yr mod 4 =? 0) then u32 (temp4 + 1) else temp4).

Definition GetYinLiDate (yangli_date : date_t) : option date_t :=
  let shiji := u8 (year yangli_date / 100) in
  let yr := year yangli_date mod 100 in
  let table_addr := if shiji =? 20 then (yr + 0x64 - 1) * 3 else (yr - 1) * 3 in
  b2 ← code_at (table_addr + 2);
  let temp3 := new_year_offset b2 in
  temp4 ← day_of_year yr (month yangli_date) (day yangli_date);
  if temp3 <=? temp4 then
    flag2 ← get_moon_day 1 table_addr;
    b0 ← code_at table_addr;
    '(mon, temp4) ← forward 20 table_addr (cror (Z.land b0 0xf0) 4) (temp4 - temp3) (month_days flag2) 1 1 0;
    Some (mk_date (shiji * 100 + yr) mon (u8 (temp4 + 1)))
  else
    let temp3 := u8 (temp3 - temp4) in
    let yr := if yr =? 0 then 0x63 else yr - 1 in
    let table_addr := table_addr - 3 in
    b0 ← code_at table_addr;
    let temp2 := cror (Z.land b0 0xf0) 4 in
    let month_p := if temp2 =? 0 then 0xc else 0xd in
    flag2 ← get_moon_day month_p table_addr;
    '(mon, d) ← backward 20 table_addr temp2 temp3 (month_days flag2) month_p 0xc 0;
    Some (mk_date (shiji * 100 + yr) mon d).

(** ** What the table says *)

Definition year_byte (y k : Z) : Z := year_code !!! Z.to_nat (3 * (y - 1901) + k).

(** The leap month repeats the number of this month; 0 for none. *)
Definition leap_month (y : Z) : Z := year_byte y 0 / 16.
Definition months (y : Z) : Z := if leap_month y =? 0 then 12 else 13.
Definition month_number (y p : Z) : Z := if (leap_month y =? 0) || (p <=? leap_month y) then p else p - 1.

(** The lengths are the bits from bit 3 of the first byte on. *)
Definition month_length (y p : Z) : Z := if Z.testbit (year_byte y ((p + 3) / 8)) (7 - (p + 3) mod 8) then 30 else 29.

(** The days before month [n + 1]. *)
Fixpoint days_before (y : Z) (n : nat) : Z :=
  match n with O => 0 | S n => days_before y n + month_length y (Z.of_nat n + 1) end.

Definition new_year (y : Z) : Z := days_from_civil y (year_byte y 2 / 32 mod 4) (year_byte y 2 mod 32).

(** The number of a day of the lunar calendar, counted as [days_from_civil]
    counts. *)
Definition lunar_day (y p d : Z) : Z := new_year y + days_before y (Z.to_nat (p - 1)) + d - 1.

(** ** Facts about the table, year by year *)

Definition year_facts (y : Z) : bool :=
  forallb (fun k => (0 <=? year_byte y k) && (year_byte y k <? 256)) [0; 1; 2] &&
  (leap_month y <=? 11) && (1 <=? year_byte y 2 / 32 mod 4) && (year_byte y 2 / 32 mod 4 <=? 2) && (1 <=? year_byte y 2 mod 32) &&
  ((y =? 2099) || (new_year (y + 1) =? new_year y + days_before y (Z.to_nat (months y)))) &&
  (days_from_civil y 12 31 <? new_year y + days_before y (Z.to_nat (months y))) &&
  (new_year y =? days_from_civil y 1 1 + new_year_offset (year_byte y 2)) &&
  forallb (fun m => match day_of_year (y mod 100) m 1 with
                    | Some k => (days_from_civil y m 1 =? days_from_civil y 1 1 + k) && (0 <=? k) && (k <? 336) | None => false end)
    [1; 2; 3; 4; 5; 6; 7; 8; 9; 10; 11; 12].

Lemma all_years : forallb (fun n => year_facts (Z.of_nat n + 1901)) (seq 0 199) = true.
Proof. vm_compute. reflexivity. Qed.

(** ** The code reads the table that way *)

(** The numbers of the months around the leap month. *)
Ltac month_case := match goal with
  | |- context [?a =? ?b] => lazymatch a with context [if _ then _ else _] => fail | _ => destruct (Z.eqb_spec a b); try (exfalso; lia) end
  | |- context [?a <=? ?b] => destruct (Z.leb_spec a b); try (exfalso; lia)
  end.
Ltac month_cases :=
  repeat first [progress change (u8 (Z.lnot 0)) with 255 | progress change (u8 (Z.lnot 255)) with 0
               | progress cbn [negb andb orb]
               | rewrite u8_small by (unfold byte_range; lia) | month_case];
  try reflexivity; try lia.

Section year.
Context (y : Z) (Hy : 1901 <= y <= 2099).

Lemma facts : year_facts y = true.
Proof.
    pose proof all_years as H. rewrite forallb_forall in H. specialize (H (Z.to_nat (y - 1901))).
    rewrite Z2Nat.id, Z.sub_add in H by lia. apply H, in_seq. lia.
Qed.

Lemma byte_bound k : 0 <= k <= 2 -> 0 <= year_byte y k < 256.
Proof.
    intros Hk. pose proof facts as H. unfold year_facts in H. rewrite !andb_true_iff in H.
    destruct H as [[[[[[[[H _] _] _] _] _] _] _] _]. rewrite forallb_forall in H.
    assert (In k [0; 1; 2]) as Hin by (simpl; lia). apply H in Hin. rewrite andb_true_iff in Hin. lia.
Qed.

Lemma code_byte k : 0 <= k <= 2 -> code_at (3 * (y - 1901) + k) = Some (year_byte y k).
Proof.
    intros Hk. unfold code_at, year_byte.
    rewrite (proj2 (Z.leb_le 0 _)) by lia. rewrite (proj2 (Z.ltb_lt _ 597)) by lia. simpl.
    apply list_lookup_lookup_total_lt. change (length year_code) with 597%nat. lia.
Qed.

Lemma code_byte0 : code_at (3 * (y - 1901)) = Some (year_byte y 0).
Proof. rewrite <- (code_byte 0), Z.add_0_r by lia. done. Qed.

Lemma mask_bit b k : 0 <= k -> (Z.land b (2 ^ k) =? 0) = negb (Z.testbit b k).
Proof.
    intros Hk. destruct (Z.testbit b k) eqn:Hb; simpl.
    - apply Z.eqb_neq. intros E. assert (Z.testbit (Z.land b (2 ^ k)) k = false) as F by (rewrite E; apply Z.bits_0).
      rewrite Z.land_spec, Hb, Z.pow2_bits_true in F by lia. done.
    - apply Z.eqb_eq. apply Z.bits_inj'. intros n Hn. rewrite Z.land_spec, Z.bits_0, Z.pow2_bits_eqb by lia.
      destruct (Z.eqb_spec k n) as [->|]; [by rewrite Hb | by rewrite andb_false_r].
Qed.

Lemma moon_day p : 1 <= p <= 13 ->
    exists b, get_moon_day p (3 * (y - 1901)) = Some b /\ month_days b = month_length y p.
Proof.
    intros Hp. unfold get_moon_day.
    assert (p = 1 \/ p = 2 \/ p = 3 \/ p = 4 \/ p = 5 \/ p = 6 \/ p = 7 \/ p = 8 \/ p = 9 \/ p = 10 \/ p = 11 \/ p = 12 \/ p = 13)
      as Hcase by lia.
    repeat (destruct Hcase as [->|Hcase]); try subst p; simpl Z.eqb; cbv match;
      rewrite ?code_byte0, ?code_byte by lia; cbn [mbind option_bind];
      match goal with |- context [Z.land (year_byte y ?j) ?m] =>
        let k := eval vm_compute in (Z.log2 m) in
        change (Z.land (year_byte y j) m) with (Z.land (year_byte y j) (2 ^ k)); rewrite (mask_bit (year_byte y j) k) by lia;
        match goal with |- context [month_length y ?p] =>
          change (month_length y p) with (if Z.testbit (year_byte y j) k then 30 else 29) end;
        destruct (Z.testbit (year_byte y j) k) end;
      (eexists; split; reflexivity).
Qed.

Lemma leap_bounds : 0 <= leap_month y <= 11 /\ months y = 12 + Z.b2z (negb (leap_month y =? 0)).
Proof.
    pose proof facts as H. unfold year_facts in H. rewrite !andb_true_iff in H.
    pose proof (byte_bound 0). split; [|unfold months; by destruct (leap_month y =? 0)].
    split; [unfold leap_month; apply Z.div_pos|]; lia.
Qed.

Lemma leap_read : cror (Z.land (year_byte y 0) 0xf0) 4 = leap_month y.
Proof.
    assert (forallb (fun n => cror (Z.land (Z.of_nat n) 0xf0) 4 =? Z.of_nat n / 16) (seq 0 256) = true) as H by (vm_compute; done).
    rewrite forallb_forall in H. pose proof (byte_bound 0 ltac:(lia)).
    specialize (H (Z.to_nat (year_byte y 0))). rewrite Z2Nat.id in H by lia.
    apply Z.eqb_eq, H, in_seq. lia.
Qed.

Lemma length_cases p : month_length y p = 29 \/ month_length y p = 30.
Proof. unfold month_length. destruct (Z.testbit _ _); lia. Qed.

Lemma days_step p : 1 <= p ->
    days_before y (Z.to_nat p) = days_before y (Z.to_nat (p - 1)) + month_length y p.
Proof.
    intros. replace (Z.to_nat p) with (S (Z.to_nat (p - 1))) by lia. simpl.
    by rewrite Z2Nat.id, Z.sub_add by lia.
Qed.

(** Where the two loops stand in month [p]: the flag is up in the leap month. *)
Definition flag_of (p : Z) : Z := if negb (leap_month y =? 0) && (p =? leap_month y + 1) then 255 else 0.

Lemma forward_finds fuel p t : 1 <= p <= months y -> (Z.to_nat (months y - p) < fuel)%nat ->
    0 <= t -> days_before y (Z.to_nat (p - 1)) + t < days_before y (Z.to_nat (months y)) ->
    exists p' t', forward fuel (3 * (y - 1901)) (leap_month y) t (month_length y p) p (month_number y p) (flag_of p)
        = Some (month_number y p', t') /\ 1 <= p' <= months y /\ 0 <= t' < month_length y p' /\
      days_before y (Z.to_nat (p' - 1)) + t' = days_before y (Z.to_nat (p - 1)) + t.
Proof.
    pose proof leap_bounds as [HL HM]. revert p t. induction fuel as [|fuel IH]; intros p t Hp Hf Ht Hsum; [lia|].
    simpl. destruct (Z.ltb_spec t (month_length y p)) as [Hlt|Hge]; [by exists p, t|].
    pose proof (days_step p ltac:(lia)) as Hs.
    assert (p < months y) as Hp'.
    { destruct (decide (p = months y)) as [->|]; lia. }
    assert (months y <= 13) by (destruct (leap_month y =? 0); simpl in HM; lia).
    rewrite (u8_small (p + 1)) by (unfold byte_range; lia).
    destruct (moon_day (p + 1) ltac:(lia)) as (b & -> & Hb). cbn [mbind option_bind]. rewrite Hb.
    destruct (IH (p + 1) (t - month_length y p)) as (p' & t' & E & HH); try (replace (p + 1 - 1) with p by lia); try lia.
    exists p', t'. replace (p + 1 - 1) with p in HH by lia. split; [|destruct HH as (?&?&?); repeat split; lia].
    rewrite <- E. f_equal; unfold month_number, flag_of; clear E IH HH Hs Hb b.
    all: month_cases.
Qed.

Lemma days_at_least n : 29 * Z.of_nat n <= days_before y n.
Proof. induction n as [|n IH]; simpl days_before; [lia|]. pose proof (length_cases (Z.of_nat n + 1)). lia. Qed.

Lemma backward_finds fuel p t : 1 <= p <= months y -> (Z.to_nat p <= fuel)%nat ->
    1 <= t <= 255 -> t <= days_before y (Z.to_nat p) ->
    exists p' d, backward fuel (3 * (y - 1901)) (leap_month y) t (month_length y p) p (month_number y p) (flag_of p)
        = Some (month_number y p', d) /\ 1 <= p' <= months y /\ 1 <= d <= month_length y p' /\
      days_before y (Z.to_nat (p' - 1)) + d - 1 = days_before y (Z.to_nat p) - t.
Proof.
    pose proof leap_bounds as [HL HM]. revert p t. induction fuel as [|fuel IH]; intros p t Hp Hf Ht Hsum; [lia|].
    pose proof (days_step p ltac:(lia)) as Hs. pose proof (length_cases p) as Hl.
    simpl. destruct (Z.leb_spec t (month_length y p)) as [Hle|Hgt].
    { exists p, (month_length y p - t + 1). rewrite u8_small by (unfold byte_range; lia). split; [done|]. lia. }
    assert (1 < p) as Hp'.
    { destruct (decide (p = 1)) as [->|]; [|lia]. simpl in Hs, Hsum. lia. }
    assert (months y <= 13) by (destruct (leap_month y =? 0); simpl in HM; lia).
    rewrite (u8_small (p - 1)), (u8_small (t - _)) by (unfold byte_range; lia).
    destruct (moon_day (p - 1) ltac:(lia)) as (b & -> & Hb). cbn [mbind option_bind]. rewrite Hb.
    destruct (IH (p - 1) (t - month_length y p)) as (p' & d & E & HH); try lia.
    exists p', d. split; [|destruct HH as (?&?&?); repeat split; lia].
    rewrite <- E. clear E IH HH Hs Hb b Hl Hsum Hgt. f_equal; unfold month_number, flag_of.
    all: month_cases.
Qed.

Lemma fact_last_day : days_from_civil y 12 31 < new_year y + days_before y (Z.to_nat (months y)).
Proof. pose proof facts as H. unfold year_facts in H. rewrite !andb_true_iff in H. lia. Qed.

Lemma fact_new_year : new_year y = days_from_civil y 1 1 + new_year_offset (year_byte y 2).
Proof. pose proof facts as H. unfold year_facts in H. rewrite !andb_true_iff in H. lia. Qed.

Lemma fact_next_year : y < 2099 -> new_year (y + 1) = new_year y + days_before y (Z.to_nat (months y)).
Proof. pose proof facts as H. unfold year_facts in H. rewrite !andb_true_iff, orb_true_iff in H. lia. Qed.

Lemma offset_small : 0 <= new_year_offset (year_byte y 2) <= 255.
Proof. unfold new_year_offset. destruct (_ =? 1); match goal with |- _ <= u8 ?z <= _ => pose proof (u8_range z) as R end; unfold byte_range in R; lia. Qed.

Lemma fact_day_of_year m d : 1 <= m <= 12 -> 1 <= d <= 31 ->
    exists k, day_of_year (y mod 100) m d = Some k /\ 0 <= k /\ days_from_civil y m d = days_from_civil y 1 1 + k.
Proof.
    intros Hm Hd. pose proof facts as H. unfold year_facts in H. rewrite !andb_true_iff in H. destruct H as [_ H].
    rewrite forallb_forall in H. specialize (H m).
    assert (In m [1; 2; 3; 4; 5; 6; 7; 8; 9; 10; 11; 12]) as Hin by (simpl; lia). apply H in Hin. clear H.
    unfold day_of_year in *. destruct (if m <? 10 then _ else _) as [c|] eqn:Ec; [|done]. cbn [mbind option_bind] in *.
    assert (0 <= c <= 400) as Hc.
    { destruct (m <? 10); apply list_elem_of_lookup_2 in Ec;
        repeat (apply elem_of_cons in Ec as [->|Ec]; [lia|]); by apply elem_of_nil in Ec. }
    eexists. split; [reflexivity|]. rewrite (days_from_civil_day y m d).
    destruct ((2 <? m) && _); rewrite ?u32_small in * by (rewrite ?u32_small; lia); lia.
Qed.
End year.

(** ** The conversion *)

(** The address of a year's three bytes, as the code finds it. *)
Lemma table_address y : 1901 <= y <= 2099 ->
  (if u8 (y / 100) =? 20 then (y mod 100 + 0x64 - 1) * 3 else (y mod 100 - 1) * 3) = 3 * (y - 1901) /\
  u8 (y / 100) = y / 100.
Proof.
  intros Hy. pose proof (Z.div_mod y 100). pose proof (Z.mod_pos_bound y 100).
  assert (19 <= y / 100 <= 20) as Hs by (split; [apply Z.div_le_lower_bound | apply Z.lt_succ_r, Z.div_lt_upper_bound]; lia).
  rewrite u8_small by (unfold byte_range; lia). split; [|done].
  destruct (Z.eqb_spec (y / 100) 20); lia.
Qed.

(** The loops start in the first month and in the last one. *)
Lemma first_month y : 1901 <= y <= 2099 -> month_number y 1 = 1 /\ flag_of y 1 = 0.
Proof. intros Hy. pose proof (leap_bounds y Hy) as [HL _]. unfold month_number, flag_of. split; month_cases. Qed.

Lemma last_month y : 1901 <= y <= 2099 ->
  1 <= months y <= 13 /\ months y = (if leap_month y =? 0 then 0xc else 0xd) /\
  month_number y (months y) = 12 /\ flag_of y (months y) = 0.
Proof.
  intros Hy. pose proof (leap_bounds y Hy) as [HL _]. unfold month_number, flag_of, months.
  destruct (Z.eqb_spec (leap_month y) 0); repeat split; try lia; month_cases.
Qed.

Lemma read_some {A B} (x : A) (f : A -> option B) : (Some x ≫= f) = f x.
Proof. reflexivity. Qed.

Section date.
Context (y m d k : Z) (Hy : 1901 <= y <= 2099) (Ek : day_of_year (y mod 100) m d = Some k) (Hk : 0 <= k).

Lemma from_new_year : new_year_offset (year_byte y 2) <= k ->
    days_from_civil y 1 1 + k <= days_from_civil y 12 31 ->
    exists p ld, GetYinLiDate (mk_date y m d) = Some (mk_date y (month_number y p) ld) /\
      1 <= p <= months y /\ 1 <= ld <= month_length y p /\ lunar_day y p ld = days_from_civil y 1 1 + k.
Proof.
    intros Hge Hlast. destruct (table_address y Hy) as [Ha Hs]. destruct (first_month y Hy) as [M1 F1].
    pose proof (fact_new_year y Hy). pose proof (fact_last_day y Hy). destruct (last_month y Hy) as (HM & _).
    destruct (moon_day y Hy 1 ltac:(lia)) as (b & Eb & Hb).
    destruct (forward_finds y Hy 20 1 (k - new_year_offset (year_byte y 2))) as (p & t & E & Hp & Ht & Hsum);
      [lia | lia | lia | simpl; lia|].
    exists p, (t + 1). pose proof (length_cases y p). unfold GetYinLiDate. cbn [Lunar.year Lunar.month Lunar.day].
    rewrite Ha, Hs, code_byte, read_some, Ek, read_some by lia.
    rewrite (proj2 (Z.leb_le _ _) Hge), Eb, (code_byte0 y Hy), !read_some.
    rewrite M1, F1 in E. rewrite Hb, (leap_read y Hy), E, read_some.
    rewrite u8_small by (unfold byte_range; lia). pose proof (Z.div_mod y 100). simpl in Hsum. unfold lunar_day.
    split; [do 2 f_equal; lia | lia].
Qed.

Lemma before_new_year : 1901 < y -> k < new_year_offset (year_byte y 2) ->
    exists p ld, GetYinLiDate (mk_date y m d) = Some (mk_date (if y =? 2000 then 2099 else y - 1) (month_number (y - 1) p) ld) /\
      1 <= p <= months (y - 1) /\ 1 <= ld <= month_length (y - 1) p /\ lunar_day (y - 1) p ld = days_from_civil y 1 1 + k.
Proof.
    intros Hfirst Hlt. assert (1901 <= y - 1 <= 2099) as Hy' by lia. destruct (table_address y Hy) as [Ha Hs].
    destruct (last_month (y - 1) Hy') as (HM & HM' & M12 & F12).
    pose proof (fact_new_year y Hy). pose proof (fact_next_year (y - 1) Hy' ltac:(lia)) as Hnext.
    rewrite Z.sub_add in Hnext. pose proof (offset_small y) as Hoff.
    destruct (moon_day (y - 1) Hy' (months (y - 1)) HM) as (b & Eb & Hb).
    destruct (backward_finds (y - 1) Hy' 20 (months (y - 1)) (new_year_offset (year_byte y 2) - k)) as (p & ld & E & Hp & Hd & Hsum);
      [lia | lia | lia | pose proof (days_at_least (y - 1) (Z.to_nat (months (y - 1)))) as Hmin; destruct (leap_month (y - 1) =? 0); lia |].
    exists p, ld. unfold GetYinLiDate. cbn [Lunar.year Lunar.month Lunar.day].
    rewrite Ha, Hs, code_byte, read_some, Ek, read_some by lia.
    rewrite (proj2 (Z.leb_gt _ _) Hlt). replace (3 * (y - 1901) - 3) with (3 * (y - 1 - 1901)) by lia.
    rewrite (code_byte0 (y - 1) Hy'), u8_small, read_some by (unfold byte_range; lia).
    rewrite M12, F12 in E. rewrite (leap_read (y - 1) Hy'), <- HM', Eb, read_some, Hb, E, read_some.
    split; [|unfold lunar_day; lia]. do 2 f_equal. pose proof (Z.div_mod y 100). pose proof (Z.mod_pos_bound y 100).
    destruct (Z.eqb_spec (y mod 100) 0), (Z.eqb_spec y 2000); try lia.
Qed.
End date.
(** C27: For a date between the lunar new year of 1901 and the end of 2099 the
    code answers a month that is a month of a lunar year (the leap month bears
    the number of the month before it) and one of its 29 or 30 days, and that
    day of that lunar year is the day of the date; the lunar years follow each
    other without a gap.  It also answers that year, with one exception: from
    the first of January 2000 to the fourth of February, the last day of the
    lunar year 1999, it answers 2099. *)
Theorem lunar_date_same_day y m d :
  1901 <= y <= 2099 -> 1 <= m <= 12 -> 1 <= d <= 31 -> new_year 1901 <= days_from_civil y m d <= days_from_civil y 12 31 ->
  exists answered ly p ld, GetYinLiDate (mk_date y m d) = Some (mk_date answered (month_number ly p) ld) /\
    1901 <= ly <= 2099 /\ 1 <= p <= months ly /\ 1 <= ld <= month_length ly p /\
    lunar_day ly p ld = days_from_civil y m d /\
    (if (y =? 2000) && (days_from_civil y m d <? days_from_civil 2000 2 5) then ly = 1999 /\ answered = 2099 else answered = ly).
Proof.
  intros Hy Hm Hd [Hfirst Hlast].
  destruct (fact_day_of_year y Hy m d Hm Hd) as (k & Ek & Hk & Hday).
  pose proof (fact_new_year y Hy) as Hnew. assert (new_year 2000 = days_from_civil 2000 2 5) as H2000 by (vm_compute; reflexivity).
  rewrite Hday in *. destruct (Z.leb_spec (new_year_offset (year_byte y 2)) k) as [Hge|Hlt].
  - destruct (from_new_year y m d k Hy Ek Hge Hlast) as (p & ld & E & HH). exists y, y, p, ld. rewrite E.
    assert ((y =? 2000) && (days_from_civil y 1 1 + k <? days_from_civil 2000 2 5) = false) as ->; [|intuition lia].
    destruct (Z.eqb_spec y 2000) as [->|]; [|done]. apply Z.ltb_ge. lia.
  - assert (1901 < y) as H1901.
    { pose proof (fact_new_year 1901). destruct (decide (y = 1901)) as [->|]; lia. }
    destruct (before_new_year y m d k Hy Ek Hk H1901 Hlt) as (p & ld & E & HH). eexists _, (y - 1), p, ld. rewrite E.
    split; [done|]. repeat (split; [lia|]). destruct (Z.eqb_spec y 2000) as [->|]; [|done].
    cbn [andb]. rewrite (proj2 (Z.ltb_lt _ _)) by lia. lia.
Qed.

(** The new year of 2020 was the 25th of January; 2020 had a leap month after
    the fourth. *)
Example lunar_date_same_day_witness :
  (exists answered ly p ld, GetYinLiDate (mk_date 2020 6 1) = Some (mk_date answered (month_number ly p) ld) /\
    1901 <= ly <= 2099 /\ 1 <= p <= months ly /\ 1 <= ld <= month_length ly p /\
    lunar_day ly p ld = days_from_civil 2020 6 1 /\ answered = ly) /\
  GetYinLiDate (mk_date 2020 6 1) = Some (mk_date 2020 4 10) /\
  GetYinLiDate (mk_date 2020 1 24) = Some (mk_date 2019 12 30) /\
  GetYinLiDate (mk_date 2000 1 1) = Some (mk_date 2099 11 25).
Proof. split; [apply (lunar_date_same_day 2020 6 1); vm_compute; intuition discriminate | repeat split; reflexivity]. Defined.
