(* ===== verification/Md5.v ===== *)
(** * The MD5 sum (src/src/user_manage/md5.c and md5.h)

    The file holds the code, statement by statement, the algorithm as RFC 1321
    describes it (in definitions that share none with the code), and the theorem that both agree for every way a message is
    cut into updates. *)

From stdpp Require Import base list strings.
From Stdlib Require Import ZArith Lia.
From S2P Require Import Prelude CString.

Open Scope Z_scope.

(** ** md5.h *)

Record MD5_CTX := mk_ctx { count : Z * Z; state : Z * Z * Z * Z; buffer : list Z }.

Definition F (x y z : Z) : Z := Z.lor (Z.land x y) (Z.land (u32 (Z.lnot x)) z).
Definition G (x y z : Z) : Z := Z.lor (Z.land x z) (Z.land y (u32 (Z.lnot z))).
Definition H (x y z : Z) : Z := Z.lxor (Z.lxor x y) z.
Definition I (x y z : Z) : Z := Z.lxor y (Z.lor x (u32 (Z.lnot z))).
Definition ROTATE_LEFT (x n : Z) : Z := Z.lor (u32 (Z.shiftl x n)) (Z.shiftr x (32 - n)).

(** The macros [FF], [GG], [HH] and [II] differ in the function; the result
    is the new value of their first argument. *)
Inductive macro := FF | GG | HH | II.

Definition macro_fun (m : macro) : Z -> Z -> Z -> Z :=
  match m with FF => F | GG => G | HH => H | II => I end.

Definition run_macro (m : macro) (a b c d x s ac : Z) : Z :=
  let a := u32 (a + u32 (u32 (macro_fun m b c d + x) + ac)) in
  let a := ROTATE_LEFT a s in
  u32 (a + b).

(** ** md5.c *)

Definition PADDING : list Z := 0x80 :: replicate 63 0.

(** A read of [n] bytes at [i], and a write of bytes at [i]; both are
    undefined beyond the end of the array. *)
Definition read_at (l : list Z) (i n : nat) : option (list Z) :=
  if decide (i + n <= length l)%nat then Some (take n (drop i l)) else None.
Definition write_at (l : list Z) (i : nat) (bytes : list Z) : option (list Z) :=
  if decide (i + length bytes <= length l)%nat then Some (take i l ++ bytes ++ drop (i + length bytes) l) else None.

Definition MD5Init (context : MD5_CTX) : MD5_CTX :=
  mk_ctx (0, 0) (0x67452301, 0xEFCDAB89, 0x98BADCFE, 0x10325476) (buffer context).

(** The word a shift of four bytes makes; [len] is a multiple of 4. *)
Fixpoint MD5Encode (words : list Z) : list Z :=
  match words with
  | [] => []
  | w :: words => Z.land w 0xFF :: Z.land (Z.shiftr w 8) 0xFF :: Z.land (Z.shiftr w 16) 0xFF :: Z.land (Z.shiftr w 24) 0xFF
      :: MD5Encode words
  end.

Fixpoint MD5Decode (bytes : list Z) : list Z :=
  match bytes with
  | b0 :: b1 :: b2 :: b3 :: bytes =>
      Z.lor (Z.lor (Z.lor b0 (Z.shiftl b1 8)) (Z.shiftl b2 16)) (Z.shiftl b3 24) :: MD5Decode bytes
  | _ => []
  end.

(** The order in which a step of [MD5Transform] names the variables. *)
Inductive order := abcd | dabc | cdab | bcda.

Record instr := mk_instr { i_macro : macro; i_order : order; i_x : Z; i_s : Z; i_ac : Z }.

Definition run_instr (x : list Z) (regs : Z * Z * Z * Z) (i : instr) : Z * Z * Z * Z :=
  let '(a, b, c, d) := regs in
  let word := x !!! Z.to_nat (i_x i) in
  match i_order i with
  | abcd => (run_macro (i_macro i) a b c d word (i_s i) (i_ac i), b, c, d)
  | dabc => (a, b, c, run_macro (i_macro i) d a b c word (i_s i) (i_ac i))
  | cdab => (a, b, run_macro (i_macro i) c d a b word (i_s i) (i_ac i), d)
  | bcda => (a, run_macro (i_macro i) b c d a word (i_s i) (i_ac i), c, d)
  end.

(** The 64 statements of [MD5Transform]: macro, variables, word, shift,
    constant. *)
Definition transform_steps : list instr :=
  let FF := mk_instr FF in let GG := mk_instr GG in let HH := mk_instr HH in let II := mk_instr II in [
  FF abcd 0 7 0xd76aa478; FF dabc 1 12 0xe8c7b756; FF cdab 2 17 0x242070db; FF bcda 3 22 0xc1bdceee;
  FF abcd 4 7 0xf57c0faf; FF dabc 5 12 0x4787c62a; FF cdab 6 17 0xa8304613; FF bcda 7 22 0xfd469501;
  FF abcd 8 7 0x698098d8; FF dabc 9 12 0x8b44f7af; FF cdab 10 17 0xffff5bb1; FF bcda 11 22 0x895cd7be;
  FF abcd 12 7 0x6b901122; FF dabc 13 12 0xfd987193; FF cdab 14 17 0xa679438e; FF bcda 15 22 0x49b40821;
  GG abcd 1 5 0xf61e2562; GG dabc 6 9 0xc040b340; GG cdab 11 14 0x265e5a51; GG bcda 0 20 0xe9b6c7aa;
  GG abcd 5 5 0xd62f105d; GG dabc 10 9 0x2441453; GG cdab 15 14 0xd8a1e681; GG bcda 4 20 0xe7d3fbc8;
  GG abcd 9 5 0x21e1cde6; GG dabc 14 9 0xc33707d6; GG cdab 3 14 0xf4d50d87; GG bcda 8 20 0x455a14ed;
  GG abcd 13 5 0xa9e3e905; GG dabc 2 9 0xfcefa3f8; GG cdab 7 14 0x676f02d9; GG bcda 12 20 0x8d2a4c8a;
  HH abcd 5 4 0xfffa3942; HH dabc 8 11 0x8771f681; HH cdab 11 16 0x6d9d6122; HH bcda 14 23 0xfde5380c;
  HH abcd 1 4 0xa4beea44; HH dabc 4 11 0x4bdecfa9; HH cdab 7 16 0xf6bb4b60; HH bcda 10 23 0xbebfbc70;
  HH abcd 13 4 0x289b7ec6; HH dabc 0 11 0xeaa127fa; HH cdab 3 16 0xd4ef3085; HH bcda 6 23 0x4881d05;
  HH abcd 9 4 0xd9d4d039; HH dabc 12 11 0xe6db99e5; HH cdab 15 16 0x1fa27cf8; HH bcda 2 23 0xc4ac5665;
  II abcd 0 6 0xf4292244; II dabc 7 10 0x432aff97; II cdab 14 15 0xab9423a7; II bcda 5 21 0xfc93a039;
  II abcd 12 6 0x655b59c3; II dabc 3 10 0x8f0ccc92; II cdab 10 15 0xffeff47d; II bcda 1 21 0x85845dd1;
  II abcd 8 6 0x6fa87e4f; II dabc 15 10 0xfe2ce6e0; II cdab 6 15 0xa3014314; II bcda 13 21 0x4e0811a1;
  II abcd 4 6 0xf7537e82; II dabc 11 10 0xbd3af235; II cdab 2 15 0x2ad7d2bb; II bcda 9 21 0xeb86d391].

Definition MD5Transform (st : Z * Z * Z * Z) (block : list Z) : Z * Z * Z * Z :=
  let x := MD5Decode block in
  let '(a, b, c, d) := foldl (run_instr x) st transform_steps in
  let '(s0, s1, s2, s3) := st in
  (u32 (s0 + a), u32 (s1 + b), u32 (s2 + c), u32 (s3 + d)).

(** The loop of [MD5Update]: the state, and [i] at its end. *)
Fixpoint update_blocks (fuel : nat) (st : Z * Z * Z * Z) (input : list Z) (inputlen i : Z) : option ((Z * Z * Z * Z) * Z) :=
  match fuel with
  | O => None
  | S fuel =>
      if u32 (i + 64) <=? inputlen then
        block ← read_at input (Z.to_nat i) 64;
        update_blocks fuel (MD5Transform st block) input inputlen (u32 (i + 64))
      else Some (st, i)
  end.

Definition MD5Update (context : MD5_CTX) (input : list Z) (inputlen : Z) : option MD5_CTX :=
  let '(count0, count1) := count context in
  let index := Z.land (Z.shiftr count0 3) 0x3F in
  let partlen := 64 - index in
  let count0 := u32 (count0 + u32 (Z.shiftl inputlen 3)) in
  let count1 := if count0 <? u32 (Z.shiftl inputlen 3) then u32 (count1 + 1) else count1 in
  let count1 := u32 (count1 + Z.shiftr inputlen 29) in
  '(buf, st, index, i) ← (if partlen <=? inputlen then
      part ← read_at input 0 (Z.to_nat partlen);
      buf ← write_at (buffer context) (Z.to_nat index) part;
      let st := MD5Transform (state context) buf in
      '(st, i) ← update_blocks (S (length input)) st input inputlen partlen;
      Some (buf, st, 0, i)
    else Some (buffer context, state context, index, 0));
  rest ← read_at input (Z.to_nat i) (Z.to_nat (inputlen - i));
  buf ← write_at buf (Z.to_nat index) rest;
  Some (mk_ctx (count0, count1) st buf).

Definition MD5Final (context : MD5_CTX) : option (MD5_CTX * list Z) :=
  let '(count0, count1) := count context in
  let index := Z.land (Z.shiftr count0 3) 0x3F in
  let padlen := if index <? 56 then 56 - index else 120 - index in
  let bits := MD5Encode [count0; count1] in
  context ← MD5Update context PADDING padlen;
  context ← MD5Update context bits 8;
  let '(s0, s1, s2, s3) := state context in
  Some (context, MD5Encode [s0; s1; s2; s3]).

(** [md5]: the sum of the characters of a text in hexadecimal, for an
    uninitialised context [garbage]. *)
Definition md5 (garbage : MD5_CTX) (input : string) : option string :=
  context ← MD5Update (MD5Init garbage) (code <$> String.list_ascii_of_string input) (u32 (Z.of_nat (String.length input)));
  '(_, decrypt) ← MD5Final context;
  Some (cat_all (fmt_X_prec 2 <$> decrypt)).

(** ** RFC 1321 *)

(** [floor (2^32 * |sin n|)] for [n] in radians, the constants of the RFC:
    the sine of 1 and the cosine of 1 from their series with 30 terms, then
    [sin (n + 1) = 2 cos 1 sin n - sin (n - 1)], all with 200 binary digits. *)
Definition one : Z := 2 ^ 200.
Fixpoint alternating (fuel : nat) (term k : Z) : Z :=
  match fuel with O => 0 | S fuel => term - alternating fuel (term / (k * (k + 1))) (k + 2) end.
Definition sin1 : Z := alternating 30 one 2.
Definition cos1 : Z := alternating 30 one 1.
Fixpoint sines (n : nat) (s0 s1 : Z) : list Z :=
  match n with O => [] | S n => s1 :: sines n s1 (2 * cos1 * s1 / one - s0) end.
Definition rfc_T : list Z := (fun s => Z.abs s * 2 ^ 32 / one) <$> sines 64 0 sin1.

(** The 32-bit word with the bits [f 0], ..., [f 31]. *)
Fixpoint word_of (n : nat) (f : Z -> bool) : Z :=
  match n with O => 0 | S n => Z.b2z (f 0) + 2 * word_of n (fun i => f (i + 1)) end.

(** The four functions of three words, bit by bit: "if X then Y else Z", "if Z
    then X else Y", the parity of the three, and "Y differs from X or not Z". *)
Definition rfc_bit (round : nat) (x y z : bool) : bool :=
  match round with
  | 0%nat => if x then y else z
  | 1%nat => if z then x else y
  | 2%nat => xorb x (xorb y z)
  | _ => xorb y (x || negb z)
  end.

(** The function, the word and the shift of step [i]. *)
Definition rfc_fun (i : nat) (x y z : Z) : Z :=
  word_of 32 (fun k => rfc_bit (i / 16) (Z.testbit x k) (Z.testbit y k) (Z.testbit z k)).
Definition rfc_word (i : nat) : nat := ((match i / 16 with 0 => i | 1 => 5 * i + 1 | 2 => 3 * i + 5 | _ => 7 * i end) mod 16)%nat.
Definition rfc_shift (i : nat) : Z :=
  ([[7; 12; 17; 22]; [5; 9; 14; 20]; [4; 11; 16; 23]; [6; 10; 15; 21]] !!! (i / 16)%nat) !!! (i mod 4)%nat.

(** A circular shift to the left: what leaves at the top comes back below. *)
Definition rfc_rotate (x n : Z) : Z := x * 2 ^ n mod 2 ^ 32 + x / 2 ^ (32 - n).

(** The words of a block, of four bytes each with the least significant byte
    first. *)
Fixpoint from_little_endian (bytes : list Z) : Z :=
  match bytes with [] => 0 | b :: bytes => b + 256 * from_little_endian bytes end.
Definition rfc_words (block : list Z) : list Z := (fun k => from_little_endian (take 4 (drop (4 * k) block))) <$> seq 0 16.

(** One step: [a = b + ((a + f(b, c, d) + X[k] + T[i]) <<< s)], after which
    the words trade places. *)
Definition rfc_step (x : list Z) (regs : Z * Z * Z * Z) (i : nat) : Z * Z * Z * Z :=
  let '(a, b, c, d) := regs in
  (d, u32 (b + rfc_rotate (u32 (a + rfc_fun i b c d + x !!! rfc_word i + rfc_T !!! i)) (rfc_shift i)), b, c).

Definition rfc_block (st : Z * Z * Z * Z) (block : list Z) : Z * Z * Z * Z :=
  let '(a, b, c, d) := foldl (rfc_step (rfc_words block)) st (seq 0 64) in
  let '(s0, s1, s2, s3) := st in
  (u32 (s0 + a), u32 (s1 + b), u32 (s2 + c), u32 (s3 + d)).

(** The blocks of a message, one after the other. *)
Fixpoint absorb (n : nat) (st : Z * Z * Z * Z) (m : list Z) : Z * Z * Z * Z :=
  match n with O => st | S n => absorb n (rfc_block st (take 64 m)) (drop 64 m) end.

Definition rfc_init : Z * Z * Z * Z := (0x67452301, 0xEFCDAB89, 0x98BADCFE, 0x10325476).

(** The least significant byte first. *)
Fixpoint little_endian (n : nat) (z : Z) : list Z :=
  match n with O => [] | S n => z mod 256 :: little_endian n (z / 256) end.

(** The message, one bit, zeros up to 56 bytes modulo 64, and its length in
    bits modulo 2^64. *)
Definition rfc_pad (m : list Z) : list Z :=
  m ++ 0x80 :: replicate (Z.to_nat ((55 - Z.of_nat (length m)) mod 64)) 0 ++ little_endian 8 (8 * Z.of_nat (length m)).

Definition rfc_md5 (m : list Z) : list Z :=
  let padded := rfc_pad m in
  let '(a, b, c, d) := absorb (length padded / 64) rfc_init padded in
  little_endian 4 a ++ little_endian 4 b ++ little_endian 4 c ++ little_endian 4 d.

(** ** The steps of the code are the steps of the RFC *)

Definition rfc_macro (i : nat) : macro := match (i / 16)%nat with 0%nat => FF | 1%nat => GG | 2%nat => HH | _ => II end.
Definition rfc_order (i : nat) : order := match (i mod 4)%nat with 0%nat => abcd | 1%nat => dabc | 2%nat => cdab | _ => bcda end.
Definition rfc_instr (i : nat) : instr :=
  mk_instr (rfc_macro i) (rfc_order i) (Z.of_nat (rfc_word i)) (rfc_shift i) (rfc_T !!! i).

Lemma steps_rfc : transform_steps = rfc_instr <$> seq 0 64.
Proof. vm_compute. reflexivity. Qed.

(** The registers in the order in which step [i] names them. *)
Definition turned (i : nat) (regs : Z * Z * Z * Z) : Z * Z * Z * Z :=
  let '(a, b, c, d) := regs in
  match rfc_order i with abcd => (a, b, c, d) | dabc => (d, a, b, c) | cdab => (c, d, a, b) | bcda => (b, c, d, a) end.

Lemma u32_add_l a b : u32 (u32 a + b) = u32 (a + b).
Proof. unfold u32. apply Zplus_mod_idemp_l. Qed.

Lemma u32_add_r a b : u32 (a + u32 b) = u32 (a + b).
Proof. unfold u32. apply Zplus_mod_idemp_r. Qed.

Lemma u32_add_mid a f r : u32 (a + u32 f + r) = u32 (a + f + r).
Proof. replace (a + u32 f + r) with (u32 f + (a + r)) by lia. rewrite u32_add_l. f_equal. lia. Qed.

Lemma run_macro_rfc m a b c d x s ac :
  run_macro m a b c d x s ac = u32 (b + ROTATE_LEFT (u32 (a + macro_fun m b c d + x + ac)) s).
Proof.
  unfold run_macro. rewrite u32_add_r. replace (a + (u32 (macro_fun m b c d + x) + ac)) with (u32 (macro_fun m b c d + x) + (a + ac)) by lia.
  rewrite u32_add_l, Z.add_comm. do 4 f_equal. lia.
Qed.

Lemma word_of_bits n f k : 0 <= k -> Z.testbit (word_of n f) k = (k <? Z.of_nat n) && f k.
Proof.
  revert f k. induction n as [|n IH]; intros f k Hk; cbn [word_of].
  - rewrite Z.bits_0. destruct (Z.ltb_spec k (Z.of_nat 0)); [lia|done].
  - destruct (decide (k = 0)) as [->|Hne].
    + rewrite Z.add_comm, Z.testbit_0_r. done.
    + replace k with (Z.succ (k - 1)) at 1 by lia. rewrite Z.add_comm, Z.testbit_succ_r, IH by lia. rewrite Z.sub_add. f_equal.
      apply Bool.eq_iff_eq_true. rewrite !Z.ltb_lt. lia.
Qed.

(** The code's functions, cut to 32 bits, are those of the RFC. *)
Lemma macro_fun_rfc i x y z :
  u32 (macro_fun (rfc_macro i) x y z) = rfc_fun i x y z.
Proof.
  apply Z.bits_inj'. intros k Hk. unfold rfc_fun. rewrite word_of_bits by done. unfold u32. change 4294967296 with (2 ^ 32).
  change (Z.of_nat 32) with 32. destruct (Z.ltb_spec k 32); [|by rewrite Z.mod_pow2_bits_high by lia].
  rewrite Z.mod_pow2_bits_low by lia. cbn [andb]. unfold rfc_macro.
  destruct (i / 16)%nat as [|[|[|j]]]; cbn [macro_fun rfc_bit]; unfold F, G, H, I, u32; change 4294967296 with (2 ^ 32);
    repeat (rewrite ?Z.lor_spec, ?Z.land_spec, ?Z.lxor_spec, ?Z.mod_pow2_bits_low, ?Z.lnot_spec by lia);
    by destruct (Z.testbit x k), (Z.testbit y k), (Z.testbit z k).
Qed.

Lemma lor_disjoint a b n : 0 <= n -> 0 <= b < 2 ^ n -> Z.lor (Z.shiftl a n) b = a * 2 ^ n + b.
Proof.
  intros Hn Hb. rewrite <- Z.shiftl_mul_pow2 by done.
  assert (Z.land (Z.shiftl a n) b = 0) as Hd.
  { apply Z.bits_inj'. intros k Hk. rewrite Z.land_spec, Z.bits_0. destruct (Z.ltb_spec k n).
    - by rewrite Z.shiftl_spec_low.
    - rewrite <- (Z.mod_small b (2 ^ n)), Z.mod_pow2_bits_high by lia. apply andb_false_r. }
  pose proof (Z.add_nocarry_lxor _ _ Hd). pose proof (Z.sub_2lor_lxor (Z.shiftl a n) b). lia.
Qed.

Lemma rotate_rfc x n : 0 <= x < 2 ^ 32 -> 0 <= n <= 32 -> ROTATE_LEFT x n = rfc_rotate x n.
Proof.
  intros Hx Hn. unfold ROTATE_LEFT, rfc_rotate, u32. change 4294967296 with (2 ^ 32). rewrite Z.shiftl_mul_pow2, Z.shiftr_div_pow2 by lia.
  assert (x * 2 ^ n mod 2 ^ 32 = x mod 2 ^ (32 - n) * 2 ^ n) as ->.
  { replace (2 ^ 32) with (2 ^ (32 - n) * 2 ^ n) by (rewrite <- Z.pow_add_r by lia; f_equal; lia). apply Z.mul_mod_distr_r; apply Z.pow_nonzero; lia. }
  rewrite <- Z.shiftl_mul_pow2 at 1 by lia. apply lor_disjoint; [lia|]. split; [apply Z.div_pos; lia|].
  apply Z.div_lt_upper_bound; [lia|]. rewrite <- Z.pow_add_r by lia. replace (32 - n + n) with 32 by lia. apply Hx.
Qed.

Lemma rfc_shift_range i : 0 <= rfc_shift i <= 32.
Proof.
  unfold rfc_shift. pose proof (Nat.mod_upper_bound i 4 ltac:(lia)). destruct (i / 16)%nat as [|[|[|[|j]]]];
    destruct (i mod 4)%nat as [|[|[|[|k]]]]; vm_compute; try lia; split; discriminate.
Qed.

(** The words of a block of bytes. *)
Lemma decode_words n bytes : length bytes = (4 * n)%nat -> Forall byte_range bytes ->
  MD5Decode bytes = (fun k => from_little_endian (take 4 (drop (4 * k) bytes))) <$> seq 0 n.
Proof.
  revert bytes. induction n as [|n IH]; intros bytes Hl Hb; [by destruct bytes|].
  destruct bytes as [|b0 [|b1 [|b2 [|b3 bytes]]]]; try (cbn in Hl; lia).
  repeat match goal with H : Forall byte_range (_ :: _) |- _ => apply Forall_cons in H as [? H] end. unfold byte_range in *.
  cbn [MD5Decode seq fmap list_fmap]. f_equal.
  - change (take 4 _) with [b0; b1; b2; b3]. cbn [from_little_endian].
    rewrite (Z.lor_comm b0), (lor_disjoint b1), (Z.lor_comm _ (Z.shiftl b2 16)), (lor_disjoint b2), (Z.lor_comm _ (Z.shiftl b3 24)), (lor_disjoint b3) by lia.
    change (2 ^ 8) with 256. change (2 ^ 16) with 65536. change (2 ^ 24) with 16777216. lia.
  - rewrite <- seq_shift, <- list_fmap_compose, IH by (cbn in Hl; lia || done). apply list_fmap_ext. intros k x _. cbn.
    by replace (x + S (x + S (x + S (x + 0))))%nat with (S (S (S (4 * x)))) by lia.
Qed.

Lemma order_next i : rfc_order (S i) = match rfc_order i with abcd => dabc | dabc => cdab | cdab => bcda | bcda => abcd end.
Proof.
  unfold rfc_order. rewrite <- Nat.add_1_r, Nat.Div0.add_mod.
  pose proof (Nat.mod_upper_bound i 4). destruct (i mod 4)%nat as [|[|[|[|k]]]]; simpl; lia || done.
Qed.

Lemma step_rfc x i regs : turned (S i) (run_instr x regs (rfc_instr i)) = rfc_step x (turned i regs) i.
Proof.
  destruct regs as [[[a b] c] d]. unfold run_instr, turned, rfc_step, rfc_instr. rewrite order_next.
  cbn [i_order i_macro i_x i_s i_ac]. rewrite Nat2Z.id.
  assert (forall a b c d w, run_macro (rfc_macro i) a b c d w (rfc_shift i) (rfc_T !!! i) =
    u32 (b + rfc_rotate (u32 (a + rfc_fun i b c d + w + rfc_T !!! i)) (rfc_shift i))) as E.
  { intros. rewrite run_macro_rfc, <- macro_fun_rfc, rotate_rfc; [|unfold u32; apply Z.mod_pos_bound; lia|apply rfc_shift_range].
    by rewrite <- !(Z.add_assoc _ w), !u32_add_mid. }
  destruct (rfc_order i); rewrite E; reflexivity.
Qed.

Lemma steps_turned x n i regs :
  turned (i + n) (foldl (run_instr x) regs (rfc_instr <$> seq i n)) = foldl (rfc_step x) (turned i regs) (seq i n).
Proof.
  revert i regs. induction n as [|n IH]; intros i regs; [by rewrite Nat.add_0_r|].
  cbn [seq fmap list_fmap foldl]. rewrite <- step_rfc, <- IH. f_equal. lia.
Qed.

Lemma turned_back i regs : rfc_order i = abcd -> turned i regs = regs.
Proof. destruct regs as [[[a b] c] d]. unfold turned. by intros ->. Qed.

Lemma whole_turns x n st : rfc_order n = abcd ->
  foldl (run_instr x) st (rfc_instr <$> seq 0 n) = foldl (rfc_step x) st (seq 0 n).
Proof.
  intros Hn. pose proof (steps_turned x n 0 st) as E. rewrite Nat.add_0_l, (turned_back n) in E by done.
  by rewrite (turned_back 0) in E.
Qed.

Lemma transform_rfc st block : length block = 64%nat -> Forall byte_range block -> MD5Transform st block = rfc_block st block.
Proof.
  intros Hl Hb. unfold MD5Transform, rfc_block, rfc_words. rewrite (decode_words 16) by done. by rewrite steps_rfc, (whole_turns _ 64) by reflexivity.
Qed.

(** ** Updates *)

Lemma absorb_app n1 n2 st m : absorb (n1 + n2) st m = absorb n2 (absorb n1 st m) (drop (64 * n1) m).
Proof.
  revert st m. induction n1 as [|n1 IH]; intros st m; [done|].
  cbn [absorb Nat.add]. rewrite IH, drop_drop. do 2 f_equal. lia.
Qed.

Lemma absorb_prefix n st m r : (64 * n <= length m)%nat -> absorb n st (m ++ r) = absorb n st m.
Proof.
  revert st m. induction n as [|n IH]; intros st m Hn; [done|].
  cbn [absorb]. rewrite take_app_le, drop_app_le, IH by (rewrite ?length_drop; lia). done.
Qed.

Lemma read_at_prefix l r i n : (i + n <= length l)%nat -> read_at (l ++ r) i n = Some (take n (drop i l)).
Proof.
  intros. unfold read_at. rewrite decide_True by (rewrite length_app; lia).
  rewrite drop_app_le, take_app_le by (rewrite ?length_drop; lia). done.
Qed.

(** The loop takes all whole blocks from [i] on. *)
Lemma update_blocks_run fuel st inp junk i :
  (i <= length inp)%nat -> Z.of_nat (length inp) < 2 ^ 32 - 64 -> (length inp - i < 64 * fuel)%nat -> Forall byte_range inp ->
  update_blocks fuel st (inp ++ junk) (Z.of_nat (length inp)) (Z.of_nat i) =
    Some (absorb ((length inp - i) / 64) st (drop i inp), Z.of_nat (i + 64 * ((length inp - i) / 64))).
Proof.
  revert st i. induction fuel as [|fuel IH]; intros st i Hi Hmax Hf Hb; [lia|]. cbn [update_blocks].
  rewrite u32_small by lia.
  destruct (Z.leb_spec (Z.of_nat i + 64) (Z.of_nat (length inp))) as [Hle|Hgt].
  - rewrite Nat2Z.id, read_at_prefix by lia. cbn [mbind option_bind].
    replace (Z.of_nat i + 64) with (Z.of_nat (i + 64)) by lia. rewrite IH by (lia || done).
    replace (length inp - i)%nat with (length inp - (i + 64) + 1 * 64)%nat by lia.
    rewrite Nat.div_add, Nat.add_1_r by lia. cbn [absorb].
    rewrite transform_rfc, drop_drop by (rewrite ?length_take, ?length_drop; lia || by apply Forall_take, Forall_drop).
    do 2 f_equal. lia.
  - rewrite Nat.div_small by lia. cbn [absorb]. do 2 f_equal. lia.
Qed.

(** The context holds message [m]. *)
Definition bit_count (n : nat) : Z * Z := (u32 (8 * Z.of_nat n), u32 (8 * Z.of_nat n / 2 ^ 32)).

Record holds (ctx : MD5_CTX) (m : list Z) : Prop := {
  holds_count : count ctx = bit_count (length m);
  holds_state : state ctx = absorb (length m / 64) rfc_init m;
  holds_buffer : length (buffer ctx) = 64%nat;
  holds_rest : take (length m mod 64) (buffer ctx) = drop (64 * (length m / 64)) m;
  holds_bytes : Forall byte_range m
}.

Lemma init_holds garbage : length (buffer garbage) = 64%nat -> holds (MD5Init garbage) [].
Proof. by split. Qed.

Lemma count_index n : Z.land (Z.shiftr (u32 (8 * Z.of_nat n)) 3) 0x3F = Z.of_nat (n mod 64).
Proof.
  change 0x3F with (Z.ones 6). rewrite Z.land_ones, Z.shiftr_div_pow2, Nat2Z.inj_mod by lia. unfold u32.
  change (2 ^ 3) with 8. change (2 ^ 6) with 64. change (Z.of_nat 64) with 64.
  set (a := Z.of_nat n). assert (0 <= a) as Ha by lia. clearbody a. Z.div_mod_to_equations; lia.
Qed.

Lemma count_add n k : Z.of_nat k < 2 ^ 32 ->
  let c0 := u32 (u32 (8 * Z.of_nat n) + u32 (Z.shiftl (Z.of_nat k) 3)) in
  let c1 := u32 (8 * Z.of_nat n / 2 ^ 32) in
  (c0, u32 ((if c0 <? u32 (Z.shiftl (Z.of_nat k) 3) then u32 (c1 + 1) else c1) + Z.shiftr (Z.of_nat k) 29)) = bit_count (n + k).
Proof.
  intros Hk. rewrite Z.shiftl_mul_pow2, Z.shiftr_div_pow2 by lia. unfold bit_count. rewrite Nat2Z.inj_add.
  change (2 ^ 3) with 8. change (2 ^ 32) with 4294967296 in *. change (2 ^ 29) with 536870912. simpl.
  f_equal; [rewrite u32_add_l, u32_add_r; f_equal; lia|].
  set (a := Z.of_nat n) in *. set (b := Z.of_nat k) in *. assert (0 <= a /\ 0 <= b) as [Ha Hb] by lia. clearbody a b.
  destruct (Z.ltb_spec (u32 (u32 (8 * a) + u32 (b * 8))) (u32 (b * 8))) as [Hc|Hc];
    rewrite ?u32_add_l, <- ?Z.add_assoc, ?u32_add_l; unfold u32 in *; Z.div_mod_to_equations; lia.
Qed.

Lemma write_at_run (l bytes : list Z) i : (i + length bytes <= length l)%nat ->
  write_at l i bytes = Some (take i l ++ bytes ++ drop (i + length bytes) l).
Proof. intros. unfold write_at. by rewrite decide_True. Qed.

Lemma blocks_of n k r : n = (64 * k + r)%nat -> (r < 64)%nat -> (n / 64 = k /\ n mod 64 = r)%nat.
Proof.
  intros -> Hr. rewrite (Nat.mul_comm 64), Nat.div_add_l, Nat.div_small, Nat.add_0_r by lia.
  by rewrite Nat.add_comm, Nat.Div0.mod_add, Nat.mod_small.
Qed.

(** A message whose rest is filled up to a block. *)
Lemma absorb_filled q r k st (m inp : list Z) : length m = (64 * q + r)%nat -> (r < 64)%nat -> (64 - r <= length inp)%nat ->
  absorb (q + S k) st (m ++ inp) = absorb k (rfc_block (absorb q st m) (drop (64 * q) m ++ take (64 - r) inp)) (drop (64 - r) inp).
Proof.
  intros Hm Hr Hi. rewrite absorb_app, absorb_prefix, drop_app_le by lia. cbn [absorb].
  assert (length (drop (64 * q) m) = r) as Hl by (rewrite length_drop; lia).
  rewrite take_app_ge, drop_app_ge, Hl by lia. done.
Qed.

(** What [MD5Update] does with a message of which a buffer holds the rest. *)
Lemma update_holds ctx m inp junk : holds ctx m -> Forall byte_range inp -> Z.of_nat (length inp) < 2 ^ 32 - 64 ->
  exists ctx', MD5Update ctx (inp ++ junk) (Z.of_nat (length inp)) = Some ctx' /\ holds ctx' (m ++ inp).
Proof.
  intros [Hcount Hst Hbuf Hrest Hbytes] Hinp Hmax. unfold MD5Update. rewrite Hcount. unfold bit_count at 1.
  rewrite count_index. pose proof (Nat.mod_upper_bound (length m) 64) as Hr.
  pose proof (Nat.div_mod_eq (length m) 64) as Hdm.
  pose proof (count_add (length m) (length inp) ltac:(lia)) as Hc. cbn zeta in Hc.
  set (r := (length m mod 64)%nat) in *. set (q := (length m / 64)%nat) in *.
  destruct (Z.leb_spec (64 - Z.of_nat r) (Z.of_nat (length inp))) as [Hle|Hgt].
  - replace (64 - Z.of_nat r) with (Z.of_nat (64 - r)) by lia. rewrite !Nat2Z.id.
    rewrite read_at_prefix, drop_0 by lia. cbn [mbind option_bind].
    rewrite write_at_run by (rewrite length_take; lia). cbn [mbind option_bind].
    rewrite update_blocks_run by (rewrite ?length_app; lia || done). cbn [mbind option_bind].
    set (k := ((length inp - (64 - r)) / 64)%nat). pose proof (Nat.div_mod_eq (length inp - (64 - r)) 64) as Hk.
    pose proof (Nat.mod_upper_bound (length inp - (64 - r)) 64) as Hk'. fold k in Hk.
    set (e := ((length inp - (64 - r)) mod 64)%nat) in *. set (i := (64 - r + 64 * k)%nat).
    replace (Z.of_nat (length inp) - Z.of_nat i) with (Z.of_nat e) by lia. rewrite !Nat2Z.id. change (Z.to_nat 0) with 0%nat.
    rewrite read_at_prefix by lia. cbn [mbind option_bind].
    assert (length (take (64 - r) inp) = (64 - r)%nat) as Hp by (rewrite length_take; lia).
    assert (length (take e (drop i inp)) = e) as He by (rewrite length_take, length_drop; lia).
    rewrite Hp, (drop_ge (buffer ctx)), app_nil_r, Hrest by lia. set (buf := drop (64 * q) m ++ _).
    assert (length buf = 64%nat) as Hl by (unfold buf; rewrite length_app, length_drop; lia).
    rewrite write_at_run by lia. eexists. split; [reflexivity|].
    assert (Nat.div (length (m ++ inp)) 64 = (q + S k)%nat /\ Nat.modulo (length (m ++ inp)) 64 = e) as [Eq Er].
    { apply blocks_of; rewrite ?length_app; lia. }
    split; cbn [count state buffer].
    + by rewrite length_app, Hc.
    + rewrite Eq, (absorb_filled q r), Hst by lia. rewrite transform_rfc; [done|exact Hl|].
      apply Forall_app. split; [by apply Forall_drop|by apply Forall_take].
    + rewrite !length_app, length_drop, take_0. simpl. lia.
    + rewrite Er, Eq, take_0, app_nil_l, take_app_length' by done. rewrite take_ge, drop_app_ge by (rewrite ?length_drop; lia). f_equal. lia.
    + by apply Forall_app.
  - cbn [mbind option_bind]. rewrite Z.sub_0_r, !Nat2Z.id. change (Z.to_nat 0) with 0%nat.
    rewrite read_at_prefix, drop_0, firstn_all by lia. cbn [mbind option_bind].
    rewrite write_at_run by lia. eexists. split; [reflexivity|]. 
    assert (Nat.div (length (m ++ inp)) 64 = q /\ Nat.modulo (length (m ++ inp)) 64 = (r + length inp)%nat) as [Eq Er].
    { apply blocks_of; rewrite ?length_app; lia. }
    split; cbn [count state buffer].
    + by rewrite length_app, Hc.
    + rewrite Eq, absorb_prefix by lia. done.
    + rewrite !length_app, length_take, length_drop. lia.
    + rewrite Eq, Er, Hrest, drop_app_le by lia. rewrite (app_assoc _ inp).
      rewrite take_app_le, take_ge; rewrite ?length_app, ?length_drop; lia || done.
    + by apply Forall_app.
Qed.

(** ** The digest *)

Lemma encode_word w ws : MD5Encode (w :: ws) = little_endian 4 w ++ MD5Encode ws.
Proof.
  cbn [MD5Encode little_endian app]. change 0xFF with (Z.ones 8).
  rewrite !Z.land_ones, !Z.shiftr_div_pow2, !Z.div_div by lia. reflexivity.
Qed.

Lemma little_endian_u32 z : little_endian 4 (u32 z) = little_endian 4 z.
Proof. cbn [little_endian]. unfold u32. repeat (apply f_equal2; [Z.div_mod_to_equations; lia|]). done. Qed.

Lemma encode_count n : let '(c0, c1) := bit_count n in MD5Encode [c0; c1] = little_endian 8 (8 * Z.of_nat n).
Proof.
  unfold bit_count. rewrite !encode_word, !little_endian_u32. change (MD5Encode []) with (@nil Z). rewrite app_nil_r.
  cbn [little_endian app]. rewrite !Z.div_div by lia. reflexivity.
Qed.

Lemma little_endian_bytes n z : Forall byte_range (little_endian n z).
Proof. revert z. induction n as [|n IH]; intros z; cbn [little_endian]; constructor; [apply Z.mod_pos_bound; lia|done]. Qed.

Lemma little_endian_length n z : length (little_endian n z) = n.
Proof. revert z. induction n as [|n IH]; intros z; simpl; by rewrite ?IH. Qed.

(** The bytes of [PADDING] that fill a message up. *)
Lemma padding_taken k : (k <= 63)%nat -> take (S k) PADDING = 0x80 :: replicate k 0.
Proof. intros. unfold PADDING. cbn [take]. by rewrite take_replicate, Nat.min_l by lia. Qed.

Lemma pad_length n :
  let index := Z.of_nat (n mod 64) in
  (if index <? 56 then 56 - index else 120 - index) = Z.of_nat (S (Z.to_nat ((55 - Z.of_nat n) mod 64))).
Proof.
  cbn zeta. rewrite Nat2Z.inj_mod. change (Z.of_nat 64) with 64.
  destruct (Z.ltb_spec (Z.of_nat n mod 64) 56); Z.div_mod_to_equations; lia.
Qed.

Lemma final_holds ctx m : holds ctx m -> exists ctx', MD5Final ctx = Some (ctx', rfc_md5 m).
Proof.
  intros Hh. unfold MD5Final. rewrite (holds_count _ _ Hh). pose proof (encode_count (length m)) as Hbits.
  unfold bit_count in *. rewrite Hbits, count_index, pad_length.
  pose proof (Z.mod_pos_bound (55 - Z.of_nat (length m)) 64 ltac:(lia)) as Hk.
  set (k := Z.to_nat ((55 - Z.of_nat (length m)) mod 64)).
  assert (k <= 63)%nat as Hk' by lia.
  assert (length (take (S k) PADDING) = S k) as Hl by (rewrite padding_taken by done; cbn [length]; by rewrite length_replicate).
  assert (MD5Update ctx PADDING (Z.of_nat (S k))
    = MD5Update ctx (take (S k) PADDING ++ drop (S k) PADDING) (Z.of_nat (length (take (S k) PADDING)))) as ->
    by (rewrite take_drop, Hl; done).
  destruct (update_holds ctx m (take (S k) PADDING) (drop (S k) PADDING) Hh) as (ctx1 & -> & H1);
    [rewrite padding_taken by done; constructor; [unfold byte_range; lia|apply Forall_replicate; unfold byte_range; lia]|lia|]. cbn [mbind option_bind].
  set (bits := little_endian 8 (8 * Z.of_nat (length m))).
  assert (MD5Update ctx1 bits 8 = MD5Update ctx1 (bits ++ []) (Z.of_nat (length bits))) as ->
    by (unfold bits; rewrite little_endian_length, app_nil_r; done).
  destruct (update_holds ctx1 _ bits [] H1) as (ctx2 & -> & H2); [apply little_endian_bytes|unfold bits; rewrite little_endian_length; lia|]. cbn [mbind option_bind].
  rewrite (holds_state _ _ H2), padding_taken, <- app_assoc by done.
  exists ctx2. unfold rfc_md5, rfc_pad. change (0x80 :: ?a ++ ?b) with ((0x80 :: a) ++ b).
  destruct (absorb _ _ _) as [[[a b] c] d].
  rewrite !encode_word. change (MD5Encode []) with (@nil Z). by rewrite app_nil_r.
Qed.

(** Updates with the pieces of a message. *)
Fixpoint updates (ctx : MD5_CTX) (pieces : list (list Z)) : option MD5_CTX :=
  match pieces with
  | [] => Some ctx
  | p :: pieces => ctx ← MD5Update ctx p (Z.of_nat (length p)); updates ctx pieces
  end.

Lemma updates_hold ctx m pieces : holds ctx m -> Forall (fun p => Forall byte_range p /\ Z.of_nat (length p) < 2 ^ 32 - 64) pieces ->
  exists ctx', updates ctx pieces = Some ctx' /\ holds ctx' (m ++ concat pieces).
Proof.
  revert ctx m. induction pieces as [|p pieces IH]; intros ctx m Hh Hp; cbn [updates concat].
  - exists ctx. by rewrite app_nil_r.
  - apply Forall_cons in Hp as [[Hb Hp] Hps]. destruct (update_holds ctx m p [] Hh Hb Hp) as (ctx1 & E & H1).
    rewrite app_nil_r in E. rewrite E. cbn [mbind option_bind]. rewrite app_assoc. by apply IH.
Qed.

(** C13: However a message of bytes is cut into pieces (each shorter than 2^32 - 64
    bytes), initialising a context, updating it with each piece and finishing
    it stays within its buffers and gives the digest of RFC 1321 for the whole
    message, here in its own terms: the padding, the bytes in words with the
    least significant first, the four functions bit by bit, the circular shift
    and the four rounds of sixteen steps with the sine constants.  [md5] answers that digest of a text in
    upper-case hexadecimal. *)
Theorem md5_is_rfc1321 (garbage : MD5_CTX) (pieces : list (list Z)) (text : string) :
  length (buffer garbage) = 64%nat -> Forall (fun p => Forall byte_range p /\ Z.of_nat (length p) < 2 ^ 32 - 64) pieces ->
  Z.of_nat (String.length text) <= INT_MAX ->
  (exists ctx ctx', updates (MD5Init garbage) pieces = Some ctx /\ MD5Final ctx = Some (ctx', rfc_md5 (concat pieces))) /\
  md5 garbage text = Some (cat_all (fmt_X_prec 2 <$> rfc_md5 (code <$> String.list_ascii_of_string text))).
Proof.
  intros Hg Hp Ht. pose proof (init_holds garbage Hg) as H0. split.
  - destruct (updates_hold _ _ _ H0 Hp) as (ctx & E & Hh). destruct (final_holds _ _ Hh) as (ctx' & E').
    by exists ctx, ctx'.
  - unfold md5, INT_MAX in *. set (bytes := code <$> String.list_ascii_of_string text).
    assert (length bytes = String.length text) as Hl by (unfold bytes; rewrite length_fmap; clear; induction text; simpl; by f_equal).
    rewrite u32_small, <- Hl, <- (app_nil_r bytes) at 1 by lia.
    destruct (update_holds _ _ bytes [] H0) as (ctx & -> & Hh); [|lia|].
    { unfold bytes. apply Forall_fmap, Forall_true. intros c. apply code_range. } cbn [mbind option_bind].
    destruct (final_holds _ _ Hh) as (ctx' & ->). done.
Qed.

Example md5_is_rfc1321_witness :
  ((exists ctx ctx', updates (MD5Init (mk_ctx (7, 8) (1, 2, 3, 4) (replicate 64 9))) [[97]; [98; 99]] = Some ctx /\
    MD5Final ctx = Some (ctx', rfc_md5 [97; 98; 99])) /\
   md5 (mk_ctx (7, 8) (1, 2, 3, 4) (replicate 64 9)) "abc" = Some (cat_all (fmt_X_prec 2 <$> rfc_md5 (code <$> String.list_ascii_of_string "abc")))) /\
  md5 (mk_ctx (7, 8) (1, 2, 3, 4) (replicate 64 9)) "abc" = Some "900150983CD24FB0D6963F7D28E17F72".
Proof.
  split; [|vm_compute; reflexivity].
  apply (md5_is_rfc1321 _ [[97]; [98; 99]] "abc"); [reflexivity | repeat constructor; cbn; lia | vm_compute; discriminate].
Defined.
