(* ===== verification/Gpio.v ===== *)
(** * Pins, delays and the device at the other end

    What the drivers under src/driver do to the world outside: they drive
    pins, wait, and read a pin whose level the device decides.  The history of
    a board is the list of these events; the level the device puts on a pin
    is a function of that history, which the drivers' definitions take as a
    parameter. *)

From stdpp Require Import base list.
From Stdlib Require Import ZArith Lia.
From S2P Require Import Prelude.

Open Scope Z_scope.

(** The events of a board with pins [P]: a pin made an output or an input or
    pulled up, a pin driven, nanoseconds waited, an interrupt line enabled or
    disabled, a signal sent to the reader. *)
Inductive event (P : Type) :=
  | ConfigOut (p : P)
  | ConfigIn (p : P)
  | PullUp (p : P)
  | Drive (p : P) (v : bool)
  | Delay (ns : Z)
  | Irq (on : bool)
  | Signal.
Arguments ConfigOut {P} p.
Arguments ConfigIn {P} p.
Arguments PullUp {P} p.
Arguments Drive {P} p v.
Arguments Delay {P} ns.
Arguments Irq {P} on.
Arguments Signal {P}.

(** A board and the static variables of its driver. *)
Record board (P G : Type) := mk_board { history : list (event P); vars : G }.
Arguments mk_board {P G} history vars.
Arguments history {P G} b.
Arguments vars {P G} b.

Section board.
Context {P G : Type}.

Definition did (e : event P) : M (board P G) unit := modify (fun b => mk_board (history b ++ [e]) (vars b)).
Definition set_vars (f : G -> G) : M (board P G) unit := modify (fun b => mk_board (history b) (f (vars b))).
Definition get_vars : M (board P G) G := gets vars.

Definition s3c_gpio_out (p : P) := did (ConfigOut p).
Definition s3c_gpio_in (p : P) := did (ConfigIn p).
Definition s3c_gpio_pullup (p : P) := did (PullUp p).
Definition gpio_set_value (p : P) (v : bool) := did (Drive p v).
Definition ndelay (ns : Z) := did (Delay ns).
Definition udelay (us : Z) := did (Delay (us * 1000)).
Definition mdelay (ms : Z) := did (Delay (ms * 1000000)).

(** The level of a pin, decided by the device. *)
Definition gpio_get_value (level : list (event P) -> bool) : M (board P G) bool := gets (fun b => level (history b)).

(** A piece of a driver runs, with a result and a board that satisfy [Q]. *)
Definition wp {A} (m : M (board P G) A) (Q : A -> board P G -> Prop) (b : board P G) : Prop :=
  exists x b', m b = Some (x, b') /\ Q x b'.

Lemma wp_bind {A B} (m : M (board P G) A) (k : A -> M (board P G) B) Q b : wp m (fun x => wp (k x) Q) b -> wp (m ≫= k) Q b.
Proof. intros (x & b' & E & y & b'' & E' & HQ). exists y, b''. by rewrite (bind_some _ _ _ _ _ E). Qed.

Lemma wp_unbind {A B} (m : M (board P G) A) (k : A -> M (board P G) B) Q b : wp (m ≫= k) Q b -> wp m (fun x => wp (k x) Q) b.
Proof.
  intros (y & b'' & E & HQ). unfold mbind, M_bind in E. destruct (m b) as [[x b']|] eqn:Em; [|done].
  exists x, b'. split; [done|]. by exists y, b''.
Qed.

Lemma wp_ret {A} (x : A) Q b : Q x b -> wp (mret x) Q b.
Proof. intros HQ. by exists x, b. Qed.

Lemma wp_did e (Q : unit -> board P G -> Prop) b : Q tt (mk_board (history b ++ [e]) (vars b)) -> wp (did e) Q b.
Proof. intros HQ. eexists tt, _. by split. Qed.

Lemma wp_mono {A} (m : M (board P G) A) (Q R : A -> board P G -> Prop) b : wp m Q b -> (forall x b', Q x b' -> R x b') -> wp m R b.
Proof. intros (x & b' & E & HQ) HR. exists x, b'. auto. Qed.
End board.
