(* ===== verification/Nrf24.v ===== *)
(** * The radio module (src/driver/nrf24l01/nRF24L01.c)

    The driver talks to the radio over pins it drives one bit at a time.  The
    file holds the driver, a device that reads the pins the way the module's
    serial interface is specified, and the theorems that say which commands
    reach the module and what a user of the driver gets back. *)

From stdpp Require Import base list strings.
From Stdlib Require Import ZArith Lia.
From S2P Require Import Prelude CString Gpio.

Open Scope Z_scope.

(** ** The driver *)

Inductive pin := CE | CSN | SCK | MOSI | MISO.

Record nrf_vars := mk_vars { TX_ADDRESS : list Z; RX_ADDRESS : list Z; ACTION : Z; PLOAD_WIDTH : Z }.

Definition nrf_static : nrf_vars := mk_vars [5; 6; 7; 8; 9] [5; 6; 7; 8; 9] 0 6.

Abbreviation nrf := (M (board pin nrf_vars)).

Definition READ_REG : Z := 0x00.
Definition WRITE_REG : Z := 0x20.
Definition RD_RX_PLOAD : Z := 0x61.
Definition WR_TX_PLOAD : Z := 0xA0.
Definition FLUSH_TX : Z := 0xE1.
Definition FLUSH_RX : Z := 0xE2.
Definition CONFIG : Z := 0x00.
Definition EN_AA : Z := 0x01.
Definition EN_RXADDR : Z := 0x02.
Definition RF_CH : Z := 0x05.
Definition RF_SETUP : Z := 0x06.
Definition STATUS : Z := 0x07.
Definition RX_ADDR_P0 : Z := 0x0A.
Definition TX_ADDR : Z := 0x10.
Definition RX_PW_P0 : Z := 0x11.
Definition TX_ADR_WIDTH : nat := 5.

Section driver.
(** The level of MISO. *)
Context (miso : list (event pin) -> bool).

(** The loop of [SPI_RW], [n] bits before its end. *)
Fixpoint spi_bits (n : nat) (tmp : Z) : nrf Z :=
  match n with
  | O => mret tmp
  | S n =>
      _ ← (if negb (Z.land tmp 0x80 =? 0) then gpio_set_value MOSI true else gpio_set_value MOSI false);
      let tmp := u8 (Z.shiftl tmp 1) in
      _ ← gpio_set_value SCK true;
      _ ← ndelay 60;
      b ← gpio_get_value miso;
      let tmp := if (b : bool) then Z.lor tmp 0x01 else tmp in
      _ ← gpio_set_value SCK false;
      _ ← ndelay 60;
      spi_bits n tmp
  end.

Definition SPI_RW (tmp : Z) : nrf Z := spi_bits 8 tmp.

Definition SPI_Read (reg : Z) : nrf Z :=
  _ ← gpio_set_value CSN false; _ ← ndelay 60;
  _ ← SPI_RW reg;
  reg_val ← SPI_RW 0;
  _ ← gpio_set_value CSN true; _ ← ndelay 60;
  mret reg_val.

Definition SPI_RW_Reg (reg value : Z) : nrf Z :=
  _ ← gpio_set_value CSN false; _ ← ndelay 60;
  status ← SPI_RW reg;
  _ ← SPI_RW value;
  _ ← gpio_set_value CSN true; _ ← ndelay 60;
  mret status.

(** [pBuf] is the array whose bytes are written. *)
Definition SPI_Write_Buf (reg : Z) (pBuf : list Z) (uchars : nat) : nrf Z :=
  _ ← gpio_set_value CSN false; _ ← ndelay 60;
  status ← SPI_RW reg;
  _ ← mfor (seq 0 uchars) (fun i => byte ← lift (pBuf !! i); _ ← SPI_RW byte; ndelay 20);
  _ ← gpio_set_value CSN true; _ ← ndelay 60;
  mret status.

(** The loop of [SPI_Read_Buf]: the bytes read. *)
Fixpoint spi_read_bytes (n : nat) : nrf (list Z) :=
  match n with
  | O => mret []
  | S n => byte ← SPI_RW 0; _ ← ndelay 20; rest ← spi_read_bytes n; mret (byte :: rest)
  end.

(** [SPI_Read_Buf] into the array [pBuf]; more bytes than it has are written
    beyond its end. *)
Definition SPI_Read_Buf (reg : Z) (pBuf : list Z) (uchars : nat) : nrf (Z * list Z) :=
  _ ← gpio_set_value CSN false; _ ← ndelay 60;
  status ← SPI_RW reg;
  bytes ← spi_read_bytes uchars;
  _ ← (if decide (uchars <= length pBuf)%nat then mret tt else ub);
  _ ← gpio_set_value CSN true; _ ← ndelay 60;
  mret (status, bytes ++ drop uchars pBuf).

Definition Init_nRF24L01 : nrf Z :=
  _ ← s3c_gpio_pullup MISO;
  _ ← s3c_gpio_out CE; _ ← s3c_gpio_out CSN; _ ← s3c_gpio_out SCK; _ ← s3c_gpio_out MOSI;
  _ ← s3c_gpio_in MISO;
  _ ← udelay 500;
  _ ← gpio_set_value CE false; _ ← ndelay 60;
  _ ← gpio_set_value CSN true; _ ← ndelay 60;
  _ ← gpio_set_value SCK false; _ ← ndelay 60;
  v ← get_vars;
  _ ← SPI_Write_Buf (WRITE_REG + TX_ADDR) (TX_ADDRESS v) TX_ADR_WIDTH;
  _ ← SPI_Write_Buf (WRITE_REG + RX_ADDR_P0) (RX_ADDRESS v) TX_ADR_WIDTH;
  _ ← SPI_RW_Reg (WRITE_REG + EN_AA) 0x01;
  _ ← SPI_RW_Reg (WRITE_REG + EN_RXADDR) 0x01;
  _ ← SPI_RW_Reg (WRITE_REG + RF_CH) 0;
  _ ← SPI_RW_Reg (WRITE_REG + RX_PW_P0) (PLOAD_WIDTH v);
  _ ← SPI_RW_Reg (WRITE_REG + RF_SETUP) 0x07;
  _ ← gpio_set_value CE true; _ ← ndelay 60;
  mret 1.

Definition set_width (n : Z) : nrf unit := set_vars (fun v => mk_vars (TX_ADDRESS v) (RX_ADDRESS v) (ACTION v) n).

Definition nRF24L01_TxPacket (tx_buf : list Z) : nrf unit :=
  _ ← set_width 1;
  _ ← Init_nRF24L01;
  _ ← gpio_set_value CE false; _ ← ndelay 60;
  v ← get_vars;
  _ ← SPI_Write_Buf (WRITE_REG + RX_ADDR_P0) (TX_ADDRESS v) TX_ADR_WIDTH;
  _ ← SPI_Write_Buf WR_TX_PLOAD tx_buf (Z.to_nat (PLOAD_WIDTH v));
  _ ← SPI_RW_Reg (WRITE_REG + CONFIG) 0x0e;
  _ ← gpio_set_value CE true; _ ← udelay 10;
  _ ← SPI_RW FLUSH_TX;
  mret tt.

Definition nRF24L01_RxPacket (rx_buf : list Z) : nrf (Z * list Z) :=
  status ← SPI_Read STATUS;
  '(revale, rx_buf) ← (if negb (Z.land status 0x40 =? 0) then
      _ ← gpio_set_value CE false;
      v ← get_vars;
      '(_, rx_buf) ← SPI_Read_Buf RD_RX_PLOAD rx_buf (Z.to_nat (PLOAD_WIDTH v));
      mret (1, rx_buf)
    else mret (0, rx_buf));
  _ ← SPI_RW_Reg (WRITE_REG + STATUS) 0xff;
  mret (revale, rx_buf).

Definition SetRX_Mode : nrf unit :=
  _ ← set_vars (fun v => mk_vars [0; 1; 2; 3; 4] [0; 1; 2; 3; 4] (ACTION v) 6);
  _ ← Init_nRF24L01;
  _ ← gpio_set_value CE false; _ ← ndelay 60;
  _ ← SPI_RW_Reg (WRITE_REG + CONFIG) 0x0f;
  _ ← gpio_set_value CE true; udelay 130.

(** [substring(src, dest, index, length)] writes [length] characters and a
    NUL; [room] is the number of bytes that may be written at [dest]. *)
Definition nrf_substring (room : nat) (src : string) (index length : nat) : nrf string :=
  if decide (length + 1 <= room)%nat then mret (String.substring index length src) else ub.

(** [char dest[2]] *)
Definition DEST_SIZE : nat := 2.

Definition simple_strtol (s : string) (base : Z) : Z := digits_value base 0 s.

Definition set_address (i : nat) (k : Z) : nrf unit :=
  set_vars (fun v => mk_vars (<[i := k]> (TX_ADDRESS v)) (<[i := k]> (RX_ADDRESS v)) (ACTION v) (PLOAD_WIDTH v)).

(** [dest] is written as [char dest[2]], with [slack] bytes of the stack behind
    it that nothing uses: none by the C standard, one or more if the compiler
    left them. *)
Definition parse_command (slack : nat) (buffer : string) : nrf unit :=
  let room := (DEST_SIZE + slack)%nat in
  _ ← mfor (seq 0 5) (fun i =>
      dest ← nrf_substring room buffer ((i + 1) * 2) 2;
      set_address i (u8 (simple_strtol dest 16)));
  dest ← nrf_substring room buffer 0 2;
  set_vars (fun v => mk_vars (TX_ADDRESS v) (RX_ADDRESS v) (u8 (simple_strtol dest 10)) (PLOAD_WIDTH v)).

Definition hex_letters : string := "0123456789abcdefABCDEF".
Definition EFAULT : Z := 14.

(** The characters before the first NUL. *)
Fixpoint c_prefix (s : string) : string :=
  match s with
  | "" => ""
  | String c s => if code c =? 0 then "" else String c (c_prefix s)
  end.

(** The loop of [nrf24l01_write]: the last status. *)
Fixpoint send_loop (n : nat) (status : Z) : nrf Z :=
  match n with
  | O => mret status
  | S n =>
      v ← get_vars;
      _ ← nRF24L01_TxPacket [ACTION v];
      status ← SPI_Read STATUS;
      _ ← SPI_RW_Reg (WRITE_REG + STATUS) status;
      _ ← mdelay 10;
      send_loop n status
  end.

(** [buffer]: the twelve bytes at the user's address, if it can be read. *)
Definition nrf24l01_write (slack : nat) (buffer : option string) : nrf Z :=
  match buffer with
  | None => mret (- EFAULT)
  | Some TxBuf =>
      let TxBuf := c_prefix TxBuf in
      if negb (String.length TxBuf =? 12)%nat then mret (-1)
      else if (strspn TxBuf hex_letters <? 12)%nat then mret (-1)
      else
        _ ← parse_command slack TxBuf;
        status ← send_loop 3 0;
        mret (if negb (Z.land status 0x20 =? 0) then 0 else -1)
  end.

Definition nrf24l01_irq_handler : nrf unit :=
  v ← get_vars;
  if PLOAD_WIDTH v =? 6 then _ ← did (Irq false); did Signal else mret tt.

(** The bytes for the user, and the result; [copied] says whether the user's
    address can be written. *)
Definition nrf24l01_read (copied : bool) : nrf (list Z * Z) :=
  '(_, rcv) ← nRF24L01_RxPacket (replicate 6 0);
  _ ← SPI_RW_Reg FLUSH_RX 0;
  _ ← mdelay 10;
  _ ← gpio_set_value CE false; _ ← ndelay 60;
  _ ← SPI_RW_Reg (WRITE_REG + CONFIG) 0x0f;
  _ ← gpio_set_value CE true; _ ← udelay 130;
  _ ← did (Irq true);
  v ← get_vars;
  mret (if copied then (rcv, PLOAD_WIDTH v) else ([], - EFAULT)).
End driver.

(** ** The module's serial interface

    While the select line is low the module takes a bit from MOSI at each
    rising edge of the clock, the most significant bit of a byte first; the
    command ends when the line rises.  The chip enable line is what starts
    and stops the radio. *)

Inductive action := Command (bytes : list Z) | Enable (v : bool).

Record spi := mk_spi { csn : bool; sck : bool; mosi : bool; shifted : list bool; log : list action }.

Definition byte_of (l : list bool) : Z := foldl (fun z b => 2 * z + Z.b2z b) 0 l.
Definition bits_of (z : Z) : list bool := Z.testbit z <$> [7; 6; 5; 4; 3; 2; 1; 0].

Fixpoint bytes_of (l : list bool) : list Z :=
  match l with
  | b7 :: b6 :: b5 :: b4 :: b3 :: b2 :: b1 :: b0 :: l => byte_of [b7; b6; b5; b4; b3; b2; b1; b0] :: bytes_of l
  | _ => []
  end.

Definition see (s : spi) (e : event pin) : spi :=
  match e with
  | Drive CE v => mk_spi (csn s) (sck s) (mosi s) (shifted s) (log s ++ [Enable v])
  | Drive CSN true => if csn s then s else mk_spi true (sck s) (mosi s) [] (log s ++ [Command (bytes_of (shifted s))])
  | Drive CSN false => if csn s then mk_spi false (sck s) (mosi s) [] (log s) else s
  | Drive SCK true =>
      if sck s then s
      else mk_spi (csn s) true (mosi s) (if csn s then shifted s else shifted s ++ [mosi s]) (log s)
  | Drive SCK false => mk_spi (csn s) false (mosi s) (shifted s) (log s)
  | Drive MOSI v => mk_spi (csn s) (sck s) v (shifted s) (log s)
  | _ => s
  end.

Definition module (h : list (event pin)) : spi := foldl see (mk_spi true false false [] []) h.

(** The module answers each byte of a command with one of its own, which
    depends on what it was told before. *)
Definition answering (answer : list action -> list Z -> Z) (h : list (event pin)) : bool :=
  let s := module h in
  let n := (length (shifted s) - 1)%nat in
  nth (n mod 8) (bits_of (answer (log s) (take (n / 8) (bytes_of (shifted s))))) false.

(** ** Bytes and bits *)

Lemma queue_bit (q : list bool) : length q = 8%nat ->
  exists b r, q = b :: r /\ (Z.land (byte_of q) 0x80 =? 0) = negb b /\
    u8 (Z.shiftl (byte_of q) 1) = byte_of (r ++ [false]) /\ Z.lor (u8 (Z.shiftl (byte_of q) 1)) 0x01 = byte_of (r ++ [true]).
Proof.
  intros Hl. destruct q as [|b7 [|b6 [|b5 [|b4 [|b3 [|b2 [|b1 [|b0 [|]]]]]]]]]; try discriminate Hl.
  exists b7, [b6; b5; b4; b3; b2; b1; b0]. destruct b7, b6, b5, b4, b3, b2, b1, b0; repeat split; reflexivity.
Qed.

Lemma bits_u8 z : bits_of (u8 z) = bits_of z.
Proof. unfold bits_of, u8. change 256 with (2 ^ 8). cbn [fmap list_fmap]. by rewrite !Z.mod_pow2_bits_low by lia. Qed.

Lemma byte_bits z : byte_of (bits_of z) = u8 z.
Proof.
  rewrite <- bits_u8. pose proof (u8_range z) as Hr. revert Hr. generalize (u8 z). intros y Hy. unfold byte_range in Hy.
  assert (forallb (fun n => byte_of (bits_of (Z.of_nat n)) =? Z.of_nat n) (seq 0 256) = true) as H by (vm_compute; reflexivity).
  rewrite forallb_forall in H. specialize (H (Z.to_nat y)). rewrite Z2Nat.id in H by lia.
  apply Z.eqb_eq, H, in_seq. lia.
Qed.

Lemma bytes_of_bits z l : bytes_of (bits_of z ++ l) = u8 z :: bytes_of l.
Proof. rewrite <- byte_bits. reflexivity. Qed.

(** The bits of bytes. *)
Definition bits (bytes : list Z) : list bool := concat (bits_of <$> bytes).

Lemma bits_length bytes : length (bits bytes) = (8 * length bytes)%nat.
Proof. unfold bits. induction bytes as [|b bytes IH]; [done|]. cbn [fmap list_fmap concat]. rewrite length_app, IH. simpl. lia. Qed.

Lemma bytes_of_all bytes l : bytes_of (bits bytes ++ l) = (u8 <$> bytes) ++ bytes_of l.
Proof.
  unfold bits. induction bytes as [|b bytes IH]; [done|]. cbn [fmap list_fmap concat].
  rewrite <- app_assoc, bytes_of_bits, IH. done.
Qed.

Lemma bytes_small bytes : Forall byte_range bytes -> u8 <$> bytes = bytes.
Proof. induction 1 as [|z bytes Hz Hb IH]; [done|]. cbn [fmap list_fmap]. by rewrite u8_small, IH. Qed.

Lemma bits_snoc bytes z : bits (bytes ++ [z]) = bits bytes ++ bits_of z.
Proof. unfold bits. rewrite fmap_app, concat_app. simpl. done. Qed.

Lemma module_snoc h e : module (h ++ [e]) = see (module h) e.
Proof. unfold module. by rewrite foldl_app. Qed.

(** ** What the functions of the driver tell the module *)

(** Between commands, with log [l]; and in a command with these bytes and
    [sent] more bits. *)
Definition idle (b : board pin nrf_vars) (l : list action) (v : nrf_vars) : Prop :=
  vars b = v /\ exists mo sh, module (history b) = mk_spi true false mo sh l.
Definition talking (b : board pin nrf_vars) (l : list action) (v : nrf_vars) (bytes : list Z) (sent : list bool) : Prop :=
  vars b = v /\ exists mo, module (history b) = mk_spi false false mo (bits bytes ++ sent) l.

Section module.
Context (answer : list action -> list Z -> Z) (miso : list (event pin) -> bool).
Hypothesis (Hmiso : forall h, csn (module h) = false -> miso h = answering answer h).

Lemma miso_bit h mo ck l bytes sent c : module h = mk_spi false ck mo (bits bytes ++ sent ++ [c]) l ->
  (length sent < 8)%nat -> Forall byte_range bytes -> miso h = nth (length sent) (bits_of (answer l bytes)) false.
Proof.
  intros Hm Hl Hb. rewrite Hmiso by (by rewrite Hm). unfold answering. rewrite Hm. cbn [shifted log].
  rewrite !length_app, bits_length. cbn [length].
  replace (8 * length bytes + (length sent + 1) - 1)%nat with (length sent + length bytes * 8)%nat by lia.
  rewrite Nat.Div0.mod_add, Nat.mod_small, Nat.div_add, Nat.div_small by lia. rewrite bytes_of_all, Nat.add_0_l.
  rewrite (bytes_small bytes Hb), take_app_length. done.
Qed.

(** The rest of a byte: [n] bits of the queue go out, the bits of the answer
    come in behind them. *)
Lemma spi_bits_talk n q sent b l v bytes : (n + length sent = 8)%nat -> length q = 8%nat -> Forall byte_range bytes ->
  talking b l v bytes sent ->
  wp (spi_bits miso n (byte_of q)) (fun z b' => z = byte_of (drop n q ++ drop (length sent) (bits_of (answer l bytes))) /\
    talking b' l v bytes (sent ++ take n q)) b.
Proof.
  revert q sent b. induction n as [|n IH]; intros q sent b Hn Hq Hb Ht; cbn [spi_bits].
  { apply wp_ret. rewrite (drop_ge (bits_of _)), !app_nil_r by (simpl in *; lia). done. }
  destruct (queue_bit q Hq) as (c & r & -> & -> & Hs & Hs1). rewrite negb_involutive. injection Hq as Hr.
  destruct Ht as [Hv [mo Hm]].
  assert ((if c then gpio_set_value MOSI true else gpio_set_value MOSI false) = did (P := pin) (G := nrf_vars) (Drive MOSI c)) as ->
    by (by destruct c).
  do 3 (apply wp_bind, wp_did). apply wp_bind. eexists _, _. split; [reflexivity|].
  cbn [history vars]. set (h := ((history b ++ [_]) ++ [_]) ++ [_]).
  assert (module h = mk_spi false true c (bits bytes ++ sent ++ [c]) l) as Hh.
  { unfold h. rewrite !module_snoc, Hm. cbn [see csn sck mosi shifted log]. by rewrite <- app_assoc. }
  assert (miso h = nth (length sent) (bits_of (answer l bytes)) false) as Hd by (eapply miso_bit; [apply Hh | lia | done]).
  rewrite Hd. set (d := nth _ _ _).
  assert (forall d : bool, (if d then Z.lor (u8 (Z.shiftl (byte_of (c :: r)) 1)) 0x01 else u8 (Z.shiftl (byte_of (c :: r)) 1))
    = byte_of (r ++ [d])) as Hnext by (intros []; [apply Hs1 | apply Hs]).
  rewrite Hnext.
  do 2 (apply wp_bind, wp_did). eapply wp_mono; [apply (IH (r ++ [d]) (sent ++ [c]))|].
  - rewrite length_app. simpl. lia.
  - rewrite length_app, Hr. done.
  - done.
  - split; [done|]. exists c. cbn [history]. by rewrite !module_snoc, Hh.
  - intros z b' [-> Ht]. assert (n <= length r)%nat by lia. rewrite <- app_assoc, take_app_le in Ht by lia.
    split; [|done]. rewrite drop_app_le, length_app by lia. rewrite <- app_assoc. cbn [drop app length].
    assert (length sent < length (bits_of (answer l bytes)))%nat as Hlt by (simpl; lia).
    rewrite Nat.add_1_r, (drop_S (bits_of (answer l bytes)) d (length sent)); [done|].
    unfold d. destruct (nth_lookup_or_length (bits_of (answer l bytes)) (length sent) false); [done | lia].
Qed.

(** A whole byte in a command. *)
Lemma SPI_RW_talk x b l v bytes : byte_range x -> Forall byte_range bytes -> talking b l v bytes [] ->
  wp (SPI_RW miso x) (fun z b' => z = u8 (answer l bytes) /\ talking b' l v (bytes ++ [x]) []) b.
Proof.
  intros Hx Hb Ht. unfold SPI_RW. rewrite <- (u8_small x Hx) at 1. rewrite <- byte_bits.
  eapply wp_mono; [by apply (spi_bits_talk 8 (bits_of x) [] b l v bytes)|].
  intros z b' [-> [Hv [mo Hm]]]. cbn [length]. rewrite drop_0, drop_ge by (simpl; lia).
  rewrite app_nil_l, byte_bits. split; [done|]. split; [done|]. exists mo.
  rewrite bits_snoc, app_nil_r, Hm, app_nil_l, take_ge by (simpl; lia). done.
Qed.

(** A byte outside of a command does not reach the module. *)
Lemma SPI_RW_idle x b l v : idle b l v -> wp (SPI_RW miso x) (fun _ b' => idle b' l v) b.
Proof.
  unfold SPI_RW. generalize 8%nat. intros n. revert x b. induction n as [|n IH]; intros x b Hi; cbn [spi_bits].
  { by apply wp_ret. }
  assert (forall c : bool, (if c then gpio_set_value MOSI true else gpio_set_value MOSI false) = did (P := pin) (G := nrf_vars) (Drive MOSI c))
    as -> by (by intros []).
  do 3 (apply wp_bind, wp_did). apply wp_bind. eexists _, _. split; [reflexivity|].
  do 2 (apply wp_bind, wp_did). apply IH. destruct Hi as (Hv & mo & sh & Hm).
  split; [done|]. eexists _, _. cbn [history]. rewrite !module_snoc, Hm. reflexivity.
Qed.

Lemma select_idle b l v : idle b l v -> talking (mk_board ((history b ++ [Drive CSN false]) ++ [Delay 60]) (vars b)) l v [] [].
Proof.
  intros (Hv & mo & sh & Hm). split; [done|]. exists mo. cbn [history]. by rewrite !module_snoc, Hm.
Qed.

Lemma deselect b l v bytes : Forall byte_range bytes -> talking b l v bytes [] ->
  idle (mk_board ((history b ++ [Drive CSN true]) ++ [Delay 60]) (vars b)) (l ++ [Command bytes]) v.
Proof.
  intros Hb (Hv & mo & Hm). split; [done|]. exists mo, []. cbn [history]. rewrite !module_snoc, Hm. cbn [see csn sck mosi shifted log].
  by rewrite bytes_of_all, app_nil_r, (bytes_small bytes Hb).
Qed.

(** The same, as steps of a longer run. *)
Lemma wp_select {A} (k : nrf A) Q b l v : idle b l v -> (forall b', talking b' l v [] [] -> wp k Q b') ->
  wp (_ ← gpio_set_value CSN false; _ ← ndelay 60; k) Q b.
Proof. intros Hi Hk. do 2 apply wp_bind, wp_did. cbn [history vars]. apply Hk, select_idle, Hi. Qed.

Lemma wp_deselect {A} (k : nrf A) Q b l v bytes : talking b l v bytes [] -> Forall byte_range bytes ->
  (forall b', idle b' (l ++ [Command bytes]) v -> wp k Q b') -> wp (_ ← gpio_set_value CSN true; _ ← ndelay 60; k) Q b.
Proof. intros Ht Hb Hk. do 2 apply wp_bind, wp_did. cbn [history vars]. apply Hk. by apply deselect. Qed.

Lemma wp_byte {A} x (k : Z -> nrf A) Q b l v bytes : talking b l v bytes [] -> byte_range x -> Forall byte_range bytes ->
  (forall b', talking b' l v (bytes ++ [x]) [] -> wp (k (u8 (answer l bytes))) Q b') -> wp (SPI_RW miso x ≫= k) Q b.
Proof.
  intros Ht Hx Hb Hk. apply wp_bind. eapply wp_mono; [by apply (SPI_RW_talk x b l v bytes)|].
  intros z b' [-> Ht']. by apply Hk.
Qed.

Lemma wp_pause {A} ns (k : unit -> nrf A) Q b l v bytes : talking b l v bytes [] ->
  (forall b', talking b' l v bytes [] -> wp (k tt) Q b') -> wp (ndelay ns ≫= k) Q b.
Proof.
  intros (Hv & mo & Hm) Hk. apply wp_bind, wp_did. cbn [history vars]. apply Hk. split; [done|].
  exists mo. cbn [history]. by rewrite module_snoc, Hm.
Qed.

(** ** The commands *)

Ltac in_range := by repeat first [assumption | constructor].
Ltac talk := first [eapply wp_byte; [eassumption | assumption | in_range |]
  | eapply wp_deselect; [eassumption | in_range |] | eapply wp_select; [eassumption|]]; intros.

Lemma SPI_Read_spec reg b l v : byte_range reg -> idle b l v ->
  wp (SPI_Read miso reg) (fun r b' => r = u8 (answer l [reg]) /\ idle b' (l ++ [Command [reg; 0]]) v) b.
Proof.
  intros Hr Hi. assert (byte_range 0) by (unfold byte_range; lia).
  do 4 talk. by apply wp_ret.
Qed.

Lemma SPI_RW_Reg_spec reg value b l v : byte_range reg -> byte_range value -> idle b l v ->
  wp (SPI_RW_Reg miso reg value) (fun r b' => r = u8 (answer l []) /\ idle b' (l ++ [Command [reg; value]]) v) b.
Proof.
  intros Hr Hv Hi. do 4 talk. by apply wp_ret.
Qed.

Lemma write_loop {A} (pBuf : list Z) n i (k : unit -> nrf A) Q b l v bytes : (i + n <= length pBuf)%nat -> Forall byte_range pBuf ->
  Forall byte_range bytes -> talking b l v bytes [] ->
  (forall b', talking b' l v (bytes ++ take n (drop i pBuf)) [] -> wp (k tt) Q b') ->
  wp (mfor (seq i n) (fun i => byte ← lift (pBuf !! i); _ ← SPI_RW miso byte; ndelay 20) ≫= k) Q b.
Proof.
  revert i b bytes. induction n as [|n IH]; intros i b bytes Hi Hp Hb Ht Hk; cbn [seq mfor].
  { apply wp_bind, wp_ret, Hk. by rewrite app_nil_r. }
  destruct (pBuf !! i) as [x|] eqn:Ex; [|apply lookup_ge_None in Ex; lia].
  assert (byte_range x) as Hx by (rewrite Forall_forall in Hp; eapply Hp, list_elem_of_lookup_2, Ex).
  apply wp_bind, wp_bind, wp_bind. exists x, b. split; [done|].
  eapply wp_byte; [done..|]. intros b1 (Hv & mo & Hm). apply wp_did, wp_unbind. apply IH with (bytes := bytes ++ [x]); [lia|done| |split; [done|]; exists mo; cbn [history]; by rewrite module_snoc, Hm|].
  - apply Forall_app. split; in_range.
  - intros b' Ht'. apply Hk. rewrite <- app_assoc in Ht'. by rewrite (drop_S _ _ _ Ex).
Qed.

Lemma SPI_Write_Buf_spec reg pBuf n b l v : byte_range reg -> Forall byte_range pBuf -> (n <= length pBuf)%nat -> idle b l v ->
  wp (SPI_Write_Buf miso reg pBuf n) (fun r b' => r = u8 (answer l []) /\ idle b' (l ++ [Command (reg :: take n pBuf)]) v) b.
Proof.
  intros Hr Hp Hn Hi. do 2 talk. eapply (write_loop pBuf n 0); [done | done | | eassumption |]; [in_range|]. intros.
  rewrite drop_0 in *. eapply wp_deselect; [eassumption | constructor; [|apply Forall_take]; done |]. intros. by apply wp_ret.
Qed.
(** The bytes the module gives after the first one of a command. *)
Definition answers (l : list action) (reg : Z) (n : nat) : list Z :=
  (fun i => u8 (answer l (reg :: replicate i 0))) <$> seq 0 n.

Lemma read_loop n m b l v reg : byte_range reg -> talking b l v (reg :: replicate m 0) [] ->
  wp (spi_read_bytes miso n) (fun r b' => r = (fun i => u8 (answer l (reg :: replicate i 0))) <$> seq m n /\
    talking b' l v (reg :: replicate (m + n) 0) []) b.
Proof.
  intros Hr. revert m b. induction n as [|n IH]; intros m b Ht; cbn [spi_read_bytes].
  { apply wp_ret. by rewrite Nat.add_0_r. }
  eapply wp_byte; [done | unfold byte_range; lia | constructor; [done|] |].
  { apply Forall_replicate. unfold byte_range. lia. }
  intros b1 (Hv & mo & Hm). apply wp_bind, wp_did, wp_bind. eapply wp_mono; [apply (IH (S m))|].
  { split; [done|]. exists mo. cbn [history]. rewrite module_snoc, Hm. cbn [see].
    change ((reg :: replicate m 0) ++ [0]) with (reg :: replicate m 0 ++ [0]). by rewrite <- replicate_S_end. }
  intros r b2 [-> Ht']. apply wp_ret. by rewrite Nat.add_succ_r.
Qed.

Lemma SPI_Read_Buf_spec reg pBuf n b l v : byte_range reg -> (n <= length pBuf)%nat -> idle b l v ->
  wp (SPI_Read_Buf miso reg pBuf n) (fun r b' => r = (u8 (answer l []), answers l reg n ++ drop n pBuf) /\
    idle b' (l ++ [Command (reg :: replicate n 0)]) v) b.
Proof.
  intros Hr Hn Hi. do 2 talk. apply wp_bind. eapply wp_mono; [apply (read_loop n 0); [done | eassumption]|]. intros r b2 [-> Ht].
  rewrite decide_True by done. apply wp_bind, wp_ret. eapply wp_deselect; [eassumption | |].
  { constructor; [done|]. apply Forall_replicate. unfold byte_range. lia. }
  intros. by apply wp_ret.
Qed.

(** ** Whole operations *)

(** Events the module does not notice between commands. *)
Definition unnoticed (e : event pin) : bool :=
  match e with Drive CE _ | Drive CSN false | Drive SCK true => false | _ => true end.

Lemma wp_unnoticed {A} e (k : unit -> nrf A) Q b l v : idle b l v -> unnoticed e = true ->
  (forall b', idle b' l v -> wp (k tt) Q b') -> wp (did e ≫= k) Q b.
Proof.
  intros (Hv & mo & sh & Hm) He Hk. apply wp_bind, wp_did, Hk. split; [done|]. cbn [history]. rewrite module_snoc, Hm.
  destruct e as [| | |[] []| | |]; try discriminate He; eexists _, _; reflexivity.
Qed.

Lemma wp_enable {A} on (k : unit -> nrf A) Q b l v : idle b l v ->
  (forall b', idle b' (l ++ [Enable on]) v -> wp (k tt) Q b') -> wp (gpio_set_value CE on ≫= k) Q b.
Proof.
  intros (Hv & mo & sh & Hm) Hk. apply wp_bind, wp_did, Hk. split; [done|]. cbn [history]. rewrite module_snoc, Hm.
  eexists _, _. reflexivity.
Qed.

Lemma wp_get {A} (k : nrf_vars -> nrf A) Q b l v : idle b l v -> wp (k v) Q b -> wp (get_vars ≫= k) Q b.
Proof. intros [Hv _] Hk. apply wp_bind. eexists _, _. split; [reflexivity|]. by rewrite Hv. Qed.

Lemma wp_set {A} f (k : unit -> nrf A) Q b l v : idle b l v ->
  (forall b', idle b' l (f v) -> wp (k tt) Q b') -> wp (set_vars f ≫= k) Q b.
Proof. intros [Hv Hm] Hk. apply wp_bind. eexists _, _. split; [reflexivity|]. apply Hk. split; [cbn [vars]; by rewrite Hv | done]. Qed.

Lemma wp_then {A B} (m : nrf A) (k : A -> nrf B) (R : A -> Prop) Q b l v :
  wp m (fun x b' => R x /\ idle b' l v) b -> (forall x b', R x -> idle b' l v -> wp (k x) Q b') -> wp (m ≫= k) Q b.
Proof. intros Hm Hk. apply wp_bind. eapply wp_mono; [done|]. intros x b' [HR Hi]. by apply Hk. Qed.

Definition vars_ok (v : nrf_vars) : Prop :=
  length (TX_ADDRESS v) = 5%nat /\ length (RX_ADDRESS v) = 5%nat /\ Forall byte_range (TX_ADDRESS v) /\
  Forall byte_range (RX_ADDRESS v) /\ byte_range (ACTION v) /\ byte_range (PLOAD_WIDTH v).

(** What setting the module up tells it. *)
Definition init_log (v : nrf_vars) : list action :=
  [Enable false; Command (0x30 :: TX_ADDRESS v); Command (0x2A :: RX_ADDRESS v); Command [0x21; 1]; Command [0x22; 1];
   Command [0x25; 0]; Command [0x31; PLOAD_WIDTH v]; Command [0x26; 7]; Enable true].

(** With the width of a payload that is sent. *)
Definition narrow (v : nrf_vars) : nrf_vars := mk_vars (TX_ADDRESS v) (RX_ADDRESS v) (ACTION v) 1.

Ltac byte := by (unfold byte_range; vm_compute; intuition discriminate).
Ltac told lem := eapply wp_then; [eapply lem; [.. | eassumption]; first [assumption | byte | in_range | unfold TX_ADR_WIDTH, narrow; simpl; lia]|];
  cbv beta; intros ? ? -> ?.
Ltac radio := cbv beta; lazymatch goal with
  | |- wp (gpio_set_value CE _ ≫= _) _ _ => eapply wp_enable; [eassumption|]; intros ? ?
  | |- wp (get_vars ≫= _) _ _ => eapply wp_get; [eassumption|]
  | |- wp (set_vars _ ≫= _) _ _ => eapply wp_set; [eassumption|]; intros ? ?
  | |- wp (SPI_RW_Reg _ _ _ ≫= _) _ _ => told SPI_RW_Reg_spec
  | |- wp (SPI_Write_Buf _ _ _ _ ≫= _) _ _ => told SPI_Write_Buf_spec
  | |- wp (SPI_Read _ _ ≫= _) _ _ => told SPI_Read_spec
  | |- wp (_ ≫= _) _ _ => eapply wp_unnoticed; [eassumption | reflexivity |]; intros ? ?
  end.

Lemma Init_spec b l v : vars_ok v -> idle b l v -> wp (Init_nRF24L01 miso) (fun _ b' => True /\ idle b' (l ++ init_log v) v) b.
Proof.
  intros (HT & HR & HTb & HRb & HA & HP) Hi. unfold Init_nRF24L01.
  repeat radio. apply wp_ret. split; [done|].
  rewrite !take_ge in * by (unfold TX_ADR_WIDTH; lia). unfold init_log.
  match goal with H : idle ?b _ _ |- idle ?b _ _ => rewrite <- !app_assoc in H; exact H end.
Qed.

(** What sending one packet tells the module. *)
Definition packet_log (v : nrf_vars) (payload : Z) : list action :=
  init_log (narrow v) ++ [Enable false; Command (0x2A :: TX_ADDRESS v); Command [0xA0; payload]; Command [0x20; 0x0e]; Enable true].

Lemma narrow_ok v : vars_ok v -> vars_ok (narrow v).
Proof. intros (?&?&?&?&?&?). unfold vars_ok. cbn. do 5 (split; [done|]). unfold byte_range. lia. Qed.

Lemma TxPacket_spec payload b l v : byte_range payload -> vars_ok v -> idle b l v ->
  wp (nRF24L01_TxPacket miso [payload]) (fun _ b' => True /\ idle b' (l ++ packet_log v payload) (narrow v)) b.
Proof.
  intros Hp Hv Hi. pose proof (narrow_ok v Hv) as Hn. pose proof Hv as (HT & HR & HTb & HRb & HA & HP).
  unfold nRF24L01_TxPacket, set_width. radio.
  match goal with H : idle _ l _ |- _ => change (idle b' l (narrow v)) in H end. eapply wp_then; [eapply Init_spec; eassumption|]. intros _ b1 _ H1.
  do 8 radio. eapply (wp_then _ _ (fun _ => True)); [|intros ? ? _ Hlast; apply wp_ret; split; [exact I | exact Hlast]].
  eapply wp_mono; [eapply SPI_RW_idle; eassumption|]. intros x be Hend. split; [exact I|].
  unfold packet_log. rewrite !take_ge in Hend by (unfold TX_ADR_WIDTH; simpl; lia).
  rewrite <- !app_assoc in *. exact Hend.
Qed.

(** Three packets, the status read and written back after each. *)
Fixpoint rounds (n : nat) (v : nrf_vars) (l : list action) (status : Z) : list action * Z :=
  match n with
  | O => (l, status)
  | S n =>
      let l := l ++ packet_log v (ACTION v) in
      let status := u8 (answer l [STATUS]) in
      rounds n v (l ++ [Command [STATUS; 0]; Command [0x27; status]]) status
  end.

Lemma rounds_narrow n v l st : rounds n (narrow v) l st = rounds n v l st.
Proof. revert l st. induction n as [|n IH]; intros l st; [done|]. cbn [rounds]. rewrite IH. reflexivity. Qed.

Lemma send_loop_spec n st b l v : vars_ok v -> idle b l v ->
  wp (send_loop miso n st) (fun r b' => r = snd (rounds n v l st) /\
    idle b' (fst (rounds n v l st)) (match n with O => v | _ => narrow v end)) b.
Proof.
  revert st b l v. induction n as [|n IH]; intros st b l v Hv Hi; cbn [send_loop rounds]; [by apply wp_ret|].
  radio. eapply wp_then; [apply (TxPacket_spec (ACTION v) _ l v); [apply Hv | done | eassumption]|]. intros _ b1 _ H1.
  assert (byte_range (u8 (answer (l ++ packet_log v (ACTION v)) [STATUS]))) as Hs by apply u8_range.
  do 3 radio. pose proof (narrow_ok v Hv) as Hn.
  eapply wp_mono; [eapply IH; [exact Hn|]|].
  - match goal with H : idle ?b _ _ |- idle ?b _ _ => rewrite <- app_assoc in H; exact H end.
  - intros r b2 [-> Hb2]. rewrite rounds_narrow in *. split; [done|]. by destruct n.
Qed.

(** The twelve characters of a command: the action in decimal and the address
    in hexadecimal. *)
Definition command_text (k : Z) (a : list Z) : string := fmt_d_prec 2 k +:+ cat_all (fmt_X_prec 2 <$> a).

Lemma hex_byte z : byte_range z -> exists h d, fmt_X_prec 2 z = String (digit_char h) (String (digit_char d) "") /\
  0 <= h < 16 /\ 0 <= d < 16 /\ z = 16 * h + d.
Proof.
  unfold byte_range. intros Hz. rewrite fmt_X_fixed by lia. exists (z / 16 mod 16), (z mod 16).
  pose proof (Z.mod_pos_bound z 16). pose proof (Z.mod_pos_bound (z / 16) 16).
  split; [reflexivity|]. split; [lia|]. split; [lia|]. Z.div_mod_to_equations. lia.
Qed.

Lemma decimal_byte k : 0 <= k < 100 -> exists h d, fmt_d_prec 2 k = String (digit_char h) (String (digit_char d) "") /\
  0 <= h < 10 /\ 0 <= d < 10 /\ k = 10 * h + d.
Proof.
  intros Hk. rewrite fmt_d_fixed by lia. exists (k / 10 mod 10), (k mod 10).
  pose proof (Z.mod_pos_bound k 10). pose proof (Z.mod_pos_bound (k / 10) 10).
  split; [reflexivity|]. split; [lia|]. split; [lia|]. Z.div_mod_to_equations. lia.
Qed.

Lemma two_digits base h d : 0 <= h < base -> 0 <= d < base -> base <= 36 ->
  simple_strtol (String (digit_char h) (String (digit_char d) "")) base = base * h + d.
Proof. intros. unfold simple_strtol. cbn [digits_value]. rewrite !digit_of_char by lia. lia. Qed.

(** What [parse_command] leaves in the driver's variables. *)
Definition addressed (k : Z) (a : list Z) (v : nrf_vars) : nrf_vars := mk_vars a a k (PLOAD_WIDTH v).

Lemma parse_command_spec {A} (rest : unit -> nrf A) Q slack k a b l v : (1 <= slack)%nat -> 0 <= k < 100 -> length a = 5%nat ->
  Forall byte_range a -> vars_ok v -> idle b l v ->
  (forall b', idle b' l (addressed k a v) -> wp (rest tt) Q b') -> wp (parse_command slack (command_text k a) ≫= rest) Q b.
Proof.
  intros Hslack Hk Ha Hb (HT & HR & _) Hi Hrest. destruct v as [TX RX ac w]. cbn [TX_ADDRESS RX_ADDRESS] in *.
  destruct a as [|a0 [|a1 [|a2 [|a3 [|a4 [|]]]]]]; try discriminate Ha.
  destruct TX as [|t0 [|t1 [|t2 [|t3 [|t4 [|]]]]]]; try discriminate HT.
  destruct RX as [|r0 [|r1 [|r2 [|r3 [|r4 [|]]]]]]; try discriminate HR.
  repeat match goal with H : Forall byte_range (_ :: _) |- _ => apply Forall_cons in H as [? H] end.
  unfold command_text. cbn [fmap list_fmap].
  destruct (decimal_byte k Hk) as (h & d & -> & Hh & Hd & Ek).
  destruct (hex_byte a0) as (h0 & d0 & -> & ? & ? & E0); [done|]. destruct (hex_byte a1) as (h1 & d1 & -> & ? & ? & E1); [done|].
  destruct (hex_byte a2) as (h2 & d2 & -> & ? & ? & E2); [done|]. destruct (hex_byte a3) as (h3 & d3 & -> & ? & ? & E3); [done|].
  destruct (hex_byte a4) as (h4 & d4 & -> & ? & ? & E4); [done|].
  unfold parse_command, nrf_substring, cat_all. cbn [seq mfor Nat.add Nat.mul String.substring foldr String.append].
  rewrite !decide_True by (unfold DEST_SIZE; lia).
  apply wp_bind. eexists tt, _. split; [reflexivity|]. apply Hrest.
  rewrite !two_digits, <- E0, <- E1, <- E2, <- E3, <- E4, <- Ek, !u8_small by (assumption || lia || (unfold byte_range; lia)).
  destruct Hi as [Hv Hm]. split; [cbn [vars]; rewrite Hv; reflexivity | exact Hm].
Qed.

(** The check of the text. *)
Lemma hex_letter c : mem_char c hex_letters = true -> code c <> 0.
Proof. destruct c as [[] [] [] [] [] [] [] []]; vm_compute; discriminate. Qed.

Lemma hex_text_clean t : all_chars (fun c => mem_char c hex_letters) t = true ->
  c_prefix t = t /\ strspn t hex_letters = String.length t.
Proof.
  induction t as [|c t IH]; [done|]. cbn [all_chars c_prefix strspn String.length].
  destruct (mem_char c hex_letters) eqn:Hc; [|done]. intros [Hp Hs]%IH.
  destruct (Z.eqb_spec (code c) 0) as [E|]; [by apply hex_letter in Hc|]. by rewrite Hp, Hs.
Qed.

Lemma hex_digit_letter d : 0 <= d < 16 -> mem_char (digit_char d) hex_letters = true.
Proof.
  intros Hd. assert (forallb (fun n => mem_char (digit_char (Z.of_nat n)) hex_letters) (seq 0 16) = true) as H by (vm_compute; reflexivity).
  rewrite forallb_forall in H. specialize (H (Z.to_nat d)). rewrite Z2Nat.id in H by lia. apply H, in_seq. lia.
Qed.

Lemma command_text_clean k a : 0 <= k < 100 -> length a = 5%nat -> Forall byte_range a ->
  let t := command_text k a in c_prefix t = t /\ String.length t = 12%nat /\ strspn t hex_letters = 12%nat.
Proof.
  intros Hk Ha Hb t. destruct a as [|a0 [|a1 [|a2 [|a3 [|a4 [|]]]]]]; try discriminate Ha.
  repeat match goal with H : Forall byte_range (_ :: _) |- _ => apply Forall_cons in H as [? H] end.
  subst t. unfold command_text. cbn [fmap list_fmap].
  destruct (decimal_byte k Hk) as (h & d & -> & Hh & Hd & Ek).
  repeat match goal with H : byte_range ?x |- context [fmt_X_prec 2 ?x] => destruct (hex_byte x H) as (? & ? & -> & ? & ? & _) end.
  unfold cat_all. cbn [foldr String.append].
  match goal with |- c_prefix ?t = _ /\ _ => destruct (hex_text_clean t) as [Hp Hs] end.
  { cbn [all_chars]. by rewrite !hex_digit_letter by lia. }
  by rewrite Hp, Hs.
Qed.


(** What reading tells the module, and what it finds, after status [st]. *)
Definition fetch_log (v : nrf_vars) (st : Z) : list action :=
  if negb (Z.land st 0x40 =? 0) then [Enable false; Command (RD_RX_PLOAD :: replicate (Z.to_nat (PLOAD_WIDTH v)) 0)] else [].
Definition fetched (v : nrf_vars) (l : list action) (st : Z) : list Z :=
  if negb (Z.land st 0x40 =? 0)
  then answers (l ++ [Enable false]) RD_RX_PLOAD (Z.to_nat (PLOAD_WIDTH v)) ++ drop (Z.to_nat (PLOAD_WIDTH v)) (replicate 6 0)
  else replicate 6 0.

Lemma RxPacket_spec b l v : (Z.to_nat (PLOAD_WIDTH v) <= 6)%nat -> idle b l v ->
  let st := u8 (answer l [STATUS]) in
  let l' := l ++ [Command [STATUS; 0]] in
  wp (nRF24L01_RxPacket miso (replicate 6 0))
    (fun r b' => snd r = fetched v l' st /\ idle b' (l' ++ fetch_log v st ++ [Command [0x27; 0xff]]) v) b.
Proof.
  intros Hw Hi. cbn zeta. unfold nRF24L01_RxPacket, fetched, fetch_log. radio. set (st := u8 (answer l [STATUS])) in *.
  destruct (negb (Z.land st 0x40 =? 0)).
  - eapply (wp_then _ _ (fun r => snd r = answers ((l ++ [Command [STATUS; 0]]) ++ [Enable false]) RD_RX_PLOAD (Z.to_nat (PLOAD_WIDTH v)) ++ drop (Z.to_nat (PLOAD_WIDTH v)) (replicate 6 0)));
      [do 2 radio; eapply wp_then; [eapply SPI_Read_Buf_spec; [byte | by rewrite length_replicate | eassumption]|]; intros [? ?] ? [= -> ->] ?; by apply wp_ret|].
    intros [? ?] ? Hr ?. radio. apply wp_ret. split; [exact Hr|]. rewrite <- !app_assoc in *. assumption.
  - apply wp_bind, wp_ret. cbv beta match. radio. apply wp_ret. split; [done|]. rewrite <- !app_assoc in *. assumption.
Qed.

(** C32: Reading the radio's device file asks the module for its status; when
    it has received a packet the reader gets the bytes the module gives for
    it, and six zeros when not.  The module is then told to forget the packet
    and to listen again, and the interrupt line is open again.  No byte is
    written beyond the six of the buffer. *)
Theorem radio_read b l v copied : (Z.to_nat (PLOAD_WIDTH v) <= 6)%nat -> idle b l v ->
  let st := u8 (answer l [STATUS]) in
  let l' := l ++ [Command [STATUS; 0]] in
  exists b', nrf24l01_read miso copied b = Some (if copied then (fetched v l' st, PLOAD_WIDTH v) else ([], - EFAULT), b') /\
    idle b' (l' ++ fetch_log v st ++ [Command [0x27; 0xff]; Command [FLUSH_RX; 0]; Enable false; Command [0x20; 0x0f]; Enable true]) v.
Proof.
  intros Hw Hi. cbn zeta. unfold nrf24l01_read.
  match goal with |- exists b', ?m b = Some (?r, b') /\ @?R b' =>
    cut (wp m (fun x b' => x = r /\ R b') b); [intros (x & b' & E & -> & HR); by exists b'|] end.
  eapply wp_then; [by apply RxPacket_spec|]. intros [z rcv] b1 Hr H1. cbn [snd] in Hr. rewrite Hr.
  repeat radio. apply wp_ret. split; [done|]. rewrite <- !app_assoc in *. assumption.
Qed.
End module.

(** A module with nothing to say. *)
Definition quiet_answer (l : list action) (bytes : list Z) : Z := 0x20.
Definition fresh_board : board pin nrf_vars := mk_board [] nrf_static.

Lemma fresh_ok : vars_ok nrf_static /\ idle fresh_board [] nrf_static.
Proof.
  split; [|split; [done|]; by eexists _, _].
  unfold vars_ok. cbn. repeat apply conj; repeat constructor; try done; vm_compute; intuition discriminate.
Qed.


Example radio_read_witness :
  exists b', nrf24l01_read (answering quiet_answer) true fresh_board = Some ((replicate 6 0, 6), b') /\
    idle b' [Command [7; 0]; Command [0x27; 0xff]; Command [0xE2; 0]; Enable false; Command [0x20; 0x0f]; Enable true] nrf_static.
Proof.
  destruct fresh_ok as [Hv Hi].
  exact (radio_read quiet_answer (answering quiet_answer) (fun h _ => eq_refl) fresh_board [] nrf_static true ltac:(vm_compute; lia) Hi).
Defined.
