(* ===== verification/Ds18b20.v ===== *)
(** * The temperature sensor (src/driver/ds18b20/ds18b20.c)

    The driver and the sensor share one wire.  The file holds the driver, what
    a sensor sees on the wire (the lengths of the times it is pulled low), and
    the theorem that says what the driver tells the sensor and what a reader
    of the device file gets. *)

From stdpp Require Import base list.
From Stdlib Require Import ZArith Lia.
From S2P Require Import Prelude Gpio.

Open Scope Z_scope.

(** ** The driver *)

Inductive wire_pin := DQ.

Record ds_vars := mk_ds { tempH : Z; tempL : Z }.

Abbreviation ds := (M (board wire_pin ds_vars)).

Section driver.
(** The level of the wire. *)
Context (level : list (event wire_pin) -> bool).

Definition Set_DQ_OUTPUT : ds unit := s3c_gpio_out DQ.
Definition Set_DQ_OUTPUT_VALUE (value : bool) : ds unit := gpio_set_value DQ value.
Definition Set_DQ_INPUT : ds unit := s3c_gpio_in DQ.
Definition Get_DQ_INPUT_VALUE : ds bool := gpio_get_value level.

Definition ds18b20_init : ds Z :=
  _ ← Set_DQ_OUTPUT;
  _ ← Set_DQ_OUTPUT_VALUE true;
  _ ← udelay 10;
  _ ← Set_DQ_OUTPUT_VALUE false;
  _ ← udelay 700;
  _ ← Set_DQ_OUTPUT_VALUE true;
  _ ← udelay 30;
  _ ← Set_DQ_INPUT;
  _ ← udelay 100;
  v ← Get_DQ_INPUT_VALUE;
  mret (if (v : bool) then 1 else 0).

(** The loops of [ReadByte] and [WriteByte], [n] bits before their end. *)
Fixpoint read_bits (n : nat) (byte : Z) : ds Z :=
  match n with
  | O => mret byte
  | S n =>
      _ ← Set_DQ_OUTPUT;
      _ ← Set_DQ_OUTPUT_VALUE false;
      _ ← udelay 1;
      _ ← Set_DQ_OUTPUT_VALUE true;
      _ ← Set_DQ_INPUT;
      let byte := Z.shiftr byte 1 in
      v ← Get_DQ_INPUT_VALUE;
      let byte := if (v : bool) then Z.lor byte 0x80 else byte in
      _ ← udelay 60;
      read_bits n byte
  end.

Definition ReadByte : ds Z := read_bits 8 0.

Fixpoint write_bits (n : nat) (byte : Z) : ds unit :=
  match n with
  | O => mret tt
  | S n =>
      _ ← Set_DQ_OUTPUT_VALUE false;
      _ ← udelay 1;
      _ ← (if negb (Z.land byte 0x01 =? 0) then Set_DQ_OUTPUT_VALUE true else mret tt);
      _ ← udelay 60;
      _ ← Set_DQ_OUTPUT_VALUE true;
      _ ← udelay 15;
      write_bits n (Z.shiftr byte 1)
  end.

Definition WriteByte (byte : Z) : ds unit :=
  _ ← Set_DQ_OUTPUT;
  _ ← write_bits 8 byte;
  Set_DQ_OUTPUT_VALUE true.

Definition ds18b20_proc : ds unit :=
  _ ← ds18b20_init;
  _ ← udelay 400;
  _ ← WriteByte 0xcc;
  _ ← WriteByte 0x44;
  _ ← mdelay 750;
  _ ← ds18b20_init;
  _ ← udelay 400;
  _ ← WriteByte 0xcc;
  _ ← WriteByte 0xbe;
  l ← ReadByte;
  _ ← set_vars (fun v => mk_ds (tempH v) l);
  h ← ReadByte;
  set_vars (fun v => mk_ds h (tempL v)).

(** The reader's buffer before and after; fewer than two bytes are written
    beyond their end. *)
Definition ds18b20_read (buf : list Z) : ds (list Z * Z) :=
  _ ← ds18b20_proc;
  v ← get_vars;
  if tempH v * 256 + tempL v <=? 2000 then
    if decide (2 <= length buf)%nat then mret (<[1%nat := tempH v]> (<[0%nat := tempL v]> buf), 0) else ub
  else mret (buf, 0).
End driver.

(** ** What the sensor sees *)

(** Who drives the wire to which level, for how long it has been low, and
    the times it was low before, in nanoseconds. *)
Record wire := mk_wire { driven : bool; out : bool; low : Z; lows : list Z }.

Definition pulled (w : wire) : bool := driven w && negb (out w).
Definition settle (w : wire) (d v : bool) : wire :=
  let still := d && negb v in
  mk_wire d v (if still then low w else 0) (if pulled w && negb still then lows w ++ [low w] else lows w).

Definition see (w : wire) (e : event wire_pin) : wire :=
  match e with
  | ConfigOut _ => settle w true (out w)
  | ConfigIn _ => settle w false (out w)
  | Drive _ v => settle w (driven w) v
  | Delay ns => if pulled w then mk_wire (driven w) (out w) (low w + ns) (lows w) else w
  | _ => w
  end.

(** The wire starts as an output that is high, as [drv_init] leaves it. *)
Definition seen (h : list (event wire_pin)) : wire := foldl see (mk_wire true true 0 []) h.

(** What the sensor takes a low time for: a reset, a bit 0, or a bit 1 (which
    is also how it is asked for one of its own bits). *)
Inductive slot := Reset | Zero | One | Unclear.

Definition classify (ns : Z) : slot :=
  if 480000 <=? ns then Reset
  else if (60000 <=? ns) && (ns <? 120000) then Zero
  else if (1000 <=? ns) && (ns <? 15000) then One else Unclear.

Definition slots (h : list (event wire_pin)) : list slot := classify <$> lows (seen h).

(** A byte on the wire, the least significant bit first. *)
Definition byte_slots (z : Z) : list slot := (fun i => if Z.testbit z i then One else Zero) <$> [0; 1; 2; 3; 4; 5; 6; 7].
Definition byte_read (l : list bool) : Z := foldr (fun b z => Z.b2z b + 2 * z) 0 l.

(** ** Slot by slot *)

Lemma seen_snoc h e : seen (h ++ [e]) = see (seen h) e.
Proof. unfold seen. by rewrite foldl_app. Qed.

(** The wire is high, driven by the board or not, and the sensor has seen
    these slots. *)
Definition idle (d : bool) (b : board wire_pin ds_vars) (l : list slot) (v : ds_vars) : Prop :=
  vars b = v /\ exists ls, seen (history b) = mk_wire d true 0 ls /\ classify <$> ls = l.

Lemma idle_slots d b l v : idle d b l v -> slots (history b) = l.
Proof. intros (_ & ls & E & <-). unfold slots. by rewrite E. Qed.

(** A known sequence of events that leaves the wire high adds its slots. *)
Lemma idle_after d d' b l v evs ls : idle d b l v ->
  (forall l0, foldl see (mk_wire d true 0 l0) evs = mk_wire d' true 0 (l0 ++ ls)) ->
  idle d' (mk_board (history b ++ evs) (vars b)) (l ++ (classify <$> ls)) v.
Proof.
  intros (Hv & l0 & E & <-) Hevs. split; [done|]. exists (l0 ++ ls). cbn [history].
  unfold seen in *. rewrite foldl_app, E, Hevs. by rewrite fmap_app.
Qed.

Section sensor.
(** What the sensor does to the wire after these slots. *)
Context (answer : list slot -> bool) (level : list (event wire_pin) -> bool).
Hypothesis (Hlevel : forall h, level h = answer (slots h)).

Ltac events := repeat match goal with
  | |- wp (_ ≫= _) _ _ => apply wp_bind
  | |- wp (did _) _ _ => apply wp_did; cbn [history vars]
  end; rewrite <- ?app_assoc.
Ltac pins := unfold Set_DQ_OUTPUT, Set_DQ_OUTPUT_VALUE, Set_DQ_INPUT, Get_DQ_INPUT_VALUE, s3c_gpio_out, s3c_gpio_in, gpio_set_value, udelay, mdelay.
Ltac wire_done := intros ?; cbn; by rewrite ?app_nil_r.

Lemma init_spec d b l v : idle d b l v -> wp (ds18b20_init level) (fun _ b' => idle false b' (l ++ [Reset]) v) b.
Proof.
  intros Hi. unfold ds18b20_init. pins. events. eexists _, _. split; [reflexivity|]. apply wp_ret.
  apply (idle_after d false b l v _ [700000] Hi). destruct d; wire_done.
Qed.

Lemma land_1 z : (Z.land z 1 =? 0) = negb (Z.testbit z 0).
Proof.
  change 1 with (Z.ones 1). rewrite Z.land_ones by lia. change (2 ^ 1) with 2. rewrite Zmod_odd, <- Z.bit0_odd.
  by destruct (Z.testbit z 0).
Qed.

Lemma write_bits_spec n byte b l v : idle true b l v ->
  wp (write_bits n byte) (fun _ b' =>
    idle true b' (l ++ ((fun i => if Z.testbit byte (Z.of_nat i) then One else Zero) <$> seq 0 n)) v) b.
Proof.
  revert byte b l. induction n as [|n IH]; intros byte b l Hi; cbn [write_bits].
  { apply wp_ret. by rewrite app_nil_r. }
  rewrite land_1, negb_involutive. pins.
  assert (forall b1, idle true b1 (l ++ [if Z.testbit byte 0 then One else Zero]) v ->
    wp (write_bits n (Z.shiftr byte 1)) (fun _ b' => idle true b'
      (l ++ ((fun i => if Z.testbit byte (Z.of_nat i) then One else Zero) <$> seq 0 (S n))) v) b1) as Hnext.
  { intros b1 H1. eapply wp_mono; [by apply IH|]. intros x b' H'. rewrite <- app_assoc in H'. cbn [app] in H'.
    cbn [seq fmap list_fmap]. rewrite <- fmap_S_seq, <- list_fmap_compose.
    erewrite list_fmap_ext; [exact H'|]. intros i j _. cbn. rewrite Z.shiftr_spec by lia. by replace (Z.of_nat j + 1) with (Z.of_nat (S j)) by lia. }
  destruct (Z.testbit byte 0); events; [|apply wp_ret; events]; apply Hnext.
  - apply (idle_after true true b l v _ [1000] Hi). wire_done.
  - apply (idle_after true true b l v _ [61000] Hi). wire_done.
Qed.

Lemma WriteByte_spec d byte b l v : idle d b l v -> wp (WriteByte byte) (fun _ b' => idle true b' (l ++ byte_slots byte) v) b.
Proof.
  intros Hi. unfold WriteByte. pins. events. eapply wp_mono.
  - apply (write_bits_spec 8 byte _ l v). rewrite <- (app_nil_r l). apply (idle_after d true b l v _ [] Hi).
    destruct d; wire_done.
  - intros x b1 H1. events. rewrite <- (app_nil_r (l ++ _)). apply (idle_after true true b1 _ v _ [] H1). wire_done.
Qed.

(** The bits the sensor puts on the wire, each after a slot of its own. *)
Fixpoint bits_after (l : list slot) (n : nat) : list bool :=
  match n with O => [] | S n => answer (l ++ [One]) :: bits_after (l ++ [One]) n end.

Definition shift_in (byte : Z) (b : bool) : Z := if b then Z.lor (Z.shiftr byte 1) 0x80 else Z.shiftr byte 1.

Lemma read_bits_spec n byte d b l v : idle d b l v ->
  wp (read_bits level n byte) (fun r b' => r = foldl shift_in byte (bits_after l n) /\
    idle (match n with O => d | _ => false end) b' (l ++ replicate n One) v) b.
Proof.
  revert byte d b l. induction n as [|n IH]; intros byte d b l Hi; cbn [read_bits].
  { apply wp_ret. by rewrite app_nil_r. }
  pins. events. eexists _, _. split; [reflexivity|]. cbn [history].
  events. set (evs := [ConfigOut DQ] ++ _). set (evs' := [ConfigOut DQ] ++ _).
  assert (idle false (mk_board (history b ++ evs) (vars b)) (l ++ [One]) v) as H1
    by (apply (idle_after d false b l v evs [1000] Hi); destruct d; wire_done).
  assert (idle false (mk_board (history b ++ evs') (vars b)) (l ++ [One]) v) as H2
    by (apply (idle_after d false b l v evs' [1000] Hi); destruct d; wire_done).
  apply idle_slots in H1. cbn [history] in H1. rewrite Hlevel, H1.
  eapply wp_mono; [by apply IH|]. intros r b' [-> H3]. split; [done|].
  rewrite <- app_assoc in H3. by destruct n.
Qed.

Lemma byte_shifted l : length l = 8%nat -> foldl shift_in 0 l = byte_read l.
Proof.
  intros Hl. destruct l as [|b0 [|b1 [|b2 [|b3 [|b4 [|b5 [|b6 [|b7 [|]]]]]]]]]; try discriminate Hl.
  destruct b0, b1, b2, b3, b4, b5, b6, b7; reflexivity.
Qed.

Lemma bits_after_length l n : length (bits_after l n) = n.
Proof. revert l. induction n as [|n IH]; intros l; simpl; by rewrite ?IH. Qed.

Lemma byte_read_bound l : 0 <= byte_read l < 2 ^ Z.of_nat (length l).
Proof.
  unfold byte_read. induction l as [|c l IH]; [done|]. cbn [foldr length]. rewrite Nat2Z.inj_succ, Z.pow_succ_r by lia.
  destruct c; cbn [Z.b2z]; lia.
Qed.

Lemma ReadByte_spec d b l v : idle d b l v ->
  wp (ReadByte level) (fun r b' => r = byte_read (bits_after l 8) /\ idle false b' (l ++ replicate 8 One) v) b.
Proof.
  intros Hi. eapply wp_mono; [by apply (read_bits_spec 8 0 d)|]. intros r b' [-> H]. split; [|done].
  apply byte_shifted, bits_after_length.
Qed.

(** What a measurement tells the sensor: start (0x44 for all sensors), wait,
    and send the memory. *)
Definition commands : list slot :=
  [Reset] ++ byte_slots 0xcc ++ byte_slots 0x44 ++ [Reset] ++ byte_slots 0xcc ++ byte_slots 0xbe.

Lemma wp_wait {A} ns (k : unit -> ds A) Q d b l v : 0 < ns -> idle d b l v ->
  (forall b', idle d b' l v -> wp (k tt) Q b') -> wp (did (Delay ns) ≫= k) Q b.
Proof.
  intros _ Hi Hk. apply wp_bind, wp_did, Hk. rewrite <- (app_nil_r l). apply (idle_after d d b l v _ [] Hi).
  destruct d; wire_done.
Qed.

Ltac next lem := apply wp_bind; eapply wp_mono; [eapply lem; eassumption|]; intros ? ? ?; cbv beta in *.
Ltac wait := eapply wp_wait; [|eassumption|]; [lia|]; intros ? ?.

Lemma wp_store {A} f (k : unit -> ds A) Q d b l v : idle d b l v ->
  (forall b', idle d b' l (f v) -> wp (k tt) Q b') -> wp (set_vars f ≫= k) Q b.
Proof.
  intros [Hv Hw] Hk. apply wp_bind. eexists _, _. split; [reflexivity|]. apply Hk. split; [cbn [vars]; by rewrite Hv | done].
Qed.

Lemma proc_spec d b l v : idle d b l v ->
  let tL := byte_read (bits_after (l ++ commands) 8) in
  let tH := byte_read (bits_after (l ++ commands ++ replicate 8 One) 8) in
  wp (ds18b20_proc level) (fun _ b' => idle false b' (l ++ commands ++ replicate 16 One) (mk_ds tH tL)) b.
Proof.
  intros Hi. cbn zeta. unfold ds18b20_proc, udelay, mdelay.
  next init_spec. wait. next WriteByte_spec. next WriteByte_spec. wait.
  next init_spec. wait. next WriteByte_spec. next WriteByte_spec.
  apply wp_bind. eapply wp_mono; [eapply ReadByte_spec; eassumption|]. intros r c1 [-> HL].
  eapply wp_store; [exact HL|]. intros c2 HL2.
  apply wp_bind. eapply wp_mono; [eapply ReadByte_spec; eassumption|]. intros r c3 [-> HH].
  assert (((((((l ++ [Reset]) ++ byte_slots 0xcc) ++ byte_slots 0x44) ++ [Reset]) ++ byte_slots 0xcc) ++ byte_slots 0xbe) = l ++ commands)
    as E by (unfold commands; by rewrite !app_assoc).
  rewrite E, <- !app_assoc in HH. eexists tt, _. split; [reflexivity|]. cbv beta.
  destruct HH as (Hv & ls & Hs & Hl). split; [cbn [vars]; rewrite Hv, E, <- ?app_assoc; reflexivity|].
  exists ls. split; [exact Hs | exact Hl].
Qed.

(** C31: Reading the temperature sensor's device file resets the sensor, sends
    it the commands to measure and, after 750 ms, to send its memory, and
    takes the sixteen bits of its first two bytes, the least significant bit
    first, with one slot for each.  The reader's two bytes are set to them
    when they are at most 2000 (125 degrees) as a number; above that, which is
    every negative temperature and an absent sensor, the reader's buffer is
    left as it was, and the result is 0 all the same. *)
Theorem temperature_read d b l v buf : idle d b l v -> (2 <= length buf)%nat ->
  let tL := byte_read (bits_after (l ++ commands) 8) in
  let tH := byte_read (bits_after (l ++ commands ++ replicate 8 One) 8) in
  exists b', ds18b20_read level buf b = Some ((if tH * 256 + tL <=? 2000 then tL :: tH :: drop 2 buf else buf, 0), b') /\
    idle false b' (l ++ commands ++ replicate 16 One) (mk_ds tH tL) /\
    0 <= tL < 256 /\ 0 <= tH < 256.
Proof.
  intros Hi Hb tL tH.
  assert (forall l, 0 <= byte_read (bits_after l 8) < 256) as Hr.
  { intros l0. pose proof (byte_read_bound (bits_after l0 8)) as H. by rewrite bits_after_length in H. }
  destruct (proc_spec d b l v Hi) as (x & b' & E & Hi').
  exists b'. split; [|split; [exact Hi'|split; apply Hr]].
  unfold ds18b20_read. rewrite (bind_some _ _ _ _ _ E), (bind_some _ _ _ (mk_ds tH tL) b') by (unfold get_vars, gets; by rewrite (proj1 Hi')).
  cbn [tempH tempL]. destruct (_ <=? _); [|done]. rewrite decide_True by done.
  by destruct buf as [|? [|? ?]]; [simpl in Hb; lia..|].
Qed.
End sensor.

(** A sensor at 25.0625 degrees: the bits of 401 after the commands. *)
Definition warm_sensor (l : list slot) : bool := Z.testbit 401 (Z.of_nat (length l - length commands - 1)).
Definition bus : board wire_pin ds_vars := mk_board [] (mk_ds 0 0).

Example temperature_read_witness :
  exists b', ds18b20_read (fun h => warm_sensor (slots h)) [7; 7; 7] bus = Some (([0x91; 0x01; 7], 0), b') /\
    idle false b' (commands ++ replicate 16 One) (mk_ds 0x01 0x91).
Proof.
  assert (idle true bus [] (mk_ds 0 0)) as Hi by (split; [done|]; by exists []).
  destruct (temperature_read warm_sensor _ (fun h => eq_refl) true bus [] (mk_ds 0 0) [7; 7; 7] Hi) as (b' & E & Hi' & _); [simpl; lia|].
  exists b'. split; [exact E | exact Hi'].
Defined.
