(* ===== verification/Dht11.v ===== *)
(** * The humidity sensor (src/driver/DHT11/dht11.c)

    The sensor sends forty bits as pulses whose lengths the driver measures by
    polling.  The file holds the driver, the sensor's signal as a list of
    pulses, and the theorem that says which timing of the pulses the driver
    understands and what it does with the rest.  A [char] of the driver's
    processor (ARM) is unsigned. *)

From stdpp Require Import base list.
From Stdlib Require Import ZArith Lia.
From S2P Require Import Prelude Gpio.

Open Scope Z_scope.

(** ** The driver *)

Inductive data_pin := PIN_OUT.

Abbreviation dht := (M (board data_pin unit)).

Definition EFAULT : Z := 14.

Section driver.
(** The level of the pin. *)
Context (level : list (event data_pin) -> bool).

(** A loop that polls every 5 us while the pin has level [v]: the number of
    polls, or [None] after more than [limit]. *)
Fixpoint poll (fuel : nat) (v : bool) (limit temp : Z) : dht (option Z) :=
  match fuel with
  | O => ub
  | S fuel =>
      l ← gpio_get_value level;
      if Bool.eqb l v then
        let temp := u8 (temp + 1) in
        if limit <? temp then mret None else _ ← udelay 5; poll fuel v limit temp
      else mret (Some temp)
  end.

(** The loop of [DHT11_read_byte], [n] bits before its end. *)
Fixpoint read_bits (n : nat) (DHT11_byte : Z) : dht Z :=
  match n with
  | O => mret DHT11_byte
  | S n =>
      t ← poll 32 false 12 0;
      match t with
      | None => mret 1
      | Some _ =>
          t ← poll 32 true 20 0;
          match t with
          | None => mret 1
          | Some temp =>
              read_bits n (if 6 <? temp then Z.lor (u8 (Z.shiftl DHT11_byte 1)) 1 else Z.lor (u8 (Z.shiftl DHT11_byte 1)) 0)
          end
      end
  end.

Definition DHT11_read_byte : dht Z := read_bits 8 0.

(** A loop that polls every 10 us while the pin has level [v], at most
    [DataTemp] times: what is left of [DataTemp]. *)
Fixpoint wait_start (v : bool) (DataTemp : nat) : dht nat :=
  l ← gpio_get_value level;
  match DataTemp with
  | O => mret O
  | S n => if Bool.eqb l v then _ ← udelay 10; wait_start v n else mret DataTemp
  end.

Fixpoint read_bytes (n : nat) : dht (list Z) :=
  match n with
  | O => mret []
  | S n => x ← DHT11_read_byte; rest ← read_bytes n; mret (x :: rest)
  end.

(** The last two statements of [DHT11_read] before its return. *)
Definition release : dht unit := _ ← s3c_gpio_out PIN_OUT; gpio_set_value PIN_OUT true.

(** The reader's buffer after the call, and the result; [copied] says whether
    the reader's address can be written. *)
Definition DHT11_read (buf : list Z) (count : Z) (copied : bool) : dht (list Z * Z) :=
  _ ← s3c_gpio_out PIN_OUT;
  _ ← gpio_set_value PIN_OUT false;
  _ ← mdelay 18;
  _ ← gpio_set_value PIN_OUT true;
  _ ← udelay 40;
  _ ← s3c_gpio_in PIN_OUT;
  left ← wait_start false 10;
  if (left =? 0)%nat then _ ← release; mret (buf, - EFAULT)
  else
    left ← wait_start true 10;
    if (left =? 0)%nat then _ ← release; mret (buf, - EFAULT)
    else
      tempBuf ← read_bytes 5;
      let DataTemp := foldl (fun s x => u8 (s + x)) 0 (take 4 tempBuf) in
      if negb (DataTemp =? tempBuf !!! 4%nat) then mret (buf, 0)
      else
        let count := if 5 <? count then 5 else count in
        '(buf, count) ← (if copied then mret (take (Z.to_nat count) tempBuf ++ drop (Z.to_nat count) buf, count)
                         else mret (buf, - EFAULT));
        _ ← release;
        mret (buf, count).
End driver.

(** ** The signal *)

(** Pulses: a level and its length in nanoseconds; after the last one the
    wire is high. *)
Fixpoint wave (ps : list (bool * Z)) (t : Z) : bool :=
  match ps with
  | [] => true
  | (v, d) :: ps => if t <? d then v else wave ps (t - d)
  end.

(** The time since the board let go of the wire. *)
Definition since (h : list (event data_pin)) : Z :=
  foldl (fun t e => match e with ConfigIn _ => 0 | Delay ns => t + ns | _ => t end) 0 h.

(** A bit is a low pulse and then a high one, whose length is the bit's
    value; this is the timing the driver understands. *)
Definition timed (x : bool * (Z * Z)) : Prop :=
  let '(b, (lo, hi)) := x in
  10000 <= lo <= 60000 /\ (if (b : bool) then 35000 <= hi <= 100000 else 5000 <= hi <= 30000).

Definition bit_pulses (x : bool * (Z * Z)) : list (bool * Z) := [(false, fst (snd x)); (true, snd (snd x))].

(** The sensor's answer: low, high, the bits, and low again. *)
Definition signal (r0 r1 : Z) (bits : list (bool * (Z * Z))) (e : Z) : list (bool * Z) :=
  (false, r0) :: (true, r1) :: concat (bit_pulses <$> bits) ++ [(false, e)].

(** Most significant bit first. *)
Definition byte_of (l : list bool) : Z := foldl (fun z b => 2 * z + Z.b2z b) 0 l.

(** ** Polling *)

Lemma since_snoc h e : since (h ++ [e]) = match e with ConfigIn _ => 0 | Delay ns => since h + ns | _ => since h end.
Proof. unfold since. by rewrite foldl_app. Qed.

Section sensor.
Context (ps0 : list (bool * Z)) (level : list (event data_pin) -> bool).
Hypothesis (Hlevel : forall h, level h = wave ps0 (since h)).

(** The wire is [off] nanoseconds into the first of these pulses. *)
Definition phase (b : board data_pin unit) (ps : list (bool * Z)) (off : Z) : Prop :=
  0 <= off /\ exists T, since (history b) = T + off /\ forall t, 0 <= t -> wave ps0 (T + t) = wave ps t.

Lemma phase_level b v d ps off : phase b ((v, d) :: ps) off -> off < d -> level (history b) = v.
Proof.
  intros (H0 & T & E & Hw) Hd. rewrite Hlevel, E, Hw by done. cbn. by rewrite (proj2 (Z.ltb_lt _ _) Hd).
Qed.

Lemma phase_next b v d ps off : phase b ((v, d) :: ps) off -> 0 <= d -> d <= off -> phase b ps (off - d).
Proof.
  intros (H0 & T & E & Hw) Hd Hoff. split; [lia|]. exists (T + d). split; [lia|].
  intros t Ht. rewrite <- Z.add_assoc, Hw by lia. cbn. rewrite (proj2 (Z.ltb_ge _ _)) by lia. f_equal. lia.
Qed.

Lemma phase_wait b ps off ns : phase b ps off -> 0 <= ns -> phase (mk_board (history b ++ [Delay ns]) (vars b)) ps (off + ns).
Proof. intros (H0 & T & E & Hw) Hns. split; [lia|]. exists T. cbn [history]. rewrite since_snoc. split; [lia | done]. Qed.

(** A poll of a pulse ends in the next pulse, at most 5 us after its
    beginning. *)
Lemma pulse_polled fuel v limit temp b d d' ps off : phase b ((v, d) :: (negb v, d') :: ps) off ->
  off < d + 5000 -> 5000 <= d' -> 0 <= d -> 0 <= temp -> limit < 255 -> 5000 * temp + Z.max 0 (d - off) <= 5000 * limit ->
  limit - temp + 1 < Z.of_nat fuel ->
  wp (poll level fuel v limit temp) (fun r b' => exists n off', r = Some n /\ phase b' ((negb v, d') :: ps) off' /\
    0 <= off' < 5000 /\ off' + d = off + 5000 * (n - temp)) b.
Proof.
  revert temp b off. induction fuel as [|fuel IH]; intros temp b off Hp Hoff Hd' Hd Ht Hlim Hmax Hf; [lia|].
  cbn [poll]. apply wp_bind. eexists _, _. split; [reflexivity|].
  destruct (Z.lt_ge_cases off d) as [Hlt|Hge].
  - rewrite (phase_level _ _ _ _ _ Hp Hlt), eqb_reflx. cbn zeta. rewrite u8_small by (unfold byte_range; lia).
    rewrite (proj2 (Z.ltb_ge _ _)) by lia. apply wp_bind, wp_did.
    eapply wp_mono; [apply (IH (temp + 1) _ (off + 5000)); [by apply phase_wait|lia..]|].
    intros r b' (n & off' & -> & Hph & Ho & He). exists n, off'. split; [done|]. split; [done|]. lia.
  - pose proof (phase_next _ _ _ _ _ Hp Hd Hge) as Hn.
    rewrite (phase_level _ _ _ _ _ Hn) by lia. replace (Bool.eqb (negb v) v) with false by (by destruct v).
    apply wp_ret. exists temp, (off - d). split; [done|]. split; [done|]. lia.
Qed.

Definition pulses (bs : list (bool * (Z * Z))) : list (bool * Z) := concat (bit_pulses <$> bs).

(** The pulse after some bits: the next bit's low one, or the last one. *)
Lemma next_low bs e ps : Forall timed bs -> 5000 <= e ->
  exists lo ps', pulses bs ++ (false, e) :: ps = (false, lo) :: ps' /\ 5000 <= lo.
Proof.
  intros Hb He. destruct Hb as [|[c [lo hi]] bs [Hlo _] Hb]; [by exists e, ps|].
  eexists lo, _. split; [reflexivity | lia].
Qed.

Definition take_bit (z : Z) (c : bool) : Z := if c then Z.lor (u8 (Z.shiftl z 1)) 1 else Z.lor (u8 (Z.shiftl z 1)) 0.

Lemma bits_decoded bs acc b e ps off : Forall timed bs -> 5000 <= e ->
  phase b (pulses bs ++ (false, e) :: ps) off -> 0 <= off < 10000 ->
  wp (read_bits level (length bs) acc) (fun r b' => r = foldl take_bit acc (fst <$> bs) /\
    exists off', phase b' ((false, e) :: ps) off' /\ 0 <= off' < 10000) b.
Proof.
  intros Hb He. revert acc b off. induction Hb as [|[c [lo hi]] bs [Hlo Hhi] Hb IH]; intros acc b off Hp Hoff; cbn [length read_bits].
  { apply wp_ret. split; [done|]. by exists off. }
  destruct (next_low bs e ps Hb He) as (lo' & ps' & Eps & Hlo').
  unfold pulses in Hp. cbn [fmap list_fmap concat bit_pulses fst snd app] in Hp. fold (pulses bs) in Hp. rewrite Eps in Hp.
  apply wp_bind. eapply wp_mono; [apply (pulse_polled 32 false 12 0 b lo hi ((false, lo') :: ps') off); [exact Hp | destruct c; lia..]|].
  intros r b1 (n1 & off1 & -> & Hp1 & Ho1 & _). cbn [negb] in Hp1.
  apply wp_bind. eapply wp_mono; [apply (pulse_polled 32 true 20 0 b1 hi lo' ps' off1); [exact Hp1 | destruct c; lia..]|].
  intros r b2 (n & off2 & -> & Hp2 & Ho2 & Hn). cbn [negb] in Hp2. rewrite <- Eps in Hp2.
  assert ((6 <? n) = c) as -> by (destruct c; [apply Z.ltb_lt | apply Z.ltb_ge]; lia).
  eapply wp_mono; [apply (IH (take_bit acc c) b2 off2 Hp2); lia|]. intros r b' HR. exact HR.
Qed.

Lemma taken_byte l : length l = 8%nat -> foldl take_bit 0 l = byte_of l.
Proof.
  intros Hl. destruct l as [|b0 [|b1 [|b2 [|b3 [|b4 [|b5 [|b6 [|b7 [|]]]]]]]]]; try discriminate Hl.
  destruct b0, b1, b2, b3, b4, b5, b6, b7; reflexivity.
Qed.

Lemma pulses_app l1 l2 : pulses (l1 ++ l2) = pulses l1 ++ pulses l2.
Proof. unfold pulses. by rewrite fmap_app, concat_app. Qed.

(** The bytes of the bits. *)
Fixpoint bytes_of (n : nat) (l : list bool) : list Z :=
  match n with O => [] | S n => byte_of (take 8 l) :: bytes_of n (drop 8 l) end.

Lemma read_bytes_spec n bs b e ps off : Forall timed bs -> length bs = (8 * n)%nat -> 5000 <= e ->
  phase b (pulses bs ++ (false, e) :: ps) off -> 0 <= off < 10000 ->
  wp (read_bytes level n) (fun r _ => r = bytes_of n (fst <$> bs)) b.
Proof.
  revert bs b off. induction n as [|n IH]; intros bs b off Hb Hl He Hp Hoff; cbn [read_bytes bytes_of]; [by apply wp_ret|].
  rewrite <- (take_drop 8 bs) in Hp, Hb. apply Forall_app in Hb as [Hb1 Hb2]. rewrite pulses_app, <- app_assoc in Hp.
  assert (length (take 8 bs) = 8%nat) as Hl8 by (rewrite length_take; lia).
  destruct (next_low (drop 8 bs) e ps Hb2 He) as (lo & ps' & Eps & Hlo). rewrite Eps in Hp.
  apply wp_bind. unfold DHT11_read_byte. rewrite <- Hl8.
  eapply wp_mono; [by apply (bits_decoded (take 8 bs) 0 b lo ps' off)|].
  intros r b1 [-> (off' & Hp' & Hoff')]. rewrite <- Eps in Hp'.
  apply wp_bind. eapply wp_mono; [apply (IH (drop 8 bs) b1 off'); [done | rewrite length_drop; lia | done..]|].
  intros r b2 ->. apply wp_ret. rewrite fmap_take, fmap_drop, taken_byte by (rewrite length_take, length_fmap; lia). by rewrite Hl8.
Qed.

(** The two start loops. *)
Lemma wait_start_ends n v b d d' ps off : phase b ((v, d) :: (negb v, d') :: ps) off -> off < d + 10000 -> 10000 <= d' -> 0 <= d ->
  d - off <= 10000 * (Z.of_nat n - 1) -> (0 < n)%nat ->
  wp (wait_start level v n) (fun r b' => r <> 0%nat /\ exists off', phase b' ((negb v, d') :: ps) off' /\ 0 <= off' < 10000) b.
Proof.
  revert b off. induction n as [|n IH]; intros b off Hp Hoff Hd' Hd Hn Hpos; [lia|].
  cbn [wait_start]. apply wp_bind. eexists _, _. split; [reflexivity|].
  destruct (Z.lt_ge_cases off d) as [Hlt|Hge].
  - rewrite (phase_level _ _ _ _ _ Hp Hlt), eqb_reflx. apply wp_bind, wp_did. apply (IH _ (off + 10000)); [|lia..].
    by apply phase_wait.
  - pose proof (phase_next _ _ _ _ _ Hp Hd Hge) as Hnx. rewrite (phase_level _ _ _ _ _ Hnx) by lia.
    replace (Bool.eqb (negb v) v) with false by (by destruct v). apply wp_ret. split; [done|].
    exists (off - d). split; [done | lia].
Qed.
End sensor.

(** Whatever the pin does, the loops end. *)
Section any_level.
Context (level : list (event data_pin) -> bool).

Lemma polling_returns fuel v limit temp b : 0 <= temp -> limit < 255 -> limit - temp + 1 < Z.of_nat fuel -> temp <= limit ->
  wp (poll level fuel v limit temp) (fun _ _ => True) b.
Proof.
  revert temp b. induction fuel as [|fuel IH]; intros temp b Ht Hl Hf Hle; [lia|]. cbn [poll].
  apply wp_bind. eexists _, _. split; [reflexivity|]. destruct (Bool.eqb _ _); [|by apply wp_ret].
  cbn zeta. rewrite u8_small by (unfold byte_range; lia). destruct (Z.ltb_spec limit (temp + 1)); [by apply wp_ret|].
  apply wp_bind, wp_did. apply IH; lia.
Qed.

Lemma read_bits_returns n acc b : wp (read_bits level n acc) (fun _ _ => True) b.
Proof.
  revert acc b. induction n as [|n IH]; intros acc b; cbn [read_bits]; [by apply wp_ret|].
  apply wp_bind. eapply wp_mono; [apply polling_returns; lia|]. intros [t|] b1 _; [|by apply wp_ret].
  apply wp_bind. eapply wp_mono; [apply polling_returns; lia|]. intros [t'|] b2 _; [|by apply wp_ret]. apply IH.
Qed.

Lemma read_bytes_returns n b : wp (read_bytes level n) (fun r _ => length r = n) b.
Proof.
  revert b. induction n as [|n IH]; intros b; cbn [read_bytes]; [by apply wp_ret|].
  apply wp_bind. eapply wp_mono; [apply read_bits_returns|]. intros x b1 _.
  apply wp_bind. eapply wp_mono; [apply IH|]. intros r b2 Hr. apply wp_ret. simpl. by rewrite Hr.
Qed.

Lemma wait_start_returns v n b : wp (wait_start level v n) (fun _ _ => True) b.
Proof.
  revert b. induction n as [|n IH]; intros b; cbn [wait_start]; apply wp_bind; eexists _, _; (split; [reflexivity|]).
  - by apply wp_ret.
  - destruct (Bool.eqb _ _); [|by apply wp_ret]. apply wp_bind, wp_did, IH.
Qed.
End any_level.

(** What the reader gets for five bytes. *)
Definition reading (bytes buf : list Z) (count : Z) (copied : bool) : list Z * Z :=
  if foldl (fun s x => u8 (s + x)) 0 (take 4 bytes) =? bytes !!! 4%nat then
    let count := Z.min count 5 in
    if copied then (take (Z.to_nat count) bytes ++ drop (Z.to_nat count) buf, count) else (buf, - EFAULT)
  else (buf, 0).

Lemma release_run b : release b = Some (tt, mk_board ((history b ++ [ConfigOut PIN_OUT]) ++ [Drive PIN_OUT true]) (vars b)).
Proof. reflexivity. Qed.

(** The end of [DHT11_read]. *)
Lemma finish_run (bytes buf : list Z) (count : Z) (copied : bool) (b : board data_pin unit) : wp (A := list Z * Z) (
    if negb (foldl (fun s x => u8 (s + x)) 0 (take 4 bytes) =? bytes !!! 4%nat) then mret (buf, 0)
    else '(buf, count) ← ((if copied then mret (take (Z.to_nat (if 5 <? count then 5 else count)) bytes ++
                              drop (Z.to_nat (if 5 <? count then 5 else count)) buf, if 5 <? count then 5 else count)
                          else mret (buf, - EFAULT)) : dht (list Z * Z));
         _ ← release; mret (buf, count)) (fun r _ => r = reading bytes buf count copied) b.
Proof.
  unfold reading. destruct (_ =? _); cbn [negb]; [|by apply wp_ret].
  replace (if 5 <? count then 5 else count) with (Z.min count 5) by (destruct (Z.ltb_spec 5 count); lia).
  apply wp_bind. destruct copied; apply wp_ret; apply wp_bind; (eexists _, _; split; [apply release_run | by apply wp_ret]).
Qed.

Ltac starts := unfold DHT11_read, s3c_gpio_out, s3c_gpio_in, gpio_set_value, udelay, mdelay;
  do 6 (apply wp_bind, wp_did); cbn [history vars].

(** The driver under a signal whose pulses keep their times. *)
Lemma DHT11_read_signal r0 r1 bits e (level : list (event data_pin) -> bool) b buf count copied :
  (forall h, level h = wave (signal r0 r1 bits e) (since h)) ->
  0 <= r0 <= 90000 -> 10000 <= r1 <= 90000 -> Forall timed bits -> length bits = 40%nat -> 5000 <= e ->
  exists b', DHT11_read level buf count copied b = Some (reading (bytes_of 5 (fst <$> bits)) buf count copied, b').
Proof.
  intros Hlevel H0 H1 Hbits Hlen He.
  cut (wp (DHT11_read level buf count copied) (fun r _ => r = reading (bytes_of 5 (fst <$> bits)) buf count copied) b);
    [intros (r & b' & E & ->); by exists b'|].
  starts. set (b0 := mk_board _ _).
  assert (phase (signal r0 r1 bits e) b0 (signal r0 r1 bits e) 0) as Hp.
  { split; [lia|]. exists 0. unfold b0. cbn [history]. rewrite since_snoc. split; done. }
  unfold signal in Hp at 2. fold (pulses bits) in Hp.
  apply wp_bind. eapply wp_mono; [apply (wait_start_ends _ level Hlevel 10 false b0 r0 r1 _ 0 Hp); lia|].
  intros left b1 (Hleft%Nat.eqb_neq & off1 & Hp1 & Ho1). rewrite Hleft. cbn [negb] in Hp1.
  assert (exists lo ps', pulses bits ++ [(false, e)] = (false, lo) :: ps' /\ 10000 <= lo) as (lo & ps' & Eps & Hlo).
  { destruct Hbits as [|[c [lo hi]] l [Hlo _] _]; [done|]. eexists lo, _. split; [reflexivity | lia]. }
  rewrite Eps in Hp1.
  apply wp_bind. eapply wp_mono; [apply (wait_start_ends _ level Hlevel 10 true b1 r1 lo ps' off1 Hp1); lia|].
  intros left2 b2 (Hleft2%Nat.eqb_neq & off2 & Hp2 & Ho2). rewrite Hleft2. cbn [negb] in Hp2. rewrite <- Eps in Hp2.
  apply wp_bind. eapply wp_mono; [by apply (read_bytes_spec _ level Hlevel 5 bits b2 e [] off2)|].
  intros bytes b3 ->. apply finish_run.
Qed.

(** The driver under any signal. *)
Lemma DHT11_read_returns level buf count copied b : exists r b', DHT11_read level buf count copied b = Some (r, b').
Proof.
  cut (wp (DHT11_read level buf count copied) (fun _ _ => True) b); [intros (r & b' & E & _); by exists r, b'|].
  starts. apply wp_bind. eapply wp_mono; [apply wait_start_returns|]. intros left b1 _.
  destruct (left =? 0)%nat; [apply wp_bind; eexists _, _; split; [apply release_run | by apply wp_ret]|].
  apply wp_bind. eapply wp_mono; [apply wait_start_returns|]. intros left2 b2 _.
  destruct (left2 =? 0)%nat; [apply wp_bind; eexists _, _; split; [apply release_run | by apply wp_ret]|].
  apply wp_bind. eapply wp_mono; [apply read_bytes_returns|]. intros bytes b3 _.
  eapply wp_mono; [apply finish_run | done].
Qed.

(** C30: A sensor whose pulses keep the times of [timed] (which contain those
    of its data sheet: 50 us low, then 27 or 70 us high) is understood: the
    reader gets its five bytes, or as many as asked for, when the fifth is the
    sum of the others, and an unchanged buffer with the result 0 when not.
    Whatever else the pin does, the driver comes to an end. *)
Theorem humidity_read r0 r1 bits e (level : list (event data_pin) -> bool) b buf count copied :
  (forall h, level h = wave (signal r0 r1 bits e) (since h)) ->
  0 <= r0 <= 90000 -> 10000 <= r1 <= 90000 -> Forall timed bits -> length bits = 40%nat -> 5000 <= e ->
  (exists b', DHT11_read level buf count copied b = Some (reading (bytes_of 5 (fst <$> bits)) buf count copied, b')) /\
  (forall level', exists r b', DHT11_read level' buf count copied b = Some (r, b')).
Proof.
  intros Hlevel H0 H1 Hbits Hlen He. split; [by eapply DHT11_read_signal|intros level'; apply DHT11_read_returns].
Qed.

(** The sensor's data sheet: 50 % humidity at 24 degrees. *)
Definition sheet (bytes : list Z) : list (bool * (Z * Z)) :=
  concat ((fun z => (fun i => (Z.testbit z i, (50000, if Z.testbit z i then 70000 else 27000))) <$> [7; 6; 5; 4; 3; 2; 1; 0]) <$> bytes).

Example humidity_read_witness :
  let level h := wave (signal 80000 80000 (sheet [50; 0; 24; 0; 74]) 50000) (since h) in
  exists b', DHT11_read level [9; 9; 9; 9; 9; 9] 6 true (mk_board [] tt) = Some (([50; 0; 24; 0; 74; 9], 5), b').
Proof.
  cbv zeta.
  destruct (humidity_read 80000 80000 (sheet [50; 0; 24; 0; 74]) 50000 _ (mk_board [] tt) [9; 9; 9; 9; 9; 9] 6 true (fun h => eq_refl))
    as [H _]; [lia | lia | | reflexivity | lia | exact H].
  repeat (constructor; [vm_compute; intuition discriminate|]). constructor.
Defined.
