(* ===== verification/Ntp.v ===== *)
(** * Setting the clock (src/src/ntp/ntp_test.c)

    The program asks a time server for the time and sets the clock of the
    board to the answer.  The file holds the packet it sends, what it reads
    from the answer, and the theorem that says which time it sets; the board
    is little-endian with 32-bit [long]. *)

From stdpp Require Import base list.
From Stdlib Require Import ZArith Lia.
From S2P Require Import Prelude.

Open Scope Z_scope.

Definition NTP_PCK_LEN : nat := 48.
Definition LI : Z := 0.
Definition MODE : Z := 3.
Definition STRATUM : Z := 0.
Definition POLL : Z := 4.
Definition PREC : Z := -6.
Definition JAN_1970 : Z := 0x83aa7e80.

(** [x] is a [time_t]. *)
Definition NTPFRAC (x : Z) : Z := s32 (s32 (4294 * x) + Z.shiftr (s32 (1981 * x)) 11).

(** [x] is an [unsigned int]. *)
Definition USEC (x : Z) : Z := u32 (Z.shiftr x 12 - Z.shiftr (u32 (Z.shiftr (u32 (759 * x)) 10 + 32768)) 16).

Record ntp_time := mk_time { coarse : Z; fine : Z }.

Record ntp_packet := mk_packet {
  leap_ver_mode : Z; startum : Z; poll : Z; precision : Z;
  root_delay : Z; root_dispersion : Z; reference_identifier : Z;
  reference_timestamp : ntp_time; originage_timestamp : ntp_time;
  receive_timestamp : ntp_time; transmit_timestamp : ntp_time }.

(** The four bytes of a word in memory after [htonl], and the word that
    [ntohl] makes of four bytes in memory. *)
Definition htonl_bytes (w : Z) : list Z := [u8 (Z.shiftr w 24); u8 (Z.shiftr w 16); u8 (Z.shiftr w 8); u8 w].
Definition ntohl_at (data : list Z) (i : nat) : Z :=
  data !!! i * 16777216 + data !!! S i * 65536 + data !!! S (S i) * 256 + data !!! S (S (S i)).

(** [ntohl] of a character: the word with that character as its lowest byte. *)
Definition ntohl_char (c : Z) : Z := c * 16777216.

Definition memcpy_at (packet : list Z) (i : nat) (bytes : list Z) : list Z :=
  take i packet ++ bytes ++ drop (i + length bytes) packet.

(** [protocal] after it was set to [NTPV3]: NTP/V3 and its NUL. *)
Definition NTPV3 : list Z := [78; 84; 80; 47; 86; 51; 0].

(** [construct_packet] at time [timer]; it sets the protocol itself. *)
Definition construct_packet (timer : Z) : list Z :=
  let packet := replicate NTP_PCK_LEN 0 in
  let version := u8 (NTPV3 !!! 6%nat - 0x30) in
  let packet := memcpy_at packet 0 (htonl_bytes (Z.lor (Z.lor (Z.lor (Z.lor (Z.lor (Z.shiftl LI 30) (Z.shiftl version 27))
    (Z.shiftl MODE 24)) (Z.shiftl STRATUM 16)) (Z.shiftl POLL 8)) (Z.land PREC 0xff))) in
  let packet := memcpy_at packet 4 (htonl_bytes (Z.shiftl 1 16)) in
  let packet := memcpy_at packet 8 (htonl_bytes (Z.shiftl 1 16)) in
  let packet := memcpy_at packet 40 (htonl_bytes (u32 (JAN_1970 + timer))) in
  memcpy_at packet 44 (htonl_bytes (u32 (NTPFRAC timer))).

(** The packet read from an answer: [old] is what it held before.  The
    fields of the answer are assigned in the order of the code, which sets the
    receive time twice and the reference time never. *)
Definition read_packet (data : list Z) (old : ntp_packet) : ntp_packet :=
  mk_packet (u8 (ntohl_char (data !!! 0%nat))) (u8 (ntohl_char (data !!! 1%nat)))
    (u8 (ntohl_char (data !!! 2%nat))) (u8 (ntohl_char (data !!! 3%nat)))
    (s32 (ntohl_at data 4)) (s32 (ntohl_at data 8)) (s32 (ntohl_at data 12))
    (reference_timestamp old) (mk_time (ntohl_at data 24) (ntohl_at data 28))
    (mk_time (ntohl_at data 32) (ntohl_at data 36)) (mk_time (ntohl_at data 40) (ntohl_at data 44)).

(** What the program does to the world. *)
Inductive effect := SendTo (bytes : list Z) | SetTime (tv_sec tv_usec : Z).

(** [sent]: the request was sent; [reply]: the bytes received within ten
    seconds, if any.  The packet and the result. *)
Definition get_ntp_time (timer : Z) (sent : bool) (reply : option (list Z)) (ret_time : ntp_packet) : ntp_packet * Z :=
  if negb sent then (ret_time, -1)
  else
    match reply with
    | Some data => if (length data <? NTP_PCK_LEN)%nat then (ret_time, 0) else (read_packet data ret_time, 1)
    | None => (ret_time, 0)
    end.

Definition set_local_time (p : ntp_packet) : effect :=
  SetTime (u32 (coarse (transmit_timestamp p) - JAN_1970)) (USEC (fine (transmit_timestamp p))).

(** [main] after the socket is open; [garbage] is the uninitialised packet on
    its stack. *)
Definition main (timer : Z) (sent : bool) (reply : option (list Z)) (garbage : ntp_packet) : list effect :=
  let '(new_time_packet, ok) := get_ntp_time timer sent reply garbage in
  SendTo (construct_packet timer) :: (if negb (ok =? 0) then [set_local_time new_time_packet] else []).

(** ** Fractions of a second *)

(** The microseconds of a fraction of [f / 2^32] seconds. *)
Definition microseconds (f : Z) : Z := f * 1000000 / 4294967296.

Lemma USEC_bounds f : 0 <= f < 4294967296 -> f / 4096 < 64 \/ f / 4096 - 64 <= USEC f <= f / 4096.
Proof.
  intros Hf. unfold USEC. rewrite !Z.shiftr_div_pow2 by lia. change (2 ^ 12) with 4096. change (2 ^ 10) with 1024. change (2 ^ 16) with 65536.
  pose proof (u32_range (759 * f)) as Hr. set (r := u32 (759 * f)) in *. clearbody r.
  assert (0 <= r / 1024 < 4194304) by (split; [apply Z.div_pos | apply Z.div_lt_upper_bound]; lia).
  rewrite (u32_small (r / 1024 + 32768)) by lia.
  assert (0 <= (r / 1024 + 32768) / 65536 <= 64) by (split; [apply Z.div_pos; lia|]; apply Z.lt_succ_r, Z.div_lt_upper_bound; lia).
  assert (0 <= f / 4096 < 1048576) by (split; [apply Z.div_pos | apply Z.div_lt_upper_bound]; lia).
  destruct (Z.lt_ge_cases (f / 4096) 64); [by left|right]. rewrite u32_small; lia.
Qed.

(** C36: The request's first byte says leap indicator 2 and version 0, since the
    version is taken from the NUL behind the text NTP/V3.  The clock is set only to an answer of at least 48 bytes (or, when the
    request could not be sent, to whatever the packet on the stack held).  The
    seconds are those of the answer's transmit time.  The microseconds are
    not: for a fraction [f] of a second they are within 64 below [f / 4096],
    where [f * 1000000 / 2^32] is meant, up to 4.8 percent less; so from 0.96
    seconds on they are a million and more, which is no time, and before that
    the clock is wrong by up to 47 milliseconds. *)
Theorem clock_set timer sent reply garbage :
  construct_packet timer !!! 0%nat = 0x83 /\
  (forall data c f, reply = Some data -> sent = true -> (48 <= length data)%nat ->
    ntohl_at data 40 = c -> ntohl_at data 44 = f -> JAN_1970 <= c < 4294967296 -> 262144 <= f < 4294967296 ->
    exists us, main timer sent reply garbage = [SendTo (construct_packet timer); SetTime (c - JAN_1970) us] /\
      f / 4096 - 64 <= us <= f / 4096 /\ us - microseconds f <= 48576 /\
      (4096000000 + 262144 <= f -> 1000000 <= us) /\ (8192000 <= f -> microseconds f < us)) /\
  (sent = false -> main timer sent reply garbage = [SendTo (construct_packet timer); set_local_time garbage]) /\
  (sent = true -> reply = None -> main timer sent reply garbage = [SendTo (construct_packet timer)]).
Proof.
  split; [reflexivity|]. split; [|split].
  - intros data c f -> -> Hl Hc Hf Hcr Hfr. unfold main, get_ntp_time, NTP_PCK_LEN. cbn [negb].
    rewrite (proj2 (Nat.ltb_ge _ _) Hl). cbn [Z.eqb negb]. unfold set_local_time, read_packet. cbn [transmit_timestamp coarse fine].
    rewrite Hc, Hf, u32_small by (unfold JAN_1970 in *; lia). exists (USEC f). split; [done|].
    assert (64 <= f / 4096) by (apply Z.div_le_lower_bound; lia).
    pose proof (USEC_bounds f ltac:(lia)) as [|Hb]; [lia|]. split; [done|].
    unfold microseconds. pose proof (Z.div_mod f 4096 ltac:(lia)). pose proof (Z.mod_pos_bound f 4096 ltac:(lia)).
    pose proof (Z.div_mod (f * 1000000) 4294967296 ltac:(lia)). pose proof (Z.mod_pos_bound (f * 1000000) 4294967296 ltac:(lia)).
    split; [lia|]. split; lia.
  - by intros ->.
  - by intros -> ->.
Qed.

Definition stack_garbage : ntp_packet :=
  mk_packet 1 2 3 4 5 6 7 (mk_time 1 1) (mk_time 2 2) (mk_time 3 3) (mk_time 4 4).

(** An answer half a second after 2014-09-09 00:00: the clock is set 24 ms
    too late. *)
Definition half_past : list Z := replicate 40 0 ++ htonl_bytes (JAN_1970 + 1410220800) ++ htonl_bytes 2147483648.

Example clock_set_witness :
  exists us, main 1000 true (Some half_past) stack_garbage = [SendTo (construct_packet 1000); SetTime 1410220800 us] /\
    524224 <= us <= 524288 /\ us - 500000 <= 48576.
Proof.
  destruct (clock_set 1000 true (Some half_past) stack_garbage) as (_ & H & _ & _).
  destruct (H half_past (JAN_1970 + 1410220800) 2147483648) as (us & E & Hb & He & _);
    [reflexivity | reflexivity | vm_compute; lia | reflexivity | reflexivity | unfold JAN_1970; lia | lia |].
  exists us. split; [exact E|]. split; [exact Hb | exact He].
Defined.
