(* ===== verification/Music.v ===== *)
(** * The music player (src/src/music_control)

    A server on port 2001 that plays the songs of a folder: each request is
    one text.  A song is played by a process of its own ([madplay]), which a
    second process started for [PLAY_START] waits for and starts again; they
    share a few bytes of memory with the server.  The file holds the play list
    (play_list.c), the player (music_control.c) and the server's commands
    (main.c), and the theorem that says which songs are played. *)

From stdpp Require Import base list strings.
From Stdlib Require Import ZArith Lia Ascii.
From S2P Require Import Prelude CString.

Open Scope Z_scope.

(** ** State *)

Definition STATE_PLAY : Z := 0.
Definition STATE_PAUSE : Z := 1.
Definition STATE_STOP : Z := 2.
Definition SINGAL_PLAY_MODE : Z := 0.
Definition SINGAL_LOOP_MODE : Z := 1.
Definition ALL_LOOP_MODE : Z := 2.
Definition PLAY_MODE_MAX : Z := 3.

Inductive signal := SIGSTOP | SIGCONT | SIGKILL.

(** What the server and its processes do: signals, a song started, a shell
    command, text sent to the client; a process that dies of a bad pointer;
    the process of [StartPlay] that returns into the server's loop. *)
Inductive event := Kill (pid : Z) (s : signal) | Madplay (path : string) | System (cmd : string) | Send (text : string)
  | Crash | Serves.

(** A pointer to a song: the play list it belongs to, and the place in it. *)
Definition song_ptr : Type := nat * nat.

(** [lists]: how many play lists were made; [songs]: the names of the last
    one, in a ring, unless there is none yet ([music_head] is null).  The
    shared bytes: process, state, mode, song.  [waiting]: the process that
    waits for the song, with its song and its copy of the list. *)
Record world := mk_world {
  lists : nat; songs : option (list string); lens : Z;
  shm_pid : Z; shm_state : Z; shm_mode : Z; shm_song : option song_ptr;
  grandpid : Z; childpid : Z;
  waiting : option (song_ptr * list string);
  forks : nat; log : list event }.

Definition emit (e : event) (w : world) : world :=
  mk_world (lists w) (songs w) (lens w) (shm_pid w) (shm_state w) (shm_mode w) (shm_song w) (grandpid w) (childpid w)
    (waiting w) (forks w) (log w ++ [e]).
Definition set_list (l : list string) (n : Z) (w : world) : world :=
  mk_world (S (lists w)) (Some l) n (shm_pid w) (shm_state w) (shm_mode w) (shm_song w) (grandpid w) (childpid w)
    (waiting w) (forks w) (log w).
Definition SetPlayerState (state : Z) (w : world) : world :=
  mk_world (lists w) (songs w) (lens w) (shm_pid w) state (shm_mode w) (shm_song w) (grandpid w) (childpid w)
    (waiting w) (forks w) (log w).
Definition set_mode (mode : Z) (w : world) : world :=
  mk_world (lists w) (songs w) (lens w) (shm_pid w) (shm_state w) mode (shm_song w) (grandpid w) (childpid w)
    (waiting w) (forks w) (log w).
Definition set_shm_pid (pid : Z) (w : world) : world :=
  mk_world (lists w) (songs w) (lens w) pid (shm_state w) (shm_mode w) (shm_song w) (grandpid w) (childpid w)
    (waiting w) (forks w) (log w).
Definition set_song (p : song_ptr) (w : world) : world :=
  mk_world (lists w) (songs w) (lens w) (shm_pid w) (shm_state w) (shm_mode w) (Some p) (grandpid w) (childpid w)
    (waiting w) (forks w) (log w).
Definition set_pids (grand child : Z) (w : world) : world :=
  mk_world (lists w) (songs w) (lens w) (shm_pid w) (shm_state w) (shm_mode w) (shm_song w) grand child
    (waiting w) (forks w) (log w).
Definition set_waiting (p : option (song_ptr * list string)) (w : world) : world :=
  mk_world (lists w) (songs w) (lens w) (shm_pid w) (shm_state w) (shm_mode w) (shm_song w) (grandpid w) (childpid w)
    p (forks w) (log w).
Definition forked (w : world) : world :=
  mk_world (lists w) (songs w) (lens w) (shm_pid w) (shm_state w) (shm_mode w) (shm_song w) (grandpid w) (childpid w)
    (waiting w) (S (forks w)) (log w).

(** ** play_list.c *)

(** The names of the songs among the files of the folder, or a null pointer
    that is used when there is none. *)
Definition is_song (f : string) : bool :=
  negb (String.eqb f ".") && negb (String.eqb f "..") && (match strstr f ".mp3" with Some _ => true | None => false end).
Definition create_music_song (files : list string) : option (list string) :=
  match filter (fun f => is_song f = true) files with [] => None | names => Some names end.

Fixpoint first_index (name : string) (l : list string) : option nat :=
  match l with
  | [] => None
  | s :: l => if String.eqb s name then Some O else option_map S (first_index name l)
  end.

(** The walk around the ring stops at the head, which is what is returned
    when no song has the name. *)
Definition look_for_music (musicname : string) (l : list string) : nat := default O (first_index musicname l).

(** [output_all_music_info] into arrays of 1024 and 262144 characters. *)
Definition song_text (name : string) : option string :=
  t ← fits 1024 (json_object ["name"; "author"; "len"] [name; "liudehua"; "00:01:00"] +:+ ",");
  Some t.
Definition music_header : string :=
  "{" +:+ (json_field "ver" "ARM11.000.000.000.001" +:+ ("," +:+ (dq +:+ ("music" +:+ (dq +:+ (":" +:+ "[")))))).
Definition output_all_music_info (names : list string) : option string :=
  texts ← mapM song_text names;
  let t := music_header +:+ cat_all texts in
  fits (Z.to_nat 262144) (String.substring 0 (String.length t - 1) t +:+ ("]" +:+ "}")).

(** ** music_control.c *)

Definition MUSIC_FOLDER : string := "/usr/ftp/music".

Section player.
(** The result of each call of [fork]: the new process, or -1. *)
Context (fork_pid : nat -> Z).

Definition SetPlayerMode (mode : Z) (w : world) : world :=
  let mode := u32 mode in
  set_mode (if PLAY_MODE_MAX <=? mode then PLAY_MODE_MAX - 1 else mode) w.

(** The loop of [PlayMusic] up to the wait for the song. *)
Definition play_song (p : song_ptr) (l : list string) (w : world) : world :=
  let pid := fork_pid (forks w) in
  let w := forked w in
  if pid =? -1 then set_waiting None w
  else
    let w := SetPlayerState STATE_PLAY w in
    let w := emit (Madplay (MUSIC_FOLDER +:+ ("/" +:+ default "" (l !! snd p)))) w in
    set_waiting (Some (p, l)) (set_song p (set_shm_pid pid w)).

(** [PlayMusic] in the process that [StartPlay] forks. *)
Definition PlayMusic (filename : string) (w : world) : world :=
  match songs w with
  | None => emit Crash w
  | Some l => play_song (lists w, look_for_music filename l) l w
  end.

(** The song is over: the rest of the loop of [PlayMusic]. *)
Definition song_over (w : world) : world :=
  match waiting w with
  | None => w
  | Some ((g, i), l) =>
      let mode := shm_mode w in
      if mode =? SINGAL_PLAY_MODE then emit Serves (set_waiting None (SetPlayerState STATE_STOP w))
      else
        let i := if mode =? ALL_LOOP_MODE then (if (S i <? length l)%nat then S i else O) else i in
        play_song (g, i) l (set_song (g, i) (SetPlayerState STATE_STOP w))
  end.

(** The server waits a second for the song to start. *)
Definition StartPlay (filename : string) (w : world) : world :=
  let pid := fork_pid (forks w) in
  let w := forked w in
  if 0 <? pid then
    let w := PlayMusic filename (set_pids (grandpid w) pid w) in
    set_pids (shm_pid w) (childpid w) w
  else w.

Definition PlayPause (pid : Z) (w : world) : world :=
  if 0 <? pid then SetPlayerState STATE_PAUSE (emit (Kill pid SIGSTOP) w) else w.
Definition PlayContinue (pid : Z) (w : world) : world :=
  if 0 <? pid then SetPlayerState STATE_PLAY (emit (Kill pid SIGCONT) w) else w.

(** [PlayStop(&grandpid)] *)
Definition PlayStop (w : world) : world :=
  let w := if 0 <? grandpid w then set_pids 0 (childpid w) (emit (Kill (grandpid w) SIGKILL) w) else w in
  let w := if 0 <? childpid w then set_waiting None (set_pids (grandpid w) 0 (emit (Kill (childpid w) SIGKILL) w)) else w in
  SetPlayerState STATE_STOP w.

(** [GetCurrentVolumn]: [line] is the third line that amixer prints. *)
Definition GetCurrentVolumn (line : string) : Z :=
  let '(t, rest) := strtok "," line in
  match t with
  | None => 0
  | Some _ => match fst (strtok "," rest) with None => 0 | Some v => atoi v end
  end.

Definition VOLUMN_ADJUST_CMD : string := "amixer cset numid=6,iface=MIXER,name='PCM Playback Volume' ".
Definition SetCurrentVolumn (volumn : Z) (w : world) : world := emit (System (VOLUMN_ADJUST_CMD +:+ (fmt_d volumn +:+ "&"))) w.
Definition ChmodMusicFolder (w : world) : world := emit (System ("chmod 777 " +:+ (MUSIC_FOLDER +:+ "/* &"))) w.

(** ** main.c *)

(** [GetMusicState]: the song is read through the shared pointer. *)
Definition GetMusicState (line : string) (w : world) : option string :=
  p ← shm_song w;
  l ← songs w;
  if (fst p =? lists w)%nat then
    name ← l !! snd p;
    t ← fits 1024 ("[" +:+ (json_object ["play_state"; "play_mode"; "music_name"; "music_volumn"]
      [fmt_d (shm_state w); fmt_d (shm_mode w); name; fmt_d (GetCurrentVolumn line)] +:+ "]"));
    Some t
  else None.

(** What comes after the first [+] of the request. *)
Definition argument (buffer : string) : option string :=
  match strchr buffer "+" with Some (String _ rest) => Some rest | _ => None end.

Definition has (buffer cmd : string) : bool := match strstr buffer cmd with Some _ => true | None => false end.

(** The world after one request; [files]: the folder's files; [line]: what
    amixer prints. *)
Definition music_request (text : string) (files : list string) (line : string) (w : world) : option world :=
  buffer ← fits 2048 text;
  let w := set_pids (shm_pid w) (childpid w) w in
  let ok w := Some (emit (Send ("OK" +:+ String "013" (String "010" ""))) w) in
  if has buffer "PLAY_START" then filename ← argument buffer; ok (StartPlay filename (PlayStop w))
  else if has buffer "SET_PLAY_MODE" then playmode ← argument buffer; ok (SetPlayerMode (atoi playmode) w)
  else if has buffer "PLAY_PAUSE" then ok (PlayPause (grandpid w) w)
  else if has buffer "PLAY_CONTINUE" then ok (PlayContinue (grandpid w) w)
  else if has buffer "PLAY_STOP" then ok (PlayStop w)
  else if has buffer "VOLUMN:" then
    v ← fst (strtok ":" (snd (strtok ":" buffer))); ok (SetCurrentVolumn (atoi v) w)
  else if has buffer "GET_VOLUMN" then v ← fits 10 (fmt_d (GetCurrentVolumn line)); Some (emit (Send v) w)
  else if has buffer "CHMOD" then ok (ChmodMusicFolder w)
  else if has buffer "GET_MUSIC_LIST" then
    names ← create_music_song files;
    text ← output_all_music_info names;
    Some (emit (Send text) (set_list names (Z.of_nat (length names)) w))
  else if has buffer "GET_PLAYER_STATE" then text ← GetMusicState line w; Some (emit (Send text) w)
  else ok w.
End player.

(** The state after the start of [main]. *)
Definition initial : world := SetPlayerMode SINGAL_LOOP_MODE (SetPlayerState STATE_STOP (mk_world 0 None 0 0 0 0 None 0 0 None 0 [])).

(** ** Which songs are played *)

(** The song after [k] others. *)
Definition song_no (mode : Z) (n i k : nat) : nat := if mode =? ALL_LOOP_MODE then ((i + k) mod n)%nat else i.

Section playing.
Context (fork_pid : nat -> Z) (Hfork : forall n, 0 < fork_pid n).

(** The song last started. *)
Definition last_played (l : list event) : option string := last (omap (fun e => match e with Madplay p => Some p | _ => None end) l).
Definition song_path (l : list string) (i : nat) : string := MUSIC_FOLDER +:+ ("/" +:+ default "" (l !! i)).

(** Song [i] of list [l] is being played, for the server and for the process
    that waits for it. *)
Definition playing (l : list string) (i : nat) (child : Z) (w : world) : Prop :=
  songs w = Some l /\ shm_state w = STATE_PLAY /\ shm_song w = Some (lists w, i) /\ waiting w = Some ((lists w, i), l) /\
  childpid w = child /\ 0 < shm_pid w /\ last_played (log w) = Some (song_path l i).

Lemma play_song_playing l i w : songs w = Some l -> playing l i (childpid w) (play_song fork_pid (lists w, i) l w).
Proof.
  intros Hs. unfold play_song. pose proof (Hfork (forks w)).
  rewrite (proj2 (Z.eqb_neq (fork_pid (forks w)) (-1))) by lia. unfold playing, last_played. cbn. rewrite omap_app. cbn. by rewrite last_snoc.
Qed.

Lemma first_index_bound name l i : first_index name l = Some i -> (i < length l)%nat.
Proof.
  revert i. induction l as [|s l IH]; intros i; cbn; [done|]. destruct (String.eqb s name); [intros [= <-]; lia|].
  destruct (first_index name l) as [j|]; [|done]. intros [= <-]. specialize (IH j eq_refl). lia.
Qed.

Lemma first_index_name name l i : first_index name l = Some i -> l !! i = Some name.
Proof.
  revert i. induction l as [|s l IH]; intros i; cbn; [done|]. destruct (String.eqb_spec s name) as [->|]; [by intros [= <-]|].
  destruct (first_index name l) as [j|]; [|done]. intros [= <-]. by apply IH.
Qed.

Lemma look_for_music_bound name l : l <> [] -> (look_for_music name l < length l)%nat.
Proof.
  intros Hl. unfold look_for_music. destruct (first_index name l) eqn:E; cbn; [by eapply first_index_bound|].
  destruct l; [done | simpl; lia].
Qed.

Lemma song_over_playing l i child w : playing l i child w -> (i < length l)%nat -> shm_mode w <> SINGAL_PLAY_MODE ->
  playing l (song_no (shm_mode w) (length l) i 1) child (song_over fork_pid w) /\
  shm_mode (song_over fork_pid w) = shm_mode w.
Proof.
  intros (Hs & Hst & Hsong & Hw & Hc & Hp & Hl) Hi Hm. unfold song_over. rewrite Hw.
  rewrite (proj2 (Z.eqb_neq _ _) Hm). unfold song_no.
  assert ((if shm_mode w =? ALL_LOOP_MODE then if (S i <? length l)%nat then S i else 0%nat else i)
    = (if shm_mode w =? ALL_LOOP_MODE then ((i + 1) mod length l)%nat else i)) as ->.
  { destruct (_ =? _); [|done]. destruct (Nat.ltb_spec (S i) (length l)).
    - by rewrite Nat.mod_small, Nat.add_1_r by lia.
    - by replace (i + 1)%nat with (length l) by lia; rewrite Nat.Div0.mod_same. }
  rewrite <- Hc. split.
  - apply (play_song_playing l _ (set_song (lists w, _) (SetPlayerState STATE_STOP w)) Hs).
  - unfold play_song. by destruct (_ =? -1).
Qed.

Lemma songs_over l i child w k : playing l i child w -> (i < length l)%nat -> shm_mode w <> SINGAL_PLAY_MODE ->
  playing l (song_no (shm_mode w) (length l) i k) child (Nat.iter k (song_over fork_pid) w) /\
  shm_mode (Nat.iter k (song_over fork_pid) w) = shm_mode w.
Proof.
  intros Hp Hi Hm. induction k as [|k [IH IHm]].
  - cbn [Nat.iter]. unfold song_no. rewrite Nat.add_0_r, Nat.mod_small by done. by destruct (_ =? _).
  - cbn [Nat.iter]. apply song_over_playing in IH; [|unfold song_no; destruct (_ =? _); [apply Nat.mod_upper_bound; lia | done] | by rewrite IHm].
    rewrite IHm in IH. destruct IH as [IH IHm']. split; [|exact IHm'].
    replace (song_no (shm_mode w) (length l) i (S k)) with (song_no (shm_mode w) (length l) (song_no (shm_mode w) (length l) i k) 1); [exact IH|].
    unfold song_no. destruct (_ =? _); [|done]. rewrite Nat.Div0.add_mod_idemp_l. f_equal. lia.
Qed.

Lemma song_over_lists w : lists (song_over fork_pid w) = lists w.
Proof.
  unfold song_over. destruct (waiting w) as [[[g i] l]|]; [|done]. destruct (_ =? SINGAL_PLAY_MODE); [done|].
  unfold play_song. by destruct (_ =? -1).
Qed.

Lemma songs_over_lists w k : lists (Nat.iter k (song_over fork_pid) w) = lists w.
Proof. induction k as [|k IH]; [done|]. etransitivity; [apply song_over_lists | exact IH]. Qed.

Lemma start_request name files line w l : songs w = Some l -> fits 2048 ("PLAY_START+" +:+ name) = Some ("PLAY_START+" +:+ name) ->
  exists w' child, music_request fork_pid ("PLAY_START+" +:+ name) files line w = Some (emit (Send ("OK" +:+ String "013" (String "010" ""))) w') /\
    playing l (look_for_music name l) child w' /\ 0 < child /\ grandpid w' = shm_pid w' /\ shm_mode w' = shm_mode w /\ lists w' = lists w.
Proof.
  intros Hs Hf. unfold music_request. rewrite Hf. cbn [mbind option_bind].
  assert (has ("PLAY_START+" +:+ name) "PLAY_START" = true) as -> by reflexivity.
  assert (argument ("PLAY_START+" +:+ name) = Some name) as -> by reflexivity. cbn [mbind option_bind].
  set (w0 := PlayStop (set_pids (shm_pid w) (childpid w) w)).
  exists (StartPlay fork_pid name w0), (fork_pid (forks w0)). split; [reflexivity|].
  assert (songs w0 = Some l /\ shm_mode w0 = shm_mode w /\ lists w0 = lists w) as (Hs0 & Hm0 & Hl0)
    by (unfold w0, PlayStop; cbn; destruct (0 <? shm_pid w); cbn; destruct (0 <? childpid w); done).
  clearbody w0. pose proof (Hfork (forks w0)) as Hpid. unfold StartPlay. rewrite (proj2 (Z.ltb_lt _ _) Hpid).
  unfold PlayMusic. cbn [songs set_pids forked]. rewrite Hs0.
  pose proof (play_song_playing l (look_for_music name l) (set_pids (grandpid (forked w0)) (fork_pid (forks w0)) (forked w0)) Hs0) as Hp.
  split; [exact Hp|]. split; [done|]. split; [done|].
  unfold play_song. destruct (_ =? -1); cbn; done.
Qed.

(** [PLAY_STOP] *)
Lemma stop_request l i child files line w : playing l i child w -> 0 < child ->
  exists w', music_request fork_pid "PLAY_STOP" files line w = Some w' /\ waiting w' = None /\ shm_state w' = STATE_STOP /\
    log w' = log w ++ [Kill (shm_pid w) SIGKILL; Kill child SIGKILL; Send ("OK" +:+ String "013" (String "010" ""))].
Proof.
  intros (Hs & Hst & Hsong & Hw & Hc & Hp & Hl) Hchild. eexists. split; [reflexivity|].
  unfold PlayStop. cbn [grandpid childpid set_pids]. rewrite (proj2 (Z.ltb_lt _ _) Hp). cbn [childpid set_pids emit].
  rewrite Hc, (proj2 (Z.ltb_lt _ _) Hchild). cbn. split; [done|]. split; [done|]. by rewrite <- !app_assoc.
Qed.

(** C35: [PLAY_START+name] plays the first song of the list with that name,
    and the first song of all when there is none.  When it and [k] more songs
    are over, the next one is playing: the same in the mode that repeats one
    song, the [k + 1]-th behind it, going around the list, in the mode that
    repeats all.  [PLAY_STOP] then kills the process that plays and the
    process that waits for it.  In the mode that plays one song, the waiting
    process does not end with its song: it returns into the server's loop and
    serves requests beside the server. *)
Theorem songs_in_order name files line w l k : songs w = Some l -> l <> [] ->
  fits 2048 ("PLAY_START+" +:+ name) = Some ("PLAY_START+" +:+ name) ->
  exists w1 child, music_request fork_pid ("PLAY_START+" +:+ name) files line w = Some w1 /\
    let i := look_for_music name l in
    let wk := Nat.iter k (song_over fork_pid) w1 in
    match first_index name l with Some j => i = j /\ l !! j = Some name | None => i = 0%nat end /\
    shm_song w1 = Some (lists w, i) /\ shm_state w1 = STATE_PLAY /\
    (shm_mode w = SINGAL_PLAY_MODE ->
      let w2 := song_over fork_pid w1 in waiting w2 = None /\ shm_state w2 = STATE_STOP /\ last (log w2) = Some Serves) /\
    last_played (log w1) = Some (song_path l i) /\
    (shm_mode w <> SINGAL_PLAY_MODE ->
      last_played (log wk) = Some (song_path l (song_no (shm_mode w) (length l) i k)) /\
      shm_song wk = Some (lists w, song_no (shm_mode w) (length l) i k) /\ shm_state wk = STATE_PLAY /\
      exists w', music_request fork_pid "PLAY_STOP" files line wk = Some w' /\ waiting w' = None /\ shm_state w' = STATE_STOP /\
        log w' = log wk ++ [Kill (shm_pid wk) SIGKILL; Kill child SIGKILL; Send ("OK" +:+ String "013" (String "010" ""))]).
Proof.
  intros Hs Hl Hf. destruct (start_request name files line w l Hs Hf) as (w' & child & Hreq & Hp & Hchild & _ & Hm & Hg).
  set (w1 := emit (Send ("OK" +:+ String "013" (String "010" ""))) w').
  assert (playing l (look_for_music name l) child w1) as Hp1.
  { destruct Hp as (?&?&?&?&?&?&Hlast). unfold playing, w1, last_played. cbn. rewrite omap_app. cbn. by rewrite app_nil_r. }
  assert (shm_mode w1 = shm_mode w /\ lists w1 = lists w) as [Hm1 Hg1] by done.
  exists w1, child. split; [exact Hreq|]. cbn zeta. clearbody w1.
  pose proof (look_for_music_bound name l Hl) as Hi. rewrite <- Hm1, <- Hg1.
  pose proof Hp1 as (Hs1 & Hst1 & Hsong1 & Hw1 & Hc1 & Hpid1 & Hlast1).
  split; [|split; [exact Hsong1 | split; [exact Hst1 | split; [|split; [exact Hlast1|]]]]].
  - unfold look_for_music. destruct (first_index name l) as [j|] eqn:E; [|done]. split; [done|]. by apply first_index_name.
  - intros Hmode. unfold song_over. rewrite Hw1, Hmode. cbn. by rewrite last_snoc.
  - intros Hmode. destruct (songs_over l _ child w1 k Hp1 Hi Hmode) as [Hk Hmk].
    pose proof Hk as (Hsk & Hstk & Hsongk & Hwk & Hck & Hpk & Hlk).
    split; [exact Hlk|]. split; [|split; [exact Hstk | by apply (stop_request _ _ _ _ _ _ Hk)]].
    rewrite Hsongk. by rewrite songs_over_lists.
Qed.
End playing.

(** Three songs, all of them in turn. *)
Definition jukebox : world := SetPlayerMode ALL_LOOP_MODE (set_list ["a.mp3"; "b.mp3"; "c.mp3"] 3 initial).

Example songs_in_order_witness :
  exists w1, music_request (fun n => Z.of_nat n + 100) "PLAY_START+b.mp3" [] "" jukebox = Some w1 /\
    last_played (log (Nat.iter 2 (song_over (fun n => Z.of_nat n + 100)) w1)) = Some "/usr/ftp/music/a.mp3".
Proof.
  destruct (songs_in_order (fun n => Z.of_nat n + 100) ltac:(intros; cbv beta; lia) "b.mp3" [] "" jukebox ["a.mp3"; "b.mp3"; "c.mp3"] 2)
    as (w1 & child & E & _ & _ & _ & _ & _ & H); [reflexivity | discriminate | reflexivity |].
  exists w1. split; [exact E|]. apply H. discriminate.
Defined.

(** Asking for the state before a song was played, or after the list was made
    again, reads through a pointer that is null or freed; so does asking for
    the list of a folder without songs. *)
Lemma state_before_song fork_pid line : music_request fork_pid "GET_PLAYER_STATE" [] line initial = None.
Proof. reflexivity. Qed.

Lemma state_after_new_list fork_pid files line w p : shm_song w = Some p -> (fst p < lists w)%nat ->
  music_request fork_pid "GET_PLAYER_STATE" files line w = None.
Proof.
  intros Hp Hg. change (music_request fork_pid "GET_PLAYER_STATE" files line w) with
    (text ← GetMusicState line (set_pids (shm_pid w) (childpid w) w);
     Some (emit (Send text) (set_pids (shm_pid w) (childpid w) w))).
  unfold GetMusicState. cbn [shm_song songs lists set_pids]. rewrite Hp. cbn [mbind option_bind].
  destruct (songs w); [|done]. cbn [mbind option_bind]. by rewrite (proj2 (Nat.eqb_neq _ _)) by lia.
Qed.

Lemma list_of_no_songs fork_pid line w : music_request fork_pid "GET_MUSIC_LIST" ["."; ".."; "notes.txt"] line w = None.
Proof. reflexivity. Qed.

Lemma PlayStop_kills w : shm_pid (PlayStop w) = shm_pid w /\
  (0 < grandpid w -> exists es, log (PlayStop w) = log w ++ Kill (grandpid w) SIGKILL :: es).
Proof.
  unfold PlayStop. destruct (Z.ltb_spec 0 (grandpid w)); cbn [childpid set_pids emit];
    destruct (0 <? childpid w); (split; [reflexivity|]); intros ?; try lia;
    eexists; cbn; rewrite <- ?app_assoc; reflexivity.
Qed.

(** The shared bytes keep the number of the last song's process when it is
    killed, and each request takes it from there: a second [PLAY_STOP] kills
    whatever process has that number by then, and [PLAY_CONTINUE] after a stop
    says that a song is playing. *)
Lemma stop_kills_again fork_pid files line w : 0 < shm_pid w ->
  exists w1 w2 w3 es, music_request fork_pid "PLAY_STOP" files line w = Some w1 /\
    music_request fork_pid "PLAY_STOP" files line w1 = Some w2 /\ log w2 = log w1 ++ Kill (shm_pid w) SIGKILL :: es /\
    music_request fork_pid "PLAY_CONTINUE" files line w1 = Some w3 /\ waiting w3 = waiting w1 /\ shm_state w3 = STATE_PLAY.
Proof.
  intros Hp. set (reload w := set_pids (shm_pid w) (childpid w) w). set (ok := emit (Send ("OK" +:+ String "013" (String "010" "")))).
  set (w1 := ok (PlayStop (reload w))). assert (shm_pid w1 = shm_pid w) as H1 by apply (PlayStop_kills (reload w)).
  destruct (PlayStop_kills (reload w1)) as [_ [es Hes]]; [change (0 < shm_pid w1); lia|].
  exists w1, (ok (PlayStop (reload w1))), (ok (PlayContinue (shm_pid w1) (reload w1))), (es ++ [Send ("OK" +:+ String "013" (String "010" ""))]).
  split; [reflexivity|]. split; [reflexivity|]. split; [|split; [reflexivity|]].
  - change (log (PlayStop (reload w1)) ++ [Send ("OK" +:+ String "013" (String "010" ""))] =
      log w1 ++ Kill (shm_pid w) SIGKILL :: es ++ [Send ("OK" +:+ String "013" (String "010" ""))]).
    rewrite Hes, <- H1, <- app_assoc. reflexivity.
  - unfold PlayContinue. by rewrite (proj2 (Z.ltb_lt 0 (shm_pid w1))) by lia.
Qed.
