(* ===== verification/Led.v ===== *)
(** * The lights of the board (src/driver/led/leddriver.c, src/src/led/led.c,
      [led_control] of src/src/dev_manage/led.c)

    The driver drives four pins; the tool led_flash blinks one of them and is
    started by the daemon with a command line.  The theorem goes from the
    command line of the daemon to the pins. *)

From stdpp Require Import base list strings.
From Stdlib Require Import ZArith Lia Ascii.
From S2P Require Import Prelude CString Sql DevState DevRegProps Notify Gpio.

Open Scope Z_scope.

(** [S3C64XX_GPN(n)] *)
Inductive led_pin := S3C64XX_GPN (n : Z).

#[export] Instance led_pin_eq_dec : EqDecision led_pin.
Proof. solve_decision. Defined.

Abbreviation leds := (M (board led_pin unit)).

(** ** The driver *)

Definition LED_ON : Z := 1.
Definition LED_OFF : Z := 0.
Definition LED_NUMNERS : Z := 4.
Definition led_table : list led_pin := [S3C64XX_GPN 4; S3C64XX_GPN 2; S3C64XX_GPN 3; S3C64XX_GPN 1].

(** [arg] is an [unsigned long]; a light shines while its pin is low. *)
Definition leds_ioctl (cmd arg : Z) : leds Z :=
  if LED_NUMNERS - 1 <? arg then mret (-1)
  else
    p ← lift (led_table !! Z.to_nat arg);
    _ ← (if cmd =? LED_ON then gpio_set_value p false
         else if cmd =? LED_OFF then gpio_set_value p true
         else mret tt);
    mret 0.

(** [registered]: the result of [misc_register]. *)
Definition leds_init (registered : Z) : leds Z :=
  _ ← mfor (seq 0 (Z.to_nat LED_NUMNERS)) (fun i =>
    p ← lift (led_table !! i);
    _ ← s3c_gpio_out p;
    gpio_set_value p true);
  mret registered.

(** ** The tool *)

(** [led_item], [led_state] *)
Definition LED_MAX : Z := 4.
Definition ON : Z := 1.
Definition OFF : Z := 0.

(** [ioctl(fd, cmd, item)]: the item of the call is passed on as an unsigned
    word. *)
Definition ioctl (cmd item : Z) : leds unit := _ ← leds_ioctl cmd (u32 item); mret tt.
Definition usleep (us : Z) : leds unit := did (Delay (us * 1000)).

(** The loop from [i] on, [n] rounds before its end. *)
Fixpoint flash_loop (n : nat) (item i times : Z) : leds unit :=
  match n with
  | O => mret tt
  | S n =>
      _ ← ioctl ON item;
      _ ← usleep 20000;
      _ ← ioctl OFF item;
      _ ← (if negb (i =? times - 1) then usleep 20000 else mret tt);
      flash_loop n item (i + 1) times
  end.

(** [opened]: the device file can be opened. *)
Definition flash_tool (opened : bool) (item interval times : Z) : leds unit :=
  if opened then flash_loop (Z.to_nat times) item 0 times else mret tt.

Definition led_main (opened : bool) (argv : list string) : leds Z :=
  match argv with
  | [_; a1; a2; a3] =>
      let item := strtol a1 16 in
      let interval := strtol a2 16 in
      let times := strtol a3 16 in
      if LED_MAX <? item then mret (-1)
      else _ ← flash_tool opened item interval times; mret 0
  | _ => mret (-1)
  end.

(** [led_control] of the daemon *)
Definition led_control (opened : bool) (item state : Z) : leds unit :=
  if opened then ioctl state item else mret tt.

(** ** What is seen *)

(** The light of a pin after a history: [None] while the pin was not driven. *)
Definition light (p : led_pin) (h : list (event led_pin)) : option bool :=
  foldl (fun l e => match e with Drive q v => if decide (q = p) then Some (negb v) else l | _ => l end) None h.

(** A blink: the pin is low for 20 ms; between two blinks it is high for
    20 ms.  Without a pin only the waiting is left. *)
Definition drive (o : option led_pin) (v : bool) : list (event led_pin) := match o with Some p => [Drive p v] | None => [] end.
Definition blink (o : option led_pin) : list (event led_pin) := drive o false ++ [Delay 20000000] ++ drive o true.

Fixpoint blinks (n : nat) (o : option led_pin) : list (event led_pin) :=
  match n with
  | O => []
  | S O => blink o
  | S n => (blink o ++ [Delay 20000000]) ++ blinks n o
  end.

(** The result and the events of a piece of the driver. *)
Definition does {A} (m : leds A) (x : A) (es : list (event led_pin)) : Prop :=
  forall h, m (mk_board h ()) = Some (x, mk_board (h ++ es) ()).

Lemma does_ret {A} (x : A) : does (mret x) x [].
Proof. intros h. by rewrite app_nil_r. Qed.

Lemma does_bind {A B} (m : leds A) (k : A -> leds B) x y es es' :
  does m x es -> does (k x) y es' -> does (m ≫= k) y (es ++ es').
Proof. intros Hm Hk h. rewrite (bind_some _ _ _ _ _ (Hm h)), Hk. by rewrite app_assoc. Qed.

Lemma does_did (e : event led_pin) : does (did e) tt [e].
Proof. by intros h. Qed.

Lemma does_lift {A} (o : option A) x : o = Some x -> does (lift o) x [].
Proof. intros -> h. cbn. by rewrite app_nil_r. Qed.

(** A call on a light, which the board has or has not. *)
Lemma does_ioctl cmd item : 0 <= item < 4294967296 ->
  does (ioctl cmd item) tt (if cmd =? LED_ON then drive (led_table !! Z.to_nat item) false
                            else if cmd =? LED_OFF then drive (led_table !! Z.to_nat item) true else []).
Proof.
  intros Hi. unfold ioctl, leds_ioctl. rewrite u32_small by lia. destruct (Z.ltb_spec (LED_NUMNERS - 1) item) as [Hg|Hs].
  - replace (led_table !! Z.to_nat item) with (@None led_pin) by (symmetry; apply lookup_ge_None; unfold LED_NUMNERS in *; cbn; lia).
    cbn [drive]. replace (if cmd =? LED_ON then _ else _) with (@nil (event led_pin)) by (by repeat case_match). apply does_ret.
  - destruct (led_table !! Z.to_nat item) as [p|] eqn:Ep; [|apply lookup_ge_None in Ep; unfold LED_NUMNERS in *; cbn in Ep; lia].
    intros h. cbn [lift mbind M_bind drive]. unfold gpio_set_value, did, modify.
    destruct (cmd =? LED_ON); [done|]. destruct (cmd =? LED_OFF); [done|]. cbn. by rewrite app_nil_r.
Qed.

Lemma does_flash_loop item n i times : 0 <= item < 4294967296 -> times = i + Z.of_nat n ->
  does (flash_loop n item i times) tt (blinks n (led_table !! Z.to_nat item)).
Proof.
  intros Hi. revert i. induction n as [|n IH]; intros i Ht; [apply does_ret|].
  cbn [flash_loop]. specialize (IH (i + 1) ltac:(lia)). set (o := led_table !! Z.to_nat item) in *.
  assert (does (if negb (i =? times - 1) then usleep 20000 else mret tt) tt (match n with O => [] | _ => [Delay 20000000] end)) as Hw.
  { destruct n as [|n]; [replace (i =? times - 1) with true by lia; apply does_ret|].
    replace (i =? times - 1) with false by lia. apply does_did. }
  assert (blinks (S n) o = drive o false ++ [Delay 20000000] ++ drive o true ++ (match n with O => [] | _ => [Delay 20000000] end) ++ blinks n o) as ->
    by (destruct n; [cbn; unfold blink; by rewrite !app_nil_r|change (blinks (S (S n)) o) with ((blink o ++ [Delay 20000000]) ++ blinks (S n) o); unfold blink; by rewrite <- !app_assoc]).
  eapply does_bind; [exact (does_ioctl ON item Hi)|]. eapply does_bind; [apply does_did|].
  eapply does_bind; [exact (does_ioctl OFF item Hi)|]. eapply does_bind; [exact Hw|exact IH].
Qed.

Lemma light_app p h es : light p (h ++ es) =
  foldl (fun l e => match e with Drive q v => if decide (q = p) then Some (negb v) else l | _ => l end) (light p h) es.
Proof. unfold light. by rewrite foldl_app. Qed.

(** After blinks the light is out and no other light has changed. *)
Lemma light_blinks n o q h : light q (h ++ blinks n o) = if decide (o = Some q /\ n <> 0%nat) then Some false else light q h.
Proof.
  revert h. induction n as [|n IH]; intros h.
  { rewrite decide_False by tauto. cbn. by rewrite app_nil_r. }
  assert (light q (h ++ blink o) = if decide (o = Some q) then Some false else light q h) as Hb.
  { rewrite light_app. destruct o as [p|]; cbn; [|by rewrite decide_False].
    destruct (decide (p = q)) as [->|]; [by rewrite decide_True|by rewrite decide_False by congruence]. }
  destruct n as [|n].
  - cbn [blinks]. rewrite Hb. by destruct (decide (o = Some q)); [rewrite !decide_True by done|rewrite !decide_False by tauto].
  - change (blinks (S (S n)) o) with ((blink o ++ [Delay 20000000]) ++ blinks (S n) o).
    rewrite app_assoc, IH, (app_assoc h), light_app. cbn. rewrite Hb. by destruct (decide (o = Some q)); [rewrite !decide_True by done|rewrite !decide_False by tauto].
Qed.

(** A number of one digit reads the same in base 16. *)
Lemma one_digit d : 0 <= d < 10 -> fmt_d d = String (digit_char d) "" /\ strtol (fmt_d d) 16 = d.
Proof.
  intros H. assert (d = 0 \/ d = 1 \/ d = 2 \/ d = 3 \/ d = 4 \/ d = 5 \/ d = 6 \/ d = 7 \/ d = 8 \/ d = 9) as Hd by lia.
  by repeat destruct Hd as [->|Hd]; subst.
Qed.

(** The words of the tool's command line. *)
Definition flash_argv (item interval times : Z) : list string := ["led_flash"; fmt_d item; fmt_d interval; fmt_d times].

(** C40: The daemon's call of [led_flash] starts the tool with a command line
    of four words; with the driver the tool makes the light blink as often as
    the daemon asks (the interval is not used), leaves it dark, and does not
    touch the other lights; an item that the board has no light for changes
    nothing. *)
Theorem daemon_flash_blinks `{Sqlite} (s : dm_state) (h : list (event led_pin)) (item interval times : Z)
    (Hitem : 0 <= item <= LED_MAX) (Hint : 0 <= interval < 10) (Htimes : 0 <= times < 10) :
  let argv := flash_argv item interval times in
  let events := blinks (Z.to_nat times) (led_table !! Z.to_nat item) in
  Notify.led_flash item interval times s = Some (tt, set_out (out s ++ [EvSystem (join " " argv +:+ "&")]) s) /\
  tokens " " (join " " argv) = argv /\
  led_main true argv (mk_board h tt) = Some (0, mk_board (h ++ events) tt) /\
  forall q, light q (h ++ events) = if decide (led_table !! Z.to_nat item = Some q /\ 0 < times) then Some false else light q h.
Proof.
  unfold LED_MAX in Hitem. intros argv events. unfold argv, flash_argv.
  destruct (one_digit item) as [Ei Hi]; [lia|]. destruct (one_digit interval) as [En Hn]; [lia|]. destruct (one_digit times) as [Et Ht]; [lia|].
  split; [|split; [|split]].
  - unfold Notify.led_flash. rewrite Ei, En, Et. reflexivity.
  - apply tokens_join. repeat apply Forall_cons_2; [done|apply (fmt_d_prec_token " " 1); [done|lia]..|apply Forall_nil_2].
  - unfold led_main. rewrite Hi, Ht. replace (LED_MAX <? item) with false by (unfold LED_MAX; lia).
    unfold flash_tool. by rewrite (bind_some _ _ _ _ _ (does_flash_loop item (Z.to_nat times) 0 times ltac:(lia) ltac:(lia) h)).
  - intros q. unfold events. rewrite light_blinks. apply decide_ext. assert (Z.to_nat times <> 0%nat <-> 0 < times) by lia. tauto.
Qed.

Lemma daemon_flash_blinks_witness : let h := [Drive (S3C64XX_GPN 3) true] in
  0 <= LED_FOR_ZIGBEE_NET <= LED_MAX /\
  light (S3C64XX_GPN 3) (h ++ blinks (Z.to_nat 4) (led_table !! Z.to_nat LED_FOR_ZIGBEE_NET)) = Some false.
Proof.
  intros h. split; [done|].
  rewrite (proj2 (proj2 (proj2 (daemon_flash_blinks (H := RefSqlite) (sample_dm ∅) h LED_FOR_ZIGBEE_NET 1 4 ltac:(done) ltac:(done) ltac:(done)))) (S3C64XX_GPN 3)).
  reflexivity.
Defined.

(** ** Start *)

(** The lights after the driver was loaded and the daemon has started: only
    the light of the daemon shines. *)
Lemma daemon_start_lights h :
  exists es, (_ ← leds_init 0; led_control true 0 ON) (mk_board h tt) = Some (tt, mk_board (h ++ es) tt) /\
    (fun p => light p (h ++ es)) <$> led_table = [Some true; Some false; Some false; Some false].
Proof.
  exists (concat ((fun p => [ConfigOut p; Drive p true]) <$> led_table) ++ [Drive (S3C64XX_GPN 4) false]).
  split; [lazy -[app]; rewrite <- !app_assoc; reflexivity|]. unfold led_table. cbn [fmap list_fmap]. by rewrite !light_app.
Qed.

(** The tool reads its arguments in base 16 and the daemon writes them in base
    10: from ten on the numbers differ. *)
Lemma flash_count_in_base_16 h :
  led_main true (flash_argv 0 1 10) (mk_board h tt) = Some (0, mk_board (h ++ blinks 16 (Some (S3C64XX_GPN 4))) tt).
Proof.
  change (led_main true (flash_argv 0 1 10)) with (_ ← flash_loop 16 0 0 16; mret 0).
  by rewrite (bind_some _ _ _ _ _ (does_flash_loop 0 16 0 16 ltac:(lia) ltac:(lia) h)).
Qed.
