(* ===== verification/Upload.v ===== *)
(** * The uploader (src/src/upload)

    The daemon's messenger notification is a shell command that starts this
    program, which reads the family group from the file that the daemon writes
    and sends one HTTP request.  The theorem goes from the alarm to the
    request. *)

From stdpp Require Import base list strings.
From Stdlib Require Import ZArith Lia Ascii.
From S2P Require Import Prelude CString Sql DevState DevRegProps Sms Notify.

Open Scope Z_scope.

Definition WEB_REQUEST_URL (group_id type value : string) : string :=
  cat_all ["GET /upload.php?group_id="; group_id; "&type="; type; "&value="; value; " HTTP/1.1"; crlf;
    "Accept: text/html, application/xhtml+xml, */*"; crlf;
    "Accept-Language: zh-CN"; crlf;
    "User-Agent: Mozilla/5.0 (compatible; MSIE 9.0; Windows NT 6.1; Trident/5.0)"; crlf;
    "Accept-Encoding: gzip, deflate"; crlf;
    "Host: znjj.sinaapp.com"; crlf;
    "Connection: Keep-Alive"; crlf; crlf].

(** ** group.c *)

(** [line[strlen(line) - 2] = '\0'] *)
Definition cut_crlf (line : string) : option string :=
  let n := String.length line in
  if (2 <=? n)%nat then Some (String.substring 0 (n - 2) line) else None.

(** [ini]: the file of the family group; the text goes to a [char[1024]]. *)
Definition GetGroupID (ini : option string) : option (option string) :=
  match ini with
  | None => Some None
  | Some text =>
      match getline text with
      | None => Some None
      | Some (line, _) => line ← cut_crlf line; line ← fits 1024 line; Some (Some line)
      end
  end.

(** ** upload.c *)

(** How an attempt to connect ends. *)
Inductive outcome := NoSocket | NoTimeout | Refused | Connected.

(** The attempts made so far, the sockets that are open, what was sent. *)
Record uploader := mk_uploader { tries : nat; sockets : nat; requests : list string }.

Abbreviation up := (M uploader).

Section upload.
(** The address that the name service gives, the end of each attempt, and the
    server's answer. *)
Context (address : option string) (attempt : nat -> outcome) (answer : string).

(** True: a descriptor that is not negative. *)
Definition open_socket : up bool := fun w =>
  let w' := mk_uploader (S (tries w)) (sockets w) (requests w) in
  match attempt (tries w) with
  | NoSocket => Some (false, w')
  | NoTimeout => Some (false, mk_uploader (S (tries w)) (S (sockets w)) (requests w))
  | Refused => Some (false, w')
  | Connected => Some (true, mk_uploader (S (tries w)) (S (sockets w)) (requests w))
  end.

Definition send (text : string) : up unit := modify (fun w => mk_uploader (tries w) (sockets w) (requests w ++ [text])).
Definition close : up unit := modify (fun w => mk_uploader (tries w) (Nat.pred (sockets w)) (requests w)).

(** The [while] loop: false when the function returns in it. *)
Fixpoint connect_loop (fuel : nat) (sockfd : bool) (count : Z) : up bool :=
  match fuel with
  | O => ub
  | S fuel =>
      if sockfd then mret true
      else
        sockfd ← open_socket;
        if 4 <? count then mret false else connect_loop fuel sockfd (count + 1)
  end.

(** An answer that leaves no NUL in [url] cannot be printed. *)
Definition UploadToServer (ini : option string) (type value : string) : up unit :=
  group_id ← lift (GetGroupID ini);
  match group_id, address with
  | Some group_id, Some _ =>
      url ← lift (fits 1024 (WEB_REQUEST_URL group_id type value));
      sockfd ← open_socket;
      ok ← connect_loop 7 sockfd 0;
      if ok : bool then
        _ ← send url;
        _ ← lift (fits 1024 answer);
        close
      else mret tt
  | _, _ => mret tt
  end.

Definition upload_main (ini : option string) (argv : list string) : up Z :=
  match argv with
  | [_; type; value] => _ ← UploadToServer ini type value; mret 0
  | _ => mret (-1)
  end.

(** ** Attempts *)

(** The sockets that attempts [i .. i + n - 1] leave open: those whose
    time-out could not be set. *)
Fixpoint leaked (i n : nat) : nat :=
  match n with
  | O => 0
  | S n => (match attempt i with NoTimeout => 1 | _ => 0 end + leaked (S i) n)%nat
  end.

Lemma failed_attempt w : attempt (tries w) <> Connected ->
  open_socket w = Some (false, mk_uploader (S (tries w)) (sockets w + leaked (tries w) 1) (requests w)).
Proof. unfold open_socket. cbn. intros H. destruct (attempt (tries w)); try done; repeat f_equal; lia. Qed.

Lemma leaked_snoc i n : leaked i (S n) = (leaked i n + leaked (i + n) 1)%nat.
Proof. revert i. induction n as [|n IH]; intros i; [by rewrite Nat.add_0_r|]. change (leaked i (S (S n))) with (match attempt i with NoTimeout => 1 | _ => 0 end + leaked (S i) (S n))%nat.
  rewrite IH. cbn [leaked]. replace (S i + n)%nat with (i + S n)%nat by lia. lia. Qed.

(** A connection after [k] failures. *)
Lemma connect_loop_finds k fuel count w : (S k < fuel)%nat -> count + Z.of_nat k <= 4 ->
  (forall i, (tries w <= i < tries w + k)%nat -> attempt i <> Connected) -> attempt (tries w + k) = Connected ->
  connect_loop fuel false count w = Some (true, mk_uploader (S (tries w + k)) (S (sockets w + leaked (tries w) k)) (requests w)).
Proof.
  revert fuel count w. induction k as [|k IH]; intros fuel count w Hf Hc Hfail Hconn; (destruct fuel as [|fuel]; [lia|]);
    cbn [connect_loop].
  - rewrite Nat.add_0_r in Hconn. rewrite (bind_some _ _ _ true (mk_uploader (S (tries w)) (S (sockets w)) (requests w)))
      by (unfold open_socket; by rewrite Hconn).
    replace (4 <? count) with false by lia. destruct fuel as [|fuel]; [lia|]. cbn. by rewrite !Nat.add_0_r.
  - rewrite (bind_some _ _ _ _ _ (failed_attempt w ltac:(apply Hfail; lia))). replace (4 <? count) with false by lia.
    rewrite IH; [|lia|lia|intros i Hi; cbn [tries] in Hi; apply Hfail; lia|cbn [tries]; by rewrite Nat.add_succ_comm].
    cbn [tries sockets requests leaked]. rewrite Nat.add_succ_r. f_equal. f_equal. f_equal; lia.
Qed.

(** No connection before the last round, whose attempt is made for nothing. *)
Lemma connect_loop_gives_up k fuel count w : (S k < fuel)%nat -> count + Z.of_nat k = 5 ->
  (forall i, (tries w <= i < tries w + k)%nat -> attempt i <> Connected) ->
  exists n, connect_loop fuel false count w = Some (false, mk_uploader (S (tries w + k)) n (requests w)) /\
    (attempt (tries w + k) = Connected -> 0 < n)%nat.
Proof.
  revert fuel count w. induction k as [|k IH]; intros fuel count w Hf Hc Hfail; (destruct fuel as [|fuel]; [lia|]);
    cbn [connect_loop].
  - rewrite Nat.add_0_r. destruct (attempt (tries w)) eqn:Ea;
      [exists (sockets w)|exists (S (sockets w))|exists (sockets w)|exists (S (sockets w))];
      (split; [|intros; (done || lia)]); (erewrite bind_some by (unfold open_socket; rewrite Ea; reflexivity));
      by replace (4 <? count) with true by lia.
  - rewrite (bind_some _ _ _ _ _ (failed_attempt w ltac:(apply Hfail; lia))). replace (4 <? count) with false by lia.
    destruct (IH fuel (count + 1) (mk_uploader (S (tries w)) (sockets w + leaked (tries w) 1) (requests w))) as (n & E & Hn);
      [lia|lia|intros i Hi; cbn [tries] in Hi; apply Hfail; lia|].
    exists n. cbn [tries requests] in *. by rewrite Nat.add_succ_r.
Qed.
End upload.

(** ** From the alarm to the request *)

(** The first of seven attempts that connects, if it is one of the first six. *)
Definition first_connection (attempt : nat -> outcome) (k : nat) : Prop :=
  (k <= 5)%nat /\ attempt k = Connected /\ forall i, (i < k)%nat -> attempt i <> Connected.

Lemma upload_connects attempt answer address w ini id rest type value k :
  GetGroupID ini = Some (Some id) -> tries w = 0%nat -> first_connection attempt k ->
  (String.length (WEB_REQUEST_URL id type value) < 1024)%nat -> (String.length answer < 1024)%nat -> rest = sockets w ->
  UploadToServer (Some address) attempt answer ini type value w =
    Some (tt, mk_uploader (S k) (rest + leaked attempt 0 k) (requests w ++ [WEB_REQUEST_URL id type value])).
Proof.
  intros Hid Ht (Hk & Hc & Hfail) Hu Ha ->. unfold UploadToServer. rewrite Hid. rewrite (bind_some _ _ _ _ w eq_refl).
  rewrite (fits_ok _ _ Hu). rewrite (bind_some _ _ _ _ w eq_refl).
  destruct k as [|k].
  - rewrite (bind_some _ _ _ true (mk_uploader 1 (S (sockets w)) (requests w))) by (unfold open_socket; by rewrite Ht, Hc).
    rewrite (bind_some _ _ _ _ _ eq_refl). rewrite (fits_ok _ _ Ha). cbn. by rewrite Nat.add_0_r.
  - rewrite (bind_some _ _ _ _ _ (failed_attempt attempt w ltac:(rewrite Ht; apply Hfail; lia))).
    rewrite (bind_some _ _ _ _ _ (connect_loop_finds attempt k 7 0 (mk_uploader (S (tries w)) (sockets w + leaked attempt (tries w) 1) (requests w))
      ltac:(lia) ltac:(lia) ltac:(intros i Hi; cbn [tries] in Hi; apply Hfail; lia) ltac:(cbn [tries]; rewrite Ht; exact Hc))).
    rewrite (bind_some _ _ _ _ _ eq_refl), (fits_ok _ _ Ha), (bind_some _ _ _ _ _ eq_refl). unfold close, modify.
    cbn [tries sockets requests Nat.pred leaked]. rewrite Ht. do 3 f_equal; cbn [leaked]; lia.
Qed.

Lemma upload_gives_up attempt answer address w ini id type value :
  GetGroupID ini = Some (Some id) -> tries w = 0%nat -> (forall i, (i <= 5)%nat -> attempt i <> Connected) ->
  (String.length (WEB_REQUEST_URL id type value) < 1024)%nat ->
  exists n, UploadToServer (Some address) attempt answer ini type value w = Some (tt, mk_uploader 7 n (requests w)) /\
    (attempt 6%nat = Connected -> 0 < n)%nat.
Proof.
  intros Hid Ht Hfail Hu. unfold UploadToServer. rewrite Hid. rewrite (bind_some _ _ _ _ w eq_refl).
  rewrite (fits_ok _ _ Hu). rewrite (bind_some _ _ _ _ w eq_refl).
  rewrite (bind_some _ _ _ _ _ (failed_attempt attempt w ltac:(rewrite Ht; apply Hfail; lia))).
  destruct (connect_loop_gives_up attempt 5 7 0 (mk_uploader (S (tries w)) (sockets w + leaked attempt (tries w) 1) (requests w)))
    as (n & E & Hn); [lia|lia|intros i Hi; cbn [tries] in Hi; apply Hfail; lia|].
  exists n. rewrite (bind_some _ _ _ _ _ E). cbn [tries requests] in *. by rewrite Ht in *.
Qed.

(** The program reads the group that the daemon has stored. *)
Lemma group_of_daemon id text : one_line id -> GetGroupID (Some (id +:+ (crlf +:+ text))) = Some (Some id).
Proof.
  intros Hid. unfold GetGroupID. rewrite getline_crlf by done. unfold cut_crlf. rewrite length_app_s. cbn [String.length crlf].
  replace (2 <=? String.length id + 2)%nat with true by (symmetry; apply Nat.leb_le; lia).
  rewrite Nat.add_sub, substring_prefix. cbn [mbind option_bind]. destruct Hid as [_ Hl]. by rewrite fits_ok by lia.
Qed.

(** The words of the daemon's command. *)
Definition upload_argv (alarm : alarm_t) : list string := ["upload"; alarm_name alarm; alarm_value alarm].

(** Characters that are nothing but themselves to the shell, wherever they
    stand: letters, figures, some signs, and the bytes of other alphabets. *)
Definition plain (c : ascii) : bool :=
  let n := code c in
  ((48 <=? n) && (n <=? 57)) || ((65 <=? n) && (n <=? 90)) || ((97 <=? n) && (n <=? 122)) || (128 <=? n) || mem_char c "_-./:,%@+".

(** The argument vector of the program that the shell starts for a line of
    plain words with [&] at its end; [None] for any other line, of which
    nothing is said. *)
Definition sh_background (line : string) : option (list string) :=
  let n := String.length line in
  let words := String.substring 0 (n - 1) line in
  if String.eqb (String.substring (n - 1) 1 line) "&" && all_chars (fun c => plain c || Ascii.eqb " " c) words
  then Some (tokens " " words) else None.

Definition plain_word (s : string) : bool := match s with EmptyString => false | _ => all_chars plain s end.

Lemma plain_not_blank c : plain c = true -> Ascii.eqb " " c = false.
Proof. intros Hp. destruct (Ascii.eqb_spec " " c) as [<-|]; done. Qed.

Lemma plain_word_token s : plain_word s = true -> token_ok " " s = true.
Proof.
  destruct s as [|c s]; [done|]. unfold plain_word, token_ok. generalize (String c s). intros t. induction t as [|d t IH]; [done|].
  cbn [all_chars]. rewrite !andb_true_iff, negb_true_iff. intros [Hd Ht]. split; [by apply plain_not_blank|auto].
Qed.

Lemma plain_word_chars s : plain_word s = true -> all_chars (fun c => plain c || Ascii.eqb " " c) s = true.
Proof.
  destruct s as [|c s]; [done|]. unfold plain_word. generalize (String c s). intros t. induction t as [|d t IH]; [done|].
  cbn [all_chars]. rewrite !andb_true_iff, orb_true_iff. intros [Hd Ht]. split; [by left|auto].
Qed.

Lemma substring_last a b : String.substring (String.length a) (String.length b) (a +:+ b) = b.
Proof. induction a as [|c a IH]; [|exact IH]. cbn. induction b as [|d b IHb]; [done|]. cbn. by rewrite IHb. Qed.

Lemma sh_background_words words : words <> [] -> Forall (fun w => plain_word w = true) words ->
  sh_background (join " " words +:+ "&") = Some words.
Proof.
  intros Hne Hw. unfold sh_background. rewrite length_app_s. cbn [String.length]. rewrite Nat.add_sub, substring_prefix.
  pose proof (substring_last (join " " words) "&") as Hlast. cbn [String.length] in Hlast. rewrite Hlast, String.eqb_refl. cbn [andb]. rewrite tokens_join by (eapply Forall_impl; [exact Hw|]; intros w; apply plain_word_token).
  assert (all_chars (fun c => plain c || Ascii.eqb " " c) (join " " words) = true) as ->; [|done].
  clear Hne Hlast. induction Hw as [|w words Hword Hw IH]; [done|]. destruct words as [|w' words]; cbn [join]; [by apply plain_word_chars|].
  rewrite all_chars_app, plain_word_chars by done. exact IH.
Qed.

(** The family group in the file: the first that was stored. *)
Definition first_group `{Sqlite} (g : groupInfo_t) (s : dm_state) (id : string) : Prop :=
  match family_ini s with None => id = group_id g | Some text => exists rest, text = id +:+ (crlf +:+ rest) end.

(** C38: The uploader that the daemon starts for an alarm whose name and value
    are words of plain characters (the shell takes no other name for itself,
    see [name_reaches_shell]) sends one request, with the family group that was
    stored first and the name and value of the alarm, over the first of six
    attempts that connects, and closes that connection; what stays open are
    the sockets whose time-out could not be set.  When six attempts fail,
    nothing is sent, and a seventh is made whose connection is left open. *)
Theorem alarm_uploaded `{Sqlite} (g : groupInfo_t) (alarm : alarm_t) (s : dm_state) (id : string)
    (attempt : nat -> outcome) (answer address : string)
    (Hs : first_group g s id) (Hid : one_line id) (Hlines : one_line (group_id g) /\ one_line (group_name g))
    (Ha : plain_word (alarm_name alarm) = true) (Hv : plain_word (alarm_value alarm) = true)
    (Hcmd : (String.length (join " " (upload_argv alarm)) < 511)%nat)
    (Hurl : (String.length (WEB_REQUEST_URL id (alarm_name alarm) (alarm_value alarm)) < 1024)%nat)
    (Hanswer : (String.length answer < 1024)%nat) :
  exists s1 s2 line argv, SetFamilyGroupInfo g s = Some (true, s1) /\ InformUserByWechat alarm s1 = Some (tt, s2) /\
    out s2 = out s1 ++ [EvSystem line] /\ sh_background line = Some argv /\
    (forall k, first_connection attempt k ->
      upload_main (Some address) attempt answer (family_ini s2) argv (mk_uploader 0 0 []) =
        Some (0, mk_uploader (S k) (leaked attempt 0 k) [WEB_REQUEST_URL id (alarm_name alarm) (alarm_value alarm)])) /\
    ((forall i, (i <= 5)%nat -> attempt i <> Connected) ->
      exists n, upload_main (Some address) attempt answer (family_ini s2) argv (mk_uploader 0 0 []) = Some (0, mk_uploader 7 n []) /\
        (attempt 6%nat = Connected -> 0 < n)%nat).
Proof.
  set (argv := upload_argv alarm). set (text := default "" (family_ini s) +:+ (group_id g +:+ (crlf +:+ (group_name g +:+ crlf)))).
  exists (set_family (Some text) s), (set_out (out s ++ [EvSystem (join " " argv +:+ "&")]) (set_family (Some text) s)), (join " " argv +:+ "&"), argv.
  assert (GetGroupID (Some text) = Some (Some id)) as Hg.
  { unfold text, first_group in *. destruct (family_ini s) as [old|]; [destruct Hs as [rest ->]|subst id];
      cbn [default]; unfold Datatypes.id; cbn [String.append]; rewrite ?app_assoc_s; by apply group_of_daemon. }
  split; [|split; [|split; [done|split; [|split]]]].
  - unfold SetFamilyGroupInfo, SaveFamilyGroupInfo, sprintf. rewrite (bind_some _ _ _ (group_id g +:+ (crlf +:+ (group_name g +:+ crlf))) s); [done|].
    unfold lift. rewrite fits_ok; [done|]. rewrite !length_app_s. destruct Hlines as [[_ ?] [_ ?]]. cbn. lia.
  - unfold InformUserByWechat, sprintf.
    replace ("upload " +:+ (alarm_name alarm +:+ (" " +:+ (alarm_value alarm +:+ "&")))) with (join " " argv +:+ "&").
    + rewrite (bind_some _ _ _ (join " " argv +:+ "&") (set_family (Some text) s)); [done|].
      unfold lift. rewrite fits_ok; [done|]. rewrite length_app_s. cbn [String.length]. fold argv in Hcmd. lia.
    + unfold argv, upload_argv. cbn [join String.append]. by rewrite !app_assoc_s.
  - apply sh_background_words; [done|]. unfold argv, upload_argv. by repeat constructor.
  - intros k Hk. unfold upload_main, argv, upload_argv. cbn [family_ini set_family set_out].
    by rewrite (bind_some _ _ _ _ _ (upload_connects attempt answer address (mk_uploader 0 0 []) _ _ 0 _ _ k Hg eq_refl Hk Hurl Hanswer eq_refl)).
  - intros Hfail. unfold upload_main, argv, upload_argv. cbn [family_ini set_family set_out].
    destruct (upload_gives_up attempt answer address (mk_uploader 0 0 []) _ _ _ _ Hg eq_refl Hfail Hurl) as (n & E & Hn).
    exists n. by rewrite (bind_some _ _ _ _ _ E).
Qed.

Lemma alarm_uploaded_witness :
  let attempt i := match i with 0%nat => NoTimeout | 1%nat => Refused | _ => Connected end in
  exists s2 line argv, sh_background line = Some argv /\
    upload_main (Some "1.2.3.4") attempt "HTTP/1.1 200 OK" (family_ini (H := RefSqlite) s2) argv (mk_uploader 0 0 []) =
    Some (0, mk_uploader 3 1 [WEB_REQUEST_URL "17" "smoke" "53D1"]).
Proof.
  intros attempt.
  destruct (alarm_uploaded (H := RefSqlite) (mk_group "17" "home") (mk_alarm "smoke" "53D1" "" "") (sample_dm ∅) "17" attempt "HTTP/1.1 200 OK" "1.2.3.4"
    eq_refl ltac:(split; [reflexivity|vm_compute; lia]) ltac:(split; (split; [reflexivity|vm_compute; lia])) eq_refl eq_refl
    ltac:(vm_compute; lia) ltac:(vm_compute; lia) ltac:(vm_compute; lia))
    as (s1 & s2 & line & argv & _ & _ & _ & Hline & E & _).
  exists s2, line, argv. split; [exact Hline|]. apply (E 2%nat). split; [lia|]. split; [done|]. intros [|[|i]]; done || lia.
Defined.

(** A device's name goes to the shell as it is: a semicolon in it ends the
    uploader's command. *)
Lemma name_reaches_shell `{Sqlite} value s : (String.length value < 400)%nat ->
  let line := "upload a;reboot " +:+ (value +:+ "&") in
  InformUserByWechat (mk_alarm "a;reboot" value "" "") s = Some (tt, set_out (out s ++ [EvSystem line]) s) /\
  sh_background line = None.
Proof.
  intros Hl line. split.
  - unfold InformUserByWechat, sprintf. rewrite (bind_some _ _ _ line s); [done|]. unfold lift, line. rewrite fits_ok; [done|].
    cbn [alarm_name alarm_value]. rewrite !length_app_s. cbn [String.length]. lia.
  - unfold sh_background, line. destruct (String.eqb _ _); [|done]. cbn [andb]. change ("upload a;reboot " +:+ (value +:+ "&")) with ("upload a;r" +:+ ("eboot " +:+ (value +:+ "&"))).
    generalize ("eboot " +:+ (value +:+ "&")). intros t. cbn [String.append String.length Nat.sub String.substring all_chars].
    reflexivity.
Qed.

(** A host whose last attempt succeeds is connected to and forgotten. *)
Lemma seventh_connection_lost :
  let attempt i := if (i =? 6)%nat then Connected else Refused in
  UploadToServer (Some "1.2.3.4") attempt "" (Some ("17" +:+ crlf)) "a" "b" (mk_uploader 0 0 []) = Some (tt, mk_uploader 7 1 []).
Proof. reflexivity. Qed.

(** An answer as long as the buffer runs over it: [recv] may write 1500
    bytes. *)
Lemma long_answer_overflows answer : (1024 <= String.length answer)%nat ->
  UploadToServer (Some "1.2.3.4") (fun _ => Connected) answer (Some ("17" +:+ crlf)) "a" "b" (mk_uploader 0 0 []) = None.
Proof. intros Ha. unfold UploadToServer. cbn -[fits]. by rewrite (fits_overflow _ _ Ha). Qed.
