(* ===== verification/Login.v ===== *)
(** * The user service (src/src/user_manage/main.c)

    A server on port 2002: every connection sends one text with five fields,
    which a thread of its own prints and answers.  All threads work on one
    static record, which also holds the descriptor of the connection; so the
    file models the interleaving of the server with its threads. *)

From stdpp Require Import base list strings gmap.
From Stdlib Require Import ZArith Lia Ascii.
From S2P Require Import Prelude CString.

Open Scope Z_scope.

(** The fields of the text, with the sizes of their arrays. *)
Record new_loger := mk_loger {
  username : string;   (* char[20] *)
  password : string;   (* char[33] *)
  ip : string;         (* char[15] *)
  time : string;       (* char[20] *)
  type : string        (* char[10] *)
}.

(** ** The text of a client *)

(** [sprintf(field, "%s\0", strtok(buffer, "|"))]: a missing field is a null
    pointer, a long one runs over the array. *)
Definition next_field (size : nat) (buffer : string) : option (string * string) :=
  let '(t, rest) := strtok "|" buffer in
  t ← t; t ← fits size t; Some (t, rest).

(** [buffer]: what [read] put into [char buffer[100]]; all hundred characters
    leave no NUL for [strtok]. *)
Definition parse_login (buffer : string) : option new_loger :=
  buffer ← fits 100 buffer;
  '(username, buffer) ← next_field 20 buffer;
  '(password, buffer) ← next_field 33 buffer;
  '(ip, buffer) ← next_field 15 buffer;
  '(time, buffer) ← next_field 20 buffer;
  '(type, _) ← next_field 10 buffer;
  Some (mk_loger username password ip time type).

(** ** The server and its threads *)

(** A thread: started, or with the text it has read, or with its answer
    written. *)
Inductive stage := Started | HasRead (buffer : string) | Answered | Ended.

(** What a client sees. *)
Inductive event := Reply (fd : Z) (text : string) | Close (fd : Z).

(** [fd] of the static record; the open connections and what is still to be
    read from each; the threads in the order of their creation; the events. *)
Record server := mk_server {
  fd : Z;
  inbox : gmap Z (option string);
  threads : list stage;
  seen : list event;
  printed : list new_loger
}.

(** One round of the loop of [main]. *)
Definition accept (client : Z) (text : string) (s : server) : server :=
  mk_server client (<[client := Some text]> (inbox s)) (threads s ++ [Started]) (seen s) (printed s).

(** The next system call of thread [i] of [new_loger_handler], with what it
    computes before the one after it.  The descriptor is read from the record
    at every call.  A connection that has sent nothing more makes [read] wait;
    a closed one makes it fail and leave the buffer empty. *)
Inductive progress := Stuck | Undefined | Next (s : server).

Definition thread_step (i : nat) (s : server) : progress :=
  match threads s !! i with
  | Some Started =>
      match inbox s !! fd s with
      | Some (Some text) =>
          Next (mk_server (fd s) (<[fd s := None]> (inbox s)) (<[i := HasRead text]> (threads s)) (seen s) (printed s))
      | Some None => Stuck
      | None => Next (mk_server (fd s) (inbox s) (<[i := HasRead ""]> (threads s)) (seen s) (printed s))
      end
  | Some (HasRead buffer) =>
      match parse_login buffer with
      | Some l =>
          let e := if decide (is_Some (inbox s !! fd s)) then [Reply (fd s) "OK"] else [] in
          Next (mk_server (fd s) (inbox s) (<[i := Answered]> (threads s)) (seen s ++ e) (printed s ++ [l]))
      | None => Undefined
      end
  | Some Answered =>
      let e := if decide (is_Some (inbox s !! fd s)) then [Close (fd s)] else [] in
      Next (mk_server (fd s) (delete (fd s) (inbox s)) (<[i := Ended]> (threads s)) (seen s ++ e) (printed s))
  | _ => Stuck
  end.

Inductive action := Accept (client : Z) (text : string) | Step (i : nat).

Definition act (a : action) (s : server) : progress :=
  match a with Accept client text => Next (accept client text s) | Step i => thread_step i s end.

Fixpoint run (l : list action) (s : server) : progress :=
  match l with
  | [] => Next s
  | a :: l => match act a s with Next s => run l s | p => p end
  end.

Definition fresh : server := mk_server 0 ∅ [] [] [].

(** ** One text *)

(** A text of five fields, none of them empty. *)
Definition login_text (l : new_loger) : string := join "|" [username l; password l; ip l; time l; type l].

Definition login_ok (l : new_loger) : Prop :=
  Forall (fun f => token_ok "|" f = true) [username l; password l; ip l; time l; type l] /\
  (String.length (username l) < 20)%nat /\ (String.length (password l) < 33)%nat /\ (String.length (ip l) < 15)%nat /\
  (String.length (time l) < 20)%nat /\ (String.length (type l) < 10)%nat.

Lemma next_field_some n t rest : token_ok "|" t = true -> (String.length t < n)%nat ->
  next_field n (t +:+ String "|" rest) = Some (t, rest).
Proof. intros Ht Hn. unfold next_field. rewrite strtok_sep by done. cbn. by rewrite fits_ok. Qed.

Lemma next_field_long n t rest : token_ok "|" t = true -> (n <= String.length t)%nat -> next_field n (t +:+ String "|" rest) = None.
Proof. intros Ht Hn. unfold next_field. rewrite strtok_sep by done. cbn. by rewrite fits_overflow. Qed.

Lemma parse_login_text l : login_ok l -> parse_login (login_text l) = Some l.
Proof.
  intros (Hf & Hu & Hp & Hi & Ht & Hy). rewrite !Forall_cons in Hf. destruct Hf as (Fu & Fp & Fi & Ft & Fy & _).
  unfold parse_login, login_text. cbn [join]. rewrite fits_ok.
  - cbn [mbind option_bind]. rewrite next_field_some by done. cbn [mbind option_bind]. rewrite next_field_some by done.
    cbn [mbind option_bind]. rewrite next_field_some by done. cbn [mbind option_bind]. rewrite next_field_some by done.
    cbn [mbind option_bind]. unfold next_field. rewrite strtok_last by done. cbn. rewrite fits_ok by done. by destruct l.
  - repeat (rewrite length_app_s; cbn [String.length]). lia.
Qed.

(** An address of fifteen characters, such as 192.168.100.100, does not fit
    with its NUL. *)
Lemma parse_login_long_address l : Forall (fun f => token_ok "|" f = true) [username l; password l; ip l] ->
  (15 <= String.length (ip l))%nat -> parse_login (login_text l) = None.
Proof.
  rewrite !Forall_cons. intros (Fu & Fp & Fi & _) Hi. unfold parse_login, login_text. cbn [join].
  set (b := _ +:+ _). destruct (decide (String.length b < 100)%nat) as [Hb|]; [|by rewrite fits_overflow by lia].
  rewrite fits_ok by done. subst b. cbn [mbind option_bind].
  destruct (decide (String.length (username l) < 20)%nat).
  - rewrite next_field_some by done. cbn [mbind option_bind]. destruct (decide (String.length (password l) < 33)%nat).
    + rewrite next_field_some by done. cbn [mbind option_bind]. by rewrite next_field_long.
    + by rewrite next_field_long by (done || lia).
  - by rewrite next_field_long by (done || lia).
Qed.

(** ** One client after the other *)

(** A client is accepted and its thread runs to its end. *)
Definition serve (client : Z) (l : new_loger) (n : nat) : list action := [Accept client (login_text l); Step n; Step n; Step n].

Fixpoint serve_all (clients : list (Z * new_loger)) (n : nat) : list action :=
  match clients with
  | [] => []
  | (c, l) :: clients => serve c l n ++ serve_all clients (S n)
  end.

Lemma run_app l1 l2 s : run (l1 ++ l2) s = match run l1 s with Next s => run l2 s | p => p end.
Proof. revert s. induction l1 as [|a l1 IH]; intros s; [done|]. cbn. destruct (act a s); [done|done|apply IH]. Qed.

Lemma serve_run c l s : login_ok l -> exists s', run (serve c l (length (threads s))) s = Next s' /\
  length (threads s') = S (length (threads s)) /\ seen s' = seen s ++ [Reply c "OK"; Close c] /\ printed s' = printed s ++ [l].
Proof.
  intros Hl. unfold serve. cbn [run act]. unfold accept. unfold thread_step at 1. cbn [threads fd inbox].
  rewrite list_lookup_middle by done. rewrite lookup_insert_eq. unfold thread_step at 1. cbn [threads fd inbox seen printed].
  rewrite insert_app_r_alt, Nat.sub_diag by lia. cbn [insert list_insert]. rewrite list_lookup_middle by done.
  rewrite parse_login_text by done. rewrite lookup_insert_eq. rewrite decide_True by done.
  unfold thread_step. cbn [threads fd inbox seen printed]. rewrite insert_app_r_alt, Nat.sub_diag by lia. cbn [insert list_insert].
  rewrite list_lookup_middle by done. rewrite lookup_insert_eq. rewrite decide_True by done.
  eexists. split; [reflexivity|]. cbn [threads seen printed]. rewrite length_insert, length_app. cbn [length].
  split; [lia|]. split; [by rewrite <- app_assoc|done].
Qed.

Lemma serve_all_run clients s : Forall (fun x => login_ok (snd x)) clients ->
  exists s', run (serve_all clients (length (threads s))) s = Next s' /\
    seen s' = seen s ++ concat ((fun x => [Reply (fst x) "OK"; Close (fst x)]) <$> clients) /\
    printed s' = printed s ++ (snd <$> clients).
Proof.
  intros Hok. revert s. induction Hok as [|[c l] clients Hl Hok IH]; intros s; cbn [serve_all].
  { exists s. cbn. by rewrite !app_nil_r. }
  destruct (serve_run c l s Hl) as (s1 & E1 & Hn & He & Hp). destruct (IH s1) as (s2 & E2 & He2 & Hp2).
  exists s2. rewrite run_app, E1, <- Hn, E2. split; [done|]. rewrite He2, Hp2, He, Hp. cbn. by rewrite <- !app_assoc.
Qed.

(** ** Two clients at once *)

(** The connection that an event is about. *)
Definition about (e : event) : Z := match e with Reply fd _ | Close fd => fd end.

Lemma forgotten_step a i s s' : fd s <> a -> thread_step i s = Next s' ->
  fd s' <> a /\ exists es, seen s' = seen s ++ es /\ Forall (fun e => about e <> a) es.
Proof.
  intros Hfd. unfold thread_step. destruct (threads s !! i) as [[| | |]|]; try done.
  - destruct (inbox s !! fd s) as [[text|]|]; intros [= <-]; (split; [done|]); exists []; cbn; by rewrite app_nil_r.
  - destruct (parse_login buffer); [|done]. intros [= <-]. split; [done|]. eexists. split; [reflexivity|]. case_decide; by repeat constructor.
  - intros [= <-]. split; [done|]. eexists. split; [reflexivity|]. case_decide; by repeat constructor.
Qed.

(** A connection that the record no longer names is never heard of again. *)
Lemma forgotten a l s s' : fd s <> a -> Forall (fun x => match x with Accept c _ => c <> a | Step _ => True end) l -> run l s = Next s' ->
  exists es, seen s' = seen s ++ es /\ Forall (fun e => about e <> a) es.
Proof.
  intros Hfd Hl. revert s Hfd. induction Hl as [|x l Hx Hl IH]; intros s Hfd E; cbn in E.
  { injection E as <-. exists []. by rewrite app_nil_r. }
  destruct x as [c text|i]; cbn [act] in E.
  - exact (IH (accept c text s) Hx E).
  - destruct (thread_step i s) as [| |s1] eqn:Es; [done|done|]. apply (forgotten_step a) in Es as (Hf1 & es & He & Hes); [|done].
    destruct (IH _ Hf1 E) as (es2 & He2 & Hes2). exists (es ++ es2). rewrite He2, He, <- app_assoc. split; [done|]. by apply Forall_app.
Qed.

(** C39: Clients that come one after the other, with fields that fit, are
    answered and closed in their order, and their fields printed.  Of two
    clients that are accepted before the first one's thread has read, the first
    is never answered nor closed, whatever the threads do from then on; and
    when the thread that got the second one's text is done, the other reads
    from a closed connection and dies on a null pointer, and the service with it. *)
Theorem logins_one_at_a_time (clients : list (Z * new_loger)) (Hok : Forall (fun x => login_ok (snd x)) clients)
    (a b : Z) (la lb : new_loger) (Hab : a <> b) (Hb : login_ok lb) :
  (exists s, run (serve_all clients 0) fresh = Next s /\
    seen s = concat ((fun x => [Reply (fst x) "OK"; Close (fst x)]) <$> clients) /\ printed s = snd <$> clients) /\
  let both := [Accept a (login_text la); Accept b (login_text lb)] in
  (forall l s, Forall (fun x => match x with Accept c _ => c <> a | Step _ => True end) l ->
    run (both ++ l) fresh = Next s -> Forall (fun e => about e <> a) (seen s)) /\
  run (both ++ [Step 0; Step 0; Step 0; Step 1; Step 1]) fresh = Undefined.
Proof.
  split; [destruct (serve_all_run clients fresh Hok) as (s & E & He & Hp); by exists s|].
  intros both. split.
  - intros l s Hl E. rewrite run_app in E. cbn [run both act] in E. destruct (forgotten a l (accept b (login_text lb) (accept a (login_text la) fresh)) s (not_eq_sym Hab) Hl E) as (es & He & Hes).
    rewrite He. done.
  - unfold both, fresh. cbn [app run act]. unfold accept. cbn [threads inbox app].
    unfold thread_step at 1. cbn [threads lookup list_lookup fd inbox]. rewrite lookup_insert_eq.
    unfold thread_step at 1. cbn [threads lookup list_lookup fd inbox insert list_insert]. rewrite parse_login_text by done.
    unfold thread_step at 1. cbn [threads lookup list_lookup fd inbox insert list_insert].
    unfold thread_step at 1. cbn [threads lookup list_lookup fd inbox insert list_insert]. rewrite lookup_delete_eq.
    reflexivity.
Qed.

Definition sample_loger : new_loger := mk_loger "ann" "5f4dcc3b5aa765d61d8327deb882cf99" "192.168.1.20" "2014-01-01 10:00" "phone".

Lemma sample_loger_ok : login_ok sample_loger.
Proof. split; [repeat constructor|]. cbn. lia. Qed.

Lemma logins_one_at_a_time_witness :
  run [Accept 4 (login_text sample_loger); Accept 5 (login_text sample_loger); Step 0; Step 0; Step 0; Step 1; Step 1] fresh = Undefined.
Proof.
  apply (logins_one_at_a_time [(4, sample_loger)] ltac:(constructor; [exact sample_loger_ok|constructor]) 4 5 sample_loger sample_loger
    ltac:(done) sample_loger_ok).
Defined.
