(* ===== verification/Shortcut.v ===== *)
(** * The internet shortcut (src/src/internet_shortcut/internet_shortcut.c)

    When an SD card is inserted the program puts a link to the project's site
    on it, and replaces one that was changed. *)

From stdpp Require Import base list strings.
From Stdlib Require Import ZArith Lia Ascii.
From S2P Require Import Prelude CString Notify Sms.

Open Scope Z_scope.

Definition INTERNET_SHORTCUT_URL : string := "http://znjj.sinapp.com".
Definition INTERNET_SHORTCUT_CONTENT (url : string) : string :=
  cat_all ["[{000214A0-0000-0000-C000-000000000046}]"; crlf; "Prop3=19,2"; crlf; "[InternetShortcut]"; crlf;
    "URL="; url; crlf; "IDList="; crlf].
Definition MAX_LENGTH : nat := 512.
Definition ATTR_RDONLY : Z := 1.
Definition ATTR_ARCH : Z := 32.

(** The file of the card: its bytes and the mode it was last given. *)
Record card := mk_card { content : option (string * Z) }.

Abbreviation sd := (M card).

Section shortcut.
(** Whether the file can be opened to be read and to be written. *)
Context (readable writable : bool).

(** The text of an array up to its NUL. *)
Fixpoint c_string (s : string) : string :=
  match s with
  | String c s => if Ascii.eqb c "000" then "" else String c (c_string s)
  | EmptyString => ""
  end.

(** [fread] reads at most [MAX_LENGTH] bytes into an array of zeros; the text
    it is compared with ends within the array, so the comparison does too. *)
Definition isInternetShortCutExistAndUnModified (url : string) : sd bool :=
  fd ← gets content;
  match fd with
  | Some (bytes, _) =>
      if readable then
        let read_buffer := String.substring 0 MAX_LENGTH bytes in
        url_to_comp ← lift (fits MAX_LENGTH (INTERNET_SHORTCUT_CONTENT url));
        if String.eqb url_to_comp (c_string read_buffer) then mret true
        else _ ← put (mk_card None); mret false
      else mret false
  | None => mret false
  end.

Definition CreateInternetShortCut (url : string) : sd unit :=
  str_to_write ← lift (fits MAX_LENGTH (INTERNET_SHORTCUT_CONTENT url));
  if (MAX_LENGTH <? String.length str_to_write)%nat then mret tt
  else if writable then
    put (mk_card (Some (str_to_write, Z.lor ATTR_RDONLY ATTR_ARCH)))
  else mret tt.

Definition InternetShortCutCheck : sd unit :=
  ok ← isInternetShortCutExistAndUnModified INTERNET_SHORTCUT_URL;
  if ok : bool then mret tt else CreateInternetShortCut INTERNET_SHORTCUT_URL.

Definition shortcut_main : sd Z := _ ← InternetShortCutCheck; mret 0.

(** [removed]: the result of [remove]. *)
Definition InternetShortCutRemove (removed : Z) : sd Z :=
  f ← gets content;
  match f with
  | Some (bytes, _) => _ ← put (mk_card (if removed =? 0 then None else Some (bytes, ATTR_ARCH))); mret removed
  | None => mret 0
  end.

(** ** What is on the card afterwards *)

Definition wanted : string := INTERNET_SHORTCUT_CONTENT INTERNET_SHORTCUT_URL.

(** The file begins with the wanted text and, if it is longer, goes on with a
    NUL: what the check takes for unmodified. *)
Definition unmodified (c : card) : Prop :=
  exists bytes mode, content c = Some (bytes, mode) /\ c_string (String.substring 0 MAX_LENGTH bytes) = wanted.

Lemma check_run c : isInternetShortCutExistAndUnModified INTERNET_SHORTCUT_URL c =
  match content c with
  | Some (bytes, _) =>
      if readable then
        if String.eqb wanted (c_string (String.substring 0 MAX_LENGTH bytes)) then Some (true, c) else Some (false, mk_card None)
      else Some (false, c)
  | None => Some (false, c)
  end.
Proof.
  unfold isInternetShortCutExistAndUnModified. rewrite (bind_some _ _ _ _ c eq_refl). destruct (content c) as [[bytes mode]|]; [|done].
  destruct readable; [|done]. rewrite (bind_some _ _ _ wanted c) by reflexivity. by destruct (String.eqb _ _).
Qed.

Lemma create_run c : CreateInternetShortCut INTERNET_SHORTCUT_URL c = Some (tt, if writable then mk_card (Some (wanted, 33)) else c).
Proof. unfold CreateInternetShortCut. rewrite (bind_some _ _ _ wanted c) by reflexivity. by destruct writable. Qed.

Lemma wanted_is_text : c_string (String.substring 0 MAX_LENGTH wanted) = wanted.
Proof. reflexivity. Qed.
End shortcut.

(** After the check of a card that can be read and written the file is
    what the program wants: a file that was so already is left as it was, any
    other file, or none, is replaced by exactly the wanted bytes; a second
    check changes nothing.  On a card that cannot be written a changed file is
    removed and nothing takes its place.  After the removal there is no file. *)
Theorem shortcut_restored (c : card) :
  (exists c', InternetShortCutCheck true true c = Some (tt, c') /\ unmodified c' /\
    (unmodified c -> c' = c) /\ (~ unmodified c -> content c' = Some (wanted, Z.lor ATTR_RDONLY ATTR_ARCH)) /\
    InternetShortCutCheck true true c' = Some (tt, c')) /\
  (~ unmodified c -> content c <> None -> InternetShortCutCheck true false c = Some (tt, mk_card None)) /\
  InternetShortCutRemove 0 c = Some (0, mk_card None).
Proof.
  assert (unmodified c \/ ~ unmodified c) as Hdec.
  { unfold unmodified. destruct (content c) as [[bytes mode]|]; [|right; by intros (? & ? & ? & _)].
    destruct (String.eqb_spec (c_string (String.substring 0 MAX_LENGTH bytes)) wanted); [left; by exists bytes, mode|right].
    by intros (? & ? & [= <- <-] & ?). }
  assert (forall w, ~ unmodified c -> InternetShortCutCheck true w c =
    CreateInternetShortCut w INTERNET_SHORTCUT_URL (mk_card None)) as Hmod.
  { intros w Hn. unfold InternetShortCutCheck. unfold mbind, M_bind. rewrite check_run.
    destruct c as [[[bytes mode]|]]; cbn [content] in *; [|done].
    destruct (String.eqb_spec wanted (c_string (String.substring 0 MAX_LENGTH bytes))) as [E|E]; [|done].
    destruct Hn. by exists bytes, mode. }
  assert (forall c', unmodified c' -> InternetShortCutCheck true true c' = Some (tt, c')) as Hsame.
  { intros c' (bytes & mode & Hc & E). unfold InternetShortCutCheck, mbind, M_bind. rewrite check_run, Hc, E. by rewrite String.eqb_refl. }
  split; [|split].
  - destruct Hdec as [Hu|Hn].
    + exists c. rewrite Hsame by done. done.
    + exists (mk_card (Some (wanted, 33))). rewrite Hmod, create_run by done.
      assert (unmodified (mk_card (Some (wanted, 33)))) as Hw by (exists wanted, 33; split; [done|apply wanted_is_text]).
      rewrite Hsame by done. done.
  - intros Hn _. by rewrite Hmod, create_run.
  - destruct c as [[[bytes mode]|]]; done.
Qed.

Lemma shortcut_restored_witness :
  InternetShortCutCheck true false (mk_card (Some ("[InternetShortcut]", 32))) = Some (tt, mk_card None).
Proof.
  apply (shortcut_restored (mk_card (Some ("[InternetShortcut]", 32)))); [|done]. intros (bytes & mode & [= <- <-] & E). vm_compute in E. discriminate E.
Defined.
