(* ===== verification/Services.v ===== *)
(** * Small services (src/src/net_manage, src/src/timer_manage,
      src/src/data_transport)

    The answer to "who is famint server?" on UDP port 8888 and the text of a
    hardware address; the clock of the timer program; the temperature server
    on port 2000, which reads the humidity sensor's device file. *)

From stdpp Require Import base list strings.
From Stdlib Require Import ZArith Lia Ascii.
From S2P Require Import Prelude CString Calendar Gpio Dht11.

Open Scope Z_scope.

(** ** net_manage/mac_helper.c *)

(** [hwaddr]: the six bytes of the interface's address, or nothing when the
    socket or the [ioctl] fails. *)
Definition getLocalMac (hwaddr : option (list Z)) : option (Z * string) :=
  match hwaddr with
  | None => Some (-1, "")
  | Some sa_data =>
      bytes ← mapM (fun i => sa_data !! i) (seq 0 6);
      Some (0, join ":" (fmt_X_prec 2 <$> bytes))
  end.

(** ** net_manage/main.c *)

Definition RESPONSE_MSG : string := "I am famint server!".
Definition REQUEST_MSG : string := "who is famint server?".

(** [printf(s)] without arguments: defined when every [%] is followed by
    another one. *)
Fixpoint plain_format (s : string) : bool :=
  match s with
  | EmptyString => true
  | String c s1 =>
      if Ascii.eqb c "%" then match s1 with String d s2 => Ascii.eqb d "%" && plain_format s2 | EmptyString => false end
      else plain_format s1
  end.

(** One round of the loop of [NetworkManagerThread]: the answer to a datagram.
    Of a long datagram [recvfrom] keeps 255 bytes; [printf] and [strstr] need
    a NUL behind them. *)
Definition NetworkManagerThread_round (datagram : string) : option (option string) :=
  match datagram with
  | EmptyString => Some None
  | _ =>
      recvData ← fits 255 (String.substring 0 255 datagram);
      if plain_format recvData then
        match strstr recvData REQUEST_MSG with Some _ => Some (Some RESPONSE_MSG) | None => Some None end
      else None
  end.

(** ** timer_manage *)

(** ["%.4d-%.2d-%.2d %.2d:%.2d:%.2d"] *)
Definition fmt_seconds (t : tm) (sec : Z) : string := fmt_time t +:+ (":" +:+ fmt_d_prec 2 sec).

(** [z]: the time in seconds; [size]: the size of the caller's array. *)
Definition GetCurrentTime_s (tz z : Z) (size : nat) : option string := fits size (fmt_seconds (localtime tz z) ((z + tz) mod 60)).

(** [current_time] is [char[15]]. *)
Definition timer_main (tz z : Z) : option string := GetCurrentTime_s tz z 15.

(** ** data_transport *)

(** [wenduValue] as a text, in [char buffer[100]]. *)
Definition sensor_text (wenduValue : list Z) : option string :=
  v2 ← wenduValue !! 2%nat; v3 ← wenduValue !! 3%nat; v0 ← wenduValue !! 0%nat;
  fits 100 (cat_all ["[{wendu:"; dq; fmt_d (v2 * 10 + v3 / 100); dq; ",shidu:"; dq; fmt_d v0; dq; "}]"]).

(** The server's five bytes and the text in the shared memory (a page). *)
Record station := mk_station { wenduValue : list Z; shm : string }.

(** The reading at the start of a round of the server's loop; [r]: what
    [read] leaves in the array, and its result. *)
Definition station_read (r : list Z * Z) (st : station) : option station :=
  if 0 <? snd r then
    buffer ← sensor_text (fst r); buffer ← fits 4096 buffer; Some (mk_station (fst r) buffer)
  else Some (mk_station (fst r) (shm st)).

(** What a child sends in a round of its loop, from [char sendString[40]]. *)
Definition child_send (st : station) : option string := fits 40 (shm st).

(** The child's loop: each round with the shared memory as it is then and the
    result of its [send]; it ends when that is -1.  [i] is not set before the
    loop: its first value is whatever the variable holds. *)
Fixpoint child_loop (i : Z) (rounds : list (station * Z)) : option (list string) :=
  match rounds with
  | [] => Some []
  | (st, result) :: rounds =>
      if i =? -1 then Some []
      else sendString ← child_send st; rest ← child_loop result rounds; Some (sendString :: rest)
  end.

(** A client whose child finds -1 in the variable gets nothing. *)
Lemma child_silent rounds : child_loop (-1) rounds = Some [].
Proof. by destruct rounds as [|[st result] rounds]. Qed.

(** ** Hardware addresses *)

Lemma fmt_X_byte z : byte_range z -> exists c d, fmt_X_prec 2 z = String c (String d "") /\
  strtol (String c (String d "")) 16 = z /\ token_ok ":" (String c (String d "")) = true.
Proof.
  intros Hz. unfold byte_range in Hz. rewrite (fmt_X_fixed 1) by (simpl; lia). cbn [fixed_digits].
  exists (digit_char (z / 16 mod 16)), (digit_char (z mod 16)). split; [done|].
  assert (0 <= z / 16 mod 16 < 16 /\ 0 <= z mod 16 < 16) as [H1 H2] by (split; apply Z.mod_pos_bound; lia). split.
  - rewrite strtol_hex_byte by done. rewrite (Z.mod_small (z / 16)) by (Z.to_euclidean_division_equations; lia).
    pose proof (Z.div_mod z 16). lia.
  - assert (forall d, 0 <= d < 16 -> (":" =? digit_char d)%char = false) as Hd.
    { intros d Hd. destruct (Ascii.eqb_spec ":" (digit_char d)) as [E|]; [|done].
      pose proof (is_hex_digit_char d Hd) as Hx. by rewrite <- E in Hx. }
    cbn [token_ok all_chars]. by rewrite !Hd.
Qed.

Lemma hex_fields bytes : Forall byte_range bytes ->
  Forall (fun t => token_ok ":" t = true) (fmt_X_prec 2 <$> bytes) /\ (fun t => strtol t 16) <$> (fmt_X_prec 2 <$> bytes) = bytes /\
  Forall (fun t => String.length t = 2%nat) (fmt_X_prec 2 <$> bytes).
Proof.
  induction 1 as [|z bytes Hz Hb (IH1 & IH2 & IH3)]; [done|]. destruct (fmt_X_byte z Hz) as (c & d & E & Es & Et).
  cbn [fmap list_fmap]. rewrite E, IH2, Es. by repeat constructor.
Qed.

(** ** The discovery service *)

Lemma plain_chars s : all_chars (fun c => negb (Ascii.eqb c "%")) s = true -> plain_format s = true.
Proof.
  induction s as [|c s IH]; [done|]. cbn. intros [Hc Hs]%andb_prop. apply negb_true_iff in Hc. rewrite Hc. by apply IH.
Qed.

Lemma substring_all n s : (String.length s <= n)%nat -> String.substring 0 n s = s.
Proof. revert n. induction s as [|c s IH]; intros [|n] Hn; cbn in *; try done; [lia|]. by rewrite IH by lia. Qed.

Lemma percent_not_plain a c s : all_chars (fun c => negb (Ascii.eqb c "%")) a = true -> c <> "%"%char ->
  plain_format (a +:+ String "%" (String c s)) = false.
Proof.
  induction a as [|x a IH]; intros Ha Hc.
  - cbn. destruct (Ascii.eqb_spec c "%") as [->|]; done.
  - cbn in Ha. apply andb_prop in Ha as [Hx Ha]. apply negb_true_iff in Hx. cbn [String.append plain_format]. rewrite Hx. by apply IH.
Qed.

(** A datagram shorter than the buffer and without a percent sign is
    answered exactly when it contains the question; one of 255 bytes or more,
    or with a conversion in it, is undefined: it is the format of a [printf]
    without arguments.  The text of a hardware address has 17 characters, and
    its six fields read back as the bytes of the address. *)
Theorem discovery_answered (datagram : string) :
  (String.length datagram < 255)%nat -> all_chars (fun c => negb (Ascii.eqb c "%")) datagram = true ->
  NetworkManagerThread_round datagram =
    Some (match strstr datagram REQUEST_MSG with Some _ => Some RESPONSE_MSG | None => None end) /\
  (forall c s, c <> "%"%char -> NetworkManagerThread_round (datagram +:+ String "%" (String c s)) = None) /\
  (forall s, (255 <= String.length (datagram +:+ s))%nat -> NetworkManagerThread_round (datagram +:+ s) = None) /\
  forall bytes, Forall byte_range bytes -> length bytes = 6%nat ->
    exists mac, getLocalMac (Some bytes) = Some (0, mac) /\ String.length mac = 17%nat /\
      (fun t => strtol t 16) <$> tokens ":" mac = bytes.
Proof.
  intros Hl Hp. assert (forall s, (255 <= String.length s)%nat -> NetworkManagerThread_round s = None) as Hlong.
  { intros s Hs. unfold NetworkManagerThread_round. destruct s as [|c s]; [cbn in Hs; lia|].
    rewrite fits_overflow; [done|]. clear -Hs. revert Hs. generalize 255%nat as n, (String c s) as t. induction n as [|n IH]; intros t Ht; [lia|].
    destruct t as [|x t]; [cbn in Ht; lia|]. cbn in *. specialize (IH t). lia. }
  split; [|split; [|split]].
  - unfold NetworkManagerThread_round. destruct datagram as [|c s] eqn:Ed; [done|]. rewrite <- Ed in *.
    rewrite substring_all by lia. rewrite fits_ok by done. cbn [mbind option_bind]. rewrite plain_chars by done. by destruct (strstr _ _).
  - intros c s Hc. set (d := datagram +:+ _). destruct (decide (String.length d < 255)%nat) as [Hd|Hd]; [|apply Hlong; lia].
    unfold NetworkManagerThread_round. rewrite substring_all by lia. rewrite fits_ok by done. cbn [mbind option_bind].
    unfold d. rewrite percent_not_plain by done. by destruct (datagram +:+ _) eqn:E; [destruct datagram|].
  - intros s. apply Hlong.
  - intros bytes Hb Hn. destruct bytes as [|b0 [|b1 [|b2 [|b3 [|b4 [|b5 [|]]]]]]]; try done.
    destruct (hex_fields _ Hb) as (Ht & Hv & Hlen). eexists. split; [reflexivity|]. split.
    + cbn [fmap list_fmap] in *. rewrite !Forall_cons in Hlen. destruct Hlen as (L0 & L1 & L2 & L3 & L4 & L5 & _). cbn [join].
      repeat (rewrite length_app_s || rewrite L0 || rewrite L1 || rewrite L2 || rewrite L3 || rewrite L4 || rewrite L5 || cbn [String.length]). done.
    + rewrite tokens_join by done. exact Hv.
Qed.

Lemma discovery_answered_witness :
  NetworkManagerThread_round "who is famint server?" = Some (Some RESPONSE_MSG) /\ NetworkManagerThread_round "%s" = None.
Proof.
  split.
  - exact (proj1 (discovery_answered "who is famint server?" ltac:(cbn; lia) eq_refl)).
  - exact (proj1 (proj2 (discovery_answered "" ltac:(cbn; lia) eq_refl)) "s"%char "" ltac:(done)).
Defined.

(** ** The clock of the timer program *)

Lemma fmt_d_prec_at_least p n : (p <= String.length (fmt_d_prec p n))%nat.
Proof.
  assert (forall k, String.length (zeros k) = k) as Hz by (induction k as [|k IH]; [done|cbn; by rewrite IH]).
  unfold fmt_d_prec, pad_left. destruct (n <? 0); cbn [String.length]; rewrite length_app_s, Hz; lia.
Qed.

(** Nineteen characters do not fit into an array of fifteen: the program
    overruns [current_time] whenever it starts. *)
Lemma timer_program_overflows tz z : timer_main tz z = None.
Proof.
  unfold timer_main, GetCurrentTime_s. apply fits_overflow. unfold fmt_seconds, fmt_time. set (t := localtime tz z).
  repeat (rewrite length_app_s; cbn [String.length]). pose proof (fmt_d_prec_at_least 4 (1900 + tm_year t)). pose proof (fmt_d_prec_at_least 2 (1 + tm_mon t)).
  pose proof (fmt_d_prec_at_least 2 (tm_mday t)). pose proof (fmt_d_prec_at_least 2 (tm_hour t)).
  pose proof (fmt_d_prec_at_least 2 (tm_min t)). pose proof (fmt_d_prec_at_least 2 ((z + tz) mod 60)). lia.
Qed.

(** ** The temperature server and the humidity driver *)

Lemma byte_of_range l : length l = 8%nat -> byte_range (byte_of l).
Proof.
  intros H. destruct l as [|b0 [|b1 [|b2 [|b3 [|b4 [|b5 [|b6 [|b7 [|]]]]]]]]]; try done. unfold byte_of, byte_range. cbn [foldl].
  destruct b0, b1, b2, b3, b4, b5, b6, b7; cbn; lia.
Qed.

Lemma five_bytes_range n l : length l = (8 * n)%nat -> Forall byte_range (bytes_of n l) /\ length (bytes_of n l) = n.
Proof.
  revert l. induction n as [|n IH]; intros l Hl; [done|]. cbn [bytes_of]. destruct (IH (drop 8 l)) as [H1 H2]; [rewrite length_drop; lia|].
  split; [constructor; [apply byte_of_range; rewrite length_take; lia|done]|]. cbn [length]. by rewrite H2.
Qed.

Lemma u8_add_l a b : u8 (u8 a + b) = u8 (a + b).
Proof. apply Zplus_mod_idemp_l. Qed.

(** The text for the five bytes of a reading. *)
Definition reading_text (v0 v2 v3 : Z) : string :=
  cat_all ["[{wendu:"; dq; fmt_d (v2 * 10 + v3 / 100); dq; ",shidu:"; dq; fmt_d v0; dq; "}]"].

Lemma reading_text_short v0 v2 v3 : byte_range v0 -> byte_range v2 -> byte_range v3 -> (String.length (reading_text v0 v2 v3) < 40)%nat.
Proof.
  unfold byte_range. intros H0 H2 H3. unfold reading_text, cat_all. cbn [foldr].
  pose proof (fmt_d_short 3 v0 ltac:(lia) ltac:(lia)). pose proof (fmt_d_short 4 (v2 * 10 + v3 / 100) ltac:(lia) ltac:(Z.to_euclidean_division_equations; lia)).
  repeat (rewrite length_app_s; cbn [String.length]). unfold dq. cbn [String.length]. lia.
Qed.

(** C37: What the temperature server sends is what the humidity sensor
    signals: when the pulses keep their times and the checksum is right, the
    text of the clients is that of the five bytes, fits the arrays on its way,
    and tells ten times the temperature (a child sends it in every round, if
    its variable does not hold -1 at first); with a wrong checksum the server goes
    on with the text it had. *)
Theorem humidity_served r0 r1 bits e (level : list (event data_pin) -> bool) b (st : station)
    (Hlevel : forall h, level h = wave (signal r0 r1 bits e) (since h))
    (H0 : 0 <= r0 <= 90000) (H1 : 10000 <= r1 <= 90000) (Hbits : Forall timed bits) (Hlen : length bits = 40%nat) (He : 5000 <= e)
    (Hbuf : length (wenduValue st) = 5%nat) :
  let bytes := bytes_of 5 (fst <$> bits) in
  exists v0 v1 v2 v3 v4 r b', bytes = [v0; v1; v2; v3; v4] /\ DHT11_read level (wenduValue st) 5 true b = Some (r, b') /\
    if u8 (v0 + v1 + v2 + v3) =? v4
    then station_read r st = Some (mk_station bytes (reading_text v0 v2 v3)) /\
         child_send (mk_station bytes (reading_text v0 v2 v3)) = Some (reading_text v0 v2 v3) /\
         (forall i results, i <> -1 -> Forall (fun r => r <> -1) results ->
           child_loop i (pair (mk_station bytes (reading_text v0 v2 v3)) <$> results) = Some (const (reading_text v0 v2 v3) <$> results))
    else station_read r st = Some st.
Proof.
  intros bytes. destruct (five_bytes_range 5 (fst <$> bits)) as [Hr Hl]; [by rewrite length_fmap|].
  destruct (DHT11_read_signal r0 r1 bits e level b (wenduValue st) 5 true Hlevel H0 H1 Hbits Hlen He) as (b' & E). fold bytes in Hr, Hl, E.
  destruct bytes as [|v0 [|v1 [|v2 [|v3 [|v4 [|]]]]]] eqn:Eb; try done. rewrite !Forall_cons in Hr. destruct Hr as (R0 & R1 & R2 & R3 & R4 & _).
  exists v0, v1, v2, v3, v4. eexists _, _. split; [done|]. split; [exact E|]. unfold reading. cbn [take foldl].
  replace (u8 (u8 (u8 (u8 (0 + v0) + v1) + v2) + v3)) with (u8 (v0 + v1 + v2 + v3))
    by (rewrite (u8_add_l (0 + v0) v1), (u8_add_l _ v2), u8_add_l; by rewrite Z.add_0_l).
  change ([v0; v1; v2; v3; v4] !!! 4%nat) with v4. pose proof (reading_text_short v0 v2 v3 R0 R2 R3) as Hs.
  destruct (u8 (v0 + v1 + v2 + v3) =? v4).
  - change (Z.to_nat (Z.min 5 5)) with 5%nat. cbn [take drop app]. rewrite (drop_ge (wenduValue st)) by lia. split.
    + unfold station_read. cbn [snd fst Z.ltb]. change (0 <? Z.min 5 5) with true. cbv iota. unfold sensor_text. cbn [lookup list_lookup mbind option_bind].
      fold (reading_text v0 v2 v3). rewrite fits_ok by lia. cbn [mbind option_bind]. by rewrite fits_ok by lia.
    + unfold child_send. cbn [shm]. split; [by rewrite fits_ok|]. intros i results Hi Hres. revert i Hi.
      induction Hres as [|r results Hr Hres IH]; intros i Hi; [done|]. cbn [fmap list_fmap child_loop]. unfold child_send at 1. cbn [shm].
      destruct (Z.eqb_spec i (-1)); [done|]. rewrite fits_ok by done. cbn [mbind option_bind]. by rewrite IH.
  - by destruct st.
Qed.

Lemma humidity_served_witness :
  let level h := wave (signal 80000 80000 (sheet [50; 0; 24; 0; 74]) 50000) (since h) in
  exists r b', DHT11_read level [0; 0; 0; 0; 0] 5 true (mk_board [] tt) = Some (r, b') /\
    station_read r (mk_station [0; 0; 0; 0; 0] "") = Some (mk_station [50; 0; 24; 0; 74] (reading_text 50 24 0)).
Proof.
  cbv zeta.
  destruct (humidity_served 80000 80000 (sheet [50; 0; 24; 0; 74]) 50000 _ (mk_board [] tt) (mk_station [0; 0; 0; 0; 0] "") (fun h => eq_refl))
    as (v0 & v1 & v2 & v3 & v4 & r & b' & Eb & E & H); [lia | lia | | reflexivity | lia | reflexivity |].
  { repeat (constructor; [vm_compute; intuition discriminate|]). constructor. }
  vm_compute in Eb. injection Eb as <- <- <- <- <-. exists r, b'. split; [exact E|]. exact (proj1 H).
Defined.
